(* ===== verification/_CoqProject ===== *)
-Q . S2P
Prelude.v
Abi.v
AbiTruth.v
Platform.v
Frame.v
Trace.v
Sim.v
IoSpec.v
PciConfig.v
PciConfigSpec.v
Blackhole.v
BlackholeSpec.v
QueueSpec.v
Iatu.v
IatuSpec.v
Tlb.v
Memory.v
TlbSpec.v
Ledger.v
MemorySpec.v
Locks.v
LocksSpec.v
Power.v
PowerSpec.v
Telemetry.v
TelemetrySpec.v
Reset.v
Ioctl.v
Device.v
Driver.v
Balance.v
Handles.v
System.v
ArcSpec.v
MapSpec.v
RequestSpec.v
IoctlSpec.v
ResetSpec.v
Compat.v
CompatSpec.v
DriverSpec.v
PnpSpec.v
TypeSpec.v
LockOrder.v
PowerRace.v
