(* ===== verification/Prelude.v ===== *)
(** * tt-win-kmd, verified

    A shallow embedding of the Windows kernel-mode driver for Tenstorrent
    Blackhole cards (src/src/driver), of the request structures it shares with
    user mode (src/src/include) and of the POSIX-shaped user-mode shim
    (src/src/ttwin_compat), with the theorems that make them correct.

    ** The program and the model

    The driver is a set of callbacks that the framework (WDF) and the kernel
    call: device add and start, handle create and cleanup, one request entry in
    the caller's context and one from the default queue, power and removal
    callbacks, the process-exit callback and a work item.  They share one
    TT_DEVICE_CONTEXT per card.  A C function that reads and writes that state
    is a value of the state monad [ST World A]; the guards, the order of the
    calls and the failure paths are those of the code.  The kernel, the
    framework, the bus and the card are the class [Platform]: its operations
    are the calls the driver makes, and every call that matters to a theorem
    also appends an [Event] to the trace [w_trace] (newest first).  What a
    theorem relies on of the platform is a law class of its own ([PoolLaws]:
    a pool block is not one in use; [QueueLaws]: the wait queue is a queue;
    [ConfigLaws]: configuration space keeps what it is; [ClockLaws]: the
    interrupt clock does not run backwards and a delay takes its time); [sim]
    in Sim.v is a concrete platform that satisfies them all, on which the
    concrete instances run.  The shim's counterpart is the class [Win32].

    Integers are [Z]; the width is written out where the C type wraps ([wrap32],
    [wrap64], [signed64]).  Structures that cross the request buffer are byte
    lists with the x64 layout computed from their declarations (Abi.v).

    ** Files

    - Prelude: machine integers, the state monad and its loops, relational
      ([Steps]) and pre/post ([Hoare]) specifications, sums over maps and lists.
    - Abi: ttkmd_ioctl.h, ttkmd_debug.h, ttkmd_abi_check.h, constants of
      ttkmd.h: structures, layouts, control codes, the static assertions.
      AbiTruth: tools/abi_ground_truth.c and its recorded output.
    - Platform: ttkmd.h's structures, [World], [Platform], requests
      (TtCopyInBuffer, TtCompleteSizedOutBuffer).
    - Frame, Trace: one footprint lemma and one event lemma per operation (what
      it may change, what it may do to the outside); the invariants use them
      through hint databases.  Sim: the simulated platform.
    - PciConfig: reset.c, configuration access, capability walk, save and
      restore.  Blackhole: blackhole.c, windows, iATU registers, NOC access, the
      ARC message queue, telemetry probe, reset and init sequences.
    - Iatu, Tlb, Memory: memory.c, the outbound-region allocator, the TLB window
      pool, DMA buffers, mappings, pinnings and their clean-up.
    - Locks: locks.c.  Power: power.c.  Telemetry: QUERY_TELEMETRY of
      blackhole.c; TelemetrySpec: what its reply holds.  Reset: reset.c.  Ioctl: ioctl.c.  Device, Driver: device.c
      and driver.c.  Compat: ttwin_compat.c.
    - Ledger: the accounts of resources (what the trace says is owned against
      what the state records).  IoSpec, PciConfigSpec, BlackholeSpec, QueueSpec,
      IatuSpec, TlbSpec, MemorySpec, LocksSpec, PowerSpec, MapSpec, IoctlSpec,
      ResetSpec: the theorems of each component.
    - Balance, Handles, System: the whole device as a transition system
      ([step], [reachable]) and its invariants.  ArcSpec, RequestSpec: loops end,
      requests are settled.  DriverSpec: the driver over all its devices and
      the process exit.  PnpSpec: start and stop.  TypeSpec: the types of
      the state.  LockOrder: the order of the locks.  PowerRace: concurrent power
      aggregation, interleaved inside the entry points.  CompatSpec: the interface
      names across driver and shim, and the life of a shim handle.

    ** What the theorems show

    - Device-wide invariants, in every reachable state and under every
      interleaving of entry points: a lock has one holder and the two bitmaps
      agree; every resource acquired from the platform is recorded in the state
      and every recorded one is owned, so nothing is freed twice and nothing is
      owned that no structure knows of (a failed create leaves its process
      reference in a context that is never cleaned up); after the last close nothing is left; views and pinnings keep
      their DMA buffer alive; windows belong to open handles; apertures are
      disjoint; the DMA quota holds; no polling loop is cut off; every field
      keeps the range of its C type and every stored index is valid; the kernel
      mappings and the bus interface held are those recorded, none while the
      device is stopped.
    - Locking: every entry point takes its locks in one order and releases them
      last-in first-out, so no set of entry points can wait for each other.
    - Concurrent power aggregation, interleaved between the reads and stores of
      single fields, ends with the aggregate of what is there recorded; the
      message the firmware sees last may be an older one.
    - Requests: each is settled exactly once, on every path and in the face of
      resets, closes and removal; a request on a stale handle, after removal or
      during a reset has no effect; the sized-output protocol stays inside the
      buffer.
    - Replies: QUERY_TELEMETRY fills each field of its reply from the tags it
      names, marks exactly the fields it could read, and leaves the rest zero.
    - Refinement and equivalence: LOCK_CTL implements a table of owners; the
      iATU search finds the best fit; the power aggregate is the union of the
      flags and the maximum of the settings.
    - Confinement and ordering: MAP reaches only the pages of its target; the
      aperture is closed before the memory behind it goes; a message is
      published after its words and a slot released after it was read.
    - ABI: any header for which the layout printer prints the recorded text lays
      out every request as ttkmd_ioctl.h does.
    - Round trips: configuration save and restore, TLB window registers, the
      mmap token, interface names from the driver's printf to the shim's parser.
    - The driver over several devices: the list holds exactly the added devices,
      a failed add leaves nothing behind, a process exit reaches every handle.
      The shim closes a file once, when the handle is closed and its last view
      is gone.

    ** Fuel and bounds

    The three [for (;;)] loops of the message queue take [poll_fuel ms = 10 ms +
    2] iterations; the deadline ends them earlier because a delay is 100 us
    ([reachable_loops_end]); running out would log [EvOutOfFuel].  The
    capability walk takes the code's own bound of 48 entries.  [percent_d] prints
    up to ten digits, enough for a 32-bit value.  All other recursion is
    structural (over lists, over the handle list, over fixed counts of the code).

    ** Not modelled

    Trace logging; the registration of callbacks and object attributes in
    DriverEntry and EvtDeviceAdd (only which creations can fail, and what is
    undone); WDF's own guarantees beyond the law classes; interleavings inside
    one entry point other than those of PowerRace.v (the code holds
    ResetResource, FileListLock and the file lock around what the model runs in
    one step; the lock events are in the trace, and LockOrder.v is about them);
    the conformance tools and the QEMU device model, which are not part of the
    driver.  The Linux header that the layout printer is compiled against is a
    parameter. *)
From Stdlib Require Export ZArith Lia.
From stdpp Require Export base tactics option list sets gmap strings numbers.

Declare Scope tt_scope.
Delimit Scope tt_scope with tt.
#[global] Open Scope Z_scope.

(** ** Machine integers

    A [w]-bit unsigned value is a [Z] in [0, 2^w); C arithmetic on it is the
    arithmetic of [Z] followed by [wrap w]. *)
Definition wrap (w z : Z) : Z := z mod 2 ^ w.
Definition wrap8 (z : Z) : Z := wrap 8 z.
Definition wrap16 (z : Z) : Z := wrap 16 z.
Definition wrap32 (z : Z) : Z := wrap 32 z.
Definition wrap64 (z : Z) : Z := wrap 64 z.

(** Two's-complement reading of a 64-bit value (LONG64, LONGLONG). *)
Definition signed64 (z : Z) : Z :=
  let u := wrap64 z in if 2 ^ 63 <=? u then u - 2 ^ 64 else u.

Definition MAXUINT16 : Z := 0xFFFF.
Definition MAXUINT32 : Z := 0xFFFFFFFF.
Definition MAXULONG : Z := 0xFFFFFFFF.
Definition PAGE_SIZE : Z := 4096.
Definition PAGE_SHIFT : Z := 12.

(** The C expressions [x & mask] and [x & ~mask] used as tests. *)
Definition has_bits (x mask : Z) : bool := negb (Z.land x mask =? 0).

(** The byte representation of integers: little-endian, as on x86-64. *)
Fixpoint le_encode (n : nat) (v : Z) : list Z :=
  match n with
  | O => []
  | S k => wrap8 v :: le_encode k (v / 256)
  end.

Fixpoint le_decode (bs : list Z) : Z :=
  match bs with
  | [] => 0
  | b :: r => b + 256 * le_decode r
  end.

(** [splice off new buf] overwrites [buf] from byte [off] on with [new]; the
    callers stay inside the buffer, as [memcpy] callers must. *)
Definition splice {A} (off : nat) (new buf : list A) : list A :=
  take off buf ++ new ++ drop (off + length new) buf.

(** [range n] is [0; 1; ...; n-1] in [Z]: the values of a counted C loop. *)
Definition zrange (n : nat) : list Z := Z.of_nat <$> seq 0 n.

(** Unlinks the first entry of a list that satisfies [p]. *)
Fixpoint remove_first {A} (p : A → bool) (l : list A) : option (A * list A) :=
  match l with
  | [] => None
  | x :: r =>
      if p x then Some (x, r)
      else match remove_first p r with Some (y, r') => Some (y, x :: r') | None => None end
  end.

(** ** The state monad

    A C function that reads and writes the driver's state is a value of
    [ST S A]; stdpp's notations [x ← m; k] and [m;; k] sequence them. *)
Definition ST (S A : Type) : Type := S → A * S.

#[global] Instance st_ret S : MRet (ST S) := λ _ a s, (a, s).
#[global] Instance st_bind S : MBind (ST S) := λ _ _ k m s, let r := m s in k r.1 r.2.

Definition gets {S A} (f : S → A) : ST S A := λ s, (f s, s).
Definition modify {S} (f : S → S) : ST S () := λ s, (tt, f s).
Definition when {S} (b : bool) (m : ST S ()) : ST S () := if b then m else mret tt.

(** Unfolds the monad's own operations, leaving the calls folded. *)
Ltac run := unfold mbind, st_bind, mret, st_ret, gets; cbn [fst snd].

(** [for x in xs: body x], left to right. *)
Fixpoint for_each {S A} (xs : list A) (body : A → ST S ()) : ST S () :=
  match xs with
  | [] => mret tt
  | x :: r => body x;; for_each r body
  end.

(** A loop over [xs] whose body may leave the loop with a result
    ([break] / [goto] / [return] out of a [for]). *)
Fixpoint for_break {S A B} (xs : list A) (body : A → ST S (option B)) : ST S (option B) :=
  match xs with
  | [] => mret None
  | x :: r => o ← body x; match o with Some b => mret (Some b) | None => for_break r body end
  end.

(** Record update: [upd] names the setter of a projection. *)
Class Setter {R T} (proj : R → T) := upd : (T → T) → R → R.
Arguments upd {R T} proj {_} _ _ /.

(** ** Relational specifications

    [Steps R m]: running [m] from any state moves it along [R].  With a
    pre-order [R] this composes, so invariants ("if it held before, it holds
    after") and frames ("this component is unchanged") are proved operation
    by operation, and a body is walked through with [steps_walk]. *)
Definition Steps {S A} (R : relation S) (m : ST S A) : Prop := ∀ s, R s (m s).2.

(** The frame of a projection, and preservation of an invariant. *)
Definition Same {S T} (f : S → T) : relation S := λ s s', f s' = f s.
Definition Keeps {S} (I : S → Prop) : relation S := λ s s', I s → I s'.

#[global] Instance Same_preorder {S T} (f : S → T) : PreOrder (Same f).
Proof. split; [intros ?; reflexivity|]. unfold Same. intros a b c H1 H2. congruence. Qed.
#[global] Instance Keeps_preorder {S} (I : S → Prop) : PreOrder (Keeps I).
Proof. split; [intros ? ?; done|]. unfold Keeps. intros a b c H1 H2. auto. Qed.

(** Sums over finite maps. *)
Definition msum {A} (g : Z → A → Z) (m : gmap Z A) : Z := map_fold (λ k x acc, g k x + acc) 0 m.

Lemma msum_empty {A} (g : Z → A → Z) : msum g ∅ = 0.
Proof. apply map_fold_empty. Qed.

Lemma msum_insert_new {A} (g : Z → A → Z) m k x :
  m !! k = None → msum g (<[k := x]> m) = g k x + msum g m.
Proof. intros H. unfold msum. rewrite map_fold_insert_L; [done | intros; lia | done]. Qed.

Lemma msum_delete {A} (g : Z → A → Z) m k :
  msum g m = from_option (g k) 0 (m !! k) + msum g (delete k m).
Proof.
  destruct (m !! k) as [x|] eqn:E; cbn.
  - rewrite <- (insert_delete_id m k x E) at 1. rewrite msum_insert_new; [done | apply lookup_delete_eq].
  - by rewrite delete_id.
Qed.

Lemma msum_insert {A} (g : Z → A → Z) m k x :
  msum g (<[k := x]> m) = msum g m - from_option (g k) 0 (m !! k) + g k x.
Proof.
  rewrite <- (insert_delete_eq m k x), msum_insert_new by apply lookup_delete_eq.
  rewrite (msum_delete g m k). lia.
Qed.

Lemma msum_ext {A} (g : Z → A → Z) m1 m2 :
  (∀ k, from_option (g k) 0 (m1 !! k) = from_option (g k) 0 (m2 !! k)) → msum g m1 = msum g m2.
Proof.
  revert m2. induction m1 as [|k x m1 Hk IH] using map_ind; intros m2 H.
  - rewrite msum_empty. symmetry. induction m2 as [|k x m2 Hk IH] using map_ind; [apply msum_empty|].
    rewrite msum_insert_new by done. specialize (H k) as Hx. rewrite lookup_empty, lookup_insert_eq in Hx. cbn in Hx.
    rewrite IH; [lia|]. intros j. specialize (H j). rewrite lookup_empty in *. destruct (decide (k = j)) as [<-|].
    + by rewrite Hk.
    + by rewrite lookup_insert_ne in H.
  - rewrite msum_insert_new by done. rewrite (msum_delete g m2 k).
    rewrite (IH (delete k m2)).
    + specialize (H k). rewrite lookup_insert_eq in H. cbn in H. lia.
    + intros j. specialize (H j). destruct (decide (k = j)) as [<-|].
      * by rewrite Hk, lookup_delete_eq.
      * by rewrite lookup_insert_ne, lookup_delete_ne in *.
Qed.

Lemma msum_nonneg {A} (g : Z → A → Z) m : (∀ k x, 0 ≤ g k x) → 0 ≤ msum g m.
Proof.
  intros Hg. induction m as [|k x m Hk IH] using map_ind; [by rewrite msum_empty|].
  rewrite msum_insert_new by done. specialize (Hg k x). lia.
Qed.

Lemma msum_elem {A} (g : Z → A → Z) m k x : (∀ k x, 0 ≤ g k x) → m !! k = Some x → g k x ≤ msum g m.
Proof. intros Hg Hk. rewrite (msum_delete g m k), Hk. cbn. pose proof (msum_nonneg g (delete k m) Hg). lia. Qed.

(** Sums over lists. *)
Definition lsum {A} (g : A → Z) (l : list A) : Z := foldr (λ x acc, g x + acc) 0 l.
Lemma lsum_app {A} (g : A → Z) l1 l2 : lsum g (l1 ++ l2) = lsum g l1 + lsum g l2.
Proof. induction l1; cbn; [done|]. unfold lsum in *. lia. Qed.
Lemma lsum_nonneg {A} (g : A → Z) l : (∀ x, 0 ≤ g x) → 0 ≤ lsum g l.
Proof. intros Hg. induction l as [|x l IH]; cbn; [done|]. specialize (Hg x). unfold lsum in IH. lia. Qed.
Lemma lsum_elem {A} (g : A → Z) l x : (∀ x, 0 ≤ g x) → x ∈ l → g x ≤ lsum g l.
Proof.
  intros Hg. induction 1 as [x l|x y l _ IH]; cbn; fold (lsum g l).
  - pose proof (lsum_nonneg g l Hg). lia.
  - specialize (Hg y). lia.
Qed.

(** [remove_first] takes out one element and keeps the order of the rest. *)
Lemma remove_first_spec {A} (p : A → bool) l :
  match remove_first p l with
  | Some (x, r) => p x = true ∧ ∃ l1 l2, l = l1 ++ x :: l2 ∧ r = l1 ++ l2 ∧ ∀ y, y ∈ l1 → p y = false
  | None => ∀ y, y ∈ l → p y = false
  end.
Proof.
  induction l as [|x l IH]; cbn; [by intros y ?%elem_of_nil|].
  destruct (p x) eqn:E.
  - split; [done|]. exists [], l. split_and!; [done | done | by intros y ?%elem_of_nil].
  - destruct (remove_first p l) as [[y r]|].
    + destruct IH as (Hy & l1 & l2 & -> & -> & H). split; [done|]. exists (x :: l1), l2.
      split_and!; [done | done |]. by intros z [->|Hz]%elem_of_cons; [|apply H].
    + by intros z [->|Hz]%elem_of_cons; [|apply IH].
Qed.

Lemma wrap_id w z : 0 ≤ z < 2 ^ w → wrap w z = z.
Proof. apply Z.mod_small. Qed.
Lemma wrap8_id z : 0 ≤ z < 256 → wrap8 z = z.
Proof. apply Z.mod_small. Qed.
Lemma wrap16_id z : 0 ≤ z < 65536 → wrap16 z = z.
Proof. apply Z.mod_small. Qed.
Lemma wrap32_id z : 0 ≤ z < 4294967296 → wrap32 z = z.
Proof. apply Z.mod_small. Qed.
Lemma wrap64_id z : 0 ≤ z < 18446744073709551616 → wrap64 z = z.
Proof. apply Z.mod_small. Qed.
Lemma wrap32_range z : 0 ≤ wrap32 z < 4294967296.
Proof. by apply Z.mod_pos_bound. Qed.
Lemma wrap64_range z : 0 ≤ wrap64 z < 18446744073709551616.
Proof. by apply Z.mod_pos_bound. Qed.

(** Unsigned integers of [w] bits. *)
Definition uint (w z : Z) : Prop := 0 ≤ z < 2 ^ w.
Lemma uint_wrap w z : 0 ≤ w → uint w (wrap w z).
Proof. intros Hw. apply Z.mod_pos_bound. by apply Z.pow_pos_nonneg. Qed.

Lemma uint_testbit w z : 0 ≤ w → uint w z ↔ 0 ≤ z ∧ ∀ i, w ≤ i → Z.testbit z i = false.
Proof.
  intros Hw. unfold uint. split.
  - intros [H0 H1]. split; [done|]. intros i Hi. destruct (decide (z = 0)) as [->|Hz]; [apply Z.bits_0|].
    apply Z.bits_above_log2; [done|]. assert (Z.log2 z < w) by (apply Z.log2_lt_pow2; lia). lia.
  - intros [H0 H1]. split; [done|]. destruct (decide (z = 0)) as [->|Hz]; [by apply Z.pow_pos_nonneg|].
    apply Z.log2_lt_pow2; [lia|]. destruct (decide (Z.log2 z < w)) as [|Hn]; [done|].
    assert (Z.testbit z (Z.log2 z) = true) as E by (apply Z.bit_log2; lia). rewrite H1 in E by lia. done.
Qed.
Lemma uint_lor w a b : 0 ≤ w → uint w a → uint w b → uint w (Z.lor a b).
Proof.
  intros Hw [A1 A2]%uint_testbit [B1 B2]%uint_testbit; try done. apply uint_testbit; [done|].
  split; [by apply Z.lor_nonneg|]. intros i Hi. by rewrite Z.lor_spec, A2, B2.
Qed.
Lemma uint_land w a b : 0 ≤ w → uint w a → uint w (Z.land a b).
Proof.
  intros Hw [A1 A2]%uint_testbit; [|done]. apply uint_testbit; [done|].
  split; [apply Z.land_nonneg; by left|]. intros i Hi. by rewrite Z.land_spec, A2.
Qed.

Lemma elem_of_rev {A} (x : A) l : x ∈ rev l ↔ x ∈ l.
Proof. by rewrite !list_elem_of_In, <- in_rev. Qed.

Lemma elem_of_zrange n i : i ∈ zrange n ↔ 0 ≤ i < Z.of_nat n.
Proof.
  unfold zrange. rewrite list_elem_of_fmap. setoid_rewrite elem_of_seq. split; [intros (k & -> & Hk); lia|].
  intros Hi. exists (Z.to_nat i). lia.
Qed.

Create HintDb bits.

Section steps.
Context {S : Type} (R : relation S) `{!PreOrder R}.

Lemma steps_ret {A} (a : A) : Steps R (mret a : ST S A).
Proof. intros s. reflexivity. Qed.

Lemma steps_bind {A B} (m : ST S A) (k : A → ST S B) :
  Steps R m → (∀ a, Steps R (k a)) → Steps R (mbind k m).
Proof. intros Hm Hk s. unfold mbind, st_bind. simpl. etrans; [apply Hm | apply Hk]. Qed.

Lemma steps_gets {A} (f : S → A) : Steps R (gets f).
Proof. intros s. reflexivity. Qed.

Lemma steps_modify (f : S → S) : (∀ s, R s (f s)) → Steps R (modify f).
Proof. intros H s. apply H. Qed.

Lemma steps_if {A} (b : bool) (m1 m2 : ST S A) :
  Steps R m1 → Steps R m2 → Steps R (if b then m1 else m2).
Proof. by destruct b. Qed.

Lemma steps_when (b : bool) (m : ST S ()) : Steps R m → Steps R (when b m).
Proof. intros. unfold when. apply steps_if; [done | apply steps_ret]. Qed.

Lemma steps_option {A B} (o : option B) (m1 : B → ST S A) (m2 : ST S A) :
  (∀ b, Steps R (m1 b)) → Steps R m2 →
  Steps R (match o with Some b => m1 b | None => m2 end).
Proof. by destruct o. Qed.

Lemma steps_for_each {A} (xs : list A) (body : A → ST S ()) :
  (∀ x, Steps R (body x)) → Steps R (for_each xs body).
Proof. intros H. induction xs; simpl; [apply steps_ret | by apply steps_bind]. Qed.

Lemma steps_for_break {A B} (xs : list A) (body : A → ST S (option B)) :
  (∀ x, Steps R (body x)) → Steps R (for_break xs body).
Proof.
  intros H. induction xs; simpl; [apply steps_ret|].
  apply steps_bind; [done|]. intros [?|]; [apply steps_ret | done].
Qed.
End steps.

(** Walks through a monadic body; [leaf] closes the calls and the primitives. *)
Ltac steps_end := match goal with
  | |- Steps _ (mret _) => apply steps_ret; apply _
  | |- Steps _ (gets _) => apply steps_gets; apply _
  end.
Ltac steps_split := match goal with
  | |- Steps _ (mbind _ _) => apply steps_bind; [apply _ | |]
  | |- Steps _ (when _ _) => apply steps_when; [apply _ |]
  | |- Steps _ (for_each _ _) => apply steps_for_each; [apply _ |]
  | |- Steps _ (for_break _ _) => apply steps_for_break; [apply _ |]
  | |- Steps _ (let '(_, _) := ?x in _) => destruct x
  | |- Steps _ (match ?x with _ => _ end) => destruct x
  | |- Steps _ (let _ := _ in _) => cbv zeta
  end.
Ltac steps_walk leaf := cbv zeta; repeat first [progress intros | steps_end | leaf | steps_split].

(** ** Hoare triples

    [Hoare Q m R]: from a state with [Q], [m] returns a result and a state
    related by [R].  For properties that hold between calls only as a debt. *)
Definition Hoare {S A} (Q : S → Prop) (m : ST S A) (R : A → S → Prop) : Prop :=
  ∀ s, Q s → R (m s).1 (m s).2.

Section hoare.
Context {S : Type}.
Implicit Types Q : S → Prop.

Lemma hoare_ret {A} (a : A) Q (R : A → S → Prop) : (∀ s, Q s → R a s) → Hoare Q (mret a) R.
Proof. intros H s. apply H. Qed.

Lemma hoare_bind {A B} Q (T : A → S → Prop) (R : B → S → Prop) (m : ST S A) (k : A → ST S B) :
  Hoare Q m T → (∀ a, Hoare (T a) (k a) R) → Hoare Q (mbind k m) R.
Proof. intros Hm Hk s Hs. apply Hk, Hm, Hs. Qed.

Lemma hoare_gets {A B} Q (R : B → S → Prop) (f : S → A) (k : A → ST S B) :
  (∀ a, Hoare (λ s, Q s ∧ f s = a) (k a) R) → Hoare Q (mbind k (gets f)) R.
Proof. intros H s Hs. by apply (H (f s)). Qed.

Lemma hoare_pre {A} Q Q' (R : A → S → Prop) (m : ST S A) :
  (∀ s, Q s → Q' s) → Hoare Q' m R → Hoare Q m R.
Proof. intros HQ Hm s Hs. apply Hm, HQ, Hs. Qed.

Lemma hoare_post {A} Q (R R' : A → S → Prop) (m : ST S A) :
  Hoare Q m R' → (∀ a s, R' a s → R a s) → Hoare Q m R.
Proof. intros Hm HR s Hs. apply HR, Hm, Hs. Qed.

Lemma hoare_if {A} (b : bool) Q (R : A → S → Prop) (m1 m2 : ST S A) :
  (b = true → Hoare Q m1 R) → (b = false → Hoare Q m2 R) → Hoare Q (if b then m1 else m2) R.
Proof. destruct b; auto. Qed.

(** An operation followed by one that does not depend on its result. *)
Lemma hoare_seq {A B} Q (T : S → Prop) (R : B → S → Prop) (m : ST S A) (k : ST S B) :
  Hoare Q m (λ _, T) → Hoare T k R → Hoare Q (m;; k) R.
Proof. intros Hm Hk s Hs. apply Hk, Hm, Hs. Qed.

Lemma hoare_assoc {A B C} Q (R : C → S → Prop) (m : ST S A) (k : ST S B) (l : ST S C) :
  Hoare Q ((m;; k);; l) R → Hoare Q (m;; k;; l) R.
Proof. done. Qed.

Lemma hoare_modify Q (R : S → Prop) f : (∀ s, Q s → R (f s)) → Hoare Q (modify f) (λ _, R).
Proof. intros H s. apply H. Qed.

Lemma hoare_keeps {A} Q (m : ST S A) : Steps (Keeps Q) m ↔ Hoare Q m (λ _, Q).
Proof. done. Qed.

Lemma hoare_conj {A} Q1 Q2 (R1 R2 : A → S → Prop) (m : ST S A) :
  Hoare Q1 m R1 → Hoare Q2 m R2 → Hoare (λ s, Q1 s ∧ Q2 s) m (λ a s, R1 a s ∧ R2 a s).
Proof. intros H1 H2 s [Hs1 Hs2]. split; [by apply H1 | by apply H2]. Qed.

(** A counted loop, with an invariant over the part already done. *)
Lemma hoare_for_each {A} (I : list A → S → Prop) (xs : list A) (body : A → ST S ()) :
  (∀ l x l', xs = l ++ x :: l' → Hoare (I l) (body x) (λ _, I (l ++ [x]))) →
  Hoare (I []) (for_each xs body) (λ _, I xs).
Proof.
  intros Hb. assert (∀ l' l, xs = l ++ l' → Hoare (I l) (for_each l' body) (λ _, I xs)) as H; [|by apply (H xs [])].
  induction l' as [|x l' IH]; intros l E; cbn [for_each].
  - rewrite app_nil_r in E. subst. by intros s.
  - eapply hoare_seq; [by eapply Hb|]. apply IH. by rewrite <- app_assoc.
Qed.

(** A pure hypothesis moves out of the precondition. *)
Lemma hoare_pure {A} (φ : Prop) Q (R : A → S → Prop) (m : ST S A) :
  (φ → Hoare Q m R) → Hoare (λ s, Q s ∧ φ) m R.
Proof. intros H s [Hs Hφ]. by apply H. Qed.
End hoare.

Notation "r '<|' p ':=' v '|>'" := (upd p (λ _, v) r)
  (at level 12, left associativity, p at level 11, v at level 200) : tt_scope.
#[global] Open Scope tt_scope.
