(* ===== verification/Abi.v ===== *)
(** * The user/kernel ABI (src/include/ttkmd_ioctl.h, ttkmd_abi_check.h, src/driver/ttkmd.h)

    The constants of the headers, the structures that cross the ioctl
    boundary as C declarations (field list with C types), the x64 layout
    rule that gives each field its offset, byte-level field access, and the
    CTL_CODE scheme.  A C structure in memory is a list of bytes: reading and
    assigning a field are [sget] and [sput]. *)
From S2P Require Import Prelude.

(** ** Constants of ttkmd.h *)
Definition TT_PCI_VENDOR_ID : Z := 0x1E52.
Definition TT_PCI_DEVICE_ID_BLACKHOLE : Z := 0xB140.
Definition TT_MAX_BARS : Z := 6.
Definition TT_BH_TLB_REGS_START : Z := 0x1FC00000.
Definition TT_BH_TLB_REGS_LEN : Z := 0x00001000.
Definition TT_BH_KERNEL_TLB_INDEX : Z := 201.
Definition TT_BH_TLB_REG_SIZE : Z := 12.
Definition TT_BH_KERNEL_TLB_START : Z := 0x19200000.
Definition TT_BH_KERNEL_TLB_LEN : Z := 0x00200000.
Definition TT_BH_NOC2AXI_CFG_START : Z := 0x1FD00000.
Definition TT_BH_NOC2AXI_CFG_LEN : Z := 0x00100000.
Definition TT_TLB_2M_COUNT : Z := 202.
Definition TT_TLB_4G_MAX : Z := 8.
Definition TT_TLB_TOTAL : Z := TT_TLB_2M_COUNT + TT_TLB_4G_MAX.
Definition TT_IATU_REGIONS : Z := 16.
Definition TT_BH_NOC_DMA_LIMIT : Z := Z.shiftl 1 58 - 1.
Definition TT_BH_NOC_PCIE_OFFSET : Z := Z.shiftl 4 58.
Definition TT_MAX_DMA_BUF_SIZE : Z := Z.shiftl 1 28.
Definition TT_DMA_BUF_DEFAULT_LIMIT_MIB : Z := 4096.

(** ** Constants of ttkmd_ioctl.h *)
Definition TT_DEVICE_TYPE : Z := 0x80FA.
Definition TENSTORRENT_DRIVER_VERSION : Z := 2.
Definition TENSTORRENT_IOCTL_MAGIC : Z := 0xFA.
Definition TENSTORRENT_MAPPING_RESOURCE0_UC : Z := 1.
Definition TENSTORRENT_MAPPING_RESOURCE1_UC : Z := 3.
Definition TENSTORRENT_MAPPING_RESOURCE2_UC : Z := 5.
Definition TENSTORRENT_MAX_DMA_BUFS : Z := 256.
Definition TENSTORRENT_ALLOCATE_DMA_BUF_NOC_DMA : Z := 2.
Definition TENSTORRENT_PIN_PAGES_CONTIGUOUS : Z := 1.
Definition TENSTORRENT_PIN_PAGES_NOC_DMA : Z := 2.
Definition TENSTORRENT_PIN_PAGES_NOC_TOP_DOWN : Z := 4.
Definition TENSTORRENT_PIN_PAGES_READ_ONLY : Z := 8.
Definition TENSTORRENT_MAX_INBOUND_TLBS : Z := 256.
Definition TENSTORRENT_LOCK_CTL_ACQUIRE : Z := 0.
Definition TENSTORRENT_LOCK_CTL_RELEASE : Z := 1.
Definition TENSTORRENT_LOCK_CTL_TEST : Z := 2.
Definition TENSTORRENT_LOCK_CTL_ACQUIRE_BLOCKING : Z := 3.
Definition TENSTORRENT_RESOURCE_LOCK_COUNT : Z := 64.
Definition TT_POWER_VALIDITY_FLAGS (n : Z) : Z := Z.shiftl (Z.land n 0xF) 0.
Definition TT_POWER_VALIDITY_SETTINGS (n : Z) : Z := Z.shiftl (Z.land n 0xF) 4.
Definition TT_POWER_VALIDITY (f s : Z) : Z :=
  Z.lor (TT_POWER_VALIDITY_FLAGS f) (TT_POWER_VALIDITY_SETTINGS s).
Definition TT_POWER_FLAG_MAX_AI_CLK : Z := 1.
Definition TENSTORRENT_RESET_DEVICE_RESTORE_STATE : Z := 0.
Definition TENSTORRENT_RESET_DEVICE_RESET_PCIE_LINK : Z := 1.
Definition TENSTORRENT_RESET_DEVICE_CONFIG_WRITE : Z := 2.
Definition TENSTORRENT_RESET_DEVICE_USER_RESET : Z := 3.
Definition TENSTORRENT_RESET_DEVICE_ASIC_RESET : Z := 4.
Definition TENSTORRENT_RESET_DEVICE_ASIC_DMC_RESET : Z := 5.
Definition TENSTORRENT_RESET_DEVICE_POST_RESET : Z := 6.
Definition TT_TELEM_PRESENT_TEMP : Z := Z.shiftl 1 0.
Definition TT_TELEM_PRESENT_VCORE : Z := Z.shiftl 1 1.
Definition TT_TELEM_PRESENT_CURRENT : Z := Z.shiftl 1 2.
Definition TT_TELEM_PRESENT_POWER : Z := Z.shiftl 1 3.
Definition TT_TELEM_PRESENT_FAN : Z := Z.shiftl 1 4.
Definition TT_TELEM_PRESENT_AICLK : Z := Z.shiftl 1 5.
Definition TT_TELEM_PRESENT_AXICLK : Z := Z.shiftl 1 6.
Definition TT_TELEM_PRESENT_ARCCLK : Z := Z.shiftl 1 7.
Definition TT_TELEM_PRESENT_HEARTBEAT : Z := Z.shiftl 1 8.
Definition TT_TELEM_PRESENT_THERMTRIP : Z := Z.shiftl 1 9.
Definition TT_TELEM_PRESENT_ASIC_ID : Z := Z.shiftl 1 10.
Definition TT_TELEM_PRESENT_SERIAL : Z := Z.shiftl 1 11.
Definition TT_TELEM_PRESENT_FW_BUNDLE : Z := Z.shiftl 1 12.
Definition TT_MMAP_OFFSET_RESOURCE0_UC : Z := Z.shiftl 0 36.
Definition TT_MMAP_OFFSET_RESOURCE0_WC : Z := Z.shiftl 1 36.
Definition TT_MMAP_OFFSET_RESOURCE1_UC : Z := Z.shiftl 2 36.
Definition TT_MMAP_OFFSET_RESOURCE1_WC : Z := Z.shiftl 3 36.
Definition TT_MMAP_OFFSET_RESOURCE2_UC : Z := Z.shiftl 4 36.
Definition TT_MMAP_OFFSET_RESOURCE2_WC : Z := Z.shiftl 5 36.
Definition TT_MMAP_OFFSET_TLB_UC : Z := Z.shiftl 6 36.
Definition TT_MMAP_OFFSET_TLB_WC : Z := Z.shiftl 7 36.
Definition TT_MMAP_RESOURCE_SIZE : Z := Z.shiftl 1 36.
Definition TT_MMAP_OFFSET_DMA_BUF : Z := 0xF000000000.
Definition TT_MMAP_SIZE_DMA_BUF : Z := Z.shiftl 1 32.

(** ** C structures

    The declarations of the header, with the C scalar types; arrays carry
    their length. *)
Inductive cty :=
  | U8 | U16 | U32 | I32 | U64
  | Arr (t : cty) (n : nat)
  | Struct (fields : list (string * cty)).

Fixpoint c_align (t : cty) : Z :=
  match t with
  | U8 => 1 | U16 => 2 | U32 => 4 | I32 => 4 | U64 => 8
  | Arr t _ => c_align t
  | Struct fs =>
      (fix go fs := match fs with [] => 1 | (_, t) :: r => Z.max (c_align t) (go r) end) fs
  end.

(** Round [off] up to a multiple of [a]. *)
Definition c_pad (off a : Z) : Z := (off + a - 1) / a * a.

Fixpoint c_sizeof (t : cty) : Z :=
  match t with
  | U8 => 1 | U16 => 2 | U32 => 4 | I32 => 4 | U64 => 8
  | Arr t n => c_sizeof t * Z.of_nat n
  | Struct fs =>
      c_pad ((fix go off fs :=
                match fs with
                | [] => off
                | (_, t) :: r => go (c_pad off (c_align t) + c_sizeof t) r
                end) 0 fs)
            (c_align (Struct fs))
  end.

Fixpoint c_field (off : Z) (fs : list (string * cty)) (f : string) : option (Z * cty) :=
  match fs with
  | [] => None
  | (g, t) :: r =>
      let o := c_pad off (c_align t) in
      if String.eqb f g then Some (o, t) else c_field (o + c_sizeof t) r f
  end.

(** [offsetof(t, f)] and [sizeof(((t * )0)->f)]. *)
Definition c_offsetof (t : cty) (f : string) : Z :=
  match t with Struct fs => from_option fst 0 (c_field 0 fs f) | _ => 0 end.
Definition c_fieldsize (t : cty) (f : string) : Z :=
  match t with Struct fs => from_option (c_sizeof ∘ snd) 0 (c_field 0 fs f) | _ => 0 end.

(** A structure in memory; [s.f], [s.f = v] and [RtlZeroMemory(&s, sizeof s)]. *)
Definition bytes_at (off n : Z) (b : list Z) : list Z := take (Z.to_nat n) (drop (Z.to_nat off) b).
Definition sget (t : cty) (f : string) (b : list Z) : Z :=
  le_decode (bytes_at (c_offsetof t f) (c_fieldsize t f) b).
Definition sput (t : cty) (f : string) (v : Z) (b : list Z) : list Z :=
  splice (Z.to_nat (c_offsetof t f)) (le_encode (Z.to_nat (c_fieldsize t f)) v) b.
Definition szero (t : cty) : list Z := replicate (Z.to_nat (c_sizeof t)) 0.

(** [s.f[i]] for an array field [f] with elements of [w] bytes. *)
Definition sget_elem (t : cty) (f : string) (w : Z) (b : list Z) (i : Z) : Z :=
  le_decode (bytes_at (c_offsetof t f + w * i) w b).

(** *** The structures of ttkmd_ioctl.h and ttkmd_debug.h *)
Definition tenstorrent_get_device_info_in : cty := Struct [("output_size_bytes", U32)]%string.
Definition tenstorrent_get_device_info_out : cty := Struct [("output_size_bytes", U32);
  ("vendor_id", U16); ("device_id", U16); ("subsystem_vendor_id", U16); ("subsystem_id", U16);
  ("bus_dev_fn", U16); ("max_dma_buf_size_log2", U16); ("pci_domain", U16); ("reserved",
  U16)]%string.
Definition tenstorrent_get_device_info : cty := Struct [("in", tenstorrent_get_device_info_in);
  ("out", tenstorrent_get_device_info_out)]%string.
Definition tenstorrent_query_mappings_in : cty := Struct [("output_mapping_count", U32);
  ("reserved", U32)]%string.
Definition tenstorrent_mapping : cty := Struct [("mapping_id", U32); ("reserved", U32);
  ("mapping_base", U64); ("mapping_size", U64)]%string.
Definition tenstorrent_query_mappings : cty := Struct [("in",
  tenstorrent_query_mappings_in)]%string.
Definition tenstorrent_get_driver_info_in : cty := Struct [("output_size_bytes", U32)]%string.
Definition tenstorrent_get_driver_info_out : cty := Struct [("output_size_bytes", U32);
  ("driver_version", U32); ("driver_version_major", U8); ("driver_version_minor", U8);
  ("driver_version_patch", U8); ("reserved0", U8)]%string.
Definition tenstorrent_get_driver_info : cty := Struct [("in", tenstorrent_get_driver_info_in);
  ("out", tenstorrent_get_driver_info_out)]%string.
Definition tenstorrent_allocate_dma_buf_in : cty := Struct [("requested_size", U32); ("buf_index",
  U8); ("flags", U8); ("reserved0", Arr U8 2); ("reserved1", Arr U64 2)]%string.
Definition tenstorrent_allocate_dma_buf_out : cty := Struct [("physical_address", U64);
  ("mapping_offset", U64); ("size", U32); ("reserved0", U32); ("noc_address", U64); ("reserved1",
  U64)]%string.
Definition tenstorrent_allocate_dma_buf : cty := Struct [("in", tenstorrent_allocate_dma_buf_in);
  ("out", tenstorrent_allocate_dma_buf_out)]%string.
Definition tenstorrent_pin_pages_in : cty := Struct [("output_size_bytes", U32); ("flags", U32);
  ("virtual_address", U64); ("size", U64)]%string.
Definition tenstorrent_pin_pages_out : cty := Struct [("physical_address", U64)]%string.
Definition tenstorrent_pin_pages_out_extended : cty := Struct [("physical_address", U64);
  ("noc_address", U64)]%string.
Definition tenstorrent_pin_pages : cty := Struct [("in", tenstorrent_pin_pages_in); ("out",
  tenstorrent_pin_pages_out)]%string.
Definition tenstorrent_unpin_pages_in : cty := Struct [("virtual_address", U64); ("size", U64);
  ("reserved", U64)]%string.
Definition tenstorrent_unpin_pages : cty := Struct [("in", tenstorrent_unpin_pages_in)]%string.
Definition tenstorrent_allocate_tlb_in : cty := Struct [("size", U64); ("reserved", U64)]%string.
Definition tenstorrent_allocate_tlb_out : cty := Struct [("id", U32); ("reserved0", U32);
  ("mmap_offset_uc", U64); ("mmap_offset_wc", U64); ("reserved1", U64)]%string.
Definition tenstorrent_allocate_tlb : cty := Struct [("in", tenstorrent_allocate_tlb_in); ("out",
  tenstorrent_allocate_tlb_out)]%string.
Definition tenstorrent_free_tlb_in : cty := Struct [("id", U32)]%string.
Definition tenstorrent_free_tlb : cty := Struct [("in", tenstorrent_free_tlb_in)]%string.
Definition tenstorrent_noc_tlb_config : cty := Struct [("addr", U64); ("x_end", U16); ("y_end",
  U16); ("x_start", U16); ("y_start", U16); ("noc", U8); ("mcast", U8); ("ordering", U8); ("linked",
  U8); ("static_vc", U8); ("reserved0", Arr U8 3); ("reserved1", Arr U32 2)]%string.
Definition tenstorrent_configure_tlb_in : cty := Struct [("id", U32); ("reserved", U32); ("config",
  tenstorrent_noc_tlb_config)]%string.
Definition tenstorrent_configure_tlb_out : cty := Struct [("reserved", U64)]%string.
Definition tenstorrent_configure_tlb : cty := Struct [("in", tenstorrent_configure_tlb_in); ("out",
  tenstorrent_configure_tlb_out)]%string.
Definition tenstorrent_lock_ctl_in : cty := Struct [("output_size_bytes", U32); ("flags", U32);
  ("index", U8); ("reserved", Arr U8 3)]%string.
Definition tenstorrent_lock_ctl_out : cty := Struct [("value", U8); ("reserved", Arr U8 3)]%string.
Definition tenstorrent_lock_ctl : cty := Struct [("in", tenstorrent_lock_ctl_in); ("out",
  tenstorrent_lock_ctl_out)]%string.
Definition tenstorrent_power_state : cty := Struct [("argsz", U32); ("flags", U32); ("reserved0",
  U8); ("validity", U8); ("power_flags", U16); ("power_settings", Arr U16 14)]%string.
Definition tenstorrent_set_noc_cleanup : cty := Struct [("argsz", U32); ("flags", U32); ("enabled",
  U8); ("x", U8); ("y", U8); ("noc", U8); ("reserved0", U32); ("addr", U64); ("data", U64)]%string.
Definition tenstorrent_reset_device_in : cty := Struct [("output_size_bytes", U32); ("flags",
  U32)]%string.
Definition tenstorrent_reset_device_out : cty := Struct [("output_size_bytes", U32); ("result",
  U32)]%string.
Definition tenstorrent_reset_device : cty := Struct [("in", tenstorrent_reset_device_in); ("out",
  tenstorrent_reset_device_out)]%string.
Definition tenstorrent_export_tlb_dmabuf : cty := Struct [("argsz", U32); ("flags", U32); ("tlb_id",
  U32); ("fd", I32); ("offset", U64); ("size", U64)]%string.
Definition tenstorrent_smc_msg : cty := Struct [("argsz", U32); ("flags", U32); ("queue_index",
  U32); ("reserved0", U32); ("message", Arr U32 8)]%string.
Definition tenstorrent_free_dma_buf_ex_in : cty := Struct [("buf_index", U32); ("reserved",
  U32)]%string.
Definition tenstorrent_free_dma_buf_ex : cty := Struct [("in",
  tenstorrent_free_dma_buf_ex_in)]%string.
Definition tenstorrent_query_telemetry_out : cty := Struct [("present", U32); ("temp_input_mc",
  I32); ("temp_max_mc", I32); ("vcore_input_mv", U32); ("vcore_max_mv", U32); ("curr_input_ma",
  U32); ("curr_max_ma", U32); ("power_input_uw", U32); ("power_max_uw", U32); ("fan_rpm", U32);
  ("aiclk_mhz", U32); ("axiclk_mhz", U32); ("arcclk_mhz", U32); ("heartbeat", U32);
  ("therm_trip_count", U32); ("fw_bundle_ver", U32); ("asic_id", U64); ("serial", U64)]%string.
Definition tenstorrent_map_in : cty := Struct [("mmap_offset", U64); ("length", U64)]%string.
Definition tenstorrent_map_out : cty := Struct [("user_va", U64)]%string.
Definition tenstorrent_map : cty := Struct [("in", tenstorrent_map_in); ("out",
  tenstorrent_map_out)]%string.
Definition tenstorrent_unmap_in : cty := Struct [("user_va", U64); ("reserved", U64)]%string.
Definition tenstorrent_unmap : cty := Struct [("in", tenstorrent_unmap_in)]%string.
Definition tenstorrent_debug_read_telemetry : cty := Struct [("tag_id", U32); ("value",
  U32)]%string.
Definition tenstorrent_debug_arc_msg : cty := Struct [("header", U32); ("payload", Arr U32 7);
  ("success", U32)]%string.
Definition tenstorrent_debug_agg_power : cty := Struct [("valid", U32); ("power_flags", U16);
  ("reserved", U16); ("power_settings", Arr U16 14)]%string.

(** *** The static assertions of ttkmd_abi_check.h *)
Definition TT_ABI_SIZE (t : cty) (n : Z) : bool := c_sizeof t =? n.
Definition TT_ABI_FIELD (t : cty) (f : string) (off sz : Z) : bool :=
  (c_offsetof t f =? off) && (c_fieldsize t f =? sz).

Definition abi_checks : list bool := [
  TT_ABI_SIZE tenstorrent_get_device_info_in 4;
  TT_ABI_FIELD tenstorrent_get_device_info_in "output_size_bytes" 0 4;
  TT_ABI_SIZE tenstorrent_get_device_info_out 20;
  TT_ABI_FIELD tenstorrent_get_device_info_out "output_size_bytes" 0 4;
  TT_ABI_FIELD tenstorrent_get_device_info_out "vendor_id" 4 2;
  TT_ABI_FIELD tenstorrent_get_device_info_out "device_id" 6 2;
  TT_ABI_FIELD tenstorrent_get_device_info_out "subsystem_vendor_id" 8 2;
  TT_ABI_FIELD tenstorrent_get_device_info_out "subsystem_id" 10 2;
  TT_ABI_FIELD tenstorrent_get_device_info_out "bus_dev_fn" 12 2;
  TT_ABI_FIELD tenstorrent_get_device_info_out "max_dma_buf_size_log2" 14 2;
  TT_ABI_FIELD tenstorrent_get_device_info_out "pci_domain" 16 2;
  TT_ABI_FIELD tenstorrent_get_device_info_out "reserved" 18 2;
  TT_ABI_SIZE tenstorrent_get_device_info 24;
  TT_ABI_FIELD tenstorrent_get_device_info "out" 4 20;
  TT_ABI_SIZE tenstorrent_query_mappings_in 8;
  TT_ABI_FIELD tenstorrent_query_mappings_in "output_mapping_count" 0 4;
  TT_ABI_FIELD tenstorrent_query_mappings_in "reserved" 4 4;
  TT_ABI_SIZE tenstorrent_mapping 24;
  TT_ABI_FIELD tenstorrent_mapping "mapping_id" 0 4;
  TT_ABI_FIELD tenstorrent_mapping "reserved" 4 4;
  TT_ABI_FIELD tenstorrent_mapping "mapping_base" 8 8;
  TT_ABI_FIELD tenstorrent_mapping "mapping_size" 16 8;
  TT_ABI_SIZE tenstorrent_query_mappings 8;
  TT_ABI_SIZE tenstorrent_get_driver_info_in 4;
  TT_ABI_SIZE tenstorrent_get_driver_info_out 12;
  TT_ABI_FIELD tenstorrent_get_driver_info_out "output_size_bytes" 0 4;
  TT_ABI_FIELD tenstorrent_get_driver_info_out "driver_version" 4 4;
  TT_ABI_FIELD tenstorrent_get_driver_info_out "driver_version_major" 8 1;
  TT_ABI_FIELD tenstorrent_get_driver_info_out "driver_version_minor" 9 1;
  TT_ABI_FIELD tenstorrent_get_driver_info_out "driver_version_patch" 10 1;
  TT_ABI_FIELD tenstorrent_get_driver_info_out "reserved0" 11 1;
  TT_ABI_SIZE tenstorrent_get_driver_info 16;
  TT_ABI_FIELD tenstorrent_get_driver_info "out" 4 12;
  TT_ABI_SIZE tenstorrent_allocate_dma_buf_in 24;
  TT_ABI_FIELD tenstorrent_allocate_dma_buf_in "requested_size" 0 4;
  TT_ABI_FIELD tenstorrent_allocate_dma_buf_in "buf_index" 4 1;
  TT_ABI_FIELD tenstorrent_allocate_dma_buf_in "flags" 5 1;
  TT_ABI_FIELD tenstorrent_allocate_dma_buf_in "reserved1" 8 16;
  TT_ABI_SIZE tenstorrent_allocate_dma_buf_out 40;
  TT_ABI_FIELD tenstorrent_allocate_dma_buf_out "physical_address" 0 8;
  TT_ABI_FIELD tenstorrent_allocate_dma_buf_out "mapping_offset" 8 8;
  TT_ABI_FIELD tenstorrent_allocate_dma_buf_out "size" 16 4;
  TT_ABI_FIELD tenstorrent_allocate_dma_buf_out "noc_address" 24 8;
  TT_ABI_SIZE tenstorrent_allocate_dma_buf 64;
  TT_ABI_SIZE tenstorrent_pin_pages_in 24;
  TT_ABI_FIELD tenstorrent_pin_pages_in "output_size_bytes" 0 4;
  TT_ABI_FIELD tenstorrent_pin_pages_in "flags" 4 4;
  TT_ABI_FIELD tenstorrent_pin_pages_in "virtual_address" 8 8;
  TT_ABI_FIELD tenstorrent_pin_pages_in "size" 16 8;
  TT_ABI_SIZE tenstorrent_pin_pages_out 8;
  TT_ABI_SIZE tenstorrent_pin_pages_out_extended 16;
  TT_ABI_FIELD tenstorrent_pin_pages_out_extended "noc_address" 8 8;
  TT_ABI_SIZE tenstorrent_pin_pages 32;
  TT_ABI_SIZE tenstorrent_unpin_pages_in 24;
  TT_ABI_FIELD tenstorrent_unpin_pages_in "reserved" 16 8;
  TT_ABI_SIZE tenstorrent_allocate_tlb_in 16;
  TT_ABI_SIZE tenstorrent_allocate_tlb_out 32;
  TT_ABI_FIELD tenstorrent_allocate_tlb_out "id" 0 4;
  TT_ABI_FIELD tenstorrent_allocate_tlb_out "mmap_offset_uc" 8 8;
  TT_ABI_FIELD tenstorrent_allocate_tlb_out "mmap_offset_wc" 16 8;
  TT_ABI_SIZE tenstorrent_allocate_tlb 48;
  TT_ABI_SIZE tenstorrent_free_tlb_in 4;
  TT_ABI_SIZE tenstorrent_noc_tlb_config 32;
  TT_ABI_FIELD tenstorrent_noc_tlb_config "addr" 0 8;
  TT_ABI_FIELD tenstorrent_noc_tlb_config "x_end" 8 2;
  TT_ABI_FIELD tenstorrent_noc_tlb_config "noc" 16 1;
  TT_ABI_FIELD tenstorrent_noc_tlb_config "static_vc" 20 1;
  TT_ABI_FIELD tenstorrent_noc_tlb_config "reserved1" 24 8;
  TT_ABI_SIZE tenstorrent_configure_tlb_in 40;
  TT_ABI_FIELD tenstorrent_configure_tlb_in "config" 8 32;
  TT_ABI_SIZE tenstorrent_configure_tlb_out 8;
  TT_ABI_SIZE tenstorrent_configure_tlb 48;
  TT_ABI_SIZE tenstorrent_reset_device_in 8;
  TT_ABI_FIELD tenstorrent_reset_device_in "flags" 4 4;
  TT_ABI_SIZE tenstorrent_reset_device_out 8;
  TT_ABI_FIELD tenstorrent_reset_device_out "result" 4 4;
  TT_ABI_SIZE tenstorrent_reset_device 16;
  TT_ABI_SIZE tenstorrent_lock_ctl_in 12;
  TT_ABI_FIELD tenstorrent_lock_ctl_in "flags" 4 4;
  TT_ABI_FIELD tenstorrent_lock_ctl_in "index" 8 1;
  TT_ABI_SIZE tenstorrent_lock_ctl_out 4;
  TT_ABI_FIELD tenstorrent_lock_ctl_out "value" 0 1;
  TT_ABI_SIZE tenstorrent_lock_ctl 16;
  TT_ABI_SIZE tenstorrent_power_state 40;
  TT_ABI_FIELD tenstorrent_power_state "argsz" 0 4;
  TT_ABI_FIELD tenstorrent_power_state "flags" 4 4;
  TT_ABI_FIELD tenstorrent_power_state "reserved0" 8 1;
  TT_ABI_FIELD tenstorrent_power_state "validity" 9 1;
  TT_ABI_FIELD tenstorrent_power_state "power_flags" 10 2;
  TT_ABI_FIELD tenstorrent_power_state "power_settings" 12 28;
  TT_ABI_SIZE tenstorrent_set_noc_cleanup 32;
  TT_ABI_FIELD tenstorrent_set_noc_cleanup "argsz" 0 4;
  TT_ABI_FIELD tenstorrent_set_noc_cleanup "enabled" 8 1;
  TT_ABI_FIELD tenstorrent_set_noc_cleanup "noc" 11 1;
  TT_ABI_FIELD tenstorrent_set_noc_cleanup "addr" 16 8;
  TT_ABI_FIELD tenstorrent_set_noc_cleanup "data" 24 8;
  TT_ABI_SIZE tenstorrent_export_tlb_dmabuf 32;
  TT_ABI_FIELD tenstorrent_export_tlb_dmabuf "argsz" 0 4;
  TT_ABI_FIELD tenstorrent_export_tlb_dmabuf "flags" 4 4;
  TT_ABI_FIELD tenstorrent_export_tlb_dmabuf "tlb_id" 8 4;
  TT_ABI_FIELD tenstorrent_export_tlb_dmabuf "fd" 12 4;
  TT_ABI_FIELD tenstorrent_export_tlb_dmabuf "offset" 16 8;
  TT_ABI_FIELD tenstorrent_export_tlb_dmabuf "size" 24 8;
  TT_ABI_SIZE tenstorrent_smc_msg 48;
  TT_ABI_FIELD tenstorrent_smc_msg "argsz" 0 4;
  TT_ABI_FIELD tenstorrent_smc_msg "flags" 4 4;
  TT_ABI_FIELD tenstorrent_smc_msg "queue_index" 8 4;
  TT_ABI_FIELD tenstorrent_smc_msg "reserved0" 12 4;
  TT_ABI_FIELD tenstorrent_smc_msg "message" 16 32
]%string.

(** ** CTL_CODE scheme (DD-4)

    [CTL_CODE(type, function, METHOD_BUFFERED = 0, FILE_ANY_ACCESS = 0)]. *)
Definition METHOD_BUFFERED : Z := 0.
Definition CTL_CODE (type function method access : Z) : Z :=
  Z.lor (Z.lor (Z.shiftl type 16) (Z.shiftl access 14)) (Z.lor (Z.shiftl function 2) method).
Definition TT_CTL (nr : Z) : Z := CTL_CODE TT_DEVICE_TYPE (0x800 + nr) METHOD_BUFFERED 0.
Definition TT_CTL_EXT (nr : Z) : Z := CTL_CODE TT_DEVICE_TYPE (0x900 + nr) METHOD_BUFFERED 0.
Definition TT_CTL_DEBUG (nr : Z) : Z := CTL_CODE TT_DEVICE_TYPE (0xA00 + nr) METHOD_BUFFERED 0.

Definition IOCTL_TENSTORRENT_GET_DEVICE_INFO : Z := TT_CTL 0.
Definition IOCTL_TENSTORRENT_GET_HARVESTING : Z := TT_CTL 1.
Definition IOCTL_TENSTORRENT_QUERY_MAPPINGS : Z := TT_CTL 2.
Definition IOCTL_TENSTORRENT_ALLOCATE_DMA_BUF : Z := TT_CTL 3.
Definition IOCTL_TENSTORRENT_FREE_DMA_BUF : Z := TT_CTL 4.
Definition IOCTL_TENSTORRENT_GET_DRIVER_INFO : Z := TT_CTL 5.
Definition IOCTL_TENSTORRENT_RESET_DEVICE : Z := TT_CTL 6.
Definition IOCTL_TENSTORRENT_PIN_PAGES : Z := TT_CTL 7.
Definition IOCTL_TENSTORRENT_LOCK_CTL : Z := TT_CTL 8.
Definition IOCTL_TENSTORRENT_MAP_PEER_BAR : Z := TT_CTL 9.
Definition IOCTL_TENSTORRENT_UNPIN_PAGES : Z := TT_CTL 10.
Definition IOCTL_TENSTORRENT_ALLOCATE_TLB : Z := TT_CTL 11.
Definition IOCTL_TENSTORRENT_FREE_TLB : Z := TT_CTL 12.
Definition IOCTL_TENSTORRENT_CONFIGURE_TLB : Z := TT_CTL 13.
Definition IOCTL_TENSTORRENT_SET_NOC_CLEANUP : Z := TT_CTL 14.
Definition IOCTL_TENSTORRENT_SET_POWER_STATE : Z := TT_CTL 15.
Definition IOCTL_TENSTORRENT_EXPORT_TLB_DMABUF : Z := TT_CTL 16.
Definition IOCTL_TENSTORRENT_SMC_MSG : Z := TT_CTL 17.
Definition IOCTL_TENSTORRENT_MAP : Z := TT_CTL_EXT 0.
Definition IOCTL_TENSTORRENT_UNMAP : Z := TT_CTL_EXT 1.
Definition IOCTL_TENSTORRENT_QUERY_TELEMETRY : Z := TT_CTL_EXT 2.
Definition IOCTL_TENSTORRENT_FREE_DMA_BUF_EX : Z := TT_CTL_EXT 4.
Definition IOCTL_TENSTORRENT_DEBUG_READ_TELEMETRY : Z := TT_CTL_DEBUG 0.
Definition IOCTL_TENSTORRENT_DEBUG_ARC_MSG : Z := TT_CTL_DEBUG 1.
Definition IOCTL_TENSTORRENT_DEBUG_GET_AGG_POWER : Z := TT_CTL_DEBUG 2.

(** The ioctl number extracted from a control code (ioctl.c, TtIoctlNr). *)
Definition TtIoctlNr (IoControlCode : Z) : Z :=
  if negb (Z.land IoControlCode 0xFFFF0000 =? wrap32 (Z.shiftl TT_DEVICE_TYPE 16))
     || negb (Z.land IoControlCode 0x3 =? METHOD_BUFFERED)
  then 0xFFFFFFFF
  else wrap32 (Z.land (Z.shiftr IoControlCode 2) 0xFFF - 0x800).

(** The control codes pinned by ttkmd_abi_check.h. *)
Definition ctl_checks : list bool := [
  IOCTL_TENSTORRENT_GET_DEVICE_INFO =? 0x80FA2000;
  IOCTL_TENSTORRENT_QUERY_MAPPINGS =? 0x80FA2008;
  IOCTL_TENSTORRENT_GET_DRIVER_INFO =? 0x80FA2014;
  IOCTL_TENSTORRENT_EXPORT_TLB_DMABUF =? 0x80FA2040;
  IOCTL_TENSTORRENT_SMC_MSG =? 0x80FA2044;
  IOCTL_TENSTORRENT_FREE_DMA_BUF_EX =? 0x80FA2410;
  c_sizeof tenstorrent_free_dma_buf_ex =? 8
].

(** ** Lemmas: bytes, fields *)
Lemma noc_limit_val : TT_BH_NOC_DMA_LIMIT = 288230376151711743.
Proof. reflexivity. Qed.

Lemma length_le_encode n v : length (le_encode n v) = n.
Proof. revert v. induction n; simpl; auto. Qed.

Lemma le_decode_encode n v : le_decode (le_encode n v) = v mod 256 ^ Z.of_nat n.
Proof.
  revert v. induction n as [|n IH]; intros v; [by rewrite Z.mod_1_r|].
  cbn [le_encode le_decode]. rewrite IH. unfold wrap8, wrap. change (2 ^ 8) with 256.
  rewrite Nat2Z.inj_succ, Z.pow_succ_r, Z.rem_mul_r by lia. lia.
Qed.

Lemma le_decode_range bs :
  Forall (λ b, 0 ≤ b < 256) bs → 0 ≤ le_decode bs < 256 ^ Z.of_nat (length bs).
Proof.
  induction 1 as [|b bs Hb _ IH]; [simpl; lia|].
  cbn [le_decode length]. rewrite Nat2Z.inj_succ, Z.pow_succ_r by lia. lia.
Qed.

Lemma le_encode_decode bs :
  Forall (λ b, 0 ≤ b < 256) bs → le_encode (length bs) (le_decode bs) = bs.
Proof.
  induction 1 as [|b bs Hb _ IH]; [done|]. cbn [le_encode le_decode length].
  unfold wrap8, wrap. change (2 ^ 8) with 256. f_equal.
  - rewrite Z.mul_comm, Z_mod_plus_full, Z.mod_small; lia.
  - rewrite Z.mul_comm, Z.div_add, (Z.div_small b) by lia. exact IH.
Qed.

Lemma length_splice {A} off (new buf : list A) :
  (off + length new ≤ length buf)%nat → length (splice off new buf) = length buf.
Proof. intros. unfold splice. rewrite !length_app, length_take, length_drop. lia. Qed.

Lemma splice_inside {A} off (new buf : list A) :
  (off ≤ length buf)%nat → take (length new) (drop off (splice off new buf)) = new.
Proof.
  intros. unfold splice.
  rewrite drop_app_ge by (rewrite length_take; lia).
  rewrite length_take, Nat.min_l, Nat.sub_diag by lia. rewrite drop_0.
  by rewrite take_app_length.
Qed.

Lemma lookup_splice_outside {A} off (new buf : list A) i :
  (off + length new ≤ length buf)%nat → (i < off ∨ off + length new ≤ i)%nat →
  splice off new buf !! i = buf !! i.
Proof.
  intros Hl [Hi|Hi]; unfold splice.
  - rewrite lookup_app_l by (rewrite length_take; lia). by rewrite lookup_take_lt.
  - rewrite lookup_app_r by (rewrite length_take; lia). rewrite length_take, Nat.min_l by lia.
    rewrite lookup_app_r by lia. rewrite lookup_drop. f_equal. lia.
Qed.

Lemma bytes_at_splice_outside off new buf o n :
  (off + length new ≤ length buf)%nat →
  (Z.to_nat o + Z.to_nat n ≤ off ∨ off + length new ≤ Z.to_nat o)%nat →
  bytes_at o n (splice off new buf) = bytes_at o n buf.
Proof.
  intros Hl Ho. unfold bytes_at. apply list_eq. intros i.
  destruct (decide (i < Z.to_nat n)%nat).
  - rewrite !lookup_take_lt, !lookup_drop by done.
    apply lookup_splice_outside; lia.
  - by rewrite !lookup_take_ge by lia.
Qed.

(** A structure value of type [t]; the field tests are closed computations. *)
Definition sized (t : cty) (b : list Z) : Prop := length b = Z.to_nat (c_sizeof t).
Definition fits (t : cty) (f : string) : bool :=
  (0 <=? c_offsetof t f) && (0 <=? c_fieldsize t f) &&
  (c_offsetof t f + c_fieldsize t f <=? c_sizeof t).
Definition apart (t : cty) (f g : string) : bool :=
  (c_offsetof t f + c_fieldsize t f <=? c_offsetof t g) ||
  (c_offsetof t g + c_fieldsize t g <=? c_offsetof t f).

Lemma sized_szero t : sized t (szero t).
Proof. apply length_replicate. Qed.

Lemma sput_room t f v b :
  sized t b → fits t f = true →
  (Z.to_nat (c_offsetof t f) + length (le_encode (Z.to_nat (c_fieldsize t f)) v) ≤ length b)%nat.
Proof.
  unfold sized, fits. intros ->.
  rewrite length_le_encode, !andb_true_iff, !Z.leb_le. lia.
Qed.

Lemma sized_sput t f v b : sized t b → fits t f = true → sized t (sput t f v b).
Proof.
  intros Hs Hf. unfold sized, sput. rewrite length_splice; [done | by apply sput_room].
Qed.

Lemma sget_sput_eq t f v b :
  sized t b → fits t f = true →
  sget t f (sput t f v b) = v mod 256 ^ c_fieldsize t f.
Proof.
  intros Hs Hf. pose proof (sput_room t f v b Hs Hf) as Hroom.
  unfold sget, sput, bytes_at.
  set (n := Z.to_nat (c_fieldsize t f)) in *.
  assert (take n = take (A:=Z) (length (le_encode n v))) as -> by by rewrite length_le_encode.
  rewrite splice_inside by lia. rewrite le_decode_encode. unfold n.
  unfold fits in Hf. rewrite !andb_true_iff, !Z.leb_le in Hf. by rewrite Z2Nat.id by lia.
Qed.

Lemma sget_sput_ne t f g v b :
  sized t b → fits t f = true → fits t g = true → apart t f g = true →
  sget t f (sput t g v b) = sget t f b.
Proof.
  intros Hs Hf Hg Ha. pose proof (sput_room t g v b Hs Hg) as Hroom.
  unfold sget, sput. f_equal. apply bytes_at_splice_outside; [done|].
  rewrite length_le_encode in *.
  unfold fits, apart in *. rewrite !andb_true_iff, !Z.leb_le in *.
  rewrite orb_true_iff, !Z.leb_le in Ha. lia.
Qed.

Create HintDb abi.
#[export] Hint Resolve sized_szero sized_sput : abi.
#[export] Hint Extern 1 (fits _ _ = true) => vm_compute; reflexivity : abi.
#[export] Hint Extern 1 (apart _ _ _ = true) => vm_compute; reflexivity : abi.

(** Reads fields back from a structure filled with [sput]. *)
Ltac sget_simp :=
  repeat first
    [ rewrite sget_sput_eq by eauto 20 with abi
    | rewrite sget_sput_ne by eauto 20 with abi ].
