(* ===== verification/AbiTruth.v ===== *)
(** * The layout printer (tools/abi_ground_truth.c) and its recorded output

    The program is compiled against the public header of the Linux driver and
    prints the size and the field offsets of every request structure and the
    request codes; docs/abi-ground-truth.txt is its output.  The Linux header is
    not part of this repository: it is a parameter, [Header], the answers its
    compiler gives.  The theorem says what the recorded output is worth: any
    header for which the program prints it lays out every request the way
    ttkmd_ioctl.h (Abi.v) does. *)
From Stdlib Require Import Ascii.
From stdpp Require Import pretty.
From S2P Require Import Prelude Abi.

(** ** The header the program is compiled against

    [sizeof], [offsetof] and [sizeof] of a member, and the request codes. *)
Record Header := mkHeader {
  h_sizeof : string → N;
  h_offsetof : string → string → N;
  h_fieldsize : string → string → N;
  h_code : string → N
}.

(** ** The program

    Standard output is the list of its lines. *)
Inductive Line :=
  | Text (s : string)
  | Ioctl (name : string)
  | S_ (t : string)
  | F_ (t f : string).

(** The lines of one structure: [S(t)], then [F(t, f)] per field. *)
Definition layout (t : string) (fs : list string) : list Line := S_ t :: (F_ t <$> fs).

Definition main_head : list Line := [
  Text "# ABI ground truth for tt-kmd ioctl.h, generated by abi_ground_truth.c";
  Text "# Baseline: ttkmd-2.11.0 (c05f224); x86_64; format:";
  Text "#   sizeof <struct> <bytes> | offset <struct> <field> <offset> <fieldsize>";
  Text EmptyString]%string.
Definition main_codes : list Line := (Ioctl <$> [
  "TENSTORRENT_IOCTL_GET_DEVICE_INFO"; "TENSTORRENT_IOCTL_GET_HARVESTING";
  "TENSTORRENT_IOCTL_QUERY_MAPPINGS"; "TENSTORRENT_IOCTL_ALLOCATE_DMA_BUF";
  "TENSTORRENT_IOCTL_FREE_DMA_BUF"; "TENSTORRENT_IOCTL_GET_DRIVER_INFO";
  "TENSTORRENT_IOCTL_RESET_DEVICE"; "TENSTORRENT_IOCTL_PIN_PAGES"; "TENSTORRENT_IOCTL_LOCK_CTL";
  "TENSTORRENT_IOCTL_MAP_PEER_BAR"; "TENSTORRENT_IOCTL_UNPIN_PAGES";
  "TENSTORRENT_IOCTL_ALLOCATE_TLB"; "TENSTORRENT_IOCTL_FREE_TLB";
  "TENSTORRENT_IOCTL_CONFIGURE_TLB"; "TENSTORRENT_IOCTL_SET_NOC_CLEANUP";
  "TENSTORRENT_IOCTL_SET_POWER_STATE"; "TENSTORRENT_IOCTL_EXPORT_TLB_DMABUF";
  "TENSTORRENT_IOCTL_SMC_MSG"]%string) ++ [Text EmptyString]%string.
Definition main_layouts_1 : list Line := concat [
  layout "tenstorrent_get_device_info_in" ["output_size_bytes"];
  layout "tenstorrent_get_device_info_out" ["output_size_bytes"; "vendor_id"; "device_id";
    "subsystem_vendor_id"; "subsystem_id"; "bus_dev_fn"; "max_dma_buf_size_log2"; "pci_domain";
    "reserved"];
  layout "tenstorrent_get_device_info" [];
  layout "tenstorrent_query_mappings_in" ["output_mapping_count"; "reserved"];
  layout "tenstorrent_mapping" ["mapping_id"; "reserved"; "mapping_base"; "mapping_size"];
  layout "tenstorrent_query_mappings" [];
  layout "tenstorrent_allocate_dma_buf_in" ["requested_size"; "buf_index"; "flags"; "reserved0";
    "reserved1"];
  layout "tenstorrent_allocate_dma_buf_out" ["physical_address"; "mapping_offset"; "size";
    "reserved0"; "noc_address"; "reserved1"];
  layout "tenstorrent_allocate_dma_buf" [];
  layout "tenstorrent_free_dma_buf" [];
  layout "tenstorrent_get_driver_info_in" ["output_size_bytes"];
  layout "tenstorrent_get_driver_info_out" ["output_size_bytes"; "driver_version";
    "driver_version_major"; "driver_version_minor"; "driver_version_patch"; "reserved0"];
  layout "tenstorrent_get_driver_info" [];
  layout "tenstorrent_reset_device_in" ["output_size_bytes"; "flags"];
  layout "tenstorrent_reset_device_out" ["output_size_bytes"; "result"];
  layout "tenstorrent_reset_device" [];
  layout "tenstorrent_pin_pages_in" ["output_size_bytes"; "flags"; "virtual_address"; "size"];
  layout "tenstorrent_pin_pages_out" ["physical_address"];
  layout "tenstorrent_pin_pages_out_extended" ["physical_address"; "noc_address"];
  layout "tenstorrent_pin_pages" [];
  layout "tenstorrent_unpin_pages_in" ["virtual_address"; "size"; "reserved"];
  layout "tenstorrent_unpin_pages" [];
  layout "tenstorrent_lock_ctl_in" ["output_size_bytes"; "flags"; "index"];
  layout "tenstorrent_lock_ctl_out" ["value"];
  layout "tenstorrent_lock_ctl" [];
  layout "tenstorrent_map_peer_bar_in" ["peer_fd"; "peer_bar_index"; "peer_bar_offset";
    "peer_bar_length"; "flags"; "reserved"];
  layout "tenstorrent_map_peer_bar_out" ["dma_address"; "reserved"];
  layout "tenstorrent_map_peer_bar" []]%string.
Definition main_layouts_2 : list Line := concat [
  layout "tenstorrent_allocate_tlb_in" ["size"; "reserved"];
  layout "tenstorrent_allocate_tlb_out" ["id"; "reserved0"; "mmap_offset_uc"; "mmap_offset_wc";
    "reserved1"];
  layout "tenstorrent_allocate_tlb" [];
  layout "tenstorrent_free_tlb_in" ["id"];
  layout "tenstorrent_free_tlb" [];
  layout "tenstorrent_noc_tlb_config" ["addr"; "x_end"; "y_end"; "x_start"; "y_start"; "noc";
    "mcast"; "ordering"; "linked"; "static_vc"; "reserved0"; "reserved1"];
  layout "tenstorrent_configure_tlb_in" ["id"; "reserved"; "config"];
  layout "tenstorrent_configure_tlb_out" ["reserved"];
  layout "tenstorrent_configure_tlb" [];
  layout "tenstorrent_set_noc_cleanup" ["argsz"; "flags"; "enabled"; "x"; "y"; "noc";
    "reserved0"; "addr"; "data"];
  layout "tenstorrent_power_state" ["argsz"; "flags"; "reserved0"; "validity"; "power_flags";
    "power_settings"];
  layout "tenstorrent_export_tlb_dmabuf" ["argsz"; "flags"; "tlb_id"; "fd"; "offset"; "size"];
  layout "tenstorrent_smc_msg" ["argsz"; "flags"; "queue_index"; "reserved0"; "message"]]%string.
Definition main_lines : list Line := main_head ++ main_codes ++ main_layouts_1 ++ main_layouts_2.

(** ** printf *)
Fixpoint repl (c : ascii) (n : nat) : string :=
  match n with O => EmptyString | S k => String c (repl c k) end.
(** [%-<n>s] and [%<n>...]. *)
Definition padr (n : nat) (s : string) : string := s +:+ repl " " (n - String.length s).
Definition padl (c : ascii) (n : nat) (s : string) : string := repl c (n - String.length s) +:+ s.
(** [%zu] *)
Definition zu (n : N) : string := pretty n.
(** [%08lx], of an [unsigned long]: no leading zero beyond eight digits. *)
Definition hex_digit (d : N) : ascii :=
  ascii_of_N (if (d <? 10)%N then 48 + d else 87 + d).
Fixpoint hex_fixed (n : nat) (v : N) : string :=
  match n with
  | O => EmptyString
  | S k => hex_fixed k (v / 16) +:+ String (hex_digit (v mod 16)) EmptyString
  end.
Fixpoint ltrim (c : ascii) (s : string) : string :=
  match s with
  | EmptyString => s
  | String a r => if Ascii.eqb a c then ltrim c r else s
  end.
Definition lx08 (v : N) : string := padl "0" 8 (ltrim "0" (hex_fixed 16 v)).

(** One line: the [printf] of the macros [S] and [F] and of the code lines. *)
Definition print_line (h : Header) (l : Line) : string :=
  (match l with
   | Text s => s
   | Ioctl n => "ioctl " +:+ padr 35 n +:+ " 0x" +:+ lx08 (h_code h n mod 2 ^ 64)
   | S_ t => "sizeof " +:+ padr 45 t +:+ " " +:+ zu (h_sizeof h t)
   | F_ t f => "offset " +:+ padr 45 t +:+ " " +:+ padr 28 f +:+ " "
       +:+ padl " " 3 (zu (h_offsetof h t f)) +:+ " " +:+ padl " " 2 (zu (h_fieldsize h t f))
   end)%string.
Definition abi_ground_truth (h : Header) : list string := print_line h <$> main_lines.

(** ** docs/abi-ground-truth.txt *)
Definition abi_ground_truth_txt : list string := [
  "# ABI ground truth for tt-kmd ioctl.h, generated by abi_ground_truth.c";
  "# Baseline: ttkmd-2.11.0 (c05f224); x86_64; format:";
  "#   sizeof <struct> <bytes> | offset <struct> <field> <offset> <fieldsize>";
  EmptyString;
  "ioctl TENSTORRENT_IOCTL_GET_DEVICE_INFO   0x0000fa00";
  "ioctl TENSTORRENT_IOCTL_GET_HARVESTING    0x0000fa01";
  "ioctl TENSTORRENT_IOCTL_QUERY_MAPPINGS    0x0000fa02";
  "ioctl TENSTORRENT_IOCTL_ALLOCATE_DMA_BUF  0x0000fa03";
  "ioctl TENSTORRENT_IOCTL_FREE_DMA_BUF      0x0000fa04";
  "ioctl TENSTORRENT_IOCTL_GET_DRIVER_INFO   0x0000fa05";
  "ioctl TENSTORRENT_IOCTL_RESET_DEVICE      0x0000fa06";
  "ioctl TENSTORRENT_IOCTL_PIN_PAGES         0x0000fa07";
  "ioctl TENSTORRENT_IOCTL_LOCK_CTL          0x0000fa08";
  "ioctl TENSTORRENT_IOCTL_MAP_PEER_BAR      0x0000fa09";
  "ioctl TENSTORRENT_IOCTL_UNPIN_PAGES       0x0000fa0a";
  "ioctl TENSTORRENT_IOCTL_ALLOCATE_TLB      0x0000fa0b";
  "ioctl TENSTORRENT_IOCTL_FREE_TLB          0x0000fa0c";
  "ioctl TENSTORRENT_IOCTL_CONFIGURE_TLB     0x0000fa0d";
  "ioctl TENSTORRENT_IOCTL_SET_NOC_CLEANUP   0x0000fa0e";
  "ioctl TENSTORRENT_IOCTL_SET_POWER_STATE   0x0000fa0f";
  "ioctl TENSTORRENT_IOCTL_EXPORT_TLB_DMABUF 0x0000fa10";
  "ioctl TENSTORRENT_IOCTL_SMC_MSG           0x0000fa11";
  EmptyString;
  "sizeof tenstorrent_get_device_info_in                4";
  "offset tenstorrent_get_device_info_in                output_size_bytes              0  4";
  "sizeof tenstorrent_get_device_info_out               20";
  "offset tenstorrent_get_device_info_out               output_size_bytes              0  4";
  "offset tenstorrent_get_device_info_out               vendor_id                      4  2";
  "offset tenstorrent_get_device_info_out               device_id                      6  2";
  "offset tenstorrent_get_device_info_out               subsystem_vendor_id            8  2";
  "offset tenstorrent_get_device_info_out               subsystem_id                  10  2";
  "offset tenstorrent_get_device_info_out               bus_dev_fn                    12  2";
  "offset tenstorrent_get_device_info_out               max_dma_buf_size_log2         14  2";
  "offset tenstorrent_get_device_info_out               pci_domain                    16  2";
  "offset tenstorrent_get_device_info_out               reserved                      18  2";
  "sizeof tenstorrent_get_device_info                   24";
  "sizeof tenstorrent_query_mappings_in                 8";
  "offset tenstorrent_query_mappings_in                 output_mapping_count           0  4";
  "offset tenstorrent_query_mappings_in                 reserved                       4  4";
  "sizeof tenstorrent_mapping                           24";
  "offset tenstorrent_mapping                           mapping_id                     0  4";
  "offset tenstorrent_mapping                           reserved                       4  4";
  "offset tenstorrent_mapping                           mapping_base                   8  8";
  "offset tenstorrent_mapping                           mapping_size                  16  8";
  "sizeof tenstorrent_query_mappings                    8";
  "sizeof tenstorrent_allocate_dma_buf_in               24";
  "offset tenstorrent_allocate_dma_buf_in               requested_size                 0  4";
  "offset tenstorrent_allocate_dma_buf_in               buf_index                      4  1";
  "offset tenstorrent_allocate_dma_buf_in               flags                          5  1";
  "offset tenstorrent_allocate_dma_buf_in               reserved0                      6  2";
  "offset tenstorrent_allocate_dma_buf_in               reserved1                      8 16";
  "sizeof tenstorrent_allocate_dma_buf_out              40";
  "offset tenstorrent_allocate_dma_buf_out              physical_address               0  8";
  "offset tenstorrent_allocate_dma_buf_out              mapping_offset                 8  8";
  "offset tenstorrent_allocate_dma_buf_out              size                          16  4";
  "offset tenstorrent_allocate_dma_buf_out              reserved0                     20  4";
  "offset tenstorrent_allocate_dma_buf_out              noc_address                   24  8";
  "offset tenstorrent_allocate_dma_buf_out              reserved1                     32  8";
  "sizeof tenstorrent_allocate_dma_buf                  64";
  "sizeof tenstorrent_free_dma_buf                      0";
  "sizeof tenstorrent_get_driver_info_in                4";
  "offset tenstorrent_get_driver_info_in                output_size_bytes              0  4";
  "sizeof tenstorrent_get_driver_info_out               12";
  "offset tenstorrent_get_driver_info_out               output_size_bytes              0  4";
  "offset tenstorrent_get_driver_info_out               driver_version                 4  4";
  "offset tenstorrent_get_driver_info_out               driver_version_major           8  1";
  "offset tenstorrent_get_driver_info_out               driver_version_minor           9  1";
  "offset tenstorrent_get_driver_info_out               driver_version_patch          10  1";
  "offset tenstorrent_get_driver_info_out               reserved0                     11  1";
  "sizeof tenstorrent_get_driver_info                   16";
  "sizeof tenstorrent_reset_device_in                   8";
  "offset tenstorrent_reset_device_in                   output_size_bytes              0  4";
  "offset tenstorrent_reset_device_in                   flags                          4  4";
  "sizeof tenstorrent_reset_device_out                  8";
  "offset tenstorrent_reset_device_out                  output_size_bytes              0  4";
  "offset tenstorrent_reset_device_out                  result                         4  4";
  "sizeof tenstorrent_reset_device                      16";
  "sizeof tenstorrent_pin_pages_in                      24";
  "offset tenstorrent_pin_pages_in                      output_size_bytes              0  4";
  "offset tenstorrent_pin_pages_in                      flags                          4  4";
  "offset tenstorrent_pin_pages_in                      virtual_address                8  8";
  "offset tenstorrent_pin_pages_in                      size                          16  8";
  "sizeof tenstorrent_pin_pages_out                     8";
  "offset tenstorrent_pin_pages_out                     physical_address               0  8";
  "sizeof tenstorrent_pin_pages_out_extended            16";
  "offset tenstorrent_pin_pages_out_extended            physical_address               0  8";
  "offset tenstorrent_pin_pages_out_extended            noc_address                    8  8";
  "sizeof tenstorrent_pin_pages                         32";
  "sizeof tenstorrent_unpin_pages_in                    24";
  "offset tenstorrent_unpin_pages_in                    virtual_address                0  8";
  "offset tenstorrent_unpin_pages_in                    size                           8  8";
  "offset tenstorrent_unpin_pages_in                    reserved                      16  8";
  "sizeof tenstorrent_unpin_pages                       24";
  "sizeof tenstorrent_lock_ctl_in                       12";
  "offset tenstorrent_lock_ctl_in                       output_size_bytes              0  4";
  "offset tenstorrent_lock_ctl_in                       flags                          4  4";
  "offset tenstorrent_lock_ctl_in                       index                          8  1";
  "sizeof tenstorrent_lock_ctl_out                      4";
  "offset tenstorrent_lock_ctl_out                      value                          0  1";
  "sizeof tenstorrent_lock_ctl                          16";
  "sizeof tenstorrent_map_peer_bar_in                   24";
  "offset tenstorrent_map_peer_bar_in                   peer_fd                        0  4";
  "offset tenstorrent_map_peer_bar_in                   peer_bar_index                 4  4";
  "offset tenstorrent_map_peer_bar_in                   peer_bar_offset                8  4";
  "offset tenstorrent_map_peer_bar_in                   peer_bar_length               12  4";
  "offset tenstorrent_map_peer_bar_in                   flags                         16  4";
  "offset tenstorrent_map_peer_bar_in                   reserved                      20  4";
  "sizeof tenstorrent_map_peer_bar_out                  16";
  "offset tenstorrent_map_peer_bar_out                  dma_address                    0  8";
  "offset tenstorrent_map_peer_bar_out                  reserved                       8  8";
  "sizeof tenstorrent_map_peer_bar                      40";
  "sizeof tenstorrent_allocate_tlb_in                   16";
  "offset tenstorrent_allocate_tlb_in                   size                           0  8";
  "offset tenstorrent_allocate_tlb_in                   reserved                       8  8";
  "sizeof tenstorrent_allocate_tlb_out                  32";
  "offset tenstorrent_allocate_tlb_out                  id                             0  4";
  "offset tenstorrent_allocate_tlb_out                  reserved0                      4  4";
  "offset tenstorrent_allocate_tlb_out                  mmap_offset_uc                 8  8";
  "offset tenstorrent_allocate_tlb_out                  mmap_offset_wc                16  8";
  "offset tenstorrent_allocate_tlb_out                  reserved1                     24  8";
  "sizeof tenstorrent_allocate_tlb                      48";
  "sizeof tenstorrent_free_tlb_in                       4";
  "offset tenstorrent_free_tlb_in                       id                             0  4";
  "sizeof tenstorrent_free_tlb                          4";
  "sizeof tenstorrent_noc_tlb_config                    32";
  "offset tenstorrent_noc_tlb_config                    addr                           0  8";
  "offset tenstorrent_noc_tlb_config                    x_end                          8  2";
  "offset tenstorrent_noc_tlb_config                    y_end                         10  2";
  "offset tenstorrent_noc_tlb_config                    x_start                       12  2";
  "offset tenstorrent_noc_tlb_config                    y_start                       14  2";
  "offset tenstorrent_noc_tlb_config                    noc                           16  1";
  "offset tenstorrent_noc_tlb_config                    mcast                         17  1";
  "offset tenstorrent_noc_tlb_config                    ordering                      18  1";
  "offset tenstorrent_noc_tlb_config                    linked                        19  1";
  "offset tenstorrent_noc_tlb_config                    static_vc                     20  1";
  "offset tenstorrent_noc_tlb_config                    reserved0                     21  3";
  "offset tenstorrent_noc_tlb_config                    reserved1                     24  8";
  "sizeof tenstorrent_configure_tlb_in                  40";
  "offset tenstorrent_configure_tlb_in                  id                             0  4";
  "offset tenstorrent_configure_tlb_in                  reserved                       4  4";
  "offset tenstorrent_configure_tlb_in                  config                         8 32";
  "sizeof tenstorrent_configure_tlb_out                 8";
  "offset tenstorrent_configure_tlb_out                 reserved                       0  8";
  "sizeof tenstorrent_configure_tlb                     48";
  "sizeof tenstorrent_set_noc_cleanup                   32";
  "offset tenstorrent_set_noc_cleanup                   argsz                          0  4";
  "offset tenstorrent_set_noc_cleanup                   flags                          4  4";
  "offset tenstorrent_set_noc_cleanup                   enabled                        8  1";
  "offset tenstorrent_set_noc_cleanup                   x                              9  1";
  "offset tenstorrent_set_noc_cleanup                   y                             10  1";
  "offset tenstorrent_set_noc_cleanup                   noc                           11  1";
  "offset tenstorrent_set_noc_cleanup                   reserved0                     12  4";
  "offset tenstorrent_set_noc_cleanup                   addr                          16  8";
  "offset tenstorrent_set_noc_cleanup                   data                          24  8";
  "sizeof tenstorrent_power_state                       40";
  "offset tenstorrent_power_state                       argsz                          0  4";
  "offset tenstorrent_power_state                       flags                          4  4";
  "offset tenstorrent_power_state                       reserved0                      8  1";
  "offset tenstorrent_power_state                       validity                       9  1";
  "offset tenstorrent_power_state                       power_flags                   10  2";
  "offset tenstorrent_power_state                       power_settings                12 28";
  "sizeof tenstorrent_export_tlb_dmabuf                 32";
  "offset tenstorrent_export_tlb_dmabuf                 argsz                          0  4";
  "offset tenstorrent_export_tlb_dmabuf                 flags                          4  4";
  "offset tenstorrent_export_tlb_dmabuf                 tlb_id                         8  4";
  "offset tenstorrent_export_tlb_dmabuf                 fd                            12  4";
  "offset tenstorrent_export_tlb_dmabuf                 offset                        16  8";
  "offset tenstorrent_export_tlb_dmabuf                 size                          24  8";
  "sizeof tenstorrent_smc_msg                           48";
  "offset tenstorrent_smc_msg                           argsz                          0  4";
  "offset tenstorrent_smc_msg                           flags                          4  4";
  "offset tenstorrent_smc_msg                           queue_index                    8  4";
  "offset tenstorrent_smc_msg                           reserved0                     12  4";
  "offset tenstorrent_smc_msg                           message                       16 32"]%string.

(** ** ttkmd_ioctl.h under the same names

    Two of the structures the program prints have no counterpart: FREE_DMA_BUF
    takes no argument and MAP_PEER_BAR is not served. *)
Definition declared : list (string * cty) := [
  ("tenstorrent_get_device_info_in", tenstorrent_get_device_info_in);
  ("tenstorrent_get_device_info_out", tenstorrent_get_device_info_out);
  ("tenstorrent_get_device_info", tenstorrent_get_device_info);
  ("tenstorrent_query_mappings_in", tenstorrent_query_mappings_in);
  ("tenstorrent_mapping", tenstorrent_mapping);
  ("tenstorrent_query_mappings", tenstorrent_query_mappings);
  ("tenstorrent_allocate_dma_buf_in", tenstorrent_allocate_dma_buf_in);
  ("tenstorrent_allocate_dma_buf_out", tenstorrent_allocate_dma_buf_out);
  ("tenstorrent_allocate_dma_buf", tenstorrent_allocate_dma_buf);
  ("tenstorrent_get_driver_info_in", tenstorrent_get_driver_info_in);
  ("tenstorrent_get_driver_info_out", tenstorrent_get_driver_info_out);
  ("tenstorrent_get_driver_info", tenstorrent_get_driver_info);
  ("tenstorrent_reset_device_in", tenstorrent_reset_device_in);
  ("tenstorrent_reset_device_out", tenstorrent_reset_device_out);
  ("tenstorrent_reset_device", tenstorrent_reset_device);
  ("tenstorrent_pin_pages_in", tenstorrent_pin_pages_in);
  ("tenstorrent_pin_pages_out", tenstorrent_pin_pages_out);
  ("tenstorrent_pin_pages_out_extended", tenstorrent_pin_pages_out_extended);
  ("tenstorrent_pin_pages", tenstorrent_pin_pages);
  ("tenstorrent_unpin_pages_in", tenstorrent_unpin_pages_in);
  ("tenstorrent_unpin_pages", tenstorrent_unpin_pages);
  ("tenstorrent_lock_ctl_in", tenstorrent_lock_ctl_in);
  ("tenstorrent_lock_ctl_out", tenstorrent_lock_ctl_out);
  ("tenstorrent_lock_ctl", tenstorrent_lock_ctl);
  ("tenstorrent_allocate_tlb_in", tenstorrent_allocate_tlb_in);
  ("tenstorrent_allocate_tlb_out", tenstorrent_allocate_tlb_out);
  ("tenstorrent_allocate_tlb", tenstorrent_allocate_tlb);
  ("tenstorrent_free_tlb_in", tenstorrent_free_tlb_in);
  ("tenstorrent_free_tlb", tenstorrent_free_tlb);
  ("tenstorrent_noc_tlb_config", tenstorrent_noc_tlb_config);
  ("tenstorrent_configure_tlb_in", tenstorrent_configure_tlb_in);
  ("tenstorrent_configure_tlb_out", tenstorrent_configure_tlb_out);
  ("tenstorrent_configure_tlb", tenstorrent_configure_tlb);
  ("tenstorrent_set_noc_cleanup", tenstorrent_set_noc_cleanup);
  ("tenstorrent_power_state", tenstorrent_power_state);
  ("tenstorrent_export_tlb_dmabuf", tenstorrent_export_tlb_dmabuf);
  ("tenstorrent_smc_msg", tenstorrent_smc_msg)]%string.
Definition declared_codes : list (string * Z) := [
  ("TENSTORRENT_IOCTL_GET_DEVICE_INFO", IOCTL_TENSTORRENT_GET_DEVICE_INFO);
  ("TENSTORRENT_IOCTL_GET_HARVESTING", IOCTL_TENSTORRENT_GET_HARVESTING);
  ("TENSTORRENT_IOCTL_QUERY_MAPPINGS", IOCTL_TENSTORRENT_QUERY_MAPPINGS);
  ("TENSTORRENT_IOCTL_ALLOCATE_DMA_BUF", IOCTL_TENSTORRENT_ALLOCATE_DMA_BUF);
  ("TENSTORRENT_IOCTL_FREE_DMA_BUF", IOCTL_TENSTORRENT_FREE_DMA_BUF);
  ("TENSTORRENT_IOCTL_GET_DRIVER_INFO", IOCTL_TENSTORRENT_GET_DRIVER_INFO);
  ("TENSTORRENT_IOCTL_RESET_DEVICE", IOCTL_TENSTORRENT_RESET_DEVICE);
  ("TENSTORRENT_IOCTL_PIN_PAGES", IOCTL_TENSTORRENT_PIN_PAGES);
  ("TENSTORRENT_IOCTL_LOCK_CTL", IOCTL_TENSTORRENT_LOCK_CTL);
  ("TENSTORRENT_IOCTL_MAP_PEER_BAR", IOCTL_TENSTORRENT_MAP_PEER_BAR);
  ("TENSTORRENT_IOCTL_UNPIN_PAGES", IOCTL_TENSTORRENT_UNPIN_PAGES);
  ("TENSTORRENT_IOCTL_ALLOCATE_TLB", IOCTL_TENSTORRENT_ALLOCATE_TLB);
  ("TENSTORRENT_IOCTL_FREE_TLB", IOCTL_TENSTORRENT_FREE_TLB);
  ("TENSTORRENT_IOCTL_CONFIGURE_TLB", IOCTL_TENSTORRENT_CONFIGURE_TLB);
  ("TENSTORRENT_IOCTL_SET_NOC_CLEANUP", IOCTL_TENSTORRENT_SET_NOC_CLEANUP);
  ("TENSTORRENT_IOCTL_SET_POWER_STATE", IOCTL_TENSTORRENT_SET_POWER_STATE);
  ("TENSTORRENT_IOCTL_EXPORT_TLB_DMABUF", IOCTL_TENSTORRENT_EXPORT_TLB_DMABUF);
  ("TENSTORRENT_IOCTL_SMC_MSG", IOCTL_TENSTORRENT_SMC_MSG)]%string.
Fixpoint find_named {A} (l : list (string * A)) (n : string) : option A :=
  match l with [] => None | (m, x) :: r => if String.eqb m n then Some x else find_named r n end.

(** The same answers from the declarations of ttkmd_ioctl.h.  Its control codes
    carry the request number; the Linux code is the number under the magic byte,
    [_IO(TENSTORRENT_IOCTL_MAGIC, nr)]. *)
Definition windows : Header := {|
  h_sizeof t := Z.to_N (from_option c_sizeof 0 (find_named declared t));
  h_offsetof t f := Z.to_N (from_option (λ d, c_offsetof d f) 0 (find_named declared t));
  h_fieldsize t f := Z.to_N (from_option (λ d, c_fieldsize d f) 0 (find_named declared t));
  h_code n := Z.to_N (TENSTORRENT_IOCTL_MAGIC * 256 + from_option TtIoctlNr 0 (find_named declared_codes n))
|}.

(** What a line says of the two headers: the structure has the same size; a
    field read or written at the place [h] gives it is the field of the Windows
    structure; the request has the same number. *)
Definition same_abi (h : Header) (l : Line) : Prop :=
  match l with
  | Text _ => True
  | Ioctl n => ∃ c, find_named declared_codes n = Some c
      ∧ Z.of_N (h_code h n mod 2 ^ 64) = TENSTORRENT_IOCTL_MAGIC * 256 + TtIoctlNr c
  | S_ t => ∀ d, find_named declared t = Some d → Z.of_N (h_sizeof h t) = c_sizeof d
  | F_ t f => ∀ d, find_named declared t = Some d → ∀ b,
      le_decode (bytes_at (Z.of_N (h_offsetof h t f)) (Z.of_N (h_fieldsize h t f)) b) = sget d f b
      ∧ ∀ v, splice (N.to_nat (h_offsetof h t f)) (le_encode (N.to_nat (h_fieldsize h t f)) v) b = sput d f v b
  end.

(** ** printf is injective in its numbers *)
Fixpoint each (p : ascii → bool) (s : string) : bool :=
  match s with EmptyString => true | String c r => p c && each p r end.
Definition is_dec (c : ascii) : bool := (48 <=? N_of_ascii c)%N && (N_of_ascii c <=? 57)%N.

Lemma app_nil_s (a : string) : a +:+ EmptyString = a.
Proof. induction a as [|x a IH]; [done|]. change (String x (a +:+ EmptyString) = String x a). by f_equal. Qed.

Lemma pretty_go_dec x s : each is_dec s = true → each is_dec (pretty_N_go x s) = true.
Proof.
  revert s. induction (N.lt_wf_0 x) as [x _ IH]. intros s Hs.
  destruct (decide (0 < x)%N); [|by replace x with 0%N by lia].
  rewrite pretty_N_go_step by done. apply IH; [by apply N.div_lt|]. cbn [each]. rewrite Hs, andb_true_r.
  unfold pretty_N_char. by repeat case_match.
Qed.

Lemma pretty_go_nonempty x s : s ≠ EmptyString → pretty_N_go x s ≠ EmptyString.
Proof.
  revert s. induction (N.lt_wf_0 x) as [x _ IH]. intros s Hs.
  destruct (decide (0 < x)%N); [|by replace x with 0%N by lia].
  rewrite pretty_N_go_step by done. apply IH; [by apply N.div_lt | done].
Qed.

Lemma zu_dec n : each is_dec (zu n) = true.
Proof. unfold zu, pretty, pretty_N. case_decide; [done | by apply pretty_go_dec]. Qed.

Lemma zu_nonempty n : zu n ≠ EmptyString.
Proof.
  unfold zu, pretty, pretty_N. case_decide; [done|].
  rewrite pretty_N_go_step by lia. by apply pretty_go_nonempty.
Qed.

(** A padded number followed by what does not start with a digit is read back. *)
Definition stops (r : string) : Prop := ∀ c r', r = String c r' → is_dec c = false.

Lemma dec_prefix s t r r' : each is_dec s = true → each is_dec t = true → stops r → stops r' →
  s +:+ r = t +:+ r' → s = t ∧ r = r'.
Proof.
  revert t. induction s as [|c s IH]; intros [|d t] Hs Ht Hr Hr' E.
  - done.
  - exfalso. apply andb_true_iff in Ht as [Ht _]. change (r = String d (t +:+ r')) in E. by rewrite (Hr _ _ E) in Ht.
  - exfalso. apply andb_true_iff in Hs as [Hs _]. change (String c (s +:+ r) = r') in E. by rewrite (Hr' _ _ (eq_sym E)) in Hs.
  - apply andb_true_iff in Hs as [_ Hs], Ht as [_ Ht]. injection E as -> E.
    by destruct (IH t Hs Ht Hr Hr' E) as [-> ->].
Qed.

Lemma ltrim_padl c n s : ltrim c (padl c n s) = ltrim c s.
Proof. unfold padl. induction (n - String.length s)%nat as [|k IH]; [done|].
  change (ltrim c (String c (repl c k +:+ s)) = ltrim c s). cbn [ltrim]. by rewrite Ascii.eqb_refl.
Qed.

Lemma padl_app c n s r : ltrim c (padl c n s +:+ r) = ltrim c (s +:+ r).
Proof.
  unfold padl. induction (n - String.length s)%nat as [|k IH]; [done|].
  change (ltrim c (String c ((repl c k +:+ s) +:+ r)) = ltrim c (s +:+ r)). cbn [ltrim]. by rewrite Ascii.eqb_refl.
Qed.

Lemma ltrim_zu n r : ltrim " " (zu n +:+ r) = zu n +:+ r.
Proof.
  pose proof (zu_dec n) as Hd. pose proof (zu_nonempty n) as Hn. destruct (zu n) as [|c s]; [done|].
  apply andb_true_iff in Hd as [Hd _]. change (ltrim " " (String c (s +:+ r)) = String c (s +:+ r)). cbn [ltrim].
  destruct (Ascii.eqb_spec c " ") as [->|_]; [done | reflexivity].
Qed.

Lemma zu_field n a b r r' : stops r → stops r' →
  padl " " n (zu a) +:+ r = padl " " n (zu b) +:+ r' → a = b ∧ r = r'.
Proof.
  intros Hr Hr' E. apply (f_equal (ltrim " ")) in E. rewrite !padl_app, !ltrim_zu in E.
  destruct (dec_prefix _ _ _ _ (zu_dec a) (zu_dec b) Hr Hr' E) as [E1 E2]. by apply (inj pretty) in E1.
Qed.

(** *** Hexadecimal *)
Definition hex_value (c : ascii) : N := let n := N_of_ascii c in if (n <? 58)%N then n - 48 else n - 87.
Fixpoint unhex (acc : N) (s : string) : N :=
  match s with EmptyString => acc | String c r => unhex (acc * 16 + hex_value c)%N r end.

Lemma hex_value_digit d : (d < 16)%N → hex_value (hex_digit d) = d.
Proof.
  intros Hd. assert (d ∈ N.of_nat <$> seq 0 16) as Hin.
  { apply list_elem_of_fmap. exists (N.to_nat d). split; [lia|]. apply elem_of_seq. lia. }
  revert Hin. clear. revert d. apply list.Forall_forall. repeat constructor.
Qed.

Lemma unhex_app acc s t : unhex acc (s +:+ t) = unhex (unhex acc s) t.
Proof. revert acc. induction s as [|c s IH]; intros acc; [done|]. apply IH. Qed.

Lemma unhex_fixed n v : unhex 0 (hex_fixed n v) = (v mod 16 ^ N.of_nat n)%N.
Proof.
  revert v. induction n as [|n IH]; intros v; [by rewrite N.mod_1_r|].
  cbn [hex_fixed]. rewrite unhex_app, IH. cbn [unhex]. rewrite hex_value_digit by (by apply N.mod_lt).
  rewrite Nat2N.inj_succ, N.pow_succ_r', N.Div0.mod_mul_r. lia.
Qed.

Lemma unhex_ltrim s : unhex 0 (ltrim "0" s) = unhex 0 s.
Proof. induction s as [|c s IH]; [done|]. cbn [ltrim]. destruct (Ascii.eqb_spec c "0") as [->|_]; [exact IH | done]. Qed.

Lemma unhex_lx08 v : unhex 0 (lx08 v) = (v mod 2 ^ 64)%N.
Proof. unfold lx08. by rewrite <-unhex_ltrim, ltrim_padl, unhex_ltrim, unhex_ltrim, unhex_fixed. Qed.

(** ** The recorded output *)

(** What a line prints determines the numbers in it. *)
Definition same_numbers (h k : Header) (l : Line) : Prop :=
  match l with
  | Text _ => True
  | Ioctl n => (h_code h n mod 2 ^ 64 = h_code k n mod 2 ^ 64)%N
  | S_ t => h_sizeof h t = h_sizeof k t
  | F_ t f => h_offsetof h t f = h_offsetof k t f ∧ h_fieldsize h t f = h_fieldsize k t f
  end.

Lemma stops_nil : stops EmptyString.
Proof. intros c r [=]. Qed.
Lemma stops_space r : stops (String " " r).
Proof. by intros c r' [= <- _]. Qed.

Lemma line_inj h k l : print_line h l = print_line k l → same_numbers h k l.
Proof.
  destruct l as [s|n|t|t f]; cbn [print_line same_numbers]; intros E; [done|..];
    repeat apply (inj (String.app _)) in E.
  - apply (f_equal (unhex 0)) in E. rewrite !unhex_lx08 in E. by rewrite !N.Div0.mod_mod in E.
  - by apply (inj pretty) in E.
  - destruct (zu_field 3 _ _ _ _ (stops_space _) (stops_space _) E) as [E1 E2]. split; [done|].
    apply (inj (String.app " ")) in E2. rewrite <-(app_nil_s (padl _ _ (zu (h_fieldsize h t f)))), <-(app_nil_s (padl _ _ (zu (h_fieldsize k t f)))) in E2.
    by destruct (zu_field 2 _ _ _ _ stops_nil stops_nil E2).
Qed.

(** Whether ttkmd_ioctl.h has what the line is about. *)
Definition served (l : Line) : bool :=
  match l with
  | Text _ => true
  | Ioctl n => bool_decide (is_Some (find_named declared_codes n))
  | S_ t | F_ t _ => bool_decide (is_Some (find_named declared t))
  end.

(** Its declarations give the recorded text, line by line; layouts are not negative. *)
Definition in_range (l : Line) : bool :=
  match l with
  | Text _ => true
  | Ioctl n => (0 <=? from_option TtIoctlNr 0 (find_named declared_codes n))
      && (from_option TtIoctlNr 0 (find_named declared_codes n) <? 256)
  | S_ t => from_option (λ d, 0 <=? c_sizeof d) true (find_named declared t)
  | F_ t f => from_option (λ d, (0 <=? c_offsetof d f) && (0 <=? c_fieldsize d f)) true (find_named declared t)
  end.

Lemma windows_prints : forallb (λ '(l, s), negb (served l) || bool_decide (print_line windows l = s))
  (zip main_lines abi_ground_truth_txt) = true.
Proof. vm_compute. reflexivity. Qed.
Lemma lines_in_range : forallb in_range main_lines = true.
Proof. vm_compute. reflexivity. Qed.
Lemma codes_served : forallb (λ l, match l with Ioctl _ => served l | _ => true end) main_lines = true.
Proof. vm_compute. reflexivity. Qed.

Lemma printed_same h l : abi_ground_truth h = abi_ground_truth_txt → l ∈ main_lines → served l = true → same_numbers h windows l.
Proof.
  intros Hh Hl Hs. apply line_inj. apply list_elem_of_lookup in Hl as [i Hi].
  assert (abi_ground_truth_txt !! i = Some (print_line h l)) as Ht by by rewrite <-Hh; unfold abi_ground_truth; rewrite list_lookup_fmap, Hi.
  pose proof windows_prints as Hw. rewrite forallb_forall in Hw.
  specialize (Hw (l, print_line h l)). cbn beta iota in Hw. rewrite Hs in Hw. apply bool_decide_eq_true in Hw; [done|].
  apply list_elem_of_In, list_elem_of_lookup. exists i. rewrite lookup_zip_with, Hi, Ht. reflexivity.
Qed.

(** C18 The recorded output pins the ABI: whatever header the printer is
    compiled against, if it prints docs/abi-ground-truth.txt then each request
    has the number ttkmd_ioctl.h encodes in its control code, each structure it
    prints has the size of the Windows structure of that name, and each field,
    read or written where the other header puts it, is the Windows field. *)
Theorem ground_truth_pins_abi h : abi_ground_truth h = abi_ground_truth_txt → ∀ l, l ∈ main_lines → same_abi h l.
Proof.
  intros Hh l Hl. pose proof lines_in_range as Hr. rewrite forallb_forall in Hr.
  specialize (Hr l (proj1 (list_elem_of_In _ _) Hl)).
  pose proof (printed_same h l Hh Hl) as Hp.
  destruct l as [s|n|t|t f]; cbn [same_abi same_numbers served in_range windows h_sizeof h_offsetof h_fieldsize h_code] in *; [done|..].
  - pose proof codes_served as Hc. rewrite forallb_forall in Hc. specialize (Hc _ (proj1 (list_elem_of_In _ _) Hl)). cbn [served] in Hc.
    rewrite (Hp Hc). apply bool_decide_eq_true in Hc as [c Hc]. rewrite Hc in Hr |- *. cbn [from_option] in *.
    apply andb_true_iff in Hr as [Hr1 Hr2]. apply Z.leb_le in Hr1. apply Z.ltb_lt in Hr2. exists c. split; [done|].
    rewrite N2Z.inj_mod, Z2N.id by (unfold TENSTORRENT_IOCTL_MAGIC; lia). apply Z.mod_small. unfold TENSTORRENT_IOCTL_MAGIC. lia.
  - intros d Hd. rewrite Hd in *. cbn [from_option] in *. rewrite Hp by (by apply bool_decide_eq_true).
    apply Z2N.id. by apply Z.leb_le.
  - intros d Hd b. rewrite Hd in *. cbn [from_option] in *. apply andb_true_iff in Hr as [Hr1 Hr2]. apply Z.leb_le in Hr1, Hr2.
    destruct Hp as [-> ->]; [by apply bool_decide_eq_true|]. rewrite !Z2N.id by done. split; [done|].
    intros v. unfold sput. by rewrite !Z_N_nat.
Qed.

(** A header that prints the record: the structures of ttkmd_ioctl.h, and the
    two that only Linux has. *)
Definition linux_only : list (string * cty) := [("tenstorrent_free_dma_buf", Struct []);
  ("tenstorrent_map_peer_bar_in", Struct [("peer_fd", U32); ("peer_bar_index", U32); ("peer_bar_offset", U32);
    ("peer_bar_length", U32); ("flags", U32); ("reserved", U32)]);
  ("tenstorrent_map_peer_bar_out", Struct [("dma_address", U64); ("reserved", U64)]);
  ("tenstorrent_map_peer_bar", Struct [("in", Arr U64 3); ("out", Arr U64 2)])]%string.
Definition sample_header : Header :=
  let decl t := find_named (declared ++ linux_only) t in {|
  h_sizeof t := Z.to_N (from_option c_sizeof 0 (decl t));
  h_offsetof t f := Z.to_N (from_option (λ d, c_offsetof d f) 0 (decl t));
  h_fieldsize t f := Z.to_N (from_option (λ d, c_fieldsize d f) 0 (decl t));
  h_code n := h_code windows n
|}.

Lemma ground_truth_pins_abi_witness :
  F_ "tenstorrent_noc_tlb_config" "ordering" ∈ main_lines ∧ same_abi sample_header (F_ "tenstorrent_noc_tlb_config" "ordering").
Proof.
  assert (F_ "tenstorrent_noc_tlb_config" "ordering" ∈ main_lines) as Hl.
  { apply list_elem_of_In. vm_compute. tauto. }
  split; [exact Hl|]. apply (ground_truth_pins_abi sample_header); [vm_compute; reflexivity | exact Hl].
Defined.
