(* ===== verification/Platform.v ===== *)
(** * The driver's state and the platform it runs on

    [Platform] is the interface to what is not in the repository: the NT
    kernel, the WDF framework, the PCI configuration space and the card.  The
    driver's calls into it are the operations of the class; its documented
    guarantees, where a theorem needs one, are the separate law classes.
    [World] is the driver's own state (TT_DEVICE_CONTEXT, the file contexts,
    the DMA-buffer structures it allocates, its requests) together with the
    opaque platform state and the trace of the calls made so far. *)
From S2P Require Import Prelude.

(** ** Status codes

    [STATUS_FRAMEWORK n] stands for any failure status that a framework call
    returned and the driver hands on unchanged. *)
Inductive NTSTATUS :=
  | STATUS_SUCCESS
  | STATUS_INVALID_PARAMETER
  | STATUS_ACCESS_VIOLATION
  | STATUS_ACCESS_DENIED
  | STATUS_DEVICE_BUSY
  | STATUS_INSUFFICIENT_RESOURCES
  | STATUS_DEVICE_REMOVED
  | STATUS_DEVICE_NOT_READY
  | STATUS_NOT_SUPPORTED
  | STATUS_NOT_FOUND
  | STATUS_QUOTA_EXCEEDED
  | STATUS_OBJECT_NAME_COLLISION
  | STATUS_INVALID_DEVICE_REQUEST
  | STATUS_DEVICE_CONFIGURATION_ERROR
  | STATUS_FRAMEWORK (code : Z).

#[global] Instance NTSTATUS_eq_dec : EqDecision NTSTATUS.
Proof. solve_decision. Defined.

Definition NT_SUCCESS (s : NTSTATUS) : bool := bool_decide (s = STATUS_SUCCESS).

(** ** The vocabulary of the trace *)
Inductive Lock :=
  | DeviceListLock | ResetResource | FileListLock | PowerLock | FileLock (f : Z)
  | TlbLock | IatuLock | LockLock | ArcMsgLock | KernelTlbLock.

#[global] Instance Lock_eq_dec : EqDecision Lock.
Proof. solve_decision. Defined.

(** The kernel mappings of BAR0 and BAR2 that registers are reached through. *)
Inductive MmioRegion := RTlbRegs | RKernelTlb | RNoc2AxiCfg | RBar2.

#[global] Instance MmioRegion_eq_dec : EqDecision MmioRegion.
Proof. solve_decision. Defined.

Inductive MEMORY_CACHING_TYPE := MmNonCached | MmCached | MmWriteCombined.

#[global] Instance MEMORY_CACHING_TYPE_eq_dec : EqDecision MEMORY_CACHING_TYPE.
Proof. solve_decision. Defined.

Inductive PoolTag := TT_TAG_MAPPING | TT_TAG_PINNING | TT_TAG_DMABUF.

#[global] Instance PoolTag_eq_dec : EqDecision PoolTag.
Proof. solve_decision. Defined.

(** Kernel objects the driver acquires and must give back. *)
Inductive Resource :=
  | RsPool (p : Z)                 (* ExAllocatePool2 / ExFreePoolWithTag *)
  | RsMdl (mdl : Z)                (* IoAllocateMdl / IoFreeMdl *)
  | RsView (va mdl : Z)            (* MmMapLockedPagesSpecifyCache / MmUnmapLockedPages *)
  | RsLockedPages (mdl : Z)        (* MmProbeAndLockPages / MmUnlockPages *)
  | RsCommonBuffer (b : Z)         (* WdfCommonBufferCreate / WdfObjectDelete *)
  | RsProcess (p : Z)              (* ObReferenceObject / ObDereferenceObject *)
  | RsIoSpace (r : MmioRegion) (len : Z)  (* MmMapIoSpaceEx / MmUnmapIoSpace *)
  | RsBusInterface                 (* BUS_INTERFACE_STANDARD, from its query on *)
  | RsResetInterface.              (* InterfaceReference / InterfaceDereference *)

#[global] Instance Resource_eq_dec : EqDecision Resource.
Proof. solve_decision. Defined.

(** One externally visible action of the driver. *)
Inductive Event :=
  | EvLock (l : Lock)              (* a wait lock, or the reset resource exclusive *)
  | EvLockShared                   (* the reset resource shared *)
  | EvUnlock (l : Lock)
  | EvGet (r : Resource)
  | EvPut (r : Resource)
  | EvRead (r : MmioRegion) (off val : Z)
  | EvWrite (r : MmioRegion) (off val : Z)
  | EvCfgRead (off size : Z)
  | EvCfgWrite (off size val : Z)
  | EvTime
  | EvDelay
  | EvBarrier
  | EvZero (b len : Z)             (* RtlZeroMemory of a common buffer *)
  | EvMapPages (cache : MEMORY_CACHING_TYPE) (pfns : list Z)
  | EvAttach (p : Z)
  | EvDetach
  | EvForward (req : Z)
  | EvComplete (req : Z) (s : NTSTATUS)
  | EvPldrEnqueue
  | EvPldrInvoke
  | EvOutOfFuel.

(** How often the driver owns [r] after a trace (newest event first), and the
    pool blocks that are allocated. *)
Definition ev_count (r : Resource) (e : Event) : Z :=
  match e with
  | EvGet r' => if decide (r = r') then 1 else 0
  | EvPut r' => if decide (r = r') then -1 else 0
  | _ => 0
  end.
Fixpoint live (r : Resource) (t : list Event) : Z :=
  match t with [] => 0 | e :: t' => ev_count r e + live r t' end.
Definition live_blocks (t : list Event) : gset Z :=
  list_to_set (filter (λ p, 0 < live (RsPool p) t)
    (omap (λ e, match e with EvGet (RsPool p) => Some p | _ => None end) t)).

(** ** The driver's data (ttkmd.h) *)
(** One coherent DMA buffer; [db_Buffer] is the WDFCOMMONBUFFER handle and
    [db_IatuRegion = -1] means no aperture. *)
Record TT_DMABUF := mkDmaBuf {
  db_Buffer : Z;
  db_Size : Z;
  db_Index : Z;
  db_Logical : Z;
  db_IatuRegion : Z
}.
#[global] Instance set_db_Buffer : Setter db_Buffer := λ F r, mkDmaBuf (F (db_Buffer r)) (db_Size r)
  (db_Index r) (db_Logical r) (db_IatuRegion r).
#[global] Instance set_db_Size : Setter db_Size := λ F r, mkDmaBuf (db_Buffer r) (F (db_Size r))
  (db_Index r) (db_Logical r) (db_IatuRegion r).
#[global] Instance set_db_Index : Setter db_Index := λ F r, mkDmaBuf (db_Buffer r) (db_Size r) (F
  (db_Index r)) (db_Logical r) (db_IatuRegion r).
#[global] Instance set_db_Logical : Setter db_Logical := λ F r, mkDmaBuf (db_Buffer r) (db_Size r)
  (db_Index r) (F (db_Logical r)) (db_IatuRegion r).
#[global] Instance set_db_IatuRegion : Setter db_IatuRegion := λ F r, mkDmaBuf (db_Buffer r)
  (db_Size r) (db_Index r) (db_Logical r) (F (db_IatuRegion r)).

(** A memory descriptor list: its handle and its PFN array. *)
Record MDL := mkMdl {
  mdl_Handle : Z;
  mdl_Pfns : list Z
}.

(** One user-mode mapping.  [um_Block] is the address of the pool block that
    holds the structure, [um_DmaBuf] the address of the DMA buffer behind it. *)
Record TT_USER_MAPPING := mkMapping {
  um_Block : Z;
  um_UserVa : option Z;
  um_Mdl : option MDL;
  um_Length : Z;
  um_TlbId : Z;
  um_IsDmaBuf : bool;
  um_DmaBuf : option Z;
  um_Process : option Z
}.
#[global] Instance set_um_Block : Setter um_Block := λ F r, mkMapping (F (um_Block r)) (um_UserVa r)
  (um_Mdl r) (um_Length r) (um_TlbId r) (um_IsDmaBuf r) (um_DmaBuf r) (um_Process r).
#[global] Instance set_um_UserVa : Setter um_UserVa := λ F r, mkMapping (um_Block r) (F (um_UserVa
  r)) (um_Mdl r) (um_Length r) (um_TlbId r) (um_IsDmaBuf r) (um_DmaBuf r) (um_Process r).
#[global] Instance set_um_Mdl : Setter um_Mdl := λ F r, mkMapping (um_Block r) (um_UserVa r) (F
  (um_Mdl r)) (um_Length r) (um_TlbId r) (um_IsDmaBuf r) (um_DmaBuf r) (um_Process r).
#[global] Instance set_um_Length : Setter um_Length := λ F r, mkMapping (um_Block r) (um_UserVa r)
  (um_Mdl r) (F (um_Length r)) (um_TlbId r) (um_IsDmaBuf r) (um_DmaBuf r) (um_Process r).
#[global] Instance set_um_TlbId : Setter um_TlbId := λ F r, mkMapping (um_Block r) (um_UserVa r)
  (um_Mdl r) (um_Length r) (F (um_TlbId r)) (um_IsDmaBuf r) (um_DmaBuf r) (um_Process r).
#[global] Instance set_um_IsDmaBuf : Setter um_IsDmaBuf := λ F r, mkMapping (um_Block r) (um_UserVa
  r) (um_Mdl r) (um_Length r) (um_TlbId r) (F (um_IsDmaBuf r)) (um_DmaBuf r) (um_Process r).
#[global] Instance set_um_DmaBuf : Setter um_DmaBuf := λ F r, mkMapping (um_Block r) (um_UserVa r)
  (um_Mdl r) (um_Length r) (um_TlbId r) (um_IsDmaBuf r) (F (um_DmaBuf r)) (um_Process r).
#[global] Instance set_um_Process : Setter um_Process := λ F r, mkMapping (um_Block r) (um_UserVa r)
  (um_Mdl r) (um_Length r) (um_TlbId r) (um_IsDmaBuf r) (um_DmaBuf r) (F (um_Process r)).

(** One pinned user range. *)
Record TT_PINNING := mkPinning {
  pn_Block : Z;
  pn_VirtualAddress : Z;
  pn_Size : Z;
  pn_Mdl : option MDL;
  pn_BackingDmaBuf : option Z;
  pn_IatuRegion : Z
}.
#[global] Instance set_pn_Block : Setter pn_Block := λ F r, mkPinning (F (pn_Block r))
  (pn_VirtualAddress r) (pn_Size r) (pn_Mdl r) (pn_BackingDmaBuf r) (pn_IatuRegion r).
#[global] Instance set_pn_VirtualAddress : Setter pn_VirtualAddress := λ F r, mkPinning (pn_Block r)
  (F (pn_VirtualAddress r)) (pn_Size r) (pn_Mdl r) (pn_BackingDmaBuf r) (pn_IatuRegion r).
#[global] Instance set_pn_Size : Setter pn_Size := λ F r, mkPinning (pn_Block r) (pn_VirtualAddress
  r) (F (pn_Size r)) (pn_Mdl r) (pn_BackingDmaBuf r) (pn_IatuRegion r).
#[global] Instance set_pn_Mdl : Setter pn_Mdl := λ F r, mkPinning (pn_Block r) (pn_VirtualAddress r)
  (pn_Size r) (F (pn_Mdl r)) (pn_BackingDmaBuf r) (pn_IatuRegion r).
#[global] Instance set_pn_BackingDmaBuf : Setter pn_BackingDmaBuf := λ F r, mkPinning (pn_Block r)
  (pn_VirtualAddress r) (pn_Size r) (pn_Mdl r) (F (pn_BackingDmaBuf r)) (pn_IatuRegion r).
#[global] Instance set_pn_IatuRegion : Setter pn_IatuRegion := λ F r, mkPinning (pn_Block r)
  (pn_VirtualAddress r) (pn_Size r) (pn_Mdl r) (pn_BackingDmaBuf r) (F (pn_IatuRegion r)).

(** The power-state contribution of a handle. *)
Record PowerContribution := mkPower {
  PowerContributes : bool;
  PowerValidity : Z;
  PowerFlags : Z;
  PowerSettings : list Z
}.
#[global] Instance set_PowerContributes : Setter PowerContributes := λ F r, mkPower (F
  (PowerContributes r)) (PowerValidity r) (PowerFlags r) (PowerSettings r).
#[global] Instance set_PowerValidity : Setter PowerValidity := λ F r, mkPower (PowerContributes r)
  (F (PowerValidity r)) (PowerFlags r) (PowerSettings r).
#[global] Instance set_PowerFlags : Setter PowerFlags := λ F r, mkPower (PowerContributes r)
  (PowerValidity r) (F (PowerFlags r)) (PowerSettings r).
#[global] Instance set_PowerSettings : Setter PowerSettings := λ F r, mkPower (PowerContributes r)
  (PowerValidity r) (PowerFlags r) (F (PowerSettings r)).

(** The SET_NOC_CLEANUP registration of a handle. *)
Record NocCleanup := mkNocCleanup {
  NocCleanupEnabled : bool;
  NocCleanupX : Z;
  NocCleanupY : Z;
  NocCleanupNoc : Z;
  NocCleanupAddr : Z;
  NocCleanupData : Z
}.
#[global] Instance set_NocCleanupEnabled : Setter NocCleanupEnabled := λ F r, mkNocCleanup (F
  (NocCleanupEnabled r)) (NocCleanupX r) (NocCleanupY r) (NocCleanupNoc r) (NocCleanupAddr r)
  (NocCleanupData r).
#[global] Instance set_NocCleanupX : Setter NocCleanupX := λ F r, mkNocCleanup (NocCleanupEnabled r)
  (F (NocCleanupX r)) (NocCleanupY r) (NocCleanupNoc r) (NocCleanupAddr r) (NocCleanupData r).
#[global] Instance set_NocCleanupY : Setter NocCleanupY := λ F r, mkNocCleanup (NocCleanupEnabled r)
  (NocCleanupX r) (F (NocCleanupY r)) (NocCleanupNoc r) (NocCleanupAddr r) (NocCleanupData r).
#[global] Instance set_NocCleanupNoc : Setter NocCleanupNoc := λ F r, mkNocCleanup
  (NocCleanupEnabled r) (NocCleanupX r) (NocCleanupY r) (F (NocCleanupNoc r)) (NocCleanupAddr r)
  (NocCleanupData r).
#[global] Instance set_NocCleanupAddr : Setter NocCleanupAddr := λ F r, mkNocCleanup
  (NocCleanupEnabled r) (NocCleanupX r) (NocCleanupY r) (NocCleanupNoc r) (F (NocCleanupAddr r))
  (NocCleanupData r).
#[global] Instance set_NocCleanupData : Setter NocCleanupData := λ F r, mkNocCleanup
  (NocCleanupEnabled r) (NocCleanupX r) (NocCleanupY r) (NocCleanupNoc r) (NocCleanupAddr r) (F
  (NocCleanupData r)).

(** The per-handle context.  [fc_Lock] is false while the wait lock does not
    exist; [DmaBufs] maps a slot to the address of the TT_DMABUF in it (an
    absent slot is NULL). *)
Record TT_FILE_CONTEXT := mkFile {
  OpenResetGen : Z;
  fc_Lock : bool;
  Mappings : list TT_USER_MAPPING;
  Pinnings : list TT_PINNING;
  DmaBufs : gmap Z Z;
  OnDeviceList : bool;
  CreatorProcess : option Z;
  LocksHeld : Z;
  fc_Power : PowerContribution;
  fc_Noc : NocCleanup
}.
#[global] Instance set_OpenResetGen : Setter OpenResetGen := λ F r, mkFile (F (OpenResetGen r))
  (fc_Lock r) (Mappings r) (Pinnings r) (DmaBufs r) (OnDeviceList r) (CreatorProcess r) (LocksHeld
  r) (fc_Power r) (fc_Noc r).
#[global] Instance set_fc_Lock : Setter fc_Lock := λ F r, mkFile (OpenResetGen r) (F (fc_Lock r))
  (Mappings r) (Pinnings r) (DmaBufs r) (OnDeviceList r) (CreatorProcess r) (LocksHeld r) (fc_Power
  r) (fc_Noc r).
#[global] Instance set_Mappings : Setter Mappings := λ F r, mkFile (OpenResetGen r) (fc_Lock r) (F
  (Mappings r)) (Pinnings r) (DmaBufs r) (OnDeviceList r) (CreatorProcess r) (LocksHeld r) (fc_Power
  r) (fc_Noc r).
#[global] Instance set_Pinnings : Setter Pinnings := λ F r, mkFile (OpenResetGen r) (fc_Lock r)
  (Mappings r) (F (Pinnings r)) (DmaBufs r) (OnDeviceList r) (CreatorProcess r) (LocksHeld r)
  (fc_Power r) (fc_Noc r).
#[global] Instance set_DmaBufs : Setter DmaBufs := λ F r, mkFile (OpenResetGen r) (fc_Lock r)
  (Mappings r) (Pinnings r) (F (DmaBufs r)) (OnDeviceList r) (CreatorProcess r) (LocksHeld r)
  (fc_Power r) (fc_Noc r).
#[global] Instance set_OnDeviceList : Setter OnDeviceList := λ F r, mkFile (OpenResetGen r) (fc_Lock
  r) (Mappings r) (Pinnings r) (DmaBufs r) (F (OnDeviceList r)) (CreatorProcess r) (LocksHeld r)
  (fc_Power r) (fc_Noc r).
#[global] Instance set_CreatorProcess : Setter CreatorProcess := λ F r, mkFile (OpenResetGen r)
  (fc_Lock r) (Mappings r) (Pinnings r) (DmaBufs r) (OnDeviceList r) (F (CreatorProcess r))
  (LocksHeld r) (fc_Power r) (fc_Noc r).
#[global] Instance set_LocksHeld : Setter LocksHeld := λ F r, mkFile (OpenResetGen r) (fc_Lock r)
  (Mappings r) (Pinnings r) (DmaBufs r) (OnDeviceList r) (CreatorProcess r) (F (LocksHeld r))
  (fc_Power r) (fc_Noc r).
#[global] Instance set_fc_Power : Setter fc_Power := λ F r, mkFile (OpenResetGen r) (fc_Lock r)
  (Mappings r) (Pinnings r) (DmaBufs r) (OnDeviceList r) (CreatorProcess r) (LocksHeld r) (F
  (fc_Power r)) (fc_Noc r).
#[global] Instance set_fc_Noc : Setter fc_Noc := λ F r, mkFile (OpenResetGen r) (fc_Lock r)
  (Mappings r) (Pinnings r) (DmaBufs r) (OnDeviceList r) (CreatorProcess r) (LocksHeld r) (fc_Power
  r) (F (fc_Noc r)).

(** WDF allocates contexts zero-filled. *)
Definition fc_zero : TT_FILE_CONTEXT :=
  mkFile 0 false [] [] ∅ false None 0
    (mkPower false 0 0 (replicate 14 0)) (mkNocCleanup false 0 0 0 0 0).

(** PCI identity captured at PrepareHardware. *)
Record PciIdentity := mkId {
  VendorId : Z;
  DeviceId : Z;
  SubsysVendorId : Z;
  SubsysId : Z;
  BusDevFn : Z;
  PciDomain : Z;
  IsBlackhole : bool
}.
#[global] Instance set_VendorId : Setter VendorId := λ F r, mkId (F (VendorId r)) (DeviceId r)
  (SubsysVendorId r) (SubsysId r) (BusDevFn r) (PciDomain r) (IsBlackhole r).
#[global] Instance set_DeviceId : Setter DeviceId := λ F r, mkId (VendorId r) (F (DeviceId r))
  (SubsysVendorId r) (SubsysId r) (BusDevFn r) (PciDomain r) (IsBlackhole r).
#[global] Instance set_SubsysVendorId : Setter SubsysVendorId := λ F r, mkId (VendorId r) (DeviceId
  r) (F (SubsysVendorId r)) (SubsysId r) (BusDevFn r) (PciDomain r) (IsBlackhole r).
#[global] Instance set_SubsysId : Setter SubsysId := λ F r, mkId (VendorId r) (DeviceId r)
  (SubsysVendorId r) (F (SubsysId r)) (BusDevFn r) (PciDomain r) (IsBlackhole r).
#[global] Instance set_BusDevFn : Setter BusDevFn := λ F r, mkId (VendorId r) (DeviceId r)
  (SubsysVendorId r) (SubsysId r) (F (BusDevFn r)) (PciDomain r) (IsBlackhole r).
#[global] Instance set_PciDomain : Setter PciDomain := λ F r, mkId (VendorId r) (DeviceId r)
  (SubsysVendorId r) (SubsysId r) (BusDevFn r) (F (PciDomain r)) (IsBlackhole r).
#[global] Instance set_IsBlackhole : Setter IsBlackhole := λ F r, mkId (VendorId r) (DeviceId r)
  (SubsysVendorId r) (SubsysId r) (BusDevFn r) (PciDomain r) (F (IsBlackhole r)).

(** The fd-gating state. *)
Record GateState := mkGate {
  Detached : bool;
  NeedsHwInit : bool;
  ResetGen : Z
}.
#[global] Instance set_Detached : Setter Detached := λ F r, mkGate (F (Detached r)) (NeedsHwInit r)
  (ResetGen r).
#[global] Instance set_NeedsHwInit : Setter NeedsHwInit := λ F r, mkGate (Detached r) (F
  (NeedsHwInit r)) (ResetGen r).
#[global] Instance set_ResetGen : Setter ResetGen := λ F r, mkGate (Detached r) (NeedsHwInit r) (F
  (ResetGen r)).

(** BAR inventory, indexed by BAR number, and which of the kernel mappings
    exist (pointer not NULL). *)
Record BarState := mkBars {
  BarLength : list Z;
  BarBase : list Z;
  TlbRegs : bool;
  KernelTlb : bool;
  Noc2AxiCfg : bool;
  Bar2Mapping : bool
}.
#[global] Instance set_BarLength : Setter BarLength := λ F r, mkBars (F (BarLength r)) (BarBase r)
  (TlbRegs r) (KernelTlb r) (Noc2AxiCfg r) (Bar2Mapping r).
#[global] Instance set_BarBase : Setter BarBase := λ F r, mkBars (BarLength r) (F (BarBase r))
  (TlbRegs r) (KernelTlb r) (Noc2AxiCfg r) (Bar2Mapping r).
#[global] Instance set_TlbRegs : Setter TlbRegs := λ F r, mkBars (BarLength r) (BarBase r) (F
  (TlbRegs r)) (KernelTlb r) (Noc2AxiCfg r) (Bar2Mapping r).
#[global] Instance set_KernelTlb : Setter KernelTlb := λ F r, mkBars (BarLength r) (BarBase r)
  (TlbRegs r) (F (KernelTlb r)) (Noc2AxiCfg r) (Bar2Mapping r).
#[global] Instance set_Noc2AxiCfg : Setter Noc2AxiCfg := λ F r, mkBars (BarLength r) (BarBase r)
  (TlbRegs r) (KernelTlb r) (F (Noc2AxiCfg r)) (Bar2Mapping r).
#[global] Instance set_Bar2Mapping : Setter Bar2Mapping := λ F r, mkBars (BarLength r) (BarBase r)
  (TlbRegs r) (KernelTlb r) (Noc2AxiCfg r) (F (Bar2Mapping r)).

(** The TLB window pool: used flag and owning file object of every window. *)
Record TlbPool := mkTlbs {
  TlbUsed : list bool;
  TlbOwner : list (option Z);
  Tlb4gCount : Z
}.
#[global] Instance set_TlbUsed : Setter TlbUsed := λ F r, mkTlbs (F (TlbUsed r)) (TlbOwner r)
  (Tlb4gCount r).
#[global] Instance set_TlbOwner : Setter TlbOwner := λ F r, mkTlbs (TlbUsed r) (F (TlbOwner r))
  (Tlb4gCount r).
#[global] Instance set_Tlb4gCount : Setter Tlb4gCount := λ F r, mkTlbs (TlbUsed r) (TlbOwner r) (F
  (Tlb4gCount r)).

(** One outbound iATU region. *)
Record IatuEntry := mkIatu {
  ia_Used : bool;
  ia_Owner : option Z;
  ia_Base : Z;
  ia_Limit : Z;
  ia_Target : Z
}.
#[global] Instance set_ia_Used : Setter ia_Used := λ F r, mkIatu (F (ia_Used r)) (ia_Owner r)
  (ia_Base r) (ia_Limit r) (ia_Target r).
#[global] Instance set_ia_Owner : Setter ia_Owner := λ F r, mkIatu (ia_Used r) (F (ia_Owner r))
  (ia_Base r) (ia_Limit r) (ia_Target r).
#[global] Instance set_ia_Base : Setter ia_Base := λ F r, mkIatu (ia_Used r) (ia_Owner r) (F
  (ia_Base r)) (ia_Limit r) (ia_Target r).
#[global] Instance set_ia_Limit : Setter ia_Limit := λ F r, mkIatu (ia_Used r) (ia_Owner r) (ia_Base
  r) (F (ia_Limit r)) (ia_Target r).
#[global] Instance set_ia_Target : Setter ia_Target := λ F r, mkIatu (ia_Used r) (ia_Owner r)
  (ia_Base r) (ia_Limit r) (F (ia_Target r)).

(** DMA enabler, the DD-17 accounting and the DD-8 identity probe. *)
Record DmaState := mkDma {
  DmaEnabler : bool;
  DmaBufBytes : Z;
  DmaBufLimitBytes : Z;
  DmaIdentityKnown : bool;
  DmaIdentityMapped : bool
}.
#[global] Instance set_DmaEnabler : Setter DmaEnabler := λ F r, mkDma (F (DmaEnabler r))
  (DmaBufBytes r) (DmaBufLimitBytes r) (DmaIdentityKnown r) (DmaIdentityMapped r).
#[global] Instance set_DmaBufBytes : Setter DmaBufBytes := λ F r, mkDma (DmaEnabler r) (F
  (DmaBufBytes r)) (DmaBufLimitBytes r) (DmaIdentityKnown r) (DmaIdentityMapped r).
#[global] Instance set_DmaBufLimitBytes : Setter DmaBufLimitBytes := λ F r, mkDma (DmaEnabler r)
  (DmaBufBytes r) (F (DmaBufLimitBytes r)) (DmaIdentityKnown r) (DmaIdentityMapped r).
#[global] Instance set_DmaIdentityKnown : Setter DmaIdentityKnown := λ F r, mkDma (DmaEnabler r)
  (DmaBufBytes r) (DmaBufLimitBytes r) (F (DmaIdentityKnown r)) (DmaIdentityMapped r).
#[global] Instance set_DmaIdentityMapped : Setter DmaIdentityMapped := λ F r, mkDma (DmaEnabler r)
  (DmaBufBytes r) (DmaBufLimitBytes r) (DmaIdentityKnown r) (F (DmaIdentityMapped r)).

(** The aggregated power state last sent to the firmware. *)
Record PowerAgg := mkAgg {
  PowerAggValid : bool;
  PowerAggFlags : Z;
  PowerAggSettings : list Z
}.
#[global] Instance set_PowerAggValid : Setter PowerAggValid := λ F r, mkAgg (F (PowerAggValid r))
  (PowerAggFlags r) (PowerAggSettings r).
#[global] Instance set_PowerAggFlags : Setter PowerAggFlags := λ F r, mkAgg (PowerAggValid r) (F
  (PowerAggFlags r)) (PowerAggSettings r).
#[global] Instance set_PowerAggSettings : Setter PowerAggSettings := λ F r, mkAgg (PowerAggValid r)
  (PowerAggFlags r) (F (PowerAggSettings r)).

(** Telemetry tag cache: CSM address of each tag value, 0 when absent. *)
Record TelemetryState := mkTelem {
  TelemetryTagCache : list Z;
  TelemetryValid : bool
}.
#[global] Instance set_TelemetryTagCache : Setter TelemetryTagCache := λ F r, mkTelem (F
  (TelemetryTagCache r)) (TelemetryValid r).
#[global] Instance set_TelemetryValid : Setter TelemetryValid := λ F r, mkTelem (TelemetryTagCache
  r) (F (TelemetryValid r)).

(** PCI configuration snapshot (OQ-5, DD-12). *)
Record SavedState := mkSaved {
  SavedHeaderDword : list Z;
  SavedPcieDevCtl : Z;
  SavedPcieLnkCtl : Z;
  PcieCapOffset : Z;
  SavedMps : Z;
  SavedMpsValid : bool;
  SavedStateValid : bool;
  HardwareInitDone : bool
}.
#[global] Instance set_SavedHeaderDword : Setter SavedHeaderDword := λ F r, mkSaved (F
  (SavedHeaderDword r)) (SavedPcieDevCtl r) (SavedPcieLnkCtl r) (PcieCapOffset r) (SavedMps r)
  (SavedMpsValid r) (SavedStateValid r) (HardwareInitDone r).
#[global] Instance set_SavedPcieDevCtl : Setter SavedPcieDevCtl := λ F r, mkSaved (SavedHeaderDword
  r) (F (SavedPcieDevCtl r)) (SavedPcieLnkCtl r) (PcieCapOffset r) (SavedMps r) (SavedMpsValid r)
  (SavedStateValid r) (HardwareInitDone r).
#[global] Instance set_SavedPcieLnkCtl : Setter SavedPcieLnkCtl := λ F r, mkSaved (SavedHeaderDword
  r) (SavedPcieDevCtl r) (F (SavedPcieLnkCtl r)) (PcieCapOffset r) (SavedMps r) (SavedMpsValid r)
  (SavedStateValid r) (HardwareInitDone r).
#[global] Instance set_PcieCapOffset : Setter PcieCapOffset := λ F r, mkSaved (SavedHeaderDword r)
  (SavedPcieDevCtl r) (SavedPcieLnkCtl r) (F (PcieCapOffset r)) (SavedMps r) (SavedMpsValid r)
  (SavedStateValid r) (HardwareInitDone r).
#[global] Instance set_SavedMps : Setter SavedMps := λ F r, mkSaved (SavedHeaderDword r)
  (SavedPcieDevCtl r) (SavedPcieLnkCtl r) (PcieCapOffset r) (F (SavedMps r)) (SavedMpsValid r)
  (SavedStateValid r) (HardwareInitDone r).
#[global] Instance set_SavedMpsValid : Setter SavedMpsValid := λ F r, mkSaved (SavedHeaderDword r)
  (SavedPcieDevCtl r) (SavedPcieLnkCtl r) (PcieCapOffset r) (SavedMps r) (F (SavedMpsValid r))
  (SavedStateValid r) (HardwareInitDone r).
#[global] Instance set_SavedStateValid : Setter SavedStateValid := λ F r, mkSaved (SavedHeaderDword
  r) (SavedPcieDevCtl r) (SavedPcieLnkCtl r) (PcieCapOffset r) (SavedMps r) (SavedMpsValid r) (F
  (SavedStateValid r)) (HardwareInitDone r).
#[global] Instance set_HardwareInitDone : Setter HardwareInitDone := λ F r, mkSaved
  (SavedHeaderDword r) (SavedPcieDevCtl r) (SavedPcieLnkCtl r) (PcieCapOffset r) (SavedMps r)
  (SavedMpsValid r) (SavedStateValid r) (F (HardwareInitDone r)).

(** The parts of DEVICE_RESET_INTERFACE_STANDARD the driver uses: which of the
    function pointers are not NULL, and the supported types. *)
Record RESET_INTERFACE := mkResetIf {
  ri_DeviceReset : bool;
  ri_InterfaceReference : bool;
  ri_InterfaceDereference : bool;
  SupportedResetTypes : Z
}.

(** pci.sys reset interface and the PLDR work item (DD-11). *)
Record PldrState := mkPldr {
  ResetInterfaceValid : bool;
  ResetInterface : RESET_INTERFACE;
  HasPldrWorkItem : bool;
  PldrSnapshot : RESET_INTERFACE;
  PldrQueued : bool
}.
#[global] Instance set_ResetInterfaceValid : Setter ResetInterfaceValid := λ F r, mkPldr (F
  (ResetInterfaceValid r)) (ResetInterface r) (HasPldrWorkItem r) (PldrSnapshot r) (PldrQueued r).
#[global] Instance set_ResetInterface : Setter ResetInterface := λ F r, mkPldr (ResetInterfaceValid
  r) (F (ResetInterface r)) (HasPldrWorkItem r) (PldrSnapshot r) (PldrQueued r).
#[global] Instance set_HasPldrWorkItem : Setter HasPldrWorkItem := λ F r, mkPldr
  (ResetInterfaceValid r) (ResetInterface r) (F (HasPldrWorkItem r)) (PldrSnapshot r) (PldrQueued
  r).
#[global] Instance set_PldrSnapshot : Setter PldrSnapshot := λ F r, mkPldr (ResetInterfaceValid r)
  (ResetInterface r) (HasPldrWorkItem r) (F (PldrSnapshot r)) (PldrQueued r).
#[global] Instance set_PldrQueued : Setter PldrQueued := λ F r, mkPldr (ResetInterfaceValid r)
  (ResetInterface r) (HasPldrWorkItem r) (PldrSnapshot r) (F (PldrQueued r)).

(** A METHOD_BUFFERED request: input and output share one system buffer.
    [rq_LockIndex] is the TT_LOCK_REQUEST_CONTEXT, when allocated. *)
Record ReqState := mkReq {
  rq_File : option Z;
  rq_Code : Z;
  rq_InLength : Z;
  rq_OutLength : Z;
  rq_Buffer : list Z;
  rq_Information : Z;
  rq_LockIndex : option Z
}.
#[global] Instance set_rq_File : Setter rq_File := λ F r, mkReq (F (rq_File r)) (rq_Code r)
  (rq_InLength r) (rq_OutLength r) (rq_Buffer r) (rq_Information r) (rq_LockIndex r).
#[global] Instance set_rq_Code : Setter rq_Code := λ F r, mkReq (rq_File r) (F (rq_Code r))
  (rq_InLength r) (rq_OutLength r) (rq_Buffer r) (rq_Information r) (rq_LockIndex r).
#[global] Instance set_rq_InLength : Setter rq_InLength := λ F r, mkReq (rq_File r) (rq_Code r) (F
  (rq_InLength r)) (rq_OutLength r) (rq_Buffer r) (rq_Information r) (rq_LockIndex r).
#[global] Instance set_rq_OutLength : Setter rq_OutLength := λ F r, mkReq (rq_File r) (rq_Code r)
  (rq_InLength r) (F (rq_OutLength r)) (rq_Buffer r) (rq_Information r) (rq_LockIndex r).
#[global] Instance set_rq_Buffer : Setter rq_Buffer := λ F r, mkReq (rq_File r) (rq_Code r)
  (rq_InLength r) (rq_OutLength r) (F (rq_Buffer r)) (rq_Information r) (rq_LockIndex r).
#[global] Instance set_rq_Information : Setter rq_Information := λ F r, mkReq (rq_File r) (rq_Code
  r) (rq_InLength r) (rq_OutLength r) (rq_Buffer r) (F (rq_Information r)) (rq_LockIndex r).
#[global] Instance set_rq_LockIndex : Setter rq_LockIndex := λ F r, mkReq (rq_File r) (rq_Code r)
  (rq_InLength r) (rq_OutLength r) (rq_Buffer r) (rq_Information r) (F (rq_LockIndex r)).

(** ** The platform *)
Class Platform := {
  OS : Type;
  Queue : Type;
  (** calls without a result: the platform sees the event *)
  os_notify : Event → OS → OS;
  (** registers and configuration space; [GetBusData] also returns the count
      of bytes it transferred *)
  READ_REGISTER_ULONG : MmioRegion → Z → OS → Z * OS;
  GetBusData : Z → Z → OS → (Z * Z) * OS;
  KeQueryInterruptTime : OS → Z * OS;
  (** memory management; [None] is NULL or a raised exception *)
  ExAllocatePool2 : PoolTag → gset Z → OS → option Z * OS;
  IoAllocateMdl : Z → Z → OS → option Z * OS;
  MmMapLockedPagesSpecifyCache : MDL → MEMORY_CACHING_TYPE → OS → option Z * OS;
  MmProbeAndLockPages : Z → Z → OS → option (list Z) * OS;
  MmMapIoSpaceEx : Z → Z → OS → bool * OS;
  WdfDmaEnablerCreate : OS → NTSTATUS * OS;
  WdfCommonBufferCreate : Z → OS → option Z * OS;
  WdfCommonBufferGetAlignedLogicalAddress : Z → OS → Z;
  CommonBufferPhysicalAddress : Z → OS → Z;
  (** requests: available length, required length *)
  WdfRequestRetrieveInputBuffer : Z → Z → NTSTATUS;
  WdfRequestRetrieveOutputBuffer : Z → Z → NTSTATUS;
  WdfObjectAllocateContext : OS → NTSTATUS * OS;
  WdfIoQueueRetrieveNextRequest : Queue → option (Z * Queue);
  WdfRequestForwardToIoQueue : Z → Queue → OS → (NTSTATUS * Queue) * OS;
  WdfDeviceEnqueueRequest : Z → OS → NTSTATUS * OS;
  (** pci.sys reset interface *)
  DeviceReset : OS → NTSTATUS * OS
}.

(** Documented guarantees. *)
Class RequestLaws (P : Platform) := {
  retrieve_input_min len min :
    WdfRequestRetrieveInputBuffer len min = STATUS_SUCCESS → min ≤ len;
  retrieve_output_min len min :
    WdfRequestRetrieveOutputBuffer len min = STATUS_SUCCESS → min ≤ len
}.

Class PoolLaws (P : Platform) := {
  pool_fresh tag live os p os' :
    ExAllocatePool2 tag live os = (Some p, os') → p ∉ live
}.

(** A manual queue is first-in first-out; forwarding appends. *)
Class QueueLaws (P : Platform) := {
  queue_contents : Queue → list Z;
  retrieve_next q :
    match WdfIoQueueRetrieveNextRequest q with
    | Some (r, q') => queue_contents q = r :: queue_contents q'
    | None => queue_contents q = []
    end;
  forward_contents r q os :
    let '((s, q'), _) := WdfRequestForwardToIoQueue r q os in
    queue_contents q' = if NT_SUCCESS s then queue_contents q ++ [r] else queue_contents q
}.

Section world.
Context {P : Platform}.

Record World := mkWorld {
  w_id : PciIdentity;
  w_gate : GateState;
  w_bars : BarState;
  w_tlb : TlbPool;
  w_iatu : list IatuEntry;
  w_dma : DmaState;
  ResourceLockHeld : Z;
  LockWaitQueue : Queue;
  w_power : PowerAgg;
  w_telem : TelemetryState;
  w_saved : SavedState;
  w_pldr : PldrState;
  BusInterfaceValid : bool;
  w_files : gmap Z TT_FILE_CONTEXT;
  FileList : list Z;
  w_dmabufs : gmap Z TT_DMABUF;
  w_reqs : gmap Z ReqState;
  w_process : Z;
  w_os : OS;
  w_trace : list Event
}.
#[global] Instance set_w_id : Setter w_id := λ F r, mkWorld (F (w_id r)) (w_gate r) (w_bars r)
  (w_tlb r) (w_iatu r) (w_dma r) (ResourceLockHeld r) (LockWaitQueue r) (w_power r) (w_telem r)
  (w_saved r) (w_pldr r) (BusInterfaceValid r) (w_files r) (FileList r) (w_dmabufs r)
  (w_reqs r) (w_process r) (w_os r) (w_trace r).
#[global] Instance set_w_gate : Setter w_gate := λ F r, mkWorld (w_id r) (F (w_gate r)) (w_bars r)
  (w_tlb r) (w_iatu r) (w_dma r) (ResourceLockHeld r) (LockWaitQueue r) (w_power r) (w_telem r)
  (w_saved r) (w_pldr r) (BusInterfaceValid r) (w_files r) (FileList r) (w_dmabufs r)
  (w_reqs r) (w_process r) (w_os r) (w_trace r).
#[global] Instance set_w_bars : Setter w_bars := λ F r, mkWorld (w_id r) (w_gate r) (F (w_bars r))
  (w_tlb r) (w_iatu r) (w_dma r) (ResourceLockHeld r) (LockWaitQueue r) (w_power r) (w_telem r)
  (w_saved r) (w_pldr r) (BusInterfaceValid r) (w_files r) (FileList r) (w_dmabufs r)
  (w_reqs r) (w_process r) (w_os r) (w_trace r).
#[global] Instance set_w_tlb : Setter w_tlb := λ F r, mkWorld (w_id r) (w_gate r) (w_bars r) (F
  (w_tlb r)) (w_iatu r) (w_dma r) (ResourceLockHeld r) (LockWaitQueue r) (w_power r) (w_telem r)
  (w_saved r) (w_pldr r) (BusInterfaceValid r) (w_files r) (FileList r) (w_dmabufs r)
  (w_reqs r) (w_process r) (w_os r) (w_trace r).
#[global] Instance set_w_iatu : Setter w_iatu := λ F r, mkWorld (w_id r) (w_gate r) (w_bars r)
  (w_tlb r) (F (w_iatu r)) (w_dma r) (ResourceLockHeld r) (LockWaitQueue r) (w_power r) (w_telem r)
  (w_saved r) (w_pldr r) (BusInterfaceValid r) (w_files r) (FileList r) (w_dmabufs r)
  (w_reqs r) (w_process r) (w_os r) (w_trace r).
#[global] Instance set_w_dma : Setter w_dma := λ F r, mkWorld (w_id r) (w_gate r) (w_bars r) (w_tlb
  r) (w_iatu r) (F (w_dma r)) (ResourceLockHeld r) (LockWaitQueue r) (w_power r) (w_telem r)
  (w_saved r) (w_pldr r) (BusInterfaceValid r) (w_files r) (FileList r) (w_dmabufs r)
  (w_reqs r) (w_process r) (w_os r) (w_trace r).
#[global] Instance set_ResourceLockHeld : Setter ResourceLockHeld := λ F r, mkWorld (w_id r) (w_gate
  r) (w_bars r) (w_tlb r) (w_iatu r) (w_dma r) (F (ResourceLockHeld r)) (LockWaitQueue r) (w_power
  r) (w_telem r) (w_saved r) (w_pldr r) (BusInterfaceValid r) (w_files r) (FileList r) (w_dmabufs r) (w_reqs r) (w_process r) (w_os r) (w_trace r).
#[global] Instance set_LockWaitQueue : Setter LockWaitQueue := λ F r, mkWorld (w_id r) (w_gate r)
  (w_bars r) (w_tlb r) (w_iatu r) (w_dma r) (ResourceLockHeld r) (F (LockWaitQueue r)) (w_power r)
  (w_telem r) (w_saved r) (w_pldr r) (BusInterfaceValid r) (w_files r) (FileList r) (w_dmabufs r) (w_reqs r) (w_process r) (w_os r) (w_trace r).
#[global] Instance set_w_power : Setter w_power := λ F r, mkWorld (w_id r) (w_gate r) (w_bars r)
  (w_tlb r) (w_iatu r) (w_dma r) (ResourceLockHeld r) (LockWaitQueue r) (F (w_power r)) (w_telem r)
  (w_saved r) (w_pldr r) (BusInterfaceValid r) (w_files r) (FileList r) (w_dmabufs r)
  (w_reqs r) (w_process r) (w_os r) (w_trace r).
#[global] Instance set_w_telem : Setter w_telem := λ F r, mkWorld (w_id r) (w_gate r) (w_bars r)
  (w_tlb r) (w_iatu r) (w_dma r) (ResourceLockHeld r) (LockWaitQueue r) (w_power r) (F (w_telem r))
  (w_saved r) (w_pldr r) (BusInterfaceValid r) (w_files r) (FileList r) (w_dmabufs r)
  (w_reqs r) (w_process r) (w_os r) (w_trace r).
#[global] Instance set_w_saved : Setter w_saved := λ F r, mkWorld (w_id r) (w_gate r) (w_bars r)
  (w_tlb r) (w_iatu r) (w_dma r) (ResourceLockHeld r) (LockWaitQueue r) (w_power r) (w_telem r) (F
  (w_saved r)) (w_pldr r) (BusInterfaceValid r) (w_files r) (FileList r) (w_dmabufs r)
  (w_reqs r) (w_process r) (w_os r) (w_trace r).
#[global] Instance set_w_pldr : Setter w_pldr := λ F r, mkWorld (w_id r) (w_gate r) (w_bars r)
  (w_tlb r) (w_iatu r) (w_dma r) (ResourceLockHeld r) (LockWaitQueue r) (w_power r) (w_telem r)
  (w_saved r) (F (w_pldr r)) (BusInterfaceValid r) (w_files r) (FileList r) (w_dmabufs r)
  (w_reqs r) (w_process r) (w_os r) (w_trace r).
#[global] Instance set_BusInterfaceValid : Setter BusInterfaceValid := λ F r, mkWorld (w_id r)
  (w_gate r) (w_bars r) (w_tlb r) (w_iatu r) (w_dma r) (ResourceLockHeld r) (LockWaitQueue r)
  (w_power r) (w_telem r) (w_saved r) (w_pldr r) (F (BusInterfaceValid r)) (w_files r) (FileList r)
  (w_dmabufs r) (w_reqs r) (w_process r) (w_os r) (w_trace r).
#[global] Instance set_w_files : Setter w_files := λ F r, mkWorld (w_id r) (w_gate r) (w_bars r)
  (w_tlb r) (w_iatu r) (w_dma r) (ResourceLockHeld r) (LockWaitQueue r) (w_power r) (w_telem r)
  (w_saved r) (w_pldr r) (BusInterfaceValid r) (F (w_files r)) (FileList r) (w_dmabufs r)
  (w_reqs r) (w_process r) (w_os r) (w_trace r).
#[global] Instance set_FileList : Setter FileList := λ F r, mkWorld (w_id r) (w_gate r) (w_bars r)
  (w_tlb r) (w_iatu r) (w_dma r) (ResourceLockHeld r) (LockWaitQueue r) (w_power r) (w_telem r)
  (w_saved r) (w_pldr r) (BusInterfaceValid r) (w_files r) (F (FileList r)) (w_dmabufs r)
  (w_reqs r) (w_process r) (w_os r) (w_trace r).
#[global] Instance set_w_dmabufs : Setter w_dmabufs := λ F r, mkWorld (w_id r) (w_gate r) (w_bars r)
  (w_tlb r) (w_iatu r) (w_dma r) (ResourceLockHeld r) (LockWaitQueue r) (w_power r) (w_telem r)
  (w_saved r) (w_pldr r) (BusInterfaceValid r) (w_files r) (FileList r) (F (w_dmabufs r))
  (w_reqs r) (w_process r) (w_os r) (w_trace r).
#[global] Instance set_w_reqs : Setter w_reqs := λ F r, mkWorld (w_id r) (w_gate r) (w_bars r)
  (w_tlb r) (w_iatu r) (w_dma r) (ResourceLockHeld r) (LockWaitQueue r) (w_power r) (w_telem r)
  (w_saved r) (w_pldr r) (BusInterfaceValid r) (w_files r) (FileList r) (w_dmabufs r) (F
  (w_reqs r)) (w_process r) (w_os r) (w_trace r).
#[global] Instance set_w_process : Setter w_process := λ F r, mkWorld (w_id r) (w_gate r) (w_bars r)
  (w_tlb r) (w_iatu r) (w_dma r) (ResourceLockHeld r) (LockWaitQueue r) (w_power r) (w_telem r)
  (w_saved r) (w_pldr r) (BusInterfaceValid r) (w_files r) (FileList r) (w_dmabufs r)
  (w_reqs r) (F (w_process r)) (w_os r) (w_trace r).
#[global] Instance set_w_os : Setter w_os := λ F r, mkWorld (w_id r) (w_gate r) (w_bars r) (w_tlb r)
  (w_iatu r) (w_dma r) (ResourceLockHeld r) (LockWaitQueue r) (w_power r) (w_telem r) (w_saved r)
  (w_pldr r) (BusInterfaceValid r) (w_files r) (FileList r) (w_dmabufs r) (w_reqs r)
  (w_process r) (F (w_os r)) (w_trace r).
#[global] Instance set_w_trace : Setter w_trace := λ F r, mkWorld (w_id r) (w_gate r) (w_bars r)
  (w_tlb r) (w_iatu r) (w_dma r) (ResourceLockHeld r) (LockWaitQueue r) (w_power r) (w_telem r)
  (w_saved r) (w_pldr r) (BusInterfaceValid r) (w_files r) (FileList r) (w_dmabufs r)
  (w_reqs r) (w_process r) (w_os r) (F (w_trace r)).

Definition M : Type → Type := ST World.

(** Running a sequence, at [ST World] and at its name [M]. *)
Lemma bind_st {A B} (m : ST World A) (k : A → ST World B) w : mbind k m w = k (m w).1 (m w).2.
Proof. reflexivity. Qed.
Lemma bind_run {A B} (m : M A) (k : A → M B) w : mbind k m w = k (m w).1 (m w).2.
Proof. reflexivity. Qed.
Lemma bind_ext {A B} (m : M A) (k k' : A → M B) w : (∀ a s, k a s = k' a s) → mbind k m w = mbind k' m w.
Proof. intros Hk. apply Hk. Qed.

(** ** Effects *)

Definition emit (e : Event) : M () :=
  modify (λ w, w <| w_trace := e :: w_trace w |> <| w_os := os_notify e (w_os w) |>).

(** A call with a result: the platform state moves, the trace grows. *)
Definition call {A} (f : OS → A * OS) (log : A → list Event) : M A :=
  λ w, let r := f (w_os w) in
       (r.1, w <| w_os := r.2 |> <| w_trace := log r.1 ++ w_trace w |>).

Definition acquire (l : Lock) : M () := emit (EvLock l).
Definition release (l : Lock) : M () := emit (EvUnlock l).
Definition KeMemoryBarrier : M () := emit EvBarrier.

Definition got (r : Z → Resource) (o : option Z) : list Event :=
  match o with Some x => [EvGet (r x)] | None => [] end.

Definition read_register (r : MmioRegion) (off : Z) : M Z :=
  v ← call (READ_REGISTER_ULONG r off) (λ v, [EvRead r off (wrap32 v)]); mret (wrap32 v).
Definition write_register (r : MmioRegion) (off v : Z) : M () := emit (EvWrite r off v).

(** *** File contexts *)
Definition file_ctx (f : Z) (w : World) : TT_FILE_CONTEXT := default fc_zero (w_files w !! f).
Definition TtGetFileContext (f : Z) : M TT_FILE_CONTEXT := gets (file_ctx f).
Definition upd_file (f : Z) (g : TT_FILE_CONTEXT → TT_FILE_CONTEXT) : M () :=
  modify (λ w, w <| w_files := <[f := g (file_ctx f w)]> (w_files w) |>).

(** *** Pool *)
Definition pool_alloc (tag : PoolTag) : M (option Z) :=
  live ← gets (live_blocks ∘ w_trace);
  call (ExAllocatePool2 tag live) (got RsPool).
Definition pool_free (p : Z) : M () := emit (EvPut (RsPool p)).

(** *** Requests *)
Definition req_zero : ReqState := mkReq None 0 0 0 [] 0 None.
Definition req_state (r : Z) (w : World) : ReqState := default req_zero (w_reqs w !! r).
Definition upd_req (r : Z) (g : ReqState → ReqState) : M () :=
  modify (λ w, w <| w_reqs := <[r := g (req_state r w)]> (w_reqs w) |>).
Definition WdfRequestSetInformation (r info : Z) : M () :=
  upd_req r (λ q, q <| rq_Information := info |>).
Definition WdfRequestComplete (r : Z) (s : NTSTATUS) : M () := emit (EvComplete r s).

(** Stores [bytes] at [off] of the request's system buffer. *)
Definition write_output (r off : Z) (bytes : list Z) : M () :=
  upd_req r (λ q, q <| rq_Buffer := splice (Z.to_nat off) bytes (rq_Buffer q) |>).

(** ** TtCopyInBuffer, TtCompleteSizedOutBuffer (ioctl.c) *)
Definition TtCopyInBuffer (Request InSize : Z) : M (NTSTATUS * list Z) :=
  q ← gets (req_state Request);
  if negb (NT_SUCCESS (WdfRequestRetrieveInputBuffer (rq_InLength q) InSize))
  then mret (STATUS_ACCESS_VIOLATION, [])
  else mret (STATUS_SUCCESS, take (Z.to_nat InSize) (rq_Buffer q)).

Definition TtCompleteSizedOutBuffer
    (Request OutOffset : Z) (Out : list Z) (OutSize Declared : Z) : M NTSTATUS :=
  q ← gets (req_state Request);
  let bufferLength := rq_OutLength q in
  if negb (NT_SUCCESS (WdfRequestRetrieveOutputBuffer bufferLength 0))
  then mret STATUS_ACCESS_VIOLATION
  else if (bufferLength <? OutOffset) || (bufferLength - OutOffset <? Declared)
  then mret STATUS_ACCESS_VIOLATION
  else
    write_output Request OutOffset (replicate (Z.to_nat Declared) 0);;
    write_output Request OutOffset (take (Z.to_nat (Z.min Declared OutSize)) Out);;
    WdfRequestSetInformation Request (OutOffset + Declared);;
    mret STATUS_SUCCESS.
End world.
