(* ===== verification/Frame.v ===== *)
(** * Footprints

    Which parts of the driver's state an operation may change.  [Frame fp]
    relates two states that agree on every component outside the list [fp];
    each operation of the driver has one lemma that bounds its footprint, and
    an invariant that reads only components outside of it is preserved for
    free ([steps_keeps]). *)
From S2P Require Import Prelude Platform.

(** The components: the fields of the device state, and the fields of the
    per-handle contexts (of all handles together). *)
Inductive Comp :=
  | CId | CGate | CBars | CTlb | CIatu | CDma | CLocks | CWaitQueue | CPower | CTelem
  | CSaved | CPldr | CBus | CFileList | CDmaBufs  | CReqs | CProcess | COs | CTrace
  | FGen | FLock | FMappings | FPinnings | FDmaBufs | FOnList | FCreator | FLocks | FPower | FNoc.

#[global] Instance Comp_eq_dec : EqDecision Comp.
Proof. solve_decision. Defined.

Definition cmem (c : Comp) (fp : list Comp) : bool := bool_decide (c ∈ fp).
Definition csub (fp fp' : list Comp) : bool := forallb (λ c, cmem c fp') fp.
Definition cdisj (fp fp' : list Comp) : bool := forallb (λ c, negb (cmem c fp')) fp.

Definition fagree (c : Comp) (a b : TT_FILE_CONTEXT) : Prop :=
  match c with
  | FGen => OpenResetGen b = OpenResetGen a
  | FLock => fc_Lock b = fc_Lock a
  | FMappings => Mappings b = Mappings a
  | FPinnings => Pinnings b = Pinnings a
  | FDmaBufs => DmaBufs b = DmaBufs a
  | FOnList => OnDeviceList b = OnDeviceList a
  | FCreator => CreatorProcess b = CreatorProcess a
  | FLocks => LocksHeld b = LocksHeld a
  | FPower => fc_Power b = fc_Power a
  | FNoc => fc_Noc b = fc_Noc a
  | _ => True
  end.

Section frame.
Context {P : Platform}.

Definition agree (c : Comp) (w w' : World) : Prop :=
  match c with
  | CId => w_id w' = w_id w
  | CGate => w_gate w' = w_gate w
  | CBars => w_bars w' = w_bars w
  | CTlb => w_tlb w' = w_tlb w
  | CIatu => w_iatu w' = w_iatu w
  | CDma => w_dma w' = w_dma w
  | CLocks => ResourceLockHeld w' = ResourceLockHeld w
  | CWaitQueue => LockWaitQueue w' = LockWaitQueue w
  | CPower => w_power w' = w_power w
  | CTelem => w_telem w' = w_telem w
  | CSaved => w_saved w' = w_saved w
  | CPldr => w_pldr w' = w_pldr w
  | CBus => BusInterfaceValid w' = BusInterfaceValid w
  | CFileList => FileList w' = FileList w
  | CDmaBufs => w_dmabufs w' = w_dmabufs w
  | CReqs => w_reqs w' = w_reqs w
  | CProcess => w_process w' = w_process w
  | COs => w_os w' = w_os w
  | CTrace => w_trace w' = w_trace w
  | c => ∀ f, fagree c (file_ctx f w) (file_ctx f w')
  end.

Definition Frame (fp : list Comp) : relation World :=
  λ w w', ∀ c, cmem c fp = false → agree c w w'.

#[global] Instance Frame_preorder fp : PreOrder (Frame fp).
Proof.
  split; [intros w c _; by destruct c|].
  intros w1 w2 w3 H12 H23 c Hc. specialize (H12 c Hc). specialize (H23 c Hc).
  destruct c; simpl in *; try congruence; intros f; specialize (H12 f); specialize (H23 f); congruence.
Qed.

Lemma csub_spec fp fp' c : csub fp fp' = true → cmem c fp' = false → cmem c fp = false.
Proof.
  unfold csub, cmem. rewrite forallb_forall. intros H Hc.
  apply bool_decide_eq_false. apply bool_decide_eq_false in Hc. intros Hin.
  apply Hc. apply list_elem_of_In in Hin. apply H in Hin. by apply bool_decide_eq_true in Hin.
Qed.

Lemma frame_weaken {A} fp fp' (m : M A) :
  Steps (Frame fp) m → csub fp fp' = true → Steps (Frame fp') m.
Proof. intros Hm Hs w c Hc. apply Hm. by eapply csub_spec. Qed.

(** An invariant that reads only the components [ds]. *)
Definition Reads (ds : list Comp) (I : World → Prop) : Prop :=
  ∀ w w', (∀ c, cmem c ds = true → agree c w w') → I w → I w'.

Lemma steps_keeps {A} (I : World → Prop) ds fp (m : M A) :
  Reads ds I → Steps (Frame fp) m → cdisj ds fp = true → Steps (Keeps I) m.
Proof.
  intros HI Hm Hd w Hw. eapply HI; [|exact Hw]. intros c Hc. apply Hm.
  unfold cdisj in Hd. rewrite forallb_forall in Hd.
  unfold cmem in Hc. apply bool_decide_eq_true in Hc. apply list_elem_of_In in Hc.
  apply Hd in Hc. by apply negb_true_iff in Hc.
Qed.

(** The same for a relation that holds of any two states that agree on [ds]. *)
Lemma steps_local {A} (R : relation World) ds fp (m : M A) :
  (∀ w w', (∀ c, cmem c ds = true → agree c w w') → R w w') →
  Steps (Frame fp) m → cdisj ds fp = true → Steps R m.
Proof.
  intros HR Hm Hd w. apply HR. intros c Hc. apply Hm.
  unfold cdisj in Hd. rewrite forallb_forall in Hd.
  unfold cmem in Hc. apply bool_decide_eq_true in Hc. apply list_elem_of_In in Hc.
  apply Hd in Hc. by apply negb_true_iff in Hc.
Qed.

(** A single component that is outside the footprint. *)
Lemma frame_at {A} c fp (m : M A) w : Steps (Frame fp) m → cmem c fp = false → agree c w (m w).2.
Proof. intros Hm Hc. by apply Hm. Qed.

(** ** The primitives *)
Lemma emit_frame e : Steps (Frame [COs; CTrace]) (emit e).
Proof. intros w c Hc. by destruct c. Qed.

Lemma call_frame {A} (f : OS → A * OS) log : Steps (Frame [COs; CTrace]) (call f log).
Proof. intros w c Hc. by destruct c. Qed.

Lemma modify_frame fp g : (∀ w, Frame fp w (g w)) → Steps (Frame fp) (modify g).
Proof. apply steps_modify. Qed.

Lemma upd_file_ctx f g (w : World) f' :
  file_ctx f' (upd_file f g w).2 = if decide (f = f') then g (file_ctx f w) else file_ctx f' w.
Proof.
  unfold file_ctx at 1, upd_file, modify. cbn. destruct (decide (f = f')) as [->|Hn].
  - by rewrite lookup_insert_eq.
  - by rewrite lookup_insert_ne.
Qed.

Lemma upd_file_frame fp f g :
  (∀ c x, cmem c fp = false → fagree c x (g x)) → Steps (Frame fp) (upd_file f g).
Proof.
  intros H w c Hc. destruct c; try reflexivity; unfold agree; intros f'; rewrite upd_file_ctx;
    destruct (decide (f = f')) as [<-|]; try reflexivity; by apply H.
Qed.

Lemma upd_req_state r g (w : World) r' :
  req_state r' (upd_req r g w).2 = if decide (r = r') then g (req_state r w) else req_state r' w.
Proof.
  unfold req_state at 1, upd_req, modify. cbn. destruct (decide (r = r')) as [->|Hn].
  - by rewrite lookup_insert_eq.
  - by rewrite lookup_insert_ne.
Qed.

Lemma modify_keeps I ds g :
  Reads ds I → (∀ w c, cmem c ds = true → agree c w (g w)) → Steps (Keeps I) (modify g).
Proof. intros HI H w Hw. eapply HI; [|exact Hw]. intros c. apply H. Qed.

Lemma upd_file_keeps I ds f g :
  Reads ds I → (∀ c x, cmem c ds = true → fagree c x (g x)) → Steps (Keeps I) (upd_file f g).
Proof.
  intros HI H w Hw. eapply HI; [|exact Hw]. intros c Hc. destruct c; try reflexivity; unfold agree; intros f';
    rewrite upd_file_ctx; destruct (decide (f = f')) as [<-|]; try reflexivity; by apply H.
Qed.

Lemma upd_req_frame r g : Steps (Frame [CReqs]) (upd_req r g).
Proof. intros w c Hc. by destruct c. Qed.

End frame.

(** Frames are proved by walking through the body: [frame_leaf] closes a call
    by its lemma in the [frames] database and weakening. *)
Create HintDb frames discriminated.
#[export] Hint Constants Opaque : frames.
#[export] Hint Resolve emit_frame call_frame upd_req_frame : frames.

Ltac frame_case := let c := fresh "c" in let Hc := fresh "Hc" in
  intros c ? Hc; destruct c; try discriminate Hc; first [reflexivity | exact I].
Ltac frame_modify := apply modify_frame;
  let w := fresh "w" in let c := fresh "c" in let Hc := fresh "Hc" in
  intros w c Hc; destruct c; try discriminate Hc; first [reflexivity | intros ?; reflexivity].
(** Two states that visibly agree on a component. *)
Ltac agree_tac := let c := fresh "c" in let Hc := fresh "Hc" in
  intros c Hc; destruct c; try discriminate Hc; first [reflexivity | intros ?; reflexivity].
Ltac frame_leaf :=
  first
    [ assumption
    | eapply frame_weaken; [solve [eauto 2 with frames nocore] | vm_compute; reflexivity]
    | apply upd_file_frame; frame_case
    | frame_modify ].
Ltac frame_walk := cbv zeta; repeat first [progress intros | steps_end | steps_split | frame_leaf].

(** Invariants are preserved by walking through the body as well: [keeps_leaf]
    closes a call by a lemma of the [keeps] database, or by its frame when it
    changes nothing that the invariant reads (databases [frames], [reads]). *)
Create HintDb keeps discriminated.
#[export] Hint Constants Opaque : keeps.
Create HintDb reads discriminated.
#[export] Hint Constants Opaque : reads.

Ltac keeps_leaf :=
  first
    [ assumption
    | solve [eauto 2 with keeps nocore]
    | eapply steps_keeps;
        [solve [eauto 1 with reads nocore] | solve [eauto 2 with frames nocore] | vm_compute; reflexivity]
    | eapply upd_file_keeps; [solve [eauto 1 with reads nocore] | frame_case]
    | eapply modify_keeps; [solve [eauto 1 with reads nocore] |];
      let c := fresh "c" in let Hc := fresh "Hc" in
      intros ? c Hc; destruct c; try discriminate Hc; first [reflexivity | intros ?; reflexivity] ].
Ltac keeps_walk := steps_walk keeps_leaf.

Section platform_frames.
Context {P : Platform}.

Lemma acquire_frame l : Steps (Frame [COs; CTrace]) (acquire l).
Proof. apply emit_frame. Qed.
Lemma release_frame l : Steps (Frame [COs; CTrace]) (release l).
Proof. apply emit_frame. Qed.
Lemma read_register_frame r off : Steps (Frame [COs; CTrace]) (read_register r off).
Proof. unfold read_register. frame_walk. Qed.
Lemma write_register_frame r off v : Steps (Frame [COs; CTrace]) (write_register r off v).
Proof. apply emit_frame. Qed.
Lemma KeMemoryBarrier_frame : Steps (Frame [COs; CTrace]) KeMemoryBarrier.
Proof. apply emit_frame. Qed.
Lemma pool_alloc_frame tag : Steps (Frame [COs; CTrace]) (pool_alloc tag).
Proof. unfold pool_alloc. frame_walk. Qed.
Lemma pool_free_frame p : Steps (Frame [COs; CTrace]) (pool_free p).
Proof. unfold pool_free. frame_walk. Qed.
Lemma TtGetFileContext_frame f : Steps (Frame []) (TtGetFileContext f).
Proof. unfold TtGetFileContext. frame_walk. Qed.
Lemma WdfRequestComplete_frame r s : Steps (Frame [COs; CTrace]) (WdfRequestComplete r s).
Proof. apply emit_frame. Qed.
Lemma write_output_frame r off b : Steps (Frame [CReqs]) (write_output r off b).
Proof. apply upd_req_frame. Qed.
Lemma WdfRequestSetInformation_frame r i : Steps (Frame [CReqs]) (WdfRequestSetInformation r i).
Proof. apply upd_req_frame. Qed.
Lemma TtCopyInBuffer_frame r n : Steps (Frame []) (TtCopyInBuffer r n).
Proof. unfold TtCopyInBuffer. frame_walk. Qed.
End platform_frames.

#[export] Hint Resolve acquire_frame release_frame read_register_frame write_register_frame
  KeMemoryBarrier_frame pool_alloc_frame pool_free_frame TtGetFileContext_frame
  WdfRequestComplete_frame write_output_frame WdfRequestSetInformation_frame
  TtCopyInBuffer_frame : frames.

Section sized_out_frame.
Context {P : Platform}.
Lemma TtCompleteSizedOutBuffer_frame r off out n d :
  Steps (Frame [CReqs]) (TtCompleteSizedOutBuffer r off out n d).
Proof. unfold TtCompleteSizedOutBuffer. frame_walk. Qed.
End sized_out_frame.
#[export] Hint Resolve TtCompleteSizedOutBuffer_frame : frames.
