(* ===== verification/Trace.v ===== *)
(** * What operations do to the outside world

    Every operation only appends to the trace; [Emits ks] bounds the kinds of
    the events it appends.  One lemma per operation, like the footprints. *)
From S2P Require Import Prelude Platform Frame.

Inductive EKind :=
  | KSync      (* locks *)
  | KRes       (* pool, MDLs, views, pinned pages, common buffers, process references *)
  | KIface     (* bus and reset interfaces, kernel mappings of BARs *)
  | KHw        (* registers other than the iATU, time and delays *)
  | KAtu       (* BAR2: the iATU registers *)
  | KCfg       (* configuration space *)
  | KMem       (* zeroing and mapping of memory, process attach *)
  | KReq       (* request forwarding and completion *)
  | KPldr      (* the platform-level reset *)
  | KFuel.     (* a polling loop that has not ended *)

#[global] Instance EKind_eq_dec : EqDecision EKind.
Proof. solve_decision. Defined.

Definition rkind (r : Resource) : EKind :=
  match r with RsIoSpace _ _ | RsBusInterface | RsResetInterface => KIface | _ => KRes end.

Definition ekind (e : Event) : EKind :=
  match e with
  | EvLock _ | EvLockShared | EvUnlock _ => KSync
  | EvGet r | EvPut r => rkind r
  | EvRead RBar2 _ _ | EvWrite RBar2 _ _ => KAtu
  | EvRead _ _ _ | EvWrite _ _ _ | EvTime | EvDelay | EvBarrier => KHw
  | EvCfgRead _ _ | EvCfgWrite _ _ _ => KCfg
  | EvZero _ _ | EvMapPages _ _ | EvAttach _ | EvDetach => KMem
  | EvForward _ | EvComplete _ _ => KReq
  | EvPldrEnqueue | EvPldrInvoke => KPldr
  | EvOutOfFuel => KFuel
  end.

Definition kmem (k : EKind) (ks : list EKind) : bool := bool_decide (k ∈ ks).
Definition ksub (ks ks' : list EKind) : bool := forallb (λ k, kmem k ks') ks.
Definition all_kinds (ks : list EKind) (t : list Event) : bool := forallb (λ e, kmem (ekind e) ks) t.

Section trace.
Context {P : Platform}.

Definition Emits (ks : list EKind) : relation World :=
  λ w w', ∃ new, w_trace w' = new ++ w_trace w ∧ all_kinds ks new = true.

#[global] Instance Emits_preorder ks : PreOrder (Emits ks).
Proof.
  split; [intros w; by exists []|].
  intros a b c (n1 & H1 & K1) (n2 & H2 & K2). exists (n2 ++ n1). rewrite H2, H1, app_assoc. split; [done|].
  unfold all_kinds. rewrite forallb_app. apply andb_true_iff. by split.
Qed.

Lemma kmem_ksub k ks ks' : ksub ks ks' = true → kmem k ks = true → kmem k ks' = true.
Proof.
  unfold ksub. rewrite forallb_forall. intros H Hk. apply H, list_elem_of_In.
  by apply bool_decide_eq_true in Hk.
Qed.

Lemma all_kinds_weaken ks ks' t : ksub ks ks' = true → all_kinds ks t = true → all_kinds ks' t = true.
Proof.
  unfold all_kinds. rewrite !forallb_forall. intros Hs H e He. eapply kmem_ksub; [done | by apply H].
Qed.

Lemma emits_weaken {A} ks ks' (m : M A) : Steps (Emits ks) m → ksub ks ks' = true → Steps (Emits ks') m.
Proof. intros Hm Hs w. destruct (Hm w) as (n & Hn & Hk). exists n. split; [done|]. by eapply all_kinds_weaken. Qed.

(** A property of traces that appending events of the kinds [ks] preserves. *)
Lemma emits_ind {A} (Q : list Event → Prop) ks (m : M A) w :
  Steps (Emits ks) m → (∀ e t, kmem (ekind e) ks = true → Q t → Q (e :: t)) →
  Q (w_trace w) → Q (w_trace (m w).2).
Proof.
  intros Hm Hstep HQ. destruct (Hm w) as (n & -> & Hk). unfold all_kinds in Hk.
  induction n as [|e n IH]; [done|]. cbn in *. apply andb_true_iff in Hk as [He Hk]. auto.
Qed.

Lemma emit_emits e : Steps (Emits [ekind e]) (emit e).
Proof. intros w. exists [e]. split; [done|]. cbn. unfold kmem. by rewrite bool_decide_true by set_solver. Qed.

Lemma call_emits {A} (f : OS → A * OS) log ks :
  (∀ a, all_kinds ks (log a) = true) → Steps (Emits ks) (call f log).
Proof. intros H w. exists (log (f (w_os w)).1). by split. Qed.

Lemma modify_emits g : (∀ w, w_trace (g w) = w_trace w) → Steps (Emits []) (modify g).
Proof. intros H w. exists []. split; [exact (H w) | done]. Qed.

Lemma upd_file_emits f g : Steps (Emits []) (upd_file f g).
Proof. by apply modify_emits. Qed.
Lemma upd_req_emits r g : Steps (Emits []) (upd_req r g).
Proof. by apply modify_emits. Qed.
End trace.

Create HintDb emits discriminated.
#[export] Hint Constants Opaque : emits.
#[export] Hint Resolve emit_emits upd_file_emits upd_req_emits : emits.

Ltac emits_leaf :=
  first
    [ assumption
    | eapply emits_weaken; [solve [eauto 2 with emits nocore] | vm_compute; reflexivity]
    | apply call_emits; let a := fresh "a" in intros a; first [reflexivity | destruct a; reflexivity]
    | eapply emits_weaken; [apply modify_emits; intros ?; reflexivity | vm_compute; reflexivity] ].
Ltac emits_walk := cbv zeta; repeat first [progress intros | steps_end | steps_split | emits_leaf].

Section platform_emits.
Context {P : Platform}.
Lemma acquire_emits l : Steps (Emits [KSync]) (acquire l).
Proof. exact (emit_emits (EvLock l)). Qed.
Lemma release_emits l : Steps (Emits [KSync]) (release l).
Proof. exact (emit_emits (EvUnlock l)). Qed.
Lemma KeMemoryBarrier_emits : Steps (Emits [KHw]) KeMemoryBarrier.
Proof. exact (emit_emits EvBarrier). Qed.
Lemma write_register_emits r off v : Steps (Emits [match r with RBar2 => KAtu | _ => KHw end]) (write_register r off v).
Proof. destruct r; exact (emit_emits (EvWrite _ off v)). Qed.
Lemma read_register_emits r off : Steps (Emits [match r with RBar2 => KAtu | _ => KHw end]) (read_register r off).
Proof. unfold read_register. destruct r; emits_walk. Qed.
Lemma TtGetFileContext_emits f : Steps (Emits []) (TtGetFileContext f).
Proof. unfold TtGetFileContext. emits_walk. Qed.
Lemma pool_alloc_emits tag : Steps (Emits [KRes]) (pool_alloc tag).
Proof. unfold pool_alloc. emits_walk. Qed.
Lemma pool_free_emits p : Steps (Emits [KRes]) (pool_free p).
Proof. unfold pool_free. emits_walk. Qed.
Lemma WdfRequestComplete_emits r s : Steps (Emits [KReq]) (WdfRequestComplete r s).
Proof. exact (emit_emits (EvComplete r s)). Qed.
Lemma write_output_emits r off b : Steps (Emits []) (write_output r off b).
Proof. apply upd_req_emits. Qed.
Lemma WdfRequestSetInformation_emits r i : Steps (Emits []) (WdfRequestSetInformation r i).
Proof. apply upd_req_emits. Qed.
Lemma TtCopyInBuffer_emits r n : Steps (Emits []) (TtCopyInBuffer r n).
Proof. unfold TtCopyInBuffer. emits_walk. Qed.
#[local] Hint Resolve write_output_emits WdfRequestSetInformation_emits : emits.
Lemma TtCompleteSizedOutBuffer_emits r off out n d : Steps (Emits []) (TtCompleteSizedOutBuffer r off out n d).
Proof. unfold TtCompleteSizedOutBuffer. emits_walk. Qed.
End platform_emits.

#[export] Hint Resolve acquire_emits release_emits KeMemoryBarrier_emits write_register_emits
  read_register_emits TtGetFileContext_emits pool_alloc_emits pool_free_emits
  WdfRequestComplete_emits write_output_emits WdfRequestSetInformation_emits TtCopyInBuffer_emits
  TtCompleteSizedOutBuffer_emits : emits.
