(* ===== verification/Sim.v ===== *)
(** * A concrete platform

    A small simulated kernel and card: a bump allocator for handles, a clock
    that the polling delay advances, a first-in first-out queue, and tables of
    register and configuration-space values.  It satisfies the law classes and
    is what the theorems' concrete instances run on. *)
From S2P Require Import Prelude Platform Abi.

Record SimOS := mkSim {
  sim_next : Z;                              (* next handle, pool block, user va *)
  sim_clock : N;                             (* interrupt time, 100 ns units *)
  sim_reg : list (MmioRegion * Z * Z);       (* register values, first match *)
  sim_cfg : list (Z * Z);                    (* configuration space, by offset *)
  sim_quota : Z;                             (* allocations left *)
  sim_reset : NTSTATUS                       (* what DeviceReset returns *)
}.

Definition sim_tick (o : SimOS) : SimOS :=
  mkSim (sim_next o) (sim_clock o + 1000)%N (sim_reg o) (sim_cfg o) (sim_quota o) (sim_reset o).

Definition sim_set_reg (r : MmioRegion) (off v : Z) (o : SimOS) : SimOS :=
  mkSim (sim_next o) (sim_clock o) ((r, off, v) :: sim_reg o) (sim_cfg o) (sim_quota o) (sim_reset o).

Definition sim_set_cfg (off v : Z) (o : SimOS) : SimOS :=
  mkSim (sim_next o) (sim_clock o) (sim_reg o) ((off, v) :: sim_cfg o) (sim_quota o) (sim_reset o).

Definition sim_notify (e : Event) (o : SimOS) : SimOS :=
  match e with
  | EvDelay => sim_tick o
  | EvWrite r off v => sim_set_reg r off v o
  | EvCfgWrite off _ v => sim_set_cfg off v o
  | _ => o
  end.

Fixpoint sim_find_reg (r : MmioRegion) (off : Z) (l : list (MmioRegion * Z * Z)) : Z :=
  match l with
  | [] => 0
  | (r', off', v) :: t => if bool_decide (r = r') && (off =? off') then v else sim_find_reg r off t
  end.

Fixpoint sim_find_cfg (off : Z) (l : list (Z * Z)) : Z :=
  match l with
  | [] => 0
  | (off', v) :: t => if off =? off' then v else sim_find_cfg off t
  end.

(** Hands out the next number, unless the quota is used up. *)
Definition sim_alloc (o : SimOS) : option Z * SimOS :=
  if sim_quota o <=? 0 then (None, o)
  else (Some (sim_next o),
        mkSim (sim_next o + 0x1000) (sim_clock o) (sim_reg o) (sim_cfg o) (sim_quota o - 1)
              (sim_reset o)).

(** A pool block above every live one. *)
Definition sim_pool (live : gset Z) (o : SimOS) : option Z * SimOS :=
  if sim_quota o <=? 0 then (None, o)
  else (Some (1 + foldr Z.max 0 (elements live)),
        mkSim (sim_next o) (sim_clock o) (sim_reg o) (sim_cfg o) (sim_quota o - 1) (sim_reset o)).

Definition sim_queue_next (q : list Z) : option (Z * list Z) :=
  match q with [] => None | r :: q' => Some (r, q') end.

Definition sim : Platform := {|
  OS := SimOS;
  Queue := list Z;
  os_notify := sim_notify;
  READ_REGISTER_ULONG r off o := (sim_find_reg r off (sim_reg o), o);
  GetBusData off size o := ((sim_find_cfg off (sim_cfg o), size), o);
  KeQueryInterruptTime o := (Z.of_N (sim_clock o), o);
  ExAllocatePool2 _ live o := sim_pool live o;
  IoAllocateMdl _ _ o := sim_alloc o;
  MmMapLockedPagesSpecifyCache _ _ o := sim_alloc o;
  MmProbeAndLockPages va size o := (Some ((λ i, va / 4096 + i) <$> zrange (Z.to_nat (size / 4096))), o);
  MmMapIoSpaceEx _ _ o := (true, o);
  WdfDmaEnablerCreate o := (STATUS_SUCCESS, o);
  WdfCommonBufferCreate _ o := sim_alloc o;
  WdfCommonBufferGetAlignedLogicalAddress b _ := b;
  CommonBufferPhysicalAddress b _ := b;
  WdfRequestRetrieveInputBuffer len min :=
    if min <=? len then STATUS_SUCCESS else STATUS_FRAMEWORK 1;
  WdfRequestRetrieveOutputBuffer len min :=
    if min <=? len then STATUS_SUCCESS else STATUS_FRAMEWORK 1;
  WdfObjectAllocateContext o := (STATUS_SUCCESS, o);
  WdfIoQueueRetrieveNextRequest q := sim_queue_next q;
  WdfRequestForwardToIoQueue r q o := ((STATUS_SUCCESS, q ++ [r]), o);
  WdfDeviceEnqueueRequest _ o := (if sim_quota o <=? 0 then STATUS_FRAMEWORK 2 else STATUS_SUCCESS, o);
  DeviceReset o := (sim_reset o, o)
|}.

#[global] Instance sim_request_laws : RequestLaws sim.
Proof. split; intros len min; simpl; destruct (Z.leb_spec min len); done. Qed.

Lemma foldr_max_elem (l : list Z) (x : Z) : x ∈ l → x ≤ foldr Z.max 0 l.
Proof. induction 1; simpl; lia. Qed.

#[global] Instance sim_pool_laws : PoolLaws sim.
Proof.
  split. intros tag live os p os'. simpl. unfold sim_pool.
  destruct (sim_quota os <=? 0); [done|]. intros [= <- _] Hp.
  apply elem_of_elements in Hp. apply foldr_max_elem in Hp. lia.
Qed.

#[global, refine] Instance sim_queue_laws : QueueLaws sim := {| queue_contents := λ q : Queue (Platform := sim), (q : list Z) |}.
Proof. all: by destruct q. Defined.

(** ** Starting states *)
Definition sim_os : SimOS := mkSim 0x10000 0%N [] [] 100 STATUS_SUCCESS.

(** A started Blackhole device with two opened handles, 1 and 2, of process 7. *)
Definition sim_file : TT_FILE_CONTEXT :=
  fc_zero <| fc_Lock := true |> <| OnDeviceList := true |> <| CreatorProcess := Some 7 |>.

Definition sim_world : World (P := sim) :=
  mkWorld (P := sim)
    (mkId TT_PCI_VENDOR_ID TT_PCI_DEVICE_ID_BLACKHOLE 0x1E52 0x40 0x100 0 true)
    (mkGate false false 0)
    (mkBars [0x20000000; 0; 0x100000; 0; 0x800000000; 0]
            [0x4000000000; 0; 0x5000000000; 0; 0x8000000000; 0] true true true true)
    (mkTlbs (<[201%nat := true]> (replicate 210 false)) (replicate 210 None) 8)
    (replicate 16 (mkIatu false None 0 0 0))
    (mkDma true 0 0x100000000 true true)
    0 ([] : list Z)
    (mkAgg true 0 (replicate 14 0))
    (mkTelem (replicate 128 0) false)
    (mkSaved (replicate 16 0) 0 0 0 0 false false true)
    (mkPldr false (mkResetIf false false false 0) true (mkResetIf false false false 0) false)
    true {[1 := sim_file; 2 := sim_file]} [1; 2] ∅ ∅ 7 (sim_os : OS (Platform := sim)) [].

(** A request of [f] with control code [code], input bytes [b] in a buffer of
    [len] bytes. *)
Definition sim_req (f code : Z) (b : list Z) (len : Z) : ReqState :=
  mkReq (Some f) code len len (b ++ replicate (Z.to_nat len - length b) 0) 0 None.
Definition with_req (r : Z) (q : ReqState) (w : World (P := sim)) : World (P := sim) :=
  w <| w_reqs := <[r := q]> (w_reqs w) |>.

Lemma sim_file_ctx f : file_ctx f sim_world = sim_file ∨ file_ctx f sim_world = fc_zero.
Proof.
  unfold file_ctx. change (w_files sim_world) with ({[1 := sim_file; 2 := sim_file]} : gmap Z TT_FILE_CONTEXT).
  destruct (_ !! f) as [c|] eqn:E; [left | by right].
  apply lookup_insert_Some in E as [[_ <-]|[_ E]]; [done|].
  by apply lookup_singleton_Some in E as [_ <-].
Qed.
