(* ===== verification/IoSpec.v ===== *)
(** * The request buffer protocol

    What TtCopyInBuffer and TtCompleteSizedOutBuffer do to a METHOD_BUFFERED
    request. *)
From S2P Require Import Prelude Abi Platform Frame Sim.

(** ** Splices *)
Lemma splice_splice {A} off (a b buf : list A) :
  (length b ≤ length a)%nat → (off + length a ≤ length buf)%nat →
  splice off b (splice off a buf) = take off buf ++ b ++ drop (length b) a ++ drop (off + length a) buf.
Proof.
  intros Hb Hl. unfold splice. f_equal; [|f_equal].
  - rewrite take_app_le by (rewrite length_take; lia). by rewrite take_take, Nat.min_id.
  - rewrite drop_app_ge by (rewrite length_take; lia). rewrite length_take, Nat.min_l by lia.
    replace (off + length b - off)%nat with (length b) by lia. by rewrite drop_app_le.
Qed.

(** The bytes of a reply of [declared] bytes with [out] in front: zero padded
    or cut. *)
Definition padded (out : list Z) (declared : nat) : list Z :=
  take declared out ++ replicate (declared - length out) 0.

Lemma length_padded out n : length (padded out n) = n.
Proof. unfold padded. rewrite length_app, length_take, length_replicate. lia. Qed.

Section io.
Context {P : Platform}.

(** Whether the output buffer of [r] has room for [declared] bytes at [off]. *)
Definition out_room (w : World) (r off declared : Z) : bool :=
  NT_SUCCESS (WdfRequestRetrieveOutputBuffer (rq_OutLength (req_state r w)) 0)
  && (off + declared <=? rq_OutLength (req_state r w)).

Definition replied (r off declared : Z) (out : list Z) (w : World) : World :=
  (upd_req r (λ q,
     q <| rq_Buffer := splice (Z.to_nat off) (padded out (Z.to_nat declared)) (rq_Buffer q) |>
       <| rq_Information := off + declared |>) w).2.

Lemma upd_req_compose r g h w : upd_req r h (upd_req r g w).2 = upd_req r (h ∘ g) w.
Proof.
  unfold upd_req, modify, req_state. cbn. unfold set_w_reqs. cbn.
  by rewrite lookup_insert_eq, insert_insert_eq.
Qed.

Lemma upd_req_ext r g h w : g (req_state r w) = h (req_state r w) → upd_req r g w = upd_req r h w.
Proof. unfold upd_req, modify. by intros ->. Qed.

(** The system buffer has the length that the I/O manager gave it. *)
Definition buffer_ok (w : World) (r : Z) : Prop :=
  rq_OutLength (req_state r w) ≤ Z.of_nat (length (rq_Buffer (req_state r w))).

Lemma replied_frame r off d out w : Frame [CReqs] w (replied r off d out w).
Proof. apply upd_req_frame. Qed.

Lemma sized_out_fail w r off out n d :
  0 ≤ off → 0 ≤ d → out_room w r off d = false →
  TtCompleteSizedOutBuffer r off out n d w = (STATUS_ACCESS_VIOLATION, w).
Proof.
  unfold out_room, TtCompleteSizedOutBuffer. intros Ho Hd. run.
  set (L := rq_OutLength _). destruct (NT_SUCCESS _); [|done].
  cbn [andb negb]. rewrite Z.leb_gt. intros H.
  destruct (Z.ltb_spec L off); [done|]. destruct (Z.ltb_spec (L - off) d); [done | lia].
Qed.

Lemma sized_out_ok w r off out n d :
  0 ≤ off → 0 ≤ d → out_room w r off d = true → buffer_ok w r → n = Z.of_nat (length out) →
  TtCompleteSizedOutBuffer r off out n d w = (STATUS_SUCCESS, replied r off d out w).
Proof.
  unfold out_room, TtCompleteSizedOutBuffer, buffer_ok. intros Ho Hd. run.
  set (L := rq_OutLength _). destruct (NT_SUCCESS _); [|done].
  cbn [andb negb]. rewrite Z.leb_le. intros H Hb ->.
  destruct (Z.ltb_spec L off); [lia|]. destruct (Z.ltb_spec (L - off) d); [lia|]. cbn [orb].
  unfold WdfRequestSetInformation, write_output, replied. rewrite !upd_req_compose.
  f_equal. f_equal. apply upd_req_ext. cbn. unfold set_rq_Buffer, set_rq_Information. cbn. f_equal.
  rewrite splice_splice by (rewrite ?length_take, ?length_replicate; lia).
  unfold splice, padded. rewrite length_app, length_take, !length_replicate, <- !app_assoc.
  f_equal. replace (Z.to_nat (Z.min d (Z.of_nat (length out)))) with (Z.to_nat d `min` length out)%nat by lia.
  rewrite drop_replicate, length_take. f_equal; [|f_equal; [f_equal; lia | f_equal; lia]].
  destruct (Nat.le_ge_cases (Z.to_nat d) (length out)); [by rewrite Nat.min_l|].
  by rewrite Nat.min_r, !take_ge by lia.
Qed.

(** C40 The sized-output protocol: with room for the declared size the reply at
    [OutOffset] is the output structure cut or zero-padded to exactly the
    declared size, Information is the end of the reply, and every other byte,
    request and component is unchanged; without room the call fails and
    changes nothing. *)
Theorem sized_out_protocol w r off out d :
  0 ≤ off → 0 ≤ d → buffer_ok w r →
  TtCompleteSizedOutBuffer r off out (Z.of_nat (length out)) d w
  = (if out_room w r off d then (STATUS_SUCCESS, replied r off d out w)
     else (STATUS_ACCESS_VIOLATION, w)).
Proof.
  intros Ho Hd Hb. destruct (out_room w r off d) eqn:E; [by apply sized_out_ok | by apply sized_out_fail].
Qed.

Lemma copy_in_ok w r n :
  WdfRequestRetrieveInputBuffer (rq_InLength (req_state r w)) n = STATUS_SUCCESS →
  TtCopyInBuffer r n w = ((STATUS_SUCCESS, take (Z.to_nat n) (rq_Buffer (req_state r w))), w).
Proof. intros H. unfold TtCopyInBuffer. run. by rewrite H. Qed.

(** Room for a reply depends on the request only. *)
Lemma out_room_reqs w w' r off d : w_reqs w' = w_reqs w → out_room w' r off d = out_room w r off d.
Proof. unfold out_room, req_state. by intros ->. Qed.
Lemma buffer_ok_reqs w w' r : w_reqs w' = w_reqs w → buffer_ok w r → buffer_ok w' r.
Proof. unfold buffer_ok, req_state. by intros ->. Qed.

(** Reading a reply back. *)
Lemma replied_bytes w r off out d :
  0 ≤ off → 0 ≤ d → out_room w r off d = true → buffer_ok w r →
  bytes_at off d (rq_Buffer (req_state r (replied r off d out w))) = padded out (Z.to_nat d).
Proof.
  unfold out_room, buffer_ok. rewrite andb_true_iff, Z.leb_le. intros Ho Hd [_ HL] Hb.
  unfold replied. rewrite upd_req_state, decide_True by done. cbn. unfold bytes_at.
  rewrite <- (length_padded out (Z.to_nat d)) at 1. apply splice_inside. lia.
Qed.
End io.

Lemma sized_out_protocol_witness :
  let w := with_req 5 (sim_req 1 0 [1; 2; 3; 4; 5; 6; 7; 8] 8) sim_world in
  TtCompleteSizedOutBuffer 5 4 [9; 9] 2 3 w = (STATUS_SUCCESS, replied 5 4 3 [9; 9] w).
Proof.
  intros w. etrans; [apply (sized_out_protocol w 5 4 [9; 9] 3) | reflexivity]; [lia | lia |].
  vm_compute. discriminate.
Defined.
