(* ===== verification/PciConfig.v ===== *)
(** * PCI configuration space (src/driver/reset.c, config-space primitives)

    Word and dword access through BUS_INTERFACE_STANDARD, the reset marker,
    the interface-timer trigger, the bounded capability walk, and the
    save/restore of the header (OQ-5, DD-12). *)
From S2P Require Import Prelude Platform Frame Trace Abi.

Definition TT_PCI_COMMAND : Z := 0x04.
Definition TT_PCI_COMMAND_PARITY : Z := 0x40.
Definition TT_INTERFACE_TIMER_CONTROL_OFF : Z := 0x930.
Definition TT_INTERFACE_TIMER_TARGET_OFF : Z := 0x934.
Definition TT_INTERFACE_TIMER_TARGET : Z := 0x1.
Definition TT_INTERFACE_TIMER_EN : Z := 0x1.
Definition TT_INTERFACE_FORCE_PENDING : Z := 0x10.

Section pci_config.
Context {P : Platform}.

(** Reads [size] bytes; the boolean says that all of them were transferred. *)
Definition get_bus_data (Offset size : Z) : M (bool * Z) :=
  r ← call (GetBusData Offset size) (λ _, [EvCfgRead Offset size]);
  mret (r.2 =? size, wrap (8 * size) r.1).

Definition TtCfgReadWord (Offset : Z) : M (bool * Z) :=
  valid ← gets BusInterfaceValid;
  if negb valid then mret (false, 0xFFFF) else get_bus_data Offset 2.

Definition TtCfgReadDword (Offset : Z) : M (bool * Z) :=
  valid ← gets BusInterfaceValid;
  if negb valid then mret (false, 0xFFFFFFFF) else get_bus_data Offset 4.

Definition TtCfgWriteWord (Offset Value : Z) : M () :=
  valid ← gets BusInterfaceValid;
  when valid (emit (EvCfgWrite Offset 2 (wrap16 Value))).

Definition TtCfgWriteDword (Offset Value : Z) : M () :=
  valid ← gets BusInterfaceValid;
  when valid (emit (EvCfgWrite Offset 4 (wrap32 Value))).

Definition TtSetResetMarker : M () :=
  r ← TtCfgReadWord TT_PCI_COMMAND;
  when r.1 (TtCfgWriteWord TT_PCI_COMMAND (Z.lor r.2 TT_PCI_COMMAND_PARITY)).

Definition TtIsResetMarkerZero : M bool :=
  r ← TtCfgReadWord TT_PCI_COMMAND;
  if negb r.1 then mret false else mret (Z.land r.2 TT_PCI_COMMAND_PARITY =? 0).

Definition TtPcieTimerInterrupt : M bool :=
  TtCfgWriteDword TT_INTERFACE_TIMER_TARGET_OFF TT_INTERFACE_TIMER_TARGET;;
  TtCfgWriteDword TT_INTERFACE_TIMER_CONTROL_OFF
    (Z.lor TT_INTERFACE_TIMER_EN TT_INTERFACE_FORCE_PENDING);;
  mret true.

Definition set_cap_offset (offset : Z) : M () :=
  modify (λ w, w <| w_saved := w_saved w <| PcieCapOffset := offset |> |>).

(** The loop [for (steps = 0; steps < 48 && offset >= 0x40; steps++)]. *)
Fixpoint cap_walk (steps : nat) (offset : Z) : M () :=
  match steps with
  | O => mret tt
  | S k =>
      if offset <? 0x40 then mret tt
      else
        r ← TtCfgReadWord offset;
        if negb r.1 || (r.2 =? 0xFFFF) then mret tt
        else if Z.land r.2 0xFF =? 0x10 then set_cap_offset offset
        else cap_walk k (Z.land (Z.shiftr r.2 8) 0xFC)
  end.

Definition TtDiscoverPcieCap : M () :=
  set_cap_offset 0;;
  valid ← gets BusInterfaceValid;
  if negb valid then mret tt
  else
    st ← TtCfgReadWord 0x06;
    if negb st.1 || (st.2 =? 0xFFFF) || (Z.land st.2 0x0010 =? 0) then mret tt
    else
      cp ← TtCfgReadDword 0x34;
      if negb cp.1 then mret tt
      else cap_walk 48 (Z.land cp.2 0xFC).

Definition save_header_dword (i : Z) : M (option ()) :=
  r ← TtCfgReadDword (i * 4);
  modify (λ w, w <| w_saved := w_saved w
    <| SavedHeaderDword := <[Z.to_nat i := r.2]> (SavedHeaderDword (w_saved w)) |> |>);;
  mret (if (r.1 : bool) then None else Some tt).

Definition TtPciSaveState : M () :=
  modify (λ w, w <| w_saved := w_saved w <| SavedStateValid := false |> |>);;
  valid ← gets BusInterfaceValid;
  if negb valid then mret tt
  else
    failed ← for_break (zrange 16) save_header_dword;
    match failed with
    | Some _ => mret tt
    | None =>
        TtDiscoverPcieCap;;
        cap ← gets (PcieCapOffset ∘ w_saved);
        okc ← (if negb (cap =? 0) then
                 d ← TtCfgReadWord (cap + 0x08);
                 modify (λ w, w <| w_saved := w_saved w <| SavedPcieDevCtl := d.2 |> |>);;
                 if negb d.1 then mret false
                 else
                   l ← TtCfgReadWord (cap + 0x10);
                   modify (λ w, w <| w_saved := w_saved w <| SavedPcieLnkCtl := l.2 |> |>);;
                   mret l.1
               else mret true);
        when okc (modify (λ w, w <| w_saved := w_saved w <| SavedStateValid := true |> |>))
    end.

Definition saved_dword (i : Z) (w : World) : Z :=
  default 0 (SavedHeaderDword (w_saved w) !! Z.to_nat i).

(** The stores of TtSafeRestoreState. *)
Definition restore_writes : M () :=
  for_each (zrange 6) (λ k,
    let off := 0x10 + 4 * k in
    v ← gets (saved_dword (off / 4)); TtCfgWriteDword off v);;
  (rom ← gets (saved_dword (0x30 / 4)); TtCfgWriteDword 0x30 rom);;
  (cls ← gets (saved_dword (0x0C / 4)); TtCfgWriteDword 0x0C cls);;
  (irq ← gets (saved_dword (0x3C / 4)); TtCfgWriteWord 0x3C irq);;
  (cap ← gets (PcieCapOffset ∘ w_saved);
   when (negb (cap =? 0))
     (d ← gets (SavedPcieDevCtl ∘ w_saved); TtCfgWriteWord (cap + 0x08) d;;
      l ← gets (SavedPcieLnkCtl ∘ w_saved); TtCfgWriteWord (cap + 0x10) l));;
  (cmd ← gets (saved_dword (TT_PCI_COMMAND / 4)); TtCfgWriteWord TT_PCI_COMMAND cmd).

Definition TtSafeRestoreState : M bool :=
  vendor ← TtCfgReadWord 0x00;
  if negb vendor.1 || negb (vendor.2 =? TT_PCI_VENDOR_ID) then mret false
  else
    sv ← gets (SavedStateValid ∘ w_saved);
    if negb sv then mret false else restore_writes;; TtPciSaveState;; mret true.
End pci_config.

(** ** Footprints *)
Section frames.
Context {P : Platform}.

Lemma get_bus_data_frame off n : Steps (Frame [COs; CTrace]) (get_bus_data off n).
Proof. unfold get_bus_data. frame_walk. Qed.
#[local] Hint Resolve get_bus_data_frame : frames.
Lemma TtCfgReadWord_frame off : Steps (Frame [COs; CTrace]) (TtCfgReadWord off).
Proof. unfold TtCfgReadWord. frame_walk. Qed.
#[local] Hint Resolve TtCfgReadWord_frame : frames.
Lemma TtCfgReadDword_frame off : Steps (Frame [COs; CTrace]) (TtCfgReadDword off).
Proof. unfold TtCfgReadDword. frame_walk. Qed.
#[local] Hint Resolve TtCfgReadDword_frame : frames.
Lemma TtCfgWriteWord_frame off v : Steps (Frame [COs; CTrace]) (TtCfgWriteWord off v).
Proof. unfold TtCfgWriteWord. frame_walk. Qed.
#[local] Hint Resolve TtCfgWriteWord_frame : frames.
Lemma TtCfgWriteDword_frame off v : Steps (Frame [COs; CTrace]) (TtCfgWriteDword off v).
Proof. unfold TtCfgWriteDword. frame_walk. Qed.
#[local] Hint Resolve TtCfgWriteDword_frame : frames.
Lemma TtSetResetMarker_frame : Steps (Frame [COs; CTrace]) (TtSetResetMarker).
Proof. unfold TtSetResetMarker. frame_walk. Qed.
#[local] Hint Resolve TtSetResetMarker_frame : frames.
Lemma TtIsResetMarkerZero_frame : Steps (Frame [COs; CTrace]) (TtIsResetMarkerZero).
Proof. unfold TtIsResetMarkerZero. frame_walk. Qed.
#[local] Hint Resolve TtIsResetMarkerZero_frame : frames.
Lemma TtPcieTimerInterrupt_frame : Steps (Frame [COs; CTrace]) (TtPcieTimerInterrupt).
Proof. unfold TtPcieTimerInterrupt. frame_walk. Qed.
#[local] Hint Resolve TtPcieTimerInterrupt_frame : frames.
Lemma set_cap_offset_frame o : Steps (Frame [CSaved]) (set_cap_offset o).
Proof. unfold set_cap_offset. frame_walk. Qed.
#[local] Hint Resolve set_cap_offset_frame : frames.
Lemma cap_walk_frame n o : Steps (Frame [COs; CTrace; CSaved]) (cap_walk n o).
Proof. revert o. induction n; intros o; cbn [cap_walk]; frame_walk. Qed.
#[local] Hint Resolve cap_walk_frame : frames.
Lemma TtDiscoverPcieCap_frame : Steps (Frame [COs; CTrace; CSaved]) (TtDiscoverPcieCap).
Proof. unfold TtDiscoverPcieCap. frame_walk. Qed.
#[local] Hint Resolve TtDiscoverPcieCap_frame : frames.
Lemma save_header_dword_frame i : Steps (Frame [COs; CTrace; CSaved]) (save_header_dword i).
Proof. unfold save_header_dword. frame_walk. Qed.
#[local] Hint Resolve save_header_dword_frame : frames.
Lemma TtPciSaveState_frame : Steps (Frame [COs; CTrace; CSaved]) (TtPciSaveState).
Proof. unfold TtPciSaveState. frame_walk. Qed.
#[local] Hint Resolve TtPciSaveState_frame : frames.
Lemma restore_writes_frame : Steps (Frame [COs; CTrace]) restore_writes.
Proof. unfold restore_writes. frame_walk. Qed.
#[local] Hint Resolve restore_writes_frame : frames.
Lemma TtSafeRestoreState_frame : Steps (Frame [COs; CTrace; CSaved]) (TtSafeRestoreState).
Proof. unfold TtSafeRestoreState. frame_walk. Qed.
#[local] Hint Resolve TtSafeRestoreState_frame : frames.
End frames.
#[export] Hint Resolve get_bus_data_frame TtCfgReadWord_frame TtCfgReadDword_frame
  TtCfgWriteWord_frame TtCfgWriteDword_frame TtSetResetMarker_frame TtIsResetMarkerZero_frame
  TtPcieTimerInterrupt_frame set_cap_offset_frame cap_walk_frame TtDiscoverPcieCap_frame
  save_header_dword_frame TtPciSaveState_frame TtSafeRestoreState_frame : frames.

(** ** Events *)
Section events.
Context {P : Platform}.

Lemma get_bus_data_emits off n : Steps (Emits [KCfg]) (get_bus_data off n).
Proof. unfold get_bus_data. emits_walk. Qed.
#[local] Hint Resolve get_bus_data_emits : emits.
Lemma TtCfgReadWord_emits off : Steps (Emits [KCfg]) (TtCfgReadWord off).
Proof. unfold TtCfgReadWord. emits_walk. Qed.
#[local] Hint Resolve TtCfgReadWord_emits : emits.
Lemma TtCfgReadDword_emits off : Steps (Emits [KCfg]) (TtCfgReadDword off).
Proof. unfold TtCfgReadDword. emits_walk. Qed.
#[local] Hint Resolve TtCfgReadDword_emits : emits.
Lemma TtCfgWriteWord_emits off v : Steps (Emits [KCfg]) (TtCfgWriteWord off v).
Proof. unfold TtCfgWriteWord. emits_walk. Qed.
#[local] Hint Resolve TtCfgWriteWord_emits : emits.
Lemma TtCfgWriteDword_emits off v : Steps (Emits [KCfg]) (TtCfgWriteDword off v).
Proof. unfold TtCfgWriteDword. emits_walk. Qed.
#[local] Hint Resolve TtCfgWriteDword_emits : emits.
Lemma TtSetResetMarker_emits : Steps (Emits [KCfg]) (TtSetResetMarker).
Proof. unfold TtSetResetMarker. emits_walk. Qed.
#[local] Hint Resolve TtSetResetMarker_emits : emits.
Lemma TtIsResetMarkerZero_emits : Steps (Emits [KCfg]) (TtIsResetMarkerZero).
Proof. unfold TtIsResetMarkerZero. emits_walk. Qed.
#[local] Hint Resolve TtIsResetMarkerZero_emits : emits.
Lemma TtPcieTimerInterrupt_emits : Steps (Emits [KCfg]) (TtPcieTimerInterrupt).
Proof. unfold TtPcieTimerInterrupt. emits_walk. Qed.
#[local] Hint Resolve TtPcieTimerInterrupt_emits : emits.
Lemma set_cap_offset_emits o : Steps (Emits []) (set_cap_offset o).
Proof. unfold set_cap_offset. emits_walk. Qed.
#[local] Hint Resolve set_cap_offset_emits : emits.
Lemma cap_walk_emits n o : Steps (Emits [KCfg]) (cap_walk n o).
Proof. revert o. induction n; intros o; cbn [cap_walk]; emits_walk. Qed.
#[local] Hint Resolve cap_walk_emits : emits.
Lemma TtDiscoverPcieCap_emits : Steps (Emits [KCfg]) (TtDiscoverPcieCap).
Proof. unfold TtDiscoverPcieCap. emits_walk. Qed.
#[local] Hint Resolve TtDiscoverPcieCap_emits : emits.
Lemma save_header_dword_emits i : Steps (Emits [KCfg]) (save_header_dword i).
Proof. unfold save_header_dword. emits_walk. Qed.
#[local] Hint Resolve save_header_dword_emits : emits.
Lemma TtPciSaveState_emits : Steps (Emits [KCfg]) (TtPciSaveState).
Proof. unfold TtPciSaveState. emits_walk. Qed.
#[local] Hint Resolve TtPciSaveState_emits : emits.
Lemma restore_writes_emits : Steps (Emits [KCfg]) restore_writes.
Proof. unfold restore_writes. emits_walk. Qed.
#[local] Hint Resolve restore_writes_emits : emits.
Lemma TtSafeRestoreState_emits : Steps (Emits [KCfg]) (TtSafeRestoreState).
Proof. unfold TtSafeRestoreState. emits_walk. Qed.
#[local] Hint Resolve TtSafeRestoreState_emits : emits.
End events.
#[export] Hint Resolve get_bus_data_emits TtCfgReadWord_emits TtCfgReadDword_emits
  TtCfgWriteWord_emits TtCfgWriteDword_emits TtSetResetMarker_emits TtIsResetMarkerZero_emits
  TtPcieTimerInterrupt_emits set_cap_offset_emits cap_walk_emits TtDiscoverPcieCap_emits
  save_header_dword_emits TtPciSaveState_emits TtSafeRestoreState_emits : emits.
