(* ===== verification/PciConfigSpec.v ===== *)
(** * Configuration space: capability walk, snapshot and restore

    What the driver relies on of BUS_INTERFACE_STANDARD: a read transfers all
    its bytes and does not change the configuration space. *)
From S2P Require Import Prelude Platform Frame Trace Sim Abi PciConfig.

Class ConfigLaws (P : Platform) := {
  cfg_at : OS → Z → Z → Z;
  cfg_read off n os : (GetBusData off n os).1 = (cfg_at os off n, n);
  cfg_keep off n os off' n' : cfg_at (GetBusData off n os).2 off' n' = cfg_at os off' n'
}.

(** The writes to configuration space, newest first: offset, size, value. *)
Definition cfg_write (e : Event) : option (Z * Z * Z) :=
  match e with EvCfgWrite off n v => Some (off, n, v) | _ => None end.
Definition cfg_writes (t : list Event) : list (Z * Z * Z) := omap cfg_write t.

Section config.
Context {P : Platform} `{!ConfigLaws P}.

Definition cfg (w : World) (off n : Z) : Z := wrap (8 * n) (cfg_at (w_os w) off n).

(** [w'] is [w] after reads only: no write, same configuration space. *)
Record just_read (w w' : World) : Prop := {
  jr_frame : Frame [COs; CTrace; CSaved] w w';
  jr_writes : cfg_writes (w_trace w') = cfg_writes (w_trace w);
  jr_cfg : ∀ off n, cfg w' off n = cfg w off n
}.
#[global] Instance just_read_preorder : PreOrder just_read.
Proof.
  split; [by intros w; split|]. intros a b c [F1 W1 C1] [F2 W2 C2]. split; [by etrans | by etrans |].
  intros off n. by rewrite C2.
Qed.
Lemma just_read_trans a b c : just_read a b → just_read b c → just_read a c.
Proof. intros H1 H2. by etrans. Qed.

Lemma get_bus_data_reads off n w :
  (get_bus_data off n w).1 = (true, cfg w off n) ∧ just_read w (get_bus_data off n w).2
  ∧ w_saved (get_bus_data off n w).2 = w_saved w.
Proof.
  unfold get_bus_data, call. run. cbn. split_and!; [| |done].
  - rewrite cfg_read. cbn. by rewrite Z.eqb_refl.
  - split; [intros c Hc; by destruct c | done |]. intros off' n'. unfold cfg. cbn. by rewrite cfg_keep.
Qed.

Lemma read_word_reads off w :
  BusInterfaceValid w = true →
  (TtCfgReadWord off w).1 = (true, cfg w off 2) ∧ just_read w (TtCfgReadWord off w).2
  ∧ w_saved (TtCfgReadWord off w).2 = w_saved w.
Proof. intros H. unfold TtCfgReadWord. run. rewrite H. apply get_bus_data_reads. Qed.

Lemma read_dword_reads off w :
  BusInterfaceValid w = true →
  (TtCfgReadDword off w).1 = (true, cfg w off 4) ∧ just_read w (TtCfgReadDword off w).2
  ∧ w_saved (TtCfgReadDword off w).2 = w_saved w.
Proof. intros H. unfold TtCfgReadDword. run. rewrite H. apply get_bus_data_reads. Qed.

Lemma just_read_bus w w' : just_read w w' → BusInterfaceValid w' = BusInterfaceValid w.
Proof. intros H. exact (jr_frame _ _ H CBus eq_refl). Qed.

(** ** The capability list

    The offsets that the walk visits: at most [n], until an offset below the
    device-specific area or an entry that reads all-ones. *)
Fixpoint cap_chain (w : World) (n : nat) (off : Z) : list Z :=
  match n with
  | O => []
  | S k => if (off <? 0x40) || (cfg w off 2 =? 0xFFFF) then []
           else off :: cap_chain w k (Z.land (Z.shiftr (cfg w off 2) 8) 0xFC)
  end.
Definition is_pcie (w : World) (off : Z) : bool := Z.land (cfg w off 2) 0xFF =? 0x10.
Definition first_pcie (w : World) (l : list Z) : Z := default 0 (head (filter (λ o, is_pcie w o = true) l)).

Lemma cap_chain_cfg w w' n off : (∀ o k, cfg w' o k = cfg w o k) → cap_chain w' n off = cap_chain w n off.
Proof. intros H. revert off. induction n as [|n IH]; intros off; cbn [cap_chain]; [done|]. by rewrite !H, IH. Qed.

Lemma is_pcie_cfg w w' off : (∀ o k, cfg w' o k = cfg w o k) → is_pcie w' off = is_pcie w off.
Proof. intros H. unfold is_pcie. by rewrite H. Qed.

Lemma first_pcie_cfg w w' l : (∀ o k, cfg w' o k = cfg w o k) → first_pcie w' l = first_pcie w l.
Proof.
  intros H. unfold first_pcie. do 2 f_equal. apply list_filter_iff. intros o. by rewrite (is_pcie_cfg w w' o H).
Qed.

Lemma cap_walk_spec n off w :
  BusInterfaceValid w = true → PcieCapOffset (w_saved w) = 0 →
  PcieCapOffset (w_saved (cap_walk n off w).2) = first_pcie w (cap_chain w n off) ∧ just_read w (cap_walk n off w).2.
Proof.
  revert off w. induction n as [|n IH]; intros off w Hb H0; cbn [cap_walk cap_chain]; [by split|].
  destruct (off <? 0x40); cbn [orb]; [by split|]. unfold mbind, st_bind. cbn [fst snd].
  destruct (read_word_reads off w Hb) as (Hr & Hj & Hs). destruct (TtCfgReadWord off w) as [r w1]. cbn [fst snd] in *.
  subst r. cbn [fst snd negb orb]. destruct (cfg w off 2 =? 0xFFFF); cbn [orb].
  { split; [change (PcieCapOffset (w_saved w1) = 0); by rewrite Hs | exact Hj]. }
  unfold first_pcie. rewrite filter_cons. fold (is_pcie w off). destruct (is_pcie w off) eqn:E.
  - rewrite decide_True by done. split; [done|].
    etrans; [exact Hj|]. split; [intros c Hc; by destruct c | done | done].
  - rewrite decide_False by done.
    destruct (IH (Z.land (Z.shiftr (cfg w off 2) 8) 0xFC) w1) as [H1 H2]; [by rewrite (just_read_bus _ _ Hj) | by rewrite Hs |].
    split; [|by etrans]. rewrite H1, (cap_chain_cfg w w1), (first_pcie_cfg w w1) by apply (jr_cfg _ _ Hj). done.
Qed.

Lemma land_le z m : 0 ≤ m → Z.land z m ≤ m.
Proof.
  intros Hm. assert (Z.ldiff (Z.land z m) m = 0) as E.
  { apply Z.bits_inj'. intros n Hn. rewrite Z.ldiff_spec, Z.land_spec, Z.bits_0.
    by destruct (Z.testbit m n), (Z.testbit z n). }
  pose proof (Z.sub_nocarry_ldiff m (Z.land z m) E).
  pose proof (proj2 (Z.ldiff_nonneg m (Z.land z m)) (or_introl Hm)). lia.
Qed.

Lemma cap_chain_range w n z o :
  o ∈ cap_chain w n (Z.land z 0xFC) → 0x40 ≤ o ≤ 0xFC ∧ o mod 4 = 0.
Proof.
  revert z. induction n as [|n IH]; intros z; cbn [cap_chain]; [by intros ?%elem_of_nil|].
  destruct (Z.ltb_spec (Z.land z 0xFC) 0x40); cbn [orb]; [by intros ?%elem_of_nil|].
  destruct (_ =? _); [by intros ?%elem_of_nil|].
  intros [->|Ho]%elem_of_cons; [|by apply (IH _ Ho)].
  assert (Z.land (Z.land z 0xFC) (Z.ones 2) = 0) as H3 by (rewrite <- Z.land_assoc; apply Z.land_0_r).
  rewrite Z.land_ones in H3 by lia. pose proof (land_le z 0xFC). split; [lia | exact H3].
Qed.

Lemma first_pcie_in w l : first_pcie w l = 0 ∨ first_pcie w l ∈ l ∧ is_pcie w (first_pcie w l) = true.
Proof.
  unfold first_pcie. destruct (filter _ l) as [|o r] eqn:E; [by left|]. right. cbn.
  assert (o ∈ filter (λ o, is_pcie w o = true) l) as H by (rewrite E; left).
  by apply list_elem_of_filter in H as [H1 H2].
Qed.

(** The PCIe capability by the specification: none without a capability list
    (or without a device), else the first one within 48 entries. *)
Definition pcie_cap (w : World) : Z :=
  if (cfg w 0x06 2 =? 0xFFFF) || (Z.land (cfg w 0x06 2) 0x0010 =? 0) then 0
  else first_pcie w (cap_chain w 48 (Z.land (cfg w 0x34 4) 0xFC)).

Lemma pcie_cap_cfg w w' : (∀ o k, cfg w' o k = cfg w o k) → pcie_cap w' = pcie_cap w.
Proof. intros H. unfold pcie_cap. by rewrite !H, (cap_chain_cfg w w'), (first_pcie_cfg w w'). Qed.

Lemma just_read_saved w g : just_read w (modify (λ w, w <| w_saved := g (w_saved w) |>) w).2.
Proof. split; [intros c Hc; by destruct c | done | done]. Qed.

Lemma discover_spec w :
  BusInterfaceValid w = true →
  PcieCapOffset (w_saved (TtDiscoverPcieCap w).2) = pcie_cap w ∧ just_read w (TtDiscoverPcieCap w).2.
Proof.
  intros Hb. unfold TtDiscoverPcieCap, set_cap_offset, modify, gets, mbind, st_bind. cbn [fst snd].
  set (w1 := w <| w_saved := w_saved w <| PcieCapOffset := 0 |> |>).
  pose proof (just_read_saved w (λ s, s <| PcieCapOffset := 0 |>) : just_read w w1) as H0.
  assert (PcieCapOffset (w_saved w1) = 0) as Hc by reflexivity.
  assert (BusInterfaceValid w1 = true) as Hb1 by exact Hb.
  rewrite <- (pcie_cap_cfg w w1 (jr_cfg _ _ H0)). clearbody w1. rewrite Hb1. cbn [negb].
  destruct (read_word_reads 0x06 w1 Hb1) as (Hr & Hj & Hs).
  destruct (TtCfgReadWord 0x06 w1) as [r w2]. cbn [fst snd] in *. subst r. cbn [fst snd negb orb].
  unfold pcie_cap. destruct (_ || _).
  { split; [change (PcieCapOffset (w_saved w2) = 0); by rewrite Hs | exact (just_read_trans _ _ _ H0 Hj)]. }
  assert (BusInterfaceValid w2 = true) as Hb2 by (by rewrite (just_read_bus _ _ Hj)).
  destruct (read_dword_reads 0x34 w2 Hb2) as (Hr3 & Hj3 & Hs3).
  destruct (TtCfgReadDword 0x34 w2) as [r w3]. cbn [fst snd] in *. subst r. cbn [fst snd negb].
  assert (BusInterfaceValid w3 = true) as Hb3 by (by rewrite (just_read_bus _ _ Hj3)).
  destruct (cap_walk_spec 48 (Z.land (cfg w2 0x34 4) 0xFC) w3 Hb3) as [H1 H2]; [by rewrite Hs3, Hs|].
  assert (just_read w1 w3) as Hj13 by (by etrans).
  rewrite H1, (jr_cfg _ _ Hj), (cap_chain_cfg w1 w3), (first_pcie_cfg w1 w3) by apply (jr_cfg _ _ Hj13).
  split; [reflexivity|]. rewrite (jr_cfg _ _ Hj) in H2. exact (just_read_trans _ _ _ H0 (just_read_trans _ _ _ Hj13 H2)).
Qed.

(** C31 The capability walk ends on every configuration space, cyclic and
    dangling lists included: the offset it stores is 0 or the first entry with
    the PCIe id among at most 48 entries of the list, a dword-aligned offset
    behind the header, and the walk writes nothing. *)
Theorem discover_pcie_cap_spec w :
  BusInterfaceValid w = true →
  let c := PcieCapOffset (w_saved (TtDiscoverPcieCap w).2) in
  c = pcie_cap w ∧ (c = 0 ∨ (0x40 ≤ c ≤ 0xFC ∧ c mod 4 = 0 ∧ is_pcie w c = true))
  ∧ cfg_writes (w_trace (TtDiscoverPcieCap w).2) = cfg_writes (w_trace w).
Proof.
  intros Hb c. destruct (discover_spec w Hb) as [H1 H2]. split; [exact H1|]. split; [|apply (jr_writes _ _ H2)].
  subst c. rewrite H1. unfold pcie_cap. destruct (_ || _); [by left|].
  destruct (first_pcie_in w (cap_chain w 48 (Z.land (cfg w 0x34 4) 0xFC))) as [->|[Hi Hp]]; [by left|].
  right. destruct (cap_chain_range _ _ _ _ Hi). done.
Qed.
End config.

(** ** Snapshot *)
Section snapshot.
Context {P : Platform} `{!ConfigLaws P}.

Definition header (w : World) : list Z := SavedHeaderDword (w_saved w).

Lemma save_header_spec i w :
  BusInterfaceValid w = true → length (header w) = 16%nat →
  (save_header_dword i w).1 = None ∧ just_read w (save_header_dword i w).2
  ∧ header (save_header_dword i w).2 = <[Z.to_nat i := cfg w (i * 4) 4]> (header w).
Proof.
  intros Hb Hl. unfold save_header_dword, modify, mbind, st_bind. cbn [fst snd].
  destruct (read_dword_reads (i * 4) w Hb) as (Hr & Hj & Hs).
  destruct (TtCfgReadDword (i * 4) w) as [r w1]. cbn [fst snd] in *. subst r. cbn [fst snd].
  split_and!; [done | exact (just_read_trans _ _ _ Hj (just_read_saved w1 _)) |].
  unfold header. by rewrite <- Hs.
Qed.

Lemma save_loop_spec l w :
  BusInterfaceValid w = true → length (header w) = 16%nat → (∀ i, i ∈ l → 0 ≤ i < 16) →
  let r := for_break l save_header_dword w in
  r.1 = None ∧ just_read w r.2 ∧ length (header r.2) = 16%nat
  ∧ ∀ i, 0 ≤ i < 16 → header r.2 !! Z.to_nat i = if decide (i ∈ l) then Some (cfg w (i * 4) 4) else header w !! Z.to_nat i.
Proof.
  revert w. induction l as [|x l IH]; intros w Hb Hl Hi; cbn [for_break].
  { split_and!; [done | done | done |]. intros i _. by rewrite decide_False by by apply not_elem_of_nil. }
  unfold mbind, st_bind. cbn [fst snd].
  destruct (save_header_spec x w Hb Hl) as (H1 & H2 & H3). destruct (save_header_dword x w) as [o w1]. cbn [fst snd] in *.
  subst o. assert (length (header w1) = 16%nat) as Hl1 by (by rewrite H3, length_insert).
  destruct (IH w1) as (I1 & I2 & I3 & I4); [by rewrite (just_read_bus _ _ H2) | done | intros; apply Hi; by right |].
  split_and!; [done | by etrans | done |]. intros i Hr. rewrite I4 by done. rewrite (jr_cfg _ _ H2), H3.
  pose proof (Hi x ltac:(left)) as Hx.
  destruct (decide (i ∈ l)) as [Hil|Hil]; [by rewrite decide_True by by right|].
  destruct (decide (i = x)) as [->|Hn].
  - rewrite decide_True by left. apply list_lookup_insert_eq. lia.
  - rewrite decide_False by (by intros [?|?]%elem_of_cons). apply list_lookup_insert_ne. lia.
Qed.

(** What a valid snapshot holds: the values that the configuration space had. *)
Record snapshot_of (w0 w : World) : Prop := {
  sn_length : length (header w) = 16%nat;
  sn_header i : 0 ≤ i < 16 → saved_dword i w = cfg w0 (i * 4) 4;
  sn_cap : PcieCapOffset (w_saved w) = pcie_cap w0;
  sn_devctl : pcie_cap w0 ≠ 0 → SavedPcieDevCtl (w_saved w) = cfg w0 (pcie_cap w0 + 0x08) 2;
  sn_lnkctl : pcie_cap w0 ≠ 0 → SavedPcieLnkCtl (w_saved w) = cfg w0 (pcie_cap w0 + 0x10) 2
}.

Lemma read_keeps_saved {A} (m : M A) : Steps (Frame [COs; CTrace]) m → Steps (Same w_saved) m.
Proof. intros H w. exact (frame_at CSaved _ _ w H eq_refl). Qed.

Lemma cap_walk_header n off : Steps (Same header) (cap_walk n off).
Proof.
  assert (∀ o, Steps (Same header) (TtCfgReadWord o)) as Hr.
  { intros o w. unfold Same, header. by rewrite (read_keeps_saved _ (TtCfgReadWord_frame o) w). }
  revert off. induction n as [|n IH]; intros off; cbn [cap_walk]; [apply steps_ret; apply _|].
  destruct (_ <? _); [apply steps_ret; apply _|]. apply steps_bind; [apply _ | apply Hr |]. intros r.
  destruct (_ || _); [apply steps_ret; apply _|]. destruct (_ =? _); [by apply steps_modify | apply IH].
Qed.

Lemma discover_header : Steps (Same header) TtDiscoverPcieCap.
Proof.
  assert (∀ o, Steps (Same header) (TtCfgReadWord o)) as Hr.
  { intros o w. unfold Same, header. by rewrite (read_keeps_saved _ (TtCfgReadWord_frame o) w). }
  unfold TtDiscoverPcieCap. apply steps_bind; [apply _ | by apply steps_modify |]. intros _.
  apply steps_bind; [apply _ | apply steps_gets; apply _ |]. intros v. destruct (negb v); [apply steps_ret; apply _|].
  apply steps_bind; [apply _ | apply Hr |]. intros st. destruct (_ || _); [apply steps_ret; apply _|].
  apply steps_bind; [apply _ | |].
  { intros w. unfold Same, header. by rewrite (read_keeps_saved _ (TtCfgReadDword_frame _) w). }
  intros cp. destruct (negb _); [apply steps_ret; apply _ | apply cap_walk_header].
Qed.

Lemma save_spec w :
  BusInterfaceValid w = true → length (header w) = 16%nat →
  snapshot_of w (TtPciSaveState w).2 ∧ just_read w (TtPciSaveState w).2
  ∧ SavedStateValid (w_saved (TtPciSaveState w).2) = true.
Proof.
  intros Hb Hl. unfold TtPciSaveState, modify, gets, compose, mbind, st_bind. cbn [fst snd].
  set (w1 := w <| w_saved := w_saved w <| SavedStateValid := false |> |>).
  pose proof (just_read_saved w (λ s, s <| SavedStateValid := false |>) : just_read w w1) as J1.
  assert (BusInterfaceValid w1 = true) as Hb1 by exact Hb. rewrite Hb1. cbn [negb].
  destruct (save_loop_spec (zrange 16) w1 Hb1 Hl) as (L1 & L2 & L3 & L4); [by intros i ?%elem_of_zrange|].
  destruct (for_break (zrange 16) save_header_dword w1) as [o w2]. cbn [fst snd] in *. subst o.
  assert (BusInterfaceValid w2 = true) as Hb2 by (by rewrite (just_read_bus _ _ L2)).
  destruct (discover_spec w2 Hb2) as [D1 D2]. pose proof (discover_header w2) as D3.
  destruct (TtDiscoverPcieCap w2) as [[] w3]. cbn [fst snd] in *. unfold Same in D3. cbn [snd] in D3.
  pose proof (just_read_trans _ _ _ J1 (just_read_trans _ _ _ L2 D2)) as J3.
  assert (BusInterfaceValid w3 = true) as Hb3 by (by rewrite (just_read_bus _ _ J3)).
  rewrite (pcie_cap_cfg w w2 (jr_cfg _ _ (just_read_trans _ _ _ J1 L2))) in D1.
  assert (∀ i, 0 ≤ i < 16 → default 0 (header w3 !! Z.to_nat i) = cfg w (i * 4) 4) as Hh.
  { intros i Hi. rewrite D3, L4 by done. rewrite decide_True by (apply elem_of_zrange; lia). cbn. apply (jr_cfg _ _ J1). }
  assert (length (header w3) = 16%nat) as Hl3 by (by rewrite D3).
  destruct (Z.eqb_spec (PcieCapOffset (w_saved w3)) 0) as [Ec|Ec]; cbn [negb when].
  - split_and!; [split; cbn | exact (just_read_trans _ _ _ J3 (just_read_saved w3 (λ s, s <| SavedStateValid := true |>))) | done];
      [exact Hl3 | exact Hh | exact D1 | |]; congruence.
  - destruct (read_word_reads (PcieCapOffset (w_saved w3) + 8) w3 Hb3) as (R1 & R2 & R3).
    destruct (TtCfgReadWord (PcieCapOffset (w_saved w3) + 8) w3) as [d w4]. cbn [fst snd] in *. subst d. cbn [fst snd negb].
    set (w5 := w4 <| w_saved := w_saved w4 <| SavedPcieDevCtl := cfg w3 (PcieCapOffset (w_saved w3) + 8) 2 |> |>).
    pose proof (just_read_saved w4 (λ s, s <| SavedPcieDevCtl := cfg w3 (PcieCapOffset (w_saved w3) + 8) 2 |>) : just_read w4 w5) as J5.
    pose proof (just_read_trans _ _ _ J3 (just_read_trans _ _ _ R2 J5)) as J05.
    assert (BusInterfaceValid w5 = true) as Hb5 by (by rewrite (just_read_bus _ _ J05)).
    destruct (read_word_reads (PcieCapOffset (w_saved w3) + 16) w5 Hb5) as (S1 & S2 & S3).
    destruct (TtCfgReadWord (PcieCapOffset (w_saved w3) + 16) w5) as [l w6]. cbn [fst snd] in *. subst l. cbn [fst snd when].
    assert (w_saved w6 = w_saved w3 <| SavedPcieDevCtl := cfg w3 (PcieCapOffset (w_saved w3) + 8) 2 |>) as Hs6
      by (rewrite S3; unfold w5; cbn; by rewrite R3).
    pose proof (just_read_trans _ _ _ J05 S2) as J6.
    split_and!; [split; unfold saved_dword; cbn; rewrite ?Hs6; cbn | | done].
    + exact Hl3.
    + exact Hh.
    + exact D1.
    + intros _. rewrite D1. apply (jr_cfg _ _ J3).
    + intros _. rewrite D1. apply (jr_cfg _ _ J05).
    + set (w7 := w6 <| w_saved := w_saved w6 <| SavedPcieLnkCtl := cfg w5 (PcieCapOffset (w_saved w3) + 16) 2 |> |>).
      pose proof (just_read_saved w6 (λ s, s <| SavedPcieLnkCtl := cfg w5 (PcieCapOffset (w_saved w3) + 16) 2 |>) : just_read w6 w7) as J7.
      exact (just_read_trans _ _ _ J6 (just_read_trans _ _ _ J7 (just_read_saved w7 (λ s, s <| SavedStateValid := true |>)))).
Qed.
End snapshot.

(** ** Restore *)
Section restore.
Context {P : Platform} `{!ConfigLaws P}.

(** With the snapshot [s], [m] sends exactly the writes [l] and changes nothing else. *)
Definition Sends {A} (s : SavedState) (l : list (Z * Z * Z)) (m : M A) : Prop :=
  ∀ w, BusInterfaceValid w = true → w_saved w = s →
  cfg_writes (w_trace (m w).2) = rev l ++ cfg_writes (w_trace w) ∧ Frame [COs; CTrace] w (m w).2.

Lemma sends_seq {A B} s l1 l2 (m : M A) (k : M B) : Sends s l1 m → Sends s l2 k → Sends s (l1 ++ l2) (m;; k).
Proof.
  intros Hm Hk w Hb Hs. destruct (Hm w Hb Hs) as [H1 F1]. unfold mbind, st_bind. cbn [fst snd].
  assert (BusInterfaceValid (m w).2 = true) as Hb1 by (by rewrite (F1 CBus eq_refl)).
  assert (w_saved (m w).2 = s) as Hs1 by (by rewrite (F1 CSaved eq_refl)).
  destruct (Hk _ Hb1 Hs1) as [H2 F2]. split; [|by etrans]. by rewrite H2, H1, rev_app_distr, app_assoc.
Qed.

Lemma sends_saved {A B} s l (g : SavedState → A) (k : A → M B) :
  Sends s l (k (g s)) → Sends s l (v ← gets (g ∘ w_saved); k v).
Proof. intros H w Hb Hs. unfold mbind, st_bind, gets, compose. cbn [fst snd]. rewrite Hs. by apply H. Qed.

Lemma sends_header {B} s l i (k : Z → M B) :
  Sends s l (k (default 0 (SavedHeaderDword s !! Z.to_nat i))) → Sends s l (v ← gets (saved_dword i); k v).
Proof. exact (sends_saved s l (λ s, default 0 (SavedHeaderDword s !! Z.to_nat i)) k). Qed.

Lemma sends_dword s off v : Sends s [(off, 4, wrap32 v)] (TtCfgWriteDword off v).
Proof.
  intros w Hb _. unfold TtCfgWriteDword, mbind, st_bind, gets. cbn [fst snd]. rewrite Hb. split; [done | apply emit_frame].
Qed.
Lemma sends_word s off v : Sends s [(off, 2, wrap16 v)] (TtCfgWriteWord off v).
Proof.
  intros w Hb _. unfold TtCfgWriteWord, mbind, st_bind, gets. cbn [fst snd]. rewrite Hb. split; [done | apply emit_frame].
Qed.

Lemma sends_nothing {A} s (a : A) : Sends s [] (mret a).
Proof. by intros w. Qed.

Lemma sends_for_each {A} s (l : A → list (Z * Z * Z)) (xs : list A) (body : A → M ()) :
  (∀ x, Sends s (l x) (body x)) → Sends s (mjoin (l <$> xs)) (for_each xs body).
Proof. intros H. induction xs as [|x xs IH]; cbn; [apply sends_nothing | by apply sends_seq]. Qed.

(** The registers that the restore writes, in order, from a snapshot of the
    header [h], the PCIe capability [cap] and its two control registers. *)
Definition restore_plan (h : Z → Z) (cap devctl lnkctl : Z) : list (Z * Z * Z) :=
  mjoin ((λ k, [(0x10 + 4 * k, 4, wrap32 (h ((0x10 + 4 * k) / 4)))]) <$> zrange 6)
  ++ [(0x30, 4, wrap32 (h 12))] ++ [(0x0C, 4, wrap32 (h 3))] ++ [(0x3C, 2, wrap16 (h 15))]
  ++ (if cap =? 0 then [] else [(cap + 0x08, 2, wrap16 devctl)] ++ [(cap + 0x10, 2, wrap16 lnkctl)])
  ++ [(TT_PCI_COMMAND, 2, wrap16 (h 1))].

Lemma restore_plan_ext h h' cap d d' l l' :
  (∀ i, 0 ≤ i < 16 → h i = h' i) → (cap ≠ 0 → d = d') → (cap ≠ 0 → l = l') →
  restore_plan h cap d l = restore_plan h' cap d' l'.
Proof.
  intros H Hd Hl. unfold restore_plan. rewrite !(H 12), !(H 3), !(H 15), !(H 1) by lia.
  change (zrange 6) with [0; 1; 2; 3; 4; 5]. cbn [fmap list_fmap].
  change ((0x10 + 4 * 0) / 4) with 4. change ((0x10 + 4 * 1) / 4) with 5. change ((0x10 + 4 * 2) / 4) with 6.
  change ((0x10 + 4 * 3) / 4) with 7. change ((0x10 + 4 * 4) / 4) with 8. change ((0x10 + 4 * 5) / 4) with 9.
  rewrite (H 4), (H 5), (H 6), (H 7), (H 8), (H 9) by lia.
  destruct (Z.eqb_spec cap 0) as [Hc|Hc]; [reflexivity|]. by rewrite (Hd Hc), (Hl Hc).
Qed.

Definition saved_plan (w : World) : list (Z * Z * Z) :=
  restore_plan (λ i, saved_dword i w) (PcieCapOffset (w_saved w)) (SavedPcieDevCtl (w_saved w)) (SavedPcieLnkCtl (w_saved w)).

Lemma restore_writes_sends w0 : Sends (w_saved w0) (saved_plan w0) restore_writes.
Proof.
  unfold restore_writes, saved_plan, restore_plan.
  apply sends_seq; [apply (sends_for_each (w_saved w0)); intros k; cbv zeta; apply sends_header, sends_dword|].
  apply sends_seq; [apply sends_header, sends_dword|].
  apply sends_seq; [apply sends_header, sends_dword|].
  apply sends_seq; [apply sends_header, sends_word|].
  apply sends_seq; [|apply sends_header, sends_word].
  apply sends_saved. destruct (_ =? 0); cbn [negb when]; [apply sends_nothing|].
  apply sends_saved, sends_seq; [apply sends_word|]. apply sends_saved, sends_word.
Qed.

Lemma restore_done w :
  BusInterfaceValid w = true → cfg w 0x00 2 = TT_PCI_VENDOR_ID → SavedStateValid (w_saved w) = true →
  (TtSafeRestoreState w).1 = true
  ∧ (TtSafeRestoreState w).2 = (TtPciSaveState (restore_writes (TtCfgReadWord 0x00 w).2).2).2.
Proof.
  intros Hb Hv Hs. destruct (read_word_reads 0x00 w Hb) as (R1 & _ & R3).
  unfold TtSafeRestoreState, mbind, st_bind, gets, compose. destruct (TtCfgReadWord 0x00 w) as [v w2]. cbn [fst snd] in *.
  subst v. cbn [fst snd]. rewrite Hv, Z.eqb_refl. cbn [negb orb]. rewrite R3, Hs. cbn [negb].
  generalize (restore_writes w2). intros [[] w3]. cbn [fst snd]. generalize (TtPciSaveState w3). intros [[] w4]. done.
Qed.

(** C30 A restore on a link that is down, on a foreign device (the vendor id does
    not read back) or without a valid snapshot is refused: it answers failure
    and writes no configuration register. *)
Theorem safe_restore_refused w :
  BusInterfaceValid w = false ∨ cfg w 0x00 2 ≠ TT_PCI_VENDOR_ID ∨ SavedStateValid (w_saved w) = false →
  (TtSafeRestoreState w).1 = false
  ∧ cfg_writes (w_trace (TtSafeRestoreState w).2) = cfg_writes (w_trace w)
  ∧ w_saved (TtSafeRestoreState w).2 = w_saved w.
Proof.
  intros H. unfold TtSafeRestoreState, mbind, st_bind, gets. cbn [fst snd].
  destruct (BusInterfaceValid w) eqn:Hb.
  - destruct (read_word_reads 0x00 w Hb) as (R1 & R2 & R3). destruct (TtCfgReadWord 0x00 w) as [v w1]. cbn [fst snd] in *.
    subst v. cbn [fst snd negb orb]. destruct (Z.eqb_spec (cfg w 0x00 2) TT_PCI_VENDOR_ID) as [E|E]; cbn [negb].
    + unfold compose. rewrite R3. destruct H as [H|[H|H]]; [done | done |]. rewrite H. cbn [negb].
      split_and!; [done | apply (jr_writes _ _ R2) | done].
    + split_and!; [done | apply (jr_writes _ _ R2) | done].
  - unfold TtCfgReadWord, mbind, st_bind, gets. cbn [fst snd]. rewrite Hb. done.
Qed.

Lemma restore_spec w :
  BusInterfaceValid w = true → cfg w 0x00 2 = TT_PCI_VENDOR_ID → SavedStateValid (w_saved w) = true →
  length (header w) = 16%nat →
  (TtSafeRestoreState w).1 = true
  ∧ cfg_writes (w_trace (TtSafeRestoreState w).2) = rev (saved_plan w) ++ cfg_writes (w_trace w).
Proof.
  intros Hb Hv Hs Hl. destruct (restore_done w Hb Hv Hs) as [D1 ->]. split; [exact D1|]. clear D1.
  destruct (read_word_reads 0x00 w Hb) as (_ & R2 & R3). revert R2 R3.
  generalize (TtCfgReadWord 0x00 w).2. intros w2 R2 R3.
  assert (BusInterfaceValid w2 = true) as Hb2 by (by rewrite (just_read_bus _ _ R2)).
  destruct (restore_writes_sends w w2 Hb2 R3) as [W1 W2]. revert W1 W2. generalize (restore_writes w2).2. intros w3 W1 W2.
  assert (BusInterfaceValid w3 = true) as Hb3 by (by rewrite (W2 CBus eq_refl)).
  assert (length (header w3) = 16%nat) as Hl3 by (unfold header; by rewrite (W2 CSaved eq_refl), R3).
  destruct (save_spec w3 Hb3 Hl3) as (_ & J & _). rewrite (jr_writes _ _ J). by rewrite W1, (jr_writes _ _ R2).
Qed.

Lemma snapshot_saved w0 w w1 : w_saved w1 = w_saved w → snapshot_of w0 w → snapshot_of w0 w1.
Proof. intros Hs [S0 S1 S2 S3 S4]. split; unfold saved_dword, header in *; rewrite Hs; assumption. Qed.

Lemma snapshot_plan w0 w (cap := pcie_cap w0) :
  snapshot_of w0 w →
  saved_plan w = restore_plan (λ i, cfg w0 (i * 4) 4) cap (cfg w0 (cap + 0x08) 2) (cfg w0 (cap + 0x10) 2).
Proof. intros [_ S1 S2 S3 S4]. unfold saved_plan. rewrite S2. by apply restore_plan_ext. Qed.

(** C19 Save and restore round trip: whatever happens between the snapshot and
    the restore, as long as the snapshot is kept and the device answers with
    its vendor id, the restore succeeds and writes to each BAR, the ROM
    base, the cache-line dword, the interrupt line, the PCIe device and link
    control registers and last the Command register exactly the value that the
    configuration space had when the snapshot was taken, and nothing else. *)
Theorem config_roundtrip w0 w1 :
  BusInterfaceValid w0 = true → length (header w0) = 16%nat →
  BusInterfaceValid w1 = true → w_saved w1 = w_saved (TtPciSaveState w0).2 →
  cfg w1 0x00 2 = TT_PCI_VENDOR_ID →
  let cap := pcie_cap w0 in
  (TtSafeRestoreState w1).1 = true
  ∧ cfg_writes (w_trace (TtSafeRestoreState w1).2)
    = rev (restore_plan (λ i, cfg w0 (i * 4) 4) cap (cfg w0 (cap + 0x08) 2) (cfg w0 (cap + 0x10) 2))
      ++ cfg_writes (w_trace w1).
Proof.
  intros Hb0 Hl Hb1 Hs Hv cap. destruct (save_spec w0 Hb0 Hl) as (Hsn & _ & Sv). rewrite <- Hs in Sv.
  apply (snapshot_saved w0 _ w1 Hs) in Hsn.
  destruct (restore_spec w1 Hb1 Hv Sv (sn_length _ _ Hsn)) as [H1 H2]. split; [exact H1|].
  rewrite H2. by rewrite (snapshot_plan w0 w1 Hsn).
Qed.
End restore.

(** ** Instances on the simulated bus *)
#[global, refine] Instance sim_config_laws : ConfigLaws sim :=
  {| cfg_at := λ (os : OS (Platform := sim)) off _, sim_find_cfg off (sim_cfg os) |}.
Proof. all: done. Defined.

(** A device with a power-management capability at 0x40 and the PCIe one at
    0x50, which points back to the first. *)
Definition sim_cfg_os : SimOS :=
  mkSim 0x10000 0%N [] [(0x00, 0xB1401E52); (0x04, 0x00100006); (0x06, 0x0010); (0x10, 0x4000000C); (0x34, 0x40);
    (0x3C, 0x10B); (0x40, 0x5001); (0x50, 0x4010); (0x58, 0x2810); (0x60, 0x0040)] 100 STATUS_SUCCESS.
Definition cfg_world : World (P := sim) := sim_world <| w_os := (sim_cfg_os : OS (Platform := sim)) |>.

Lemma discover_pcie_cap_spec_witness :
  PcieCapOffset (w_saved (TtDiscoverPcieCap cfg_world).2) = 0x50 ∧ is_pcie cfg_world 0x50 = true.
Proof.
  pose proof (discover_pcie_cap_spec cfg_world eq_refl) as (H1 & H2 & _).
  assert (pcie_cap cfg_world = 0x50) as E by (vm_compute; reflexivity).
  assert (PcieCapOffset (w_saved (TtDiscoverPcieCap cfg_world).2) = 0x50) as H3 by exact (eq_trans H1 E).
  split; [exact H3|]. rewrite H3 in H2. destruct H2 as [H2|[_ [_ H2]]]; [discriminate H2 | exact H2].
Defined.

(** A reset that clears BAR0 and the Command register. *)
Definition after_reset (w : World (P := sim)) : World (P := sim) :=
  w <| w_os := (sim_set_cfg 0x10 0 (sim_set_cfg 0x04 0 sim_cfg_os) : OS (Platform := sim)) |>.
Lemma after_reset_saved w : w_saved (after_reset w) = w_saved w.
Proof. reflexivity. Qed.

Lemma config_roundtrip_witness :
  (TtSafeRestoreState (after_reset (TtPciSaveState cfg_world).2)).1 = true
  ∧ cfg_writes (w_trace (TtSafeRestoreState (after_reset (TtPciSaveState cfg_world).2)).2)
    = [(0x04, 2, 6); (0x60, 2, 0x40); (0x58, 2, 0x2810); (0x3C, 2, 0x10B); (0x0C, 4, 0); (0x30, 4, 0);
       (0x24, 4, 0); (0x20, 4, 0); (0x1C, 4, 0); (0x18, 4, 0); (0x14, 4, 0); (0x10, 4, 0x4000000C)].
Proof.
  assert (length (header cfg_world) = 16%nat) as Hl by (vm_compute; reflexivity).
  assert (BusInterfaceValid cfg_world = true) as Hb0 by (vm_compute; reflexivity).
  assert (cfg (after_reset (TtPciSaveState cfg_world).2) 0 2 = TT_PCI_VENDOR_ID) as Hv by (vm_compute; reflexivity).
  assert (BusInterfaceValid (after_reset (TtPciSaveState cfg_world).2) = true) as Hb by (vm_compute; reflexivity).
  pose proof (config_roundtrip cfg_world (after_reset (TtPciSaveState cfg_world).2) Hb0 Hl Hb (after_reset_saved (TtPciSaveState cfg_world).2) Hv) as [H1 H2].
  split; [exact H1|]. rewrite H2. vm_compute. reflexivity.
Defined.

Lemma safe_restore_refused_witness :
  (TtSafeRestoreState sim_world).1 = false
  ∧ cfg_writes (w_trace (TtSafeRestoreState sim_world).2) = cfg_writes (w_trace sim_world).
Proof.
  assert (cfg sim_world 0x00 2 ≠ TT_PCI_VENDOR_ID) as H by (vm_compute; discriminate).
  destruct (safe_restore_refused sim_world (or_intror (or_introl H))) as (H1 & H2 & _). exact (conj H1 H2).
Defined.
