(* ===== verification/Blackhole.v ===== *)
(** * The Blackhole layer (src/driver/blackhole.c)

    TLB window and outbound iATU registers, NOC access through the driver's
    kernel window, the ARC message queue, telemetry, and the hardware
    initialisation and reset sequences. *)
From S2P Require Import Prelude Platform Frame Trace Abi PciConfig.

(** ** Constants of blackhole.h and blackhole.c *)
Definition TT_BH_ARC_X : Z := 8.
Definition TT_BH_ARC_Y : Z := 0.
Definition TT_BH_RESET_SCRATCH (n : Z) : Z := 0x80030400 + n * 4.
Definition TT_BH_ARC_BOOT_STATUS : Z := TT_BH_RESET_SCRATCH 2.
Definition TT_BH_ARC_BOOT_STATUS_READY_FOR_MSG : Z := 0x1.
Definition TT_BH_ARC_MSG_QCB_PTR : Z := TT_BH_RESET_SCRATCH 11.
Definition TT_BH_ARC_TELEMETRY_DATA : Z := TT_BH_RESET_SCRATCH 12.
Definition TT_BH_ARC_TELEMETRY_PTR : Z := TT_BH_RESET_SCRATCH 13.
Definition TT_BH_ARC_MSI_FIFO : Z := 0x800B0000.
Definition TT_ARC_CSM_BASE : Z := 0x10000000.
Definition TT_ARC_CSM_SIZE : Z := Z.shiftl 1 19.
Definition TT_ARC_MSG_QUEUE_HEADER_SIZE : Z := 32.
Definition TT_ARC_MSG_QUEUE_REQ_WPTR : Z := 0x00.
Definition TT_ARC_MSG_QUEUE_RES_RPTR : Z := 0x04.
Definition TT_ARC_MSG_QUEUE_REQ_RPTR : Z := 0x10.
Definition TT_ARC_MSG_QUEUE_RES_WPTR : Z := 0x14.
Definition TT_ARC_MSG_TIMEOUT_MS : Z := 1000.
Definition TT_ARC_MSG_READY_MS : Z := 500.
Definition TT_ARC_MSG_TYPE_POWER_SETTING : Z := 0x21.
Definition TT_ARC_MSG_TYPE_TRIGGER_RESET : Z := 0x56.
Definition TT_ARC_MSG_TYPE_TEST : Z := 0x90.
Definition TT_ARC_MSG_TYPE_ASIC_STATE0 : Z := 0xA0.
Definition TT_ARC_MSG_TYPE_ASIC_STATE3 : Z := 0xA3.
Definition TT_ARC_MSG_TYPE_SET_WDT_TIMEOUT : Z := 0xC1.
Definition TT_TELEM_TAG_CACHE_SIZE : Z := 128.
Definition TT_BH_NOC_ID_OFFSET : Z := 0x4044.
Definition TT_BH_PCIE_DBI_ADDR : Z := 0xF800000000000000.
Definition TT_BH_DBI_DEVCTL_DEVSTA : Z := 0x78.
Definition TT_PCI_EXP_DEVCTL_PAYLOAD : Z := 0x00E0.
Definition TT_PCI_EXP_DEVCTL_PAYLOAD_SHIFT : Z := 5.
Definition TT_PCI_EXP_DEVCTL_READRQ : Z := 0x7000.
Definition TT_PCI_EXP_DEVCTL_READRQ_SHIFT : Z := 12.
Definition TT_BH_MAX_MRRS_ENCODING : Z := 5.
Definition TT_AUTO_RESET_TIMEOUT_S : Z := 10.
Definition ARC_MSG_BYTES : Z := 32.   (* sizeof(TT_ARC_MSG) *)

(** The fixed 32-byte message. *)
Record TT_ARC_MSG := mkMsg { Header : Z; Payload : list Z }.
Definition msg_zero : TT_ARC_MSG := mkMsg 0 (replicate 7 0).
Definition msg_of (type : Z) : TT_ARC_MSG := mkMsg type (replicate 7 0).
Definition msg_of1 (type p0 : Z) : TT_ARC_MSG := mkMsg type (p0 :: replicate 6 0).
(** [(i == 0) ? Msg->Header : Msg->Payload[i - 1]] *)
Definition msg_word (m : TT_ARC_MSG) (i : Z) : Z :=
  if i =? 0 then Header m else default 0 (Payload m !! Z.to_nat (i - 1)).

(** ** TLB window registers *)

(** Sets bits [BitOffset, BitOffset + BitLength) of the register to those of
    [Value] (the register starts cleared). *)
Definition TtBhSetBits (BitOffset BitLength Value : Z) (Words : list Z) : list Z :=
  foldl (λ ws i,
    if has_bits (Z.shiftr Value i) 1
    then alter (λ x, Z.lor x (Z.shiftl 1 ((BitOffset + i) mod 32)))
               (Z.to_nat ((BitOffset + i) / 32)) ws
    else ws) Words (zrange (Z.to_nat BitLength)).

Definition word (ws : list Z) (i : nat) : Z := default 0 (ws !! i).

(** The register image of the kernel window (TtBhConfigureKernelTlb). *)
Definition kernel_tlb_words (X Y Addr Noc : Z) : list Z :=
  let base := Z.land Addr (wrap64 (Z.lnot (TT_BH_KERNEL_TLB_LEN - 1))) in
  TtBhSetBits 70 2 1
    (TtBhSetBits 67 2 Noc
      (TtBhSetBits 49 6 Y
        (TtBhSetBits 43 6 X
          (TtBhSetBits 0 43 (Z.shiftr base 21) [0; 0; 0])))).

(** The fields of a [struct tenstorrent_noc_tlb_config]. *)
Record TlbConfig := mkCfg {
  cfg_addr : Z; cfg_x_end : Z; cfg_y_end : Z; cfg_x_start : Z; cfg_y_start : Z;
  cfg_noc : Z; cfg_mcast : Z; cfg_ordering : Z; cfg_linked : Z; cfg_static_vc : Z
}.
Definition decode_config (b : list Z) : TlbConfig :=
  let g f := sget tenstorrent_noc_tlb_config f b in
  mkCfg (g "addr") (g "x_end") (g "y_end") (g "x_start") (g "y_start")
        (g "noc") (g "mcast") (g "ordering") (g "linked") (g "static_vc").

Definition user_tlb_words (is2M : bool) (c : TlbConfig) : list Z :=
  if is2M then
    TtBhSetBits 73 1 (cfg_static_vc c) (TtBhSetBits 72 1 (cfg_linked c)
    (TtBhSetBits 70 2 (cfg_ordering c) (TtBhSetBits 69 1 (cfg_mcast c)
    (TtBhSetBits 67 2 (cfg_noc c) (TtBhSetBits 61 6 (cfg_y_start c)
    (TtBhSetBits 55 6 (cfg_x_start c) (TtBhSetBits 49 6 (cfg_y_end c)
    (TtBhSetBits 43 6 (cfg_x_end c) (TtBhSetBits 0 43 (Z.shiftr (cfg_addr c) 21)
    [0; 0; 0])))))))))
  else
    TtBhSetBits 62 1 (cfg_static_vc c) (TtBhSetBits 61 1 (cfg_linked c)
    (TtBhSetBits 59 2 (cfg_ordering c) (TtBhSetBits 58 1 (cfg_mcast c)
    (TtBhSetBits 56 2 (cfg_noc c) (TtBhSetBits 50 6 (cfg_y_start c)
    (TtBhSetBits 44 6 (cfg_x_start c) (TtBhSetBits 38 6 (cfg_y_end c)
    (TtBhSetBits 32 6 (cfg_x_end c) (TtBhSetBits 0 32 (Z.shiftr (cfg_addr c) 32)
    [0; 0; 0]))))))))).

(** The occupancy test of the message rings: [(wptr - rptr) % (2 * n)] on UINT32. *)
Definition ring_used (wptr rptr n : Z) : Z := wrap32 (wptr - rptr) mod wrap32 (2 * n).
Definition ring_next (ptr n : Z) : Z := wrap32 (ptr + 1) mod wrap32 (2 * n).

Section blackhole.
Context {P : Platform}.

Definition write_tlb_words (regs : Z) (words : list Z) : M () :=
  write_register RTlbRegs (regs + 0) (word words 0);;
  write_register RTlbRegs (regs + 4) (word words 1);;
  write_register RTlbRegs (regs + 8) (word words 2).

(** Programs window 201 and returns the offset of [Addr] in the KernelTlb mapping. *)
Definition TtBhConfigureKernelTlb (X Y Addr Noc : Z) : M Z :=
  let offset := Z.land Addr (TT_BH_KERNEL_TLB_LEN - 1) in
  let regs := TT_BH_KERNEL_TLB_INDEX * TT_BH_TLB_REG_SIZE in
  write_tlb_words regs (kernel_tlb_words X Y Addr Noc);;
  mret offset.

Definition TtBhConfigureUserTlb (Id : Z) (Config : TlbConfig) : M NTSTATUS :=
  let regs := Id * TT_BH_TLB_REG_SIZE in
  let is2M := Id <? TT_TLB_2M_COUNT in
  let windowMask := if is2M then TT_BH_KERNEL_TLB_LEN - 1 else Z.shiftl 1 32 - 1 in
  if has_bits (cfg_addr Config) windowMask then mret STATUS_INVALID_PARAMETER
  else
    write_tlb_words regs (user_tlb_words is2M Config);;
    when (Id <? 32)
      (write_register RTlbRegs
         ((TT_TLB_2M_COUNT + TT_TLB_4G_MAX) * TT_BH_TLB_REG_SIZE + Id * 4) 0);;
    mret STATUS_SUCCESS.

Definition TtBhConfigureOutboundAtu (Region Base Limit Target : Z) : M NTSTATUS :=
  let size := wrap64 (Limit - Base + 1) in
  let ctrl1 := Z.shiftl 1 13 in
  let ctrl2 := if Limit =? 0 then 0 else Z.shiftl 1 31 in
  if negb (Limit =? 0) && (Z.shiftl 1 40 <? size) then mret STATUS_INVALID_PARAMETER
  else if TT_IATU_REGIONS <=? Region then mret STATUS_INVALID_PARAMETER
  else
    let regs := 0x1000 + Region * 0x100 in
    write_register RBar2 (regs + 0x08) (wrap32 Base);;
    write_register RBar2 (regs + 0x0C) (wrap32 (Z.shiftr Base 32));;
    write_register RBar2 (regs + 0x14) (wrap32 Target);;
    write_register RBar2 (regs + 0x18) (wrap32 (Z.shiftr Target 32));;
    write_register RBar2 (regs + 0x10) (wrap32 Limit);;
    write_register RBar2 (regs + 0x20) (wrap32 (Z.shiftr Limit 32));;
    write_register RBar2 (regs + 0x00) ctrl1;;
    write_register RBar2 (regs + 0x04) ctrl2;;
    write_register RBar2 (regs + 0x1C) 0;;
    mret STATUS_SUCCESS.

(** ** NOC access *)
Definition TtBhNocRead32 (X Y Addr Noc : Z) : M Z :=
  acquire KernelTlbLock;;
  window ← TtBhConfigureKernelTlb X Y Addr Noc;
  value ← read_register RKernelTlb window;
  release KernelTlbLock;;
  mret value.

Definition TtBhNocWrite32 (X Y Addr Data Noc : Z) : M () :=
  acquire KernelTlbLock;;
  window ← TtBhConfigureKernelTlb X Y Addr Noc;
  write_register RKernelTlb window Data;;
  release KernelTlbLock.

Definition TtBhNocWrite (X Y Addr Data Noc : Z) : M () := TtBhNocWrite32 X Y Addr Data Noc.

Definition TtBhDetectPcieNocX : M (bool * Z) :=
  v ← read_register RNoc2AxiCfg TT_BH_NOC_ID_OFFSET;
  let NocX := Z.land v 0x3F in
  mret ((NocX =? 2) || (NocX =? 11), NocX).

Definition TtBhSaveResetState : M () :=
  modify (λ w, w <| w_saved := w_saved w <| SavedMpsValid := false |> |>);;
  mapped ← gets (Noc2AxiCfg ∘ w_bars);
  if negb mapped then mret tt
  else
    d ← TtBhDetectPcieNocX;
    if negb d.1 then mret tt
    else
      deviceControl ← TtBhNocRead32 d.2 0 (TT_BH_PCIE_DBI_ADDR + TT_BH_DBI_DEVCTL_DEVSTA) 0;
      if deviceControl =? MAXUINT32 then mret tt
      else
        let mps := wrap8 (Z.shiftr (Z.land deviceControl TT_PCI_EXP_DEVCTL_PAYLOAD)
                                   TT_PCI_EXP_DEVCTL_PAYLOAD_SHIFT) in
        modify (λ w, w <| w_saved := w_saved w <| SavedMps := mps |> <| SavedMpsValid := true |> |>).

Definition TtBhRestoreResetState : M () :=
  valid ← gets (SavedMpsValid ∘ w_saved);
  mapped ← gets (Noc2AxiCfg ∘ w_bars);
  if negb valid || negb mapped then mret tt
  else
    d ← TtBhDetectPcieNocX;
    if negb d.1 then mret tt
    else
      deviceControl ← TtBhNocRead32 d.2 0 (TT_BH_PCIE_DBI_ADDR + TT_BH_DBI_DEVCTL_DEVSTA) 0;
      if deviceControl =? MAXUINT32 then mret tt
      else
        mps ← gets (SavedMps ∘ w_saved);
        let cleared := Z.land deviceControl (wrap32 (Z.lnot TT_PCI_EXP_DEVCTL_PAYLOAD)) in
        let value := Z.lor cleared
          (Z.land (wrap32 (Z.shiftl mps TT_PCI_EXP_DEVCTL_PAYLOAD_SHIFT))
                  TT_PCI_EXP_DEVCTL_PAYLOAD) in
        TtBhNocWrite32 d.2 0 (TT_BH_PCIE_DBI_ADDR + TT_BH_DBI_DEVCTL_DEVSTA) value 0.

Definition csm_out_of_range (Addr : Z) : bool :=
  (Addr <? TT_ARC_CSM_BASE) || (TT_ARC_CSM_BASE + TT_ARC_CSM_SIZE - 4 <? Addr).

Definition TtBhCsmRead32 (Addr : Z) : M (bool * Z) :=
  if csm_out_of_range Addr then mret (false, 0)
  else v ← TtBhNocRead32 TT_BH_ARC_X TT_BH_ARC_Y Addr 0; mret (true, v).

Definition TtBhCsmWrite32 (Addr Value : Z) : M bool :=
  if csm_out_of_range Addr then mret false
  else TtBhNocWrite32 TT_BH_ARC_X TT_BH_ARC_Y Addr Value 0;; mret true.

(** ** The message queue engine

    The polling loops ([for (;;)]) take a fuel; when it runs out they log
    [EvOutOfFuel], an event that stands for "the loop is still running".  The
    fuel given is more than the number of iterations the deadline allows (one
    delay is at least 100 us = 1000 units of interrupt time), which is what
    the termination theorems prove. *)
Definition TtBhDeadline (Milliseconds : Z) : M Z :=
  now ← call KeQueryInterruptTime (λ _, [EvTime]);
  mret (wrap64 (now + Milliseconds * 10000)).

Definition TtBhPollDelay : M () := emit EvDelay.

Definition time_after (deadline : Z) : M bool :=
  now ← call KeQueryInterruptTime (λ _, [EvTime]); mret (deadline <? now).

Definition poll_fuel (Milliseconds : Z) : nat := Z.to_nat (Milliseconds * 10 + 2).

(** Waits until there is room in the request ring. *)
Fixpoint arc_push_wait (fuel : nat) (QueueBase NumEntries wptr deadline : Z) : M bool :=
  match fuel with
  | O => emit EvOutOfFuel;; mret false
  | S k =>
      r ← TtBhCsmRead32 (wrap32 (QueueBase + TT_ARC_MSG_QUEUE_REQ_RPTR));
      if negb r.1 then mret false
      else if r.2 =? MAXUINT32 then mret false
      else if ring_used wptr r.2 NumEntries <? NumEntries then mret true
      else
        late ← time_after deadline;
        if (late : bool) then mret false
        else TtBhPollDelay;; arc_push_wait k QueueBase NumEntries wptr deadline
  end.

Definition arc_entry_addr (base slot i : Z) : Z :=
  wrap32 (base + slot * ARC_MSG_BYTES + i * 4).

(** Writes the eight words of an entry; stops at a range error. *)
Definition arc_write_entry (requestBase slot : Z) (Msg : TT_ARC_MSG) : M (option ()) :=
  for_break (zrange 8) (λ i,
    ok ← TtBhCsmWrite32 (arc_entry_addr requestBase slot i) (msg_word Msg i);
    mret (if (ok : bool) then None else Some tt)).

Definition TtBhArcMsgPush (Msg : TT_ARC_MSG) (QueueBase NumEntries : Z) : M bool :=
  let requestBase := wrap32 (QueueBase + TT_ARC_MSG_QUEUE_HEADER_SIZE) in
  r ← TtBhCsmRead32 (wrap32 (QueueBase + TT_ARC_MSG_QUEUE_REQ_WPTR));
  let wptr := r.2 in
  if negb r.1 then mret false
  else if wptr =? MAXUINT32 then mret false
  else
    deadline ← TtBhDeadline TT_ARC_MSG_TIMEOUT_MS;
    room ← arc_push_wait (poll_fuel TT_ARC_MSG_TIMEOUT_MS) QueueBase NumEntries wptr deadline;
    if negb room then mret false
    else
      failed ← arc_write_entry requestBase (wptr mod NumEntries) Msg;
      match failed with
      | Some _ => mret false
      | None =>
          KeMemoryBarrier;;
          TtBhCsmWrite32 (wrap32 (QueueBase + TT_ARC_MSG_QUEUE_REQ_WPTR))
                         (ring_next wptr NumEntries)
      end.

(** Waits until there is a response. *)
Fixpoint arc_pop_wait (fuel : nat) (QueueBase NumEntries rptr deadline : Z) : M bool :=
  match fuel with
  | O => emit EvOutOfFuel;; mret false
  | S k =>
      r ← TtBhCsmRead32 (wrap32 (QueueBase + TT_ARC_MSG_QUEUE_RES_WPTR));
      if negb r.1 then mret false
      else if r.2 =? MAXUINT32 then mret false
      else if 0 <? ring_used r.2 rptr NumEntries then mret true
      else
        late ← time_after deadline;
        if (late : bool) then mret false
        else TtBhPollDelay;; arc_pop_wait k QueueBase NumEntries rptr deadline
  end.

(** Reads [n] payload words from [addr] on; on a range error the words not
    reached keep the value they had. *)
Fixpoint arc_read_payload (base i : Z) (old : list Z) : M (bool * list Z) :=
  match old with
  | [] => mret (true, [])
  | _ :: rest =>
      r ← TtBhCsmRead32 (wrap32 (base + (i + 1) * 4));
      if negb r.1 then mret (false, r.2 :: rest)
      else t ← arc_read_payload base (i + 1) rest; mret (t.1, r.2 :: t.2)
  end.

Definition TtBhArcMsgPop (QueueBase NumEntries : Z) : M (bool * TT_ARC_MSG) :=
  let responseBase :=
    wrap32 (QueueBase + TT_ARC_MSG_QUEUE_HEADER_SIZE + NumEntries * ARC_MSG_BYTES) in
  r ← TtBhCsmRead32 (wrap32 (QueueBase + TT_ARC_MSG_QUEUE_RES_RPTR));
  let rptr := r.2 in
  if negb r.1 then mret (false, msg_zero)
  else if rptr =? MAXUINT32 then mret (false, msg_zero)
  else
    deadline ← TtBhDeadline TT_ARC_MSG_TIMEOUT_MS;
    avail ← arc_pop_wait (poll_fuel TT_ARC_MSG_TIMEOUT_MS) QueueBase NumEntries rptr deadline;
    if negb avail then mret (false, msg_zero)
    else
      KeMemoryBarrier;;
      let base := wrap32 (responseBase + (rptr mod NumEntries) * ARC_MSG_BYTES) in
      h ← TtBhCsmRead32 base;
      if negb h.1 then mret (false, mkMsg h.2 (replicate 7 0))
      else
        p ← arc_read_payload base 0 (replicate 7 0);
        if negb p.1 then mret (false, mkMsg h.2 p.2)
        else
          ok ← TtBhCsmWrite32 (wrap32 (QueueBase + TT_ARC_MSG_QUEUE_RES_RPTR))
                              (ring_next rptr NumEntries);
          mret (ok, mkMsg h.2 p.2).

(** Polls the boot status; returns the last value read, [None] when it was all-ones. *)
Fixpoint arc_ready_wait (fuel : nat) (deadline : Z) : M (option Z) :=
  match fuel with
  | O => emit EvOutOfFuel;; mret None
  | S k =>
      bootStatus ← TtBhNocRead32 TT_BH_ARC_X TT_BH_ARC_Y TT_BH_ARC_BOOT_STATUS 0;
      if bootStatus =? MAXUINT32 then mret None
      else if has_bits bootStatus TT_BH_ARC_BOOT_STATUS_READY_FOR_MSG then mret (Some bootStatus)
      else
        late ← time_after deadline;
        if (late : bool) then mret (Some bootStatus)
        else TtBhPollDelay;; arc_ready_wait k deadline
  end.

(** The transaction between the ready gate and the release of ArcMsgLock. *)
Definition arc_transact (Msg : TT_ARC_MSG) : M (bool * TT_ARC_MSG) :=
  deadline ← TtBhDeadline TT_ARC_MSG_READY_MS;
  boot ← arc_ready_wait (poll_fuel TT_ARC_MSG_READY_MS) deadline;
  match boot with
  | None => mret (false, Msg)
  | Some bootStatus =>
      if negb (has_bits bootStatus TT_BH_ARC_BOOT_STATUS_READY_FOR_MSG) then mret (false, Msg)
      else
        queueCtrlAddr ← TtBhNocRead32 TT_BH_ARC_X TT_BH_ARC_Y TT_BH_ARC_MSG_QCB_PTR 0;
        b ← TtBhCsmRead32 (wrap32 (queueCtrlAddr + 0));
        if negb b.1 then mret (false, Msg)
        else
          q ← TtBhCsmRead32 (wrap32 (queueCtrlAddr + 4));
          if negb q.1 then mret (false, Msg)
          else
            let queueBase := b.2 in
            let numEntries := Z.land q.2 0xFF in
            if numEntries =? 0 then mret (false, Msg)
            else
              pushed ← TtBhArcMsgPush Msg queueBase numEntries;
              if negb pushed then mret (false, Msg)
              else
                KeMemoryBarrier;;
                TtBhNocWrite32 TT_BH_ARC_X TT_BH_ARC_Y TT_BH_ARC_MSI_FIFO 0 0;;
                r ← TtBhArcMsgPop queueBase numEntries;
                if negb r.1 then mret (false, r.2)
                else mret (Header r.2 =? 0, r.2)
  end.

Definition TtBhSendArcMessage (Msg : TT_ARC_MSG) : M (bool * TT_ARC_MSG) :=
  acquire ArcMsgLock;;
  r ← arc_transact Msg;
  release ArcMsgLock;;
  mret r.

(** ** Telemetry *)
Definition tag_cache_set (tagId addr : Z) : M () :=
  modify (λ w, w <| w_telem := w_telem w
    <| TelemetryTagCache := <[Z.to_nat tagId := addr]> (TelemetryTagCache (w_telem w)) |> |>).

Definition probe_tag (tagsAddr dataAddr i : Z) : M () :=
  tagEntry ← TtBhNocRead32 TT_BH_ARC_X TT_BH_ARC_Y (wrap32 (tagsAddr + wrap32 (i * 4))) 0;
  let tagId := Z.land tagEntry 0xFFFF in
  let offset := Z.land (Z.shiftr tagEntry 16) 0xFFFF in
  when (tagId <? TT_TELEM_TAG_CACHE_SIZE) (tag_cache_set tagId (dataAddr + offset * 4)).

Definition TtBhTelemetryProbe : M NTSTATUS :=
  modify (λ w, w <| w_telem := mkTelem (replicate 128 0) false |>);;
  baseAddr ← TtBhNocRead32 TT_BH_ARC_X TT_BH_ARC_Y TT_BH_ARC_TELEMETRY_PTR 0;
  dataAddr ← TtBhNocRead32 TT_BH_ARC_X TT_BH_ARC_Y TT_BH_ARC_TELEMETRY_DATA 0;
  let tagsAddr := wrap32 (baseAddr + 8) in
  if (baseAddr <? TT_ARC_CSM_BASE) || (TT_ARC_CSM_BASE + TT_ARC_CSM_SIZE <=? baseAddr)
     || (dataAddr <? TT_ARC_CSM_BASE) || (TT_ARC_CSM_BASE + TT_ARC_CSM_SIZE <=? dataAddr)
  then mret STATUS_DEVICE_NOT_READY
  else
    version ← TtBhNocRead32 TT_BH_ARC_X TT_BH_ARC_Y baseAddr 0;
    let majorVer := Z.land (Z.shiftr version 16) 0xFF in
    if 1 <? majorVer then mret STATUS_NOT_SUPPORTED
    else
      numEntries ← TtBhNocRead32 TT_BH_ARC_X TT_BH_ARC_Y (wrap32 (baseAddr + 4)) 0;
      for_each (zrange (Z.to_nat numEntries)) (probe_tag tagsAddr dataAddr);;
      modify (λ w, w <| w_telem := w_telem w <| TelemetryValid := true |> |>);;
      mret STATUS_SUCCESS.

Definition TtBhReadTelemetryTag (TagId : Z) : M (NTSTATUS * Z) :=
  if TT_TELEM_TAG_CACHE_SIZE <=? TagId then mret (STATUS_INVALID_PARAMETER, 0)
  else
    cache ← gets (TelemetryTagCache ∘ w_telem);
    let addr := default 0 (cache !! Z.to_nat TagId) in
    if addr =? 0 then mret (STATUS_NOT_FOUND, 0)
    else
      r ← TtBhCsmRead32 addr;
      if negb r.1 then mret (STATUS_ACCESS_VIOLATION, r.2)
      else mret (STATUS_SUCCESS, r.2).

Definition TtBhTagPresent (Tag : Z) : M (bool * Z) :=
  r ← TtBhReadTelemetryTag Tag; mret (NT_SUCCESS r.1, r.2).

(** ** Reset and initialisation sequences *)
Definition TtBhSetResetMarker : M () :=
  r ← TtCfgReadWord TT_PCI_COMMAND;
  when r.1 (TtCfgWriteWord TT_PCI_COMMAND (Z.lor r.2 TT_PCI_COMMAND_PARITY)).

Definition TtBhTimerInterrupt : M bool :=
  TtCfgWriteDword 0x934 0x1;;
  TtCfgWriteDword 0x930 0x11;;
  mret true.

Definition TtBhReset (Flags : Z) : M bool :=
  if Flags =? TENSTORRENT_RESET_DEVICE_ASIC_DMC_RESET then
    r ← TtBhSendArcMessage (msg_of TT_ARC_MSG_TYPE_TEST);
    if negb r.1 then mret false
    else
      TtBhSetResetMarker;;
      TtBhSendArcMessage (msg_of1 TT_ARC_MSG_TYPE_TRIGGER_RESET 3);;
      mret true
  else
    TtBhSetResetMarker;;
    TtBhTimerInterrupt.

Definition set_mrrs : M () :=
  cap ← gets (PcieCapOffset ∘ w_saved);
  when (negb (cap =? 0))
    (r ← TtCfgReadWord (cap + 0x08);
     when (r.1 && negb (r.2 =? 0xFFFF))
       (TtCfgWriteWord (cap + 0x08)
          (Z.lor (Z.land r.2 (wrap16 (Z.lnot TT_PCI_EXP_DEVCTL_READRQ)))
                 (Z.shiftl TT_BH_MAX_MRRS_ENCODING TT_PCI_EXP_DEVCTL_READRQ_SHIFT)))).

Definition TtBhInitHardware : M bool :=
  set_mrrs;;
  TtBhSendArcMessage (msg_of TT_ARC_MSG_TYPE_ASIC_STATE0);;
  TtBhSendArcMessage (msg_of1 TT_ARC_MSG_TYPE_SET_WDT_TIMEOUT (1000 * TT_AUTO_RESET_TIMEOUT_S));;
  mret true.
End blackhole.

(** ** Footprints *)
Section frames.
Context {P : Platform}.

Lemma write_tlb_words_frame r ws : Steps (Frame [COs; CTrace]) (write_tlb_words r ws).
Proof. unfold write_tlb_words. frame_walk. Qed.
#[local] Hint Resolve write_tlb_words_frame : frames.
Lemma TtBhConfigureKernelTlb_frame x y a n : Steps (Frame [COs; CTrace]) (TtBhConfigureKernelTlb x y a n).
Proof. unfold TtBhConfigureKernelTlb. frame_walk. Qed.
#[local] Hint Resolve TtBhConfigureKernelTlb_frame : frames.
Lemma TtBhConfigureUserTlb_frame i c : Steps (Frame [COs; CTrace]) (TtBhConfigureUserTlb i c).
Proof. unfold TtBhConfigureUserTlb. frame_walk. Qed.
#[local] Hint Resolve TtBhConfigureUserTlb_frame : frames.
Lemma TtBhConfigureOutboundAtu_frame r b l t : Steps (Frame [COs; CTrace]) (TtBhConfigureOutboundAtu r b l t).
Proof. unfold TtBhConfigureOutboundAtu. frame_walk. Qed.
#[local] Hint Resolve TtBhConfigureOutboundAtu_frame : frames.
Lemma TtBhNocRead32_frame x y a n : Steps (Frame [COs; CTrace]) (TtBhNocRead32 x y a n).
Proof. unfold TtBhNocRead32. frame_walk. Qed.
#[local] Hint Resolve TtBhNocRead32_frame : frames.
Lemma TtBhNocWrite32_frame x y a d n : Steps (Frame [COs; CTrace]) (TtBhNocWrite32 x y a d n).
Proof. unfold TtBhNocWrite32. frame_walk. Qed.
#[local] Hint Resolve TtBhNocWrite32_frame : frames.
Lemma TtBhNocWrite_frame x y a d n : Steps (Frame [COs; CTrace]) (TtBhNocWrite x y a d n).
Proof. unfold TtBhNocWrite. frame_walk. Qed.
#[local] Hint Resolve TtBhNocWrite_frame : frames.
Lemma TtBhDetectPcieNocX_frame : Steps (Frame [COs; CTrace]) (TtBhDetectPcieNocX).
Proof. unfold TtBhDetectPcieNocX. frame_walk. Qed.
#[local] Hint Resolve TtBhDetectPcieNocX_frame : frames.
Lemma TtBhSaveResetState_frame : Steps (Frame [COs; CTrace; CSaved]) (TtBhSaveResetState).
Proof. unfold TtBhSaveResetState. frame_walk. Qed.
#[local] Hint Resolve TtBhSaveResetState_frame : frames.
Lemma TtBhRestoreResetState_frame : Steps (Frame [COs; CTrace]) (TtBhRestoreResetState).
Proof. unfold TtBhRestoreResetState. frame_walk. Qed.
#[local] Hint Resolve TtBhRestoreResetState_frame : frames.
Lemma TtBhCsmRead32_frame a : Steps (Frame [COs; CTrace]) (TtBhCsmRead32 a).
Proof. unfold TtBhCsmRead32. frame_walk. Qed.
#[local] Hint Resolve TtBhCsmRead32_frame : frames.
Lemma TtBhCsmWrite32_frame a v : Steps (Frame [COs; CTrace]) (TtBhCsmWrite32 a v).
Proof. unfold TtBhCsmWrite32. frame_walk. Qed.
#[local] Hint Resolve TtBhCsmWrite32_frame : frames.
Lemma TtBhDeadline_frame ms : Steps (Frame [COs; CTrace]) (TtBhDeadline ms).
Proof. unfold TtBhDeadline. frame_walk. Qed.
#[local] Hint Resolve TtBhDeadline_frame : frames.
Lemma TtBhPollDelay_frame : Steps (Frame [COs; CTrace]) (TtBhPollDelay).
Proof. unfold TtBhPollDelay. frame_walk. Qed.
#[local] Hint Resolve TtBhPollDelay_frame : frames.
Lemma time_after_frame d : Steps (Frame [COs; CTrace]) (time_after d).
Proof. unfold time_after. frame_walk. Qed.
#[local] Hint Resolve time_after_frame : frames.
Lemma arc_push_wait_frame n q e w d : Steps (Frame [COs; CTrace]) (arc_push_wait n q e w d).
Proof. revert q e w d. induction n; intros q e w d; cbn [arc_push_wait]; frame_walk. Qed.
#[local] Hint Resolve arc_push_wait_frame : frames.
Lemma arc_write_entry_frame b s m : Steps (Frame [COs; CTrace]) (arc_write_entry b s m).
Proof. unfold arc_write_entry. frame_walk. Qed.
#[local] Hint Resolve arc_write_entry_frame : frames.
Lemma TtBhArcMsgPush_frame m q n : Steps (Frame [COs; CTrace]) (TtBhArcMsgPush m q n).
Proof. unfold TtBhArcMsgPush. frame_walk. Qed.
#[local] Hint Resolve TtBhArcMsgPush_frame : frames.
Lemma arc_pop_wait_frame n q e r d : Steps (Frame [COs; CTrace]) (arc_pop_wait n q e r d).
Proof. revert q e r d. induction n; intros q e r d; cbn [arc_pop_wait]; frame_walk. Qed.
#[local] Hint Resolve arc_pop_wait_frame : frames.
Lemma arc_read_payload_frame b i o : Steps (Frame [COs; CTrace]) (arc_read_payload b i o).
Proof. revert b i. induction o; intros b i; cbn [arc_read_payload]; frame_walk. Qed.
#[local] Hint Resolve arc_read_payload_frame : frames.
Lemma TtBhArcMsgPop_frame q n : Steps (Frame [COs; CTrace]) (TtBhArcMsgPop q n).
Proof. unfold TtBhArcMsgPop. frame_walk. Qed.
#[local] Hint Resolve TtBhArcMsgPop_frame : frames.
Lemma arc_ready_wait_frame n d : Steps (Frame [COs; CTrace]) (arc_ready_wait n d).
Proof. revert d. induction n; intros d; cbn [arc_ready_wait]; frame_walk. Qed.
#[local] Hint Resolve arc_ready_wait_frame : frames.
Lemma arc_transact_frame m : Steps (Frame [COs; CTrace]) (arc_transact m).
Proof. unfold arc_transact. frame_walk. Qed.
#[local] Hint Resolve arc_transact_frame : frames.
Lemma TtBhSendArcMessage_frame m : Steps (Frame [COs; CTrace]) (TtBhSendArcMessage m).
Proof. unfold TtBhSendArcMessage. frame_walk. Qed.
#[local] Hint Resolve TtBhSendArcMessage_frame : frames.
Lemma tag_cache_set_frame t a : Steps (Frame [CTelem]) (tag_cache_set t a).
Proof. unfold tag_cache_set. frame_walk. Qed.
#[local] Hint Resolve tag_cache_set_frame : frames.
Lemma probe_tag_frame t d i : Steps (Frame [COs; CTrace; CTelem]) (probe_tag t d i).
Proof. unfold probe_tag. frame_walk. Qed.
#[local] Hint Resolve probe_tag_frame : frames.
Lemma TtBhTelemetryProbe_frame : Steps (Frame [COs; CTrace; CTelem]) (TtBhTelemetryProbe).
Proof. unfold TtBhTelemetryProbe. frame_walk. Qed.
#[local] Hint Resolve TtBhTelemetryProbe_frame : frames.
Lemma TtBhReadTelemetryTag_frame t : Steps (Frame [COs; CTrace]) (TtBhReadTelemetryTag t).
Proof. unfold TtBhReadTelemetryTag. frame_walk. Qed.
#[local] Hint Resolve TtBhReadTelemetryTag_frame : frames.
Lemma TtBhTagPresent_frame t : Steps (Frame [COs; CTrace]) (TtBhTagPresent t).
Proof. unfold TtBhTagPresent. frame_walk. Qed.
#[local] Hint Resolve TtBhTagPresent_frame : frames.
Lemma TtBhSetResetMarker_frame : Steps (Frame [COs; CTrace]) (TtBhSetResetMarker).
Proof. unfold TtBhSetResetMarker. frame_walk. Qed.
#[local] Hint Resolve TtBhSetResetMarker_frame : frames.
Lemma TtBhTimerInterrupt_frame : Steps (Frame [COs; CTrace]) (TtBhTimerInterrupt).
Proof. unfold TtBhTimerInterrupt. frame_walk. Qed.
#[local] Hint Resolve TtBhTimerInterrupt_frame : frames.
Lemma TtBhReset_frame f : Steps (Frame [COs; CTrace]) (TtBhReset f).
Proof. unfold TtBhReset. frame_walk. Qed.
#[local] Hint Resolve TtBhReset_frame : frames.
Lemma set_mrrs_frame : Steps (Frame [COs; CTrace]) (set_mrrs).
Proof. unfold set_mrrs. frame_walk. Qed.
#[local] Hint Resolve set_mrrs_frame : frames.
Lemma TtBhInitHardware_frame : Steps (Frame [COs; CTrace]) (TtBhInitHardware).
Proof. unfold TtBhInitHardware. frame_walk. Qed.
#[local] Hint Resolve TtBhInitHardware_frame : frames.
End frames.
#[export] Hint Resolve write_tlb_words_frame TtBhConfigureKernelTlb_frame
  TtBhConfigureUserTlb_frame TtBhConfigureOutboundAtu_frame TtBhNocRead32_frame
  TtBhNocWrite32_frame TtBhNocWrite_frame TtBhDetectPcieNocX_frame TtBhSaveResetState_frame
  TtBhRestoreResetState_frame TtBhCsmRead32_frame TtBhCsmWrite32_frame TtBhDeadline_frame
  TtBhPollDelay_frame time_after_frame arc_push_wait_frame arc_write_entry_frame
  TtBhArcMsgPush_frame arc_pop_wait_frame arc_read_payload_frame TtBhArcMsgPop_frame
  arc_ready_wait_frame arc_transact_frame TtBhSendArcMessage_frame tag_cache_set_frame
  probe_tag_frame TtBhTelemetryProbe_frame TtBhReadTelemetryTag_frame TtBhTagPresent_frame
  TtBhSetResetMarker_frame TtBhTimerInterrupt_frame TtBhReset_frame set_mrrs_frame
  TtBhInitHardware_frame : frames.

(** ** Events *)
Section events.
Context {P : Platform}.

Lemma write_tlb_words_emits r ws : Steps (Emits [KHw]) (write_tlb_words r ws).
Proof. unfold write_tlb_words. emits_walk. Qed.
#[local] Hint Resolve write_tlb_words_emits : emits.
Lemma TtBhConfigureKernelTlb_emits x y a n : Steps (Emits [KHw]) (TtBhConfigureKernelTlb x y a n).
Proof. unfold TtBhConfigureKernelTlb. emits_walk. Qed.
#[local] Hint Resolve TtBhConfigureKernelTlb_emits : emits.
Lemma TtBhConfigureUserTlb_emits i c : Steps (Emits [KHw]) (TtBhConfigureUserTlb i c).
Proof. unfold TtBhConfigureUserTlb. emits_walk. Qed.
#[local] Hint Resolve TtBhConfigureUserTlb_emits : emits.
Lemma TtBhConfigureOutboundAtu_emits r b l t : Steps (Emits [KAtu]) (TtBhConfigureOutboundAtu r b l t).
Proof. unfold TtBhConfigureOutboundAtu. emits_walk. Qed.
#[local] Hint Resolve TtBhConfigureOutboundAtu_emits : emits.
Lemma TtBhNocRead32_emits x y a n : Steps (Emits [KSync; KHw]) (TtBhNocRead32 x y a n).
Proof. unfold TtBhNocRead32. emits_walk. Qed.
#[local] Hint Resolve TtBhNocRead32_emits : emits.
Lemma TtBhNocWrite32_emits x y a d n : Steps (Emits [KSync; KHw]) (TtBhNocWrite32 x y a d n).
Proof. unfold TtBhNocWrite32. emits_walk. Qed.
#[local] Hint Resolve TtBhNocWrite32_emits : emits.
Lemma TtBhNocWrite_emits x y a d n : Steps (Emits [KSync; KHw]) (TtBhNocWrite x y a d n).
Proof. unfold TtBhNocWrite. emits_walk. Qed.
#[local] Hint Resolve TtBhNocWrite_emits : emits.
Lemma TtBhDetectPcieNocX_emits : Steps (Emits [KHw]) (TtBhDetectPcieNocX).
Proof. unfold TtBhDetectPcieNocX. emits_walk. Qed.
#[local] Hint Resolve TtBhDetectPcieNocX_emits : emits.
Lemma TtBhSaveResetState_emits : Steps (Emits [KSync; KHw]) (TtBhSaveResetState).
Proof. unfold TtBhSaveResetState. emits_walk. Qed.
#[local] Hint Resolve TtBhSaveResetState_emits : emits.
Lemma TtBhRestoreResetState_emits : Steps (Emits [KSync; KHw]) (TtBhRestoreResetState).
Proof. unfold TtBhRestoreResetState. emits_walk. Qed.
#[local] Hint Resolve TtBhRestoreResetState_emits : emits.
Lemma TtBhCsmRead32_emits a : Steps (Emits [KSync; KHw]) (TtBhCsmRead32 a).
Proof. unfold TtBhCsmRead32. emits_walk. Qed.
#[local] Hint Resolve TtBhCsmRead32_emits : emits.
Lemma TtBhCsmWrite32_emits a v : Steps (Emits [KSync; KHw]) (TtBhCsmWrite32 a v).
Proof. unfold TtBhCsmWrite32. emits_walk. Qed.
#[local] Hint Resolve TtBhCsmWrite32_emits : emits.
Lemma TtBhDeadline_emits ms : Steps (Emits [KHw]) (TtBhDeadline ms).
Proof. unfold TtBhDeadline. emits_walk. Qed.
#[local] Hint Resolve TtBhDeadline_emits : emits.
Lemma TtBhPollDelay_emits : Steps (Emits [KHw]) (TtBhPollDelay).
Proof. unfold TtBhPollDelay. emits_walk. Qed.
#[local] Hint Resolve TtBhPollDelay_emits : emits.
Lemma time_after_emits d : Steps (Emits [KHw]) (time_after d).
Proof. unfold time_after. emits_walk. Qed.
#[local] Hint Resolve time_after_emits : emits.
Lemma arc_push_wait_emits n q e w d : Steps (Emits [KSync; KHw; KFuel]) (arc_push_wait n q e w d).
Proof. revert q e w d. induction n; intros q e w d; cbn [arc_push_wait]; emits_walk. Qed.
#[local] Hint Resolve arc_push_wait_emits : emits.
Lemma arc_write_entry_emits b s m : Steps (Emits [KSync; KHw]) (arc_write_entry b s m).
Proof. unfold arc_write_entry. emits_walk. Qed.
#[local] Hint Resolve arc_write_entry_emits : emits.
Lemma TtBhArcMsgPush_emits m q n : Steps (Emits [KSync; KHw; KFuel]) (TtBhArcMsgPush m q n).
Proof. unfold TtBhArcMsgPush. emits_walk. Qed.
#[local] Hint Resolve TtBhArcMsgPush_emits : emits.
Lemma arc_pop_wait_emits n q e r d : Steps (Emits [KSync; KHw; KFuel]) (arc_pop_wait n q e r d).
Proof. revert q e r d. induction n; intros q e r d; cbn [arc_pop_wait]; emits_walk. Qed.
#[local] Hint Resolve arc_pop_wait_emits : emits.
Lemma arc_read_payload_emits b i o : Steps (Emits [KSync; KHw]) (arc_read_payload b i o).
Proof. revert b i. induction o; intros b i; cbn [arc_read_payload]; emits_walk. Qed.
#[local] Hint Resolve arc_read_payload_emits : emits.
Lemma TtBhArcMsgPop_emits q n : Steps (Emits [KSync; KHw; KFuel]) (TtBhArcMsgPop q n).
Proof. unfold TtBhArcMsgPop. emits_walk. Qed.
#[local] Hint Resolve TtBhArcMsgPop_emits : emits.
Lemma arc_ready_wait_emits n d : Steps (Emits [KSync; KHw; KFuel]) (arc_ready_wait n d).
Proof. revert d. induction n; intros d; cbn [arc_ready_wait]; emits_walk. Qed.
#[local] Hint Resolve arc_ready_wait_emits : emits.
Lemma arc_transact_emits m : Steps (Emits [KSync; KHw; KFuel]) (arc_transact m).
Proof. unfold arc_transact. emits_walk. Qed.
#[local] Hint Resolve arc_transact_emits : emits.
Lemma TtBhSendArcMessage_emits m : Steps (Emits [KSync; KHw; KFuel]) (TtBhSendArcMessage m).
Proof. unfold TtBhSendArcMessage. emits_walk. Qed.
#[local] Hint Resolve TtBhSendArcMessage_emits : emits.
Lemma tag_cache_set_emits t a : Steps (Emits []) (tag_cache_set t a).
Proof. unfold tag_cache_set. emits_walk. Qed.
#[local] Hint Resolve tag_cache_set_emits : emits.
Lemma probe_tag_emits t d i : Steps (Emits [KSync; KHw]) (probe_tag t d i).
Proof. unfold probe_tag. emits_walk. Qed.
#[local] Hint Resolve probe_tag_emits : emits.
Lemma TtBhTelemetryProbe_emits : Steps (Emits [KSync; KHw]) (TtBhTelemetryProbe).
Proof. unfold TtBhTelemetryProbe. emits_walk. Qed.
#[local] Hint Resolve TtBhTelemetryProbe_emits : emits.
Lemma TtBhReadTelemetryTag_emits t : Steps (Emits [KSync; KHw]) (TtBhReadTelemetryTag t).
Proof. unfold TtBhReadTelemetryTag. emits_walk. Qed.
#[local] Hint Resolve TtBhReadTelemetryTag_emits : emits.
Lemma TtBhTagPresent_emits t : Steps (Emits [KSync; KHw]) (TtBhTagPresent t).
Proof. unfold TtBhTagPresent. emits_walk. Qed.
#[local] Hint Resolve TtBhTagPresent_emits : emits.
Lemma TtBhSetResetMarker_emits : Steps (Emits [KCfg]) (TtBhSetResetMarker).
Proof. unfold TtBhSetResetMarker. emits_walk. Qed.
#[local] Hint Resolve TtBhSetResetMarker_emits : emits.
Lemma TtBhTimerInterrupt_emits : Steps (Emits [KCfg]) (TtBhTimerInterrupt).
Proof. unfold TtBhTimerInterrupt. emits_walk. Qed.
#[local] Hint Resolve TtBhTimerInterrupt_emits : emits.
Lemma TtBhReset_emits f : Steps (Emits [KSync; KHw; KFuel; KCfg]) (TtBhReset f).
Proof. unfold TtBhReset. emits_walk. Qed.
#[local] Hint Resolve TtBhReset_emits : emits.
Lemma set_mrrs_emits : Steps (Emits [KCfg]) (set_mrrs).
Proof. unfold set_mrrs. emits_walk. Qed.
#[local] Hint Resolve set_mrrs_emits : emits.
Lemma TtBhInitHardware_emits : Steps (Emits [KSync; KHw; KFuel; KCfg]) (TtBhInitHardware).
Proof. unfold TtBhInitHardware. emits_walk. Qed.
#[local] Hint Resolve TtBhInitHardware_emits : emits.
End events.
#[export] Hint Resolve write_tlb_words_emits TtBhConfigureKernelTlb_emits
  TtBhConfigureUserTlb_emits TtBhConfigureOutboundAtu_emits TtBhNocRead32_emits
  TtBhNocWrite32_emits TtBhNocWrite_emits TtBhDetectPcieNocX_emits TtBhSaveResetState_emits
  TtBhRestoreResetState_emits TtBhCsmRead32_emits TtBhCsmWrite32_emits TtBhDeadline_emits
  TtBhPollDelay_emits time_after_emits arc_push_wait_emits arc_write_entry_emits
  TtBhArcMsgPush_emits arc_pop_wait_emits arc_read_payload_emits TtBhArcMsgPop_emits
  arc_ready_wait_emits arc_transact_emits TtBhSendArcMessage_emits tag_cache_set_emits
  probe_tag_emits TtBhTelemetryProbe_emits TtBhReadTelemetryTag_emits TtBhTagPresent_emits
  TtBhSetResetMarker_emits TtBhTimerInterrupt_emits TtBhReset_emits set_mrrs_emits
  TtBhInitHardware_emits : emits.
