(* ===== verification/BlackholeSpec.v ===== *)
(** * The register image of a TLB window

    The three 32-bit words that program a window, read as one 96-bit register,
    hold each field of the request at its place. *)
From S2P Require Import Prelude Platform Frame Trace Sim Abi PciConfig Blackhole.

(** ** The register as a number, and its fields *)
Definition reg_value (ws : list Z) : Z :=
  Z.lor (word ws 0) (Z.lor (Z.shiftl (word ws 1) 32) (Z.shiftl (word ws 2) 64)).
Definition reg_field (v off len : Z) : Z := Z.land (Z.shiftr v off) (Z.ones len).

(** Three words of at most 32 bits. *)
Definition is_reg (ws : list Z) : Prop :=
  length ws = 3%nat ∧ ∀ n k, 32 ≤ k → Z.testbit (word ws n) k = false.

Lemma zero_reg : is_reg [0; 0; 0].
Proof. split; [done|]. intros n k _. unfold word. destruct n as [|[|[|n]]]; cbn; apply Z.bits_0. Qed.

Lemma has_bit v i : 0 ≤ i → has_bits (Z.shiftr v i) 1 = Z.testbit v i.
Proof.
  intros Hi. unfold has_bits. change 1 with (Z.ones 1). rewrite Z.land_ones by lia.
  change (2 ^ 1) with 2. rewrite <- Z.bit0_mod, Z.shiftr_spec, Z.add_0_l by lia. by destruct (Z.testbit v i).
Qed.

(** ** Setting one bit *)
Definition set_bit (p : Z) (ws : list Z) : list Z :=
  alter (λ x, Z.lor x (Z.shiftl 1 (p mod 32))) (Z.to_nat (p / 32)) ws.

Lemma set_bit_word p ws n : (n < length ws)%nat →
  word (set_bit p ws) n = if bool_decide (n = Z.to_nat (p / 32)) then Z.lor (word ws n) (2 ^ (p mod 32)) else word ws n.
Proof.
  intros Hn. unfold word, set_bit. destruct (lookup_lt_is_Some_2 ws n Hn) as [x Hx].
  case_bool_decide as H; [subst n; rewrite list_lookup_alter_eq | by rewrite list_lookup_alter_ne].
  rewrite Hx. cbn. by rewrite Z.shiftl_1_l.
Qed.

Lemma set_bit_reg p ws : 0 ≤ p → is_reg ws → is_reg (set_bit p ws).
Proof.
  intros Hp [Hl Hk]. split; [unfold set_bit; by rewrite length_alter|]. intros n k Hk32.
  destruct (decide (n < length ws)%nat) as [Hn|Hn].
  - rewrite set_bit_word by done. case_bool_decide; [|by apply Hk]. rewrite Z.lor_spec, Hk by done.
    pose proof (Z.mod_pos_bound p 32 ltac:(lia)). rewrite Z.pow2_bits_false by lia. done.
  - unfold word. rewrite lookup_ge_None_2; [apply Z.bits_0|]. unfold set_bit. rewrite length_alter. lia.
Qed.

Lemma reg_value_bit ws k : is_reg ws → 0 ≤ k < 96 →
  Z.testbit (reg_value ws) k = Z.testbit (word ws (Z.to_nat (k / 32))) (k mod 32).
Proof.
  intros [Hl Hh] Hk. unfold reg_value. rewrite !Z.lor_spec, !Z.shiftl_spec by lia.
  assert (k / 32 = 0 ∧ k mod 32 = k ∨ k / 32 = 1 ∧ k mod 32 = k - 32 ∨ k / 32 = 2 ∧ k mod 32 = k - 64) as H.
  { pose proof (Z_div_mod_eq_full k 32). pose proof (Z.mod_pos_bound k 32 ltac:(lia)). lia. }
  destruct H as [[-> E]|[[-> E]|[-> E]]]; pose proof (Z.mod_pos_bound k 32 ltac:(lia)); rewrite E in *; cbn [Z.to_nat].
  - rewrite (Z.testbit_neg_r _ (k - 32)), (Z.testbit_neg_r _ (k - 64)) by lia. by rewrite !orb_false_r.
  - rewrite (Hh 0%nat k), (Z.testbit_neg_r _ (k - 64)) by lia. by rewrite orb_false_r.
  - rewrite (Hh 0%nat k), (Hh 1%nat (k - 32)) by lia. done.
Qed.

Lemma set_bit_value p ws k : is_reg ws → 0 ≤ p < 96 → 0 ≤ k < 96 →
  Z.testbit (reg_value (set_bit p ws)) k = (k =? p) || Z.testbit (reg_value ws) k.
Proof.
  intros Hr Hp Hk. rewrite !reg_value_bit by (try apply set_bit_reg; done || lia).
  pose proof (Z_div_mod_eq_full k 32). pose proof (Z_div_mod_eq_full p 32).
  pose proof (Z.mod_pos_bound k 32 ltac:(lia)). pose proof (Z.mod_pos_bound p 32 ltac:(lia)).
  rewrite set_bit_word by (destruct Hr as [-> _]; lia). case_bool_decide as E.
  - rewrite Z.lor_spec, Z.pow2_bits_eqb by lia. rewrite orb_comm. f_equal.
    assert (k / 32 = p / 32) by lia. apply eq_true_iff_eq. rewrite !Z.eqb_eq. lia.
  - assert (k ≠ p) by congruence. by rewrite (proj2 (Z.eqb_neq k p)).
Qed.

(** ** Setting a field *)
Lemma set_bits_value off v xs ws : is_reg ws → (∀ i, i ∈ xs → 0 ≤ i ∧ 0 ≤ off + i < 96) →
  let ws' := foldl (λ ws i, if has_bits (Z.shiftr v i) 1 then set_bit (off + i) ws else ws) ws xs in
  is_reg ws' ∧ ∀ k, 0 ≤ k < 96 →
    Z.testbit (reg_value ws') k = Z.testbit (reg_value ws) k || (bool_decide (k - off ∈ xs) && Z.testbit v (k - off)).
Proof.
  revert ws. induction xs as [|x xs IH]; intros ws Hr Hx; cbn [foldl].
  { split; [done|]. intros k _. rewrite bool_decide_eq_false_2 by apply not_elem_of_nil. by rewrite orb_false_r. }
  pose proof (Hx x ltac:(left)) as [Hx0 Hx1]. rewrite has_bit by done.
  destruct (IH (if Z.testbit v x then set_bit (off + x) ws else ws)) as [I1 I2].
  { destruct (Z.testbit v x); [apply set_bit_reg; [lia | done] | done]. }
  { intros i Hi. apply Hx. by right. }
  split; [exact I1|]. intros k Hk. rewrite I2 by done.
  assert (bool_decide (k - off ∈ x :: xs) = (k =? off + x) || bool_decide (k - off ∈ xs)) as ->.
  { apply eq_true_iff_eq. rewrite orb_true_iff, !bool_decide_eq_true, Z.eqb_eq, elem_of_cons. split; (intros [?|?]; [left; lia | by right]). }
  destruct (Z.testbit v x) eqn:E.
  - rewrite set_bit_value by (done || lia). destruct (Z.eqb_spec k (off + x)) as [->|_]; [|done].
    replace (off + x - off) with x by lia. rewrite E. cbn. by rewrite orb_true_r.
  - destruct (Z.eqb_spec k (off + x)) as [->|_]; [|done]. replace (off + x - off) with x by lia. rewrite E.
    by rewrite !andb_false_r.
Qed.

Lemma set_field off len v ws : is_reg ws → 0 ≤ off → 0 ≤ len → off + len ≤ 96 →
  is_reg (TtBhSetBits off len v ws) ∧ ∀ k, 0 ≤ k < 96 →
    Z.testbit (reg_value (TtBhSetBits off len v ws)) k
    = Z.testbit (reg_value ws) k || ((off <=? k) && (k <? off + len) && Z.testbit v (k - off)).
Proof.
  intros Hr Ho Hl Hs. destruct (set_bits_value off v (zrange (Z.to_nat len)) ws Hr) as [H1 H2].
  { intros i Hi%elem_of_zrange. lia. }
  split; [exact H1|]. intros k Hk. etrans; [by apply H2|]. do 2 f_equal.
  apply eq_true_iff_eq. rewrite andb_true_iff, bool_decide_eq_true, elem_of_zrange, Z.leb_le, Z.ltb_lt. lia.
Qed.

(** ** Reading fields back *)
Lemma reg_field_bit v off len i : 0 ≤ off → 0 ≤ len → 0 ≤ i →
  Z.testbit (reg_field v off len) i = (i <? len) && Z.testbit v (off + i).
Proof.
  intros Ho Hl Hi. unfold reg_field. rewrite Z.land_spec, Z.shiftr_spec by done. rewrite (Z.add_comm off i).
  destruct (Z.ltb_spec i len); [rewrite Z.ones_spec_low by lia | rewrite Z.ones_spec_high by lia];
    by rewrite ?andb_true_r, ?andb_false_r.
Qed.

Section fields.
Context (ws : list Z) (Hr : is_reg ws).

Lemma field_same off len v : 0 ≤ off → 0 ≤ len → off + len ≤ 96 → reg_field (reg_value ws) off len = 0 →
  reg_field (reg_value (TtBhSetBits off len v ws)) off len = v mod 2 ^ len.
Proof.
  intros Ho Hl Hs H0. destruct (set_field off len v ws Hr Ho Hl Hs) as [_ Hb]. apply Z.bits_inj'. intros i Hi.
  rewrite reg_field_bit by lia. destruct (Z.ltb_spec i len).
  - rewrite Hb, Z.mod_pow2_bits_low by lia. replace (off + i - off) with i by lia.
    assert (Z.testbit (reg_value ws) (off + i) = false) as ->.
    { pose proof (reg_field_bit (reg_value ws) off len i Ho Hl Hi) as H1.
      rewrite H0, Z.bits_0, (proj2 (Z.ltb_lt i len)) in H1 by done. cbn [andb] in H1. congruence. }
    by rewrite (proj2 (Z.leb_le off (off + i))), (proj2 (Z.ltb_lt (off + i) (off + len))) by lia.
  - by rewrite Z.mod_pow2_bits_high by lia.
Qed.

Lemma field_other off len v off' len' : 0 ≤ off → 0 ≤ len → off + len ≤ 96 → 0 ≤ off' → 0 ≤ len' → off' + len' ≤ 96 →
  off' + len' ≤ off ∨ off + len ≤ off' →
  reg_field (reg_value (TtBhSetBits off len v ws)) off' len' = reg_field (reg_value ws) off' len'.
Proof.
  intros Ho Hl Hs Ho' Hl' Hs' Hd. destruct (set_field off len v ws Hr Ho Hl Hs) as [_ Hb]. apply Z.bits_inj'. intros i Hi.
  rewrite !reg_field_bit by lia. destruct (Z.ltb_spec i len'); [|done]. cbn [andb]. rewrite Hb by lia.
  destruct (Z.leb_spec off (off' + i)), (Z.ltb_spec (off' + i) (off + len)); cbn [andb]; try by rewrite orb_false_r. lia.
Qed.
End fields.

(** ** A register as a list of fields (offset, length, value) *)
Definition set_fields (fs : list (Z * Z * Z)) (ws : list Z) : list Z :=
  foldl (λ ws f, TtBhSetBits f.1.1 f.1.2 f.2 ws) ws fs.

(** The fields follow each other from bit [lo] on and end inside the register. *)
Fixpoint ascending (lo : Z) (fs : list (Z * Z * Z)) : Prop :=
  match fs with
  | [] => lo ≤ 96
  | (off, len, _) :: r => lo ≤ off ∧ 0 ≤ len ∧ ascending (off + len) r
  end.

Lemma ascending_le lo fs : ascending lo fs → lo ≤ 96.
Proof. revert lo. induction fs as [|[[off len] v] fs IH]; intros lo; cbn; [done|]. intros (? & ? & H%IH). lia. Qed.

Lemma set_fields_ok lo fs ws : is_reg ws → 0 ≤ lo → ascending lo fs →
  (∀ k, lo ≤ k < 96 → Z.testbit (reg_value ws) k = false) →
  is_reg (set_fields fs ws)
  ∧ (∀ off len, 0 ≤ off → 0 ≤ len → off + len ≤ lo →
      reg_field (reg_value (set_fields fs ws)) off len = reg_field (reg_value ws) off len)
  ∧ ∀ off len v, (off, len, v) ∈ fs → reg_field (reg_value (set_fields fs ws)) off len = v mod 2 ^ len.
Proof.
  revert lo ws. induction fs as [|[[o l] x] fs IH]; intros lo ws Hr Hlo Ha Hz; cbn [set_fields foldl].
  { split; [done|]. split; [done|]. by intros off len v ?%elem_of_nil. }
  destruct Ha as (H1 & H2 & H3). pose proof (ascending_le _ _ H3). cbn [fst snd].
  destruct (set_field o l x ws Hr) as [Hr1 Hb]; [lia..|].
  destruct (IH (o + l) _ Hr1) as (I1 & I2 & I3); [lia | done | |].
  { intros k Hk. rewrite Hb, Hz by lia. destruct (Z.ltb_spec k (o + l)); [lia|]. by rewrite andb_false_r. }
  split; [exact I1|]. split.
  - intros off len Hoff Hlen Hs. etrans; [apply I2; lia|]. apply field_other; (done || lia).
  - intros off len v [[= -> -> ->]|Hin]%elem_of_cons; [|by apply I3]. etrans; [apply I2; lia|].
    apply field_same; [done | lia.. |]. apply Z.bits_inj'. intros i Hi. rewrite reg_field_bit, Z.bits_0 by lia.
    destruct (Z.ltb_spec i l); [|done]. cbn [andb]. apply Hz. lia.
Qed.

Lemma register_field fs off len v :
  ascending 0 fs → (off, len, v) ∈ fs → reg_field (reg_value (set_fields fs [0; 0; 0])) off len = v mod 2 ^ len.
Proof.
  intros Ha. apply (set_fields_ok 0 fs [0; 0; 0] zero_reg); [lia | done |]. intros k _.
  change (reg_value [0; 0; 0]) with 0. apply Z.bits_0.
Qed.

(** What the hardware sees in the register of a window. *)
Definition decode_user_tlb (is2M : bool) (v : Z) : TlbConfig :=
  if is2M then
    mkCfg (reg_field v 0 43 * 2 ^ 21) (reg_field v 43 6) (reg_field v 49 6) (reg_field v 55 6) (reg_field v 61 6)
          (reg_field v 67 2) (reg_field v 69 1) (reg_field v 70 2) (reg_field v 72 1) (reg_field v 73 1)
  else
    mkCfg (reg_field v 0 32 * 2 ^ 32) (reg_field v 32 6) (reg_field v 38 6) (reg_field v 44 6) (reg_field v 50 6)
          (reg_field v 56 2) (reg_field v 58 1) (reg_field v 59 2) (reg_field v 61 1) (reg_field v 62 1).

(** A configuration whose values fit their fields and whose address is that of a window. *)
Record config_fits (is2M : bool) (c : TlbConfig) : Prop := {
  cf_addr : 0 ≤ cfg_addr c < 2 ^ 64;
  cf_window : cfg_addr c mod (if is2M then 2 ^ 21 else 2 ^ 32) = 0;
  cf_coords : 0 ≤ cfg_x_end c < 64 ∧ 0 ≤ cfg_y_end c < 64 ∧ 0 ≤ cfg_x_start c < 64 ∧ 0 ≤ cfg_y_start c < 64;
  cf_noc : 0 ≤ cfg_noc c < 4;
  cf_ordering : 0 ≤ cfg_ordering c < 4;
  cf_bits : 0 ≤ cfg_mcast c < 2 ∧ 0 ≤ cfg_linked c < 2 ∧ 0 ≤ cfg_static_vc c < 2
}.

(** The places of the fields in the register. *)
Definition user_fields (is2M : bool) (c : TlbConfig) : list (Z * Z * Z) :=
  if is2M then
    [(0, 43, Z.shiftr (cfg_addr c) 21); (43, 6, cfg_x_end c); (49, 6, cfg_y_end c); (55, 6, cfg_x_start c);
     (61, 6, cfg_y_start c); (67, 2, cfg_noc c); (69, 1, cfg_mcast c); (70, 2, cfg_ordering c);
     (72, 1, cfg_linked c); (73, 1, cfg_static_vc c)]
  else
    [(0, 32, Z.shiftr (cfg_addr c) 32); (32, 6, cfg_x_end c); (38, 6, cfg_y_end c); (44, 6, cfg_x_start c);
     (50, 6, cfg_y_start c); (56, 2, cfg_noc c); (58, 1, cfg_mcast c); (59, 2, cfg_ordering c);
     (61, 1, cfg_linked c); (62, 1, cfg_static_vc c)].
Lemma user_tlb_fields is2M c : user_tlb_words is2M c = set_fields (user_fields is2M c) [0; 0; 0].
Proof. by destruct is2M. Qed.

(** What is left of a configuration in the register: the address in units of the
    window, and every other field, lose the bits that do not fit. *)
Definition truncated (is2M : bool) (c : TlbConfig) : TlbConfig :=
  mkCfg (if is2M then (cfg_addr c / 2 ^ 21) mod 2 ^ 43 * 2 ^ 21 else (cfg_addr c / 2 ^ 32) mod 2 ^ 32 * 2 ^ 32)
    (cfg_x_end c mod 64) (cfg_y_end c mod 64) (cfg_x_start c mod 64) (cfg_y_start c mod 64)
    (cfg_noc c mod 4) (cfg_mcast c mod 2) (cfg_ordering c mod 4) (cfg_linked c mod 2) (cfg_static_vc c mod 2).

Lemma decode_truncated is2M c : decode_user_tlb is2M (reg_value (user_tlb_words is2M c)) = truncated is2M c.
Proof.
  unfold decode_user_tlb. rewrite (user_tlb_fields is2M c).
  assert (ascending 0 (user_fields is2M c)) as Hasc by (destruct is2M; cbn; lia).
  assert (∀ off len v, (off, len, v) ∈ user_fields is2M c →
    reg_field (reg_value (set_fields (user_fields is2M c) [0; 0; 0])) off len = v mod 2 ^ len) as Hf
    by (intros; by apply register_field).
  unfold truncated. destruct c as [addr xe ye xs ys noc mc od ln vc]. cbn [cfg_addr cfg_x_end cfg_y_end cfg_x_start cfg_y_start
    cfg_noc cfg_mcast cfg_ordering cfg_linked cfg_static_vc]. destruct is2M.
  - rewrite (Hf 0 43 (Z.shiftr addr 21)), (Hf 43 6 xe), (Hf 49 6 ye), (Hf 55 6 xs), (Hf 61 6 ys), (Hf 67 2 noc),
      (Hf 69 1 mc), (Hf 70 2 od), (Hf 72 1 ln), (Hf 73 1 vc) by (cbn [user_fields]; set_solver).
    by rewrite Z.shiftr_div_pow2 by lia.
  - rewrite (Hf 0 32 (Z.shiftr addr 32)), (Hf 32 6 xe), (Hf 38 6 ye), (Hf 44 6 xs), (Hf 50 6 ys), (Hf 56 2 noc),
      (Hf 58 1 mc), (Hf 59 2 od), (Hf 61 1 ln), (Hf 62 1 vc) by (cbn [user_fields]; set_solver).
    by rewrite Z.shiftr_div_pow2 by lia.
Qed.

Lemma truncated_fits is2M c : config_fits is2M c → truncated is2M c = c.
Proof.
  intros [Ha Hw Hc Hn Ho Hb]. unfold truncated. destruct c as [addr xe ye xs ys noc mc od ln vc]. cbn in *.
  rewrite !(Z.mod_small xe), !(Z.mod_small ye), !(Z.mod_small xs), !(Z.mod_small ys), !(Z.mod_small noc), !(Z.mod_small mc),
    !(Z.mod_small od), !(Z.mod_small ln), !(Z.mod_small vc) by lia.
  destruct is2M; (rewrite Z.mod_small by (split; [apply Z.div_pos; lia | apply Z.div_lt_upper_bound; lia])); f_equal.
  - pose proof (Z_div_mod_eq_full addr (2 ^ 21)). lia.
  - pose proof (Z_div_mod_eq_full addr (2 ^ 32)). lia.
Qed.

Section user.
Context {P : Platform}.

(** The events that program window [Id] with the words [ws]; a 2 MiB window below
    32 also has its stride register cleared. *)
Definition user_window_writes (Id : Z) (ws : list Z) : list Event :=
  let regs := Id * TT_BH_TLB_REG_SIZE in
  (if Id <? 32 then [EvWrite RTlbRegs ((TT_TLB_2M_COUNT + TT_TLB_4G_MAX) * TT_BH_TLB_REG_SIZE + Id * 4) 0] else [])
  ++ [EvWrite RTlbRegs (regs + 8) (word ws 2); EvWrite RTlbRegs (regs + 4) (word ws 1); EvWrite RTlbRegs (regs + 0) (word ws 0)].

(** C26 CONFIGURE_TLB register round trip.  An address that is not that of a
    window of this size is refused and nothing is written.  Otherwise the three
    words written to the register of the window, as the hardware decodes them,
    give the configuration back, no field disturbing another; a value that does
    not fit its field is truncated to it, silently, and a configuration whose
    values all fit comes back intact. *)
Theorem user_tlb_roundtrip Id c w :
  let is2M := Id <? TT_TLB_2M_COUNT in
  let r := TtBhConfigureUserTlb Id c w in
  if cfg_addr c mod (if is2M then 2 ^ 21 else 2 ^ 32) =? 0 then
    ∃ ws, r.1 = STATUS_SUCCESS ∧ w_trace r.2 = user_window_writes Id ws ++ w_trace w
    ∧ decode_user_tlb is2M (reg_value ws) = truncated is2M c
    ∧ (config_fits is2M c → decode_user_tlb is2M (reg_value ws) = c)
  else r = (STATUS_INVALID_PARAMETER, w).
Proof.
  cbv zeta. unfold TtBhConfigureUserTlb, has_bits. set (is2M := Id <? TT_TLB_2M_COUNT).
  assert (Z.land (cfg_addr c) (if is2M then TT_BH_KERNEL_TLB_LEN - 1 else Z.shiftl 1 32 - 1)
    = cfg_addr c mod (if is2M then 2 ^ 21 else 2 ^ 32)) as ->.
  { destruct is2M; [change (TT_BH_KERNEL_TLB_LEN - 1) with (Z.ones 21) | change (Z.shiftl 1 32 - 1) with (Z.ones 32)];
      by rewrite Z.land_ones by lia. }
  destruct (_ =? 0); cbn [negb]; [|done]. exists (user_tlb_words is2M c).
  split_and!; [ | | apply decode_truncated | intros Hc; by rewrite decode_truncated, truncated_fits].
  all: generalize (user_tlb_words is2M c); intros ws; unfold user_window_writes, write_tlb_words, write_register, emit, modify, mbind, st_bind, when.
  all: by destruct (Id <? 32).
Qed.
End user.

(** ** The driver's own window *)
Definition kernel_fields (X Y Addr Noc : Z) : list (Z * Z * Z) :=
  [(0, 43, Z.shiftr (Z.land Addr (wrap64 (Z.lnot (TT_BH_KERNEL_TLB_LEN - 1)))) 21); (43, 6, X); (49, 6, Y); (67, 2, Noc); (70, 2, 1)].
Lemma kernel_tlb_fields X Y Addr Noc : kernel_tlb_words X Y Addr Noc = set_fields (kernel_fields X Y Addr Noc) [0; 0; 0].
Proof. reflexivity. Qed.

(** The window that a register image selects, and the byte behind it. *)
Record selects (v X Y Addr Noc off : Z) : Prop := {
  sl_address : reg_field v 0 43 * 2 ^ 21 + off = Addr;
  sl_offset : 0 ≤ off < TT_BH_KERNEL_TLB_LEN;
  sl_node : reg_field v 43 6 = X ∧ reg_field v 49 6 = Y;
  sl_noc : reg_field v 67 2 = Noc;
  sl_ordering : reg_field v 70 2 = 1
}.

Lemma window_base Addr : 0 ≤ Addr < 2 ^ 64 →
  Z.shiftr (Z.land Addr (wrap64 (Z.lnot (TT_BH_KERNEL_TLB_LEN - 1)))) 21 = Addr / 2 ^ 21.
Proof.
  intros H. rewrite <- Z.shiftr_div_pow2 by lia. apply Z.bits_inj'. intros i Hi. rewrite !Z.shiftr_spec, Z.land_spec by lia.
  unfold wrap64, wrap. destruct (Z.ltb_spec (i + 21) 64).
  - rewrite Z.mod_pow2_bits_low, Z.lnot_spec by lia. change (TT_BH_KERNEL_TLB_LEN - 1) with (Z.ones 21).
    rewrite Z.ones_spec_high by lia. by rewrite andb_true_r.
  - rewrite Z.mod_pow2_bits_high, andb_false_r by lia.
    assert (Z.testbit Addr (i + 21) = Z.testbit (Addr mod 2 ^ 64) (i + 21)) as -> by (by rewrite Z.mod_small).
    by rewrite Z.mod_pow2_bits_high by lia.
Qed.

Lemma kernel_words_select X Y Addr Noc :
  0 ≤ X < 64 → 0 ≤ Y < 64 → 0 ≤ Noc < 4 → 0 ≤ Addr < 2 ^ 64 →
  selects (reg_value (kernel_tlb_words X Y Addr Noc)) X Y Addr Noc (Z.land Addr (TT_BH_KERNEL_TLB_LEN - 1)).
Proof.
  intros HX HY HN HA. rewrite kernel_tlb_fields. set (fs := kernel_fields X Y Addr Noc).
  assert (ascending 0 fs) as Hasc by (cbn; lia).
  change (TT_BH_KERNEL_TLB_LEN - 1) with (Z.ones 21). rewrite Z.land_ones by lia.
  assert (∀ off len v, (off, len, v) ∈ fs → reg_field (reg_value (set_fields fs [0; 0; 0])) off len = v mod 2 ^ len) as Hf
    by (intros; by apply register_field).
  split.
  - rewrite (Hf 0 43 (Addr / 2 ^ 21)) by (rewrite <- window_base by done; left).
    rewrite Z.mod_small by (split; [apply Z.div_pos; lia | apply Z.div_lt_upper_bound; lia]).
    pose proof (Z_div_mod_eq_full Addr (2 ^ 21)). lia.
  - change TT_BH_KERNEL_TLB_LEN with (2 ^ 21). apply Z.mod_pos_bound. lia.
  - rewrite (Hf 43 6 X), (Hf 49 6 Y) by (unfold fs, kernel_fields; set_solver). rewrite !Z.mod_small by lia. done.
  - rewrite (Hf 67 2 Noc) by (unfold fs, kernel_fields; set_solver). by rewrite Z.mod_small by lia.
  - by rewrite (Hf 70 2 1) by (unfold fs, kernel_fields; set_solver).
Qed.

Section noc.
Context {P : Platform}.

(** What programming window 201 with the words [ws] adds to the trace. *)
Definition window_writes (ws : list Z) : list Event :=
  let regs := TT_BH_KERNEL_TLB_INDEX * TT_BH_TLB_REG_SIZE in
  [EvWrite RTlbRegs (regs + 8) (word ws 2); EvWrite RTlbRegs (regs + 4) (word ws 1); EvWrite RTlbRegs (regs + 0) (word ws 0)].

(** C34 NOC access: a 32-bit read or write of node (X, Y) at any 64-bit address
    holds KernelTlbLock throughout, programs window 201 (and no other) to
    select that node and the 2 MiB window of the address, and then touches
    exactly the byte offset of the address inside the driver's mapping. *)
Theorem noc_access_address X Y Addr Noc Data w :
  0 ≤ X < 64 → 0 ≤ Y < 64 → 0 ≤ Noc < 4 → 0 ≤ Addr < 2 ^ 64 →
  ∃ ws off, selects (reg_value ws) X Y Addr Noc off
  ∧ w_trace (TtBhNocWrite32 X Y Addr Data Noc w).2
    = EvUnlock KernelTlbLock :: EvWrite RKernelTlb off Data :: window_writes ws ++ EvLock KernelTlbLock :: w_trace w
  ∧ w_trace (TtBhNocRead32 X Y Addr Noc w).2
    = EvUnlock KernelTlbLock :: EvRead RKernelTlb off (TtBhNocRead32 X Y Addr Noc w).1
      :: window_writes ws ++ EvLock KernelTlbLock :: w_trace w.
Proof.
  intros HX HY HN HA. exists (kernel_tlb_words X Y Addr Noc), (Z.land Addr (TT_BH_KERNEL_TLB_LEN - 1)).
  split; [by apply kernel_words_select|].
  unfold TtBhNocWrite32, TtBhNocRead32, TtBhConfigureKernelTlb, window_writes. cbv zeta.
  generalize (kernel_tlb_words X Y Addr Noc) (Z.land Addr (TT_BH_KERNEL_TLB_LEN - 1)). intros ws off.
  unfold write_tlb_words, write_register, read_register, acquire, release, call, emit, modify, mbind, st_bind, mret, st_ret.
  cbn [fst snd]. split; reflexivity.
Qed.
End noc.

(** ** Instances *)
Definition demo_cfg : TlbConfig := mkCfg 0x12345600000 3 4 1 2 1 1 2 0 1.
Lemma user_tlb_roundtrip_witness : ∃ ws,
  w_trace (TtBhConfigureUserTlb 7 demo_cfg sim_world).2 = user_window_writes 7 ws ++ w_trace sim_world
  ∧ decode_user_tlb true (reg_value ws) = demo_cfg.
Proof.
  assert (config_fits true demo_cfg) as Hc by (split; cbn; try lia; reflexivity).
  destruct (user_tlb_roundtrip 7 demo_cfg sim_world) as (ws & _ & H1 & _ & H2). exists ws. exact (conj H1 (H2 Hc)).
Defined.

Lemma noc_access_address_witness :
  ∃ ws, selects (reg_value ws) 8 0 0x80030408 0 0x30408
    ∧ w_trace (TtBhNocWrite32 8 0 0x80030408 7 0 sim_world).2
      = EvUnlock KernelTlbLock :: EvWrite RKernelTlb 0x30408 7 :: window_writes ws ++ [EvLock KernelTlbLock].
Proof.
  destruct (noc_access_address 8 0 0x80030408 0 7 sim_world) as (ws & off & H1 & H2 & _); [lia..|].
  exists ws. assert (off = 0x30408) as ->.
  { pose proof (sl_address _ _ _ _ _ _ H1). pose proof (sl_offset _ _ _ _ _ _ H1) as Ho.
    change TT_BH_KERNEL_TLB_LEN with (2 ^ 21) in Ho. lia. }
  split; [exact H1 | exact H2].
Defined.
