(* ===== verification/QueueSpec.v ===== *)
(** * The message rings: a queue in the card's memory

    The pointers of a ring run modulo twice its size.  The counters they stand
    for, the shape of a push and of a pop in the event trace, and the sizes for
    which the occupancy test is exact. *)
From S2P Require Import Prelude Platform Frame Trace Sim Abi PciConfig Blackhole BlackholeSpec.

(** ** The ring arithmetic *)

(** The pointer of the counter [c]: the number of entries ever produced or consumed. *)
Definition ring_ptr (n c : Z) : Z := c mod (2 * n).

Lemma ring_divides n : 0 < n → (2 * n | 2 ^ 32) → 2 * n ≤ 2 ^ 32.
Proof. intros Hn Hd. apply Z.divide_pos_le; [lia | done]. Qed.

Lemma wrap32_double n : 0 < n < 2 ^ 31 → wrap32 (2 * n) = 2 * n.
Proof. intros H. apply Z.mod_small. lia. Qed.

Lemma ring_used_ptr n t h : 0 < n < 2 ^ 31 → (2 * n | 2 ^ 32) →
  ring_used (ring_ptr n t) (ring_ptr n h) n = (t - h) mod (2 * n).
Proof.
  intros Hn [q Hq]. unfold ring_used, ring_ptr. rewrite wrap32_double by done. unfold wrap32, wrap.
  rewrite Hq, <- (Z.mod_mod_divide _ (q * (2 * n)) (2 * n)) by (by exists q). rewrite Z.mod_mod by lia.
  rewrite Z.mod_mod_divide by (by exists q). by rewrite <- Zminus_mod.
Qed.

Lemma ring_next_ptr n c : 0 < n < 2 ^ 31 → ring_next (ring_ptr n c) n = ring_ptr n (c + 1).
Proof.
  intros Hn. unfold ring_next, ring_ptr. rewrite wrap32_double by done. unfold wrap32, wrap.
  pose proof (Z.mod_pos_bound c (2 * n)). rewrite (Z.mod_small _ (2 ^ 32)) by lia.
  by rewrite Z.add_mod_idemp_l by lia.
Qed.

Lemma ring_slot n c : 0 < n → ring_ptr n c mod n = c mod n.
Proof. intros Hn. unfold ring_ptr. apply Z.mod_mod_divide. by exists 2. Qed.

Lemma slots_apart n i j : 0 < n → i < j < i + n → i mod n ≠ j mod n.
Proof.
  intros Hn Hij E. assert ((j - i) mod n = 0) as Hm by (rewrite Zminus_mod, E, Z.sub_diag; apply Z.mod_0_l; lia).
  rewrite Z.mod_small in Hm by lia. lia.
Qed.

(** C35 The rings are queues exactly for the sizes that divide the pointer range:
    the occupancy computed on UINT32 agrees with the number of entries between
    the two counters, for every legal pair of counters, if and only if twice
    the size divides 2^32, that is for powers of two.  For any other size the
    subtraction of a wrapped write pointer is wrong. *)
Theorem ring_occupancy_exact_iff n : 0 < n < 2 ^ 31 →
  (∀ h t, 0 ≤ h ≤ t ∧ t ≤ h + n → ring_used (ring_ptr n t) (ring_ptr n h) n = t - h) ↔ (2 * n | 2 ^ 32).
Proof.
  intros Hn. split.
  - intros H. specialize (H (2 * n - 1) (2 * n) ltac:(lia)). revert H.
    unfold ring_used, ring_ptr. rewrite wrap32_double, Z_mod_same_full, (Z.mod_small (2 * n - 1)) by lia.
    unfold wrap32, wrap. replace (0 - (2 * n - 1)) with (2 ^ 32 - (2 * n - 1) + (-1) * 2 ^ 32) by lia.
    rewrite Z_mod_plus_full, (Z.mod_small _ (2 ^ 32)) by lia. intros H.
    apply Z.mod_divide; [lia|]. replace (2 ^ 32) with (2 ^ 32 - (2 * n - 1) + (2 * n - 1)) by lia.
    rewrite Z.add_mod, H, (Z.mod_small (2 * n - 1)) by lia.
    replace (2 * n - (2 * n - 1) + (2 * n - 1)) with (1 * (2 * n)) by lia. apply Z_mod_mult.
  - intros Hd h t Ht. rewrite ring_used_ptr by done. apply Z.mod_small. lia.
Qed.

(** ** The trace of the card's memory accesses *)
Definition data_store (e : Event) : bool := match e with EvWrite RKernelTlb _ _ => true | _ => false end.
(** No word of the card's memory is written. *)
Definition no_store (t : list Event) : Prop := existsb data_store t = false.

Lemma no_store_app t1 t2 : no_store (t1 ++ t2) ↔ no_store t1 ∧ no_store t2.
Proof. unfold no_store. rewrite existsb_app. apply orb_false_iff. Qed.

Definition csm_offset (A : Z) : Z := Z.land A (TT_BH_KERNEL_TLB_LEN - 1).

(** What a store of [V] to the ARC's address [A] adds to the trace, newest first. *)
Definition csm_store (A V : Z) : list Event :=
  EvUnlock KernelTlbLock :: EvWrite RKernelTlb (csm_offset A) V
  :: window_writes (kernel_tlb_words TT_BH_ARC_X TT_BH_ARC_Y A 0) ++ [EvLock KernelTlbLock].

Section queue.
Context {P : Platform}.

(** [m] appends [t] to the trace. *)
Definition logs {A} (m : M A) (w : World) (t : list Event) : Prop := w_trace (m w).2 = t ++ w_trace w.

(** [m] writes nothing to the card's memory and has a result that [Q] holds of,
    given what was appended to the trace. *)
Definition Looks {A} (m : M A) (Q : A → list Event → Prop) : Prop :=
  ∀ w, ∃ t, logs m w t ∧ no_store t ∧ Q (m w).1 t.

Lemma noc_read_looks X Y A N :
  Looks (TtBhNocRead32 X Y A N) (λ v t, EvRead RKernelTlb (csm_offset A) v ∈ t).
Proof.
  intros w.
  exists (EvUnlock KernelTlbLock :: EvRead RKernelTlb (csm_offset A) (TtBhNocRead32 X Y A N w).1
    :: window_writes (kernel_tlb_words X Y A N) ++ [EvLock KernelTlbLock]).
  unfold logs, TtBhNocRead32, TtBhConfigureKernelTlb, window_writes, csm_offset. cbv zeta.
  generalize (kernel_tlb_words X Y A N) (Z.land A (TT_BH_KERNEL_TLB_LEN - 1)). intros ws off.
  unfold write_tlb_words, write_register, read_register, acquire, release, call, emit, modify, mbind, st_bind, mret, st_ret.
  cbn [fst snd]. split; [reflexivity|]. split; [reflexivity|]. right. left.
Qed.

Lemma csm_read_looks A :
  Looks (TtBhCsmRead32 A) (λ r t, r.1 = negb (csm_out_of_range A) ∧ (r.1 = true → EvRead RKernelTlb (csm_offset A) r.2 ∈ t)).
Proof.
  unfold TtBhCsmRead32. destruct (csm_out_of_range A); intros w; [by exists []|].
  destruct (noc_read_looks TT_BH_ARC_X TT_BH_ARC_Y A 0 w) as (t & Ht & Hs & Hr). exists t. revert Ht Hr.
  unfold logs, mbind, st_bind. cbn [fst snd]. generalize (TtBhNocRead32 TT_BH_ARC_X TT_BH_ARC_Y A 0 w).
  intros [v w1]. cbn. auto.
Qed.

Lemma csm_write_logs A V w :
  (TtBhCsmWrite32 A V w).1 = negb (csm_out_of_range A)
  ∧ logs (TtBhCsmWrite32 A V) w (if csm_out_of_range A then [] else csm_store A V).
Proof. unfold TtBhCsmWrite32, logs. by destruct (csm_out_of_range A). Qed.

Lemma time_after_looks d : Looks (time_after d) (λ _ _, True).
Proof. intros w. by exists [EvTime]. Qed.

Lemma looks_bind {A B} (m : M A) (k : A → M B) Q R :
  Looks m Q → (∀ a t, Q a t → Looks (k a) (λ b t', R b (t' ++ t))) → Looks (mbind k m) R.
Proof.
  intros Hm Hk w. destruct (Hm w) as (t & H1 & H2 & H3). destruct (Hk _ _ H3 (m w).2) as (t' & K1 & K2 & K3).
  exists (t' ++ t). unfold logs, mbind, st_bind in *. cbn [fst snd]. rewrite K1, H1, app_assoc.
  split; [done|]. split; [by apply no_store_app | done].
Qed.

Lemma looks_ret {A} (a : A) (Q : A → list Event → Prop) : Q a [] → Looks (mret a) Q.
Proof. intros H w. by exists []. Qed.
Lemma looks_weaken {A} (m : M A) (Q R : A → list Event → Prop) :
  Looks m Q → (∀ a t, Q a t → R a t) → Looks m R.
Proof. intros H HQ w. destruct (H w) as (t & H1 & H2 & H3). exists t. auto. Qed.
Lemma looks_emit e : data_store e = false → Looks (emit e) (λ _ _, True).
Proof. intros H w. exists [e]. split; [done|]. split; [|done]. unfold no_store. cbn. by rewrite H. Qed.

(** The rest of a polling loop does not forget what was seen before. *)
Lemma poll_looks (d : Z) (again : M bool) (Q : bool → list Event → Prop) :
  (∀ t, Q false t) → (∀ b t t', Q b t → Q b (t ++ t')) → Looks again Q →
  Looks (late ← time_after d; if (late : bool) then mret false else TtBhPollDelay;; again) Q.
Proof.
  intros H0 Hmono Ha. apply (looks_bind _ _ _ _ (time_after_looks d)). intros [|] t _.
  - apply looks_ret, H0.
  - apply (looks_bind _ _ (λ _ _, True)); [by apply looks_emit|]. intros _ t' _.
    eapply looks_weaken; [exact Ha|]. cbn. auto.
Qed.

(** The pointer read by a loop that reports room, or a response. *)
Definition saw (A : Z) (good : Z → bool) : bool → list Event → Prop :=
  λ ok t, ok = true → ∃ v, EvRead RKernelTlb (csm_offset A) v ∈ t ∧ good v = true ∧ v ≠ MAXUINT32.

Lemma saw_mono A good ok t t' : saw A good ok t → saw A good ok (t ++ t').
Proof. intros H Hok. destruct (H Hok) as (v & H1 & H2). exists v. split; [set_solver | done]. Qed.
Lemma saw_mono_r A good ok t t' : saw A good ok t → saw A good ok (t' ++ t).
Proof. intros H Hok. destruct (H Hok) as (v & H1 & H2). exists v. split; [set_solver | done]. Qed.

(** One round of a polling loop over the pointer at [A]. *)
Lemma poll_round A good (d : Z) (again : M bool) :
  Looks again (saw A good) →
  Looks (r ← TtBhCsmRead32 A;
         if negb r.1 then mret false else if r.2 =? MAXUINT32 then mret false
         else if good r.2 then mret true
         else late ← time_after d; if (late : bool) then mret false else TtBhPollDelay;; again) (saw A good).
Proof.
  intros Ha. apply (looks_bind _ _ _ _ (csm_read_looks A)). intros [ok v] t [_ Hr]. cbn [fst snd] in *.
  destruct ok; cbn [negb]; [|by apply looks_ret]. specialize (Hr eq_refl).
  destruct (Z.eqb_spec v MAXUINT32) as [->|Hv]; [by apply looks_ret|].
  destruct (good v) eqn:Hg; [apply looks_ret; intros _; by exists v|].
  apply poll_looks; [by intros | intros b t1 t2 H Hb |].
  - rewrite <- app_assoc. destruct (H Hb) as (v' & H1 & H2). exists v'. set_solver.
  - eapply looks_weaken; [exact Ha|]. cbn. intros b t' H. by apply saw_mono.
Qed.

Lemma push_wait_looks fuel qb n wp d :
  Looks (arc_push_wait fuel qb n wp d) (saw (wrap32 (qb + TT_ARC_MSG_QUEUE_REQ_RPTR)) (λ rp, ring_used wp rp n <? n)).
Proof.
  induction fuel as [|k IH]; cbn [arc_push_wait].
  - apply (looks_bind _ _ (λ _ _, True)); [by apply looks_emit|]. intros _ t _. by apply looks_ret.
  - apply (poll_round _ (λ rp, ring_used wp rp n <? n)), IH.
Qed.

Lemma pop_wait_looks fuel qb n rp d :
  Looks (arc_pop_wait fuel qb n rp d) (saw (wrap32 (qb + TT_ARC_MSG_QUEUE_RES_WPTR)) (λ wp, 0 <? ring_used wp rp n)).
Proof.
  induction fuel as [|k IH]; cbn [arc_pop_wait].
  - apply (looks_bind _ _ (λ _ _, True)); [by apply looks_emit|]. intros _ t _. by apply looks_ret.
  - apply (poll_round _ (λ wp, 0 <? ring_used wp rp n)), IH.
Qed.

Lemma deadline_looks ms : Looks (TtBhDeadline ms) (λ _ _, True).
Proof. intros w. by exists [EvTime]. Qed.

(** ** Pushing *)
Definition entry_stores (base slot : Z) (Msg : TT_ARC_MSG) (l : list Z) : list Event :=
  concat (rev ((λ i, csm_store (arc_entry_addr base slot i) (msg_word Msg i)) <$> l)).

Lemma entry_stores_cons base slot Msg i l :
  entry_stores base slot Msg (i :: l)
  = entry_stores base slot Msg l ++ csm_store (arc_entry_addr base slot i) (msg_word Msg i).
Proof. unfold entry_stores. cbn [fmap list_fmap rev]. rewrite concat_app. cbn [concat]. by rewrite app_nil_r. Qed.

Lemma write_entry_logs base slot Msg l w :
  let m := for_break l (λ i, ok ← TtBhCsmWrite32 (arc_entry_addr base slot i) (msg_word Msg i);
                             mret (if (ok : bool) then None else Some tt)) in
  ((m w).1 = None ∧ logs m w (entry_stores base slot Msg l))
  ∨ ((m w).1 = Some tt ∧ ∃ done i rest, l = done ++ i :: rest ∧ logs m w (entry_stores base slot Msg done)).
Proof.
  cbv zeta. revert w. induction l as [|i l IH]; intros w; cbn [for_break]; [by left|].
  unfold logs, mbind, st_bind, mret, st_ret. cbn [fst snd].
  destruct (csm_write_logs (arc_entry_addr base slot i) (msg_word Msg i) w) as [H1 H2]. unfold logs in H2. revert H1 H2.
  generalize (TtBhCsmWrite32 (arc_entry_addr base slot i) (msg_word Msg i) w). intros [ok w1]. cbn [fst snd]. intros -> H2.
  destruct (csm_out_of_range _); cbn [negb].
  - right. split; [done|]. by exists [], i, l.
  - destruct (IH w1) as [[K1 K2]|(K1 & dn & j & rest & -> & K2)]; unfold logs, mbind, st_bind, mret, st_ret in *; cbn [fst snd] in *.
    + left. split; [done|]. by rewrite K2, H2, entry_stores_cons, app_assoc.
    + right. split; [done|]. exists (i :: dn), j, rest. split; [done|]. by rewrite K2, H2, entry_stores_cons, app_assoc.
Qed.

(** What is established when the entry is about to be written. *)
Definition claimed (qb n : Z) (wptr : Z) (t : list Event) : Prop :=
  EvRead RKernelTlb (csm_offset (wrap32 (qb + TT_ARC_MSG_QUEUE_REQ_WPTR))) wptr ∈ t
  ∧ ∃ rptr, EvRead RKernelTlb (csm_offset (wrap32 (qb + TT_ARC_MSG_QUEUE_REQ_RPTR))) rptr ∈ t
            ∧ ring_used wptr rptr n < n.

Lemma looks_run {A B} (m : M A) (k : A → M B) Q w : Looks m Q →
  ∃ a w1 t, w_trace w1 = t ++ w_trace w ∧ no_store t ∧ Q a t ∧ mbind k m w = k a w1.
Proof.
  intros H. destruct (H w) as (t & H1 & H2 & H3). exists (m w).1, (m w).2, t. by split_and!.
Qed.

Lemma arc_write_entry_logs base slot Msg w :
  ((arc_write_entry base slot Msg w).1 = None ∧ logs (arc_write_entry base slot Msg) w (entry_stores base slot Msg (zrange 8)))
  ∨ ((arc_write_entry base slot Msg w).1 = Some tt ∧ ∃ part i rest,
       zrange 8 = part ++ i :: rest ∧ logs (arc_write_entry base slot Msg) w (entry_stores base slot Msg part)).
Proof. apply write_entry_logs. Qed.

(** The part of a push after the wait: the entry, the barrier, the pointer. *)
Definition push_entry (Msg : TT_ARC_MSG) (base slot A next : Z) : M bool :=
  failed ← arc_write_entry base slot Msg;
  match failed with Some _ => mret false | None => KeMemoryBarrier;; TtBhCsmWrite32 A next end.

Lemma push_entry_spec Msg base slot A next w : csm_out_of_range A = false →
  let r := push_entry Msg base slot A next w in
  (r.1 = true → w_trace r.2 = csm_store A next ++ [EvBarrier] ++ entry_stores base slot Msg (zrange 8) ++ w_trace w)
  ∧ (r.1 = false → ∃ part i rest, zrange 8 = part ++ i :: rest ∧ w_trace r.2 = entry_stores base slot Msg part ++ w_trace w).
Proof.
  intros HA. unfold push_entry. cbv zeta. unfold mbind, st_bind. cbn [fst snd].
  destruct (arc_write_entry_logs base slot Msg w) as [[H1 H2]|(H1 & H2)]; revert H1 H2; unfold logs;
    generalize (arc_write_entry base slot Msg w); intros [o w1]; cbn [fst snd]; intros ->.
  - intros H2.
    destruct (csm_write_logs A next (KeMemoryBarrier w1).2) as [K1 K2]. unfold logs in K2. rewrite HA in K1, K2.
    rewrite K1, K2. split; [|done]. intros _. unfold KeMemoryBarrier, emit. cbn [snd fst]. cbn. by rewrite H2.
  - intros (part & i & rest & -> & H2). split; [done|]. intros _. by exists part, i, rest.
Qed.

(** C22 A push publishes last: on success the driver has read a write and a read
    pointer that leave room, has then written the eight words of the entry to
    the slot of the write pointer, and after a memory barrier, as the last
    store to the card, the advanced write pointer; on failure it has stored at
    most a proper prefix of the entry and no pointer, so the firmware never
    sees a half-written message. *)
Theorem push_publishes_last Msg qb n w :
  let r := TtBhArcMsgPush Msg qb n w in
  let entry wptr l := entry_stores (wrap32 (qb + TT_ARC_MSG_QUEUE_HEADER_SIZE)) (wptr mod n) Msg l in
  (r.1 = true → ∃ wptr pre, no_store pre ∧ claimed qb n wptr pre
     ∧ w_trace r.2 = csm_store (wrap32 (qb + TT_ARC_MSG_QUEUE_REQ_WPTR)) (ring_next wptr n)
                     ++ [EvBarrier] ++ entry wptr (zrange 8) ++ pre ++ w_trace w)
  ∧ (r.1 = false → ∃ wptr part rest pre, zrange 8 = part ++ rest ∧ rest ≠ [] ∧ no_store pre
     ∧ w_trace r.2 = entry wptr part ++ pre ++ w_trace w).
Proof.
  cbv zeta. unfold TtBhArcMsgPush. cbv zeta. set (base := wrap32 (qb + TT_ARC_MSG_QUEUE_HEADER_SIZE)).
  assert (∀ w1 pre, no_store pre → w_trace w1 = pre ++ w_trace w →
    ∃ wptr part rest pre', zrange 8 = part ++ rest ∧ rest ≠ [] ∧ no_store pre'
     ∧ w_trace w1 = entry_stores base (wptr mod n) Msg part ++ pre' ++ w_trace w) as Hnone.
  { intros w1 pre Hs Ht. by exists 0, [], (zrange 8), pre. }
  set (A := wrap32 (qb + TT_ARC_MSG_QUEUE_REQ_WPTR)).
  match goal with |- ((mbind ?k _ w).1 = true → _) ∧ _ =>
    destruct (looks_run _ k _ w (csm_read_looks A)) as ([ok wptr] & w1 & t1 & T1 & S1 & [R1 Q1] & ->) end.
  cbn [fst snd] in *. destruct ok; cbn [negb]; [|split; [done|]; intros _; by apply (Hnone _ t1)].
  destruct (wptr =? MAXUINT32); [split; [done|]; intros _; by apply (Hnone _ t1)|].
  match goal with |- ((mbind ?k _ w1).1 = true → _) ∧ _ =>
    destruct (looks_run _ k _ w1 (deadline_looks TT_ARC_MSG_TIMEOUT_MS)) as (d & w2 & t2 & T2 & S2 & _ & ->) end.
  match goal with |- ((mbind ?k _ w2).1 = true → _) ∧ _ =>
    destruct (looks_run _ k _ w2 (push_wait_looks (poll_fuel TT_ARC_MSG_TIMEOUT_MS) qb n wptr d)) as (room & w3 & t3 & T3 & S3 & Q3 & ->) end.
  assert (w_trace w3 = (t3 ++ t2 ++ t1) ++ w_trace w) as T by (by rewrite T3, T2, T1, !app_assoc).
  assert (no_store (t3 ++ t2 ++ t1)) as S by (by rewrite !no_store_app).
  destruct room; cbn [negb]; [|split; [done|]; intros _; by apply (Hnone _ _ S T)].
  symmetry in R1. rewrite negb_true_iff in R1.
  destruct (push_entry_spec Msg base (wptr mod n) A (ring_next wptr n) w3 R1) as [Hyes Hno].
  split; intros Hr.
  - destruct (Q3 eq_refl) as (rptr & H1 & H2%Z.ltb_lt & _). exists wptr, (t3 ++ t2 ++ t1).
    split; [done|]. split; [split; [set_solver | exists rptr; set_solver]|]. rewrite <- T. exact (Hyes Hr).
  - destruct (Hno Hr) as (part & i & rest & H1 & H2). exists wptr, part, (i :: rest), (t3 ++ t2 ++ t1).
    rewrite <- T. by split_and!.
Qed.

(** ** Popping *)
Lemma read_payload_looks base i old :
  Looks (arc_read_payload base i old) (λ r t, r.1 = true → length r.2 = length old
    ∧ ∀ j v, r.2 !! j = Some v → EvRead RKernelTlb (csm_offset (wrap32 (base + (i + 1 + Z.of_nat j) * 4))) v ∈ t).
Proof.
  revert i. induction old as [|o old IH]; intros i; cbn [arc_read_payload]; [by apply looks_ret|].
  apply (looks_bind _ _ _ _ (csm_read_looks _)). intros [ok v] t [_ Hr]. cbn [fst snd] in *.
  destruct ok; cbn [negb]; [|by apply looks_ret]. specialize (Hr eq_refl).
  apply (looks_bind _ _ _ _ (IH (i + 1))). intros [ok l] t' Hl. cbn [fst snd] in *. apply looks_ret. cbn [fst snd].
  intros ->. destruct (Hl eq_refl) as [H1 H2]. split; [cbn; congruence|]. intros [|j] x; cbn.
  - intros [= <-]. rewrite Z.add_0_r. set_solver.
  - intros Hx. replace (i + 1 + Z.of_nat (S j)) with (i + 1 + 1 + Z.of_nat j) by lia. specialize (H2 j x Hx). set_solver.
Qed.

(** The eight words of [m] were read at [base]. *)
Definition entry_read (base : Z) (m : TT_ARC_MSG) (t : list Event) : Prop :=
  ∀ i, 0 ≤ i < 8 → EvRead RKernelTlb (csm_offset (wrap32 (base + i * 4))) (msg_word m i) ∈ t.

Definition pop_words (base : Z) : M (bool * TT_ARC_MSG) :=
  h ← TtBhCsmRead32 base;
  if negb h.1 then mret (false, mkMsg h.2 (replicate 7 0))
  else p ← arc_read_payload base 0 (replicate 7 0); mret (p.1, mkMsg h.2 p.2).

Lemma pop_words_looks base : wrap32 base = base →
  Looks (pop_words base) (λ r t, r.1 = true → entry_read base r.2 t).
Proof.
  intros Hb. unfold pop_words. apply (looks_bind _ _ _ _ (csm_read_looks _)). intros [ok h] t [_ Hr]. cbn [fst snd] in *.
  destruct ok; cbn [negb]; [|by apply looks_ret]. specialize (Hr eq_refl).
  apply (looks_bind _ _ _ _ (read_payload_looks base 0 (replicate 7 0))). intros [ok l] t' Hl. cbn [fst snd] in *.
  apply looks_ret. cbn [fst snd app]. intros ->. destruct (Hl eq_refl) as [H1 H2]. intros i Hi. unfold msg_word.
  destruct (Z.eqb_spec i 0) as [->|Hi0]; [rewrite Z.add_0_r, Hb; cbn [Header]; set_solver|]. cbn [Payload].
  destruct (lookup_lt_is_Some_2 l (Z.to_nat (i - 1))) as [v Hv]; [rewrite H1; cbn; lia|]. rewrite Hv. cbn [default].
  specialize (H2 _ _ Hv). replace (0 + 1 + Z.of_nat (Z.to_nat (i - 1))) with i in H2 by lia. unfold id. set_solver.
Qed.

Definition pop_entry (base A next : Z) : M (bool * TT_ARC_MSG) :=
  h ← TtBhCsmRead32 base;
  if negb h.1 then mret (false, mkMsg h.2 (replicate 7 0))
  else
    p ← arc_read_payload base 0 (replicate 7 0);
    if negb p.1 then mret (false, mkMsg h.2 p.2)
    else ok ← TtBhCsmWrite32 A next; mret (ok, mkMsg h.2 p.2).

Lemma pop_entry_words base A next w :
  pop_entry base A next w
  = (r ← pop_words base; if negb r.1 then mret r else ok ← TtBhCsmWrite32 A next; mret (ok, r.2)) w.
Proof.
  unfold pop_entry, pop_words, mbind, st_bind, mret, st_ret. cbn [fst snd].
  destruct (TtBhCsmRead32 base w) as [[[|] h] w1]; cbn [fst snd negb]; [|done].
  generalize (arc_read_payload base 0 (replicate 7 0) w1). intros [[[|] p] w2]; reflexivity.
Qed.

Lemma pop_entry_spec base A next w : csm_out_of_range A = false → wrap32 base = base →
  let r := pop_entry base A next w in
  ∃ t, no_store t ∧ w_trace r.2 = (if r.1.1 then csm_store A next else []) ++ t ++ w_trace w
       ∧ (r.1.1 = true → entry_read base r.1.2 t).
Proof.
  intros HA Hb. cbv zeta. rewrite pop_entry_words.
  destruct (looks_run (pop_words base) (λ r, if negb r.1 then mret r else ok ← TtBhCsmWrite32 A next; mret (ok, r.2)) _ w (pop_words_looks base Hb))
    as ([ok m] & w1 & t & T & S & Q & ->). cbn [fst snd] in *. exists t. split; [done|].
  destruct ok; cbn [negb]; [|by rewrite <- T].
  destruct (csm_write_logs A next w1) as [H1 H2]. unfold logs in H2. rewrite HA in H1, H2. revert H1 H2.
  unfold mbind, st_bind, mret, st_ret. cbn [fst snd]. generalize (TtBhCsmWrite32 A next w1). intros [ok w2]. cbn [fst snd negb].
  intros -> H2. rewrite H2, T. auto.
Qed.

(** What is established when the entry is about to be read. *)
Definition available (qb n : Z) (rptr : Z) (t : list Event) : Prop :=
  EvRead RKernelTlb (csm_offset (wrap32 (qb + TT_ARC_MSG_QUEUE_RES_RPTR))) rptr ∈ t
  ∧ ∃ wptr, EvRead RKernelTlb (csm_offset (wrap32 (qb + TT_ARC_MSG_QUEUE_RES_WPTR))) wptr ∈ t
            ∧ 0 < ring_used wptr rptr n.

Definition pop_base (qb n rptr : Z) : Z :=
  wrap32 (wrap32 (qb + TT_ARC_MSG_QUEUE_HEADER_SIZE + n * ARC_MSG_BYTES) + (rptr mod n) * ARC_MSG_BYTES).

(** C23 A pop reads before it releases: on success the driver has read two
    pointers with a response between them, then behind a memory barrier the
    eight words of the message it returns from the slot of the read pointer,
    and only then stores the advanced read pointer, its single store to the
    card; on failure it stores nothing. *)
Theorem pop_releases_last qb n w :
  let r := TtBhArcMsgPop qb n w in
  (r.1.1 = true → ∃ rptr before after, no_store before ∧ no_store after
     ∧ available qb n rptr before ∧ entry_read (pop_base qb n rptr) r.1.2 after
     ∧ w_trace r.2 = csm_store (wrap32 (qb + TT_ARC_MSG_QUEUE_RES_RPTR)) (ring_next rptr n)
                     ++ after ++ [EvBarrier] ++ before ++ w_trace w)
  ∧ (r.1.1 = false → ∃ t, no_store t ∧ w_trace r.2 = t ++ w_trace w).
Proof.
  cbv zeta. unfold TtBhArcMsgPop. cbv zeta. set (A := wrap32 (qb + TT_ARC_MSG_QUEUE_RES_RPTR)).
  match goal with |- ((mbind ?k _ w).1.1 = true → _) ∧ _ =>
    destruct (looks_run _ k _ w (csm_read_looks A)) as ([ok rptr] & w1 & t1 & T1 & S1 & [R1 Q1] & ->) end.
  cbn [fst snd] in *. destruct ok; cbn [negb]; [|split; [done|]; intros _; by exists t1].
  destruct (rptr =? MAXUINT32); [split; [done|]; intros _; by exists t1|].
  match goal with |- ((mbind ?k _ w1).1.1 = true → _) ∧ _ =>
    destruct (looks_run _ k _ w1 (deadline_looks TT_ARC_MSG_TIMEOUT_MS)) as (d & w2 & t2 & T2 & S2 & _ & ->) end.
  match goal with |- ((mbind ?k _ w2).1.1 = true → _) ∧ _ =>
    destruct (looks_run _ k _ w2 (pop_wait_looks (poll_fuel TT_ARC_MSG_TIMEOUT_MS) qb n rptr d)) as (got & w3 & t3 & T3 & S3 & Q3 & ->) end.
  assert (w_trace w3 = (t3 ++ t2 ++ t1) ++ w_trace w) as T by (by rewrite T3, T2, T1, !app_assoc).
  assert (no_store (t3 ++ t2 ++ t1)) as S by (by rewrite !no_store_app).
  destruct got; cbn [negb]; [|split; [done|]; intros _; by exists (t3 ++ t2 ++ t1)].
  symmetry in R1. rewrite negb_true_iff in R1.
  destruct (pop_entry_spec (pop_base qb n rptr) A (ring_next rptr n) (KeMemoryBarrier w3).2 R1) as (t4 & S4 & T4 & E4).
  { unfold pop_base, wrap32, wrap. apply Z.mod_mod. lia. }
  change (w_trace (KeMemoryBarrier w3).2) with (EvBarrier :: w_trace w3) in T4. rewrite T in T4.
  split; intros Hr.
  - destruct (Q3 eq_refl) as (wptr & H1 & H2%Z.ltb_lt & _). exists rptr, (t3 ++ t2 ++ t1), t4.
    split; [done|]. split; [done|]. split; [split; [set_solver | exists wptr; set_solver]|]. split; [exact (E4 Hr)|].
    etrans; [exact T4|]. assert ((pop_entry (pop_base qb n rptr) A (ring_next rptr n) (KeMemoryBarrier w3).2).1.1 = true) as -> by exact Hr.
    reflexivity.
  - exists (t4 ++ EvBarrier :: t3 ++ t2 ++ t1). rewrite no_store_app. split; [by split|]. etrans; [exact T4|].
    assert ((pop_entry (pop_base qb n rptr) A (ring_next rptr n) (KeMemoryBarrier w3).2).1.1 = false) as -> by exact Hr.
    rewrite <- (app_assoc t4). reflexivity.
Qed.
End queue.

(** ** Instances *)
Lemma ring_occupancy_exact_iff_witness : ring_used (ring_ptr 4 9) (ring_ptr 4 7) 4 = 2 ∧ ring_used (ring_ptr 3 6) (ring_ptr 3 5) 3 = 5.
Proof.
  split; [|vm_compute; reflexivity].
  apply (proj2 (ring_occupancy_exact_iff 4 ltac:(lia))); [by exists (2 ^ 29) | lia].
Defined.

(** A ring of four entries at the start of the card's memory, empty, and one
    with a response waiting. *)
Definition demo_msg : TT_ARC_MSG := mkMsg 0x21 [1; 2; 3; 4; 5; 6; 7].
Definition answered : World (P := sim) :=
  sim_world <| w_os := (sim_set_reg RKernelTlb 160 0xAB (sim_set_reg RKernelTlb (csm_offset (TT_ARC_CSM_BASE + TT_ARC_MSG_QUEUE_RES_WPTR)) 1 sim_os)
    : OS (Platform := sim)) |>.

Lemma push_publishes_last_witness :
  ∃ wptr pre, w_trace (TtBhArcMsgPush demo_msg TT_ARC_CSM_BASE 4 sim_world).2
    = csm_store TT_ARC_CSM_BASE (ring_next wptr 4) ++ [EvBarrier]
      ++ entry_stores (TT_ARC_CSM_BASE + 32) (wptr mod 4) demo_msg (zrange 8) ++ pre.
Proof.
  destruct (push_publishes_last demo_msg TT_ARC_CSM_BASE 4 sim_world) as [H _].
  destruct H as (wptr & pre & _ & _ & H); [vm_compute; reflexivity|]. exists wptr, pre.
  change (w_trace sim_world) with ([] : list Event) in H. rewrite app_nil_r in H. exact H.
Defined.

Lemma pop_releases_last_witness :
  ∃ rptr t, w_trace (TtBhArcMsgPop TT_ARC_CSM_BASE 4 answered).2
    = csm_store (TT_ARC_CSM_BASE + TT_ARC_MSG_QUEUE_RES_RPTR) (ring_next rptr 4) ++ t.
Proof.
  destruct (pop_releases_last TT_ARC_CSM_BASE 4 answered) as [H _].
  destruct H as (rptr & b & a & _ & _ & _ & _ & H); [vm_compute; reflexivity|]. exists rptr, (a ++ [EvBarrier] ++ b ++ w_trace answered).
  exact H.
Defined.
