(* ===== verification/Iatu.v ===== *)
(** * The outbound iATU allocator (src/driver/memory.c)

    First-fit allocation, bottom-up and top-down, of a range of the 58-bit NOC
    DMA space in one of 16 regions, and the aperture set-up and teardown. *)
From S2P Require Import Prelude Platform Frame Trace Abi PciConfig Blackhole.

(** ** Collecting the regions in use *)

(** The inner loop [for (j = usedCount; j > 0 && used[j-1].Base > b; j--)]
    shifts from the end of the array, so it is written on the reversed list. *)
Fixpoint insert_from_end (b l : Z) (used_rev : list (Z * Z)) : list (Z * Z) :=
  match used_rev with
  | [] => [(b, l)]
  | (b', l') :: r => if b <? b' then (b', l') :: insert_from_end b l r else (b, l) :: used_rev
  end.
Definition iatu_insert (b l : Z) (used : list (Z * Z)) : list (Z * Z) :=
  rev (insert_from_end b l (rev used)).

Definition iatu_collect (tbl : list IatuEntry) : list (Z * Z) :=
  foldl (λ used e, if ia_Used e then iatu_insert (ia_Base e) (ia_Limit e) used else used) [] tbl.

(** The first region not in use. *)
Fixpoint iatu_free_slot (i : Z) (tbl : list IatuEntry) : option Z :=
  match tbl with
  | [] => None
  | e :: r => if ia_Used e then iatu_free_slot (i + 1) r else Some i
  end.

(** ** First fit *)
Fixpoint bottom_up_gap (gapStart Size : Z) (used : list (Z * Z)) : Z :=
  match used with
  | [] => gapStart
  | (b, l) :: r =>
      if (gapStart <? b) && (Size <=? b - gapStart) then gapStart
      else bottom_up_gap (wrap64 (l + 1)) Size r
  end.

Definition bottom_up_fit (used : list (Z * Z)) (Size : Z) : option Z :=
  let gapStart := bottom_up_gap 0 Size used in
  if TT_BH_NOC_DMA_LIMIT <? wrap64 (gapStart + Size - 1) then None else Some gapStart.

(** Walks the regions from the highest; [Some (gapEnd, placed)], [None] for the
    early [return -1]. *)
Fixpoint top_down_gap (gapEnd Size : Z) (used_rev : list (Z * Z)) : option (Z * bool) :=
  match used_rev with
  | [] => Some (gapEnd, false)
  | (b, l) :: r =>
      if (l <=? gapEnd) && (Size <=? gapEnd - l) then Some (gapEnd, true)
      else if b =? 0 then None
      else top_down_gap (b - 1) Size r
  end.

Definition top_down_fit (used : list (Z * Z)) (Size : Z) : option Z :=
  match top_down_gap TT_BH_NOC_DMA_LIMIT Size (rev used) with
  | None => None
  | Some (gapEnd, placed) =>
      if negb placed && (wrap64 (gapEnd + 1) <? Size) then None
      else Some (wrap64 (gapEnd - Size + 1))
  end.

Definition iatu_fit (TopDown : bool) (used : list (Z * Z)) (Size : Z) : option Z :=
  if TopDown then top_down_fit used Size else bottom_up_fit used Size.

Definition iatu_free_entry : IatuEntry := mkIatu false None 0 0 0.
Definition iatu_entry (tbl : list IatuEntry) (i : Z) : IatuEntry :=
  default iatu_free_entry (tbl !! Z.to_nat i).

(** The table update of TtIatuFindAndClaim: the region index, the base and the
    new table. *)
Definition iatu_find_and_claim (FileObject : Z) (TopDown : bool) (Size : Z)
    (tbl : list IatuEntry) : option (Z * Z * list IatuEntry) :=
  match iatu_free_slot 0 tbl with
  | None => None
  | Some slot =>
      match iatu_fit TopDown (iatu_collect tbl) Size with
      | None => None
      | Some Base =>
          Some (slot, Base,
            <[Z.to_nat slot :=
                mkIatu true (Some FileObject) Base (wrap64 (Base + Size - 1))
                       (ia_Target (iatu_entry tbl slot))]> tbl)
      end
  end.

Section iatu.
Context {P : Platform}.

Definition TtIatuFindAndClaim (FileObject : Z) (TopDown : bool) (Size : Z) : M (option (Z * Z)) :=
  tbl ← gets w_iatu;
  match iatu_find_and_claim FileObject TopDown Size tbl with
  | None => mret None
  | Some (slot, Base, tbl') =>
      modify (λ w, w <| w_iatu := tbl' |>);; mret (Some (slot, Base))
  end.

Definition iatu_update (slot : Z) (g : IatuEntry → IatuEntry) : M () :=
  modify (λ w, w <| w_iatu := alter g (Z.to_nat slot) (w_iatu w) |>).

(** Status, NOC address and region. *)
Definition TtSetupNocDma (FileObject : Z) (TopDown : bool) (Size Target : Z)
    : M (NTSTATUS * Z * Z) :=
  if Size =? 0 then mret (STATUS_INVALID_PARAMETER, 0, -1)
  else
    acquire IatuLock;;
    claim ← TtIatuFindAndClaim FileObject TopDown Size;
    match claim with
    | None =>
        release IatuLock;;
        mret (STATUS_INSUFFICIENT_RESOURCES, 0, -1)
    | Some (slot, base) =>
        status ← TtBhConfigureOutboundAtu slot base (wrap64 (base + Size - 1)) Target;
        if negb (NT_SUCCESS status) then
          iatu_update slot (λ e, e <| ia_Used := false |> <| ia_Owner := None |>);;
          release IatuLock;;
          mret (status, 0, -1)
        else
          release IatuLock;;
          mret (STATUS_SUCCESS, wrap64 (TT_BH_NOC_PCIE_OFFSET + base), slot)
    end.

Definition TtTeardownNocDma (Region : Z) : M () :=
  if (Region <? 0) || (TT_IATU_REGIONS <=? Region) then mret tt
  else
    acquire IatuLock;;
    detached ← gets (Detached ∘ w_gate);
    when (negb detached) (TtBhConfigureOutboundAtu Region 0 0 0;; mret tt);;
    iatu_update Region (λ _, iatu_free_entry);;
    release IatuLock.
End iatu.

(** ** Footprints *)
Section frames.
Context {P : Platform}.

Lemma TtIatuFindAndClaim_frame f d n : Steps (Frame [CIatu]) (TtIatuFindAndClaim f d n).
Proof. unfold TtIatuFindAndClaim. frame_walk. Qed.
#[local] Hint Resolve TtIatuFindAndClaim_frame : frames.
Lemma iatu_update_frame s g : Steps (Frame [CIatu]) (iatu_update s g).
Proof. unfold iatu_update. frame_walk. Qed.
#[local] Hint Resolve iatu_update_frame : frames.
Lemma TtSetupNocDma_frame f d n t : Steps (Frame [COs; CTrace; CIatu]) (TtSetupNocDma f d n t).
Proof. unfold TtSetupNocDma. frame_walk. Qed.
#[local] Hint Resolve TtSetupNocDma_frame : frames.
Lemma TtTeardownNocDma_frame r : Steps (Frame [COs; CTrace; CIatu]) (TtTeardownNocDma r).
Proof. unfold TtTeardownNocDma. frame_walk. Qed.
#[local] Hint Resolve TtTeardownNocDma_frame : frames.
End frames.
#[export] Hint Resolve TtIatuFindAndClaim_frame iatu_update_frame TtSetupNocDma_frame
  TtTeardownNocDma_frame : frames.

(** ** Events *)
Section events.
Context {P : Platform}.

Lemma TtIatuFindAndClaim_emits f d n : Steps (Emits []) (TtIatuFindAndClaim f d n).
Proof. unfold TtIatuFindAndClaim. emits_walk. Qed.
#[local] Hint Resolve TtIatuFindAndClaim_emits : emits.
Lemma iatu_update_emits s g : Steps (Emits []) (iatu_update s g).
Proof. unfold iatu_update. emits_walk. Qed.
#[local] Hint Resolve iatu_update_emits : emits.
Lemma TtSetupNocDma_emits f d n t : Steps (Emits [KSync; KAtu]) (TtSetupNocDma f d n t).
Proof. unfold TtSetupNocDma. emits_walk. Qed.
#[local] Hint Resolve TtSetupNocDma_emits : emits.
Lemma TtTeardownNocDma_emits r : Steps (Emits [KSync; KAtu]) (TtTeardownNocDma r).
Proof. unfold TtTeardownNocDma. emits_walk. Qed.
#[local] Hint Resolve TtTeardownNocDma_emits : emits.
End events.
#[export] Hint Resolve TtIatuFindAndClaim_emits iatu_update_emits TtSetupNocDma_emits
  TtTeardownNocDma_emits : emits.
