(* ===== verification/IatuSpec.v ===== *)
(** * The iATU allocator: disjointness, optimality, programming

    The regions in use are disjoint ranges of the 58-bit NOC DMA space; the
    search finds the lowest (bottom-up) or the highest (top-down) free range,
    and fails only when there is none. *)
From S2P Require Import Prelude Abi Platform Frame Sim PciConfig Blackhole Iatu.

(** ** Ranges *)
Definition apart (p q : Z * Z) : Prop := p.2 < q.1 ∨ q.2 < p.1.
Definition valid_range (p : Z * Z) : Prop := 0 ≤ p.1 ≤ p.2 ∧ p.2 ≤ TT_BH_NOC_DMA_LIMIT.

(** [Base] starts a free range of [Size] bytes. *)
Definition free_at (used : list (Z * Z)) (Size Base : Z) : Prop :=
  0 ≤ Base ∧ Base + Size - 1 ≤ TT_BH_NOC_DMA_LIMIT
  ∧ ∀ p, p ∈ used → apart p (Base, Base + Size - 1).

(** Disjoint ranges in descending and in ascending order. *)
Fixpoint desc (hi : Z) (used_rev : list (Z * Z)) : Prop :=
  match used_rev with
  | [] => -1 ≤ hi
  | (b, l) :: r => 0 ≤ b ≤ l ∧ l ≤ hi ∧ desc (b - 1) r
  end.
Fixpoint asc (lo : Z) (used : list (Z * Z)) : Prop :=
  match used with
  | [] => True
  | (b, l) :: r => lo ≤ b ≤ l ∧ l ≤ TT_BH_NOC_DMA_LIMIT ∧ asc (l + 1) r
  end.

Lemma desc_le hi d p : desc hi d → p ∈ d → 0 ≤ p.1 ≤ p.2 ∧ p.2 ≤ hi.
Proof.
  revert hi. induction d as [|[b l] d IH]; intros hi; [by intros _ ?%elem_of_nil|].
  intros (Hb & Hl & Hd) [->|Hp]%elem_of_cons; cbn; [lia|]. specialize (IH _ Hd Hp). lia.
Qed.

Lemma asc_weaken lo lo' u : lo' ≤ lo → asc lo u → asc lo' u.
Proof. destruct u as [|[b l] u]; [done|]. cbn. intros ? (? & ? & ?). split_and!; [lia | lia | done |done]. Qed.

Lemma asc_ge lo u p : asc lo u → p ∈ u → lo ≤ p.1 ≤ p.2.
Proof.
  revert lo. induction u as [|[b l] u IH]; intros lo; [by intros _ ?%elem_of_nil|].
  intros (Hb & Hl & Hd) [->|Hp]%elem_of_cons; cbn; [lia|]. specialize (IH _ Hd Hp). lia.
Qed.

Lemma desc_asc hi d tail :
  hi ≤ TT_BH_NOC_DMA_LIMIT → desc hi d → asc (hi + 1) tail → asc 0 (rev d ++ tail).
Proof.
  revert hi tail. induction d as [|[b l] d IH]; intros hi tail Hhi Hd Ht; cbn in *.
  - eapply asc_weaken; [|done]. lia.
  - destruct Hd as (Hb & Hl & Hd). rewrite <- app_assoc. apply (IH (b - 1)); [lia|done|].
    cbn. split_and!; [lia..|]. eapply asc_weaken; [|done]. lia.
Qed.

(** ** Collecting *)
Lemma insert_from_end_elem b l d p : p ∈ insert_from_end b l d ↔ p = (b, l) ∨ p ∈ d.
Proof.
  induction d as [|[b' l'] d IH]; cbn; [by rewrite elem_of_cons|].
  destruct (b <? b'); rewrite !elem_of_cons, ?IH, ?elem_of_cons; tauto.
Qed.

Lemma insert_from_end_desc hi b l d :
  0 ≤ b ≤ l → l ≤ hi → desc hi d → (∀ p, p ∈ d → apart p (b, l)) → desc hi (insert_from_end b l d).
Proof.
  revert hi. induction d as [|[b' l'] d IH]; intros hi Hbl Hhi Hd Ha; cbn in *; [lia|].
  destruct Hd as (Hb' & Hl' & Hd). assert (apart (b', l') (b, l)) as Hap by (apply Ha; left).
  unfold apart in Hap. cbn in Hap. destruct (Z.ltb_spec b b'); cbn.
  - split_and!; [lia..|]. apply IH; [lia | lia | done | intros p Hp; apply Ha; by right].
  - split_and!; [lia..|]. done.
Qed.

Definition entry_range (e : IatuEntry) : Z * Z := (ia_Base e, ia_Limit e).

(** The table invariant. *)
Record iatu_ok (tbl : list IatuEntry) : Prop := {
  io_length : length tbl = Z.to_nat TT_IATU_REGIONS;
  io_valid i e : tbl !! i = Some e → ia_Used e = true → valid_range (entry_range e);
  io_disjoint i j e e' : tbl !! i = Some e → tbl !! j = Some e' → i ≠ j →
    ia_Used e = true → ia_Used e' = true → apart (entry_range e) (entry_range e')
}.

Lemma collect_snoc tbl e :
  iatu_collect (tbl ++ [e])
  = if ia_Used e then iatu_insert (ia_Base e) (ia_Limit e) (iatu_collect tbl) else iatu_collect tbl.
Proof. unfold iatu_collect. by rewrite foldl_app. Qed.

Lemma collect_elem tbl p : p ∈ iatu_collect tbl ↔ ∃ e, e ∈ tbl ∧ ia_Used e = true ∧ p = entry_range e.
Proof.
  induction tbl as [|e tbl IH] using rev_ind; [cbn; set_solver|].
  rewrite collect_snoc. destruct (ia_Used e) eqn:E.
  - unfold iatu_insert. rewrite elem_of_rev, insert_from_end_elem, elem_of_rev, IH. split.
    + intros [->|(e' & He' & Hu & ->)]; [exists e | exists e']; rewrite elem_of_app, ?list_elem_of_singleton; auto.
    + intros (e' & He' & Hu & ->). rewrite elem_of_app, list_elem_of_singleton in He'.
      destruct He' as [He'| ->]; [right; eauto | by left].
  - rewrite IH. split; intros (e' & He' & Hu & ->); exists e'; rewrite elem_of_app, list_elem_of_singleton in *; [auto|].
    destruct He' as [He'| ->]; [auto | congruence].
Qed.

Lemma collect_desc tbl :
  (∀ i e, tbl !! i = Some e → ia_Used e = true → valid_range (entry_range e)) →
  (∀ i j e e', tbl !! i = Some e → tbl !! j = Some e' → i ≠ j →
     ia_Used e = true → ia_Used e' = true → apart (entry_range e) (entry_range e')) →
  desc TT_BH_NOC_DMA_LIMIT (rev (iatu_collect tbl)).
Proof.
  induction tbl as [|e tbl IH] using rev_ind; intros Hv Hd; [done|].
  assert (desc TT_BH_NOC_DMA_LIMIT (rev (iatu_collect tbl))) as Hrec.
  { apply IH; intros *.
    - intros H. eapply Hv. by apply lookup_app_l_Some.
    - intros H1 H2. eapply Hd; by apply lookup_app_l_Some. }
  rewrite collect_snoc. destruct (ia_Used e) eqn:E; [|done].
  assert ((tbl ++ [e]) !! length tbl = Some e) as He by by apply list_lookup_middle.
  destruct (Hv _ _ He E) as [Hr1 Hr2]. cbn in Hr1, Hr2.
  unfold iatu_insert. rewrite rev_involutive. apply insert_from_end_desc; [done..|].
  intros p Hp. rewrite elem_of_rev in Hp. apply collect_elem in Hp as (e' & He' & Hu & ->).
  apply list_elem_of_lookup in He' as [i Hi].
  eapply (Hd i (length tbl)); [by apply lookup_app_l_Some | done | | done | done].
  apply lookup_lt_Some in Hi. lia.
Qed.

Lemma collect_ok tbl :
  iatu_ok tbl →
  desc TT_BH_NOC_DMA_LIMIT (rev (iatu_collect tbl)) ∧ asc 0 (iatu_collect tbl).
Proof.
  intros [_ Hv Hd]. pose proof (collect_desc tbl Hv Hd) as H. split; [done|].
  rewrite <- (rev_involutive (iatu_collect tbl)), <- (app_nil_r (rev (rev _))).
  by apply (desc_asc TT_BH_NOC_DMA_LIMIT).
Qed.

(** ** Bottom-up: the lowest free range *)
Lemma bottom_up_gap_spec used lo Size :
  asc lo used → 0 ≤ lo → 0 < Size →
  let g := bottom_up_gap lo Size used in
  lo ≤ g
  ∧ (∀ p, p ∈ used → apart p (g, g + Size - 1))
  ∧ (∀ x, lo ≤ x → (∀ p, p ∈ used → apart p (x, x + Size - 1)) → g ≤ x).
Proof.
  revert lo. induction used as [|[b l] used IH]; intros lo Ha Hlo HS; cbn in *.
  - split_and!; [lia | by intros p ?%elem_of_nil | lia].
  - destruct Ha as (Hb & Hl & Ha).
    destruct (Z.ltb_spec lo b); cbn; [destruct (Z.leb_spec Size (b - lo)); cbn|].
    1: { split_and!; [lia| |lia]. intros p [->|Hp]%elem_of_cons; [right; cbn; lia|].
         right. cbn. pose proof (asc_ge _ _ _ Ha Hp). lia. }
    all: rewrite noc_limit_val in Hl; rewrite wrap64_id by lia.
    all: destruct (IH (l + 1) Ha ltac:(lia) HS) as (H1 & H2 & H3); split_and!; [lia| |].
    all: try (intros p [->|Hp]%elem_of_cons; [left; cbn; lia | by apply H2]).
    all: intros x Hx Hp; apply H3; [|by intros p Hin; apply Hp; right].
    all: specialize (Hp (b, l) ltac:(left)); unfold apart in Hp; cbn in Hp; lia.
Qed.

Lemma bottom_up_gap_le used lo Size :
  asc lo used → 0 ≤ lo → lo ≤ TT_BH_NOC_DMA_LIMIT + 1 →
  bottom_up_gap lo Size used ≤ TT_BH_NOC_DMA_LIMIT + 1.
Proof.
  revert lo. induction used as [|[b l] used IH]; intros lo Ha H0 Hlo; cbn in *; [lia|].
  destruct Ha as (Hb & Hl & Ha). destruct (_ && _); [lia|].
  rewrite wrap64_id by (rewrite noc_limit_val in *; lia). apply IH; [done | lia | lia].
Qed.

Lemma bottom_up_fit_spec used Size :
  asc 0 used → 0 < Size ≤ TT_BH_NOC_DMA_LIMIT + 1 →
  match bottom_up_fit used Size with
  | Some g => free_at used Size g ∧ ∀ x, free_at used Size x → g ≤ x
  | None => ∀ x, ¬ free_at used Size x
  end.
Proof.
  intros Ha HS. unfold bottom_up_fit.
  destruct (bottom_up_gap_spec used 0 Size Ha ltac:(lia) ltac:(lia)) as (H1 & H2 & H3).
  set (g := bottom_up_gap 0 Size used) in *.
  pose proof (bottom_up_gap_le used 0 Size Ha ltac:(lia) ltac:(by vm_compute)) as Hg. fold g in Hg.
  rewrite wrap64_id by (rewrite noc_limit_val in *; lia).
  destruct (Z.ltb_spec TT_BH_NOC_DMA_LIMIT (g + Size - 1)).
  - intros x (Hx & Hxl & Hp). specialize (H3 x Hx Hp). lia.
  - split; [done|]. intros x (Hx & _ & Hp). by apply H3.
Qed.

(** ** Top-down: the highest free range *)
Definition fits_below (used : list (Z * Z)) (Size hi x : Z) : Prop :=
  0 ≤ x ∧ x + Size - 1 ≤ hi ∧ ∀ p, p ∈ used → apart p (x, x + Size - 1).

Lemma top_down_gap_spec d hi Size :
  desc hi d → 0 ≤ hi → 0 < Size →
  match top_down_gap hi Size d with
  | Some (g, true) => fits_below d Size hi (g - Size + 1) ∧ ∀ x, fits_below d Size hi x → x ≤ g - Size + 1
  | Some (g, false) =>
      0 ≤ g ≤ hi ∧ (∀ p, p ∈ d → g < p.1) ∧ ∀ x, fits_below d Size hi x → x + Size - 1 ≤ g
  | None => ∀ x, ¬ fits_below d Size hi x
  end.
Proof.
  revert hi. induction d as [|[b l] d IH]; intros hi Hd Hhi HS; cbn [top_down_gap].
  - split_and!; [lia | lia | by intros p ?%elem_of_nil | by intros x (_ & ? & _)].
  - destruct Hd as (Hb & Hl & Hd). rewrite (proj2 (Z.leb_le l hi) Hl). cbn [andb].
    assert (∀ x, Size > hi - l → fits_below ((b, l) :: d) Size hi x → fits_below d Size (b - 1) x) as Hrec.
    { intros x Hgap (Hx & Hxl & Hp). specialize (Hp (b, l) ltac:(left)) as Hbl. unfold apart in Hbl. cbn in Hbl.
      split_and!; [done | lia | intros p Hin; apply Hp; by right]. }
    destruct (Z.leb_spec Size (hi - l)); [|destruct (Z.eqb_spec b 0) as [->|Hb0]].
    + split; [|intros x (_ & ? & _); lia]. split_and!; [lia | lia |].
      intros p [->|Hp]%elem_of_cons; left; cbn; [lia|]. pose proof (desc_le _ _ _ Hd Hp). lia.
    + intros x Hf. apply Hrec in Hf as (? & ? & _); lia.
    + specialize (IH (b - 1) Hd ltac:(lia) HS). destruct (top_down_gap (b - 1) Size d) as [[g [|]]|].
      * destruct IH as [(H1 & H2 & H3) H4]. split; [split_and!; [done | lia |] |].
        -- intros p [->|Hp]%elem_of_cons; [right; cbn; lia | by apply H3].
        -- intros x Hf. apply H4, Hrec; [lia | done].
      * destruct IH as (H1 & H2 & H3). split_and!; [lia | lia | |].
        -- intros p [->|Hp]%elem_of_cons; [cbn; lia | by apply H2].
        -- intros x Hf. apply H3, Hrec; [lia | done].
      * intros x Hf. eapply IH, Hrec; [|done]. lia.
Qed.

Lemma top_down_fit_spec used Size :
  desc TT_BH_NOC_DMA_LIMIT (rev used) → 0 < Size ≤ TT_BH_NOC_DMA_LIMIT + 1 →
  match top_down_fit used Size with
  | Some g => free_at used Size g ∧ ∀ x, free_at used Size x → x ≤ g
  | None => ∀ x, ¬ free_at used Size x
  end.
Proof.
  intros Hd HS. unfold top_down_fit.
  pose proof (top_down_gap_spec _ _ Size Hd ltac:(by vm_compute) ltac:(lia)) as H.
  assert (∀ x, free_at used Size x ↔ fits_below (rev used) Size TT_BH_NOC_DMA_LIMIT x) as Hiff.
  { intros x. unfold free_at, fits_below. by setoid_rewrite elem_of_rev. }
  rewrite noc_limit_val in HS.
  destruct (top_down_gap TT_BH_NOC_DMA_LIMIT Size (rev used)) as [[g [|]]|]; cbn [negb andb].
  - destruct H as [Hf Hmax]. assert (0 ≤ g - Size + 1 ≤ 288230376151711743).
    { destruct Hf as (? & Hl & _). rewrite noc_limit_val in Hl. lia. }
    rewrite wrap64_id by lia. setoid_rewrite Hiff. done.
  - destruct H as (Hg & Hp & Hmax). rewrite noc_limit_val in Hg. rewrite wrap64_id by lia.
    destruct (Z.ltb_spec (g + 1) Size).
    + intros x Hx. apply Hiff in Hx as Hx'. specialize (Hmax x Hx'). destruct Hx' as (? & _). lia.
    + rewrite wrap64_id by lia. split.
      * apply Hiff. split_and!; [lia | rewrite noc_limit_val; lia |].
        intros p Hin. right. cbn. specialize (Hp p Hin). lia.
      * intros x Hx%Hiff. specialize (Hmax x Hx). lia.
  - intros x Hx%Hiff. by eapply H.
Qed.

(** ** The claim *)

(** What the allocator must find: the lowest or the highest range that is free
    with respect to the table. *)
Definition table_free (tbl : list IatuEntry) (Size Base : Z) : Prop :=
  0 ≤ Base ∧ Base + Size - 1 ≤ TT_BH_NOC_DMA_LIMIT
  ∧ ∀ e, e ∈ tbl → ia_Used e = true → apart (entry_range e) (Base, Base + Size - 1).
Definition better (TopDown : bool) (x y : Z) : Prop := if TopDown then y ≤ x else x ≤ y.

Lemma table_free_iff tbl Size x : free_at (iatu_collect tbl) Size x ↔ table_free tbl Size x.
Proof.
  unfold free_at, table_free. split; intros (H1 & H2 & H3); split_and!; [done..| |done|done|].
  - intros e He Hu. apply H3, collect_elem. eauto.
  - intros p (e & He & Hu & ->)%collect_elem. by apply H3.
Qed.

Lemma iatu_fit_spec TopDown tbl Size :
  iatu_ok tbl → 0 < Size ≤ TT_BH_NOC_DMA_LIMIT + 1 →
  match iatu_fit TopDown (iatu_collect tbl) Size with
  | Some g => table_free tbl Size g ∧ ∀ x, table_free tbl Size x → better TopDown g x
  | None => ∀ x, ¬ table_free tbl Size x
  end.
Proof.
  intros Hok HS. destruct (collect_ok _ Hok) as [Hd Ha]. unfold iatu_fit, better.
  destruct TopDown; [pose proof (top_down_fit_spec _ _ Hd HS) as H; destruct (top_down_fit _ _)
                    |pose proof (bottom_up_fit_spec _ _ Ha HS) as H; destruct (bottom_up_fit _ _)].
  all: by setoid_rewrite table_free_iff in H.
Qed.

Lemma free_slot_spec k tbl :
  match iatu_free_slot k tbl with
  | Some s => ∃ i e, s = k + Z.of_nat i ∧ tbl !! i = Some e ∧ ia_Used e = false
  | None => ∀ e, e ∈ tbl → ia_Used e = true
  end.
Proof.
  revert k. induction tbl as [|e tbl IH]; intros k; cbn; [by intros e ?%elem_of_nil|].
  destruct (ia_Used e) eqn:E.
  - specialize (IH (k + 1)). destruct (iatu_free_slot (k + 1) tbl) as [s|].
    + destruct IH as (i & e' & -> & Hi & He). exists (S i), e'. split_and!; [lia | done | done].
    + by intros e' [->|He']%elem_of_cons; [|apply IH].
  - exists 0%nat, e. split_and!; [lia | done | done].
Qed.

Lemma insert_ok tbl i e :
  iatu_ok tbl → valid_range (entry_range e) →
  (∀ e', e' ∈ tbl → ia_Used e' = true → apart (entry_range e') (entry_range e)) →
  iatu_ok (<[i := e]> tbl).
Proof.
  intros [Hl Hv Hd] He Ha. split; [by rewrite length_insert| |].
  - intros j e' [(_ & <- & _)|[_ Hj]]%list_lookup_insert_Some; [done | by eapply Hv].
  - intros j1 j2 e1 e2 H1 H2 Hn U1 U2. apply list_lookup_insert_Some in H1, H2.
    destruct H1 as [(-> & <- & _)|[_ H1]], H2 as [(-> & <- & _)|[_ H2]]; [done | | |by eapply Hd].
    + specialize (Ha e2 ltac:(by eapply list_elem_of_lookup_2) U2). unfold apart in *. tauto.
    + apply Ha; [by eapply list_elem_of_lookup_2 | done].
Qed.

Lemma find_and_claim_spec f TopDown Size tbl slot Base tbl' :
  iatu_ok tbl → 0 < Size ≤ TT_BH_NOC_DMA_LIMIT + 1 →
  iatu_find_and_claim f TopDown Size tbl = Some (slot, Base, tbl') →
  0 ≤ slot < TT_IATU_REGIONS
  ∧ ia_Used (iatu_entry tbl slot) = false
  ∧ table_free tbl Size Base
  ∧ iatu_ok tbl'
  ∧ (∀ i, i ≠ Z.to_nat slot → tbl' !! i = tbl !! i)
  ∧ entry_range (iatu_entry tbl' slot) = (Base, Base + Size - 1)
  ∧ ia_Used (iatu_entry tbl' slot) = true ∧ ia_Owner (iatu_entry tbl' slot) = Some f.
Proof.
  intros Hok HS. unfold iatu_find_and_claim.
  pose proof (free_slot_spec 0 tbl) as Hslot. destruct (iatu_free_slot 0 tbl) as [s|]; [|done].
  pose proof (iatu_fit_spec TopDown tbl Size Hok HS) as Hfit.
  destruct (iatu_fit TopDown (iatu_collect tbl) Size) as [g|]; [|done].
  destruct Hslot as (i & e & -> & Hi & He), Hfit as [Hfree _]. intros [= <- <- <-].
  rewrite Z.add_0_l, Nat2Z.id. pose proof (lookup_lt_Some _ _ _ Hi) as Hlt.
  assert (wrap64 (g + Size - 1) = g + Size - 1) as ->.
  { destruct Hfree as (? & Hl & _). rewrite noc_limit_val in Hl. apply wrap64_id. lia. }
  unfold iatu_entry. rewrite Nat2Z.id, Hi, list_lookup_insert_eq by done. cbn.
  pose proof (io_length _ Hok). unfold TT_IATU_REGIONS in *.
  split_and!; [lia | lia | done | done | | by intros j Hj; rewrite list_lookup_insert_ne | done | done | done].
  destruct Hfree as (H0 & Hl & Ha). apply insert_ok; [done | | exact Ha].
  unfold valid_range. cbn [fst snd entry_range ia_Base ia_Limit]. lia.
Qed.

(** A claim keeps the regions disjoint ranges of the 58-bit space: the new
    region was not in use, its range lies inside the space and overlaps no
    region in use, only its entry changes, and the table invariant holds again. *)
Theorem iatu_claim_disjoint f TopDown Size tbl slot Base tbl' :
  iatu_ok tbl → 0 < Size ≤ TT_BH_NOC_DMA_LIMIT + 1 →
  iatu_find_and_claim f TopDown Size tbl = Some (slot, Base, tbl') →
  0 ≤ slot < TT_IATU_REGIONS
  ∧ ia_Used (iatu_entry tbl slot) = false
  ∧ table_free tbl Size Base
  ∧ iatu_ok tbl'
  ∧ (∀ i, i ≠ Z.to_nat slot → tbl' !! i = tbl !! i)
  ∧ entry_range (iatu_entry tbl' slot) = (Base, Base + Size - 1)
  ∧ ia_Used (iatu_entry tbl' slot) = true ∧ ia_Owner (iatu_entry tbl' slot) = Some f.
Proof. apply find_and_claim_spec. Qed.


(** ** The registers

    The card's view of a region: the values last written to its registers. *)
Fixpoint last_write (r : MmioRegion) (off : Z) (t : list Event) : Z :=
  match t with
  | [] => 0
  | EvWrite r' off' v :: t' => if bool_decide (r = r') && (off =? off') then v else last_write r off t'
  | _ :: t' => last_write r off t'
  end.

Definition atu_reg (t : list Event) (i off : Z) : Z := last_write RBar2 (0x1000 + i * 0x100 + off) t.
Record AtuRegion := mkAtu { hw_enabled : bool; hw_base : Z; hw_limit : Z; hw_target : Z }.
Definition hw_region (t : list Event) (i : Z) : AtuRegion :=
  mkAtu (has_bits (atu_reg t i 0x04) 0x80000000)
        (atu_reg t i 0x08 + 2 ^ 32 * atu_reg t i 0x0C)
        (atu_reg t i 0x10 + 2 ^ 32 * atu_reg t i 0x20)
        (atu_reg t i 0x14 + 2 ^ 32 * atu_reg t i 0x18).

Lemma split64 z : 0 ≤ z < 2 ^ 64 → wrap32 z + 2 ^ 32 * wrap32 (Z.shiftr z 32) = z.
Proof.
  intros Hz. rewrite Z.shiftr_div_pow2 by lia. rewrite (wrap32_id (z / 2 ^ 32)).
  - unfold wrap32, wrap. pose proof (Z_div_mod_eq_full z (2 ^ 32)). lia.
  - split; [apply Z.div_pos; lia|]. apply Z.div_lt_upper_bound; lia.
Qed.

Ltac reg_simp := unfold hw_region, atu_reg; cbn [last_write];
  repeat first [ rewrite bool_decide_true by reflexivity
               | rewrite Z.eqb_refl
               | match goal with |- context [?a =? ?b] => rewrite (proj2 (Z.eqb_neq a b)) by lia end
               | progress cbn [andb] ].

Section setup.
Context {P : Platform}.

Definition region_of (w : World) (i : Z) : AtuRegion := hw_region (w_trace w) i.

(** TtBhConfigureOutboundAtu on a region: what the card sees afterwards. *)
Lemma configure_atu_ok i Base Limit Target w :
  0 ≤ i < TT_IATU_REGIONS → 0 ≤ Base ≤ Limit → Limit - Base < 2 ^ 40 → Limit < 2 ^ 64 → 0 ≤ Target < 2 ^ 64 →
  let r := TtBhConfigureOutboundAtu i Base Limit Target w in
  r.1 = STATUS_SUCCESS
  ∧ region_of r.2 i = mkAtu (negb (Limit =? 0)) Base Limit Target
  ∧ ∀ j, 0 ≤ j → j ≠ i → region_of r.2 j = region_of w j.
Proof.
  intros Hi Hb Hs Hl Ht. unfold TtBhConfigureOutboundAtu.
  rewrite (wrap64_id (Limit - Base + 1)) by lia. change (Z.shiftl 1 40) with (2 ^ 40).
  rewrite (proj2 (Z.ltb_ge (2 ^ 40) (Limit - Base + 1))), andb_false_r by lia.
  rewrite (proj2 (Z.leb_gt TT_IATU_REGIONS i)) by lia.
  unfold write_register, emit, modify, mret, st_ret, region_of. run. cbn [w_trace upd set_w_trace set_w_os].
  split; [done|]. split.
  - reg_simp. rewrite !split64 by lia. f_equal. by destruct (Limit =? 0).
  - intros j Hj Hn. reg_simp. done.
Qed.

Lemma iatu_ok_unused tbl i g : (∀ e, ia_Used (g e) = false) → iatu_ok tbl → iatu_ok (alter g i tbl).
Proof.
  intros Hg [Hl Hv Hd].
  assert (∀ j e, alter g i tbl !! j = Some e → ia_Used e = true → tbl !! j = Some e) as Ha.
  { intros j e. destruct (decide (i = j)) as [<-|Hn]; [|by rewrite list_lookup_alter_ne].
    rewrite list_lookup_alter_eq. destruct (tbl !! i) as [e0|]; [|done]. cbn. intros [= <-]. by rewrite Hg. }
  split; [by rewrite length_alter| |].
  - intros j e Hj He. eapply Hv; [by apply Ha | done].
  - intros j1 j2 e1 e2 H1 H2 Hn U1 U2. eapply Hd; [by apply Ha | by apply Ha | done..].
Qed.

Lemma iatu_ok_free tbl i : iatu_ok tbl → iatu_ok (alter (λ _, iatu_free_entry) i tbl).
Proof. by apply iatu_ok_unused. Qed.

(** TtSetupNocDma: on success the chosen region is programmed, enabled, with
    exactly the claimed range and the given target, the returned NOC address is
    the PCIe NOC base plus the range's base, and no other region's registers
    change; when the search fails nothing is programmed and the table is as
    before.  The table invariant holds either way. *)
Theorem setup_noc_dma_spec f TopDown Size Target w :
  iatu_ok (w_iatu w) → 1 < Size ≤ 2 ^ 40 → 0 ≤ Target < 2 ^ 64 →
  let r := TtSetupNocDma f TopDown Size Target w in
  iatu_ok (w_iatu r.2) ∧
  match iatu_find_and_claim f TopDown Size (w_iatu w) with
  | Some (slot, Base, tbl') =>
      r.1 = (STATUS_SUCCESS, TT_BH_NOC_PCIE_OFFSET + Base, slot) ∧ w_iatu r.2 = tbl'
      ∧ region_of r.2 slot = mkAtu true Base (Base + Size - 1) Target
      ∧ ∀ j, 0 ≤ j → j ≠ slot → region_of r.2 j = region_of w j
  | None =>
      r.1 = (STATUS_INSUFFICIENT_RESOURCES, 0, -1) ∧ w_iatu r.2 = w_iatu w
      ∧ ∀ j, region_of r.2 j = region_of w j
  end.
Proof.
  intros Hok HS Ht. unfold TtSetupNocDma, TtIatuFindAndClaim.
  rewrite (proj2 (Z.eqb_neq Size 0)) by lia. run. change (w_iatu (acquire IatuLock w).2) with (w_iatu w).
  assert (0 < Size ≤ TT_BH_NOC_DMA_LIMIT + 1) as HS' by (rewrite noc_limit_val; lia).
  destruct (iatu_find_and_claim f TopDown Size (w_iatu w)) as [[[slot Base] tbl']|] eqn:E; [|done].
  destruct (find_and_claim_spec _ _ _ _ _ _ _ Hok HS' E) as (Hs & _ & (Hb & Hl & _) & Hok' & _).
  rewrite noc_limit_val in Hl. unfold modify. cbn [fst snd].
  set (w1 := (acquire IatuLock w).2 <| w_iatu := tbl' |>).
  rewrite (wrap64_id (Base + Size - 1)) by lia.
  destruct (configure_atu_ok slot Base (Base + Size - 1) Target w1) as (Hr & Hreg & Hoth); [lia..|].
  pose proof (TtBhConfigureOutboundAtu_frame slot Base (Base + Size - 1) Target w1 CIatu eq_refl) as Hi.
  destruct (TtBhConfigureOutboundAtu slot Base (Base + Size - 1) Target w1) as [s w2].
  cbn [fst snd agree] in *. subst s. change (NT_SUCCESS STATUS_SUCCESS) with true.
  cbn [negb fst snd]. rewrite (wrap64_id (_ + Base)) by (change TT_BH_NOC_PCIE_OFFSET with (2 ^ 60); lia).
  change (w_iatu (release IatuLock w2).2) with (w_iatu w2). rewrite Hi.
  change (region_of (release IatuLock w2).2) with (region_of w2).
  split_and!; [done | done | done | | done].
  rewrite Hreg. f_equal. by rewrite (proj2 (Z.eqb_neq _ _)) by lia.
Qed.

Lemma teardown_core i w :
  iatu_ok (w_iatu w) → 0 ≤ i < TT_IATU_REGIONS →
  let w' := (TtTeardownNocDma i w).2 in
  iatu_ok (w_iatu w')
  ∧ w_iatu w' = alter (λ _, iatu_free_entry) (Z.to_nat i) (w_iatu w)
  ∧ (Detached (w_gate w) = false → hw_enabled (region_of w' i) = false)
  ∧ ∀ j, 0 ≤ j → j ≠ i → region_of w' j = region_of w j.
Proof.
  intros Hok Hi. unfold TtTeardownNocDma.
  rewrite (proj2 (Z.ltb_ge i 0)), (proj2 (Z.leb_gt TT_IATU_REGIONS i)) by lia. cbn [orb]. run.
  set (w1 := (acquire IatuLock w).2).
  change ((Detached ∘ w_gate) w1) with (Detached (w_gate w)).
  destruct (configure_atu_ok i 0 0 0 w1) as (_ & Hreg & Hoth); [lia..|].
  pose proof (TtBhConfigureOutboundAtu_frame i 0 0 0 w1 CIatu eq_refl) as Hia.
  destruct (Detached (w_gate w)); cbn [negb when]; run.
  - split_and!; [by apply iatu_ok_free | done | done | done].
  - set (w2 := (TtBhConfigureOutboundAtu i 0 0 0 w1).2) in *. clearbody w2. cbn in Hia.
    split_and!; [cbn; rewrite Hia; by apply iatu_ok_free | cbn; by rewrite Hia | |].
    + intros _. change (hw_enabled (region_of w2 i) = false). by rewrite Hreg.
    + intros j Hj Hn. change (region_of w2 j = region_of w j). by rewrite Hoth.
Qed.

(** TtTeardownNocDma of a live region: the entry is free again, the region
    is disabled on the card unless the device is gone, and nothing else changes. *)
Theorem teardown_noc_dma_spec i w :
  iatu_ok (w_iatu w) → 0 ≤ i < TT_IATU_REGIONS →
  let w' := (TtTeardownNocDma i w).2 in
  iatu_ok (w_iatu w')
  ∧ w_iatu w' = alter (λ _, iatu_free_entry) (Z.to_nat i) (w_iatu w)
  ∧ (Detached (w_gate w) = false → hw_enabled (region_of w' i) = false)
  ∧ ∀ j, 0 ≤ j → j ≠ i → region_of w' j = region_of w j.
Proof. apply teardown_core. Qed.
End setup.

(** ** Concrete runs *)
Definition iatu_demo : list IatuEntry :=
  <[0%nat := mkIatu true (Some 1) 0x1000 0x1FFF 0]>
    (<[2%nat := mkIatu true (Some 1) 0x8000 0x8FFF 0]> (replicate 16 iatu_free_entry)).

Lemma replicate_free_ok : iatu_ok (replicate 16 iatu_free_entry).
Proof.
  split; [done| |].
  - intros i e [-> _]%lookup_replicate. done.
  - intros i j e e' [-> _]%lookup_replicate _ _. done.
Qed.

Lemma iatu_demo_ok : iatu_ok iatu_demo.
Proof.
  unfold iatu_demo. apply insert_ok; [apply insert_ok; [apply replicate_free_ok | |] | |].
  - unfold valid_range. cbn [entry_range fst snd ia_Base ia_Limit]. rewrite noc_limit_val. lia.
  - intros e (? & [-> _]%lookup_replicate)%list_elem_of_lookup. done.
  - unfold valid_range. cbn [entry_range fst snd ia_Base ia_Limit]. rewrite noc_limit_val. lia.
  - intros e [i [(_ & <- & _)|[_ [-> _]%lookup_replicate]]%list_lookup_insert_Some]%list_elem_of_lookup; [|done].
    intros _. right. cbn [entry_range fst snd ia_Base ia_Limit]. lia.
Qed.

Lemma iatu_claim_disjoint_witness :
  iatu_ok (<[1%nat := mkIatu true (Some 7) 0x2000 0x4FFF 0]> iatu_demo).
Proof.
  apply (iatu_claim_disjoint 7 false 0x3000 iatu_demo 1 0x2000); [apply iatu_demo_ok | | vm_compute; reflexivity].
  vm_compute. split; congruence.
Defined.


Lemma setup_noc_dma_spec_witness :
  region_of (TtSetupNocDma 1 true 0x2000 0x40000000 sim_world).2 0
  = mkAtu true 0x3FFFFFFFFFFE000 0x3FFFFFFFFFFFFFF 0x40000000.
Proof.
  assert (E : ∃ tbl, iatu_find_and_claim 1 true 0x2000 (w_iatu sim_world)
    = Some (0, 0x3FFFFFFFFFFE000, tbl)) by (eexists; vm_compute; reflexivity).
  destruct E as [tbl E].
  pose proof (setup_noc_dma_spec 1 true 0x2000 0x40000000 sim_world replicate_free_ok) as H.
  cbv zeta in H. rewrite E in H. destruct H as (_ & _ & _ & H & _); [lia..|]. exact H.
Defined.

Lemma teardown_noc_dma_spec_witness :
  let w := (TtSetupNocDma 1 true 0x2000 0x40000000 sim_world).2 in
  hw_enabled (region_of (TtTeardownNocDma 0 w).2 0) = false.
Proof.
  intros w. apply (teardown_noc_dma_spec 0 w); [| | vm_compute; reflexivity].
  - apply (insert_ok (replicate 16 iatu_free_entry) 0 (mkIatu true (Some 1) 0x3FFFFFFFFFFE000 0x3FFFFFFFFFFFFFF 0));
      [apply replicate_free_ok | vm_compute; repeat split; congruence |].
    intros e (? & [-> _]%lookup_replicate)%list_elem_of_lookup. done.
  - unfold TT_IATU_REGIONS. lia.
Defined.
