(* ===== verification/Tlb.v ===== *)
(** * The TLB window pool (src/driver/memory.c)

    202 windows of 2 MiB (window 201 belongs to the driver) and up to eight of
    4 GiB; exact-size allocation, single owner per window, and the mmap-offset
    token that names a window to MAP. *)
From S2P Require Import Prelude Platform Frame Trace Abi PciConfig Blackhole.

Definition tlb_used (t : TlbPool) (id : Z) : bool := default false (TlbUsed t !! Z.to_nat id).
Definition tlb_owner (t : TlbPool) (id : Z) : option Z := default None (TlbOwner t !! Z.to_nat id).

Definition tlb_set (id : Z) (used : bool) (owner : option Z) (t : TlbPool) : TlbPool :=
  t <| TlbUsed := <[Z.to_nat id := used]> (TlbUsed t) |>
    <| TlbOwner := <[Z.to_nat id := owner]> (TlbOwner t) |>.

(** BAR, byte offset and size of a window. *)
Definition TtTlbDescribe (t : TlbPool) (Id : Z) : option (Z * Z * Z) :=
  if Id <? TT_TLB_2M_COUNT then Some (0, Id * TT_BH_KERNEL_TLB_LEN, TT_BH_KERNEL_TLB_LEN)
  else if Id <? TT_TLB_2M_COUNT + Tlb4gCount t
  then Some (4, Z.shiftl (Id - TT_TLB_2M_COUNT) 32, Z.shiftl 1 32)
  else None.

(** The pool that serves a size: first id and count. *)
Definition tlb_pool_select (t : TlbPool) (size : Z) : option (Z * Z) :=
  if size =? TT_BH_KERNEL_TLB_LEN then Some (0, TT_TLB_2M_COUNT)
  else if size =? Z.shiftl 1 32 then Some (TT_TLB_2M_COUNT, Tlb4gCount t)
  else None.

(** The first window of [poolStart, poolStart + n) that is not in use. *)
Fixpoint tlb_first_free (t : TlbPool) (id : Z) (n : nat) : option Z :=
  match n with
  | O => None
  | S k => if tlb_used t id then tlb_first_free t (id + 1) k else Some id
  end.

(** The mmap-offset encoding of a window (memory.c:924-934). *)
Definition tlb_encoded (t : TlbPool) (id : Z) : Z :=
  match TtTlbDescribe t id with
  | Some (bar, barOffset, _) => if bar =? 4 then barOffset + Z.shiftl 1 29 else barOffset
  | None => 0
  end.

Definition tlb_out (t : TlbPool) (id : Z) : list Z :=
  let T := tenstorrent_allocate_tlb_out in
  sput T "mmap_offset_wc" (wrap64 (TT_MMAP_OFFSET_TLB_WC + tlb_encoded t id))
    (sput T "mmap_offset_uc" (wrap64 (TT_MMAP_OFFSET_TLB_UC + tlb_encoded t id))
      (sput T "id" id (szero T))).

Section tlb.
Context {P : Platform}.

Definition upd_tlb (id : Z) (used : bool) (owner : option Z) : M () :=
  modify (λ w, w <| w_tlb := tlb_set id used owner (w_tlb w) |>).

(** The locked search-and-claim. *)
Definition tlb_claim (FileObject poolStart poolCount : Z) : M (option Z) :=
  t ← gets w_tlb;
  match tlb_first_free t poolStart (Z.to_nat poolCount) with
  | None => mret None
  | Some id => upd_tlb id true (Some FileObject);; mret (Some id)
  end.

Definition TtIoctlAllocateTlb (FileObject Request : Z) : M NTSTATUS :=
  bh ← gets (IsBlackhole ∘ w_id);
  if negb bh then mret STATUS_INVALID_PARAMETER
  else
    c ← TtCopyInBuffer Request (c_sizeof tenstorrent_allocate_tlb_in);
    if negb (NT_SUCCESS c.1) then mret c.1
    else
      t ← gets w_tlb;
      match tlb_pool_select t (sget tenstorrent_allocate_tlb_in "size" c.2) with
      | None => mret STATUS_INVALID_PARAMETER
      | Some (poolStart, poolCount) =>
          acquire TlbLock;;
          found ← tlb_claim FileObject poolStart poolCount;
          release TlbLock;;
          match found with
          | None => mret STATUS_INSUFFICIENT_RESOURCES
          | Some id =>
              status ← TtCompleteSizedOutBuffer Request
                         (c_offsetof tenstorrent_allocate_tlb "out") (tlb_out t id)
                         (c_sizeof tenstorrent_allocate_tlb_out)
                         (c_sizeof tenstorrent_allocate_tlb_out);
              (if negb (NT_SUCCESS status) then
                 acquire TlbLock;;
                 upd_tlb id false None;;
                 release TlbLock
               else mret tt);;
              mret status
          end
      end.

(** [in.id >= TT_TLB_TOTAL || !TlbUsed[in.id] || TlbOwner[in.id] != FileObject] *)
Definition tlb_not_owned (t : TlbPool) (id FileObject : Z) : bool :=
  (TT_TLB_TOTAL <=? id) || negb (tlb_used t id) || negb (bool_decide (tlb_owner t id = Some FileObject)).

Definition TtIoctlFreeTlb (FileObject Request : Z) : M NTSTATUS :=
  c ← TtCopyInBuffer Request (c_sizeof tenstorrent_free_tlb_in);
  if negb (NT_SUCCESS c.1) then mret c.1
  else
    let id := sget tenstorrent_free_tlb_in "id" c.2 in
    if TENSTORRENT_MAX_INBOUND_TLBS <=? id then mret STATUS_INVALID_PARAMETER
    else
      acquire (FileLock FileObject);;
      acquire TlbLock;;
      t ← gets w_tlb;
      fileContext ← TtGetFileContext FileObject;
      status ←
        (if tlb_not_owned t id FileObject then mret STATUS_ACCESS_DENIED
         else if existsb (λ m, um_TlbId m =? id) (Mappings fileContext)
         then mret STATUS_DEVICE_BUSY
         else upd_tlb id false None;; mret STATUS_SUCCESS);
      release TlbLock;;
      release (FileLock FileObject);;
      mret status.

Definition TtIoctlConfigureTlb (FileObject Request : Z) : M NTSTATUS :=
  c ← TtCopyInBuffer Request (c_sizeof tenstorrent_configure_tlb_in);
  if negb (NT_SUCCESS c.1) then mret c.1
  else
    let id := sget tenstorrent_configure_tlb_in "id" c.2 in
    let config := bytes_at (c_offsetof tenstorrent_configure_tlb_in "config")
                           (c_fieldsize tenstorrent_configure_tlb_in "config") c.2 in
    if TENSTORRENT_MAX_INBOUND_TLBS <=? id then mret STATUS_INVALID_PARAMETER
    else
      acquire TlbLock;;
      t ← gets w_tlb;
      if tlb_not_owned t id FileObject then
        release TlbLock;;
        mret STATUS_ACCESS_DENIED
      else
        release TlbLock;;
        status ← TtBhConfigureUserTlb id (decode_config config);
        if negb (NT_SUCCESS status) then mret status
        else
          TtCompleteSizedOutBuffer Request (c_offsetof tenstorrent_configure_tlb "out")
            (szero tenstorrent_configure_tlb_out)
            (c_sizeof tenstorrent_configure_tlb_out) (c_sizeof tenstorrent_configure_tlb_out).
End tlb.

(** ** Footprints *)
Section frames.
Context {P : Platform}.

Lemma upd_tlb_frame i u o : Steps (Frame [CTlb]) (upd_tlb i u o).
Proof. unfold upd_tlb. frame_walk. Qed.
#[local] Hint Resolve upd_tlb_frame : frames.
Lemma tlb_claim_frame f s c : Steps (Frame [CTlb]) (tlb_claim f s c).
Proof. unfold tlb_claim. frame_walk. Qed.
#[local] Hint Resolve tlb_claim_frame : frames.
Lemma TtIoctlAllocateTlb_frame f r : Steps (Frame [COs; CTrace; CTlb; CReqs]) (TtIoctlAllocateTlb f r).
Proof. unfold TtIoctlAllocateTlb. frame_walk. Qed.
#[local] Hint Resolve TtIoctlAllocateTlb_frame : frames.
Lemma TtIoctlFreeTlb_frame f r : Steps (Frame [COs; CTrace; CTlb]) (TtIoctlFreeTlb f r).
Proof. unfold TtIoctlFreeTlb. frame_walk. Qed.
#[local] Hint Resolve TtIoctlFreeTlb_frame : frames.
Lemma TtIoctlConfigureTlb_frame f r : Steps (Frame [COs; CTrace; CReqs]) (TtIoctlConfigureTlb f r).
Proof. unfold TtIoctlConfigureTlb. frame_walk. Qed.
#[local] Hint Resolve TtIoctlConfigureTlb_frame : frames.
End frames.
#[export] Hint Resolve upd_tlb_frame tlb_claim_frame TtIoctlAllocateTlb_frame TtIoctlFreeTlb_frame
  TtIoctlConfigureTlb_frame : frames.

(** ** Events *)
Section events.
Context {P : Platform}.

Lemma upd_tlb_emits i u o : Steps (Emits []) (upd_tlb i u o).
Proof. unfold upd_tlb. emits_walk. Qed.
#[local] Hint Resolve upd_tlb_emits : emits.
Lemma tlb_claim_emits f s c : Steps (Emits []) (tlb_claim f s c).
Proof. unfold tlb_claim. emits_walk. Qed.
#[local] Hint Resolve tlb_claim_emits : emits.
Lemma TtIoctlAllocateTlb_emits f r : Steps (Emits [KSync]) (TtIoctlAllocateTlb f r).
Proof. unfold TtIoctlAllocateTlb. emits_walk. Qed.
#[local] Hint Resolve TtIoctlAllocateTlb_emits : emits.
Lemma TtIoctlFreeTlb_emits f r : Steps (Emits [KSync]) (TtIoctlFreeTlb f r).
Proof. unfold TtIoctlFreeTlb. emits_walk. Qed.
#[local] Hint Resolve TtIoctlFreeTlb_emits : emits.
Lemma TtIoctlConfigureTlb_emits f r : Steps (Emits [KSync; KHw]) (TtIoctlConfigureTlb f r).
Proof. unfold TtIoctlConfigureTlb. emits_walk. Qed.
#[local] Hint Resolve TtIoctlConfigureTlb_emits : emits.
End events.
#[export] Hint Resolve upd_tlb_emits tlb_claim_emits TtIoctlAllocateTlb_emits TtIoctlFreeTlb_emits
  TtIoctlConfigureTlb_emits : emits.
