(* ===== verification/Memory.v ===== *)
(** * DMA buffers, user mappings, pinnings and handle cleanup (src/driver/memory.c) *)
From S2P Require Import Prelude Platform Frame Trace Abi PciConfig Blackhole Iatu Tlb.

(** ** Address arithmetic *)
Definition BYTES_TO_PAGES (n : Z) : Z :=
  Z.shiftr n PAGE_SHIFT + (if Z.land n (PAGE_SIZE - 1) =? 0 then 0 else 1).

(** The PFN array that TtBuildPhysicalMdl fills. *)
Definition physical_pfns (Physical Length : Z) : list Z :=
  let pageCount := wrap32 (BYTES_TO_PAGES Length) in
  let basePfn := wrap64 (Z.shiftr (signed64 Physical) PAGE_SHIFT) in
  (λ i, wrap64 (basePfn + i)) <$> zrange (Z.to_nat pageCount).

(** [for (i = 1; i < pageCount; i++) if (pfns[i] != pfns[i-1] + 1) ...] *)
Definition pfn_at (pfns : list Z) (i : Z) : Z := default 0 (pfns !! Z.to_nat i).
Definition pfns_contiguous (pfns : list Z) (pageCount : Z) : bool :=
  forallb (λ i, pfn_at pfns (i + 1) =? wrap64 (pfn_at pfns i + 1))
          (zrange (Z.to_nat (pageCount - 1))).

(** [regionToBar] *)
Definition regionToBar (region : Z) : Z := default 0 ([0; 0; 2; 2; 4; 4] !! Z.to_nat region).

Definition bar_len (b : BarState) (bar : Z) : Z := default 0 (BarLength b !! Z.to_nat bar).
Definition bar_base (b : BarState) (bar : Z) : Z := default 0 (BarBase b !! Z.to_nat bar).

(** What TtResolveMapTarget finds. *)
Record MapTarget := mkTarget {
  mt_Physical : Z;
  mt_CacheType : MEMORY_CACHING_TYPE;
  mt_TlbId : Z;
  mt_DmaBuf : option Z
}.

(** BAR, BAR offset and id of a TLB token; [None] is the alignment error. *)
Definition tlb_token_decode (encoded Length : Z) : option (Z * Z * Z) :=
  if encoded <? Z.shiftl 1 29 then
    if negb (encoded mod TT_BH_KERNEL_TLB_LEN =? 0) || (TT_BH_KERNEL_TLB_LEN <? Length) then None
    else Some (0, encoded, wrap32 (encoded / TT_BH_KERNEL_TLB_LEN))
  else
    let barOffset := encoded - Z.shiftl 1 29 in
    if negb (barOffset mod Z.shiftl 1 32 =? 0) || (Z.shiftl 1 32 <? Length) then None
    else Some (4, barOffset, wrap32 (TT_TLB_2M_COUNT + wrap32 (Z.shiftr barOffset 32))).

(** The view of a handle's own DMA buffer that contains [Va, Va + Size). *)
Definition view_contains (Va Size : Z) (m : TT_USER_MAPPING) : bool :=
  let start := default 0 (um_UserVa m) in
  (start <=? Va) && (Size <=? um_Length m) && (Va - start <=? um_Length m - Size).
Fixpoint TtFindDmaBufView (Va Size : Z) (maps : list TT_USER_MAPPING) : option (Z * Z) :=
  match maps with
  | [] => None
  | m :: r =>
      match um_DmaBuf m with
      | Some p =>
          if um_IsDmaBuf m && view_contains Va Size m
          then Some (p, Va - default 0 (um_UserVa m))
          else TtFindDmaBufView Va Size r
      | None => TtFindDmaBufView Va Size r
      end
  end.

Definition validPinFlags : Z :=
  Z.lor (Z.lor TENSTORRENT_PIN_PAGES_CONTIGUOUS TENSTORRENT_PIN_PAGES_NOC_DMA)
        (Z.lor TENSTORRENT_PIN_PAGES_NOC_TOP_DOWN TENSTORRENT_PIN_PAGES_READ_ONLY).

Section memory.
Context {P : Platform}.

(** ** File-context memory state *)
Definition TtFileContextInitMemory (FileObject : Z) (lockCreate : NTSTATUS) : M NTSTATUS :=
  upd_file FileObject (λ c,
    c <| Mappings := [] |> <| Pinnings := [] |> <| DmaBufs := ∅ |>
      <| fc_Lock := NT_SUCCESS lockCreate |>);;
  mret lockCreate.

(** ** DMA accounting (DD-17) *)
Definition interlocked_add (d : Z) : M Z :=
  modify (λ w, w <| w_dma := w_dma w <| DmaBufBytes := signed64 (DmaBufBytes (w_dma w) + d) |> |>);;
  gets (DmaBufBytes ∘ w_dma).

Definition TtDmaAccountReserve (Bytes : Z) : M bool :=
  total ← interlocked_add Bytes;
  limit ← gets (DmaBufLimitBytes ∘ w_dma);
  if negb (limit =? 0) && (limit <? wrap64 total)
  then interlocked_add (- Bytes);; mret false
  else mret true.

Definition TtDmaAccountRelease (Bytes : Z) : M () := interlocked_add (- Bytes);; mret tt.

Definition WdfObjectDelete (b : Z) : M () := emit (EvPut (RsCommonBuffer b)).

Definition dmabuf_zero : TT_DMABUF := mkDmaBuf 0 0 0 0 (-1).
Definition dmabuf_at (p : Z) (w : World) : TT_DMABUF := default dmabuf_zero (w_dmabufs w !! p).
Definition free_dmabuf_block (p : Z) : M () :=
  pool_free p;; modify (λ w, w <| w_dmabufs := delete p (w_dmabufs w) |>).

Definition TtDmaBufDestroy (DmaBuf : Z) : M () :=
  d ← gets (dmabuf_at DmaBuf);
  TtTeardownNocDma (db_IatuRegion d);;
  WdfObjectDelete (db_Buffer d);;
  TtDmaAccountRelease (db_Size d);;
  free_dmabuf_block DmaBuf.

(** ** ALLOCATE_DMA_BUF *)
Definition set_dma_slot (f index : Z) (o : option Z) : M () :=
  upd_file f (λ c, c <| DmaBufs := match o with
                                   | Some p => <[index := p]> (DmaBufs c)
                                   | None => delete index (DmaBufs c)
                                   end |>).

(** The [fail:] label (followed by [unlock:]). *)
Definition dma_alloc_fail (f size : Z) (dmabuf : option Z) (iatuRegion : Z) (buffer : option Z)
    (status : NTSTATUS) : M NTSTATUS :=
  (match dmabuf with Some p => free_dmabuf_block p | None => mret tt end);;
  TtTeardownNocDma iatuRegion;;
  (match buffer with Some b => WdfObjectDelete b | None => mret tt end);;
  TtDmaAccountRelease size;;
  release (FileLock f);;
  mret status.

Definition dma_out (logical index size nocAddress : Z) : list Z :=
  let T := tenstorrent_allocate_dma_buf_out in
  sput T "noc_address" nocAddress
    (sput T "size" size
      (sput T "mapping_offset" (wrap64 (TT_MMAP_OFFSET_DMA_BUF + index * TT_MMAP_SIZE_DMA_BUF))
        (sput T "physical_address" logical (szero T)))).

(** From the allocation of the TT_DMABUF on. *)
Definition dma_alloc_finish (f Request size index buffer logical nocAddress iatuRegion : Z)
    : M NTSTATUS :=
  o ← pool_alloc TT_TAG_DMABUF;
  match o with
  | None => dma_alloc_fail f size None iatuRegion (Some buffer) STATUS_INSUFFICIENT_RESOURCES
  | Some p =>
      modify (λ w, w <| w_dmabufs := <[p := mkDmaBuf buffer size index logical iatuRegion]> (w_dmabufs w) |>);;
      status ← TtCompleteSizedOutBuffer Request (c_offsetof tenstorrent_allocate_dma_buf "out")
                 (dma_out logical index size nocAddress)
                 (c_sizeof tenstorrent_allocate_dma_buf_out)
                 (c_sizeof tenstorrent_allocate_dma_buf_out);
      if negb (NT_SUCCESS status)
      then dma_alloc_fail f size (Some p) iatuRegion (Some buffer) status
      else
        set_dma_slot f index (Some p);;
        release (FileLock f);;
        mret STATUS_SUCCESS
  end.

(** From the creation of the common buffer on (the reservation is made). *)
Definition dma_alloc_buffer (f Request size index flags : Z) : M NTSTATUS :=
  ob ← call (WdfCommonBufferCreate size) (got RsCommonBuffer);
  match ob with
  | None => dma_alloc_fail f size None (-1) None STATUS_INSUFFICIENT_RESOURCES
  | Some buffer =>
      logical ← gets (λ w, wrap64 (WdfCommonBufferGetAlignedLogicalAddress buffer (w_os w)));
      emit (EvZero buffer size);;
      if TT_BH_NOC_DMA_LIMIT <? wrap64 (logical + size - 1)
      then dma_alloc_fail f size None (-1) (Some buffer) STATUS_INSUFFICIENT_RESOURCES
      else if has_bits flags TENSTORRENT_ALLOCATE_DMA_BUF_NOC_DMA then
        r ← TtSetupNocDma f true size logical;
        let '(status, nocAddress, iatuRegion) := r in
        if negb (NT_SUCCESS status)
        then dma_alloc_fail f size None iatuRegion (Some buffer) status
        else dma_alloc_finish f Request size index buffer logical nocAddress iatuRegion
      else dma_alloc_finish f Request size index buffer logical 0 (-1)
  end.

Definition TtIoctlAllocateDmaBuf (FileObject Request : Z) : M NTSTATUS :=
  c ← TtCopyInBuffer Request (c_sizeof tenstorrent_allocate_dma_buf_in);
  if negb (NT_SUCCESS c.1) then mret c.1
  else
    let size := sget tenstorrent_allocate_dma_buf_in "requested_size" c.2 in
    let index := sget tenstorrent_allocate_dma_buf_in "buf_index" c.2 in
    let flags := sget tenstorrent_allocate_dma_buf_in "flags" c.2 in
    enabled ← gets (DmaEnabler ∘ w_dma);
    if negb enabled then mret STATUS_INVALID_PARAMETER
    else if TENSTORRENT_MAX_DMA_BUFS <=? index then mret STATUS_INVALID_PARAMETER
    else if (size =? 0) || negb (size mod PAGE_SIZE =? 0) || (TT_MAX_DMA_BUF_SIZE <? size)
    then mret STATUS_INVALID_PARAMETER
    else
      acquire (FileLock FileObject);;
      fileContext ← TtGetFileContext FileObject;
      match DmaBufs fileContext !! index with
      | Some _ => release (FileLock FileObject);; mret STATUS_INVALID_PARAMETER
      | None =>
          ok ← TtDmaAccountReserve size;
          if negb ok then release (FileLock FileObject);; mret STATUS_QUOTA_EXCEEDED
          else dma_alloc_buffer FileObject Request size index flags
      end.

(** ** FREE_DMA_BUF_EX (DD-16) *)
Definition maps_buffer (p : Z) (m : TT_USER_MAPPING) : bool := bool_decide (um_DmaBuf m = Some p).
Definition pins_buffer (p : Z) (n : TT_PINNING) : bool := bool_decide (pn_BackingDmaBuf n = Some p).

Definition TtIoctlFreeDmaBufEx (FileObject Request : Z) : M NTSTATUS :=
  c ← TtCopyInBuffer Request (c_sizeof tenstorrent_free_dma_buf_ex_in);
  if negb (NT_SUCCESS c.1) then mret c.1
  else
    let index := sget tenstorrent_free_dma_buf_ex_in "buf_index" c.2 in
    if negb (sget tenstorrent_free_dma_buf_ex_in "reserved" c.2 =? 0)
       || (TENSTORRENT_MAX_DMA_BUFS <=? index)
    then mret STATUS_INVALID_PARAMETER
    else
      acquire (FileLock FileObject);;
      fileContext ← TtGetFileContext FileObject;
      status ←
        match DmaBufs fileContext !! index with
        | None => mret STATUS_INVALID_PARAMETER
        | Some dmabuf =>
            if existsb (maps_buffer dmabuf) (Mappings fileContext) then mret STATUS_DEVICE_BUSY
            else if existsb (pins_buffer dmabuf) (Pinnings fileContext) then mret STATUS_DEVICE_BUSY
            else
              set_dma_slot FileObject index None;;
              TtDmaBufDestroy dmabuf;;
              mret STATUS_SUCCESS
        end;
      release (FileLock FileObject);;
      mret status.

(** ** MAP / UNMAP *)
Definition resolve_dma (f MmapOffset Length : Z) : M (NTSTATUS * MapTarget) :=
  let bad := (STATUS_INVALID_PARAMETER, mkTarget 0 MmNonCached (-1) None) in
  let rel := MmapOffset - TT_MMAP_OFFSET_DMA_BUF in
  let index := rel / TT_MMAP_SIZE_DMA_BUF in
  if negb (rel mod TT_MMAP_SIZE_DMA_BUF =? 0) || (TENSTORRENT_MAX_DMA_BUFS <=? index)
  then mret bad
  else
    fileContext ← TtGetFileContext f;
    match DmaBufs fileContext !! index with
    | None => mret bad
    | Some p =>
        d ← gets (dmabuf_at p);
        if db_Size d <? Length then mret bad
        else
          phys ← gets (λ w, CommonBufferPhysicalAddress (db_Buffer d) (w_os w));
          mret (STATUS_SUCCESS, mkTarget phys MmCached (-1) (Some p))
    end.

Definition resolve_bar (b : BarState) (MmapOffset Length : Z) : NTSTATUS * MapTarget :=
  let region := MmapOffset / TT_MMAP_RESOURCE_SIZE in
  let offset := MmapOffset mod TT_MMAP_RESOURCE_SIZE in
  let bar := regionToBar region in
  if (bar_len b bar =? 0) || (bar_len b bar <=? offset) || (bar_len b bar - offset <? Length)
  then (STATUS_INVALID_PARAMETER, mkTarget 0 MmNonCached (-1) None)
  else (STATUS_SUCCESS,
        mkTarget (bar_base b bar + offset)
                 (if has_bits region 1 then MmWriteCombined else MmNonCached) (-1) None).

Definition resolve_tlb (f MmapOffset Length : Z) : M (NTSTATUS * MapTarget) :=
  let bad s := (s, mkTarget 0 MmNonCached (-1) None) in
  let wc := TT_MMAP_OFFSET_TLB_WC <=? MmapOffset in
  let encoded := MmapOffset - (if wc then TT_MMAP_OFFSET_TLB_WC else TT_MMAP_OFFSET_TLB_UC) in
  match tlb_token_decode encoded Length with
  | None => mret (bad STATUS_INVALID_PARAMETER)
  | Some (bar, barOffset, id) =>
      b ← gets w_bars;
      if (TT_TLB_TOTAL <=? id) || (bar_len b bar =? 0)
         || (bar_len b bar <? wrap64 (barOffset + Length))
      then mret (bad STATUS_INVALID_PARAMETER)
      else
        acquire TlbLock;;
        t ← gets w_tlb;
        release TlbLock;;
        if negb (tlb_used t id) || negb (bool_decide (tlb_owner t id = Some f))
        then mret (bad STATUS_ACCESS_DENIED)
        else mret (STATUS_SUCCESS,
                   mkTarget (bar_base b bar + barOffset)
                            (if wc then MmWriteCombined else MmNonCached) id None)
  end.

Definition TtResolveMapTarget (f MmapOffset Length : Z) : M (NTSTATUS * MapTarget) :=
  if TT_MMAP_OFFSET_DMA_BUF <=? MmapOffset then resolve_dma f MmapOffset Length
  else if MmapOffset <? 6 * TT_MMAP_RESOURCE_SIZE then
    b ← gets w_bars; mret (resolve_bar b MmapOffset Length)
  else if MmapOffset <? 8 * TT_MMAP_RESOURCE_SIZE then resolve_tlb f MmapOffset Length
  else mret (STATUS_INVALID_PARAMETER, mkTarget 0 MmNonCached (-1) None).

Definition TtBuildPhysicalMdl (Physical Length : Z) : M (option MDL) :=
  o ← call (IoAllocateMdl 0 (wrap32 Length)) (got RsMdl);
  match o with
  | None => mret None
  | Some h => mret (Some (mkMdl h (physical_pfns Physical Length)))
  end.

Definition TtDestroyUserMapping (Mapping : TT_USER_MAPPING) : M () :=
  (match um_UserVa Mapping, um_Mdl Mapping with
   | Some va, Some mdl =>
       current ← gets w_process;
       match um_Process Mapping with
       | Some p =>
           if p =? current then emit (EvPut (RsView va (mdl_Handle mdl)))
           else emit (EvAttach p);; emit (EvPut (RsView va (mdl_Handle mdl)));; emit EvDetach
       | None => emit (EvPut (RsView va (mdl_Handle mdl)))
       end
   | _, _ => mret tt
   end);;
  (match um_Mdl Mapping with Some mdl => emit (EvPut (RsMdl (mdl_Handle mdl))) | None => mret tt end);;
  (match um_Process Mapping with Some p => emit (EvPut (RsProcess p)) | None => mret tt end);;
  pool_free (um_Block Mapping).

(** [fail:] of TtIoctlMap. *)
Definition map_fail (f : Z) (mapping : TT_USER_MAPPING) (status : NTSTATUS) : M NTSTATUS :=
  TtDestroyUserMapping mapping;;
  release (FileLock f);;
  mret status.

Definition map_out (va : Z) : list Z :=
  sput tenstorrent_map_out "user_va" va (szero tenstorrent_map_out).

(** From the building of the MDL on. *)
Definition map_view (f Request : Z) (t : MapTarget) (mapping : TT_USER_MAPPING) : M NTSTATUS :=
  mdl ← TtBuildPhysicalMdl (mt_Physical t) (um_Length mapping);
  match mdl with
  | None => map_fail f mapping STATUS_INSUFFICIENT_RESOURCES
  | Some m =>
      let mapping := mapping <| um_Mdl := Some m |> in
      emit (EvMapPages (mt_CacheType t) (mdl_Pfns m));;
      va ← call (MmMapLockedPagesSpecifyCache m (mt_CacheType t))
             (got (λ va, RsView va (mdl_Handle m)));
      match va with
      | None => map_fail f mapping STATUS_INSUFFICIENT_RESOURCES
      | Some va =>
          let mapping := mapping <| um_UserVa := Some va |> in
          status ← TtCompleteSizedOutBuffer Request (c_offsetof tenstorrent_map "out")
                     (map_out (wrap64 va)) (c_sizeof tenstorrent_map_out)
                     (c_sizeof tenstorrent_map_out);
          if negb (NT_SUCCESS status) then map_fail f mapping status
          else
            upd_file f (λ c, c <| Mappings := Mappings c ++ [mapping] |>);;
            release (FileLock f);;
            mret STATUS_SUCCESS
      end
  end.

Definition TtIoctlMap (FileObject Request : Z) : M NTSTATUS :=
  c ← TtCopyInBuffer Request (c_sizeof tenstorrent_map_in);
  if negb (NT_SUCCESS c.1) then mret c.1
  else
    let offset := sget tenstorrent_map_in "mmap_offset" c.2 in
    let length := sget tenstorrent_map_in "length" c.2 in
    if (length =? 0) || negb (length mod PAGE_SIZE =? 0) || negb (offset mod PAGE_SIZE =? 0)
       || (MAXULONG <? length)
    then mret STATUS_INVALID_PARAMETER
    else
      acquire (FileLock FileObject);;
      r ← TtResolveMapTarget FileObject offset length;
      if negb (NT_SUCCESS r.1) then release (FileLock FileObject);; mret r.1
      else
        o ← pool_alloc TT_TAG_MAPPING;
        match o with
        | None => release (FileLock FileObject);; mret STATUS_INSUFFICIENT_RESOURCES
        | Some block =>
            process ← gets w_process;
            emit (EvGet (RsProcess process));;
            map_view FileObject Request r.2
              (mkMapping block None None length (mt_TlbId r.2)
                 (TT_MMAP_OFFSET_DMA_BUF <=? offset) (mt_DmaBuf r.2) (Some process))
        end.

Definition TtIoctlUnmap (FileObject Request : Z) : M NTSTATUS :=
  c ← TtCopyInBuffer Request (c_sizeof tenstorrent_unmap_in);
  if negb (NT_SUCCESS c.1) then mret c.1
  else if negb (sget tenstorrent_unmap_in "reserved" c.2 =? 0) then mret STATUS_INVALID_PARAMETER
  else
    let va := sget tenstorrent_unmap_in "user_va" c.2 in
    acquire (FileLock FileObject);;
    fileContext ← TtGetFileContext FileObject;
    found ←
      match remove_first (λ m, default 0 (um_UserVa m) =? va) (Mappings fileContext) with
      | Some (m, rest) =>
          upd_file FileObject (λ c, c <| Mappings := rest |>);; mret (Some m)
      | None => mret None
      end;
    release (FileLock FileObject);;
    match found with
    | None => mret STATUS_INVALID_PARAMETER
    | Some m => TtDestroyUserMapping m;; mret STATUS_SUCCESS
    end.

(** ** PIN_PAGES / UNPIN_PAGES *)

(** [fail:] of TtIoctlPinPages; [locked] says that the pages are locked. *)
Definition pin_fail (f : Z) (pinning : TT_PINNING) (locked : bool) (iatuRegion : Z)
    (status : NTSTATUS) : M NTSTATUS :=
  TtTeardownNocDma iatuRegion;;
  (match pn_Mdl pinning with
   | Some mdl =>
       when locked (emit (EvPut (RsLockedPages (mdl_Handle mdl))));;
       emit (EvPut (RsMdl (mdl_Handle mdl)))
   | None => mret tt
   end);;
  pool_free (pn_Block pinning);;
  release (FileLock f);;
  mret status.

Definition pin_out (physical noc : Z) : list Z :=
  let T := tenstorrent_pin_pages_out_extended in
  sput T "noc_address" noc (sput T "physical_address" physical (szero T)).

(** The NOC aperture (when asked for), the output, the list insertion. *)
Definition pin_finish (f Request flags outputSize physical : Z) (locked : bool)
    (pinning : TT_PINNING) : M NTSTATUS :=
  r ← (if has_bits flags (Z.lor TENSTORRENT_PIN_PAGES_NOC_DMA TENSTORRENT_PIN_PAGES_NOC_TOP_DOWN)
       then TtSetupNocDma f (has_bits flags TENSTORRENT_PIN_PAGES_NOC_TOP_DOWN)
              (pn_Size pinning) physical
       else mret (STATUS_SUCCESS, 0, -1));
  let '(status, nocAddress, iatuRegion) := r in
  if negb (NT_SUCCESS status) then pin_fail f pinning locked iatuRegion status
  else
    let pinning := pinning <| pn_IatuRegion := iatuRegion |> in
    status ← TtCompleteSizedOutBuffer Request (c_offsetof tenstorrent_pin_pages "out")
               (pin_out physical nocAddress) (c_sizeof tenstorrent_pin_pages_out_extended)
               outputSize;
    if negb (NT_SUCCESS status) then pin_fail f pinning locked iatuRegion status
    else
      upd_file f (λ c, c <| Pinnings := Pinnings c ++ [pinning] |>);;
      release (FileLock f);;
      mret STATUS_SUCCESS.

(** The direct path: lock the user's pages and require contiguity. *)
Definition pin_direct (f Request flags outputSize : Z) (pinning : TT_PINNING) : M NTSTATUS :=
  o ← call (IoAllocateMdl (pn_VirtualAddress pinning) (wrap32 (pn_Size pinning))) (got RsMdl);
  match o with
  | None => pin_fail f pinning false (-1) STATUS_INSUFFICIENT_RESOURCES
  | Some h =>
      pages ← call (MmProbeAndLockPages (pn_VirtualAddress pinning) (pn_Size pinning))
                (λ o, match o with Some _ => [EvGet (RsLockedPages h)] | None => [] end);
      match pages with
      | None => pin_fail f (pinning <| pn_Mdl := Some (mkMdl h []) |>) false (-1)
                  STATUS_ACCESS_VIOLATION
      | Some pfns =>
          let pinning := pinning <| pn_Mdl := Some (mkMdl h pfns) |> in
          let pageCount := wrap32 (pn_Size pinning / PAGE_SIZE) in
          if negb (pfns_contiguous pfns pageCount)
          then pin_fail f pinning true (-1) STATUS_INVALID_PARAMETER
          else pin_finish f Request flags outputSize (wrap64 (pfn_at pfns 0 * PAGE_SIZE)) true pinning
      end
  end.

Definition TtIoctlPinPages (FileObject Request : Z) : M NTSTATUS :=
  c ← TtCopyInBuffer Request (c_sizeof tenstorrent_pin_pages_in);
  if negb (NT_SUCCESS c.1) then mret c.1
  else
    let flags := sget tenstorrent_pin_pages_in "flags" c.2 in
    let va := sget tenstorrent_pin_pages_in "virtual_address" c.2 in
    let size := sget tenstorrent_pin_pages_in "size" c.2 in
    let outputSize := sget tenstorrent_pin_pages_in "output_size_bytes" c.2 in
    if has_bits flags (wrap32 (Z.lnot validPinFlags)) then mret STATUS_INVALID_PARAMETER
    else if negb (va mod PAGE_SIZE =? 0) || negb (size mod PAGE_SIZE =? 0) || (size =? 0)
            || (MAXULONG <? size)
    then mret STATUS_INVALID_PARAMETER
    else if has_bits flags TENSTORRENT_PIN_PAGES_READ_ONLY then mret STATUS_NOT_SUPPORTED
    else
      acquire (FileLock FileObject);;
      fileContext ← TtGetFileContext FileObject;
      if existsb (λ p, (pn_VirtualAddress p =? va) && (pn_Size p =? size)) (Pinnings fileContext)
      then release (FileLock FileObject);; mret STATUS_OBJECT_NAME_COLLISION
      else
        let backing := TtFindDmaBufView va size (Mappings fileContext) in
        dma ← gets w_dma;
        if bool_decide (backing = None)
           && (negb (DmaIdentityKnown dma) || negb (DmaIdentityMapped dma))
        then release (FileLock FileObject);; mret STATUS_NOT_SUPPORTED
        else
          o ← pool_alloc TT_TAG_PINNING;
          match o with
          | None => release (FileLock FileObject);; mret STATUS_INSUFFICIENT_RESOURCES
          | Some block =>
              match backing with
              | Some (p, backingOffset) =>
                  d ← gets (dmabuf_at p);
                  pin_finish FileObject Request flags outputSize
                    (wrap64 (db_Logical d + backingOffset)) false
                    (mkPinning block va size None (Some p) (-1))
              | None =>
                  pin_direct FileObject Request flags outputSize
                    (mkPinning block va size None None (-1))
              end
          end.

Definition TtDestroyPinning (Pinning : TT_PINNING) : M () :=
  TtTeardownNocDma (pn_IatuRegion Pinning);;
  (match pn_Mdl Pinning with
   | Some mdl =>
       emit (EvPut (RsLockedPages (mdl_Handle mdl)));;
       emit (EvPut (RsMdl (mdl_Handle mdl)))
   | None => mret tt
   end);;
  pool_free (pn_Block Pinning).

(** The search of UNPIN_PAGES: the first pinning at [va], when its size matches. *)
Definition unpin_search (va size : Z) (l : list TT_PINNING) : option (TT_PINNING * list TT_PINNING) :=
  match remove_first (λ p, pn_VirtualAddress p =? va) l with
  | Some (p, rest) => if negb (pn_Size p =? size) then None else Some (p, rest)
  | None => None
  end.

Definition TtIoctlUnpinPages (FileObject Request : Z) : M NTSTATUS :=
  c ← TtCopyInBuffer Request (c_sizeof tenstorrent_unpin_pages_in);
  if negb (NT_SUCCESS c.1) then mret c.1
  else
    let va := sget tenstorrent_unpin_pages_in "virtual_address" c.2 in
    let size := sget tenstorrent_unpin_pages_in "size" c.2 in
    if negb (sget tenstorrent_unpin_pages_in "reserved" c.2 =? 0) || (size =? 0)
       || (size / PAGE_SIZE =? 0)
    then mret STATUS_INVALID_PARAMETER
    else
      acquire (FileLock FileObject);;
      fileContext ← TtGetFileContext FileObject;
      found ←
        match unpin_search va size (Pinnings fileContext) with
        | Some (p, rest) =>
            upd_file FileObject (λ c, c <| Pinnings := rest |>);; mret (Some p)
        | None => mret None
        end;
      release (FileLock FileObject);;
      match found with
      | None => mret STATUS_INVALID_PARAMETER
      | Some p => TtDestroyPinning p;; mret STATUS_SUCCESS
      end.

(** ** Process exit and handle cleanup

    [while (!IsListEmpty(&l)) { e = RemoveHeadList(&l); destroy(e); }] *)
Fixpoint drain_mappings (f : Z) (l : list TT_USER_MAPPING) : M () :=
  match l with
  | [] => mret tt
  | m :: r =>
      upd_file f (λ c, c <| Mappings := r |>);;
      TtDestroyUserMapping m;;
      drain_mappings f r
  end.

Fixpoint drain_pinnings (f : Z) (l : list TT_PINNING) : M () :=
  match l with
  | [] => mret tt
  | p :: r =>
      upd_file f (λ c, c <| Pinnings := r |>);;
      TtDestroyPinning p;;
      drain_pinnings f r
  end.

Definition TtMemoryProcessExit (FileObject : Z) : M () :=
  fileContext ← TtGetFileContext FileObject;
  if negb (fc_Lock fileContext) then mret tt
  else
    acquire (FileLock FileObject);;
    drain_mappings FileObject (Mappings fileContext);;
    drain_pinnings FileObject (Pinnings fileContext);;
    release (FileLock FileObject).

Definition free_dma_slot (f i : Z) : M () :=
  c ← TtGetFileContext f;
  match DmaBufs c !! i with
  | Some p => set_dma_slot f i None;; TtDmaBufDestroy p
  | None => mret tt
  end.

Definition free_tlb_of (f i : Z) : M () :=
  t ← gets w_tlb;
  when (bool_decide (tlb_owner t i = Some f)) (upd_tlb i false None).

Definition TtMemoryFileCleanup (FileObject : Z) : M () :=
  fileContext ← TtGetFileContext FileObject;
  if negb (fc_Lock fileContext) then mret tt
  else
    acquire (FileLock FileObject);;
    drain_mappings FileObject (Mappings fileContext);;
    drain_pinnings FileObject (Pinnings fileContext);;
    for_each (zrange (Z.to_nat TENSTORRENT_MAX_DMA_BUFS)) (free_dma_slot FileObject);;
    release (FileLock FileObject);;
    acquire TlbLock;;
    for_each (zrange (Z.to_nat TT_TLB_TOTAL)) (free_tlb_of FileObject);;
    release TlbLock.
End memory.

(** ** Footprints *)
Section frames.
Context {P : Platform}.

Lemma TtFileContextInitMemory_frame f l : Steps (Frame [FMappings; FPinnings; FDmaBufs; FLock]) (TtFileContextInitMemory f l).
Proof. unfold TtFileContextInitMemory. frame_walk. Qed.
#[local] Hint Resolve TtFileContextInitMemory_frame : frames.
Lemma interlocked_add_frame d : Steps (Frame [CDma]) (interlocked_add d).
Proof. unfold interlocked_add. frame_walk. Qed.
#[local] Hint Resolve interlocked_add_frame : frames.
Lemma TtDmaAccountReserve_frame n : Steps (Frame [CDma]) (TtDmaAccountReserve n).
Proof. unfold TtDmaAccountReserve. frame_walk. Qed.
#[local] Hint Resolve TtDmaAccountReserve_frame : frames.
Lemma TtDmaAccountRelease_frame n : Steps (Frame [CDma]) (TtDmaAccountRelease n).
Proof. unfold TtDmaAccountRelease. frame_walk. Qed.
#[local] Hint Resolve TtDmaAccountRelease_frame : frames.
Lemma WdfObjectDelete_frame b : Steps (Frame [COs; CTrace]) (WdfObjectDelete b).
Proof. unfold WdfObjectDelete. frame_walk. Qed.
#[local] Hint Resolve WdfObjectDelete_frame : frames.
Lemma free_dmabuf_block_frame p : Steps (Frame [COs; CTrace; CDmaBufs]) (free_dmabuf_block p).
Proof. unfold free_dmabuf_block. frame_walk. Qed.
#[local] Hint Resolve free_dmabuf_block_frame : frames.
Lemma TtDmaBufDestroy_frame p : Steps (Frame [COs; CTrace; CIatu; CDma; CDmaBufs]) (TtDmaBufDestroy p).
Proof. unfold TtDmaBufDestroy. frame_walk. Qed.
#[local] Hint Resolve TtDmaBufDestroy_frame : frames.
Lemma set_dma_slot_frame f i o : Steps (Frame [FDmaBufs]) (set_dma_slot f i o).
Proof. unfold set_dma_slot. frame_walk. Qed.
#[local] Hint Resolve set_dma_slot_frame : frames.
Lemma dma_alloc_fail_frame f n p r b s : Steps (Frame [COs; CTrace; CIatu; CDma; CDmaBufs]) (dma_alloc_fail f n p r b s).
Proof. unfold dma_alloc_fail. frame_walk. Qed.
#[local] Hint Resolve dma_alloc_fail_frame : frames.
Lemma dma_alloc_finish_frame f r n i b l a t : Steps (Frame [COs; CTrace; CIatu; CDma; CDmaBufs; CReqs; FDmaBufs]) (dma_alloc_finish f r n i b l a t).
Proof. unfold dma_alloc_finish. frame_walk. Qed.
#[local] Hint Resolve dma_alloc_finish_frame : frames.
Lemma dma_alloc_buffer_frame f r n i g : Steps (Frame [COs; CTrace; CIatu; CDma; CDmaBufs; CReqs; FDmaBufs]) (dma_alloc_buffer f r n i g).
Proof. unfold dma_alloc_buffer. frame_walk. Qed.
#[local] Hint Resolve dma_alloc_buffer_frame : frames.
Lemma TtIoctlAllocateDmaBuf_frame f r : Steps (Frame [COs; CTrace; CIatu; CDma; CDmaBufs; CReqs; FDmaBufs]) (TtIoctlAllocateDmaBuf f r).
Proof. unfold TtIoctlAllocateDmaBuf. frame_walk. Qed.
#[local] Hint Resolve TtIoctlAllocateDmaBuf_frame : frames.
Lemma TtIoctlFreeDmaBufEx_frame f r : Steps (Frame [COs; CTrace; CIatu; CDma; CDmaBufs; FDmaBufs]) (TtIoctlFreeDmaBufEx f r).
Proof. unfold TtIoctlFreeDmaBufEx. frame_walk. Qed.
#[local] Hint Resolve TtIoctlFreeDmaBufEx_frame : frames.
Lemma resolve_dma_frame f o n : Steps (Frame []) (resolve_dma f o n).
Proof. unfold resolve_dma. frame_walk. Qed.
#[local] Hint Resolve resolve_dma_frame : frames.
Lemma resolve_tlb_frame f o n : Steps (Frame [COs; CTrace]) (resolve_tlb f o n).
Proof. unfold resolve_tlb. frame_walk. Qed.
#[local] Hint Resolve resolve_tlb_frame : frames.
Lemma TtResolveMapTarget_frame f o n : Steps (Frame [COs; CTrace]) (TtResolveMapTarget f o n).
Proof. unfold TtResolveMapTarget. frame_walk. Qed.
#[local] Hint Resolve TtResolveMapTarget_frame : frames.
Lemma TtBuildPhysicalMdl_frame p n : Steps (Frame [COs; CTrace]) (TtBuildPhysicalMdl p n).
Proof. unfold TtBuildPhysicalMdl. frame_walk. Qed.
#[local] Hint Resolve TtBuildPhysicalMdl_frame : frames.
Lemma TtDestroyUserMapping_frame m : Steps (Frame [COs; CTrace]) (TtDestroyUserMapping m).
Proof. unfold TtDestroyUserMapping. frame_walk. Qed.
#[local] Hint Resolve TtDestroyUserMapping_frame : frames.
Lemma map_fail_frame f m s : Steps (Frame [COs; CTrace]) (map_fail f m s).
Proof. unfold map_fail. frame_walk. Qed.
#[local] Hint Resolve map_fail_frame : frames.
Lemma map_view_frame f r t m : Steps (Frame [COs; CTrace; CReqs; FMappings]) (map_view f r t m).
Proof. unfold map_view. frame_walk. Qed.
#[local] Hint Resolve map_view_frame : frames.
Lemma TtIoctlMap_frame f r : Steps (Frame [COs; CTrace; CReqs; FMappings]) (TtIoctlMap f r).
Proof. unfold TtIoctlMap. frame_walk. Qed.
#[local] Hint Resolve TtIoctlMap_frame : frames.
Lemma TtIoctlUnmap_frame f r : Steps (Frame [COs; CTrace; FMappings]) (TtIoctlUnmap f r).
Proof. unfold TtIoctlUnmap. frame_walk. Qed.
#[local] Hint Resolve TtIoctlUnmap_frame : frames.
Lemma pin_fail_frame f p l i s : Steps (Frame [COs; CTrace; CIatu]) (pin_fail f p l i s).
Proof. unfold pin_fail. frame_walk. Qed.
#[local] Hint Resolve pin_fail_frame : frames.
Lemma pin_finish_frame f r g n a l p : Steps (Frame [COs; CTrace; CIatu; CReqs; FPinnings]) (pin_finish f r g n a l p).
Proof. unfold pin_finish. frame_walk. Qed.
#[local] Hint Resolve pin_finish_frame : frames.
Lemma pin_direct_frame f r g n p : Steps (Frame [COs; CTrace; CIatu; CReqs; FPinnings]) (pin_direct f r g n p).
Proof. unfold pin_direct. frame_walk. Qed.
#[local] Hint Resolve pin_direct_frame : frames.
Lemma TtIoctlPinPages_frame f r : Steps (Frame [COs; CTrace; CIatu; CReqs; FPinnings]) (TtIoctlPinPages f r).
Proof. unfold TtIoctlPinPages. frame_walk. Qed.
#[local] Hint Resolve TtIoctlPinPages_frame : frames.
Lemma TtDestroyPinning_frame p : Steps (Frame [COs; CTrace; CIatu]) (TtDestroyPinning p).
Proof. unfold TtDestroyPinning. frame_walk. Qed.
#[local] Hint Resolve TtDestroyPinning_frame : frames.
Lemma TtIoctlUnpinPages_frame f r : Steps (Frame [COs; CTrace; CIatu; FPinnings]) (TtIoctlUnpinPages f r).
Proof. unfold TtIoctlUnpinPages. frame_walk. Qed.
#[local] Hint Resolve TtIoctlUnpinPages_frame : frames.
Lemma drain_mappings_frame f l : Steps (Frame [COs; CTrace; FMappings]) (drain_mappings f l).
Proof. revert f. induction l; intros f; cbn [drain_mappings]; frame_walk. Qed.
#[local] Hint Resolve drain_mappings_frame : frames.
Lemma drain_pinnings_frame f l : Steps (Frame [COs; CTrace; CIatu; FPinnings]) (drain_pinnings f l).
Proof. revert f. induction l; intros f; cbn [drain_pinnings]; frame_walk. Qed.
#[local] Hint Resolve drain_pinnings_frame : frames.
Lemma TtMemoryProcessExit_frame f : Steps (Frame [COs; CTrace; CIatu; FMappings; FPinnings]) (TtMemoryProcessExit f).
Proof. unfold TtMemoryProcessExit. frame_walk. Qed.
#[local] Hint Resolve TtMemoryProcessExit_frame : frames.
Lemma free_dma_slot_frame f i : Steps (Frame [COs; CTrace; CIatu; CDma; CDmaBufs; FDmaBufs]) (free_dma_slot f i).
Proof. unfold free_dma_slot. frame_walk. Qed.
#[local] Hint Resolve free_dma_slot_frame : frames.
Lemma free_tlb_of_frame f i : Steps (Frame [CTlb]) (free_tlb_of f i).
Proof. unfold free_tlb_of. frame_walk. Qed.
#[local] Hint Resolve free_tlb_of_frame : frames.
Lemma TtMemoryFileCleanup_frame f : Steps (Frame [COs; CTrace; CIatu; CDma; CDmaBufs; FDmaBufs; FMappings; FPinnings; CTlb]) (TtMemoryFileCleanup f).
Proof. unfold TtMemoryFileCleanup. frame_walk. Qed.
#[local] Hint Resolve TtMemoryFileCleanup_frame : frames.
End frames.
#[export] Hint Resolve TtFileContextInitMemory_frame interlocked_add_frame
  TtDmaAccountReserve_frame TtDmaAccountRelease_frame WdfObjectDelete_frame
  free_dmabuf_block_frame TtDmaBufDestroy_frame set_dma_slot_frame dma_alloc_fail_frame
  dma_alloc_finish_frame dma_alloc_buffer_frame TtIoctlAllocateDmaBuf_frame
  TtIoctlFreeDmaBufEx_frame resolve_dma_frame resolve_tlb_frame TtResolveMapTarget_frame
  TtBuildPhysicalMdl_frame TtDestroyUserMapping_frame map_fail_frame map_view_frame
  TtIoctlMap_frame TtIoctlUnmap_frame pin_fail_frame pin_finish_frame pin_direct_frame
  TtIoctlPinPages_frame TtDestroyPinning_frame TtIoctlUnpinPages_frame drain_mappings_frame
  drain_pinnings_frame TtMemoryProcessExit_frame free_dma_slot_frame free_tlb_of_frame
  TtMemoryFileCleanup_frame : frames.

(** ** Events *)
Section events.
Context {P : Platform}.

Lemma TtFileContextInitMemory_emits f l : Steps (Emits []) (TtFileContextInitMemory f l).
Proof. unfold TtFileContextInitMemory. emits_walk. Qed.
#[local] Hint Resolve TtFileContextInitMemory_emits : emits.
Lemma interlocked_add_emits d : Steps (Emits []) (interlocked_add d).
Proof. unfold interlocked_add. emits_walk. Qed.
#[local] Hint Resolve interlocked_add_emits : emits.
Lemma TtDmaAccountReserve_emits n : Steps (Emits []) (TtDmaAccountReserve n).
Proof. unfold TtDmaAccountReserve. emits_walk. Qed.
#[local] Hint Resolve TtDmaAccountReserve_emits : emits.
Lemma TtDmaAccountRelease_emits n : Steps (Emits []) (TtDmaAccountRelease n).
Proof. unfold TtDmaAccountRelease. emits_walk. Qed.
#[local] Hint Resolve TtDmaAccountRelease_emits : emits.
Lemma WdfObjectDelete_emits b : Steps (Emits [KRes]) (WdfObjectDelete b).
Proof. unfold WdfObjectDelete. emits_walk. Qed.
#[local] Hint Resolve WdfObjectDelete_emits : emits.
Lemma free_dmabuf_block_emits p : Steps (Emits [KRes]) (free_dmabuf_block p).
Proof. unfold free_dmabuf_block. emits_walk. Qed.
#[local] Hint Resolve free_dmabuf_block_emits : emits.
Lemma TtDmaBufDestroy_emits p : Steps (Emits [KRes; KSync; KAtu]) (TtDmaBufDestroy p).
Proof. unfold TtDmaBufDestroy. emits_walk. Qed.
#[local] Hint Resolve TtDmaBufDestroy_emits : emits.
Lemma set_dma_slot_emits f i o : Steps (Emits []) (set_dma_slot f i o).
Proof. unfold set_dma_slot. emits_walk. Qed.
#[local] Hint Resolve set_dma_slot_emits : emits.
Lemma dma_alloc_fail_emits f n p r b s : Steps (Emits [KRes; KSync; KAtu]) (dma_alloc_fail f n p r b s).
Proof. unfold dma_alloc_fail. emits_walk. Qed.
#[local] Hint Resolve dma_alloc_fail_emits : emits.
Lemma dma_alloc_finish_emits f r n i b l a t : Steps (Emits [KRes; KSync; KAtu]) (dma_alloc_finish f r n i b l a t).
Proof. unfold dma_alloc_finish. emits_walk. Qed.
#[local] Hint Resolve dma_alloc_finish_emits : emits.
Lemma dma_alloc_buffer_emits f r n i g : Steps (Emits [KRes; KSync; KAtu; KMem]) (dma_alloc_buffer f r n i g).
Proof. unfold dma_alloc_buffer. emits_walk. Qed.
#[local] Hint Resolve dma_alloc_buffer_emits : emits.
Lemma TtIoctlAllocateDmaBuf_emits f r : Steps (Emits [KRes; KSync; KAtu; KMem]) (TtIoctlAllocateDmaBuf f r).
Proof. unfold TtIoctlAllocateDmaBuf. emits_walk. Qed.
#[local] Hint Resolve TtIoctlAllocateDmaBuf_emits : emits.
Lemma TtIoctlFreeDmaBufEx_emits f r : Steps (Emits [KRes; KSync; KAtu]) (TtIoctlFreeDmaBufEx f r).
Proof. unfold TtIoctlFreeDmaBufEx. emits_walk. Qed.
#[local] Hint Resolve TtIoctlFreeDmaBufEx_emits : emits.
Lemma resolve_dma_emits f o n : Steps (Emits []) (resolve_dma f o n).
Proof. unfold resolve_dma. emits_walk. Qed.
#[local] Hint Resolve resolve_dma_emits : emits.
Lemma resolve_tlb_emits f o n : Steps (Emits [KSync]) (resolve_tlb f o n).
Proof. unfold resolve_tlb. emits_walk. Qed.
#[local] Hint Resolve resolve_tlb_emits : emits.
Lemma TtResolveMapTarget_emits f o n : Steps (Emits [KSync]) (TtResolveMapTarget f o n).
Proof. unfold TtResolveMapTarget. emits_walk. Qed.
#[local] Hint Resolve TtResolveMapTarget_emits : emits.
Lemma TtBuildPhysicalMdl_emits p n : Steps (Emits [KRes]) (TtBuildPhysicalMdl p n).
Proof. unfold TtBuildPhysicalMdl. emits_walk. Qed.
#[local] Hint Resolve TtBuildPhysicalMdl_emits : emits.
Lemma TtDestroyUserMapping_emits m : Steps (Emits [KRes; KMem]) (TtDestroyUserMapping m).
Proof. unfold TtDestroyUserMapping. emits_walk. Qed.
#[local] Hint Resolve TtDestroyUserMapping_emits : emits.
Lemma map_fail_emits f m s : Steps (Emits [KRes; KMem; KSync]) (map_fail f m s).
Proof. unfold map_fail. emits_walk. Qed.
#[local] Hint Resolve map_fail_emits : emits.
Lemma map_view_emits f r t m : Steps (Emits [KRes; KMem; KSync]) (map_view f r t m).
Proof. unfold map_view. emits_walk. Qed.
#[local] Hint Resolve map_view_emits : emits.
Lemma TtIoctlMap_emits f r : Steps (Emits [KRes; KMem; KSync]) (TtIoctlMap f r).
Proof. unfold TtIoctlMap. emits_walk. Qed.
#[local] Hint Resolve TtIoctlMap_emits : emits.
Lemma TtIoctlUnmap_emits f r : Steps (Emits [KRes; KMem; KSync]) (TtIoctlUnmap f r).
Proof. unfold TtIoctlUnmap. emits_walk. Qed.
#[local] Hint Resolve TtIoctlUnmap_emits : emits.
Lemma pin_fail_emits f p l i s : Steps (Emits [KRes; KSync; KAtu]) (pin_fail f p l i s).
Proof. unfold pin_fail. emits_walk. Qed.
#[local] Hint Resolve pin_fail_emits : emits.
Lemma pin_finish_emits f r g n a l p : Steps (Emits [KRes; KSync; KAtu]) (pin_finish f r g n a l p).
Proof. unfold pin_finish. emits_walk. Qed.
#[local] Hint Resolve pin_finish_emits : emits.
Lemma pin_direct_emits f r g n p : Steps (Emits [KRes; KSync; KAtu]) (pin_direct f r g n p).
Proof. unfold pin_direct. emits_walk. Qed.
#[local] Hint Resolve pin_direct_emits : emits.
Lemma TtIoctlPinPages_emits f r : Steps (Emits [KRes; KSync; KAtu]) (TtIoctlPinPages f r).
Proof. unfold TtIoctlPinPages. emits_walk. Qed.
#[local] Hint Resolve TtIoctlPinPages_emits : emits.
Lemma TtDestroyPinning_emits p : Steps (Emits [KRes; KSync; KAtu]) (TtDestroyPinning p).
Proof. unfold TtDestroyPinning. emits_walk. Qed.
#[local] Hint Resolve TtDestroyPinning_emits : emits.
Lemma TtIoctlUnpinPages_emits f r : Steps (Emits [KRes; KSync; KAtu]) (TtIoctlUnpinPages f r).
Proof. unfold TtIoctlUnpinPages. emits_walk. Qed.
#[local] Hint Resolve TtIoctlUnpinPages_emits : emits.
Lemma drain_mappings_emits f l : Steps (Emits [KRes; KMem]) (drain_mappings f l).
Proof. revert f. induction l; intros f; cbn [drain_mappings]; emits_walk. Qed.
#[local] Hint Resolve drain_mappings_emits : emits.
Lemma drain_pinnings_emits f l : Steps (Emits [KRes; KSync; KAtu]) (drain_pinnings f l).
Proof. revert f. induction l; intros f; cbn [drain_pinnings]; emits_walk. Qed.
#[local] Hint Resolve drain_pinnings_emits : emits.
Lemma TtMemoryProcessExit_emits f : Steps (Emits [KRes; KSync; KAtu; KMem]) (TtMemoryProcessExit f).
Proof. unfold TtMemoryProcessExit. emits_walk. Qed.
#[local] Hint Resolve TtMemoryProcessExit_emits : emits.
Lemma free_dma_slot_emits f i : Steps (Emits [KRes; KSync; KAtu]) (free_dma_slot f i).
Proof. unfold free_dma_slot. emits_walk. Qed.
#[local] Hint Resolve free_dma_slot_emits : emits.
Lemma free_tlb_of_emits f i : Steps (Emits []) (free_tlb_of f i).
Proof. unfold free_tlb_of. emits_walk. Qed.
#[local] Hint Resolve free_tlb_of_emits : emits.
Lemma TtMemoryFileCleanup_emits f : Steps (Emits [KRes; KSync; KAtu; KMem]) (TtMemoryFileCleanup f).
Proof. unfold TtMemoryFileCleanup. emits_walk. Qed.
#[local] Hint Resolve TtMemoryFileCleanup_emits : emits.
End events.
#[export] Hint Resolve TtFileContextInitMemory_emits interlocked_add_emits
  TtDmaAccountReserve_emits TtDmaAccountRelease_emits WdfObjectDelete_emits
  free_dmabuf_block_emits TtDmaBufDestroy_emits set_dma_slot_emits dma_alloc_fail_emits
  dma_alloc_finish_emits dma_alloc_buffer_emits TtIoctlAllocateDmaBuf_emits
  TtIoctlFreeDmaBufEx_emits resolve_dma_emits resolve_tlb_emits TtResolveMapTarget_emits
  TtBuildPhysicalMdl_emits TtDestroyUserMapping_emits map_fail_emits map_view_emits
  TtIoctlMap_emits TtIoctlUnmap_emits pin_fail_emits pin_finish_emits pin_direct_emits
  TtIoctlPinPages_emits TtDestroyPinning_emits TtIoctlUnpinPages_emits drain_mappings_emits
  drain_pinnings_emits TtMemoryProcessExit_emits free_dma_slot_emits free_tlb_of_emits
  TtMemoryFileCleanup_emits : emits.
