(* ===== verification/TlbSpec.v ===== *)
(** * Properties of the TLB window pool

    The mmap-offset token that ALLOCATE_TLB returns and MAP decodes, and the
    search for a free window. *)
From S2P Require Import Prelude Abi Platform Frame Trace Sim IoSpec PciConfig Blackhole Iatu Tlb.
From S2P Require Import Memory.

(** ** Tokens *)
Lemma encoded_2m t id : 0 ≤ id < TT_TLB_2M_COUNT → tlb_encoded t id = id * 2 ^ 21.
Proof.
  intros Hi. unfold tlb_encoded, TtTlbDescribe. rewrite (proj2 (Z.ltb_lt id TT_TLB_2M_COUNT)) by lia. reflexivity.
Qed.

Lemma encoded_4g t id :
  TT_TLB_2M_COUNT ≤ id < TT_TLB_2M_COUNT + Tlb4gCount t →
  tlb_encoded t id = (id - TT_TLB_2M_COUNT) * 2 ^ 32 + 2 ^ 29.
Proof.
  intros Hi. unfold tlb_encoded, TtTlbDescribe. rewrite (proj2 (Z.ltb_ge id TT_TLB_2M_COUNT)) by lia.
  rewrite (proj2 (Z.ltb_lt id _)) by lia. cbn [Z.eqb Pos.eqb]. by rewrite Z.shiftl_mul_pow2 by lia.
Qed.

(** The decoder inverts the encoder, for every length up to the window's size. *)
Lemma token_decode t id bar off size len :
  0 ≤ id → 0 ≤ Tlb4gCount t ≤ TT_TLB_4G_MAX → TtTlbDescribe t id = Some (bar, off, size) → 0 ≤ len →
  tlb_token_decode (tlb_encoded t id) len = if size <? len then None else Some (bar, off, id).
Proof.
  intros Hid Hc Hd Hl. unfold TT_TLB_4G_MAX in Hc. unfold TtTlbDescribe in Hd.
  destruct (Z.ltb_spec id TT_TLB_2M_COUNT) as [H1|H1].
  - injection Hd as <- <- <-. rewrite encoded_2m by lia. unfold tlb_token_decode, TT_TLB_2M_COUNT in *.
    change (Z.shiftl 1 29) with (2 ^ 29). change TT_BH_KERNEL_TLB_LEN with (2 ^ 21).
    rewrite (proj2 (Z.ltb_lt _ (2 ^ 29))) by lia. rewrite Z.mod_mul, Z.div_mul by lia. cbn [Z.eqb negb orb].
    destruct (2 ^ 21 <? len); [done|]. by rewrite wrap32_id by lia.
  - destruct (Z.ltb_spec id (TT_TLB_2M_COUNT + Tlb4gCount t)) as [H2|H2]; [|done].
    injection Hd as <- <- <-. rewrite encoded_4g by lia. unfold tlb_token_decode.
    change (Z.shiftl 1 29) with (2 ^ 29). change (Z.shiftl 1 32) with (2 ^ 32). unfold TT_TLB_2M_COUNT in *.
    rewrite (proj2 (Z.ltb_ge _ (2 ^ 29))) by lia. rewrite Z.add_simpl_r, Z.mod_mul by lia. cbn [Z.eqb negb orb].
    destruct (2 ^ 32 <? len); [done|]. rewrite Z.shiftr_div_pow2, Z.div_mul, Z.shiftl_mul_pow2 by lia.
    rewrite (wrap32_id (id - 202)) by lia. rewrite wrap32_id by lia. f_equal. f_equal. lia.
Qed.

Lemma window_bounds t id bar off size : 0 ≤ id → 0 ≤ Tlb4gCount t ≤ TT_TLB_4G_MAX → TtTlbDescribe t id = Some (bar, off, size) →
  id < TT_TLB_TOTAL ∧ 0 ≤ off < 2 ^ 35 ∧ 0 ≤ size ≤ 2 ^ 32 ∧ 0 ≤ tlb_encoded t id < 2 ^ 36.
Proof.
  intros Hid Hc Hd. unfold TT_TLB_TOTAL, TT_TLB_4G_MAX in *. pose proof Hd as Hd'. unfold TtTlbDescribe in Hd.
  destruct (Z.ltb_spec id TT_TLB_2M_COUNT) as [H1|H1].
  - injection Hd as <- <- <-. rewrite encoded_2m by lia. unfold TT_TLB_2M_COUNT, TT_BH_KERNEL_TLB_LEN in *. lia.
  - destruct (Z.ltb_spec id (TT_TLB_2M_COUNT + Tlb4gCount t)) as [H2|H2]; [|done].
    injection Hd as <- <- <-. rewrite encoded_4g by lia. rewrite Z.shiftl_mul_pow2 by lia. change (Z.shiftl 1 32) with (2 ^ 32).
    unfold TT_TLB_2M_COUNT in *. lia.
Qed.

(** The decoder accepts tokens that no allocation returns: below 512 MiB it
    takes the quotient by 2 MiB as the window id without comparing it with the
    202 windows of BAR0, so the offsets of "windows" 202 to 209 in BAR0 pass as
    the ids of the 4 GiB windows of BAR4.  The owner of window 202 can so map
    BAR0 at 404 MiB, and the view counts as a mapping of window 202. *)
Theorem tlb_token_alias t id len :
  TT_TLB_2M_COUNT ≤ id < TT_TLB_TOTAL → 0 ≤ Tlb4gCount t → 0 ≤ len ≤ TT_BH_KERNEL_TLB_LEN →
  tlb_token_decode (id * TT_BH_KERNEL_TLB_LEN) len = Some (0, id * TT_BH_KERNEL_TLB_LEN, id)
  ∧ (∀ id', 0 ≤ id' → id * TT_BH_KERNEL_TLB_LEN ≠ tlb_encoded t id' ∨ TtTlbDescribe t id' = None)
  ∧ TtTlbDescribe t id ≠ Some (0, id * TT_BH_KERNEL_TLB_LEN, TT_BH_KERNEL_TLB_LEN).
Proof.
  intros Hid Hc Hl. unfold TT_TLB_TOTAL, TT_TLB_2M_COUNT, TT_TLB_4G_MAX in Hid. change TT_BH_KERNEL_TLB_LEN with (2 ^ 21) in *.
  split_and!.
  - unfold tlb_token_decode. change (Z.shiftl 1 29) with (2 ^ 29). change TT_BH_KERNEL_TLB_LEN with (2 ^ 21).
    rewrite (proj2 (Z.ltb_lt _ (2 ^ 29))) by lia. rewrite Z.mod_mul, Z.div_mul by lia. cbn [Z.eqb negb orb].
    rewrite (proj2 (Z.ltb_ge _ len)) by lia. by rewrite wrap32_id by lia.
  - intros id' Hid'. destruct (Z.ltb_spec id' TT_TLB_2M_COUNT) as [H1|H1].
    + left. rewrite encoded_2m by lia. unfold TT_TLB_2M_COUNT in H1. lia.
    + destruct (Z.ltb_spec id' (TT_TLB_2M_COUNT + Tlb4gCount t)) as [H2|H2].
      * left. rewrite encoded_4g by lia. unfold TT_TLB_2M_COUNT in *. lia.
      * right. unfold TtTlbDescribe. by rewrite (proj2 (Z.ltb_ge id' _)), (proj2 (Z.ltb_ge id' (_ + _))).
  - unfold TtTlbDescribe. rewrite (proj2 (Z.ltb_ge id TT_TLB_2M_COUNT)) by (unfold TT_TLB_2M_COUNT; lia).
    destruct (_ <? _); [by intros [=]|done].
Qed.

Lemma tlb_token_alias_witness :
  tlb_token_decode (203 * TT_BH_KERNEL_TLB_LEN) 0x1000 = Some (0, 0x19600000, 203).
Proof.
  apply (tlb_token_alias (w_tlb sim_world) 203 0x1000); [by split | vm_compute; discriminate | vm_compute; split; discriminate].
Defined.

(** ** The search *)
Lemma first_free_spec t id n :
  match tlb_first_free t id n with
  | Some j => id ≤ j < id + Z.of_nat n ∧ tlb_used t j = false ∧ ∀ k, id ≤ k < j → tlb_used t k = true
  | None => ∀ k, id ≤ k < id + Z.of_nat n → tlb_used t k = true
  end.
Proof.
  revert id. induction n as [|n IH]; intros id; cbn [tlb_first_free]; [lia|].
  destruct (tlb_used t id) eqn:E.
  - specialize (IH (id + 1)). destruct (tlb_first_free t (id + 1) n) as [j|].
    + destruct IH as (H1 & H2 & H3). split_and!; [lia | lia | done |].
      intros k Hk. destruct (decide (k = id)) as [->|]; [done | apply H3; lia].
    + intros k Hk. destruct (decide (k = id)) as [->|]; [done | apply IH; lia].
  - split_and!; [lia | lia | done | lia].
Qed.

Definition tlbs_ok (t : TlbPool) : Prop :=
  length (TlbUsed t) = Z.to_nat TT_TLB_TOTAL ∧ length (TlbOwner t) = Z.to_nat TT_TLB_TOTAL.

Lemma tlb_set_used t id b o j :
  tlbs_ok t → 0 ≤ id < TT_TLB_TOTAL → 0 ≤ j →
  tlb_used (tlb_set id b o t) j = (if decide (j = id) then b else tlb_used t j)
  ∧ tlb_owner (tlb_set id b o t) j = (if decide (j = id) then o else tlb_owner t j).
Proof.
  unfold tlb_used, tlb_owner, tlb_set, tlbs_ok. change TT_TLB_TOTAL with 210. intros [H1 H2] Hi Hj. cbn. destruct (decide (j = id)) as [->|Hn].
  - by rewrite !list_lookup_insert_eq by lia.
  - rewrite !list_lookup_insert_ne by lia. done.
Qed.

Lemma tlb_set_ok t id b o : tlbs_ok t → tlbs_ok (tlb_set id b o t).
Proof. unfold tlbs_ok, tlb_set. cbn. by rewrite !length_insert. Qed.

Section spec.
Context {P : Platform}.

(** The pool while the driver runs: window 201 is the driver's. *)
Definition kernel_window_kept (w : World) : Prop :=
  tlbs_ok (w_tlb w) ∧ tlb_used (w_tlb w) TT_BH_KERNEL_TLB_INDEX = true ∧ tlb_owner (w_tlb w) TT_BH_KERNEL_TLB_INDEX = None.

(** What ALLOCATE_TLB does, by the first free window of the pool that serves the size. *)
Definition allocate_tlb_outcome (f r size : Z) (w : World) (res : NTSTATUS * World) : Prop :=
  match tlb_pool_select (w_tlb w) size with
  | None => res.1 = STATUS_INVALID_PARAMETER ∧ w_tlb res.2 = w_tlb w
  | Some (start, count) =>
      match tlb_first_free (w_tlb w) start (Z.to_nat count) with
      | None => res.1 = STATUS_INSUFFICIENT_RESOURCES ∧ w_tlb res.2 = w_tlb w
      | Some id =>
          start ≤ id < start + count ∧ id ≠ TT_BH_KERNEL_TLB_INDEX ∧ tlb_used (w_tlb w) id = false
          ∧ res.1 = STATUS_SUCCESS ∧ w_tlb res.2 = tlb_set id true (Some f) (w_tlb w)
          ∧ bytes_at 16 32 (rq_Buffer (req_state r res.2)) = tlb_out (w_tlb w) id
      end
  end.

(** ALLOCATE_TLB hands out the first free window of the requested size, never
    one in use and never the driver's own window 201, makes the caller its only
    owner, and returns the window's id and tokens; an unsupported size or a
    full pool changes nothing. *)
Theorem allocate_tlb_spec f r w :
  IsBlackhole (w_id w) = true → kernel_window_kept w → 0 ≤ Tlb4gCount (w_tlb w) →
  WdfRequestRetrieveInputBuffer (rq_InLength (req_state r w)) (c_sizeof tenstorrent_allocate_tlb_in) = STATUS_SUCCESS →
  out_room w r 16 32 = true → buffer_ok w r →
  allocate_tlb_outcome f r
    (sget tenstorrent_allocate_tlb_in "size" (take (Z.to_nat (c_sizeof tenstorrent_allocate_tlb_in)) (rq_Buffer (req_state r w))))
    w (TtIoctlAllocateTlb f r w).
Proof.
  intros Hbh (Hok & Hk & _) Hc Hin Hroom Hbuf. unfold TtIoctlAllocateTlb. run.
  unfold compose. rewrite Hbh. cbn [negb]. run. rewrite (copy_in_ok w r _ Hin). cbn [fst snd].
  change (NT_SUCCESS STATUS_SUCCESS) with true. cbn [negb]. run.
  set (size := sget _ _ _). unfold allocate_tlb_outcome.
  destruct (tlb_pool_select (w_tlb w) size) as [[start count]|] eqn:Es; [|done].
  run. set (w1 := (acquire TlbLock w).2). change (w_tlb w1) with (w_tlb w).
  unfold tlb_claim. run. change (w_tlb w1) with (w_tlb w).
  pose proof (first_free_spec (w_tlb w) start (Z.to_nat count)) as Hff.
  destruct (tlb_first_free (w_tlb w) start (Z.to_nat count)) as [id|]; [|done]. run.
  destruct Hff as (H1 & H2 & _).
  assert (0 ≤ count) as Hcount.
  { unfold tlb_pool_select in Es. destruct (_ =? _); [injection Es as <- <-; done|].
    destruct (_ =? _); [by injection Es as <- <-|done]. }
  set (w2 := (release TlbLock (upd_tlb id true (Some f) w1).2).2).
  change (c_offsetof tenstorrent_allocate_tlb "out") with 16.
  change (c_sizeof tenstorrent_allocate_tlb_out) with 32.
  assert (TtCompleteSizedOutBuffer r 16 (tlb_out (w_tlb w) id) 32 32 w2
    = (STATUS_SUCCESS, replied r 16 32 (tlb_out (w_tlb w) id) w2)) as ->.
  { apply sized_out_ok; [lia | lia | exact Hroom | exact Hbuf | done]. }
  cbn [fst snd]. change (NT_SUCCESS STATUS_SUCCESS) with true. cbn [negb]. run.
  split_and!; [lia | lia | congruence | exact H2 | reflexivity | reflexivity |].
  rewrite replied_bytes by (lia || exact Hroom || exact Hbuf). reflexivity.
Qed.
(** The two tokens of a reply, with the caching each stands for. *)
Definition token_kinds : list (string * MEMORY_CACHING_TYPE) :=
  [("mmap_offset_uc", MmNonCached); ("mmap_offset_wc", MmWriteCombined)]%string.

Lemma reply_fields t id :
  0 ≤ id < TT_TLB_TOTAL → 0 ≤ tlb_encoded t id < 2 ^ 36 →
  sget tenstorrent_allocate_tlb_out "id" (tlb_out t id) = id
  ∧ sget tenstorrent_allocate_tlb_out "mmap_offset_uc" (tlb_out t id) = TT_MMAP_OFFSET_TLB_UC + tlb_encoded t id
  ∧ sget tenstorrent_allocate_tlb_out "mmap_offset_wc" (tlb_out t id) = TT_MMAP_OFFSET_TLB_WC + tlb_encoded t id.
Proof.
  intros Hid He. change TT_TLB_TOTAL with 210 in Hid. unfold tlb_out, wrap64, wrap.
  change TT_MMAP_OFFSET_TLB_UC with (6 * 2 ^ 36). change TT_MMAP_OFFSET_TLB_WC with (7 * 2 ^ 36). cbv zeta.
  split_and!; sget_simp.
  - change (c_fieldsize tenstorrent_allocate_tlb_out "id") with 4. change (256 ^ 4) with (2 ^ 32). by rewrite Z.mod_small by lia.
  - change (c_fieldsize tenstorrent_allocate_tlb_out "mmap_offset_uc") with 8. change (256 ^ 8) with (2 ^ 64). by rewrite Z.mod_mod, Z.mod_small by lia.
  - change (c_fieldsize tenstorrent_allocate_tlb_out "mmap_offset_wc") with 8. change (256 ^ 8) with (2 ^ 64). by rewrite Z.mod_mod, Z.mod_small by lia.
Qed.

(** What MAP finds at the token of a window, for a view of [len] bytes by [g]. *)
Definition window_target (w : World) (g id bar off size len : Z) (type : MEMORY_CACHING_TYPE) : NTSTATUS * MapTarget :=
  let b := w_bars w in
  if (size <? len) || (bar_len b bar =? 0) || (bar_len b bar <? off + len)
  then (STATUS_INVALID_PARAMETER, mkTarget 0 MmNonCached (-1) None)
  else if tlb_used (w_tlb w) id && bool_decide (tlb_owner (w_tlb w) id = Some g)
  then (STATUS_SUCCESS, mkTarget (bar_base b bar + off) type id None)
  else (STATUS_ACCESS_DENIED, mkTarget 0 MmNonCached (-1) None).

Lemma resolve_token t w g id bar off size len name type :
  Tlb4gCount t = Tlb4gCount (w_tlb w) → 0 ≤ id → 0 ≤ Tlb4gCount t ≤ TT_TLB_4G_MAX →
  TtTlbDescribe t id = Some (bar, off, size) → 0 ≤ len → (name, type) ∈ token_kinds →
  (TtResolveMapTarget g (sget tenstorrent_allocate_tlb_out name (tlb_out t id)) len w).1 = window_target w g id bar off size len type.
Proof.
  intros Ht Hid Hc Hd Hl Hk. destruct (window_bounds _ _ _ _ _ Hid Hc Hd) as (B1 & B2 & B3 & B4).
  destruct (reply_fields t id (conj Hid B1) B4) as (_ & R1 & R2).
  assert (∃ wc : bool, sget tenstorrent_allocate_tlb_out name (tlb_out t id)
    = (if wc then TT_MMAP_OFFSET_TLB_WC else TT_MMAP_OFFSET_TLB_UC) + tlb_encoded t id
    ∧ type = if wc then MmWriteCombined else MmNonCached) as (wc & -> & ->).
  { unfold token_kinds in Hk. rewrite !elem_of_cons, elem_of_nil in Hk.
    destruct Hk as [[= -> ->]|[[= -> ->]|[]]]; [by exists false | by exists true]. }
  set (token := _ + tlb_encoded t id). assert ((TT_MMAP_OFFSET_TLB_WC <=? token) = wc) as Hwc.
  { unfold token. change TT_MMAP_OFFSET_TLB_UC with (6 * 2 ^ 36). change TT_MMAP_OFFSET_TLB_WC with (7 * 2 ^ 36).
    destruct wc; [apply Z.leb_le | apply Z.leb_gt]; lia. }
  unfold TtResolveMapTarget. change TT_MMAP_OFFSET_DMA_BUF with (15 * 2 ^ 36). change TT_MMAP_RESOURCE_SIZE with (2 ^ 36).
  assert (6 * 2 ^ 36 ≤ token < 8 * 2 ^ 36) as Htok.
  { unfold token. change TT_MMAP_OFFSET_TLB_UC with (6 * 2 ^ 36). change TT_MMAP_OFFSET_TLB_WC with (7 * 2 ^ 36). destruct wc; lia. }
  rewrite (proj2 (Z.leb_gt _ token)), (proj2 (Z.ltb_ge token _)), (proj2 (Z.ltb_lt token _)) by lia.
  unfold resolve_tlb. cbv zeta. rewrite Hwc. replace (token - _) with (tlb_encoded t id) by (unfold token; destruct wc; lia).
  rewrite (token_decode t id bar off size len Hid Hc Hd Hl). unfold window_target. destruct (Z.ltb_spec size len) as [|Hsz]; [done|].
  cbn [orb]. rewrite bind_run. cbn [fst snd gets]. rewrite (proj2 (Z.leb_gt _ id)) by lia. cbn [orb].
  assert (wrap64 (off + len) = off + len) as -> by (apply Z.mod_small; lia).
  destruct (_ || _); [done|]. rewrite !bind_run. cbn [fst snd gets]. change (w_tlb (acquire TlbLock w).2) with (w_tlb w).
  destruct (tlb_used (w_tlb w) id), (bool_decide _); reflexivity.
Qed.

(** C36 The tokens in the reply of a successful ALLOCATE_TLB name exactly the
    window that was allocated: MAP resolves each of them, for a view of any
    length up to the window's size that is inside the BAR, to the address and
    the id of the window, the uncached token to an uncached view and the
    write-combining one to a write-combining view; it refuses a longer view, and
    refuses both tokens to any other handle. *)
Theorem tlb_token_roundtrip f r w :
  IsBlackhole (w_id w) = true → kernel_window_kept w → 0 ≤ Tlb4gCount (w_tlb w) ≤ TT_TLB_4G_MAX →
  WdfRequestRetrieveInputBuffer (rq_InLength (req_state r w)) (c_sizeof tenstorrent_allocate_tlb_in) = STATUS_SUCCESS →
  out_room w r 16 32 = true → buffer_ok w r → (TtIoctlAllocateTlb f r w).1 = STATUS_SUCCESS →
  let w' := (TtIoctlAllocateTlb f r w).2 in
  let reply := bytes_at 16 32 (rq_Buffer (req_state r w')) in
  let id := sget tenstorrent_allocate_tlb_out "id" reply in
  let b := w_bars w' in
  ∃ bar off size, TtTlbDescribe (w_tlb w') id = Some (bar, off, size) ∧ tlb_used (w_tlb w) id = false
  ∧ ∀ g len name type, 0 ≤ len → (name, type) ∈ token_kinds →
    (TtResolveMapTarget g (sget tenstorrent_allocate_tlb_out name reply) len w').1
    = if (size <? len) || (bar_len b bar =? 0) || (bar_len b bar <? off + len)
      then (STATUS_INVALID_PARAMETER, mkTarget 0 MmNonCached (-1) None)
      else if g =? f then (STATUS_SUCCESS, mkTarget (bar_base b bar + off) type id None)
      else (STATUS_ACCESS_DENIED, mkTarget 0 MmNonCached (-1) None).
Proof.
  intros Hbh Hk Hc Hin Hroom Hbuf Hs. cbv zeta.
  pose proof (allocate_tlb_spec f r w Hbh Hk (proj1 Hc) Hin Hroom Hbuf) as Ho. unfold allocate_tlb_outcome in Ho. revert Ho.
  set (n := sget _ "size" _). destruct (tlb_pool_select (w_tlb w) n) as [[start count]|] eqn:Es; [|intros [E _]; by rewrite Hs in E].
  destruct (tlb_first_free (w_tlb w) start (Z.to_nat count)) as [id|]; [|intros [E _]; by rewrite Hs in E].
  intros (H1 & H2 & H3 & _ & H4 & H5). rewrite H5, H4.
  assert (0 ≤ id ∧ is_Some (TtTlbDescribe (w_tlb w) id)) as [Hid [[[bar off] size] Hd]].
  { unfold tlb_pool_select in Es. unfold TtTlbDescribe. destruct (n =? _); [injection Es as <- <- | destruct (n =? _); [|done]; injection Es as <- <-].
    - rewrite (proj2 (Z.ltb_lt id _)) by lia. by split; [lia | eexists].
    - unfold TT_TLB_2M_COUNT in *. rewrite (proj2 (Z.ltb_ge id _)), (proj2 (Z.ltb_lt id _)) by lia. by split; [lia | eexists]. }
  destruct (window_bounds _ _ _ _ _ Hid Hc Hd) as (B1 & _ & _ & B4).
  destruct (reply_fields (w_tlb w) id (conj Hid B1) B4) as (-> & _). exists bar, off, size.
  split; [exact Hd|]. split; [exact H3|]. intros g len name type Hl Hn.
  rewrite (resolve_token (w_tlb w) _ g id bar off size len name type) by (done || by rewrite H4). unfold window_target. rewrite H4.
  destruct (tlb_set_used (w_tlb w) id true (Some f) id (proj1 Hk) (conj Hid B1) Hid) as [-> ->]. rewrite !decide_True by done. cbn [andb].
  destruct (_ || _); [done|]. destruct (Z.eqb_spec g f) as [->|Hg]; [by rewrite bool_decide_true | by rewrite bool_decide_false by congruence].
Qed.
End spec.

(** ALLOCATE_TLB of a 2 MiB window by handle 1. *)
Definition tlb_demo : World (P := sim) :=
  with_req 7 (sim_req 1 (TT_CTL 11) (le_encode 8 TT_BH_KERNEL_TLB_LEN) 48) sim_world.

Lemma allocate_tlb_spec_witness :
  allocate_tlb_outcome 1 7 TT_BH_KERNEL_TLB_LEN tlb_demo (TtIoctlAllocateTlb 1 7 tlb_demo)
  ∧ (TtIoctlAllocateTlb 1 7 tlb_demo).1 = STATUS_SUCCESS.
Proof.
  split; [|vm_compute; reflexivity].
  apply (allocate_tlb_spec 1 7 tlb_demo); [reflexivity | | vm_compute; discriminate | reflexivity | vm_compute; reflexivity | vm_compute; discriminate].
  split_and!; [split; vm_compute; reflexivity | vm_compute; reflexivity | vm_compute; reflexivity].
Defined.

(** Handle 1 maps a page of its new window, write-combining. *)
Lemma tlb_token_roundtrip_witness :
  let w' := (TtIoctlAllocateTlb 1 7 tlb_demo).2 in
  let token := sget tenstorrent_allocate_tlb_out "mmap_offset_wc" (bytes_at 16 32 (rq_Buffer (req_state 7 w'))) in
  (TtResolveMapTarget 1 token 0x1000 w').1.1 = STATUS_SUCCESS
  ∧ mt_CacheType (TtResolveMapTarget 1 token 0x1000 w').1.2 = MmWriteCombined.
Proof.
  assert (kernel_window_kept tlb_demo) as Hk
    by (split_and!; [split; vm_compute; reflexivity | vm_compute; reflexivity | vm_compute; reflexivity]).
  assert (0 ≤ Tlb4gCount (w_tlb tlb_demo) ≤ TT_TLB_4G_MAX) as Hc by (vm_compute; split; discriminate).
  assert (out_room tlb_demo 7 16 32 = true) as Hr by (vm_compute; reflexivity).
  assert (buffer_ok tlb_demo 7) as Hb by (vm_compute; discriminate).
  assert ((TtIoctlAllocateTlb 1 7 tlb_demo).1 = STATUS_SUCCESS) as Hs by (vm_compute; reflexivity).
  destruct (tlb_token_roundtrip 1 7 tlb_demo eq_refl Hk Hc eq_refl Hr Hb Hs) as (bar & off & size & Hd & _ & H).
  specialize (H 1 0x1000 "mmap_offset_wc"%string MmWriteCombined ltac:(lia) ltac:(right; left)).
  assert ((size <? 0x1000) || (bar_len (w_bars (TtIoctlAllocateTlb 1 7 tlb_demo).2) bar =? 0)
    || (bar_len (w_bars (TtIoctlAllocateTlb 1 7 tlb_demo).2) bar <? off + 0x1000) = false) as E.
  { vm_compute in Hd. injection Hd as <- <- <-. vm_compute. reflexivity. }
  rewrite E in H. cbv zeta. rewrite H. by split.
Defined.
