(* ===== verification/Ledger.v ===== *)
(** * The resource ledger

    A double-entry account of what the driver owns: every kernel object it has
    acquired and not given back (counted on the trace) and every claimed iATU
    region is held by exactly one structure of the driver (a mapping, a
    pinning, a DMA buffer, a file context) or by the running operation.
    [ledger L B O] is the state with loose assets [L], [B] reserved bytes that
    no buffer accounts for yet, and [O] a buffer structure that is in no slot. *)
From S2P Require Import Prelude Abi Platform Frame Trace PciConfig Blackhole Iatu IatuSpec Tlb.
From S2P Require Import Memory.

Inductive Account := ARes (r : Resource) | ARegion (i : Z).
#[global] Instance Account_eq_dec : EqDecision Account.
Proof. solve_decision. Defined.

(** Kernel interfaces and BAR mappings belong to the device life cycle. *)
Definition tracked (a : Account) : Prop :=
  match a with ARes r => rkind r = KRes | ARegion i => 0 ≤ i < TT_IATU_REGIONS end.

Definition one (a b : Account) : Z := if decide (a = b) then 1 else 0.
Definition cnt (a : Account) (l : list Account) : Z := lsum (one a) l.

Definition opt_assets {A} (f : A → list Account) (o : option A) : list Account := from_option f [] o.
Definition region_assets (i : Z) : list Account :=
  if (i <? 0) || (TT_IATU_REGIONS <=? i) then [] else [ARegion i].

(** What each structure holds. *)
Definition view_assets (va : option Z) (mdl : option MDL) : list Account :=
  match va, mdl with Some va, Some m => [ARes (RsView va (mdl_Handle m))] | _, _ => [] end.
Definition map_assets (m : TT_USER_MAPPING) : list Account :=
  view_assets (um_UserVa m) (um_Mdl m)
  ++ opt_assets (λ m, [ARes (RsMdl (mdl_Handle m))]) (um_Mdl m)
  ++ opt_assets (λ p, [ARes (RsProcess p)]) (um_Process m)
  ++ [ARes (RsPool (um_Block m))].
Definition pin_assets (p : TT_PINNING) : list Account :=
  region_assets (pn_IatuRegion p)
  ++ opt_assets (λ m, [ARes (RsLockedPages (mdl_Handle m)); ARes (RsMdl (mdl_Handle m))]) (pn_Mdl p)
  ++ [ARes (RsPool (pn_Block p))].
Definition dma_assets (p : Z) (d : TT_DMABUF) : list Account :=
  region_assets (db_IatuRegion d) ++ [ARes (RsCommonBuffer (db_Buffer d)); ARes (RsPool p)].
Definition file_assets (c : TT_FILE_CONTEXT) : list Account :=
  mjoin (map_assets <$> Mappings c) ++ mjoin (pin_assets <$> Pinnings c)
  ++ opt_assets (λ p, [ARes (RsProcess p)]) (CreatorProcess c).

Lemma one_nonneg a b : 0 ≤ one a b.
Proof. unfold one. case_decide; lia. Qed.
Lemma one_refl a : one a a = 1.
Proof. unfold one. by rewrite decide_True. Qed.
Lemma cnt_nonneg a l : 0 ≤ cnt a l.
Proof. apply lsum_nonneg, one_nonneg. Qed.
Lemma cnt_app a l1 l2 : cnt a (l1 ++ l2) = cnt a l1 + cnt a l2.
Proof. apply lsum_app. Qed.
Lemma cnt_cons a b l : cnt a (b :: l) = one a b + cnt a l.
Proof. done. Qed.
Lemma cnt_elem a l : a ∈ l → 1 ≤ cnt a l.
Proof. intros H. rewrite <- (one_refl a). by apply (lsum_elem (one a) l a (one_nonneg a)). Qed.
Lemma cnt_join_cons a {A} (f : A → list Account) x l :
  cnt a (mjoin (f <$> x :: l)) = cnt a (f x) + cnt a (mjoin (f <$> l)).
Proof. apply (cnt_app a (f x)). Qed.
Lemma cnt_join_app a {A} (f : A → list Account) l1 l2 :
  cnt a (mjoin (f <$> l1 ++ l2)) = cnt a (mjoin (f <$> l1)) + cnt a (mjoin (f <$> l2)).
Proof.
  induction l1 as [|x l1 IH]; [done|]. change ((x :: l1) ++ l2) with (x :: (l1 ++ l2)).
  rewrite !cnt_join_cons, IH. lia.
Qed.
Lemma cnt_join_elem a {A} (f : A → list Account) l x : x ∈ l → cnt a (f x) ≤ cnt a (mjoin (f <$> l)).
Proof.
  induction 1 as [x l|x y l _ IH]; rewrite cnt_join_cons.
  - pose proof (cnt_nonneg a (mjoin (f <$> l))). lia.
  - pose proof (cnt_nonneg a (f y)). lia.
Qed.

Lemma cnt_nil a : cnt a [] = 0.
Proof. done. Qed.

#[export] Hint Rewrite cnt_app cnt_cons cnt_nil : cnt.
Ltac cnt_tac := intros ?; autorewrite with cnt; lia.

(** ** Signed 64-bit arithmetic *)
Lemma signed64_id z : - 2 ^ 63 ≤ z < 2 ^ 63 → signed64 z = z.
Proof.
  intros H. unfold signed64, wrap64, wrap. destruct (Z.leb_spec (2 ^ 63) (z mod 2 ^ 64)) as [Hc|Hc];
    pose proof (Z_div_mod_eq_full z (2 ^ 64)); pose proof (Z.mod_pos_bound z (2 ^ 64) ltac:(lia)); lia.
Qed.
Lemma signed64_mod z : (signed64 z) mod 2 ^ 64 = z mod 2 ^ 64.
Proof.
  unfold signed64, wrap64, wrap. destruct (_ <=? _); [|by rewrite Z.mod_mod].
  rewrite <- Zminus_mod_idemp_r, Z_mod_same_full, Z.sub_0_r. by rewrite Z.mod_mod.
Qed.
Lemma signed64_add a b : signed64 (signed64 a + b) = signed64 (a + b).
Proof.
  unfold signed64 at 1 3. unfold wrap64, wrap.
  by rewrite <- Zplus_mod_idemp_l, signed64_mod, Zplus_mod_idemp_l.
Qed.

(** ** The trace *)
Lemma live_acquired r t : 0 < live r t → EvGet r ∈ t.
Proof.
  induction t as [|e t IH]; cbn; [lia|]. intros H.
  destruct e; cbn [ev_count] in H; try (right; apply IH; lia);
    destruct (decide (r = r0)) as [->|]; [left | right; apply IH; lia..].
Qed.

Lemma live_blocks_elem p t : 0 < live (RsPool p) t → p ∈ live_blocks t.
Proof.
  intros H. unfold live_blocks. apply elem_of_list_to_set, list_elem_of_filter. split; [done|].
  apply list_elem_of_omap. exists (EvGet (RsPool p)). split; [by apply live_acquired | done].
Qed.

(** ** The ledger *)
Section ledger.
Context {P : Platform}.

Definition used_region (w : World) (i : Z) : Z := if ia_Used (iatu_entry (w_iatu w) i) then 1 else 0.
Definition owned (a : Account) (w : World) : Z :=
  match a with ARes r => live r (w_trace w) | ARegion i => used_region w i end.

(** The buffer structures, without the one that is being built or torn down. *)
Definition heap (O : option Z) (w : World) : gmap Z TT_DMABUF :=
  match O with Some p => delete p (w_dmabufs w) | None => w_dmabufs w end.

Definition held (a : Account) (O : option Z) (w : World) : Z :=
  msum (λ _ c, cnt a (file_assets c)) (w_files w) + msum (λ p d, cnt a (dma_assets p d)) (heap O w).

Definition heap_bytes (O : option Z) (w : World) : Z := msum (λ _ d, db_Size d) (heap O w).

(** A reference from a mapping or pinning of [f]: one of its own slots. *)
Definition own_buffer (f : Z) (o : option Z) (w : World) : Prop :=
  ∀ p, o = Some p → ∃ i, DmaBufs (file_ctx f w) !! i = Some p.

Record ledger (L : list Account) (B : Z) (O : option Z) (w : World) : Prop := {
  ld_balance a : tracked a → owned a w = held a O w + cnt a L;
  ld_iatu : iatu_ok (w_iatu w);
  ld_bytes : DmaBufBytes (w_dma w) = signed64 (heap_bytes O w + B);
  ld_limit : DmaBufLimitBytes (w_dma w) ≠ 0 →
    heap_bytes O w + B ≤ DmaBufLimitBytes (w_dma w) < 2 ^ 62;
  ld_sizes p d : heap O w !! p = Some d → 0 < db_Size d ≤ TT_MAX_DMA_BUF_SIZE;
  ld_slot f i p : DmaBufs (file_ctx f w) !! i = Some p →
    0 ≤ i < TENSTORRENT_MAX_DMA_BUFS ∧ ∃ d, heap O w !! p = Some d ∧ db_Index d = i;
  ld_single f f' i i' p : DmaBufs (file_ctx f w) !! i = Some p →
    DmaBufs (file_ctx f' w) !! i' = Some p → f = f';
  ld_reachable p d : heap O w !! p = Some d → ∃ f i, DmaBufs (file_ctx f w) !! i = Some p;
  ld_views f m : m ∈ Mappings (file_ctx f w) → own_buffer f (um_DmaBuf m) w;
  ld_pins f n : n ∈ Pinnings (file_ctx f w) → own_buffer f (pn_BackingDmaBuf n) w
}.

Definition ledger_comps : list Comp := [CIatu; CDma; CDmaBufs; FMappings; FPinnings; FDmaBufs; FCreator].

Lemma msum_files (g : TT_FILE_CONTEXT → Z) w w' :
  g fc_zero = 0 → (∀ f, g (file_ctx f w') = g (file_ctx f w)) →
  msum (λ _, g) (w_files w') = msum (λ _, g) (w_files w).
Proof.
  intros H0 H. apply msum_ext. intros f. specialize (H f). unfold file_ctx in H.
  destruct (w_files w' !! f), (w_files w !! f); cbn in *; congruence.
Qed.

(** Two states that agree on what the ledger reads. *)
Lemma ledger_agree L B O w w' :
  (∀ c, cmem c ledger_comps = true → agree c w w') →
  (∀ r, rkind r = KRes → live r (w_trace w') = live r (w_trace w)) →
  ledger L B O w → ledger L B O w'.
Proof.
  intros Ha Ht [Hb Hr Hy Hl Hs H1 H2 H3 H4 H5].
  pose proof (Ha CIatu eq_refl) as Ei. pose proof (Ha CDma eq_refl) as Ed. pose proof (Ha CDmaBufs eq_refl) as Eh.
  pose proof (Ha FMappings eq_refl) as Em. pose proof (Ha FPinnings eq_refl) as Ep.
  pose proof (Ha FDmaBufs eq_refl) as Es. pose proof (Ha FCreator eq_refl) as Ec.
  cbn in Ei, Ed, Eh, Em, Ep, Es, Ec. clear Ha.
  assert (heap O w' = heap O w) as EO by (unfold heap; by rewrite Eh).
  split.
  - intros a Hv. specialize (Hb a Hv).
    replace (owned a w') with (owned a w)
      by (destruct a as [r|i]; cbn; [symmetry; by apply Ht | unfold used_region; by rewrite Ei]).
    replace (held a O w') with (held a O w); [done|]. unfold held. rewrite EO. f_equal. symmetry.
    apply (msum_files (λ c, cnt a (file_assets c))); [done|]. intros f. unfold file_assets.
    by rewrite Em, Ep, Ec.
  - by rewrite Ei.
  - unfold heap_bytes in *. by rewrite Ed, EO.
  - unfold heap_bytes in *. by rewrite Ed, EO.
  - rewrite EO. apply Hs.
  - intros f i p. rewrite Es, EO. apply H1.
  - intros f f' i i' p. rewrite !Es. apply H2.
  - intros p d. rewrite EO. intros (f & i & Hf)%H3. exists f, i. by rewrite Es.
  - intros f m. rewrite Em. intros Hm. unfold own_buffer. rewrite Es. by apply H4.
  - intros f n. rewrite Ep. intros Hn. unfold own_buffer. rewrite Es. by apply H5.
Qed.

Lemma live_quiet {A} (m : M A) ks r w :
  Steps (Emits ks) m → kmem KRes ks = false → rkind r = KRes → live r (w_trace (m w).2) = live r (w_trace w).
Proof.
  intros Hm Hk Hr. apply (emits_ind (λ t, live r t = live r (w_trace w)) ks); [done | | done].
  intros e t He Ht. cbn. rewrite Ht. destruct e; cbn; try lia; case_decide as Hd; try lia;
    subst; cbn in He; rewrite Hr in He; congruence.
Qed.

(** Operations that do not touch the accounts. *)
Lemma ledger_quiet {A} L B O (m : M A) fp ks :
  Steps (Frame fp) m → Steps (Emits ks) m → cdisj ledger_comps fp = true → kmem KRes ks = false →
  Steps (Keeps (ledger L B O)) m.
Proof.
  intros Hf He Hd Hk w. unfold Keeps. apply ledger_agree.
  - intros c Hc. apply Hf. unfold cdisj in Hd. rewrite forallb_forall in Hd.
    unfold cmem in Hc. apply bool_decide_eq_true, list_elem_of_In, Hd in Hc. by apply negb_true_iff in Hc.
  - intros r Hr. by eapply live_quiet.
Qed.


End ledger.

(** An operation that leaves the accounts alone, by its footprint and events. *)
Ltac quiet := apply hoare_keeps; eapply ledger_quiet;
  [solve [eauto 2 with frames nocore] | solve [eauto 2 with emits nocore] | reflexivity | reflexivity].

(** ** Primitives *)
Section prim.
Context {P : Platform}.
Implicit Types (L : list Account) (O : option Z).

Lemma ledger_cnt L L' B O w : (∀ a, cnt a L = cnt a L') → ledger L B O w → ledger L' B O w.
Proof. intros H [Hb ? ? ? ? ? ? ? ? ?]. split; try done. intros a Ha. rewrite <- H. by apply Hb. Qed.

(** Only the trace and the platform state move. *)
Lemma ledger_trace L L' B O w w' :
  (∀ c, cmem c (CReqs :: CGate :: ledger_comps) = true → agree c w w') →
  (∀ r, rkind r = KRes → live r (w_trace w') = live r (w_trace w) + cnt (ARes r) L' - cnt (ARes r) L) →
  (∀ i, cnt (ARegion i) L' = cnt (ARegion i) L) →
  ledger L B O w → ledger L' B O w'.
Proof.
  intros Ha Ht Hi HL.
  set (w0 := w' <| w_trace := w_trace w |>).
  assert (ledger L B O w0) as H0.
  { revert HL. apply ledger_agree; [|done]. intros c Hc.
    assert (cmem c (CReqs :: CGate :: ledger_comps) = true) as Hc' by (destruct c; (discriminate Hc || reflexivity)).
    specialize (Ha c Hc'). destruct c; try discriminate Hc; exact Ha. }
  destruct H0 as [Hb ? ? ? ? ? ? ? ? ?]. split; try done.
  intros [r|i] Hv; specialize (Hb _ Hv); cbn in Hb |- *; [|rewrite Hi; exact Hb].
  rewrite (Ht r Hv). change (held (ARes r) O w') with (held (ARes r) O w0). lia.
Qed.

Lemma emit_event_ledger L L' B O e :
  (∀ a, tracked a → cnt a L' = cnt a L + match a with ARes r => ev_count r e | _ => 0 end) →
  (∀ i, cnt (ARegion i) L' = cnt (ARegion i) L) →
  Hoare (ledger L B O) (emit e) (λ _, ledger L' B O).
Proof.
  intros H Hi w HL. eapply ledger_trace; [| | done | exact HL]; [agree_tac|].
  intros r Hr. cbn. specialize (H (ARes r) Hr). cbn in H. lia.
Qed.

Lemma emit_put_ledger L B O r : Hoare (ledger (ARes r :: L) B O) (emit (EvPut r)) (λ _, ledger L B O).
Proof.
  apply emit_event_ledger.
  - intros [r'|i] _; rewrite cnt_cons; unfold one; [|rewrite decide_False by done; lia].
    cbn. destruct (decide (r' = r)) as [->|]; [rewrite decide_True by done|rewrite decide_False by congruence]; lia.
  - intros i. rewrite cnt_cons. unfold one. by rewrite decide_False.
Qed.

Lemma emit_get_ledger L B O r : Hoare (ledger L B O) (emit (EvGet r)) (λ _, ledger (ARes r :: L) B O).
Proof.
  apply emit_event_ledger.
  - intros [r'|i] _; rewrite cnt_cons; unfold one; [|rewrite decide_False by done; lia].
    cbn. destruct (decide (r' = r)) as [->|]; [rewrite decide_True by done|rewrite decide_False by congruence]; lia.
  - intros i. rewrite cnt_cons. unfold one. by rewrite decide_False.
Qed.

Definition resources (t : list Event) : list Account :=
  omap (λ e, match e with EvGet r => Some (ARes r) | _ => None end) t.
Definition no_put (t : list Event) : bool :=
  forallb (λ e, match e with EvPut _ => false | _ => true end) t.

Lemma cnt_resources r t : no_put t = true → cnt (ARes r) (resources t) = live r t.
Proof.
  induction t as [|e t IH]; [done|]. cbn [no_put forallb]. rewrite andb_true_iff. intros [He Ht].
  specialize (IH Ht). cbn [live]. destruct e; try discriminate He; cbn [ev_count];
    try (change (cnt (ARes r) (resources t) = 0 + live r t); lia).
  change (resources (EvGet r0 :: t)) with (ARes r0 :: resources t). rewrite cnt_cons, IH. unfold one.
  destruct (decide (r = r0)) as [->|]; [by rewrite decide_True|by rewrite decide_False by congruence].
Qed.

Lemma cnt_resources_region i t : cnt (ARegion i) (resources t) = 0.
Proof.
  induction t as [|e t IH]; [done|]. by destruct e.
Qed.

Lemma live_app r t1 t2 : live r (t1 ++ t2) = live r t1 + live r t2.
Proof. induction t1 as [|e t1 IH]; cbn; [done|]. lia. Qed.

(** A call that acquires what it logs. *)
Lemma call_ledger {A} L B O (f : OS → A * OS) log :
  (∀ a, no_put (log a) = true) →
  Hoare (ledger L B O) (call f log) (λ a, ledger (resources (log a) ++ L) B O).
Proof.
  intros Hp w HL. eapply ledger_trace; [| | | exact HL]; [agree_tac | |].
  - intros r _. cbn. rewrite cnt_app, cnt_resources, live_app by apply Hp. lia.
  - intros i. rewrite cnt_app, cnt_resources_region. lia.
Qed.

(** The region table changes along with the loose regions. *)
Lemma iatu_set_ledger L L' B O w tbl' :
  iatu_ok tbl' →
  (∀ i, 0 ≤ i < TT_IATU_REGIONS →
    (if ia_Used (iatu_entry tbl' i) then 1 else 0) + cnt (ARegion i) L = used_region w i + cnt (ARegion i) L') →
  (∀ r, cnt (ARes r) L' = cnt (ARes r) L) →
  ledger L B O w → ledger L' B O (w <| w_iatu := tbl' |>).
Proof.
  intros Hn Hi Hr [Hb Hlen ? ? ? ? ? ? ? ?]. split; try done.
  intros [r|i] Hv; specialize (Hb _ Hv).
  - rewrite Hr. exact Hb.
  - specialize (Hi i Hv). change (owned (ARegion i) w) with (used_region w i) in Hb.
    change ((if ia_Used (iatu_entry tbl' i) then 1 else 0) = held (ARegion i) O w + cnt (ARegion i) L'). lia.
Qed.

Lemma cnt_region i j l : cnt (ARegion i) (ARegion j :: l) = (if decide (i = j) then 1 else 0) + cnt (ARegion i) l.
Proof.
  rewrite cnt_cons. unfold one. destruct (decide (i = j)) as [->|]; [by rewrite decide_True|].
  by rewrite decide_False by congruence.
Qed.
Lemma cnt_res_region r i l : cnt (ARes r) (ARegion i :: l) = cnt (ARes r) l.
Proof. done. Qed.

(** The state of one region is set. *)
Lemma iatu_entry_set tbl i j e :
  length tbl = Z.to_nat TT_IATU_REGIONS → 0 ≤ i < TT_IATU_REGIONS → 0 ≤ j < TT_IATU_REGIONS →
  iatu_entry (<[Z.to_nat i := e]> tbl) j = if decide (j = i) then e else iatu_entry tbl j.
Proof.
  unfold iatu_entry, TT_IATU_REGIONS. intros Hl Hi Hj. destruct (decide (j = i)) as [->|Hn].
  - rewrite list_lookup_insert_eq; [done|]. rewrite Hl. lia.
  - rewrite list_lookup_insert_ne; [done|]. intros E. apply Hn. lia.
Qed.

Lemma iatu_alter_set {tbl i} (g : IatuEntry → IatuEntry) :
  length tbl = Z.to_nat TT_IATU_REGIONS → 0 ≤ i < TT_IATU_REGIONS →
  alter g (Z.to_nat i) tbl = <[Z.to_nat i := g (iatu_entry tbl i)]> tbl.
Proof.
  unfold iatu_entry, TT_IATU_REGIONS. intros Hl Hi.
  destruct (tbl !! Z.to_nat i) as [e|] eqn:E; [|apply lookup_ge_None in E; lia].
  cbn. apply list_eq. intros j. destruct (decide (Z.to_nat i = j)) as [<-|Hn].
  - rewrite list_lookup_alter_eq, list_lookup_insert_eq by lia. by rewrite E.
  - by rewrite list_lookup_alter_ne, list_lookup_insert_ne.
Qed.

Lemma claim_ledger L B O w slot e :
  iatu_ok (<[Z.to_nat slot := e]> (w_iatu w)) → 0 ≤ slot < TT_IATU_REGIONS → used_region w slot = 0 → ia_Used e = true → ledger L B O w →
  ledger (ARegion slot :: L) B O (w <| w_iatu := <[Z.to_nat slot := e]> (w_iatu w) |>).
Proof.
  intros Hok Hs Hu He HL. apply (iatu_set_ledger L); [done | | done | exact HL].
  intros i Hi. rewrite iatu_entry_set by (done || apply HL). rewrite cnt_region. unfold used_region in *.
  destruct (decide (i = slot)) as [->|]; [rewrite He; lia | lia].
Qed.

Lemma unclaim_ledger L B O w slot g :
  0 ≤ slot < TT_IATU_REGIONS → (∀ e, ia_Used (g e) = false) → ledger (ARegion slot :: L) B O w →
  ledger L B O (w <| w_iatu := alter g (Z.to_nat slot) (w_iatu w) |>).
Proof.
  intros Hs He HL. apply (iatu_set_ledger (ARegion slot :: L)); [by apply iatu_ok_unused, HL | | done | exact HL].
  intros i Hi. rewrite (iatu_alter_set g) by (done || apply HL). rewrite iatu_entry_set by (done || apply HL).
  rewrite cnt_region. destruct (decide (i = slot)) as [->|]; [|unfold used_region; lia].
  rewrite He. pose proof (ld_balance _ _ _ _ HL (ARegion slot) Hs) as Hb. rewrite cnt_region, decide_True in Hb by done.
  cbn in Hb. assert (0 ≤ held (ARegion slot) O w) as Hh.
  { unfold held. pose proof (msum_nonneg (λ _ c, cnt (ARegion slot) (file_assets c)) (w_files w) (λ _ _, cnt_nonneg _ _)).
    pose proof (msum_nonneg (λ p d, cnt (ARegion slot) (dma_assets p d)) (heap O w) (λ _ _, cnt_nonneg _ _)). lia. }
  pose proof (cnt_nonneg (ARegion slot) L). unfold used_region in *. destruct (ia_Used _); lia.
Qed.

(** ** The region and accounting operations *)
Lemma region_assets_in i : 0 ≤ i < TT_IATU_REGIONS → region_assets i = [ARegion i].
Proof.
  intros Hi. unfold region_assets. by rewrite (proj2 (Z.ltb_ge i 0)), (proj2 (Z.leb_gt TT_IATU_REGIONS i)) by lia.
Qed.

Lemma free_slot_used w slot :
  length (w_iatu w) = Z.to_nat TT_IATU_REGIONS → iatu_free_slot 0 (w_iatu w) = Some slot →
  0 ≤ slot < TT_IATU_REGIONS ∧ used_region w slot = 0.
Proof.
  intros Hl E. pose proof (free_slot_spec 0 (w_iatu w)) as H. rewrite E in H.
  destruct H as (i & e & -> & Hi & He). pose proof (lookup_lt_Some _ _ _ Hi) as Hlt. rewrite Hl in Hlt.
  unfold TT_IATU_REGIONS in *. split; [lia|]. unfold used_region, iatu_entry.
  replace (Z.to_nat (0 + Z.of_nat i)) with i by lia. by rewrite Hi; cbn; rewrite He.
Qed.

Lemma setup_ledger L B O f d n t :
  n ≤ TT_BH_NOC_DMA_LIMIT + 1 → 0 ≤ n →
  Hoare (ledger L B O) (TtSetupNocDma f d n t) (λ r w,
    ledger (region_assets r.2 ++ L) B O w ∧ (NT_SUCCESS r.1.1 = false → r.2 = -1)).
Proof.
  intros Hn Hn0 w HL. unfold TtSetupNocDma. destruct (Z.eqb_spec n 0) as [|Hnz]; [by split|]. run.
  set (w1 := (acquire IatuLock w).2).
  assert (ledger L B O w1) as H1 by (eapply (ledger_quiet _ _ _ (acquire IatuLock)); eauto with frames emits).
  clearbody w1. unfold TtIatuFindAndClaim. run.
  assert (∀ w, ledger L B O w → ledger L B O (release IatuLock w).2) as Hrel
    by (intros w2 H2; eapply (ledger_quiet _ _ _ (release IatuLock)); eauto with frames emits).
  destruct (iatu_find_and_claim f d n (w_iatu w1)) as [[[slot Base] tbl']|] eqn:Ec; [|split; [by apply Hrel | done]].
  assert (iatu_ok tbl') as Hok' by (eapply (find_and_claim_spec f d n); [apply H1 | lia | exact Ec]).
  unfold iatu_find_and_claim in Ec.
  destruct (iatu_free_slot 0 (w_iatu w1)) as [slot'|] eqn:Es; [|done].
  destruct (free_slot_used w1 slot' (io_length _ (ld_iatu _ _ _ _ H1)) Es) as [Hs Hu].
  destruct (iatu_fit _ _ _) as [Base'|]; [|done]. injection Ec as -> -> <-.
  unfold modify. cbn [fst snd].
  pose proof (claim_ledger L B O w1 slot
    (mkIatu true (Some f) Base (wrap64 (Base + n - 1)) (ia_Target (iatu_entry (w_iatu w1) slot))) Hok' Hs Hu eq_refl H1) as H2.
  match type of H2 with ledger _ _ _ ?x => set (w2 := x) in * end. clearbody w2.
  set (c := TtBhConfigureOutboundAtu slot Base (wrap64 (Base + n - 1)) t).
  assert (ledger (ARegion slot :: L) B O (c w2).2) as H3
    by (eapply (ledger_quiet _ _ _ c); eauto with frames emits).
  destruct (c w2) as [s w3]. cbn [fst snd] in *. destruct (NT_SUCCESS s) eqn:Hst; cbn [negb fst snd].
  - rewrite region_assets_in by done. split; [|done].
    eapply (ledger_quiet _ _ _ (release IatuLock)); eauto with frames emits.
  - split; [|done]. apply Hrel. by apply unclaim_ledger.
Qed.

Lemma teardown_ledger L B O i :
  Hoare (ledger (region_assets i ++ L) B O) (TtTeardownNocDma i) (λ _, ledger L B O).
Proof.
  unfold TtTeardownNocDma, region_assets.
  destruct (Z.ltb_spec i 0) as [|H0]; [by intros w|]. destruct (Z.leb_spec TT_IATU_REGIONS i) as [|H1]; [by intros w|].
  cbn [orb app].
  eapply (hoare_seq _ (ledger (ARegion i :: L) B O)); [quiet|].
  apply hoare_gets. intros detached. eapply hoare_pre; [intros w Hw; exact (proj1 Hw)|].
  eapply (hoare_seq _ (ledger (ARegion i :: L) B O)).
  - destruct detached; [by intros w|]. cbn [negb when].
    eapply (hoare_seq _ (ledger (ARegion i :: L) B O)); [quiet | by intros w].
  - eapply (hoare_seq _ (ledger L B O)); [|quiet].
    intros w HL. by apply unclaim_ledger.
Qed.

Lemma heap_bytes_nonneg L B O w : ledger L B O w → 0 ≤ heap_bytes O w.
Proof.
  intros HL. unfold heap_bytes.
  pose proof (ld_sizes _ _ _ _ HL) as Hs. revert Hs. generalize (heap O w). intros h Hs.
  induction h as [|k x h Hk IH] using map_ind; [by rewrite msum_empty|].
  rewrite msum_insert_new by done. specialize (Hs k x) as Hx. rewrite lookup_insert_eq in Hx.
  specialize (Hx eq_refl). assert (0 ≤ msum (λ _ d, db_Size d) h); [|lia].
  apply IH. intros p d Hp. apply (Hs p). by rewrite lookup_insert_ne by congruence.
Qed.

Lemma set_dma_ledger L B B' O w d :
  DmaBufBytes d = signed64 (heap_bytes O w + B') →
  DmaBufLimitBytes d = DmaBufLimitBytes (w_dma w) →
  (DmaBufLimitBytes d ≠ 0 → heap_bytes O w + B' ≤ DmaBufLimitBytes d) →
  ledger L B O w → ledger L B' O (w <| w_dma := d |>).
Proof.
  intros H1 H2 H3 [? ? ? Hl ? ? ? ? ? ?]. split; try done.
  intros E. change (heap_bytes O _) with (heap_bytes O w). cbn in E |- *. rewrite H2 in *.
  specialize (Hl E). specialize (H3 E). lia.
Qed.

Definition with_bytes (w : World) (z : Z) : World := w <| w_dma := w_dma w <| DmaBufBytes := z |> |>.

Lemma reserve_result n w :
  TtDmaAccountReserve n w =
  (let d := w_dma w in let t := signed64 (DmaBufBytes d + n) in
   if negb (DmaBufLimitBytes d =? 0) && (DmaBufLimitBytes d <? wrap64 t)
   then (false, with_bytes w (signed64 (t + - n))) else (true, with_bytes w t)).
Proof.
  unfold TtDmaAccountReserve, interlocked_add, modify. run. cbv zeta.
  change ((DmaBufLimitBytes ∘ w_dma) _) with (DmaBufLimitBytes (w_dma w)).
  change ((DmaBufBytes ∘ w_dma) _) with (signed64 (DmaBufBytes (w_dma w) + n)).
  by destruct (negb _ && _).
Qed.

Lemma reserve_ledger L B O n :
  0 ≤ B → 0 < n ≤ TT_MAX_DMA_BUF_SIZE →
  Hoare (ledger L B O) (TtDmaAccountReserve n) (λ ok, ledger L (if ok then B + n else B) O).
Proof.
  intros HB Hn w HL. rewrite reserve_result. cbv zeta.
  pose proof (heap_bytes_nonneg _ _ _ _ HL) as H0. pose proof (ld_limit _ _ _ _ HL) as Hl.
  rewrite (ld_bytes _ _ _ _ HL), !signed64_add. change TT_MAX_DMA_BUF_SIZE with (2 ^ 28) in Hn.
  destruct (Z.eqb_spec (DmaBufLimitBytes (w_dma w)) 0) as [E|E]; cbn [negb andb fst snd].
  - apply (set_dma_ledger L B); cbn; [by rewrite Z.add_assoc | done | done | done].
  - specialize (Hl E). rewrite (signed64_id (_ + n)), wrap64_id by lia.
    destruct (Z.ltb_spec (DmaBufLimitBytes (w_dma w)) (heap_bytes O w + B + n)) as [Hlt|Hge]; cbn [fst snd].
    + apply (set_dma_ledger L B); cbn; [f_equal; lia | done | lia | done].
    + apply (set_dma_ledger L B); cbn; [rewrite signed64_id; lia | done | lia | done].
Qed.

Lemma release_ledger L B O n : 0 ≤ n → Hoare (ledger L (B + n) O) (TtDmaAccountRelease n) (λ _, ledger L B O).
Proof.
  intros Hn w HL. unfold TtDmaAccountRelease, interlocked_add, modify. run.
  pose proof (ld_limit _ _ _ _ HL) as Hl. pose proof (ld_bytes _ _ _ _ HL) as Hy.
  rewrite Hy, signed64_add. apply (set_dma_ledger L (B + n)); cbn; [f_equal; lia | done | | done].
  intros E. specialize (Hl E). lia.
Qed.

(** ** Changes of the structures *)
Lemma held_upd_file a O f g w :
  held a O (upd_file f g w).2
  = held a O w - cnt a (file_assets (file_ctx f w)) + cnt a (file_assets (g (file_ctx f w))).
Proof.
  unfold held. change (heap O (upd_file f g w).2) with (heap O w).
  change (w_files (upd_file f g w).2) with (<[f := g (file_ctx f w)]> (w_files w)).
  rewrite msum_insert. unfold file_ctx. destruct (w_files w !! f); cbn; lia.
Qed.

Lemma upd_file_ledger L L' B O f g w :
  let c := file_ctx f w in
  DmaBufs (g c) = DmaBufs c →
  (∀ a, cnt a (file_assets (g c)) + cnt a L' = cnt a (file_assets c) + cnt a L) →
  (∀ m, m ∈ Mappings (g c) → own_buffer f (um_DmaBuf m) w) →
  (∀ n, n ∈ Pinnings (g c) → own_buffer f (pn_BackingDmaBuf n) w) →
  ledger L B O w → ledger L' B O (upd_file f g w).2.
Proof.
  intros c Hs Hc Hm Hp [Hb ? ? ? ? H1 H2 H3 H4 H5].
  assert (∀ f', DmaBufs (file_ctx f' (upd_file f g w).2) = DmaBufs (file_ctx f' w)) as Es.
  { intros f'. rewrite upd_file_ctx. by destruct (decide (f = f')) as [<-|]. }
  split; try done.
  - intros a Ha. specialize (Hb a Ha). specialize (Hc a). rewrite held_upd_file. fold c.
    change (owned a (upd_file f g w).2) with (owned a w). lia.
  - intros f' i p. rewrite Es. apply H1.
  - intros f1 f2 i1 i2 p. rewrite !Es. apply H2.
  - intros p d (f' & i & Hi)%H3. exists f', i. by rewrite Es.
  - intros f' m. unfold own_buffer. rewrite Es, upd_file_ctx.
    destruct (decide (f = f')) as [<-|]; [apply Hm | apply H4].
  - intros f' n. unfold own_buffer. rewrite Es, upd_file_ctx.
    destruct (decide (f = f')) as [<-|]; [apply Hp | apply H5].
Qed.

(** The buffer structure that is in no slot comes and goes. *)
Lemma heap_same L B O O' w h :
  (let w' := w <| w_dmabufs := h |> in heap O' w' = heap O w) →
  ledger L B O w → ledger L B O' (w <| w_dmabufs := h |>).
Proof.
  cbv zeta. intros E [Hb ? Hy Hl Hs H1 H2 H3 ? ?]. split; try done.
  - intros a Ha. specialize (Hb a Ha). unfold held in *. rewrite E. exact Hb.
  - unfold heap_bytes. by rewrite E.
  - unfold heap_bytes. by rewrite E.
  - rewrite E. apply Hs.
  - intros f i p. rewrite E. apply H1.
  - intros p d. rewrite E. apply H3.
Qed.

Lemma heap_insert_ledger L B p d w :
  w_dmabufs w !! p = None → ledger L B None w →
  ledger L B (Some p) (w <| w_dmabufs := <[p := d]> (w_dmabufs w) |>).
Proof.
  intros Hp. apply heap_same. cbv zeta. unfold heap. cbn. rewrite delete_insert_eq. by apply delete_id.
Qed.

Lemma heap_delete_ledger L B p w :
  ledger L B (Some p) w → ledger L B None (w <| w_dmabufs := delete p (w_dmabufs w) |>).
Proof. by apply heap_same. Qed.

Lemma file_assets_slots c F : file_assets (c <| DmaBufs := F |>) = file_assets c.
Proof. done. Qed.

(** A buffer moves into a slot, and out of it. *)
Lemma slot_set_ledger L B f i p d w :
  w_dmabufs w !! p = Some d → db_Index d = i → 0 ≤ i < TENSTORRENT_MAX_DMA_BUFS →
  0 < db_Size d ≤ TT_MAX_DMA_BUF_SIZE → DmaBufs (file_ctx f w) !! i = None →
  ledger (dma_assets p d ++ L) (B + db_Size d) (Some p) w →
  ledger L B None (set_dma_slot f i (Some p) w).2.
Proof.
  intros Hd Hi Hr Hz Hn [Hb ? Hy Hl Hs H1 H2 H3 H4 H5].
  assert (∀ f' j q, DmaBufs (file_ctx f' (set_dma_slot f i (Some p) w).2) !! j = Some q
    ↔ (f' = f ∧ j = i ∧ q = p) ∨ DmaBufs (file_ctx f' w) !! j = Some q) as Es.
  { intros f' j q. unfold set_dma_slot. rewrite upd_file_ctx. destruct (decide (f = f')) as [<-|]; [|naive_solver].
    cbn. destruct (decide (i = j)) as [<-|]; [rewrite lookup_insert_eq, Hn | rewrite lookup_insert_ne by done];
      naive_solver. }
  assert (∀ f' j, DmaBufs (file_ctx f' w) !! j = Some p → False) as Hfree.
  { intros f' j (_ & e & He & _)%H1. unfold heap in He. by rewrite lookup_delete_eq in He. }
  assert (∀ q e, w_dmabufs w !! q = Some e ↔ (q = p ∧ e = d) ∨ heap (Some p) w !! q = Some e) as Eh.
  { intros q e. unfold heap. destruct (decide (q = p)) as [->|]; [rewrite lookup_delete_eq | rewrite lookup_delete_ne by done]; naive_solver. }
  assert (∀ a, msum (λ p d, cnt a (dma_assets p d)) (w_dmabufs w)
    = cnt a (dma_assets p d) + msum (λ p d, cnt a (dma_assets p d)) (heap (Some p) w)) as Em.
  { intros a. rewrite (msum_delete _ _ p), Hd. done. }
  assert (heap_bytes None w = db_Size d + heap_bytes (Some p) w) as Eb.
  { unfold heap_bytes. rewrite (msum_delete _ (heap None w) p). cbn [heap]. by rewrite Hd. }
  split.
  - intros a Ha. specialize (Hb a Ha). unfold set_dma_slot. rewrite held_upd_file, file_assets_slots.
    change (owned a (upd_file f _ w).2) with (owned a w). rewrite cnt_app in Hb. unfold held in *.
    specialize (Em a). change (heap None w) with (w_dmabufs w). lia.
  - done.
  - change (DmaBufBytes (w_dma w) = signed64 (heap_bytes None w + B)). rewrite Hy, Eb. f_equal. lia.
  - intros E. change (heap_bytes None w + B ≤ DmaBufLimitBytes (w_dma w) < 2 ^ 62). specialize (Hl E). lia.
  - intros q e [[-> ->]|Hq]%(Eh q e : heap None (set_dma_slot f i (Some p) w).2 !! q = Some e ↔ _); [done | by eapply Hs].
  - intros f' j q [(-> & -> & ->)|Hj]%Es; [split; [done|]; by exists d|].
    destruct (H1 _ _ _ Hj) as (? & e & He & ?). split; [done|]. exists e. split; [|done]. apply Eh. by right.
  - intros f1 f2 i1 i2 q [(-> & -> & ->)|Ha]%Es [(-> & -> & Hq)|Hb']%Es; subst; try done;
      [by apply Hfree in Hb' | by apply Hfree in Ha | by eapply H2].
  - intros q e [[-> ->]|Hq]%(Eh q e : heap None (set_dma_slot f i (Some p) w).2 !! q = Some e ↔ _).
    + exists f, i. apply Es. by left.
    + destruct (H3 _ _ Hq) as (f' & j & Hj). exists f', j. apply Es. by right.
  - intros f' m Hm q Hq. assert (m ∈ Mappings (file_ctx f' w)) as Hm'.
    { revert Hm. unfold set_dma_slot. rewrite upd_file_ctx. by destruct (decide (f = f')) as [<-|]. }
    destruct (H4 _ _ Hm' _ Hq) as [j Hj]. exists j. apply Es. by right.
  - intros f' n Hm q Hq. assert (n ∈ Pinnings (file_ctx f' w)) as Hm'.
    { revert Hm. unfold set_dma_slot. rewrite upd_file_ctx. by destruct (decide (f = f')) as [<-|]. }
    destruct (H5 _ _ Hm' _ Hq) as [j Hj]. exists j. apply Es. by right.
Qed.

Lemma slot_unique L B O w f i f' i' p :
  ledger L B O w → DmaBufs (file_ctx f w) !! i = Some p → DmaBufs (file_ctx f' w) !! i' = Some p → f = f' ∧ i = i'.
Proof.
  intros HL H1 H2. split; [by eapply (ld_single _ _ _ _ HL)|].
  destruct (ld_slot _ _ _ _ HL _ _ _ H1) as (_ & d & Hd & <-).
  destruct (ld_slot _ _ _ _ HL _ _ _ H2) as (_ & d' & Hd' & <-). congruence.
Qed.

Lemma slot_clear_ledger L B f i p d w :
  DmaBufs (file_ctx f w) !! i = Some p → w_dmabufs w !! p = Some d →
  (∀ m, m ∈ Mappings (file_ctx f w) → um_DmaBuf m ≠ Some p) →
  (∀ n, n ∈ Pinnings (file_ctx f w) → pn_BackingDmaBuf n ≠ Some p) →
  ledger L B None w →
  ledger (dma_assets p d ++ L) (B + db_Size d) (Some p) (set_dma_slot f i None w).2.
Proof.
  intros Hi Hd Hm Hn HL. pose proof (slot_unique L B None w) as Hu.
  assert (∀ f' j q, DmaBufs (file_ctx f' (set_dma_slot f i None w).2) !! j = Some q
    ↔ DmaBufs (file_ctx f' w) !! j = Some q ∧ q ≠ p) as Es.
  { intros f' j q. unfold set_dma_slot. rewrite upd_file_ctx. destruct (decide (f = f')) as [<-|Hf].
    - cbn. destruct (decide (i = j)) as [<-|Hj]; [rewrite lookup_delete_eq, Hi; naive_solver|].
      rewrite lookup_delete_ne by done. split; [|naive_solver]. intros Hq. split; [done|]. intros ->.
      by destruct (Hu _ _ _ _ _ HL Hi Hq).
    - split; [|naive_solver]. intros Hq. split; [done|]. intros ->. by destruct (Hu _ _ _ _ _ HL Hi Hq). }
  destruct HL as [Hb ? Hy Hl Hs H1 H2 H3 H4 H5].
  assert (∀ a, msum (λ p d, cnt a (dma_assets p d)) (w_dmabufs w)
    = cnt a (dma_assets p d) + msum (λ p d, cnt a (dma_assets p d)) (heap (Some p) w)) as Em.
  { intros a. rewrite (msum_delete _ _ p), Hd. done. }
  assert (heap_bytes None w = db_Size d + heap_bytes (Some p) w) as Eb.
  { unfold heap_bytes. rewrite (msum_delete _ (heap None w) p). cbn [heap]. by rewrite Hd. }
  split.
  - intros a Ha. specialize (Hb a Ha). unfold set_dma_slot. rewrite held_upd_file, file_assets_slots.
    change (owned a (upd_file f _ w).2) with (owned a w). rewrite cnt_app. unfold held in *.
    specialize (Em a). change (heap None w) with (w_dmabufs w) in Hb. lia.
  - done.
  - change (DmaBufBytes (w_dma w) = signed64 (heap_bytes (Some p) w + (B + db_Size d))). rewrite Hy, Eb. f_equal. lia.
  - intros E. change (heap_bytes (Some p) w + (B + db_Size d) ≤ DmaBufLimitBytes (w_dma w) < 2 ^ 62).
    specialize (Hl E). lia.
  - intros q e Hq. apply (Hs q). cbn in Hq |- *. by apply lookup_delete_Some in Hq as [_ Hq].
  - intros f' j q [Hj Hqp]%Es. destruct (H1 _ _ _ Hj) as (? & e & He & ?). split; [done|]. exists e. split; [|done].
    cbn. by rewrite lookup_delete_ne.
  - intros f1 f2 i1 i2 q [Ha _]%Es [Hb' _]%Es. by eapply H2.
  - intros q e Hq. cbn in Hq. apply lookup_delete_Some in Hq as [Hqp Hq].
    destruct (H3 q e Hq) as (f' & j & Hj). exists f', j. apply Es. done.
  - intros f' m Hin q Hq. assert (m ∈ Mappings (file_ctx f' w)) as Hm'.
    { revert Hin. unfold set_dma_slot. rewrite upd_file_ctx. by destruct (decide (f = f')) as [<-|]. }
    destruct (H4 _ _ Hm' _ Hq) as [j Hj]. exists j. apply Es. split; [done|]. intros ->.
    destruct (decide (f = f')) as [<-|Hf]; [by apply (Hm m) | by apply Hf, (H2 _ _ _ _ _ Hi Hj)].
  - intros f' m Hin q Hq. assert (m ∈ Pinnings (file_ctx f' w)) as Hm'.
    { revert Hin. unfold set_dma_slot. rewrite upd_file_ctx. by destruct (decide (f = f')) as [<-|]. }
    destruct (H5 _ _ Hm' _ Hq) as [j Hj]. exists j. apply Es. split; [done|]. intros ->.
    destruct (decide (f = f')) as [<-|Hf]; [by apply (Hn m) | by apply Hf, (H2 _ _ _ _ _ Hi Hj)].
Qed.

(** A pool block that the allocator hands out is not one in use. *)
Lemma pool_alloc_ledger `{!PoolLaws P} L B O tag :
  Hoare (ledger L B O) (pool_alloc tag) (λ o w,
    ledger (opt_assets (λ p, [ARes (RsPool p)]) o ++ L) B O w
    ∧ ∀ p, o = Some p → O = None → w_dmabufs w !! p = None).
Proof.
  intros w HL. unfold pool_alloc. run. split.
  - eapply ledger_cnt; [|eapply call_ledger; [|exact HL]]; [|by intros []].
    intros a. by destruct (_.1).
  - intros p Hp ->. change (w_dmabufs (call _ _ w).2) with (w_dmabufs w).
    destruct (w_dmabufs w !! p) as [d|] eqn:E; [exfalso | done].
    unfold call in Hp. cbn [fst] in Hp.
    destruct (ExAllocatePool2 tag _ (w_os w)) as [o os] eqn:Ex. cbn in Hp. subst o.
    apply pool_fresh in Ex. apply Ex, live_blocks_elem.
    pose proof (ld_balance _ _ _ _ HL (ARes (RsPool p)) eq_refl) as Hb. cbn [owned] in Hb. rewrite Hb.
    assert (1 ≤ cnt (ARes (RsPool p)) (dma_assets p d)) as H1
      by (apply cnt_elem; unfold dma_assets; set_solver).
    unfold held. cbn [heap].
    pose proof (msum_elem (λ p' d', cnt (ARes (RsPool p)) (dma_assets p' d')) _ _ _ (λ _ _, cnt_nonneg _ _) E).
    pose proof (msum_nonneg (λ _ c, cnt (ARes (RsPool p)) (file_assets c)) (w_files w) (λ _ _, cnt_nonneg _ _)).
    pose proof (cnt_nonneg (ARes (RsPool p)) L). cbn beta in *. lia.
Qed.
End prim.

(** ** Composition *)
Section compose.
Context {P : Platform}.

Lemma hoare_perm {A} L L' B O Φ (m : M A) R :
  (∀ a, cnt a L = cnt a L') →
  Hoare (λ w, ledger L' B O w ∧ Φ w) m R → Hoare (λ w, ledger L B O w ∧ Φ w) m R.
Proof. intros H Hm w [HL HΦ]. apply Hm. split; [|done]. by eapply ledger_cnt. Qed.

(** A fact about other components rides along. *)
Lemma hoare_frame {A} Q Φ ds fp (m : M A) (R : A → World → Prop) :
  Hoare Q m R → Steps (Frame fp) m → Reads ds Φ → cdisj ds fp = true →
  Hoare (λ w, Q w ∧ Φ w) m (λ a w, R a w ∧ Φ w).
Proof. intros Hm Hf Hr Hd w [HQ HΦ]. split; [by apply Hm|]. by eapply (steps_keeps Φ). Qed.
End compose.
