(* ===== verification/MemorySpec.v ===== *)
(** * The memory handlers keep the ledger

    Every handler of memory.c, on every path, releases what it does not store:
    from a balanced ledger it returns to a balanced ledger. *)
From S2P Require Import Prelude Abi Platform Frame Trace Sim IoSpec PciConfig Blackhole Iatu.
From S2P Require Import IatuSpec Tlb Memory Ledger.

(** ** Requests hold bytes *)
Definition bytes (b : list Z) : Prop := Forall (λ x, 0 ≤ x < 256) b.

Lemma bytes_sget T f n b : bytes b → 0 ≤ sget T f (take n b).
Proof.
  intros Hb. unfold sget, bytes_at. apply le_decode_range. unfold bytes in *.
  apply Forall_take, Forall_drop, Forall_take, Hb.
Qed.

Section spec.
Context {P : Platform}.
Implicit Types (L : list Account) (O : option Z).

Definition byte_buffer (r : Z) (w : World) : Prop := bytes (rq_Buffer (req_state r w)).

Lemma byte_buffer_reads r : Reads [CReqs] (byte_buffer r).
Proof.
  intros w w' Ha. unfold byte_buffer, req_state. by rewrite (Ha CReqs eq_refl : w_reqs w' = w_reqs w).
Qed.

Lemma copy_in_hoare (Q : World → Prop) r n :
  Hoare (λ w, Q w ∧ byte_buffer r w) (TtCopyInBuffer r n) (λ c w, Q w ∧ ∃ b, bytes b ∧ c.2 = take (Z.to_nat n) b).
Proof.
  intros w [HQ Hb]. unfold TtCopyInBuffer. run. destruct (negb _); (split; [done|]).
  - exists []. split; [by constructor|]. by destruct (Z.to_nat n).
  - by eexists.
Qed.

Definition slot_free (f i : Z) (w : World) : Prop := DmaBufs (file_ctx f w) !! i = None.
Lemma slot_free_reads f i : Reads [FDmaBufs] (slot_free f i).
Proof. intros w w' Ha. unfold slot_free. by rewrite (Ha FDmaBufs eq_refl f : DmaBufs _ = DmaBufs _). Qed.
Lemma own_buffer_reads f o : Reads [FDmaBufs] (own_buffer f o).
Proof. intros w w' Ha. unfold own_buffer. by rewrite (Ha FDmaBufs eq_refl f : DmaBufs _ = DmaBufs _). Qed.

Definition unlocked {A} L B O (m : M A) : Prop := Hoare (ledger L B O) m (λ _, ledger L B O).

(** ** DMA buffers *)
Lemma object_delete_ledger L B O b :
  Hoare (ledger (ARes (RsCommonBuffer b) :: L) B O) (WdfObjectDelete b) (λ _, ledger L B O).
Proof. apply emit_put_ledger. Qed.

Lemma free_block_ledger L B p :
  Hoare (ledger (ARes (RsPool p) :: L) B (Some p)) (free_dmabuf_block p) (λ _, ledger L B None).
Proof.
  unfold free_dmabuf_block. eapply hoare_seq; [apply emit_put_ledger|].
  apply hoare_modify. intros w. apply heap_delete_ledger.
Qed.

Lemma ledger_perm {A} L L' B O (m : M A) R :
  (∀ a, cnt a L = cnt a L') → Hoare (ledger L' B O) m R → Hoare (ledger L B O) m R.
Proof. intros H Hm w HL. apply Hm. by eapply ledger_cnt. Qed.

Lemma destroy_ledger L B p d :
  0 ≤ db_Size d →
  Hoare (λ w, ledger (dma_assets p d ++ L) (B + db_Size d) (Some p) w ∧ w_dmabufs w !! p = Some d)
    (TtDmaBufDestroy p) (λ _, ledger L B None).
Proof.
  intros Hz. unfold TtDmaBufDestroy. apply hoare_gets. intros d'.
  eapply (hoare_pre _ (λ w, ledger (dma_assets p d ++ L) (B + db_Size d) (Some p) w ∧ d' = d)).
  { unfold dmabuf_at. intros w [[HL Hd] <-]. rewrite Hd. done. }
  apply hoare_pure. intros ->. unfold dma_assets. rewrite <- app_assoc.
  eapply hoare_seq; [apply teardown_ledger|]. eapply hoare_seq; [apply object_delete_ledger|].
  eapply hoare_seq; [by apply release_ledger|]. apply free_block_ledger.
Qed.

Lemma alloc_fail_ledger L B f n o r b s :
  0 ≤ n →
  Hoare (ledger (opt_assets (λ p, [ARes (RsPool p)]) o ++ region_assets r
                 ++ opt_assets (λ b, [ARes (RsCommonBuffer b)]) b ++ L) (B + n) o)
    (dma_alloc_fail f n o r b s) (λ _, ledger L B None).
Proof.
  intros Hn. unfold dma_alloc_fail.
  eapply (hoare_seq _ (ledger (region_assets r ++ opt_assets (λ b, [ARes (RsCommonBuffer b)]) b ++ L) (B + n) None)).
  { destruct o as [p|]; [apply free_block_ledger | by intros w]. }
  eapply hoare_seq; [apply teardown_ledger|].
  eapply (hoare_seq _ (ledger L (B + n) None)).
  { destruct b as [b|]; [apply object_delete_ledger | by intros w]. }
  eapply hoare_seq; [by apply release_ledger|]. eapply hoare_seq; [quiet | by intros w].
Qed.

(** The sized reply moves no account. *)
Lemma sized_out_ledger L B O r off out n d :
  Hoare (ledger L B O) (TtCompleteSizedOutBuffer r off out n d) (λ _, ledger L B O).
Proof. quiet. Qed.

Lemma alloc_finish_ledger L B f r n i b l a reg :
  0 < n ≤ TT_MAX_DMA_BUF_SIZE → 0 ≤ i < TENSTORRENT_MAX_DMA_BUFS → ∀ `{!PoolLaws P},
  Hoare (λ w, ledger (region_assets reg ++ ARes (RsCommonBuffer b) :: L) (B + n) None w ∧ slot_free f i w)
    (dma_alloc_finish f r n i b l a reg) (λ _, ledger L B None).
Proof.
  intros Hn Hi HP. unfold dma_alloc_finish.
  eapply hoare_bind.
  { eapply (hoare_frame _ (slot_free f i)); [apply pool_alloc_ledger | eauto with frames | apply slot_free_reads | done]. }
  intros [p|]; cbn beta.
  - set (d := mkDmaBuf b n i l reg).
    eapply (hoare_seq _ (λ w, (ledger (dma_assets p d ++ L) (B + n) (Some p) w ∧ slot_free f i w) ∧ w_dmabufs w !! p = Some d)).
    { apply hoare_modify. intros w [[HL Hf] Hs]. split; [split; [|done]|by apply lookup_insert_eq].
      apply heap_insert_ledger; [by apply Hf|]. eapply ledger_cnt; [|exact HL]. unfold dma_assets, d.
      cbn [opt_assets from_option db_IatuRegion db_Buffer]. cnt_tac. }
    eapply hoare_bind.
    { eapply (hoare_frame _ (λ w, w_dmabufs w !! p = Some d) [CDmaBufs]); [|eauto with frames| |done].
      - eapply (hoare_frame _ (slot_free f i)); [apply sized_out_ledger | eauto with frames | apply slot_free_reads | done].
      - intros w w' Ha. by rewrite (Ha CDmaBufs eq_refl : w_dmabufs w' = w_dmabufs w). }
    intros s. apply hoare_if; intros _.
    + eapply hoare_pre; [|apply (alloc_fail_ledger L B f n (Some p) reg (Some b)); lia].
      intros w [[HL _] _]. eapply ledger_cnt; [|exact HL]. unfold dma_assets, d.
      cbn [opt_assets from_option db_IatuRegion db_Buffer]. cnt_tac.
    + eapply (hoare_seq _ (ledger L B None)); [|eapply hoare_seq; [quiet | by intros w]].
      intros w [[HL Hs] Hd]. by apply (slot_set_ledger L B f i p d).
  - eapply hoare_pre; [|apply (alloc_fail_ledger L B f n None reg (Some b)); lia].
    intros w [[HL _] _]. eapply ledger_cnt; [|exact HL]. cbn [opt_assets from_option]. cnt_tac.
Qed.

(** The driver at rest: every asset is stored in a structure. *)
Definition balanced : World → Prop := ledger [] 0 None.

Ltac seq_quiet := eapply hoare_seq; [quiet|].
Ltac drop_fact := eapply hoare_pre; [intros ? Hw; exact (proj1 Hw)|].

Lemma alloc_buffer_ledger `{!PoolLaws P} f r n i g :
  0 < n ≤ TT_MAX_DMA_BUF_SIZE → 0 ≤ i < TENSTORRENT_MAX_DMA_BUFS →
  Hoare (λ w, ledger [] n None w ∧ slot_free f i w) (dma_alloc_buffer f r n i g) (λ _, balanced).
Proof.
  intros Hn Hi. unfold dma_alloc_buffer.
  eapply hoare_bind.
  { eapply (hoare_frame _ (slot_free f i)); [apply call_ledger; by intros [] | eauto with frames | apply slot_free_reads | done]. }
  intros [b|]; cbn beta; [|drop_fact; apply (alloc_fail_ledger [] 0 f n None (-1) None); lia].
  apply hoare_gets. intros l. drop_fact. cbn [got resources omap list_omap app].
  eapply (hoare_seq _ (λ w, ledger [ARes (RsCommonBuffer b)] n None w ∧ slot_free f i w)).
  { eapply (hoare_frame _ (slot_free f i)); [quiet | eauto with frames | apply slot_free_reads | done]. }
  apply hoare_if; intros _; [drop_fact; apply (alloc_fail_ledger [] 0 f n None (-1) (Some b)); lia|].
  apply hoare_if; intros _; [|by apply (alloc_finish_ledger [] 0 f r n i b l 0 (-1))].
  eapply hoare_bind.
  { eapply (hoare_frame _ (slot_free f i)); [| eauto with frames | apply slot_free_reads | done].
    change TT_MAX_DMA_BUF_SIZE with (2 ^ 28) in Hn. apply setup_ledger; [rewrite noc_limit_val; lia | lia]. }
  intros [[s a] reg]. cbn [fst snd]. apply hoare_if; intros Hs.
  - eapply hoare_pre; [|apply (alloc_fail_ledger [] 0 f n None reg (Some b)); lia]. by intros w [[HL _] _].
  - eapply hoare_pre; [|by apply (alloc_finish_ledger [] 0 f r n i b l a reg)]. by intros w [[HL _] Hf].
Qed.

Lemma size_checks n :
  (n =? 0) || negb (n mod PAGE_SIZE =? 0) || (TT_MAX_DMA_BUF_SIZE <? n) = false → 0 ≤ n →
  0 < n ≤ TT_MAX_DMA_BUF_SIZE.
Proof. rewrite !orb_false_iff, Z.eqb_neq, Z.ltb_ge. lia. Qed.

Lemma allocate_balanced `{!PoolLaws P} f r :
  Hoare (λ w, balanced w ∧ byte_buffer r w) (TtIoctlAllocateDmaBuf f r) (λ _, balanced).
Proof.
  unfold TtIoctlAllocateDmaBuf. eapply hoare_bind; [apply copy_in_hoare|].
  intros [s b]. cbn [fst snd]. apply hoare_pure. intros (b' & Hb & ->).
  apply hoare_if; intros _; [by intros w|].
  pose proof (bytes_sget tenstorrent_allocate_dma_buf_in "requested_size" (Z.to_nat (c_sizeof tenstorrent_allocate_dma_buf_in)) _ Hb) as Hn.
  pose proof (bytes_sget tenstorrent_allocate_dma_buf_in "buf_index" (Z.to_nat (c_sizeof tenstorrent_allocate_dma_buf_in)) _ Hb) as Hi.
  revert Hn Hi. generalize (sget tenstorrent_allocate_dma_buf_in "requested_size" (take (Z.to_nat (c_sizeof tenstorrent_allocate_dma_buf_in)) b')) as n.
  generalize (sget tenstorrent_allocate_dma_buf_in "buf_index" (take (Z.to_nat (c_sizeof tenstorrent_allocate_dma_buf_in)) b')) as i.
  intros i n Hn Hi. apply hoare_gets. intros en. drop_fact.
  apply hoare_if; intros _; [by intros w|]. apply hoare_if; intros Hi'; [by intros w|].
  apply hoare_if; intros Hc; [by intros w|]. apply Z.leb_gt in Hi'. pose proof (size_checks n Hc Hn) as Hn'.
  seq_quiet. unfold TtGetFileContext. apply hoare_gets. intros c.
  destruct (DmaBufs c !! i) eqn:E.
  - drop_fact. seq_quiet. by intros w.
  - eapply hoare_bind.
    { eapply hoare_pre; [|eapply (hoare_frame balanced (slot_free f i));
        [by apply (reserve_ledger [] 0 None n) | eauto with frames | apply slot_free_reads | done]].
      intros w [HL <-]. done. }
    intros ok. cbn beta. destruct ok; cbn [negb].
    + by apply alloc_buffer_ledger.
    + drop_fact. seq_quiet. by intros w.
Qed.

(** FREE_DMA_BUF_EX *)
Lemma existsb_false {A} (g : A → bool) l : existsb g l = false → ∀ x, x ∈ l → g x = false.
Proof.
  intros H x Hx. destruct (g x) eqn:E; [|done]. exfalso. apply not_true_iff_false in H. apply H.
  apply existsb_exists. exists x. by rewrite <- list_elem_of_In.
Qed.

Lemma unref_destroy f i p :
  Hoare (λ w, balanced w ∧ DmaBufs (file_ctx f w) !! i = Some p
      ∧ (∀ m, m ∈ Mappings (file_ctx f w) → um_DmaBuf m ≠ Some p)
      ∧ (∀ n, n ∈ Pinnings (file_ctx f w) → pn_BackingDmaBuf n ≠ Some p))
    (set_dma_slot f i None;; TtDmaBufDestroy p) (λ _, balanced).
Proof.
  intros w (HL & Hi & Hm & Hn).
  destruct (ld_slot _ _ _ _ HL _ _ _ Hi) as (_ & d & Hd & _). cbn in Hd.
  pose proof (ld_sizes _ _ _ _ HL _ _ Hd) as Hz.
  apply (destroy_ledger [] 0 p d); [lia|]. split; [|done].
  by apply slot_clear_ledger.
Qed.

Lemma free_ex_balanced f r : Steps (Keeps balanced) (TtIoctlFreeDmaBufEx f r).
Proof.
  apply hoare_keeps. unfold TtIoctlFreeDmaBufEx.
  eapply hoare_bind; [quiet|]. intros c. apply hoare_if; intros _; [by intros w|].
  apply hoare_if; intros _; [by intros w|]. seq_quiet.
  unfold TtGetFileContext. apply hoare_gets. intros fc.
  eapply (hoare_bind _ (λ _, balanced)); [|intros s; seq_quiet; by intros w].
  destruct (DmaBufs fc !! _) as [p|] eqn:E; [|by drop_fact; intros w].
  apply hoare_if; intros Hm; [by drop_fact; intros w|]. apply hoare_if; intros Hn; [by drop_fact; intros w|].
  pose proof (existsb_false _ _ Hm) as Hm'. pose proof (existsb_false _ _ Hn) as Hn'.
  intros w [HL <-].
  match goal with |- balanced (((set_dma_slot ?f ?i None;; _) w).2) =>
    apply (unref_destroy f i p w) end.
  split_and!; [done | done | |]; intros x Hx.
  - specialize (Hm' x Hx). by apply bool_decide_eq_false in Hm'.
  - specialize (Hn' x Hx). by apply bool_decide_eq_false in Hn'.
Qed.

(** ** Mappings *)
Lemma no_buffer_own f w : own_buffer f None w.
Proof. by intros p. Qed.

Lemma resolve_target_ledger f o n :
  Hoare balanced (TtResolveMapTarget f o n) (λ r w, balanced w ∧ own_buffer f (mt_DmaBuf r.2) w).
Proof.
  unfold TtResolveMapTarget.
  apply hoare_if; intros _.
  - unfold resolve_dma. cbv zeta. apply hoare_if; intros _; [by intros w|].
    unfold TtGetFileContext. apply hoare_gets. intros c. destruct (DmaBufs c !! _) as [p|] eqn:E; [|by intros w []].
    apply hoare_gets. intros d. apply hoare_if; intros _; [by intros w [[] _]|].
    apply hoare_gets. intros ph w [[[HL <-] _] _]. split; [done|]. intros q [= <-]. by eexists.
  - apply hoare_if; intros _.
    + apply hoare_gets. intros b w [HL _]. cbn. split; [done|]. unfold resolve_bar. cbv zeta.
      destruct (_ || _); apply no_buffer_own.
    + apply hoare_if; intros _; [|by intros w].
      intros w HL. split; [exact (ledger_quiet _ _ _ _ _ _ (resolve_tlb_frame f o n) (resolve_tlb_emits f o n) eq_refl eq_refl w HL)|].
      unfold resolve_tlb. cbv zeta. destruct (tlb_token_decode _ _) as [[[bar off] id]|]; [|apply no_buffer_own].
      run. destruct (_ || _); [apply no_buffer_own|]. run. destruct (_ || _); apply no_buffer_own.
Qed.

Lemma emit_quiet L B O e : ekind e ≠ KRes → Hoare (ledger L B O) (emit e) (λ _, ledger L B O).
Proof.
  intros He. apply hoare_keeps. eapply ledger_quiet; [apply emit_frame | apply emit_emits | done |].
  unfold kmem. apply bool_decide_eq_false. set_solver.
Qed.

Lemma destroy_mapping_ledger L B O m :
  Hoare (ledger (map_assets m ++ L) B O) (TtDestroyUserMapping m) (λ _, ledger L B O).
Proof.
  unfold TtDestroyUserMapping, map_assets. rewrite <- !app_assoc.
  eapply hoare_seq.
  { instantiate (1 := ledger (opt_assets (λ m, [ARes (RsMdl (mdl_Handle m))]) (um_Mdl m)
      ++ opt_assets (λ p, [ARes (RsProcess p)]) (um_Process m) ++ [ARes (RsPool (um_Block m))] ++ L) B O).
    destruct (um_UserVa m) as [va|]; [|by intros w]. destruct (um_Mdl m) as [mdl|]; [|by intros w].
    apply hoare_gets. intros cur. drop_fact. cbn [view_assets].
    destruct (um_Process m) as [p|]; [|apply emit_put_ledger].
    apply hoare_if; intros _; [apply emit_put_ledger|].
    eapply hoare_seq; [by apply emit_quiet|]. eapply hoare_seq; [apply emit_put_ledger|]. by apply emit_quiet. }
  eapply hoare_seq.
  { instantiate (1 := ledger (opt_assets (λ p, [ARes (RsProcess p)]) (um_Process m) ++ [ARes (RsPool (um_Block m))] ++ L) B O).
    destruct (um_Mdl m); [apply emit_put_ledger | by intros w]. }
  eapply hoare_seq; [|apply emit_put_ledger].
  destruct (um_Process m); [apply emit_put_ledger | by intros w].
Qed.

Lemma map_fail_ledger L B O f m s :
  Hoare (ledger (map_assets m ++ L) B O) (map_fail f m s) (λ _, ledger L B O).
Proof.
  unfold map_fail. eapply hoare_seq; [apply destroy_mapping_ledger|]. seq_quiet. by intros w.
Qed.

(** A structure is linked into a list of its handle. *)
Lemma link_mapping L B O f m w :
  own_buffer f (um_DmaBuf m) w → ledger (map_assets m ++ L) B O w →
  ledger L B O (upd_file f (λ c, c <| Mappings := Mappings c ++ [m] |>) w).2.
Proof.
  intros Hm HL. eapply upd_file_ledger; [done | | | | exact HL].
  - intros a. unfold file_assets. cbn [Mappings Pinnings CreatorProcess upd set_Mappings].
    rewrite !cnt_app, cnt_join_app, cnt_join_cons. cbn. change (cnt a (mjoin (map_assets <$> []))) with 0. lia.
  - intros m'. cbn. rewrite elem_of_app, list_elem_of_singleton. intros [Hin| ->]; [by apply (ld_views _ _ _ _ HL) | done].
  - intros n. cbn. apply (ld_pins _ _ _ _ HL).
Qed.

Lemma link_pinning L B O f n w :
  own_buffer f (pn_BackingDmaBuf n) w → ledger (pin_assets n ++ L) B O w →
  ledger L B O (upd_file f (λ c, c <| Pinnings := Pinnings c ++ [n] |>) w).2.
Proof.
  intros Hm HL. eapply upd_file_ledger; [done | | | | exact HL].
  - intros a. unfold file_assets. cbn [Mappings Pinnings CreatorProcess upd set_Pinnings].
    rewrite !cnt_app, cnt_join_app, cnt_join_cons. change (cnt a (mjoin (pin_assets <$> []))) with 0. lia.
  - intros m. cbn. apply (ld_views _ _ _ _ HL).
  - intros n'. cbn. rewrite elem_of_app, list_elem_of_singleton. intros [Hin| ->]; [by apply (ld_pins _ _ _ _ HL) | done].
Qed.

(** ... and out of it. *)
Lemma unlink_mapping L B O f m l1 l2 w :
  Mappings (file_ctx f w) = l1 ++ m :: l2 → ledger L B O w →
  ledger (map_assets m ++ L) B O (upd_file f (λ c, c <| Mappings := l1 ++ l2 |>) w).2.
Proof.
  intros E HL. eapply upd_file_ledger; [done | | | | exact HL].
  - intros a. unfold file_assets. cbn [Mappings Pinnings CreatorProcess upd set_Mappings].
    rewrite E, !cnt_app, !cnt_join_app, cnt_join_cons. lia.
  - intros m'. cbn. intros Hin. apply (ld_views _ _ _ _ HL). rewrite E. set_solver.
  - intros n. cbn. apply (ld_pins _ _ _ _ HL).
Qed.

Lemma unlink_pinning L B O f n l1 l2 w :
  Pinnings (file_ctx f w) = l1 ++ n :: l2 → ledger L B O w →
  ledger (pin_assets n ++ L) B O (upd_file f (λ c, c <| Pinnings := l1 ++ l2 |>) w).2.
Proof.
  intros E HL. eapply upd_file_ledger; [done | | | | exact HL].
  - intros a. unfold file_assets. cbn [Mappings Pinnings CreatorProcess upd set_Pinnings].
    rewrite E, !cnt_app, !cnt_join_app, cnt_join_cons. lia.
  - intros m. cbn. apply (ld_views _ _ _ _ HL).
  - intros n'. cbn. intros Hin. apply (ld_pins _ _ _ _ HL). rewrite E. set_solver.
Qed.

Lemma map_view_ledger f r t block len tlb isdma proc :
  Hoare (λ w, ledger [ARes (RsProcess proc); ARes (RsPool block)] 0 None w ∧ own_buffer f (mt_DmaBuf t) w)
    (map_view f r t (mkMapping block None None len tlb isdma (mt_DmaBuf t) (Some proc))) (λ _, balanced).
Proof.
  unfold map_view, TtBuildPhysicalMdl. set (L0 := [ARes (RsProcess proc); ARes (RsPool block)]).
  set (m0 := mkMapping block None None len tlb isdma (mt_DmaBuf t) (Some proc)).
  eapply (hoare_bind _ (λ o w, ledger (opt_assets (λ m, [ARes (RsMdl (mdl_Handle m))]) o ++ L0) 0 None w
    ∧ own_buffer f (mt_DmaBuf t) w)).
  { eapply hoare_bind.
    - eapply (hoare_frame _ (own_buffer f (mt_DmaBuf t))); [apply call_ledger; by intros [] | eauto with frames | apply own_buffer_reads | done].
    - intros [h|]; by intros w. }
  intros [m|]; cbn beta; [|drop_fact; apply (map_fail_ledger [] 0 None f m0)].
  set (m1 := m0 <| um_Mdl := Some m |>).
  eapply (hoare_seq _ (λ w, ledger (map_assets m1) 0 None w ∧ own_buffer f (mt_DmaBuf t) w)).
  { eapply (hoare_frame _ (own_buffer f (mt_DmaBuf t))); [by apply emit_quiet | eauto with frames | apply own_buffer_reads | done]. }
  eapply hoare_bind.
  { eapply (hoare_frame _ (own_buffer f (mt_DmaBuf t))); [apply call_ledger; by intros [] | eauto with frames | apply own_buffer_reads | done]. }
  intros [va|]; cbn beta.
  2: { drop_fact. eapply hoare_pre; [|apply (map_fail_ledger [] 0 None f m1)]. intros w HL.
       eapply ledger_cnt; [|exact HL]. cbn [got resources omap list_omap]. cnt_tac. }
  set (m2 := m1 <| um_UserVa := Some va |>).
  eapply (hoare_bind _ (λ _ w, ledger (map_assets m2 ++ []) 0 None w ∧ own_buffer f (mt_DmaBuf t) w)).
  { eapply (hoare_frame _ (own_buffer f (mt_DmaBuf t))); [|eauto with frames | apply own_buffer_reads | done].
    eapply hoare_pre; [|apply sized_out_ledger]. intros w HL. eapply ledger_cnt; [|exact HL].
    intros a. cbn -[cnt]. autorewrite with cnt. lia. }
  intros s. apply hoare_if; intros _; [drop_fact; apply (map_fail_ledger [] 0 None f m2)|].
  eapply (hoare_seq _ balanced); [|seq_quiet; by intros w].
  intros w [HL Ho]. by apply link_mapping.
Qed.

Lemma map_balanced `{!PoolLaws P} f r : Steps (Keeps balanced) (TtIoctlMap f r).
Proof.
  apply hoare_keeps. unfold TtIoctlMap.
  eapply hoare_bind; [quiet|]. intros c. apply hoare_if; intros _; [by intros w|].
  apply hoare_if; intros _; [by intros w|]. seq_quiet.
  eapply hoare_bind; [apply resolve_target_ledger|]. intros [s t]. cbn [fst snd].
  apply hoare_if; intros _; [drop_fact; seq_quiet; by intros w|].
  eapply hoare_bind.
  { eapply (hoare_frame _ (own_buffer f (mt_DmaBuf t))); [apply pool_alloc_ledger | eauto with frames | apply own_buffer_reads | done]. }
  intros [block|]; cbn beta; [|eapply hoare_pre; [intros w Hw; exact (proj1 (proj1 Hw))|]; seq_quiet; by intros w].
  apply hoare_gets. intros proc.
  eapply (hoare_seq _ (λ w, ledger [ARes (RsProcess proc); ARes (RsPool block)] 0 None w ∧ own_buffer f (mt_DmaBuf t) w)).
  { eapply (hoare_pre _ (λ w, ledger [ARes (RsPool block)] 0 None w ∧ own_buffer f (mt_DmaBuf t) w)); [by intros w [[[HL _] Ho] _]|].
    eapply (hoare_frame _ (own_buffer f (mt_DmaBuf t))); [apply emit_get_ledger | eauto with frames | apply own_buffer_reads | done]. }
  apply map_view_ledger.
Qed.

Lemma unmap_balanced f r : Steps (Keeps balanced) (TtIoctlUnmap f r).
Proof.
  apply hoare_keeps. unfold TtIoctlUnmap.
  eapply hoare_bind; [quiet|]. intros c. apply hoare_if; intros _; [by intros w|].
  apply hoare_if; intros _; [by intros w|]. seq_quiet.
  unfold TtGetFileContext. apply hoare_gets. intros fc.
  eapply (hoare_bind _ (λ o, ledger (opt_assets map_assets o) 0 None)).
  - match goal with |- context [remove_first ?p ?l] => pose proof (remove_first_spec p l) as Hs; destruct (remove_first p l) as [[m rest]|] end.
    + intros w [HL <-]. destruct Hs as (_ & l1 & l2 & E & -> & _).
      eapply ledger_cnt; [|by apply (unlink_mapping [] 0 None f m l1 l2)].
      intros a. rewrite app_nil_r. done.
    + by intros w [].
  - intros o. seq_quiet. destruct o as [m|]; [|by intros w]. eapply hoare_seq; [|by intros w].
    cbn [opt_assets from_option]. rewrite <- (app_nil_r (map_assets m)). apply destroy_mapping_ledger.
Qed.

(** ** Pinnings *)
Definition pin_loose (p : TT_PINNING) (locked : bool) (region : Z) : list Account :=
  region_assets region
  ++ opt_assets (λ m, (if locked then [ARes (RsLockedPages (mdl_Handle m))] else []) ++ [ARes (RsMdl (mdl_Handle m))]) (pn_Mdl p)
  ++ [ARes (RsPool (pn_Block p))].

Lemma pin_release_ledger L B O p locked region :
  Hoare (ledger (pin_loose p locked region ++ L) B O)
    (TtTeardownNocDma region;;
     (match pn_Mdl p with
      | Some mdl => when locked (emit (EvPut (RsLockedPages (mdl_Handle mdl))));; emit (EvPut (RsMdl (mdl_Handle mdl)))
      | None => mret tt
      end);;
     pool_free (pn_Block p)) (λ _, ledger L B O).
Proof.
  unfold pin_loose. rewrite <- !app_assoc. eapply hoare_seq; [apply teardown_ledger|].
  eapply hoare_seq; [|apply emit_put_ledger].
  destruct (pn_Mdl p) as [m|]; [|by intros w]. cbn [opt_assets from_option]. rewrite <- !app_assoc.
  eapply hoare_seq; [|apply emit_put_ledger]. destruct locked; [apply emit_put_ledger | by intros w].
Qed.

Lemma destroy_pinning_ledger L B O p :
  Hoare (ledger (pin_assets p ++ L) B O) (TtDestroyPinning p) (λ _, ledger L B O).
Proof. exact (pin_release_ledger L B O p true (pn_IatuRegion p)). Qed.

Lemma pin_fail_ledger L B O f p locked region s :
  Hoare (ledger (pin_loose p locked region ++ L) B O) (pin_fail f p locked region s) (λ _, ledger L B O).
Proof.
  intros w HL. apply pin_release_ledger in HL. revert HL. unfold pin_fail.
  set (w1 := snd _). intros HL.
  assert (Hoare (ledger L B O) (release (FileLock f);; mret s) (λ _, ledger L B O)) as Hr by (seq_quiet; by intros w').
  exact (Hr w1 HL).
Qed.

Lemma pin_finish_ledger f r g n a locked p :
  0 ≤ pn_Size p ≤ MAXULONG → pn_IatuRegion p = -1 → (locked = false → pn_Mdl p = None) →
  Hoare (λ w, ledger (pin_loose p locked (-1)) 0 None w ∧ own_buffer f (pn_BackingDmaBuf p) w)
    (pin_finish f r g n a locked p) (λ _, balanced).
Proof.
  intros Hsz Hp Hl. unfold pin_finish.
  eapply (hoare_bind _ (λ r w, (ledger (pin_loose p locked r.2 ++ []) 0 None w ∧ (NT_SUCCESS r.1.1 = false → r.2 = -1))
    ∧ own_buffer f (pn_BackingDmaBuf p) w)).
  { eapply (hoare_frame _ (own_buffer f (pn_BackingDmaBuf p)) _ [COs; CTrace; CIatu]); [| |apply own_buffer_reads | done].
    - apply hoare_if; intros _.
      + eapply hoare_post; [apply setup_ledger; [rewrite noc_limit_val; unfold MAXULONG in Hsz; lia | lia]|]. intros s w [HL Hs]. split; [|done].
        eapply ledger_cnt; [|exact HL]. unfold pin_loose. cnt_tac.
      + intros w HL. split; [|done]. cbn [fst snd]. by rewrite app_nil_r.
    - destruct (has_bits _ _); [eauto with frames | apply steps_ret; apply _]. }
  intros [[s na] reg]. cbn [fst snd]. cbv zeta. apply hoare_if; intros Hs.
  { drop_fact. drop_fact. apply (pin_fail_ledger [] 0 None f p locked reg). }
  set (p' := p <| pn_IatuRegion := reg |>).
  eapply (hoare_bind _ (λ _ w, ledger (pin_loose p' locked reg ++ []) 0 None w ∧ own_buffer f (pn_BackingDmaBuf p') w)).
  { eapply hoare_pre; [intros w [[HL _] Ho]; exact (conj HL Ho)|].
    eapply (hoare_frame _ (own_buffer f (pn_BackingDmaBuf p'))); [apply sized_out_ledger | eauto with frames | apply own_buffer_reads | done]. }
  intros s'. apply hoare_if; intros _; [drop_fact; apply (pin_fail_ledger [] 0 None f p' locked reg)|].
  eapply (hoare_seq _ balanced); [|seq_quiet; by intros w].
  intros w [HL Ho]. apply link_pinning; [done|]. eapply ledger_cnt; [|exact HL].
  intros b. unfold pin_loose, pin_assets, p'. cbn [pn_IatuRegion pn_Mdl pn_Block upd set_pn_IatuRegion].
  destruct locked; [done|]. by rewrite Hl.
Qed.

Lemma pin_direct_ledger f r g n block va size :
  0 ≤ size ≤ MAXULONG →
  Hoare (ledger [ARes (RsPool block)] 0 None)
    (pin_direct f r g n (mkPinning block va size None None (-1))) (λ _, balanced).
Proof.
  intros Hsz. unfold pin_direct. set (p := mkPinning block va size None None (-1)).
  eapply hoare_bind; [apply call_ledger; by intros []|].
  intros [h|]; cbn beta; [|apply (pin_fail_ledger [] 0 None f p false (-1))].
  eapply hoare_bind; [apply call_ledger; by intros []|].
  intros [pfns|]; cbn beta; cbv zeta.
  - set (p' := p <| pn_Mdl := Some (mkMdl h pfns) |>). apply hoare_if; intros _.
    + apply (pin_fail_ledger [] 0 None f p' true (-1)).
    + eapply hoare_pre; [|by apply (pin_finish_ledger f r g n _ true p')]. intros w HL. split; [exact HL | apply no_buffer_own].
  - eapply hoare_pre; [|apply (pin_fail_ledger [] 0 None f (p <| pn_Mdl := Some (mkMdl h []) |>) false (-1))].
    intros w HL. exact HL.
Qed.

Lemma find_view_elem va size maps p o :
  TtFindDmaBufView va size maps = Some (p, o) → ∃ m, m ∈ maps ∧ um_DmaBuf m = Some p.
Proof.
  induction maps as [|m maps IH]; cbn; [done|]. intros H.
  destruct (um_DmaBuf m) as [q|] eqn:E.
  - destruct (_ && _).
    + injection H as -> _. exists m. by split; [left|].
    + destruct (IH H) as (m' & ? & ?). exists m'. by split; [right|].
  - destruct (IH H) as (m' & ? & ?). exists m'. by split; [right|].
Qed.

Lemma pin_balanced `{!PoolLaws P} f r :
  Hoare (λ w, balanced w ∧ byte_buffer r w) (TtIoctlPinPages f r) (λ _, balanced).
Proof.
  unfold TtIoctlPinPages. eapply hoare_bind; [apply copy_in_hoare|].
  intros c. apply hoare_pure. intros (b & Hby & Ec).
  pose proof (bytes_sget tenstorrent_pin_pages_in "size" (Z.to_nat (c_sizeof tenstorrent_pin_pages_in)) b Hby) as Hsz.
  rewrite <- Ec in Hsz. clear Ec b Hby.
  do 2 (apply hoare_if; intros _; [by intros w|]). apply hoare_if; intros Hchk; [by intros w|].
  rewrite !orb_false_iff, Z.ltb_ge in Hchk. destruct Hchk as [_ Hmax].
  apply hoare_if; intros _; [by intros w|]. seq_quiet.
  unfold TtGetFileContext. apply hoare_gets. intros fc. apply hoare_if; intros _; [drop_fact; seq_quiet; by intros w|].
  match goal with |- context [TtFindDmaBufView ?va ?size ?l] => set (backing := TtFindDmaBufView va size l);
    assert (∀ p o, backing = Some (p, o) → ∃ m, m ∈ l ∧ um_DmaBuf m = Some p) as Hb by (intros p o; apply find_view_elem) end.
  cbv zeta. apply hoare_gets. intros dma.
  apply hoare_if; intros _; [drop_fact; drop_fact; seq_quiet; by intros w|].
  eapply (hoare_pre _ (λ w, balanced w ∧ own_buffer f (fst <$> backing) w)).
  { intros w [[HL <-] _]. split; [done|]. intros p Hp. destruct backing as [[q o]|]; [|done]. injection Hp as ->.
    destruct (Hb p o eq_refl) as (m & Hm & Ep). by apply (ld_views _ _ _ _ HL f m Hm). }
  eapply hoare_bind.
  { eapply (hoare_frame _ (own_buffer f (fst <$> backing))); [apply pool_alloc_ledger | eauto with frames | apply own_buffer_reads | done]. }
  intros [block|]; cbn beta; [|drop_fact; drop_fact; seq_quiet; by intros w].
  destruct backing as [[p o]|].
  - apply hoare_gets. intros d. eapply hoare_pre; [|by apply pin_finish_ledger]. by intros w [[[HL _] Ho] _].
  - drop_fact. drop_fact. by apply pin_direct_ledger.
Qed.

Lemma unpin_balanced f r : Steps (Keeps balanced) (TtIoctlUnpinPages f r).
Proof.
  apply hoare_keeps. unfold TtIoctlUnpinPages.
  eapply hoare_bind; [quiet|]. intros c. do 2 (apply hoare_if; intros _; [by intros w|]). seq_quiet.
  unfold TtGetFileContext. apply hoare_gets. intros fc.
  eapply (hoare_bind _ (λ o, ledger (opt_assets pin_assets o ++ []) 0 None)).
  - unfold unpin_search.
    match goal with |- context [remove_first ?p ?l] => pose proof (remove_first_spec p l) as Hs; destruct (remove_first p l) as [[n rest]|] end.
    + destruct (negb _); [by intros w []|].
      intros w [HL <-]. destruct Hs as (_ & l1 & l2 & E & -> & _). by apply (unlink_pinning [] 0 None f n l1 l2).
    + by intros w [].
  - intros o. seq_quiet. destruct o as [n|]; [|by intros w]. eapply hoare_seq; [|by intros w].
    apply destroy_pinning_ledger.
Qed.

(** ** Drains: process exit, handle cleanup, reset *)
Lemma drain_mappings_ledger f l :
  Hoare (λ w, balanced w ∧ Mappings (file_ctx f w) = l) (drain_mappings f l)
    (λ _ w, balanced w ∧ Mappings (file_ctx f w) = []).
Proof.
  induction l as [|m l IH]; [by intros w|]. cbn [drain_mappings].
  eapply (hoare_seq _ (λ w, ledger (map_assets m ++ []) 0 None w ∧ Mappings (file_ctx f w) = l)).
  { intros w [HL E]. split; [by apply (unlink_mapping [] 0 None f m [] l)|]. rewrite upd_file_ctx. by rewrite decide_True. }
  eapply (hoare_seq _ (λ w, balanced w ∧ Mappings (file_ctx f w) = l)); [|exact IH].
  eapply (hoare_frame _ (λ w, Mappings (file_ctx f w) = l) [FMappings]); [apply destroy_mapping_ledger | eauto with frames | | done].
  intros w w' Ha. by rewrite (Ha FMappings eq_refl f : Mappings _ = Mappings _).
Qed.

Lemma drain_pinnings_ledger f l :
  Hoare (λ w, balanced w ∧ Pinnings (file_ctx f w) = l) (drain_pinnings f l)
    (λ _ w, balanced w ∧ Pinnings (file_ctx f w) = []).
Proof.
  induction l as [|n l IH]; [by intros w|]. cbn [drain_pinnings].
  eapply (hoare_seq _ (λ w, ledger (pin_assets n ++ []) 0 None w ∧ Pinnings (file_ctx f w) = l)).
  { intros w [HL E]. split; [by apply (unlink_pinning [] 0 None f n [] l)|]. rewrite upd_file_ctx. by rewrite decide_True. }
  eapply (hoare_seq _ (λ w, balanced w ∧ Pinnings (file_ctx f w) = l)); [|exact IH].
  eapply (hoare_frame _ (λ w, Pinnings (file_ctx f w) = l) [FPinnings]); [apply destroy_pinning_ledger | eauto with frames | | done].
  intros w w' Ha. by rewrite (Ha FPinnings eq_refl f : Pinnings _ = Pinnings _).
Qed.

(** What a handle still holds. *)
Definition views_gone (f : Z) (w : World) : Prop :=
  Mappings (file_ctx f w) = [] ∧ Pinnings (file_ctx f w) = [].

Lemma views_gone_reads f : Reads [FMappings; FPinnings] (views_gone f).
Proof.
  intros w w' Ha. unfold views_gone. by rewrite (Ha FMappings eq_refl f : Mappings _ = Mappings _),
    (Ha FPinnings eq_refl f : Pinnings _ = Pinnings _).
Qed.

Lemma mappings_nil_reads f : Reads [FMappings] (λ w, Mappings (file_ctx f w) = []).
Proof. intros w w' Ha. by rewrite (Ha FMappings eq_refl f : Mappings _ = Mappings _). Qed.
Lemma pinnings_at_reads f l : Reads [FPinnings] (λ w, Pinnings (file_ctx f w) = l).
Proof. intros w w' Ha. by rewrite (Ha FPinnings eq_refl f : Pinnings _ = Pinnings _). Qed.

Lemma drain_views f c :
  Hoare (λ w, balanced w ∧ file_ctx f w = c) (drain_mappings f (Mappings c);; drain_pinnings f (Pinnings c))
    (λ _ w, balanced w ∧ views_gone f w).
Proof.
  eapply (hoare_seq _ (λ w, (balanced w ∧ Pinnings (file_ctx f w) = Pinnings c) ∧ Mappings (file_ctx f w) = [])).
  - eapply hoare_pre; [|eapply hoare_post].
    2: { eapply (hoare_frame _ (λ w, Pinnings (file_ctx f w) = Pinnings c)); [apply drain_mappings_ledger | eauto with frames | apply pinnings_at_reads | done]. }
    + by intros w [HL ->].
    + by intros _ w [[HL Hm] Hp].
  - eapply hoare_post; [eapply (hoare_frame _ (λ w, Mappings (file_ctx f w) = [])); [apply drain_pinnings_ledger | eauto with frames | apply mappings_nil_reads | done]|].
    by intros _ w [[HL Hp] Hm].
Qed.

Lemma process_exit_balanced f : Steps (Keeps balanced) (TtMemoryProcessExit f).
Proof.
  apply hoare_keeps. unfold TtMemoryProcessExit, TtGetFileContext. apply hoare_gets. intros c.
  apply hoare_if; intros _; [by intros w []|].
  eapply (hoare_seq _ (λ w, balanced w ∧ file_ctx f w = c)).
  { eapply (hoare_frame _ (λ w, file_ctx f w = c) [FGen; FLock; FMappings; FPinnings; FDmaBufs; FOnList; FCreator; FLocks; FPower; FNoc]);
      [quiet | eauto with frames | | done].
    intros w w' Ha <-. pose proof (Ha FGen eq_refl f). pose proof (Ha FLock eq_refl f). pose proof (Ha FMappings eq_refl f).
    pose proof (Ha FPinnings eq_refl f). pose proof (Ha FDmaBufs eq_refl f). pose proof (Ha FOnList eq_refl f).
    pose proof (Ha FCreator eq_refl f). pose proof (Ha FLocks eq_refl f). pose proof (Ha FPower eq_refl f).
    pose proof (Ha FNoc eq_refl f). destruct (file_ctx f w), (file_ctx f w'); cbn in *; congruence. }
  intros w Hw. apply (drain_views f c) in Hw as [HL _].
  assert (Hoare balanced (release (FileLock f)) (λ _, balanced)) as Hr by quiet.
  exact (Hr _ HL).
Qed.

(** The slot loop of the cleanup. *)
Definition slots_done (f : Z) (l : list Z) (w : World) : Prop :=
  (balanced w ∧ views_gone f w) ∧ ∀ i, i ∈ l → DmaBufs (file_ctx f w) !! i = None.

Definition drop_slot (f i p : Z) : M () := set_dma_slot f i None;; TtDmaBufDestroy p.

Lemma drop_slot_frame f i p : Steps (Frame [COs; CTrace; CIatu; CDma; CDmaBufs; FDmaBufs]) (drop_slot f i p).
Proof. unfold drop_slot. frame_walk. Qed.

Lemma drop_slot_slots f i p w :
  DmaBufs (file_ctx f (drop_slot f i p w).2) = delete i (DmaBufs (file_ctx f w)).
Proof.
  etrans; [apply (frame_at FDmaBufs _ _ _ (TtDmaBufDestroy_frame p) eq_refl)|].
  unfold set_dma_slot. rewrite upd_file_ctx. by rewrite decide_True.
Qed.

Lemma drop_slot_done f i p l :
  Hoare (λ w, slots_done f l w ∧ DmaBufs (file_ctx f w) !! i = Some p) (drop_slot f i p) (λ _, slots_done f (l ++ [i])).
Proof.
  intros w [[[HL Hv] Hs] Hi]. split; [split|].
  - apply unref_destroy. destruct Hv as [Hm Hp]. rewrite Hm, Hp.
    split_and!; [exact HL | exact Hi | |]; by intros x ?%elem_of_nil.
  - exact (steps_keeps (views_gone f) _ _ _ (views_gone_reads f) (drop_slot_frame f i p) eq_refl w Hv).
  - intros j Hj. rewrite drop_slot_slots. destruct (decide (i = j)) as [<-|Hn]; [apply lookup_delete_eq|].
    rewrite lookup_delete_ne by exact Hn. apply Hs. set_solver.
Qed.

Lemma free_slot_done f i l : Hoare (slots_done f l) (free_dma_slot f i) (λ _, slots_done f (l ++ [i])).
Proof.
  unfold free_dma_slot, TtGetFileContext. apply hoare_gets. intros c. destruct (DmaBufs c !! i) as [p|] eqn:E.
  - eapply hoare_pre; [|apply (drop_slot_done f i p l)]. intros w [Hw <-]. exact (conj Hw E).
  - intros w [[Hw Hs] <-]. split; [exact Hw|]. intros j. rewrite elem_of_app, list_elem_of_singleton.
    intros [?| ->]; [by apply Hs | exact E].
Qed.

Definition tlbs_done (f : Z) (l : list Z) (w : World) : Prop := ∀ id, id ∈ l → tlb_owner (w_tlb w) id ≠ Some f.

Lemma free_tlb_done f i l : 0 ≤ i → (∀ j, j ∈ l → 0 ≤ j) → Hoare (tlbs_done f l) (free_tlb_of f i) (λ _, tlbs_done f (l ++ [i])).
Proof.
  intros Hi Hl. unfold free_tlb_of. apply hoare_gets. intros t w [Hd <-].
  unfold when. case_bool_decide as Ho.
  - intros j Hj. unfold tlb_owner, upd_tlb, modify, tlb_set. cbn.
    destruct (decide (j = i)) as [->|Hn].
    + destruct (decide (Z.to_nat i < length (TlbOwner (w_tlb w)))%nat).
      * by rewrite list_lookup_insert_eq.
      * by rewrite list_insert_ge, lookup_ge_None_2 by (rewrite ?length_insert; lia).
    + rewrite list_lookup_insert_ne by (specialize (Hl j); set_solver by lia). apply Hd. set_solver.
  - intros j. rewrite elem_of_app, list_elem_of_singleton. intros [Hj| ->]; [by apply Hd | done].
Qed.

Lemma zrange_split n l x l' : zrange n = l ++ x :: l' → 0 ≤ x ∧ ∀ j, j ∈ l → 0 ≤ j.
Proof.
  intros E. split; [|intros j Hj]; [apply (elem_of_zrange n x)|apply (elem_of_zrange n j)]; rewrite E; set_solver.
Qed.

(** After the cleanup the handle holds nothing. *)
Definition emptied (f : Z) (w : World) : Prop :=
  (balanced w ∧ views_gone f w) ∧ DmaBufs (file_ctx f w) = ∅.

Lemma emptied_quiet {A} f (m : M A) fp ks :
  Steps (Frame fp) m → Steps (Emits ks) m → cdisj ledger_comps fp = true → kmem KRes ks = false →
  Hoare (emptied f) m (λ _, emptied f).
Proof.
  intros Hf He Hd Hk w [[HL Hv] Hs].
  assert (∀ ds, csub ds ledger_comps = true → cdisj ds fp = true) as Hsub.
  { intros ds Hc. unfold cdisj, csub, cmem in *. rewrite forallb_forall in *. intros c Hin. apply Hd.
    specialize (Hc c Hin). by apply bool_decide_eq_true, list_elem_of_In in Hc. }
  split; [split|].
  - exact (ledger_quiet _ _ _ m fp ks Hf He Hd Hk w HL).
  - refine (steps_keeps (views_gone f) _ _ m (views_gone_reads f) Hf (Hsub _ _) w Hv). reflexivity.
  - refine (steps_keeps (λ w, DmaBufs (file_ctx f w) = ∅) [FDmaBufs] _ m _ Hf (Hsub _ _) w Hs); [|reflexivity].
    intros w1 w2 Ha. by rewrite (Ha FDmaBufs eq_refl f : DmaBufs _ = DmaBufs _).
Qed.

Lemma slots_loop f :
  Hoare (λ w, balanced w ∧ views_gone f w)
    (for_each (zrange (Z.to_nat TENSTORRENT_MAX_DMA_BUFS)) (free_dma_slot f)) (λ _, emptied f).
Proof.
  eapply hoare_pre; [|eapply hoare_post; [apply (hoare_for_each (slots_done f))|]].
  - intros w Hw. split; [exact Hw|]. by intros i ?%elem_of_nil.
  - intros l x l' _. apply free_slot_done.
  - intros _ w [Hw Hs]. split; [exact Hw|]. apply map_empty. intros i.
    destruct (DmaBufs (file_ctx f w) !! i) as [p|] eqn:E; [|done]. exfalso.
    destruct (ld_slot _ _ _ _ (proj1 Hw) _ _ _ E) as [Hi _].
    rewrite Hs in E; [done|]. apply elem_of_zrange. unfold TENSTORRENT_MAX_DMA_BUFS in *. lia.
Qed.

Lemma tlbs_loop f :
  Hoare (λ _, True) (for_each (zrange (Z.to_nat TT_TLB_TOTAL)) (free_tlb_of f))
    (λ _ w, ∀ id, 0 ≤ id < TT_TLB_TOTAL → tlb_owner (w_tlb w) id ≠ Some f).
Proof.
  eapply hoare_pre; [|eapply hoare_post; [apply (hoare_for_each (tlbs_done f))|]].
  - intros w _ i Hi. by apply elem_of_nil in Hi.
  - intros l x l' E. apply zrange_split in E as [Hx Hl]. by apply free_tlb_done.
  - intros a w Hd id Hid. apply Hd, elem_of_zrange. unfold TT_TLB_TOTAL in *. lia.
Qed.

Lemma whole_context f c :
  Reads [FGen; FLock; FMappings; FPinnings; FDmaBufs; FOnList; FCreator; FLocks; FPower; FNoc] (λ w, file_ctx f w = c).
Proof.
  intros w w' Ha <-. pose proof (Ha FGen eq_refl f). pose proof (Ha FLock eq_refl f). pose proof (Ha FMappings eq_refl f).
  pose proof (Ha FPinnings eq_refl f). pose proof (Ha FDmaBufs eq_refl f). pose proof (Ha FOnList eq_refl f).
  pose proof (Ha FCreator eq_refl f). pose proof (Ha FLocks eq_refl f). pose proof (Ha FPower eq_refl f).
  pose proof (Ha FNoc eq_refl f). destruct (file_ctx f w), (file_ctx f w'); cbn in *; congruence.
Qed.

Lemma file_cleanup_ok f :
  Hoare (λ w, balanced w ∧ fc_Lock (file_ctx f w) = true) (TtMemoryFileCleanup f)
    (λ _ w', emptied f w' ∧ ∀ id, 0 ≤ id < TT_TLB_TOTAL → tlb_owner (w_tlb w') id ≠ Some f).
Proof.
  unfold TtMemoryFileCleanup, TtGetFileContext. apply hoare_gets. intros c.
  destruct (fc_Lock c) eqn:Ec; cbn [negb]; [|intros w [[_ Hl] <-]; congruence].
  eapply (hoare_seq _ (λ w, balanced w ∧ file_ctx f w = c)).
  { eapply hoare_pre; [intros w [[HL _] E]; exact (conj HL E)|].
    eapply (hoare_frame _ (λ w, file_ctx f w = c)); [quiet | eauto with frames | apply whole_context | done]. }
  apply hoare_assoc. eapply hoare_seq; [apply drain_views|]. eapply hoare_seq; [apply slots_loop|].
  eapply hoare_seq; [eapply (emptied_quiet f (release (FileLock f))); eauto with frames emits|].
  eapply hoare_seq; [eapply (emptied_quiet f (acquire TlbLock)); eauto with frames emits|].
  eapply (hoare_seq _ (λ w', emptied f w' ∧ ∀ id, 0 ≤ id < TT_TLB_TOTAL → tlb_owner (w_tlb w') id ≠ Some f)).
  - eapply hoare_pre; [|apply hoare_conj; [|apply tlbs_loop]]; [intros w0 Hw; exact (conj Hw I)|].
    eapply (emptied_quiet f _ [CTlb] []); [frame_walk | emits_walk | done | done].
  - eapply (hoare_frame _ (λ w', ∀ id, 0 ≤ id < TT_TLB_TOTAL → tlb_owner (w_tlb w') id ≠ Some f) [CTlb]);
      [eapply (emptied_quiet f (release TlbLock)); eauto with frames emits | eauto with frames | | done].
    intros w1 w2 Ha. by rewrite (Ha CTlb eq_refl : w_tlb w2 = w_tlb w1).
Qed.
End spec.
