(* ===== verification/Locks.v ===== *)
(** * Resource locks (src/driver/locks.c)

    64 device locks: a device bitmap of held locks, a bitmap per handle, and a
    manual queue of blocked ACQUIRE_BLOCKING requests that every waker drains
    and retries. *)
From S2P Require Import Prelude Platform Frame Trace Abi.

(** [1ull << i] *)
Definition lock_bit (i : Z) : Z := wrap64 (Z.shiftl 1 i).
Definition TT_LOCK_WAKE_BATCH : nat := 64.

Definition lock_out (value : Z) : list Z :=
  sput tenstorrent_lock_ctl_out "value" value (szero tenstorrent_lock_ctl_out).

Section locks.
Context {P : Platform}.

Definition TtLockTryAcquire (FileObject Index : Z) : M bool :=
  held ← gets ResourceLockHeld;
  if has_bits held (lock_bit Index) then mret false
  else
    modify (λ w, w <| ResourceLockHeld := Z.lor (ResourceLockHeld w) (lock_bit Index) |>);;
    upd_file FileObject (λ c, c <| LocksHeld := Z.lor (LocksHeld c) (lock_bit Index) |>);;
    mret true.

Definition TtLockCompleteAcquired (Request : Z) : M () :=
  q ← gets (req_state Request);
  let total := c_offsetof tenstorrent_lock_ctl "out" + c_sizeof tenstorrent_lock_ctl_out in
  if NT_SUCCESS (WdfRequestRetrieveOutputBuffer (rq_OutLength q) total) then
    write_output Request (c_offsetof tenstorrent_lock_ctl "out") (lock_out 1);;
    WdfRequestSetInformation Request total;;
    WdfRequestComplete Request STATUS_SUCCESS
  else WdfRequestComplete Request STATUS_ACCESS_VIOLATION.

(** Dequeues at most [n] requests, in order. *)
Fixpoint retrieve_batch (n : nat) (q : Queue) : list Z * Queue :=
  match n with
  | O => ([], q)
  | S k =>
      match WdfIoQueueRetrieveNextRequest q with
      | Some (r, q') => let b := retrieve_batch k q' in (r :: b.1, b.2)
      | None => ([], q)
      end
  end.

Definition forward_to_queue (Request : Z) : M NTSTATUS :=
  q ← gets LockWaitQueue;
  r ← call (WdfRequestForwardToIoQueue Request q) (λ _, [EvForward Request]);
  modify (λ w, w <| LockWaitQueue := r.2 |>);;
  mret r.1.

(** One round of the second loop of TtLocksWakeWaiters. *)
Definition wake_one (request : Z) : M () :=
  q ← gets (req_state request);
  gate ← gets w_gate;
  match rq_File q with
  | None => WdfRequestComplete request STATUS_DEVICE_REMOVED
  | Some f =>
      fileContext ← TtGetFileContext f;
      if Detached gate || negb (OpenResetGen fileContext =? ResetGen gate)
      then WdfRequestComplete request STATUS_DEVICE_REMOVED
      else
        won ← TtLockTryAcquire f (default 0 (rq_LockIndex q));
        if (won : bool) then TtLockCompleteAcquired request
        else
          fwd ← forward_to_queue request;
          when (negb (NT_SUCCESS fwd)) (WdfRequestComplete request fwd)
  end.

Definition TtLocksWakeWaiters : M () :=
  q ← gets LockWaitQueue;
  let b := retrieve_batch TT_LOCK_WAKE_BATCH q in
  modify (λ w, w <| LockWaitQueue := b.2 |>);;
  for_each b.1 wake_one.

(** [ResourceLockHeld &= ~LocksHeld; LocksHeld = 0;] *)
Definition release_all (FileObject : Z) : M () :=
  fileContext ← TtGetFileContext FileObject;
  modify (λ w, w <| ResourceLockHeld :=
    Z.land (ResourceLockHeld w) (wrap64 (Z.lnot (LocksHeld fileContext))) |>);;
  upd_file FileObject (λ c, c <| LocksHeld := 0 |>).

Definition TtLocksReleaseAll (FileObject : Z) : M () :=
  acquire LockLock;;
  release_all FileObject;;
  TtLocksWakeWaiters;;
  release LockLock.

Definition lock_complete (Request value : Z) : M (NTSTATUS * bool) :=
  release LockLock;;
  s ← TtCompleteSizedOutBuffer Request (c_offsetof tenstorrent_lock_ctl "out") (lock_out value)
        (c_sizeof tenstorrent_lock_ctl_out) (c_sizeof tenstorrent_lock_ctl_out);
  mret (s, false).

(** [LocksHeld &= ~bit; ResourceLockHeld &= ~bit;] *)
Definition release_bit (FileObject Index : Z) : M () :=
  upd_file FileObject (λ c, c <| LocksHeld :=
    Z.land (LocksHeld c) (wrap64 (Z.lnot (lock_bit Index))) |>);;
  modify (λ w, w <| ResourceLockHeld :=
    Z.land (ResourceLockHeld w) (wrap64 (Z.lnot (lock_bit Index))) |>).

(** The RELEASE case. *)
Definition lock_release (FileObject Request Index : Z) : M (NTSTATUS * bool) :=
  fileContext ← TtGetFileContext FileObject;
  if has_bits (LocksHeld fileContext) (lock_bit Index) then
    release_bit FileObject Index;;
    TtLocksWakeWaiters;;
    lock_complete Request 1
  else lock_complete Request 0.

(** Pends the request: its context, the stashed index, the wait queue. *)
Definition lock_pend (Request Index : Z) : M (NTSTATUS * bool) :=
  status ← call WdfObjectAllocateContext (λ _, []);
  if negb (NT_SUCCESS status) then release LockLock;; mret (status, false)
  else
    upd_req Request (λ q, q <| rq_LockIndex := Some Index |>);;
    status ← forward_to_queue Request;
    release LockLock;;
    mret (status, NT_SUCCESS status).

(** The status and [*Pended]. *)
Definition TtIoctlLockCtl (FileObject Request : Z) : M (NTSTATUS * bool) :=
  c ← TtCopyInBuffer Request (c_sizeof tenstorrent_lock_ctl_in);
  if negb (NT_SUCCESS c.1) then mret (c.1, false)
  else
    let index := sget tenstorrent_lock_ctl_in "index" c.2 in
    let flags := sget tenstorrent_lock_ctl_in "flags" c.2 in
    if TENSTORRENT_RESOURCE_LOCK_COUNT <=? index then mret (STATUS_INVALID_PARAMETER, false)
    else
      let bit := lock_bit index in
      acquire LockLock;;
      if flags =? TENSTORRENT_LOCK_CTL_ACQUIRE then
        won ← TtLockTryAcquire FileObject index;
        lock_complete Request (if (won : bool) then 1 else 0)
      else if flags =? TENSTORRENT_LOCK_CTL_RELEASE then
        lock_release FileObject Request index
      else if flags =? TENSTORRENT_LOCK_CTL_TEST then
        fileContext ← TtGetFileContext FileObject;
        held ← gets ResourceLockHeld;
        lock_complete Request (Z.lor (if has_bits held bit then 2 else 0)
                                     (if has_bits (LocksHeld fileContext) bit then 1 else 0))
      else if flags =? TENSTORRENT_LOCK_CTL_ACQUIRE_BLOCKING then
        won ← TtLockTryAcquire FileObject index;
        if (won : bool) then lock_complete Request 1 else lock_pend Request index
      else
        release LockLock;;
        mret (STATUS_INVALID_PARAMETER, false).
End locks.

(** ** Footprints *)
Section frames.
Context {P : Platform}.

Lemma TtLockTryAcquire_frame f i : Steps (Frame [CLocks; FLocks]) (TtLockTryAcquire f i).
Proof. unfold TtLockTryAcquire. frame_walk. Qed.
#[local] Hint Resolve TtLockTryAcquire_frame : frames.
Lemma TtLockCompleteAcquired_frame r : Steps (Frame [COs; CTrace; CReqs]) (TtLockCompleteAcquired r).
Proof. unfold TtLockCompleteAcquired. frame_walk. Qed.
#[local] Hint Resolve TtLockCompleteAcquired_frame : frames.
Lemma forward_to_queue_frame r : Steps (Frame [COs; CTrace; CWaitQueue]) (forward_to_queue r).
Proof. unfold forward_to_queue. frame_walk. Qed.
#[local] Hint Resolve forward_to_queue_frame : frames.
Lemma wake_one_frame r : Steps (Frame [COs; CTrace; CWaitQueue; CReqs; CLocks; FLocks]) (wake_one r).
Proof. unfold wake_one. frame_walk. Qed.
#[local] Hint Resolve wake_one_frame : frames.
Lemma TtLocksWakeWaiters_frame : Steps (Frame [COs; CTrace; CWaitQueue; CReqs; CLocks; FLocks]) (TtLocksWakeWaiters).
Proof. unfold TtLocksWakeWaiters. frame_walk. Qed.
#[local] Hint Resolve TtLocksWakeWaiters_frame : frames.
Lemma release_all_frame f : Steps (Frame [CLocks; FLocks]) (release_all f).
Proof. unfold release_all. frame_walk. Qed.
#[local] Hint Resolve release_all_frame : frames.
Lemma release_bit_frame f i : Steps (Frame [CLocks; FLocks]) (release_bit f i).
Proof. unfold release_bit. frame_walk. Qed.
#[local] Hint Resolve release_bit_frame : frames.
Lemma TtLocksReleaseAll_frame f : Steps (Frame [COs; CTrace; CWaitQueue; CReqs; CLocks; FLocks]) (TtLocksReleaseAll f).
Proof. unfold TtLocksReleaseAll. frame_walk. Qed.
#[local] Hint Resolve TtLocksReleaseAll_frame : frames.
Lemma lock_complete_frame r v : Steps (Frame [COs; CTrace; CReqs]) (lock_complete r v).
Proof. unfold lock_complete. frame_walk. Qed.
#[local] Hint Resolve lock_complete_frame : frames.
Lemma lock_release_frame f r i : Steps (Frame [COs; CTrace; CWaitQueue; CReqs; CLocks; FLocks]) (lock_release f r i).
Proof. unfold lock_release. frame_walk. Qed.
#[local] Hint Resolve lock_release_frame : frames.
Lemma lock_pend_frame r i : Steps (Frame [COs; CTrace; CReqs; CWaitQueue]) (lock_pend r i).
Proof. unfold lock_pend. frame_walk. Qed.
#[local] Hint Resolve lock_pend_frame : frames.
Lemma TtIoctlLockCtl_frame f r : Steps (Frame [COs; CTrace; CWaitQueue; CReqs; CLocks; FLocks]) (TtIoctlLockCtl f r).
Proof. unfold TtIoctlLockCtl. frame_walk. Qed.
#[local] Hint Resolve TtIoctlLockCtl_frame : frames.
End frames.
#[export] Hint Resolve TtLockTryAcquire_frame TtLockCompleteAcquired_frame forward_to_queue_frame
  wake_one_frame TtLocksWakeWaiters_frame release_all_frame release_bit_frame
  TtLocksReleaseAll_frame lock_complete_frame lock_release_frame lock_pend_frame
  TtIoctlLockCtl_frame : frames.

(** ** Events *)
Section events.
Context {P : Platform}.

Lemma TtLockTryAcquire_emits f i : Steps (Emits []) (TtLockTryAcquire f i).
Proof. unfold TtLockTryAcquire. emits_walk. Qed.
#[local] Hint Resolve TtLockTryAcquire_emits : emits.
Lemma TtLockCompleteAcquired_emits r : Steps (Emits [KReq]) (TtLockCompleteAcquired r).
Proof. unfold TtLockCompleteAcquired. emits_walk. Qed.
#[local] Hint Resolve TtLockCompleteAcquired_emits : emits.
Lemma forward_to_queue_emits r : Steps (Emits [KReq]) (forward_to_queue r).
Proof. unfold forward_to_queue. emits_walk. Qed.
#[local] Hint Resolve forward_to_queue_emits : emits.
Lemma wake_one_emits r : Steps (Emits [KReq]) (wake_one r).
Proof. unfold wake_one. emits_walk. Qed.
#[local] Hint Resolve wake_one_emits : emits.
Lemma TtLocksWakeWaiters_emits : Steps (Emits [KReq]) (TtLocksWakeWaiters).
Proof. unfold TtLocksWakeWaiters. emits_walk. Qed.
#[local] Hint Resolve TtLocksWakeWaiters_emits : emits.
Lemma release_all_emits f : Steps (Emits []) (release_all f).
Proof. unfold release_all. emits_walk. Qed.
#[local] Hint Resolve release_all_emits : emits.
Lemma release_bit_emits f i : Steps (Emits []) (release_bit f i).
Proof. unfold release_bit. emits_walk. Qed.
#[local] Hint Resolve release_bit_emits : emits.
Lemma TtLocksReleaseAll_emits f : Steps (Emits [KSync; KReq]) (TtLocksReleaseAll f).
Proof. unfold TtLocksReleaseAll. emits_walk. Qed.
#[local] Hint Resolve TtLocksReleaseAll_emits : emits.
Lemma lock_complete_emits r v : Steps (Emits [KSync]) (lock_complete r v).
Proof. unfold lock_complete. emits_walk. Qed.
#[local] Hint Resolve lock_complete_emits : emits.
Lemma lock_release_emits f r i : Steps (Emits [KSync; KReq]) (lock_release f r i).
Proof. unfold lock_release. emits_walk. Qed.
#[local] Hint Resolve lock_release_emits : emits.
Lemma lock_pend_emits r i : Steps (Emits [KSync; KReq]) (lock_pend r i).
Proof. unfold lock_pend. emits_walk. Qed.
#[local] Hint Resolve lock_pend_emits : emits.
Lemma TtIoctlLockCtl_emits f r : Steps (Emits [KSync; KReq]) (TtIoctlLockCtl f r).
Proof. unfold TtIoctlLockCtl. emits_walk. Qed.
#[local] Hint Resolve TtIoctlLockCtl_emits : emits.
End events.
#[export] Hint Resolve TtLockTryAcquire_emits TtLockCompleteAcquired_emits forward_to_queue_emits
  wake_one_emits TtLocksWakeWaiters_emits release_all_emits release_bit_emits
  TtLocksReleaseAll_emits lock_complete_emits lock_release_emits lock_pend_emits
  TtIoctlLockCtl_emits : emits.
