(* ===== verification/LocksSpec.v ===== *)
(** * Resource locks: mutual exclusion, waiters, refinement

    The two bitmaps of locks.c implement a table of lock owners: [lock_inv]
    says that they are consistent, [lock_abs] names the table they stand for. *)
From S2P Require Import Prelude Abi Platform Frame Sim IoSpec Locks.

(** ** Bits *)
Lemma lock_bit_spec i j : Z.testbit (lock_bit i) j = bool_decide (i = j ∧ 0 ≤ j < 64).
Proof.
  unfold lock_bit, wrap64, wrap.
  destruct (decide (0 ≤ j < 64)) as [Hj|Hj]; [rewrite Z.mod_pow2_bits_low by lia|].
  - rewrite Z.shiftl_spec by lia. destruct (decide (i = j)) as [->|Hn].
    + rewrite Z.sub_diag, bool_decide_true by done. done.
    + rewrite bool_decide_false by tauto. destruct (decide (j - i < 0)).
      * apply Z.testbit_neg_r. lia.
      * change 1 with (2 ^ 0). apply Z.pow2_bits_false. lia.
  - rewrite bool_decide_false by tauto. destruct (decide (j < 0)).
    + by apply Z.testbit_neg_r.
    + apply Z.mod_pow2_bits_high. lia.
Qed.

Lemma has_lock_bit h i : has_bits h (lock_bit i) = Z.testbit h i && bool_decide (0 ≤ i < 64).
Proof.
  unfold has_bits. destruct (decide (Z.testbit h i = true ∧ 0 ≤ i < 64)) as [[Hh Hi]|Hn].
  - rewrite Hh, bool_decide_true by done. apply negb_true_iff, Z.eqb_neq. intros H0.
    assert (Z.testbit (Z.land h (lock_bit i)) i = false) as Hf by by rewrite H0, Z.bits_0.
    rewrite Z.land_spec, lock_bit_spec, Hh, bool_decide_true in Hf by done. done.
  - replace (Z.land h (lock_bit i)) with 0.
    + destruct (Z.testbit h i); [|done]. by rewrite bool_decide_false by tauto.
    + apply Z.bits_inj'. intros j Hj. rewrite Z.bits_0, Z.land_spec, lock_bit_spec.
      destruct (decide (i = j ∧ 0 ≤ j < 64)) as [[-> ?]|];
        [|by rewrite bool_decide_false, andb_false_r by done].
      destruct (Z.testbit h j); [tauto | done].
Qed.

(** [h & ~m] on 64 bits. *)
Lemma clear_bits_spec h m i :
  Z.testbit (Z.land h (wrap64 (Z.lnot m))) i
  = Z.testbit h i && negb (Z.testbit m i) && bool_decide (0 ≤ i < 64).
Proof.
  rewrite Z.land_spec. unfold wrap64, wrap.
  destruct (decide (0 ≤ i < 64)) as [Hi|Hi].
  - rewrite Z.mod_pow2_bits_low, Z.lnot_spec, bool_decide_true by lia. by rewrite andb_true_r.
  - rewrite bool_decide_false, andb_false_r by lia. destruct (decide (i < 0)).
    + by rewrite Z.testbit_neg_r by lia.
    + by rewrite Z.mod_pow2_bits_high, andb_false_r by lia.
Qed.
#[export] Hint Rewrite lock_bit_spec clear_bits_spec Z.lor_spec Z.land_spec Z.bits_0 : bits.

Section spec.
Context {P : Platform}.

(** [holds w f i]: the handle's bitmap has lock [i]. *)
Definition holds (w : World) (f i : Z) : bool := Z.testbit (LocksHeld (file_ctx f w)) i.
Definition locked (w : World) (i : Z) : bool := Z.testbit (ResourceLockHeld w) i.

(** The device bitmap is the union of the handles' bitmaps, which are disjoint. *)
Record lock_inv (w : World) : Prop := {
  li_range i : locked w i = true → 0 ≤ i < 64;
  li_union i : locked w i = true ↔ ∃ f, holds w f i = true;
  li_excl f g i : holds w f i = true → holds w g i = true → f = g
}.

Lemma lock_inv_reads : Reads [CLocks; FLocks] lock_inv.
Proof.
  intros w w' H [Hr Hu He].
  assert (∀ i, locked w' i = locked w i) as Hl.
  { intros i. unfold locked. by rewrite (H CLocks eq_refl). }
  assert (∀ f i, holds w' f i = holds w f i) as Hh.
  { intros f i. unfold holds. by rewrite (H FLocks eq_refl f). }
  split; intros *; rewrite ?Hl, ?Hh; [apply Hr| |apply He].
  rewrite Hu. by setoid_rewrite Hh.
Qed.

(** ** TtLockTryAcquire *)
Lemma try_acquire_result f i w :
  let r := TtLockTryAcquire f i w in
  r.1 = negb (has_bits (ResourceLockHeld w) (lock_bit i))
  ∧ (∀ j, locked r.2 j = locked w j || (r.1 && bool_decide (i = j ∧ 0 ≤ j < 64)))
  ∧ (∀ g j, holds r.2 g j = holds w g j || (r.1 && bool_decide (f = g ∧ i = j ∧ 0 ≤ j < 64))).
Proof.
  unfold TtLockTryAcquire. run.
  destruct (has_bits (ResourceLockHeld w) (lock_bit i)) eqn:E; cbn [negb fst snd]; rewrite ?E.
  - cbn [negb andb]. split_and!; [done| |]; intros *; by rewrite orb_false_r.
  - split_and!; [done| |].
    + intros j. unfold locked. cbn. by rewrite Z.lor_spec, lock_bit_spec.
    + intros g j. unfold holds. rewrite upd_file_ctx. destruct (decide (f = g)) as [<-|Hn].
      * cbn. rewrite Z.lor_spec, lock_bit_spec. f_equal. apply bool_decide_ext. tauto.
      * rewrite (bool_decide_false (f = g ∧ _)) by tauto. by rewrite orb_false_r.
Qed.

Lemma try_acquire_keeps f i : Steps (Keeps lock_inv) (TtLockTryAcquire f i).
Proof.
  intros w [Hr Hu He]. destruct (try_acquire_result f i w) as (Hb & Hl & Hh).
  set (r := TtLockTryAcquire f i w) in *. clearbody r.
  assert (r.1 = true → locked w i = true → 0 ≤ i < 64 → False) as Hfree.
  { rewrite Hb, has_lock_bit. unfold locked. intros H1 H2 H3. by rewrite H2, bool_decide_true in H1. }
  split.
  - intros j. rewrite Hl, orb_true_iff, andb_true_iff, bool_decide_eq_true. intros [?|[? ?]]; [auto|tauto].
  - intros j. rewrite Hl, orb_true_iff, andb_true_iff, bool_decide_eq_true, Hu. split.
    + intros [[g Hg]|[Hr1 Hij]]; [exists g | exists f]; rewrite Hh, orb_true_iff; [auto|].
      right. by rewrite Hr1, bool_decide_true by tauto.
    + intros [g Hg]. rewrite Hh, orb_true_iff, andb_true_iff, bool_decide_eq_true in Hg.
      destruct Hg as [?|[? ?]]; [eauto | tauto].
  - intros g1 g2 j. rewrite !Hh, !orb_true_iff, !andb_true_iff, !bool_decide_eq_true.
    intros [H1|(H1 & <- & <- & ?)] [H2|(H2 & <- & ? & ?)]; [by eapply He| | |done].
    + subst j. destruct Hfree; [done| |done]. apply Hu; eauto.
    + destruct Hfree; [done| |done]. apply Hu; eauto.
Qed.

(** ** Giving locks back: the bits [m] of handle [f] *)
Lemma clear_keeps (m : Z → bool) f w w' :
  (∀ j, m j = true → holds w f j = true) →
  (∀ j, locked w' j = locked w j && negb (m j)) →
  (∀ g j, holds w' g j = holds w g j && negb (bool_decide (f = g) && m j)) →
  lock_inv w → lock_inv w'.
Proof.
  intros Hm Hl Hh [Hr Hu He]. split.
  - intros j. rewrite Hl, andb_true_iff. intros [? _]. auto.
  - intros j. rewrite Hl, andb_true_iff, Hu, negb_true_iff. split.
    + intros [[g Hg] Hn]. exists g. by rewrite Hh, Hg, Hn, andb_false_r.
    + intros [g Hg]. rewrite Hh, andb_true_iff, negb_true_iff in Hg. destruct Hg as [Hg Hn].
      split; [eauto|]. destruct (m j) eqn:E; [|done].
      assert (f = g) as <- by (eapply He; [by apply Hm | done]).
      by rewrite bool_decide_true in Hn.
  - intros g1 g2 j. rewrite !Hh, !andb_true_iff. intros [? _] [? _]. by eapply He.
Qed.

Lemma release_bit_result f i w :
  lock_inv w → 0 ≤ i < 64 →
  let w' := (release_bit f i w).2 in
  (∀ j, locked w' j = locked w j && negb (bool_decide (i = j)))
  ∧ (∀ g j, holds w' g j = holds w g j && negb (bool_decide (f = g) && bool_decide (i = j))).
Proof.
  intros Hinv Hi. unfold release_bit. run. split.
  - intros j. unfold locked. cbn. rewrite clear_bits_spec, lock_bit_spec.
    destruct (Z.testbit (ResourceLockHeld w) j) eqn:E; [|done]. apply Hinv in E.
    rewrite (bool_decide_true (0 ≤ j < 64)), andb_true_r by done. cbn. f_equal.
    apply bool_decide_ext. tauto.
  - intros g j. unfold holds at 1.
    change (file_ctx g (modify ?h ?w').2) with (file_ctx g w'). rewrite upd_file_ctx.
    destruct (decide (f = g)) as [<-|Hn]; [|by rewrite bool_decide_false, andb_true_r].
    rewrite (bool_decide_true (f = f)) by done. cbn. rewrite clear_bits_spec, lock_bit_spec. fold (holds w f j).
    destruct (holds w f j) eqn:E; [|done].
    assert (0 ≤ j < 64) by (eapply li_range, li_union; eauto).
    rewrite (bool_decide_true (0 ≤ j < 64)), andb_true_r by done. cbn. f_equal.
    apply bool_decide_ext. tauto.
Qed.

Lemma release_bit_keeps f i w :
  0 ≤ i < 64 → holds w f i = true → lock_inv w → lock_inv (release_bit f i w).2.
Proof.
  intros Hi Hh Hinv. destruct (release_bit_result f i w Hinv Hi) as [Hl Hg].
  apply (clear_keeps (λ j, bool_decide (i = j)) f w); try done.
  intros j Hj. apply bool_decide_eq_true in Hj. by subst.
Qed.

Lemma release_all_result f w :
  lock_inv w →
  let w' := (release_all f w).2 in
  (∀ j, locked w' j = locked w j && negb (holds w f j))
  ∧ (∀ g j, holds w' g j = holds w g j && negb (bool_decide (f = g) && holds w f j)).
Proof.
  intros Hinv. unfold release_all, TtGetFileContext. run. split.
  - intros j. unfold locked. cbn. rewrite clear_bits_spec. fold (holds w f j).
    destruct (Z.testbit (ResourceLockHeld w) j) eqn:E; [|done]. apply Hinv in E.
    by rewrite bool_decide_true, andb_true_r.
  - intros g j. unfold holds at 1. rewrite upd_file_ctx.
    destruct (decide (f = g)) as [<-|Hn]; [|by rewrite bool_decide_false, andb_true_r].
    rewrite bool_decide_true by done. cbn. by rewrite Z.bits_0, andb_negb_r.
Qed.

Lemma release_all_keeps f : Steps (Keeps lock_inv) (release_all f).
Proof.
  intros w Hinv. destruct (release_all_result f w Hinv) as [Hl Hg].
  by apply (clear_keeps (holds w f) f w).
Qed.

#[local] Hint Resolve lock_inv_reads : reads.
#[local] Hint Resolve try_acquire_keeps release_all_keeps : keeps.

(** ** The operations *)
Lemma wake_one_keeps r : Steps (Keeps lock_inv) (wake_one r).
Proof. unfold wake_one. keeps_walk. Qed.
#[local] Hint Resolve wake_one_keeps : keeps.

Lemma wake_waiters_keeps : Steps (Keeps lock_inv) TtLocksWakeWaiters.
Proof. unfold TtLocksWakeWaiters. keeps_walk. Qed.
#[local] Hint Resolve wake_waiters_keeps : keeps.

Lemma locks_release_all_keeps f : Steps (Keeps lock_inv) (TtLocksReleaseAll f).
Proof. unfold TtLocksReleaseAll. keeps_walk. Qed.

Lemma lock_release_keeps f r i : Steps (Keeps lock_inv) (lock_release f r i).
Proof.
  assert (∀ v, Steps (Keeps lock_inv) (lock_complete r v)) as Hc by (intros; keeps_walk).
  intros w Hinv. unfold lock_release, TtGetFileContext. unfold mbind at 1, st_bind at 1. cbn [gets fst snd].
  destruct (has_bits _ _) eqn:E; [|by apply Hc].
  rewrite has_lock_bit, andb_true_iff, bool_decide_eq_true in E. destruct E as [E Hi].
  assert (Steps (Keeps lock_inv) (TtLocksWakeWaiters;; lock_complete r 1)) as Hs by keeps_walk.
  apply (Hs (release_bit f i w).2). by apply release_bit_keeps.
Qed.
#[local] Hint Resolve lock_release_keeps : keeps.

Lemma lock_ctl_keeps f r : Steps (Keeps lock_inv) (TtIoctlLockCtl f r).
Proof.
  unfold TtIoctlLockCtl. keeps_walk. Qed.

(** ** The wake pass *)

(** Locks are only taken, and no request changes its file or the lock it waits for. *)
Definition wait_index (w : World) (r : Z) : Z := default 0 (rq_LockIndex (req_state r w)).
Definition Taking : relation World := λ w w',
  (∀ i, locked w i = true → locked w' i = true) ∧ (∀ r, wait_index w' r = wait_index w r ∧ rq_File (req_state r w') = rq_File (req_state r w)).
#[global] Instance Taking_preorder : PreOrder Taking.
Proof.
  split; [by split|]. intros a b c [H1 H2] [H3 H4]. split; [auto|].
  intros r. destruct (H2 r) as [<- <-]. apply H4.
Qed.

Lemma taking_local w w' : (∀ c, cmem c [CLocks; CReqs] = true → agree c w w') → Taking w w'.
Proof.
  intros H. split; [intros i; unfold locked; by rewrite (H CLocks eq_refl)|].
  intros r. unfold wait_index, req_state. by rewrite !(H CReqs eq_refl).
Qed.

Lemma taking_try_acquire f i : Steps Taking (TtLockTryAcquire f i).
Proof.
  intros w. destruct (try_acquire_result f i w) as (_ & Hl & _). split.
  - intros j Hj. by rewrite Hl, Hj.
  - intros r. unfold wait_index, req_state.
    by rewrite !(frame_at CReqs _ _ w (TtLockTryAcquire_frame f i) eq_refl).
Qed.

Lemma taking_complete r : Steps Taking (TtLockCompleteAcquired r).
Proof.
  intros w. split.
  - intros i. unfold locked. by rewrite (frame_at CLocks _ _ w (TtLockCompleteAcquired_frame r) eq_refl).
  - intros r'. unfold TtLockCompleteAcquired, write_output, WdfRequestSetInformation, wait_index. run.
    destruct (NT_SUCCESS _); [|by split].
    change (req_state r' (WdfRequestComplete ?a ?b ?w).2) with (req_state r' w).
    rewrite !upd_req_state. destruct (decide (r = r')) as [<-|]; [by rewrite decide_True | done].
Qed.

Context `{!QueueLaws P}.
Definition waiters (w : World) : list Z := queue_contents (LockWaitQueue w).

Lemma forward_result r w :
  waiters (forward_to_queue r w).2 = if NT_SUCCESS (forward_to_queue r w).1 then waiters w ++ [r] else waiters w.
Proof.
  unfold forward_to_queue, call, waiters. run. cbn.
  pose proof (forward_contents r (LockWaitQueue w) (w_os w)) as H.
  by destruct (WdfRequestForwardToIoQueue _ _ _) as [[s q] os].
Qed.

Lemma retrieve_batch_spec n q :
  (retrieve_batch n q).1 = take n (queue_contents q)
  ∧ queue_contents (retrieve_batch n q).2 = drop n (queue_contents q).
Proof.
  revert q. induction n as [|n IH]; intros q; cbn [retrieve_batch]; [by rewrite take_0, drop_0|].
  pose proof (retrieve_next q) as H. destruct (WdfIoQueueRetrieveNextRequest q) as [[r q']|]; rewrite H.
  - cbn. destruct (IH q') as [-> ->]. done.
  - cbn. by rewrite H.
Qed.

Lemma wake_one_spec r w :
  let w' := (wake_one r w).2 in
  Taking w w' ∧ (waiters w' = waiters w ∨ (waiters w' = waiters w ++ [r] ∧ locked w' (wait_index w r) = true)).
Proof.
  unfold wake_one, TtGetFileContext. run.
  destruct (rq_File (req_state r w)) as [f|]; [|by split; [|left]].
  cbn [fst snd]. destruct (_ || _); [by split; [|left]|].
  fold (wait_index w r). pose proof (taking_try_acquire f (wait_index w r) w) as Ht.
  destruct (try_acquire_result f (wait_index w r) w) as (Hb & Hl & _).
  assert (waiters (TtLockTryAcquire f (wait_index w r) w).2 = waiters w) as Hq.
  { unfold waiters. by rewrite (frame_at CWaitQueue _ _ w (TtLockTryAcquire_frame f _) eq_refl). }
  destruct (TtLockTryAcquire f (wait_index w r) w) as [[|] w1]; cbn [fst snd] in *.
  - split; [etrans; [exact Ht | apply taking_complete]|]. left. rewrite <- Hq. unfold waiters.
    by rewrite (frame_at CWaitQueue _ _ w1 (TtLockCompleteAcquired_frame r) eq_refl).
  - symmetry in Hb. apply negb_false_iff in Hb. rewrite has_lock_bit, andb_true_iff in Hb.
    destruct Hb as [Hb _]. fold (locked w (wait_index w r)) in Hb.
    pose proof (forward_result r w1) as Hf.
    assert (Taking w1 (forward_to_queue r w1).2) as Ht2.
    { apply (steps_local _ _ _ _ taking_local (forward_to_queue_frame r) eq_refl). }
    destruct (forward_to_queue r w1) as [s w2]. cbn [fst snd] in *.
    assert (Taking w w2) as Ht3 by (etrans; eassumption).
    destruct (NT_SUCCESS s); cbn [negb when]; run; rewrite ?Hq in Hf.
    + split; [done|]. right. split; [done|]. by apply Ht3.
    + split; [done|]. by left.
Qed.

Lemma wake_pass_spec rs w :
  let w' := (for_each rs wake_one w).2 in
  Taking w w' ∧ ∃ q, waiters w' = waiters w ++ q ∧ q `sublist_of` rs ∧ Forall (λ r, locked w' (wait_index w r) = true) q.
Proof.
  revert w. induction rs as [|r rs IH]; intros w; cbn [for_each].
  - split; [done|]. exists []. rewrite app_nil_r. split_and!; [done | constructor | done].
  - run. destruct (wake_one_spec r w) as [H1 Hr]. destruct (wake_one r w) as [u w1]. cbn [fst snd] in *.
    destruct (IH w1) as [H2 (q & Hq & Hs & Hf)]. destruct (for_each rs wake_one w1) as [u' w2]. cbn [fst snd] in *.
    assert (Forall (λ r0, locked w2 (wait_index w r0) = true) q) as Hf'.
    { revert Hf. apply Forall_impl. intros x Hx. by rewrite <- (proj1 (proj2 H1 x)). }
    split; [by etrans|]. destruct Hr as [Hr|[Hr Hl]]; rewrite Hr in Hq.
    + exists q. split_and!; [done | by constructor | done].
    + exists (r :: q). rewrite <- app_assoc in Hq.
      split_and!; [done | by constructor |]. constructor; [|done]. by apply H2.
Qed.

Lemma wake_waiters_unfold w :
  ∃ w1, (TtLocksWakeWaiters w).2 = (for_each (take TT_LOCK_WAKE_BATCH (waiters w)) wake_one w1).2
    ∧ waiters w1 = drop TT_LOCK_WAKE_BATCH (waiters w) ∧ Frame [CWaitQueue] w w1.
Proof.
  destruct (retrieve_batch_spec TT_LOCK_WAKE_BATCH (LockWaitQueue w)) as [Hb Hq].
  exists (w <| LockWaitQueue := (retrieve_batch TT_LOCK_WAKE_BATCH (LockWaitQueue w)).2 |>).
  split_and!; [|exact Hq | agree_tac]. unfold TtLocksWakeWaiters. run. by rewrite Hb.
Qed.

Lemma frame_taking w w' : Frame [CWaitQueue] w w' → Taking w w'.
Proof. intros H. apply taking_local. intros c Hc. apply H. by destruct c. Qed.

Lemma wake_waiters_spec w :
  (length (waiters w) ≤ TT_LOCK_WAKE_BATCH)%nat →
  let w' := (TtLocksWakeWaiters w).2 in
  Taking w w' ∧ waiters w' `sublist_of` waiters w
  ∧ Forall (λ r, locked w' (wait_index w r) = true) (waiters w').
Proof.
  intros Hlen w'. destruct (wake_waiters_unfold w) as (w1 & Hw' & H1 & Hf1).
  apply frame_taking in Hf1. fold w' in Hw'. rewrite take_ge in Hw' by done. rewrite drop_ge in H1 by done.
  destruct (wake_pass_spec (waiters w) w1) as [Ht (q & Hq' & Hs & Hf)]. rewrite <- Hw' in *.
  rewrite H1 in Hq'. simpl in Hq'. rewrite Hq'. split_and!; [by etrans | done |].
  revert Hf. apply Forall_impl. intros x Hx. by rewrite <- (proj1 (proj2 Hf1 x)).
Qed.

(** C24 After a wake pass over at most 64 waiters (TT_LOCK_WAKE_BATCH) no wakeup
    is lost: the requests that still wait are the old ones in their old order,
    and each of them waits for a lock that is held. *)
Theorem wake_leaves_no_idle_waiter w :
  (length (waiters w) ≤ TT_LOCK_WAKE_BATCH)%nat →
  waiters (TtLocksWakeWaiters w).2 `sublist_of` waiters w
  ∧ ∀ r, r ∈ waiters (TtLocksWakeWaiters w).2 →
      wait_index (TtLocksWakeWaiters w).2 r = wait_index w r
      ∧ locked (TtLocksWakeWaiters w).2 (wait_index w r) = true.
Proof.
  intros Hlen. destruct (wake_waiters_spec w Hlen) as [Ht [Hs Hf]]. split; [done|].
  intros r Hr. split; [apply Ht|]. rewrite Forall_forall in Hf. by apply Hf, list_elem_of_In.
Qed.

(** ** Closing a handle

    A pass gives locks only to the handles of the requests that it drains. *)
Lemma wake_one_other r f w :
  rq_File (req_state r w) ≠ Some f → ∀ i, holds (wake_one r w).2 f i = holds w f i.
Proof.
  intros Hf i. unfold wake_one, TtGetFileContext. run.
  destruct (rq_File (req_state r w)) as [g|]; [|done]. cbn [fst snd]. destruct (_ || _); [done|].
  destruct (try_acquire_result g (default 0 (rq_LockIndex (req_state r w))) w) as (_ & _ & Hh).
  assert (holds (TtLockTryAcquire g (default 0 (rq_LockIndex (req_state r w))) w).2 f i = holds w f i)
    as Hw by (rewrite Hh, (bool_decide_false (g = f ∧ _)), andb_false_r, orb_false_r by naive_solver; done).
  destruct (TtLockTryAcquire g _ w) as [[|] w1]; cbn [fst snd] in *; rewrite <- Hw; unfold holds.
  - by rewrite (frame_at FLocks _ _ w1 (TtLockCompleteAcquired_frame r) eq_refl).
  - pose proof (frame_at FLocks _ _ w1 (forward_to_queue_frame r) eq_refl f) as H1.
    destruct (forward_to_queue r w1) as [s w2]. cbn [fst snd fagree] in *.
    rewrite <- H1. by destruct (NT_SUCCESS s).
Qed.

Lemma wake_pass_other rs f w :
  (∀ r, r ∈ rs → rq_File (req_state r w) ≠ Some f) →
  ∀ i, holds (for_each rs wake_one w).2 f i = holds w f i.
Proof.
  revert w. induction rs as [|r rs IH]; intros w Hrs i; cbn [for_each]; [done|]. run.
  pose proof (wake_one_other r f w (Hrs r ltac:(left))) as H1.
  destruct (wake_one_spec r w) as [[_ Ht] _]. destruct (wake_one r w) as [u w1]. cbn [fst snd] in *.
  rewrite IH; [apply H1|]. intros r' Hr'. destruct (Ht r') as [_ ->]. apply Hrs. by right.
Qed.

Lemma wake_waiters_other f w :
  (∀ r, r ∈ waiters w → rq_File (req_state r w) ≠ Some f) →
  ∀ i, holds (TtLocksWakeWaiters w).2 f i = holds w f i.
Proof.
  intros Hq i. destruct (wake_waiters_unfold w) as (w1 & -> & _ & Hf).
  rewrite wake_pass_other.
  - unfold holds. by rewrite (Hf FLocks eq_refl f).
  - intros r Hr. destruct (proj2 (frame_taking _ _ Hf) r) as [_ ->]. apply Hq.
    by eapply elem_of_take in Hr as (? & ? & _); eapply list_elem_of_lookup_2.
Qed.

(** Closing a handle that has no blocked ACQUIRE_BLOCKING request of its own
    releases all of its locks: afterwards it holds none, and the bitmaps are
    consistent again. *)
Theorem release_all_frees f w :
  lock_inv w →
  (∀ r, r ∈ waiters w → rq_File (req_state r w) ≠ Some f) →
  lock_inv (TtLocksReleaseAll f w).2 ∧ ∀ i, holds (TtLocksReleaseAll f w).2 f i = false.
Proof.
  intros Hinv Hq. split; [by apply locks_release_all_keeps|]. intros i.
  unfold TtLocksReleaseAll. run.
  assert (lock_inv (acquire LockLock w).2) as Hi1.
  { eapply lock_inv_reads; [|exact Hinv]. agree_tac. }
  destruct (release_all_result f _ Hi1) as [_ Hh].
  pose proof (frame_at CReqs _ _ (acquire LockLock w).2 (release_all_frame f) eq_refl) as Hr.
  pose proof (frame_at CWaitQueue _ _ (acquire LockLock w).2 (release_all_frame f) eq_refl) as Hwq.
  set (w1 := (release_all f (acquire LockLock w).2).2) in *. clearbody w1.
  unfold holds. rewrite (frame_at FLocks _ _ _ (release_frame LockLock) eq_refl f).
  fold (holds (TtLocksWakeWaiters w1).2 f i). rewrite wake_waiters_other.
  - rewrite Hh, bool_decide_true by done. cbn [andb]. by rewrite andb_negb_r.
  - intros r. unfold waiters, req_state. rewrite Hr, Hwq. apply Hq.
Qed.

(** ** Refinement: the bitmaps implement a table of owners *)
Definition lock_table := Z → option Z.
Definition set_owner (i : Z) (o : option Z) (σ : lock_table) : lock_table :=
  λ j, if decide (i = j) then o else σ j.

Inductive lock_op := LAcquire | LRelease | LTest.
Definition lock_flag (op : lock_op) : Z :=
  match op with
  | LAcquire => TENSTORRENT_LOCK_CTL_ACQUIRE
  | LRelease => TENSTORRENT_LOCK_CTL_RELEASE
  | LTest => TENSTORRENT_LOCK_CTL_TEST
  end.

(** What the interface promises: the reply value and the new table. *)
Definition lock_spec (op : lock_op) (f i : Z) (σ : lock_table) : Z * lock_table :=
  match op, σ i with
  | LAcquire, None => (1, set_owner i (Some f) σ)
  | LAcquire, Some _ => (0, σ)
  | LRelease, Some g => if decide (g = f) then (1, set_owner i None σ) else (0, σ)
  | LRelease, None => (0, σ)
  | LTest, Some g => (if decide (g = f) then 3 else 2, σ)
  | LTest, None => (0, σ)
  end.

Record lock_abs (w : World) (σ : lock_table) : Prop := {
  la_inv : lock_inv w;
  la_holds f i : holds w f i = bool_decide (σ i = Some f)
}.

Lemma la_locked w σ i : lock_abs w σ → locked w i = bool_decide (is_Some (σ i)).
Proof.
  intros [[_ Hu _] Hh]. apply eq_bool_prop_intro. rewrite !Is_true_true, bool_decide_eq_true, Hu.
  setoid_rewrite Hh. setoid_rewrite bool_decide_eq_true. unfold is_Some. naive_solver.
Qed.

Lemma lock_abs_reads σ : Reads [CLocks; FLocks] (λ w, lock_abs w σ).
Proof.
  intros w w' H [Hi Hh]. split; [by eapply lock_inv_reads|].
  intros f i. rewrite <- Hh. unfold holds. by rewrite (H FLocks eq_refl f).
Qed.

Lemma try_acquire_abs f i w σ :
  lock_abs w σ → 0 ≤ i < 64 →
  let r := TtLockTryAcquire f i w in
  r.1 = bool_decide (σ i = None) ∧ lock_abs r.2 (if r.1 then set_owner i (Some f) σ else σ).
Proof.
  intros Ha Hi. pose proof (try_acquire_keeps f i w (la_inv _ _ Ha)) as Hk.
  destruct (try_acquire_result f i w) as (Hb & _ & Hh).
  set (r := TtLockTryAcquire f i w) in *. clearbody r.
  rewrite has_lock_bit, (bool_decide_true (0 ≤ i < 64)), andb_true_r in Hb by done.
  fold (locked w i) in Hb. rewrite (la_locked _ _ _ Ha) in Hb.
  assert (r.1 = bool_decide (σ i = None)) as Hr.
  { rewrite Hb. destruct (σ i) eqn:E; [|done]. by rewrite bool_decide_true by done. }
  split; [done|]. split; [done|]. intros g j. rewrite Hh, (la_holds _ _ Ha).
  destruct r.1; [|by rewrite orb_false_r]. symmetry in Hr. apply bool_decide_eq_true in Hr.
  unfold set_owner. destruct (decide (i = j)) as [<-|Hn].
  - rewrite Hr, (bool_decide_false (None = _)) by done. cbn. apply bool_decide_ext.
    split; [by intros (-> & _) | intros [= ->]; done].
  - rewrite (bool_decide_false (f = g ∧ _)) by tauto. by rewrite orb_false_r.
Qed.

Lemma release_bit_abs f i w σ :
  lock_abs w σ → 0 ≤ i < 64 → σ i = Some f → lock_abs (release_bit f i w).2 (set_owner i None σ).
Proof.
  intros Ha Hi Hf. destruct (release_bit_result f i w (la_inv _ _ Ha) Hi) as [_ Hh]. split.
  - apply release_bit_keeps; [done| |by apply Ha]. by rewrite (la_holds _ _ Ha), bool_decide_true.
  - intros g j. rewrite Hh, (la_holds _ _ Ha). unfold set_owner. destruct (decide (i = j)) as [<-|Hn].
    + rewrite Hf, (bool_decide_true (i = i)), andb_true_r, (bool_decide_false (None = _)) by done.
      destruct (decide (f = g)) as [->|?]; [by rewrite !bool_decide_true|].
      by rewrite !bool_decide_false by naive_solver.
    + rewrite (bool_decide_false (i = j)), andb_false_r by done. by rewrite andb_true_r.
Qed.

Lemma lock_complete_ok r v w :
  out_room w r 12 4 = true → buffer_ok w r →
  lock_complete r v w = ((STATUS_SUCCESS, false), replied r 12 4 (lock_out v) (release LockLock w).2).
Proof.
  intros Ho Hb. unfold lock_complete. run.
  change (c_offsetof tenstorrent_lock_ctl "out") with 12.
  change (c_sizeof tenstorrent_lock_ctl_out) with 4.
  by rewrite (sized_out_ok (release LockLock w).2 r 12 (lock_out v) 4 4).
Qed.

Lemma retrieve_batch_empty n q : queue_contents q = [] → retrieve_batch n q = ([], q).
Proof.
  intros Hq. destruct n; [done|]. cbn [retrieve_batch]. pose proof (retrieve_next q) as H.
  destruct (WdfIoQueueRetrieveNextRequest q) as [[x q']|]; [congruence | done].
Qed.

Lemma wake_empty w :
  waiters w = [] → (TtLocksWakeWaiters w).2 = w <| LockWaitQueue := LockWaitQueue w |>.
Proof. intros Hw. unfold TtLocksWakeWaiters. run. by rewrite retrieve_batch_empty. Qed.

(** A LOCK_CTL request for operation [op] on lock [i]. *)
Record lock_request (w : World) (r : Z) (op : lock_op) (i : Z) : Prop := {
  lr_input : WdfRequestRetrieveInputBuffer (rq_InLength (req_state r w)) 12 = STATUS_SUCCESS;
  lr_flags : sget tenstorrent_lock_ctl_in "flags" (take 12 (rq_Buffer (req_state r w))) = lock_flag op;
  lr_index : sget tenstorrent_lock_ctl_in "index" (take 12 (rq_Buffer (req_state r w))) = i;
  lr_range : 0 ≤ i < 64;
  lr_room : out_room w r 12 4 = true;
  lr_buffer : buffer_ok w r
}.

(** The reply and the table after a handler that ran to [lock_complete]. *)
Definition lock_done (r v : Z) (σ : lock_table) (res : NTSTATUS * bool * World) : Prop :=
  res.1 = (STATUS_SUCCESS, false)
  ∧ bytes_at 12 4 (rq_Buffer (req_state r res.2)) = lock_out v
  ∧ lock_abs res.2 σ.

Lemma lock_complete_done r v σ w :
  lock_abs w σ → out_room w r 12 4 = true → buffer_ok w r → lock_done r v σ (lock_complete r v w).
Proof.
  intros Ha Ho Hb. rewrite lock_complete_ok by done. split_and!; [done| |].
  - cbn [snd]. by rewrite replied_bytes.
  - eapply lock_abs_reads; [|exact Ha]. agree_tac.
Qed.

Lemma lock_release_done f r i w σ :
  lock_abs w σ → 0 ≤ i < 64 → waiters w = [] → out_room w r 12 4 = true → buffer_ok w r →
  lock_done r (lock_spec LRelease f i σ).1 (lock_spec LRelease f i σ).2 (lock_release f r i w).
Proof.
  intros Ha Hi Hw Ho Hb. unfold lock_release, TtGetFileContext. unfold mbind at 1, st_bind at 1. cbn [gets fst snd].
  rewrite has_lock_bit, (bool_decide_true (0 ≤ i < 64)), andb_true_r by done.
  fold (holds w f i). rewrite (la_holds _ _ Ha). destruct (σ i) as [g|] eqn:Eg.
  - unfold lock_spec. rewrite Eg. destruct (decide (g = f)) as [->|Hn].
    + rewrite bool_decide_true by done. unfold mbind, st_bind. cbn [fst snd].
      assert (waiters (release_bit f i w).2 = []) as Hq.
      { unfold waiters. by rewrite (frame_at CWaitQueue _ _ w (release_bit_frame f i) eq_refl). }
      rewrite wake_empty by done. apply lock_complete_done.
      * eapply lock_abs_reads; [|by apply (release_bit_abs f i w)].
        agree_tac.
      * rewrite <- Ho. apply out_room_reqs. reflexivity.
      * revert Hb. apply buffer_ok_reqs. reflexivity.
    + rewrite bool_decide_false by naive_solver. by apply lock_complete_done.
  - unfold lock_spec. rewrite Eg, bool_decide_false by done. by apply lock_complete_done.
Qed.

(** C16 LOCK_CTL implements a table of lock owners: with no waiter pending,
    ACQUIRE, RELEASE and TEST on lock [i] reply the value that the abstract
    table gives and leave the bitmaps representing the abstract new table. *)
Theorem lock_ctl_refines_table w σ f r op i :
  lock_abs w σ → waiters w = [] → lock_request w r op i →
  lock_done r (lock_spec op f i σ).1 (lock_spec op f i σ).2 (TtIoctlLockCtl f r w).
Proof.
  intros Ha Hw [Hin Hfl Hix Hi Ho Hb]. unfold TtIoctlLockCtl. unfold mbind at 1, st_bind at 1.
  change (c_sizeof tenstorrent_lock_ctl_in) with 12. rewrite copy_in_ok by done. cbn [fst snd].
  change (Z.to_nat 12) with 12%nat. rewrite Hfl, Hix.
  change TENSTORRENT_RESOURCE_LOCK_COUNT with 64. rewrite (proj2 (Z.leb_gt 64 i)) by lia.
  change (negb (NT_SUCCESS STATUS_SUCCESS)) with false. cbv iota zeta.
  unfold mbind at 1, st_bind at 1. cbn [fst snd].
  assert (lock_abs (acquire LockLock w).2 σ) as Ha1.
  { eapply lock_abs_reads; [|exact Ha]. agree_tac. }
  set (w1 := (acquire LockLock w).2) in *. assert (w_reqs w1 = w_reqs w) as Hr by reflexivity.
  assert (waiters w1 = []) as Hw1 by exact Hw. clearbody w1.
  rewrite <- (out_room_reqs w w1 r 12 4 Hr) in Ho. apply (buffer_ok_reqs w w1 r Hr) in Hb.
  destruct op; cbn [lock_flag];
    cbn [Z.eqb TENSTORRENT_LOCK_CTL_ACQUIRE TENSTORRENT_LOCK_CTL_RELEASE TENSTORRENT_LOCK_CTL_TEST Pos.eqb].
  - destruct (try_acquire_abs f i w1 σ Ha1 Hi) as [Hres Habs].
    pose proof (TtLockTryAcquire_frame f i w1 CReqs eq_refl) as Hr2.
    unfold mbind, st_bind. destruct (TtLockTryAcquire f i w1) as [b w2]. cbn [fst snd agree] in *.
    rewrite <- (out_room_reqs w1 w2 r 12 4 Hr2) in Ho. apply (buffer_ok_reqs w1 w2 r Hr2) in Hb.
    unfold lock_spec. subst b. destruct (σ i) eqn:Ei; by apply lock_complete_done.
  - by apply lock_release_done.
  - unfold TtGetFileContext, mbind, st_bind, gets. cbn [fst snd].
    rewrite !has_lock_bit, (bool_decide_true (0 ≤ i < 64)), !andb_true_r by done.
    fold (holds w1 f i). fold (locked w1 i). rewrite (la_holds _ _ Ha1), (la_locked _ _ _ Ha1).
    unfold lock_spec. destruct (σ i) as [g|] eqn:Ei; [|by apply lock_complete_done].
    rewrite (bool_decide_true (is_Some _)) by done.
    destruct (decide (g = f)) as [->|Hn].
    + rewrite bool_decide_true by done. by apply lock_complete_done.
    + rewrite bool_decide_false by naive_solver. by apply lock_complete_done.
Qed.
End spec.

(** ** Concrete runs *)

(** A LOCK_CTL request of handle [f]: flags, lock index. *)
Definition lock_ctl_req (f flags i : Z) : ReqState :=
  sim_req f 0 [16; 0; 0; 0; flags; 0; 0; 0; i; 0; 0; 0] 16.

(** Handle 1 takes lock 3 (request 4), then blocks on it (request 5); handle 2
    blocks on it as well (request 6). *)
Definition lock_demo : World :=
  ((TtIoctlLockCtl 1 4;; TtIoctlLockCtl 1 5;; TtIoctlLockCtl 2 6)
     (with_req 4 (lock_ctl_req 1 0 3) (with_req 5 (lock_ctl_req 1 3 3)
        (with_req 6 (lock_ctl_req 2 3 3) sim_world)))).2.

(** Handle 1 takes lock 3, handle 2 blocks on it. *)
Definition lock_demo2 : World :=
  ((TtIoctlLockCtl 1 4;; TtIoctlLockCtl 2 6)
     (with_req 4 (lock_ctl_req 1 0 3) (with_req 6 (lock_ctl_req 2 3 3) sim_world))).2.

Lemma sim_lock_inv : lock_inv sim_world.
Proof.
  assert (∀ f i, holds sim_world f i = false) as Hh.
  { intros f i. unfold holds. destruct (sim_file_ctx f) as [-> | ->]; apply Z.bits_0. }
  assert (∀ i, locked sim_world i = false) as Hl by (intros; apply Z.bits_0).
  split; intros *; rewrite ?Hl, ?Hh; [done | | done]. setoid_rewrite Hh. naive_solver.
Qed.

Lemma lock_demo2_inv : lock_inv lock_demo2.
Proof.
  assert (Steps (Keeps (lock_inv (P := sim))) (TtIoctlLockCtl 1 4;; TtIoctlLockCtl 2 6)) as Hs.
  { apply steps_bind; [apply _ | apply lock_ctl_keeps | intros; apply lock_ctl_keeps]. }
  apply (Hs (with_req 4 (lock_ctl_req 1 0 3) (with_req 6 (lock_ctl_req 2 3 3) sim_world))).
  eapply lock_inv_reads; [|apply sim_lock_inv]. agree_tac.
Qed.

Lemma release_all_frees_witness :
  lock_inv (TtLocksReleaseAll 1 lock_demo2).2 ∧ ∀ i, holds (TtLocksReleaseAll 1 lock_demo2).2 1 i = false.
Proof.
  apply (release_all_frees 1 lock_demo2 lock_demo2_inv). intros r Hr.
  assert (waiters lock_demo2 = [6]) as Hw by (vm_compute; reflexivity). rewrite Hw in Hr.
  apply list_elem_of_singleton in Hr as ->. vm_compute. discriminate.
Defined.

Lemma wake_leaves_no_idle_waiter_witness :
  waiters (TtLocksWakeWaiters lock_demo).2 `sublist_of` waiters lock_demo
  ∧ ∀ r, r ∈ waiters (TtLocksWakeWaiters lock_demo).2 →
      wait_index (TtLocksWakeWaiters lock_demo).2 r = wait_index lock_demo r
      ∧ locked (TtLocksWakeWaiters lock_demo).2 (wait_index lock_demo r) = true.
Proof. apply wake_leaves_no_idle_waiter. vm_compute. lia. Defined.

(** A handle that is closed while one of its own ACQUIRE_BLOCKING requests
    is still queued gets the lock back during the cleanup: after
    TtLocksReleaseAll the closing handle holds lock 3 again, the waiter of the
    other handle is still queued, and nobody is left to release the lock. *)
Theorem release_all_own_waiter_leaks :
  holds lock_demo 1 3 = true ∧ waiters lock_demo = [5; 6] ∧
  let w := (TtLocksReleaseAll 1 lock_demo).2 in
  holds w 1 3 = true ∧ waiters w = [6].
Proof. vm_compute. done. Qed.

Lemma lock_ctl_refines_table_witness :
  lock_done 4 1 (set_owner 3 (Some 1) (λ _, None))
    (TtIoctlLockCtl 1 4 (with_req 4 (lock_ctl_req 1 0 3) sim_world)).
Proof.
  apply (lock_ctl_refines_table (with_req 4 (lock_ctl_req 1 0 3) sim_world) (λ _, None) 1 4 LAcquire 3).
  - split.
    + eapply lock_inv_reads; [|apply sim_lock_inv]. agree_tac.
    + intros f i. change (holds sim_world f i = false).
      unfold holds. destruct (sim_file_ctx f) as [-> | ->]; apply Z.bits_0.
  - reflexivity.
  - split; try (vm_compute; reflexivity); [lia | vm_compute; discriminate].
Defined.
