(* ===== verification/Power.v ===== *)
(** * Power-state aggregation and NOC cleanup registration (src/driver/power.c) *)
From S2P Require Import Prelude Platform Frame Trace Abi PciConfig Blackhole.

Definition TT_POWER_FLAG_ALL : Z := 0x7FFF.

(** The legacy contribution of a freshly opened handle. *)
Definition power_default : PowerContribution :=
  mkPower true (wrap8 (TT_POWER_VALIDITY 15 0))
    (wrap16 (Z.land TT_POWER_FLAG_ALL (Z.lnot TT_POWER_FLAG_MAX_AI_CLK))) (replicate 14 0).

Definition power_flags_count (c : PowerContribution) : Z := Z.land (Z.shiftr (PowerValidity c) 0) 0xF.
Definition power_settings_count (c : PowerContribution) : Z := Z.land (Z.shiftr (PowerValidity c) 4) 0xF.

(** Flags past [flagsCount] default to on. *)
Definition effective_flags (c : PowerContribution) : Z :=
  let unspecifiedMask :=
    wrap16 (Z.land (Z.lnot (Z.shiftl 1 (power_flags_count c) - 1)) TT_POWER_FLAG_ALL) in
  wrap16 (Z.lor (PowerFlags c) unspecifiedMask).

Definition setting (l : list Z) (i : Z) : Z := default 0 (l !! Z.to_nat i).

(** The accumulator of the loop over the file list. *)
Record Agg := mkAggAcc { agg_flags : Z; agg_settings : list Z; agg_maxcount : Z }.

Definition agg_setting (c : PowerContribution) (acc : list Z) (i : Z) : list Z :=
  if setting acc i <? setting (PowerSettings c) i
  then <[Z.to_nat i := setting (PowerSettings c) i]> acc else acc.

Definition agg_one (acc : Agg) (c : PowerContribution) : Agg :=
  let settingsCount := power_settings_count c in
  let n := if 14 <? settingsCount then 14 else settingsCount in
  mkAggAcc (wrap16 (Z.lor (agg_flags acc) (effective_flags c)))
           (foldl (agg_setting c) (agg_settings acc) (zrange (Z.to_nat n)))
           (if agg_maxcount acc <? settingsCount then settingsCount else agg_maxcount acc).

Definition agg_zero : Agg := mkAggAcc 0 (replicate 14 0) 0.
Definition aggregate (cs : list PowerContribution) : Agg := foldl agg_one agg_zero cs.

(** The POWER_SETTING message (header and the fourteen packed settings). *)
Definition power_msg (a : Agg) : TT_ARC_MSG :=
  mkMsg (Z.lor (Z.lor TT_ARC_MSG_TYPE_POWER_SETTING
                 (wrap32 (Z.shiftl (TT_POWER_VALIDITY 15 (agg_maxcount a)) 8)))
               (wrap32 (Z.shiftl (agg_flags a) 16)))
        ((λ i, Z.lor (setting (agg_settings a) (2 * i))
                     (wrap32 (Z.shiftl (setting (agg_settings a) (2 * i + 1)) 16))) <$> zrange 7).

Section power.
Context {P : Platform}.

Definition TtPowerFileDefault (FileObject : Z) : M () :=
  upd_file FileObject (λ c, c <| fc_Power := power_default |>).

(** The handles that count: on the list, contributing, of the current generation. *)
Definition contributes (gen : Z) (c : TT_FILE_CONTEXT) : bool :=
  PowerContributes (fc_Power c) && (OpenResetGen c =? gen).
Definition live_contributions (w : World) : list PowerContribution :=
  fc_Power <$> filter (λ c, contributes (ResetGen (w_gate w)) c) ((λ f, file_ctx f w) <$> FileList w).

Definition TtPowerAggregate : M () :=
  acquire PowerLock;;
  acquire FileListLock;;
  cs ← gets live_contributions;
  let agg := aggregate cs in
  release FileListLock;;
  modify (λ w, w <| w_power := mkAgg true (agg_flags agg) (agg_settings agg) |>);;
  release PowerLock;;
  bh ← gets (IsBlackhole ∘ w_id);
  detached ← gets (Detached ∘ w_gate);
  when (bh && negb detached) (TtBhSendArcMessage (power_msg agg);; mret tt).

Definition decode_settings (b : list Z) : list Z :=
  sget_elem tenstorrent_power_state "power_settings" 2 b <$> zrange 14.

Definition TtIoctlSetPowerState (FileObject Request : Z) : M NTSTATUS :=
  let T := tenstorrent_power_state in
  c ← TtCopyInBuffer Request (c_sizeof T);
  if negb (NT_SUCCESS c.1) then mret c.1
  else if negb (sget T "argsz" c.2 =? c_sizeof T) then mret STATUS_INVALID_PARAMETER
  else if negb (sget T "flags" c.2 =? 0) || negb (sget T "reserved0" c.2 =? 0)
  then mret STATUS_INVALID_PARAMETER
  else if TT_POWER_VALIDITY 15 14 <? sget T "validity" c.2 then mret STATUS_INVALID_PARAMETER
  else
    acquire (FileLock FileObject);;
    upd_file FileObject (λ fc, fc <| fc_Power :=
      mkPower true (sget T "validity" c.2) (sget T "power_flags" c.2) (decode_settings c.2) |>);;
    release (FileLock FileObject);;
    TtPowerAggregate;;
    WdfRequestSetInformation Request 0;;
    mret STATUS_SUCCESS.

Definition TtIoctlSetNocCleanup (FileObject Request : Z) : M NTSTATUS :=
  let T := tenstorrent_set_noc_cleanup in
  bh ← gets (IsBlackhole ∘ w_id);
  if negb bh then mret STATUS_NOT_SUPPORTED
  else
    c ← TtCopyInBuffer Request (c_sizeof T);
    if negb (NT_SUCCESS c.1) then mret c.1
    else
      let g f := sget T f c.2 in
      if negb (g "argsz" =? c_sizeof T) || negb (g "flags" =? 0)
         || (1 <? g "enabled") || has_bits (g "addr") 0x3 || (1 <? g "noc")
         || (64 <? g "x") || (64 <? g "y")
      then mret STATUS_INVALID_PARAMETER
      else
        acquire (FileLock FileObject);;
        upd_file FileObject (λ fc, fc <| fc_Noc :=
          mkNocCleanup (negb (g "enabled" =? 0)) (g "x") (g "y") (g "noc") (g "addr") (g "data") |>);;
        release (FileLock FileObject);;
        WdfRequestSetInformation Request 0;;
        mret STATUS_SUCCESS.
End power.

(** ** Footprints *)
Section frames.
Context {P : Platform}.

Lemma TtPowerFileDefault_frame f : Steps (Frame [FPower]) (TtPowerFileDefault f).
Proof. unfold TtPowerFileDefault. frame_walk. Qed.
#[local] Hint Resolve TtPowerFileDefault_frame : frames.
Lemma TtPowerAggregate_frame : Steps (Frame [COs; CTrace; CPower]) (TtPowerAggregate).
Proof. unfold TtPowerAggregate. frame_walk. Qed.
#[local] Hint Resolve TtPowerAggregate_frame : frames.
Lemma TtIoctlSetPowerState_frame f r : Steps (Frame [COs; CTrace; CPower; FPower; CReqs]) (TtIoctlSetPowerState f r).
Proof. unfold TtIoctlSetPowerState. frame_walk. Qed.
#[local] Hint Resolve TtIoctlSetPowerState_frame : frames.
Lemma TtIoctlSetNocCleanup_frame f r : Steps (Frame [COs; CTrace; FNoc; CReqs]) (TtIoctlSetNocCleanup f r).
Proof. unfold TtIoctlSetNocCleanup. frame_walk. Qed.
#[local] Hint Resolve TtIoctlSetNocCleanup_frame : frames.
End frames.
#[export] Hint Resolve TtPowerFileDefault_frame TtPowerAggregate_frame TtIoctlSetPowerState_frame
  TtIoctlSetNocCleanup_frame : frames.

(** ** Events *)
Section events.
Context {P : Platform}.

Lemma TtPowerFileDefault_emits f : Steps (Emits []) (TtPowerFileDefault f).
Proof. unfold TtPowerFileDefault. emits_walk. Qed.
#[local] Hint Resolve TtPowerFileDefault_emits : emits.
Lemma TtPowerAggregate_emits : Steps (Emits [KSync; KHw; KFuel]) (TtPowerAggregate).
Proof. unfold TtPowerAggregate. emits_walk. Qed.
#[local] Hint Resolve TtPowerAggregate_emits : emits.
Lemma TtIoctlSetPowerState_emits f r : Steps (Emits [KSync; KHw; KFuel]) (TtIoctlSetPowerState f r).
Proof. unfold TtIoctlSetPowerState. emits_walk. Qed.
#[local] Hint Resolve TtIoctlSetPowerState_emits : emits.
Lemma TtIoctlSetNocCleanup_emits f r : Steps (Emits [KSync]) (TtIoctlSetNocCleanup f r).
Proof. unfold TtIoctlSetNocCleanup. emits_walk. Qed.
#[local] Hint Resolve TtIoctlSetNocCleanup_emits : emits.
End events.
#[export] Hint Resolve TtPowerFileDefault_emits TtPowerAggregate_emits TtIoctlSetPowerState_emits
  TtIoctlSetNocCleanup_emits : emits.
