(* ===== verification/PowerSpec.v ===== *)
(** * The aggregated power state: union of flags, maximum of settings *)
From S2P Require Import Prelude Platform Frame Trace Sim Abi PciConfig Blackhole Power.

(** Whether a handle turns flag [i] on: explicitly, or because its contribution
    does not reach that far (unspecified flags default to on). *)
Definition wants_flag (c : PowerContribution) (i : Z) : bool :=
  Z.testbit (PowerFlags c) i || ((power_flags_count c <=? i) && (i <? 15)).
(** Whether a handle specifies setting [j]. *)
Definition specifies (c : PowerContribution) (j : Z) : bool := j <? power_settings_count c.

Lemma wrap16_bits z i : 0 ≤ i < 16 → Z.testbit (wrap16 z) i = Z.testbit z i.
Proof. intros H. unfold wrap16, wrap. apply Z.mod_pow2_bits_low. lia. Qed.

Lemma land_low_range z n : 0 ≤ n → 0 ≤ Z.land z (Z.ones n) < 2 ^ n.
Proof. intros H. rewrite Z.land_ones by lia. apply Z.mod_pos_bound. lia. Qed.

Lemma effective_flags_spec c i : 0 ≤ i < 16 → Z.testbit (effective_flags c) i = wants_flag c i.
Proof.
  intros Hi. unfold effective_flags, wants_flag. rewrite wrap16_bits, Z.lor_spec, wrap16_bits, Z.land_spec by lia.
  f_equal. pose proof (land_low_range (Z.shiftr (PowerValidity c) 0) 4 ltac:(lia)) as Hn.
  change (Z.land (Z.shiftr (PowerValidity c) 0) (Z.ones 4)) with (power_flags_count c) in Hn.
  set (n := power_flags_count c) in *. change TT_POWER_FLAG_ALL with (Z.ones 15).
  rewrite Z.lnot_spec by lia. rewrite Z.shiftl_1_l. replace (2 ^ n - 1) with (Z.ones n) by (rewrite Z.ones_equiv; lia).
  destruct (Z.leb_spec n i).
  - rewrite Z.ones_spec_high by lia. cbn [negb andb]. destruct (Z.ltb_spec i 15); [apply Z.ones_spec_low; lia | apply Z.ones_spec_high; lia].
  - rewrite Z.ones_spec_low by lia. done.
Qed.

(** ** One handle *)
Lemma agg_setting_lookup c acc i j :
  0 ≤ i → 0 ≤ j → (Z.to_nat i < length acc)%nat →
  setting (agg_setting c acc i) j
  = if j =? i then Z.max (setting acc j) (setting (PowerSettings c) j) else setting acc j.
Proof.
  intros Hi Hj Hl. unfold agg_setting. destruct (Z.eqb_spec j i) as [->|Hn].
  - destruct (Z.ltb_spec (setting acc i) (setting (PowerSettings c) i)); [|lia].
    unfold setting at 1. rewrite list_lookup_insert_eq by done. cbn. lia.
  - destruct (_ <? _); [|done]. unfold setting. rewrite list_lookup_insert_ne by lia. done.
Qed.

Lemma agg_setting_length c acc i : length (agg_setting c acc i) = length acc.
Proof. unfold agg_setting. destruct (_ <? _); [apply length_insert | done]. Qed.

Lemma agg_settings_lookup c xs acc j :
  0 ≤ j → NoDup xs → (∀ i, i ∈ xs → 0 ≤ i < Z.of_nat (length acc)) →
  setting (foldl (agg_setting c) acc xs) j
  = if bool_decide (j ∈ xs) then Z.max (setting acc j) (setting (PowerSettings c) j) else setting acc j.
Proof.
  intros Hj. revert acc. induction xs as [|x xs IH]; intros acc Hnd Hx; cbn [foldl].
  { rewrite bool_decide_eq_false_2; [done | apply not_elem_of_nil]. }
  inversion Hnd as [|? ? Hnx Hnd1]; subst. clear Hnd. rename Hnd1 into Hnd. pose proof (Hx x ltac:(left)) as Hx0.
  rewrite IH; [| done | rewrite agg_setting_length; intros; apply Hx; by right].
  rewrite agg_setting_lookup by lia. destruct (Z.eqb_spec j x) as [->|Hn].
  - rewrite (bool_decide_eq_false_2 (x ∈ xs)) by done. by rewrite bool_decide_eq_true_2 by left.
  - rewrite (bool_decide_ext (j ∈ x :: xs) (j ∈ xs)); [done|]. rewrite elem_of_cons. tauto.
Qed.

Lemma agg_settings_length c xs acc : length (foldl (agg_setting c) acc xs) = length acc.
Proof. revert acc. induction xs as [|x xs IH]; intros acc; cbn; [done|]. by rewrite IH, agg_setting_length. Qed.

(** The state of the aggregation after the handles [cs]. *)
Record agg_ok (cs : list PowerContribution) (a : Agg) : Prop := {
  ao_length : length (agg_settings a) = 14%nat;
  ao_flags i : 0 ≤ i < 16 → Z.testbit (agg_flags a) i = existsb (λ c, wants_flag c i) cs;
  ao_settings j : 0 ≤ j < 14 →
    setting (agg_settings a) j = foldr (λ c acc, if specifies c j then Z.max (setting (PowerSettings c) j) acc else acc) 0 cs;
  ao_count : agg_maxcount a = foldr (λ c acc, Z.max (power_settings_count c) acc) 0 cs
}.

Lemma foldr_max_snoc {A} (p : A → bool) (g : A → Z) cs c :
  foldr (λ c acc, if p c then Z.max (g c) acc else acc) 0 (cs ++ [c])
  = if p c then Z.max (foldr (λ c acc, if p c then Z.max (g c) acc else acc) 0 cs) (Z.max (g c) 0)
    else foldr (λ c acc, if p c then Z.max (g c) acc else acc) 0 cs.
Proof.
  induction cs as [|d cs IH]; cbn; [destruct (p c); lia|]. rewrite IH. destruct (p c), (p d); lia.
Qed.

Lemma foldr_max_nonneg {A} (p : A → bool) (g : A → Z) cs :
  0 ≤ foldr (λ c acc, if p c then Z.max (g c) acc else acc) 0 cs.
Proof. induction cs as [|c cs IH]; cbn; [lia|]. destruct (p c); lia. Qed.

Lemma zrange_nodup n : NoDup (zrange n).
Proof. unfold zrange. apply NoDup_fmap; [apply _ | apply NoDup_seq]. Qed.

Lemma agg_one_ok cs a c :
  agg_ok cs a → agg_ok (cs ++ [c]) (agg_one a c).
Proof.
  intros [Hl Hf Hs Hc]. pose proof (land_low_range (Z.shiftr (PowerValidity c) 4) 4 ltac:(lia)) as Hn.
  change (Z.land (Z.shiftr (PowerValidity c) 4) (Z.ones 4)) with (power_settings_count c) in Hn.
  unfold agg_one. cbv zeta. set (n := power_settings_count c) in *. split; cbn.
  - by rewrite agg_settings_length.
  - intros i Hi. rewrite wrap16_bits, Z.lor_spec, Hf, effective_flags_spec by lia.
    rewrite existsb_app. cbn. by rewrite orb_false_r.
  - intros j Hj. rewrite (foldr_max_snoc (λ c, specifies c j) (λ c, setting (PowerSettings c) j)), <- (Hs j Hj).
    set (m := if 14 <? n then 14 else n). assert (0 ≤ m ≤ 14 ∧ (j < m ↔ j < n)) as [Hm Hjm].
    { unfold m. destruct (Z.ltb_spec 14 n); lia. }
    rewrite agg_settings_lookup; [|lia | apply zrange_nodup | intros i ?%elem_of_zrange; rewrite Hl; lia].
    unfold specifies. fold n. case_bool_decide as Hin; rewrite elem_of_zrange in Hin.
    + rewrite (proj2 (Z.ltb_lt j n)) by lia. rewrite (Hs j Hj).
      pose proof (foldr_max_nonneg (λ c, specifies c j) (λ c, setting (PowerSettings c) j) cs) as H0. cbv beta in H0. lia.
    + by rewrite (proj2 (Z.ltb_ge j n)) by lia.
  - rewrite (foldr_max_snoc (λ _, true) power_settings_count). fold n. rewrite Hc.
    pose proof (foldr_max_nonneg (λ _, true) power_settings_count cs) as H0. cbv beta in H0.
    match goal with |- (if ?x <? n then _ else _) = _ => destruct (Z.ltb_spec x n) end; lia.
Qed.

Lemma aggregate_ok cs : agg_ok cs (aggregate cs).
Proof.
  unfold aggregate. rewrite <- (app_nil_l cs) at 1.
  assert (agg_ok [] agg_zero) as H0.
  { split; [done | intros; apply Z.bits_0 | | done]. intros j Hj. unfold agg_zero, setting. cbn [agg_settings].
    rewrite lookup_replicate_2 by lia. done. }
  revert H0. generalize agg_zero. generalize (@nil PowerContribution).
  induction cs as [|c cs IH]; intros l a H; cbn [foldl]; [by rewrite app_nil_r|].
  rewrite (cons_middle c l cs), app_assoc. apply IH. by apply agg_one_ok.
Qed.


Lemma foldr_max_upper {A} (p : A → bool) (g : A → Z) cs c :
  c ∈ cs → p c = true → g c ≤ foldr (λ c acc, if p c then Z.max (g c) acc else acc) 0 cs.
Proof.
  induction 1 as [c cs|c d cs _ IH]; intros Hp; cbn; [rewrite Hp; lia|]. specialize (IH Hp). destruct (p d); lia.
Qed.

Lemma foldr_max_attained {A} (p : A → bool) (g : A → Z) cs (m := foldr (λ c acc, if p c then Z.max (g c) acc else acc) 0 cs) :
  m = 0 ∨ ∃ c, c ∈ cs ∧ p c = true ∧ m = g c.
Proof.
  subst m. induction cs as [|c cs IH]; cbn; [by left|].
  assert (∀ x, (∃ d, d ∈ cs ∧ p d = true ∧ x = g d) → ∃ d, d ∈ c :: cs ∧ p d = true ∧ x = g d) as Hw.
  { intros x (d & Hd & H). exists d. split; [by right | done]. }
  destruct (p c) eqn:Ec; [|destruct IH as [?|?]; [by left | right; by apply Hw]].
  set (m := foldr _ 0 cs) in *. destruct (Z.max_spec (g c) m) as [[H ->]|[H ->]].
  - destruct IH as [?|?]; [by left | right; by apply Hw].
  - right. exists c. split; [left | done].
Qed.

Section power.
Context {P : Platform}.

(** The contributions that count: of the handles on the device list that take
    part and were opened (or kept) in the current reset generation. *)
Definition live_power (w : World) (c : PowerContribution) : Prop :=
  ∃ f, f ∈ FileList w ∧ PowerContributes (fc_Power (file_ctx f w)) = true
    ∧ OpenResetGen (file_ctx f w) = ResetGen (w_gate w) ∧ c = fc_Power (file_ctx f w).

Lemma live_contributions_spec w c : c ∈ live_contributions w ↔ live_power w c.
Proof.
  unfold live_contributions, live_power, contributes. rewrite list_elem_of_fmap. split.
  - intros (fc & -> & Hf). apply list_elem_of_filter in Hf as [Hc Hf]. apply list_elem_of_fmap in Hf as (f & -> & Hf).
    apply Is_true_true, andb_true_iff in Hc as [H1 H2%Z.eqb_eq]. by exists f.
  - intros (f & Hf & H1 & H2 & ->). eexists. split; [reflexivity|]. apply list_elem_of_filter. split.
    + by rewrite H1, H2, Z.eqb_refl.
    + apply list_elem_of_fmap. by exists f.
Qed.

Lemma power_aggregate_result w :
  let a := aggregate (live_contributions w) in
  w_power (TtPowerAggregate w).2 = mkAgg true (agg_flags a) (agg_settings a).
Proof.
  intros a. unfold TtPowerAggregate, modify, gets, compose, mbind, st_bind. cbn [fst snd].
  set (w1 := (acquire FileListLock (acquire PowerLock w).2).2).
  change (live_contributions w1) with (live_contributions w). fold a. clearbody a.
  match goal with |- w_power (when ?b ?m ?v).2 = _ => set (w2 := v) end.
  assert (w_power w2 = mkAgg true (agg_flags a) (agg_settings a)) as <- by reflexivity. clearbody w2.
  destruct (_ && _); cbn [when]; [|done].
  exact (frame_at CPower _ _ w2 (TtBhSendArcMessage_frame (power_msg a)) eq_refl).
Qed.

(** C25 Power aggregation: a flag is on exactly when some participating handle of
    the current generation turns it on or leaves it unspecified, and each
    setting is the largest value that such a handle specifies (0 when none
    does); closed, stale and opted-out handles have no influence. *)
Theorem power_aggregate_spec w :
  let a := w_power (TtPowerAggregate w).2 in
  PowerAggValid a = true
  ∧ (∀ i, 0 ≤ i < 16 → Z.testbit (PowerAggFlags a) i = true ↔ ∃ c, live_power w c ∧ wants_flag c i = true)
  ∧ ∀ j, 0 ≤ j < 14 →
      (∀ c, live_power w c → specifies c j = true → setting (PowerSettings c) j ≤ setting (PowerAggSettings a) j)
      ∧ (setting (PowerAggSettings a) j = 0
         ∨ ∃ c, live_power w c ∧ specifies c j = true ∧ setting (PowerAggSettings a) j = setting (PowerSettings c) j).
Proof.
  intros a. unfold a. rewrite power_aggregate_result. cbn [PowerAggValid PowerAggFlags PowerAggSettings].
  destruct (aggregate_ok (live_contributions w)) as [_ Hf Hs _]. split; [done|]. split.
  - intros i Hi. rewrite Hf by done. rewrite existsb_exists. setoid_rewrite <- live_contributions_spec.
    by setoid_rewrite list_elem_of_In.
  - intros j Hj. rewrite Hs by done. setoid_rewrite <- live_contributions_spec. split.
    + intros c Hc Hp. exact (foldr_max_upper (λ c, specifies c j) (λ c, setting (PowerSettings c) j) _ c Hc Hp).
    + exact (foldr_max_attained (λ c, specifies c j) (λ c, setting (PowerSettings c) j) (live_contributions w)).
Qed.
End power.
