(* ===== verification/Telemetry.v ===== *)
(** * QUERY_TELEMETRY (src/driver/blackhole.c, TtIoctlQueryTelemetry)

    Scales the firmware tags to the Linux hwmon units. *)
From S2P Require Import Prelude Platform Frame Trace Abi PciConfig Blackhole.

Definition telem_put (f : string) (v : Z) (out : list Z) : list Z :=
  sput tenstorrent_query_telemetry_out f v out.
Definition telem_present (bit : Z) (out : list Z) : list Z :=
  telem_put "present" (Z.lor (sget tenstorrent_query_telemetry_out "present" out) bit) out.

(** 16.16 fixed-point degrees to milli-degrees, as INT32. *)
Definition temp_mc (raw : Z) : Z := wrap32 (Z.shiftr (raw * 1000) 16).

Section telemetry.
Context {P : Platform}.

(** A primary tag with an optional limit tag that is read only when the
    primary is present. *)
Definition telem_pair (tag : Z) (f : string) (scale : Z → Z) (bit : Z)
    (tagMax : Z) (fMax : string) (scaleMax : Z → Z) (out : list Z) : M (list Z) :=
  r ← TtBhTagPresent tag;
  if negb r.1 then mret out
  else
    let out := telem_present bit (telem_put f (scale r.2) out) in
    m ← TtBhTagPresent tagMax;
    mret (if (m.1 : bool) then telem_put fMax (scaleMax m.2) out else out).

(** [if (TtBhTagPresent(Context, tag, &out.f)) out.present |= bit]: the field is
    written (with 0) even when the tag is absent. *)
Definition telem_single (tag : Z) (f : string) (bit : Z) (out : list Z) : M (list Z) :=
  r ← TtBhTagPresent tag;
  let out := telem_put f r.2 out in
  mret (if (r.1 : bool) then telem_present bit out else out).

(** Two tags that make a 64-bit value, high word first. *)
Definition telem_wide (tagHi tagLo : Z) (f : string) (bit : Z) (out : list Z) : M (list Z) :=
  hi ← TtBhTagPresent tagHi;
  if negb hi.1 then mret out
  else
    lo ← TtBhTagPresent tagLo;
    if negb lo.1 then mret out
    else mret (telem_present bit (telem_put f (Z.lor (wrap64 (Z.shiftl hi.2 32)) lo.2) out)).

Definition query_telemetry_out : M (list Z) :=
  let milli raw := wrap32 (raw * 1000) in
  let micro raw := wrap32 (raw * 1000000) in
  let out := szero tenstorrent_query_telemetry_out in
  out ← telem_pair 11 "temp_input_mc" temp_mc TT_TELEM_PRESENT_TEMP 56 "temp_max_mc" milli out;
  out ← telem_pair 6 "vcore_input_mv" id TT_TELEM_PRESENT_VCORE
          9 "vcore_max_mv" (λ raw, Z.land (Z.shiftr raw 16) 0xFFFF) out;
  out ← telem_pair 8 "curr_input_ma" milli TT_TELEM_PRESENT_CURRENT 55 "curr_max_ma" milli out;
  out ← telem_pair 7 "power_input_uw" micro TT_TELEM_PRESENT_POWER 64 "power_max_uw" micro out;
  out ← telem_single 41 "fan_rpm" TT_TELEM_PRESENT_FAN out;
  out ← telem_single 14 "aiclk_mhz" TT_TELEM_PRESENT_AICLK out;
  out ← telem_single 15 "axiclk_mhz" TT_TELEM_PRESENT_AXICLK out;
  out ← telem_single 16 "arcclk_mhz" TT_TELEM_PRESENT_ARCCLK out;
  out ← telem_single 32 "heartbeat" TT_TELEM_PRESENT_HEARTBEAT out;
  out ← telem_single 60 "therm_trip_count" TT_TELEM_PRESENT_THERMTRIP out;
  out ← telem_single 28 "fw_bundle_ver" TT_TELEM_PRESENT_FW_BUNDLE out;
  out ← telem_wide 61 62 "asic_id" TT_TELEM_PRESENT_ASIC_ID out;
  telem_wide 1 2 "serial" TT_TELEM_PRESENT_SERIAL out.

(** [WdfRequestRetrieveOutputBuffer(Request, n, &buffer, &length)] followed by
    the copy of [n] bytes to offset 0 (the debug and telemetry handlers). *)
Definition complete_fixed (Request : Z) (out : list Z) (n : Z) : M NTSTATUS :=
  q ← gets (req_state Request);
  if negb (NT_SUCCESS (WdfRequestRetrieveOutputBuffer (rq_OutLength q) n)) || (rq_OutLength q <? n)
  then mret STATUS_ACCESS_VIOLATION
  else
    write_output Request 0 out;;
    WdfRequestSetInformation Request n;;
    mret STATUS_SUCCESS.

Definition TtIoctlQueryTelemetry (Request : Z) : M NTSTATUS :=
  bh ← gets (IsBlackhole ∘ w_id);
  valid ← gets (TelemetryValid ∘ w_telem);
  if negb bh || negb valid then mret STATUS_NOT_SUPPORTED
  else
    out ← query_telemetry_out;
    complete_fixed Request out (c_sizeof tenstorrent_query_telemetry_out).
End telemetry.

(** ** Footprints *)
Section frames.
Context {P : Platform}.

Lemma telem_pair_frame t f s b tm fm sm o : Steps (Frame [COs; CTrace]) (telem_pair t f s b tm fm sm o).
Proof. unfold telem_pair. frame_walk. Qed.
#[local] Hint Resolve telem_pair_frame : frames.
Lemma telem_single_frame t f b o : Steps (Frame [COs; CTrace]) (telem_single t f b o).
Proof. unfold telem_single. frame_walk. Qed.
#[local] Hint Resolve telem_single_frame : frames.
Lemma telem_wide_frame h l f b o : Steps (Frame [COs; CTrace]) (telem_wide h l f b o).
Proof. unfold telem_wide. frame_walk. Qed.
#[local] Hint Resolve telem_wide_frame : frames.
Lemma query_telemetry_out_frame : Steps (Frame [COs; CTrace]) (query_telemetry_out).
Proof. unfold query_telemetry_out. frame_walk. Qed.
#[local] Hint Resolve query_telemetry_out_frame : frames.
Lemma complete_fixed_frame r o n : Steps (Frame [CReqs]) (complete_fixed r o n).
Proof. unfold complete_fixed. frame_walk. Qed.
#[local] Hint Resolve complete_fixed_frame : frames.
Lemma TtIoctlQueryTelemetry_frame r : Steps (Frame [COs; CTrace; CReqs]) (TtIoctlQueryTelemetry r).
Proof. unfold TtIoctlQueryTelemetry. frame_walk. Qed.
#[local] Hint Resolve TtIoctlQueryTelemetry_frame : frames.
End frames.
#[export] Hint Resolve telem_pair_frame telem_single_frame telem_wide_frame
  query_telemetry_out_frame complete_fixed_frame TtIoctlQueryTelemetry_frame : frames.

(** ** Events *)
Section events.
Context {P : Platform}.

Lemma telem_pair_emits t f s b tm fm sm o : Steps (Emits [KSync; KHw]) (telem_pair t f s b tm fm sm o).
Proof. unfold telem_pair. emits_walk. Qed.
#[local] Hint Resolve telem_pair_emits : emits.
Lemma telem_single_emits t f b o : Steps (Emits [KSync; KHw]) (telem_single t f b o).
Proof. unfold telem_single. emits_walk. Qed.
#[local] Hint Resolve telem_single_emits : emits.
Lemma telem_wide_emits h l f b o : Steps (Emits [KSync; KHw]) (telem_wide h l f b o).
Proof. unfold telem_wide. emits_walk. Qed.
#[local] Hint Resolve telem_wide_emits : emits.
Lemma query_telemetry_out_emits : Steps (Emits [KSync; KHw]) (query_telemetry_out).
Proof. unfold query_telemetry_out. emits_walk. Qed.
#[local] Hint Resolve query_telemetry_out_emits : emits.
Lemma complete_fixed_emits r o n : Steps (Emits []) (complete_fixed r o n).
Proof. unfold complete_fixed. emits_walk. Qed.
#[local] Hint Resolve complete_fixed_emits : emits.
Lemma TtIoctlQueryTelemetry_emits r : Steps (Emits [KSync; KHw]) (TtIoctlQueryTelemetry r).
Proof. unfold TtIoctlQueryTelemetry. emits_walk. Qed.
#[local] Hint Resolve TtIoctlQueryTelemetry_emits : emits.
End events.
#[export] Hint Resolve telem_pair_emits telem_single_emits telem_wide_emits
  query_telemetry_out_emits complete_fixed_emits TtIoctlQueryTelemetry_emits : emits.
