(* ===== verification/TelemetrySpec.v ===== *)
(** * QUERY_TELEMETRY

    The reply as a table of rows: what the card answered for the tags, scaled,
    in the fields, and a presence bit per row. *)
From S2P Require Import Prelude Abi Platform Frame Sim IoSpec PciConfig Blackhole Telemetry.

Notation TO := tenstorrent_query_telemetry_out.
(** What the card answered: whether the tag is there, and its value. *)
Definition Answers : Type := Z → bool * Z.

(** ** The rows of the reply *)
Inductive Row :=
  | Pair (tag : Z) (f : string) (scale : Z → Z) (bit tagMax : Z) (fMax : string) (scaleMax : Z → Z)
  | Single (tag : Z) (f : string) (bit : Z)
  | Wide (tagHi tagLo : Z) (f : string) (bit : Z).

Definition row_tags (r : Row) : list Z :=
  match r with Pair t _ _ _ tm _ _ => [t; tm] | Single t _ _ => [t] | Wide h l _ _ => [h; l] end.
Definition row_bit (r : Row) : Z := match r with Pair _ _ _ b _ _ _ | Single _ _ b | Wide _ _ _ b => b end.
Definition row_present (r : Row) (v : Answers) : bool :=
  match r with Pair t _ _ _ _ _ _ | Single t _ _ => (v t).1 | Wide h l _ _ => (v h).1 && (v l).1 end.
(** The fields a row writes, with their values. *)
Definition row_writes (r : Row) (v : Answers) : list (string * Z) :=
  match r with
  | Pair t f scale _ tm fm scalem =>
      if (v t).1 then (f, scale (v t).2) :: if (v tm).1 then [(fm, scalem (v tm).2)] else [] else []
  | Single t f _ => [(f, (v t).2)]
  | Wide h l f _ => if (v h).1 && (v l).1 then [(f, Z.lor (wrap64 (Z.shiftl (v h).2 32)) (v l).2)] else []
  end.
Definition row_names (r : Row) : list string :=
  match r with Pair _ f _ _ _ fm _ => [f; fm] | Single _ f _ | Wide _ _ f _ => [f] end.

Definition milli (raw : Z) : Z := wrap32 (raw * 1000).
Definition micro (raw : Z) : Z := wrap32 (raw * 1000000).
Definition telem_rows : list Row :=
  [ Pair 11 "temp_input_mc" temp_mc TT_TELEM_PRESENT_TEMP 56 "temp_max_mc" milli;
    Pair 6 "vcore_input_mv" id TT_TELEM_PRESENT_VCORE 9 "vcore_max_mv" (λ raw, Z.land (Z.shiftr raw 16) 0xFFFF);
    Pair 8 "curr_input_ma" milli TT_TELEM_PRESENT_CURRENT 55 "curr_max_ma" milli;
    Pair 7 "power_input_uw" micro TT_TELEM_PRESENT_POWER 64 "power_max_uw" micro;
    Single 41 "fan_rpm" TT_TELEM_PRESENT_FAN;
    Single 14 "aiclk_mhz" TT_TELEM_PRESENT_AICLK;
    Single 15 "axiclk_mhz" TT_TELEM_PRESENT_AXICLK;
    Single 16 "arcclk_mhz" TT_TELEM_PRESENT_ARCCLK;
    Single 32 "heartbeat" TT_TELEM_PRESENT_HEARTBEAT;
    Single 60 "therm_trip_count" TT_TELEM_PRESENT_THERMTRIP;
    Single 28 "fw_bundle_ver" TT_TELEM_PRESENT_FW_BUNDLE;
    Wide 61 62 "asic_id" TT_TELEM_PRESENT_ASIC_ID;
    Wide 1 2 "serial" TT_TELEM_PRESENT_SERIAL ]%string.

(** The reply that the answers [v] make: the fields of the rows in order (0
    where nothing is written), and the bits of the rows that are present. *)
Definition telem_writes (v : Answers) : list (string * Z) := concat ((λ r, row_writes r v) <$> telem_rows).
Definition written (ws : list (string * Z)) (f : string) : Z :=
  foldl (λ acc x, if String.eqb x.1 f then x.2 mod 256 ^ c_fieldsize TO f else acc) 0 ws.
Definition present_bits (rows : list Row) (v : Answers) : Z :=
  foldl (λ acc r, if row_present r v then Z.lor acc (row_bit r) else acc) 0 rows.

Section spec.
Context {P : Platform}.

(** [v] is what the card answered from state [w] on. *)
Definition answered (w : World) (v : Answers) : Prop := ∀ t,
  (∃ w', Frame [COs; CTrace] w w' ∧ v t = (TtBhTagPresent t w').1)
  ∧ ((v t).1 = true → t < TT_TELEM_TAG_CACHE_SIZE ∧ default 0 (TelemetryTagCache (w_telem w) !! Z.to_nat t) ≠ 0).

Definition run_row (r : Row) (out : list Z) : M (list Z) :=
  match r with
  | Pair t f s b tm fm sm => telem_pair t f s b tm fm sm out
  | Single t f b => telem_single t f b out
  | Wide h l f b => telem_wide h l f b out
  end.
Fixpoint run_rows (rs : list Row) (out : list Z) : M (list Z) :=
  match rs with [] => mret out | r :: rs => out ← run_row r out; run_rows rs out end.

Lemma query_rows w : query_telemetry_out w = run_rows telem_rows (szero TO) w.
Proof.
  unfold query_telemetry_out, telem_rows. cbn [run_rows run_row]. do 12 (apply bind_ext; intros ? ?).
  unfold mbind, st_bind, mret, st_ret. apply surjective_pairing.
Qed.

(** ** The answers of one query *)
Lemma answer_at w w' t : Frame [COs; CTrace] w w' →
  ((TtBhTagPresent t w').1.1 = true → t < TT_TELEM_TAG_CACHE_SIZE ∧ default 0 (TelemetryTagCache (w_telem w) !! Z.to_nat t) ≠ 0).
Proof.
  intros Hf. unfold TtBhTagPresent, TtBhReadTelemetryTag. run. destruct (Z.leb_spec TT_TELEM_TAG_CACHE_SIZE t); [done|].
  unfold compose. rewrite (Hf CTelem eq_refl : w_telem w' = w_telem w). destruct (Z.eqb_spec (default 0 (TelemetryTagCache (w_telem w) !! Z.to_nat t)) 0); [done|].
  intros _. split; [lia | done].
Qed.
Lemma answered_now w w' : Frame [COs; CTrace] w w' → answered w (λ t, (TtBhTagPresent t w').1).
Proof. intros Hf t. split; [by exists w' | by apply answer_at]. Qed.
Lemma answered_set w v t w' : answered w v → Frame [COs; CTrace] w w' → answered w (λ t', if decide (t' = t) then (TtBhTagPresent t w').1 else v t').
Proof. intros Hv Hf t'. destruct (decide (t' = t)) as [->|]; [by apply answered_now | apply Hv]. Qed.

(** What one row does to the reply, given the answers. *)
Definition row_out (r : Row) (v : Answers) (out : list Z) : list Z :=
  match r with
  | Pair t f s b tm fm sm =>
      if negb (v t).1 then out
      else
        let out := telem_present b (telem_put f (s (v t).2) out) in
        if (v tm).1 then telem_put fm (sm (v tm).2) out else out
  | Single t f b =>
      let out := telem_put f (v t).2 out in if (v t).1 then telem_present b out else out
  | Wide h l f b =>
      if (v h).1 && (v l).1 then telem_present b (telem_put f (Z.lor (wrap64 (Z.shiftl (v h).2 32)) (v l).2) out) else out
  end.

Lemma row_out_ext r v v' out : (∀ t, t ∈ row_tags r → v' t = v t) → row_out r v' out = row_out r v out.
Proof.
  destruct r; cbn; intros H; repeat match goal with |- context [v' ?t] => rewrite (H t) by set_solver end; reflexivity.
Qed.

(** A row reads its tags. *)
Lemma run_row_out w w1 r out v0 :
  NoDup (row_tags r) → Frame [COs; CTrace] w w1 → answered w v0 →
  ∃ v, answered w v ∧ (∀ t, t ∉ row_tags r → v t = v0 t) ∧ (run_row r out w1).1 = row_out r v out
    ∧ Frame [COs; CTrace] w (run_row r out w1).2.
Proof.
  intros Hd Hf Hv.
  assert (Frame [COs; CTrace] w (run_row r out w1).2) as Hf'.
  { etrans; [exact Hf|]. destruct r; [apply telem_pair_frame | apply telem_single_frame | apply telem_wide_frame]. }
  assert (∀ t, Frame [COs; CTrace] w (TtBhTagPresent t w1).2) as Hp by (intros t; etrans; [exact Hf | apply TtBhTagPresent_frame]).
  destruct r as [t f s b tm fm sm|t f b|h l f b]; cbn [run_row row_tags row_out] in *.
  - set (v1 := λ t', if decide (t' = t) then (TtBhTagPresent t w1).1 else v0 t').
    exists (λ t', if decide (t' = tm) then (TtBhTagPresent tm (TtBhTagPresent t w1).2).1 else v1 t').
    assert (t ≠ tm) as Hn by (inversion Hd; set_solver).
    split_and!; [by apply answered_set; [apply answered_set|] | | | done].
    + intros t' Ht'. unfold v1. rewrite !decide_False by set_solver. done.
    + unfold v1. rewrite (decide_False (P := t = tm)), !decide_True by done. unfold telem_pair. rewrite bind_run.
      destruct (TtBhTagPresent t w1) as [[[] x] w2]; cbn [fst snd negb]; [|done]. cbv zeta. rewrite bind_run. by destruct (TtBhTagPresent tm w2).1.
  - exists (λ t', if decide (t' = t) then (TtBhTagPresent t w1).1 else v0 t').
    split_and!; [by apply answered_set | | | done].
    + intros t' Ht'. rewrite decide_False by set_solver. done.
    + rewrite decide_True by done. unfold telem_single. rewrite bind_run. by destruct (TtBhTagPresent t w1) as [[[] x] w2].
  - set (v1 := λ t', if decide (t' = h) then (TtBhTagPresent h w1).1 else v0 t').
    exists (λ t', if decide (t' = l) then (TtBhTagPresent l (TtBhTagPresent h w1).2).1 else v1 t').
    assert (h ≠ l) as Hn by (inversion Hd; set_solver).
    split_and!; [by apply answered_set; [apply answered_set|] | | | done].
    + intros t' Ht'. unfold v1. rewrite !decide_False by set_solver. done.
    + unfold v1. rewrite (decide_False (P := h = l)), !decide_True by done. unfold telem_wide. rewrite bind_run.
      destruct (TtBhTagPresent h w1) as [[[] x] w2]; cbn [fst snd negb andb]; [|done]. rewrite bind_run.
      by destruct (TtBhTagPresent l w2) as [[[] y] w3].
Qed.

Lemma run_rows_out w rs w1 out v0 :
  NoDup (concat (row_tags <$> rs)) → Frame [COs; CTrace] w w1 → answered w v0 →
  ∃ v, answered w v ∧ (∀ t, t ∉ concat (row_tags <$> rs) → v t = v0 t)
    ∧ (run_rows rs out w1).1 = foldl (λ o r, row_out r v o) out rs
    ∧ Frame [COs; CTrace] w (run_rows rs out w1).2.
Proof.
  revert w1 out v0. induction rs as [|r rs IH]; intros w1 out v0 Hd Hf Hv; [by exists v0|].
  cbn [fmap list_fmap concat] in Hd |- *. apply list.NoDup_app in Hd as (Hd1 & Hd2 & Hd3).
  destruct (run_row_out w w1 r out v0 Hd1 Hf Hv) as (v1 & H1 & H2 & H3 & H4). cbn [run_rows]. rewrite bind_run, H3.
  destruct (IH (run_row r out w1).2 (row_out r v1 out) v1 Hd3 H4 H1) as (v & K1 & K2 & K3 & K4).
  exists v. split_and!; [done | | | done].
  - intros t Ht. rewrite elem_of_app in Ht. rewrite K2, H2 by tauto. done.
  - rewrite K3. cbn [foldl]. by rewrite (row_out_ext r v1 v) by (intros t Ht; apply K2; by apply Hd2).
Qed.
End spec.

(** ** The fields of the reply *)
Definition row_ok (r : Row) : bool :=
  forallb (λ f, fits TO f && apart TO f "present" && apart TO "present" f) (row_names r)
  && match r with Pair _ f _ _ _ fm _ => apart TO f fm && apart TO fm f && negb (String.eqb f fm) | _ => true end.

Lemma sized_put f v out : fits TO f = true → sized TO out → sized TO (telem_put f v out).
Proof. intros Hf Ho. by apply sized_sput. Qed.
Lemma sized_present b out : sized TO out → sized TO (telem_present b out).
Proof. intros Ho. by apply sized_sput. Qed.
Lemma put_get f v out : fits TO f = true → sized TO out → sget TO f (telem_put f v out) = v mod 256 ^ c_fieldsize TO f.
Proof. intros. by apply sget_sput_eq. Qed.
Lemma put_other f g v out :
  fits TO f = true → fits TO g = true → apart TO g f = true → sized TO out → sget TO g (telem_put f v out) = sget TO g out.
Proof. intros. by apply sget_sput_ne. Qed.
Lemma present_other g b out :
  fits TO g = true → apart TO g "present" = true → sized TO out → sget TO g (telem_present b out) = sget TO g out.
Proof. intros. by apply sget_sput_ne. Qed.
Lemma present_get b out :
  sized TO out → sget TO "present" (telem_present b out) = Z.lor (sget TO "present" out) b mod 2 ^ 32.
Proof. intros. by apply sget_sput_eq. Qed.

(** A row next to field [g]. *)
Definition row_beside (g : string) (r : Row) : bool :=
  row_ok r && forallb (λ f, String.eqb f g || apart TO g f) (row_names r).
Definition put_write (g : string) (acc : Z) (x : string * Z) : Z :=
  if String.eqb x.1 g then x.2 mod 256 ^ c_fieldsize TO g else acc.

Lemma sized_row r v out : row_ok r = true → sized TO out → sized TO (row_out r v out).
Proof.
  unfold row_ok. intros [Hn _]%andb_true_iff Ho. rewrite forallb_forall in Hn.
  assert (∀ f, f ∈ row_names r → fits TO f = true) as Hf.
  { intros f Hf%list_elem_of_In%Hn. by apply andb_true_iff in Hf as [[? _]%andb_true_iff _]. }
  destruct r as [t f s b tm fm sm|t f b|h l f b]; cbn [row_out row_names] in *.
  - assert (fits TO f = true) as H1 by (apply Hf; left). assert (fits TO fm = true) as H2 by (apply Hf; right; left).
    destruct (v t).1; cbn [negb]; [|exact Ho]. pose proof (sized_present b _ (sized_put f (s (v t).2) out H1 Ho)) as H3.
    destruct (v tm).1; [exact (sized_put fm _ _ H2 H3) | exact H3].
  - pose proof (sized_put f (v t).2 out (Hf f ltac:(left)) Ho) as H1. destruct (v t).1; [exact (sized_present b _ H1) | exact H1].
  - destruct ((v h).1 && (v l).1); [|exact Ho]. exact (sized_present b _ (sized_put f _ out (Hf f ltac:(left)) Ho)).
Qed.

Lemma put_step g f x out :
  fits TO f = true → fits TO g = true → (String.eqb f g || apart TO g f) = true → sized TO out →
  sget TO g (telem_put f x out) = put_write g (sget TO g out) (f, x).
Proof.
  intros Hf Hg Ha Ho. unfold put_write. cbn. destruct (String.eqb_spec f g) as [->|Hn]; [by apply put_get | by apply put_other].
Qed.

Lemma row_get g r v out :
  row_beside g r = true → fits TO g = true → apart TO g "present" = true → sized TO out →
  sget TO g (row_out r v out) = foldl (put_write g) (sget TO g out) (row_writes r v).
Proof.
  unfold row_beside, row_ok. rewrite !andb_true_iff, !forallb_forall. intros [[Hn _] Hb] Hg Hp Ho.
  assert (∀ f, f ∈ row_names r → fits TO f = true ∧ (String.eqb f g || apart TO g f) = true) as Hf.
  { intros f Hf. split; [|apply Hb, list_elem_of_In, Hf]. apply list_elem_of_In, Hn in Hf.
    by apply andb_true_iff in Hf as [[? _]%andb_true_iff _]. }
  assert (∀ f b x, f ∈ row_names r → sized TO (telem_present b (telem_put f x out))) as Hs.
  { intros f b x Hin. apply sized_present, sized_put; [by apply Hf | done]. }
  assert (∀ f x, f ∈ row_names r → sized TO (telem_put f x out)) as Hs' by (intros f x Hin; apply sized_put; [by apply Hf | done]).
  destruct r as [t f s b tm fm sm|t f b|h l f b]; cbn [row_out row_writes row_names] in *.
  - assert (f ∈ [f; fm]) as Hi1 by left. assert (fm ∈ [f; fm]) as Hi2 by (right; left).
    destruct (Hf f Hi1), (Hf fm Hi2).
    destruct (v t).1; cbn [negb]; [|reflexivity].
    assert (sget TO g (telem_present b (telem_put f (s (v t).2) out)) = put_write g (sget TO g out) (f, s (v t).2)) as E.
    { rewrite (present_other g b _ Hg Hp (Hs' f _ Hi1)). by apply put_step. }
    destruct (v tm).1; cbn [foldl]; [|exact E]. rewrite (put_step g fm _ _ ltac:(assumption) Hg ltac:(assumption) (Hs f b _ Hi1)).
    by rewrite E.
  - assert (f ∈ [f]) as Hi by left. destruct (Hf f Hi). cbn [foldl].
    destruct (v t).1; [rewrite (present_other g b _ Hg Hp (Hs' f _ Hi))|]; by apply put_step.
  - assert (f ∈ [f]) as Hi by left. destruct (Hf f Hi). destruct ((v h).1 && (v l).1); cbn [foldl]; [|reflexivity].
    rewrite (present_other g b _ Hg Hp (Hs' f _ Hi)). by apply put_step.
Qed.

Lemma row_present_get r v out :
  row_ok r = true → uint 32 (row_bit r) → uint 32 (sget TO "present" out) → sized TO out →
  sget TO "present" (row_out r v out) =
    if row_present r v then Z.lor (sget TO "present" out) (row_bit r) else sget TO "present" out.
Proof.
  intros Hok Hb Hu Ho. unfold row_ok in Hok. apply andb_true_iff in Hok as [Hn _]. rewrite forallb_forall in Hn.
  assert (∀ f, f ∈ row_names r → fits TO f = true ∧ apart TO "present" f = true) as Hf.
  { intros f Hf%list_elem_of_In%Hn. apply andb_true_iff in Hf as [[? _]%andb_true_iff ?]. split; assumption. }
  assert (∀ f x o, f ∈ row_names r → sized TO o → sget TO "present" (telem_put f x o) = sget TO "present" o) as Hput.
  { intros f x o Hin Hso. destruct (Hf f Hin). by apply put_other. }
  assert (∀ f x, f ∈ row_names r → sized TO (telem_put f x out)) as Hs by (intros f x Hin; apply sized_put; [by apply Hf | done]).
  assert (∀ b, uint 32 b → Z.lor (sget TO "present" out) b mod 2 ^ 32 = Z.lor (sget TO "present" out) b) as Hm.
  { intros b' Hb'. apply Z.mod_small. by apply uint_lor. }
  destruct r as [t f s b tm fm sm|t f b|h l f b]; cbn [row_out row_names row_bit row_present] in *.
  - assert (f ∈ [f; fm]) as Hi1 by left. assert (fm ∈ [f; fm]) as Hi2 by (right; left).
    destruct (v t).1; cbn [negb]; [|reflexivity].
    assert (sget TO "present" (telem_present b (telem_put f (s (v t).2) out)) = Z.lor (sget TO "present" out) b) as E.
    { rewrite (present_get b _ (Hs f _ Hi1)), (Hput f _ _ Hi1 Ho). by apply Hm. }
    destruct (v tm).1; [|exact E]. rewrite (Hput fm _ _ Hi2 (sized_present b _ (Hs f _ Hi1))). exact E.
  - assert (f ∈ [f]) as Hi by left.
    destruct (v t).1; [rewrite (present_get b _ (Hs f _ Hi))|]; rewrite (Hput f _ _ Hi Ho); [by apply Hm | reflexivity].
  - assert (f ∈ [f]) as Hi by left. destruct ((v h).1 && (v l).1); [|reflexivity].
    rewrite (present_get b _ (Hs f _ Hi)), (Hput f _ _ Hi Ho). by apply Hm.
Qed.

Definition all_rows (rs : list Row) (v : Answers) (out : list Z) : list Z := foldl (λ o r, row_out r v o) out rs.

Lemma rows_sized rs v out : forallb row_ok rs = true → sized TO out → sized TO (all_rows rs v out).
Proof.
  unfold all_rows. revert out. induction rs as [|r rs IH]; intros out Hr Ho; [exact Ho|].
  cbn in Hr. apply andb_true_iff in Hr as [H1 H2]. cbn [foldl]. apply (IH _ H2), (sized_row _ _ _ H1 Ho).
Qed.

Lemma rows_get g rs v out :
  forallb (row_beside g) rs = true → fits TO g = true → apart TO g "present" = true → sized TO out →
  sget TO g (all_rows rs v out) = foldl (put_write g) (sget TO g out) (concat ((λ r, row_writes r v) <$> rs)).
Proof.
  unfold all_rows. intros Hr Hg Hp. revert out. induction rs as [|r rs IH]; intros out Ho; [reflexivity|].
  cbn in Hr. apply andb_true_iff in Hr as [H1 H2]. assert (row_ok r = true) as Hk by (by apply andb_true_iff in H1 as [? _]).
  cbn [foldl fmap list_fmap concat]. rewrite (IH H2 _ (sized_row _ _ _ Hk Ho)), foldl_app. by rewrite (row_get g r v out H1 Hg Hp Ho).
Qed.

Lemma rows_present rs v out :
  forallb (λ r, row_ok r && (0 <=? row_bit r) && (row_bit r <? 2 ^ 32)) rs = true →
  uint 32 (sget TO "present" out) → sized TO out →
  sget TO "present" (all_rows rs v out) = foldl (λ acc r, if row_present r v then Z.lor acc (row_bit r) else acc) (sget TO "present" out) rs.
Proof.
  unfold all_rows. revert out. induction rs as [|r rs IH]; intros out Hr Hu Ho; [reflexivity|].
  cbn [forallb] in Hr. apply andb_true_iff in Hr as [[[Hk H1]%andb_true_iff H2]%andb_true_iff Hr].
  apply Z.leb_le in H1. apply Z.ltb_lt in H2. assert (uint 32 (row_bit r)) as Hb by (by split).
  pose proof (row_present_get r v out Hk Hb Hu Ho) as E. cbn [foldl]. rewrite (IH (row_out r v out) Hr); [by rewrite E | | exact (sized_row _ _ _ Hk Ho)].
  rewrite E. destruct (row_present r v); [by apply uint_lor | exact Hu].
Qed.

(** The fields of the reply, in the order of the structure. *)
Definition telem_fields : list string := concat (row_names <$> telem_rows).

(** A reply that encodes the answers [v]. *)
Record encodes (v : Answers) (out : list Z) : Prop := {
  en_size : sized TO out;
  en_field f : f ∈ telem_fields → sget TO f out = written (telem_writes v) f;
  en_present : sget TO "present" out = present_bits telem_rows v
}.

Lemma rows_encode v : encodes v (all_rows telem_rows v (szero TO)).
Proof.
  assert (∀ f, f ∈ telem_fields → (forallb (row_beside f) telem_rows && fits TO f && apart TO f "present" && (sget TO f (szero TO) =? 0)) = true) as Hf.
  { intros f Hin. apply list_elem_of_In in Hin. revert f Hin. apply forallb_forall. vm_compute. reflexivity. }
  split.
  - apply rows_sized; [vm_compute; reflexivity | apply sized_szero].
  - intros f Hin. apply Hf in Hin as [[[H1 H2]%andb_true_iff H3]%andb_true_iff H4]%andb_true_iff.
    rewrite (rows_get f telem_rows v _ H1 H2 H3 (sized_szero TO)). apply Z.eqb_eq in H4. by rewrite H4.
  - assert (sget TO "present" (szero TO) = 0) as E by (vm_compute; reflexivity).
    rewrite rows_present; [rewrite E; reflexivity | vm_compute; reflexivity | rewrite E; split; reflexivity || discriminate | apply sized_szero].
Qed.

Section request.
Context {P : Platform}.

Lemma query_encodes w : ∃ v, answered w v ∧ encodes v (query_telemetry_out w).1.
Proof.
  destruct (run_rows_out w telem_rows w (szero TO) (λ t, (TtBhTagPresent t w).1)) as (v & Hv & _ & E & _).
  - apply (bool_decide_unpack _). vm_compute. exact I.
  - reflexivity.
  - by apply answered_now.
  - exists v. split; [exact Hv|]. rewrite query_rows, E. apply rows_encode.
Qed.

(** C33 QUERY_TELEMETRY: without a card or a telemetry table the request is
    refused and nothing happens.  Otherwise the reply encodes what the card
    answers for the tags, where a tag that the probe did not find is absent:
    every field has its scaled value (0 when it is not there), a limit only
    where the primary value is present, and [present] has exactly the bits of
    the values that are there.  The reply goes to the front of the request's
    buffer when that has the room, and otherwise the request is left as it was. *)
Theorem query_telemetry_spec r w :
  let m := TtIoctlQueryTelemetry r w in
  let n := c_sizeof TO in
  if IsBlackhole (w_id w) && TelemetryValid (w_telem w)
  then ∃ v out, answered w v ∧ encodes v out
    ∧ if NT_SUCCESS (WdfRequestRetrieveOutputBuffer (rq_OutLength (req_state r w)) n) && (n <=? rq_OutLength (req_state r w))
      then m.1 = STATUS_SUCCESS ∧ rq_Information (req_state r m.2) = n
        ∧ rq_Buffer (req_state r m.2) = splice 0 out (rq_Buffer (req_state r w))
      else m.1 = STATUS_ACCESS_VIOLATION ∧ req_state r m.2 = req_state r w
  else m = (STATUS_NOT_SUPPORTED, w).
Proof.
  cbv zeta. unfold TtIoctlQueryTelemetry. rewrite !bind_run. unfold gets, compose. cbn [fst snd].
  destruct (IsBlackhole (w_id w)), (TelemetryValid (w_telem w)); cbn [negb orb andb]; try reflexivity.
  destruct (query_encodes w) as (v & Hv & He). pose proof (query_telemetry_out_frame w) as Hf.
  rewrite bind_run. revert He Hf. generalize (query_telemetry_out w). intros [out w1] He Hf. cbn [fst snd] in *.
  exists v, out. split; [exact Hv|]. split; [exact He|].
  assert (req_state r w1 = req_state r w) as Eq by (unfold req_state; by rewrite (Hf CReqs eq_refl : w_reqs w1 = w_reqs w)).
  unfold complete_fixed. rewrite bind_run. unfold gets. cbn [fst snd]. rewrite Eq, Z.ltb_antisym.
  destruct (NT_SUCCESS _), (c_sizeof TO <=? _); cbn [negb orb andb fst snd]; try (split; [reflexivity | exact Eq]).
  unfold write_output, WdfRequestSetInformation. rewrite !bind_run. cbn [fst]. split; [reflexivity|].
  change (mret (M := M) ?x ?s).2 with s. rewrite !upd_req_state, !decide_True by reflexivity. rewrite Eq. split; reflexivity.
Qed.
End request.

(** ** Instance: a card with a temperature (tag 11, 45.5 degrees in 16.16) and
    its limit (tag 56, 105 degrees), and no other tag. *)
Definition hot_card : World (P := sim) :=
  with_req 7 (sim_req 1 0 [] 128)
    (sim_world <| w_os := (sim_set_reg RKernelTlb 0x104 105 (sim_set_reg RKernelTlb 0x100 2981888 sim_os) : OS (Platform := sim)) |>
      <| w_telem := mkTelem (<[11%nat := 0x10000100]> (<[56%nat := 0x10000104]> (replicate 128 0))) true |>).
Lemma query_telemetry_spec_witness :
  let b := rq_Buffer (req_state 7 (TtIoctlQueryTelemetry 7 hot_card).2) in
  (TtIoctlQueryTelemetry 7 hot_card).1 = STATUS_SUCCESS
  ∧ map (λ f, sget TO f b) ["present"; "temp_input_mc"; "temp_max_mc"; "fan_rpm"]%string = [1; 45500; 105000; 0].
Proof.
  cbv zeta. split; [|vm_compute; reflexivity].
  pose proof (query_telemetry_spec 7 hot_card) as H. cbv zeta in H.
  assert (IsBlackhole (w_id hot_card) && TelemetryValid (w_telem hot_card) = true) as E1 by (vm_compute; reflexivity).
  rewrite E1 in H. destruct H as (v & out & _ & _ & H).
  match type of H with if ?b then _ else _ => assert (b = true) as E2 by (vm_compute; reflexivity); rewrite E2 in H end.
  exact (proj1 H).
Defined.
