(* ===== verification/Reset.v ===== *)
(** * RESET_DEVICE (src/driver/reset.c)

    The reset lock, the PLDR request, the mapping zap, the generation bump and
    the seven reset flavors. *)
From S2P Require Import Prelude Platform Frame Trace Abi PciConfig Blackhole Iatu Tlb Memory Locks.

Definition PlatformLevelDeviceReset : Z := 1.

Definition reset_out (ok : bool) : list Z :=
  let T := tenstorrent_reset_device_out in
  sput T "result" (if ok then 0 else 1) (sput T "output_size_bytes" (c_sizeof T) (szero T)).

(** The all-zero subsystem identity of the simulator; the refused flavors. *)
Definition TtResetLegacyFlagPermitted (i : PciIdentity) (Flags : Z) : bool :=
  let simulated := (SubsysVendorId i =? 0) && (SubsysId i =? 0) in
  if negb (Flags =? TENSTORRENT_RESET_DEVICE_CONFIG_WRITE)
     && negb (Flags =? TENSTORRENT_RESET_DEVICE_ASIC_RESET)
  then true else simulated.

Section reset.
Context {P : Platform}.

Definition TtResetAcquireShared : M () := emit EvLockShared.
Definition TtResetAcquireExclusive : M () := acquire ResetResource.
Definition TtResetRelease : M () := release ResetResource.

Definition TtPldrInitiate : M bool :=
  p ← gets w_pldr;
  if negb (ResetInterfaceValid p) || negb (ri_DeviceReset (ResetInterface p))
     || negb (has_bits (SupportedResetTypes (ResetInterface p)) (Z.shiftl 1 PlatformLevelDeviceReset))
     || negb (HasPldrWorkItem p)
  then mret false
  else
    modify (λ w, w <| w_pldr := w_pldr w <| PldrQueued := true |> |>);;
    if PldrQueued p then mret true
    else
      modify (λ w, w <| w_pldr := w_pldr w <| PldrSnapshot := ResetInterface p |> |>);;
      when (ri_InterfaceReference (ResetInterface p)) (emit (EvGet RsResetInterface));;
      emit EvPldrEnqueue;;
      mret true.

Definition TtPldrWorkItem : M () :=
  snapshot ← gets (PldrSnapshot ∘ w_pldr);
  status ← call DeviceReset (λ _, [EvPldrInvoke]);
  when (ri_InterfaceDereference snapshot) (emit (EvPut RsResetInterface));;
  when (negb (NT_SUCCESS status))
    (modify (λ w, w <| w_pldr := w_pldr w <| PldrQueued := false |> |>)).

(** One pass over a handle's list: DMA-buffer views stay, the rest is
    unlinked and destroyed, in list order. *)
Fixpoint zap_list (f : Z) (kept rest : list TT_USER_MAPPING) : M () :=
  match rest with
  | [] => mret tt
  | m :: r =>
      if um_IsDmaBuf m then zap_list f (kept ++ [m]) r
      else
        upd_file f (λ c, c <| Mappings := kept ++ r |>);;
        TtDestroyUserMapping m;;
        zap_list f kept r
  end.

Definition zap_file (f : Z) : M () :=
  acquire (FileLock f);;
  c ← TtGetFileContext f;
  zap_list f [] (Mappings c);;
  release (FileLock f).

Definition TtResetZapMappings : M () :=
  acquire FileListLock;;
  fs ← gets FileList;
  for_each fs zap_file;;
  release FileListLock.

Definition TtBumpResetGen (FileObject : option Z) : M () :=
  modify (λ w, w <| w_gate := w_gate w <| ResetGen := signed64 (ResetGen (w_gate w) + 1) |> |>);;
  gen ← gets (ResetGen ∘ w_gate);
  (match FileObject with
   | Some f => upd_file f (λ c, c <| OpenResetGen := gen |>)
   | None => mret tt
   end);;
  acquire LockLock;;
  TtLocksWakeWaiters;;
  release LockLock.

Definition set_needs_hw_init (b : bool) : M () :=
  modify (λ w, w <| w_gate := w_gate w <| NeedsHwInit := b |> |>).

Definition reset_restore_state : M bool :=
  ok ← TtSafeRestoreState;
  bh ← gets (IsBlackhole ∘ w_id);
  if ok && bh then TtBhRestoreResetState;; TtBhInitHardware else mret ok.

Definition reset_config_write (FileObject : option Z) : M bool :=
  TtBumpResetGen FileObject;;
  TtResetZapMappings;;
  TtPcieTimerInterrupt.

Definition reset_user (FileObject : option Z) : M bool :=
  TtBumpResetGen FileObject;;
  TtResetZapMappings;;
  TtSetResetMarker;;
  set_needs_hw_init true;;
  mret true.

Definition reset_asic (FileObject : option Z) (flags : Z) : M bool :=
  TtBumpResetGen FileObject;;
  TtResetZapMappings;;
  bh ← gets (IsBlackhole ∘ w_id);
  ok ← (if (bh : bool) then TtBhReset flags else mret false);
  set_needs_hw_init true;;
  mret ok.

Definition reset_post : M bool :=
  ok ← TtIsResetMarkerZero;
  needs ← gets (NeedsHwInit ∘ w_gate);
  if negb needs then mret ok
  else
    set_needs_hw_init false;;
    restored ← (if (ok : bool) then TtSafeRestoreState else mret false);
    if negb restored then mret false
    else
      bh ← gets (IsBlackhole ∘ w_id);
      if negb bh then mret true
      else
        TtBhRestoreResetState;;
        ok ← TtBhInitHardware;
        (if (ok : bool) then TtBhTelemetryProbe;; mret tt else mret tt);;
        mret ok.

(** The switch over the flavors; [None] is the default case. *)
Definition reset_flavor (FileObject : option Z) (flags : Z) : M (option bool) :=
  i ← gets w_id;
  if flags =? TENSTORRENT_RESET_DEVICE_RESTORE_STATE then
    ok ← reset_restore_state; mret (Some ok)
  else if flags =? TENSTORRENT_RESET_DEVICE_RESET_PCIE_LINK then
    TtResetZapMappings;; ok ← TtPldrInitiate; mret (Some ok)
  else if flags =? TENSTORRENT_RESET_DEVICE_CONFIG_WRITE then
    if negb (TtResetLegacyFlagPermitted i flags) then mret (Some false)
    else ok ← reset_config_write FileObject; mret (Some ok)
  else if flags =? TENSTORRENT_RESET_DEVICE_USER_RESET then
    ok ← reset_user FileObject; mret (Some ok)
  else if (flags =? TENSTORRENT_RESET_DEVICE_ASIC_RESET)
          || (flags =? TENSTORRENT_RESET_DEVICE_ASIC_DMC_RESET) then
    if negb (TtResetLegacyFlagPermitted i flags) then mret (Some false)
    else ok ← reset_asic FileObject flags; mret (Some ok)
  else if flags =? TENSTORRENT_RESET_DEVICE_POST_RESET then
    ok ← reset_post; mret (Some ok)
  else mret None.

Definition TtIoctlResetDevice (FileObject : option Z) (Request : Z) : M NTSTATUS :=
  c ← TtCopyInBuffer Request (c_sizeof tenstorrent_reset_device_in);
  if negb (NT_SUCCESS c.1) then mret c.1
  else
    let flags := sget tenstorrent_reset_device_in "flags" c.2 in
    r ← reset_flavor FileObject flags;
    match r with
    | None => mret STATUS_INVALID_PARAMETER
    | Some ok =>
        TtCompleteSizedOutBuffer Request (c_offsetof tenstorrent_reset_device "out") (reset_out ok)
          (c_sizeof tenstorrent_reset_device_out)
          (sget tenstorrent_reset_device_in "output_size_bytes" c.2)
    end.
End reset.

(** ** Footprints *)
Section frames.
Context {P : Platform}.

Lemma TtResetAcquireShared_frame : Steps (Frame [COs; CTrace]) (TtResetAcquireShared).
Proof. unfold TtResetAcquireShared. frame_walk. Qed.
#[local] Hint Resolve TtResetAcquireShared_frame : frames.
Lemma TtResetAcquireExclusive_frame : Steps (Frame [COs; CTrace]) (TtResetAcquireExclusive).
Proof. unfold TtResetAcquireExclusive. frame_walk. Qed.
#[local] Hint Resolve TtResetAcquireExclusive_frame : frames.
Lemma TtResetRelease_frame : Steps (Frame [COs; CTrace]) (TtResetRelease).
Proof. unfold TtResetRelease. frame_walk. Qed.
#[local] Hint Resolve TtResetRelease_frame : frames.
Lemma TtPldrInitiate_frame : Steps (Frame [COs; CTrace; CPldr]) (TtPldrInitiate).
Proof. unfold TtPldrInitiate. frame_walk. Qed.
#[local] Hint Resolve TtPldrInitiate_frame : frames.
Lemma TtPldrWorkItem_frame : Steps (Frame [COs; CTrace; CPldr]) (TtPldrWorkItem).
Proof. unfold TtPldrWorkItem. frame_walk. Qed.
#[local] Hint Resolve TtPldrWorkItem_frame : frames.
Lemma zap_list_frame f k r : Steps (Frame [COs; CTrace; FMappings]) (zap_list f k r).
Proof. revert f k. induction r; intros f k; cbn [zap_list]; frame_walk. Qed.
#[local] Hint Resolve zap_list_frame : frames.
Lemma zap_file_frame f : Steps (Frame [COs; CTrace; FMappings]) (zap_file f).
Proof. unfold zap_file. frame_walk. Qed.
#[local] Hint Resolve zap_file_frame : frames.
Lemma TtResetZapMappings_frame : Steps (Frame [COs; CTrace; FMappings]) (TtResetZapMappings).
Proof. unfold TtResetZapMappings. frame_walk. Qed.
#[local] Hint Resolve TtResetZapMappings_frame : frames.
Lemma TtBumpResetGen_frame f : Steps (Frame [COs; CTrace; CGate; FGen; CWaitQueue; CReqs; CLocks; FLocks]) (TtBumpResetGen f).
Proof. unfold TtBumpResetGen. frame_walk. Qed.
#[local] Hint Resolve TtBumpResetGen_frame : frames.
Lemma set_needs_hw_init_frame b : Steps (Frame [CGate]) (set_needs_hw_init b).
Proof. unfold set_needs_hw_init. frame_walk. Qed.
#[local] Hint Resolve set_needs_hw_init_frame : frames.
Lemma reset_restore_state_frame : Steps (Frame [COs; CTrace; CSaved]) (reset_restore_state).
Proof. unfold reset_restore_state. frame_walk. Qed.
#[local] Hint Resolve reset_restore_state_frame : frames.
Lemma reset_config_write_frame f : Steps (Frame [COs; CTrace; CGate; FGen; CWaitQueue; CReqs; CLocks; FLocks; FMappings]) (reset_config_write f).
Proof. unfold reset_config_write. frame_walk. Qed.
#[local] Hint Resolve reset_config_write_frame : frames.
Lemma reset_user_frame f : Steps (Frame [COs; CTrace; CGate; FGen; CWaitQueue; CReqs; CLocks; FLocks; FMappings]) (reset_user f).
Proof. unfold reset_user. frame_walk. Qed.
#[local] Hint Resolve reset_user_frame : frames.
Lemma reset_asic_frame f g : Steps (Frame [COs; CTrace; CGate; FGen; CWaitQueue; CReqs; CLocks; FLocks; FMappings]) (reset_asic f g).
Proof. unfold reset_asic. frame_walk. Qed.
#[local] Hint Resolve reset_asic_frame : frames.
Lemma reset_post_frame : Steps (Frame [COs; CTrace; CGate; CSaved; CTelem]) (reset_post).
Proof. unfold reset_post. frame_walk. Qed.
#[local] Hint Resolve reset_post_frame : frames.
Lemma reset_flavor_frame f g : Steps (Frame [COs; CTrace; CGate; FGen; CWaitQueue; CReqs; CLocks; FLocks; FMappings; CSaved; CTelem; CPldr]) (reset_flavor f g).
Proof. unfold reset_flavor. frame_walk. Qed.
#[local] Hint Resolve reset_flavor_frame : frames.
Lemma TtIoctlResetDevice_frame f r : Steps (Frame [COs; CTrace; CGate; FGen; CWaitQueue; CReqs; CLocks; FLocks; FMappings; CSaved; CTelem; CPldr]) (TtIoctlResetDevice f r).
Proof. unfold TtIoctlResetDevice. frame_walk. Qed.
#[local] Hint Resolve TtIoctlResetDevice_frame : frames.
End frames.
#[export] Hint Resolve TtResetAcquireShared_frame TtResetAcquireExclusive_frame
  TtResetRelease_frame TtPldrInitiate_frame TtPldrWorkItem_frame zap_list_frame zap_file_frame
  TtResetZapMappings_frame TtBumpResetGen_frame set_needs_hw_init_frame reset_restore_state_frame
  reset_config_write_frame reset_user_frame reset_asic_frame reset_post_frame reset_flavor_frame
  TtIoctlResetDevice_frame : frames.

(** ** Events *)
Section events.
Context {P : Platform}.

Lemma TtResetAcquireShared_emits : Steps (Emits [KSync]) (TtResetAcquireShared).
Proof. unfold TtResetAcquireShared. emits_walk. Qed.
#[local] Hint Resolve TtResetAcquireShared_emits : emits.
Lemma TtResetAcquireExclusive_emits : Steps (Emits [KSync]) (TtResetAcquireExclusive).
Proof. unfold TtResetAcquireExclusive. emits_walk. Qed.
#[local] Hint Resolve TtResetAcquireExclusive_emits : emits.
Lemma TtResetRelease_emits : Steps (Emits [KSync]) (TtResetRelease).
Proof. unfold TtResetRelease. emits_walk. Qed.
#[local] Hint Resolve TtResetRelease_emits : emits.
Lemma TtPldrInitiate_emits : Steps (Emits [KIface; KPldr]) (TtPldrInitiate).
Proof. unfold TtPldrInitiate. emits_walk. Qed.
#[local] Hint Resolve TtPldrInitiate_emits : emits.
Lemma TtPldrWorkItem_emits : Steps (Emits [KIface; KPldr]) (TtPldrWorkItem).
Proof. unfold TtPldrWorkItem. emits_walk. Qed.
#[local] Hint Resolve TtPldrWorkItem_emits : emits.
Lemma zap_list_emits f k r : Steps (Emits [KRes; KMem]) (zap_list f k r).
Proof. revert f k. induction r; intros f k; cbn [zap_list]; emits_walk. Qed.
#[local] Hint Resolve zap_list_emits : emits.
Lemma zap_file_emits f : Steps (Emits [KRes; KMem; KSync]) (zap_file f).
Proof. unfold zap_file. emits_walk. Qed.
#[local] Hint Resolve zap_file_emits : emits.
Lemma TtResetZapMappings_emits : Steps (Emits [KRes; KMem; KSync]) (TtResetZapMappings).
Proof. unfold TtResetZapMappings. emits_walk. Qed.
#[local] Hint Resolve TtResetZapMappings_emits : emits.
Lemma TtBumpResetGen_emits f : Steps (Emits [KSync; KReq]) (TtBumpResetGen f).
Proof. unfold TtBumpResetGen. emits_walk. Qed.
#[local] Hint Resolve TtBumpResetGen_emits : emits.
Lemma set_needs_hw_init_emits b : Steps (Emits []) (set_needs_hw_init b).
Proof. unfold set_needs_hw_init. emits_walk. Qed.
#[local] Hint Resolve set_needs_hw_init_emits : emits.
Lemma reset_restore_state_emits : Steps (Emits [KSync; KHw; KFuel; KCfg]) (reset_restore_state).
Proof. unfold reset_restore_state. emits_walk. Qed.
#[local] Hint Resolve reset_restore_state_emits : emits.
Lemma reset_config_write_emits f : Steps (Emits [KSync; KReq; KRes; KMem; KCfg]) (reset_config_write f).
Proof. unfold reset_config_write. emits_walk. Qed.
#[local] Hint Resolve reset_config_write_emits : emits.
Lemma reset_user_emits f : Steps (Emits [KSync; KReq; KRes; KMem; KCfg]) (reset_user f).
Proof. unfold reset_user. emits_walk. Qed.
#[local] Hint Resolve reset_user_emits : emits.
Lemma reset_asic_emits f g : Steps (Emits [KSync; KReq; KRes; KMem; KCfg; KHw; KFuel]) (reset_asic f g).
Proof. unfold reset_asic. emits_walk. Qed.
#[local] Hint Resolve reset_asic_emits : emits.
Lemma reset_post_emits : Steps (Emits [KSync; KHw; KFuel; KCfg]) (reset_post).
Proof. unfold reset_post. emits_walk. Qed.
#[local] Hint Resolve reset_post_emits : emits.
Lemma reset_flavor_emits f g : Steps (Emits [KSync; KReq; KRes; KMem; KCfg; KHw; KFuel; KIface; KPldr]) (reset_flavor f g).
Proof. unfold reset_flavor. emits_walk. Qed.
#[local] Hint Resolve reset_flavor_emits : emits.
Lemma TtIoctlResetDevice_emits f r : Steps (Emits [KSync; KReq; KRes; KMem; KCfg; KHw; KFuel; KIface; KPldr]) (TtIoctlResetDevice f r).
Proof. unfold TtIoctlResetDevice. emits_walk. Qed.
#[local] Hint Resolve TtIoctlResetDevice_emits : emits.
End events.
#[export] Hint Resolve TtResetAcquireShared_emits TtResetAcquireExclusive_emits
  TtResetRelease_emits TtPldrInitiate_emits TtPldrWorkItem_emits zap_list_emits zap_file_emits
  TtResetZapMappings_emits TtBumpResetGen_emits set_needs_hw_init_emits reset_restore_state_emits
  reset_config_write_emits reset_user_emits reset_asic_emits reset_post_emits reset_flavor_emits
  TtIoctlResetDevice_emits : emits.
