(* ===== verification/Ioctl.v ===== *)
(** * Dispatch (src/driver/ioctl.c)

    The information requests, the gate check, the debug surface, and the two
    entry points: the default queue and the caller's context. *)
From S2P Require Import Prelude Platform Frame Trace Abi PciConfig Blackhole Iatu Tlb Memory Locks.
From S2P Require Import Power Telemetry Reset.

(** ttkmd-version.props *)
Definition TT_VERSION_MAJOR : Z := 2.
Definition TT_VERSION_MINOR : Z := 11.
Definition TT_VERSION_PATCH : Z := 0.

(** ** GET_DEVICE_INFO, GET_DRIVER_INFO *)
Definition device_info_out (i : PciIdentity) : list Z :=
  let T := tenstorrent_get_device_info_out in
  sput T "pci_domain" (PciDomain i)
    (sput T "max_dma_buf_size_log2" 28
      (sput T "bus_dev_fn" (BusDevFn i)
        (sput T "subsystem_id" (SubsysId i)
          (sput T "subsystem_vendor_id" (SubsysVendorId i)
            (sput T "device_id" (DeviceId i)
              (sput T "vendor_id" (VendorId i)
                (sput T "output_size_bytes" (c_sizeof T) (szero T)))))))).

Definition driver_info_out : list Z :=
  let T := tenstorrent_get_driver_info_out in
  sput T "driver_version_patch" TT_VERSION_PATCH
    (sput T "driver_version_minor" TT_VERSION_MINOR
      (sput T "driver_version_major" TT_VERSION_MAJOR
        (sput T "driver_version" TENSTORRENT_DRIVER_VERSION
          (sput T "output_size_bytes" (c_sizeof T) (szero T))))).

(** ** QUERY_MAPPINGS *)
Definition mapping_entry (id base size : Z) : list Z :=
  let T := tenstorrent_mapping in
  sput T "mapping_size" size (sput T "mapping_base" base (sput T "mapping_id" id (szero T))).

Definition mapping_table : list (Z * Z) :=
  [(0, TENSTORRENT_MAPPING_RESOURCE0_UC); (2, TENSTORRENT_MAPPING_RESOURCE1_UC);
   (4, TENSTORRENT_MAPPING_RESOURCE2_UC)].

(** The entries filled by the loop, in order: (id, base, size). *)
Definition valid_mappings (b : BarState) : list (Z * Z * Z) :=
  foldl (λ acc e,
    let len := bar_len b e.1 in
    if len =? 0 then acc
    else acc ++ [(e.2, Z.shiftl (e.2 - 1) 36, len); (e.2 + 1, Z.shiftl e.2 36, len)])
    [] mapping_table.

Definition mapping_bytes (l : list (Z * Z * Z)) : list Z :=
  concat ((λ e, mapping_entry e.1.1 e.1.2 e.2) <$> l).

Section ioctl.
Context {P : Platform}.

Definition TtIoctlGetDeviceInfo (Request : Z) : M NTSTATUS :=
  c ← TtCopyInBuffer Request (c_sizeof tenstorrent_get_device_info_in);
  if negb (NT_SUCCESS c.1) then mret c.1
  else
    i ← gets w_id;
    TtCompleteSizedOutBuffer Request (c_offsetof tenstorrent_get_device_info "out")
      (device_info_out i) (c_sizeof tenstorrent_get_device_info_out)
      (sget tenstorrent_get_device_info_in "output_size_bytes" c.2).

Definition TtIoctlGetDriverInfo (Request : Z) : M NTSTATUS :=
  c ← TtCopyInBuffer Request (c_sizeof tenstorrent_get_driver_info_in);
  if negb (NT_SUCCESS c.1) then mret c.1
  else
    TtCompleteSizedOutBuffer Request (c_offsetof tenstorrent_get_driver_info "out")
      driver_info_out (c_sizeof tenstorrent_get_driver_info_out)
      (sget tenstorrent_get_driver_info_in "output_size_bytes" c.2).

Definition TtIoctlQueryMappings (Request : Z) : M NTSTATUS :=
  let header := c_sizeof tenstorrent_query_mappings_in in
  c ← TtCopyInBuffer Request header;
  if negb (NT_SUCCESS c.1) then mret c.1
  else
    b ← gets w_bars;
    let mappings := valid_mappings b in
    let count := sget tenstorrent_query_mappings_in "output_mapping_count" c.2 in
    let declaredBytes := count * c_sizeof tenstorrent_mapping in
    if MAXUINT32 <? declaredBytes then mret STATUS_ACCESS_VIOLATION
    else
      q ← gets (req_state Request);
      let bufferLength := rq_OutLength q in
      if negb (NT_SUCCESS (WdfRequestRetrieveOutputBuffer bufferLength 0))
      then mret STATUS_ACCESS_VIOLATION
      else if (bufferLength <? header) || (bufferLength - header <? declaredBytes)
      then mret STATUS_ACCESS_VIOLATION
      else
        let toCopy := Z.min count (Z.of_nat (length mappings)) in
        write_output Request header (replicate (Z.to_nat declaredBytes) 0);;
        write_output Request header (mapping_bytes (take (Z.to_nat toCopy) mappings));;
        WdfRequestSetInformation Request (header + declaredBytes);;
        mret STATUS_SUCCESS.

(** ** The gates *)
Definition TtCheckIoGates (FileObject : option Z) (Nr : Z) : M NTSTATUS :=
  g ← gets w_gate;
  if Detached g then mret STATUS_DEVICE_REMOVED
  else
    stale ← match FileObject with
            | Some f => c ← TtGetFileContext f; mret (negb (OpenResetGen c =? ResetGen g))
            | None => mret false
            end;
    if (stale : bool) then mret STATUS_DEVICE_REMOVED
    else if NeedsHwInit g && negb (Nr =? MAXUINT32) && negb (Nr =? 0) && negb (Nr =? 5)
            && negb (Nr =? 6)
    then mret (if Nr =? 0x102 then STATUS_DEVICE_NOT_READY else STATUS_DEVICE_REMOVED)
    else mret STATUS_SUCCESS.

(** ** The debug surface (TT_DEBUG_INTERFACES) *)
Definition TtIoctlDebugReadTelemetry (Request : Z) : M NTSTATUS :=
  let T := tenstorrent_debug_read_telemetry in
  bh ← gets (IsBlackhole ∘ w_id);
  valid ← gets (TelemetryValid ∘ w_telem);
  if negb bh || negb valid then mret STATUS_NOT_SUPPORTED
  else
    c ← TtCopyInBuffer Request (c_sizeof T);
    if negb (NT_SUCCESS c.1) then mret c.1
    else
      let tag := sget T "tag_id" c.2 in
      if MAXUINT16 <? tag then mret STATUS_INVALID_PARAMETER
      else
        r ← TtBhReadTelemetryTag (wrap16 tag);
        if negb (NT_SUCCESS r.1) then mret r.1
        else complete_fixed Request (sput T "value" r.2 c.2) (c_sizeof T).

Definition debug_arc_bytes (m : TT_ARC_MSG) (ok : bool) : list Z :=
  mjoin (le_encode 4 <$> (Header m :: Payload m ++ [if ok then 1 else 0])).

Definition TtIoctlDebugArcMsg (Request : Z) : M NTSTATUS :=
  let T := tenstorrent_debug_arc_msg in
  bh ← gets (IsBlackhole ∘ w_id);
  if negb bh then mret STATUS_NOT_SUPPORTED
  else
    c ← TtCopyInBuffer Request (c_sizeof T);
    if negb (NT_SUCCESS c.1) then mret c.1
    else
      r ← TtBhSendArcMessage
            (mkMsg (sget T "header" c.2) (sget_elem T "payload" 4 c.2 <$> zrange 7));
      complete_fixed Request (debug_arc_bytes r.2 r.1) (c_sizeof T).

Definition agg_power_bytes (a : PowerAgg) : list Z :=
  le_encode 4 (if PowerAggValid a then 1 else 0) ++ le_encode 2 (PowerAggFlags a) ++
  le_encode 2 0 ++ mjoin (le_encode 2 <$> PowerAggSettings a).

Definition TtIoctlDebugGetAggPower (Request : Z) : M NTSTATUS :=
  acquire PowerLock;;
  a ← gets w_power;
  release PowerLock;;
  complete_fixed Request (agg_power_bytes a) (c_sizeof tenstorrent_debug_agg_power).

(** ** The default queue

    [with_file] is the part of the switch whose handlers take the file object;
    the I/O manager supplies one for every user request. *)
Definition dispatch (f Request nr : Z) : M (NTSTATUS * bool) :=
  let done (m : M NTSTATUS) : M (NTSTATUS * bool) := s ← m; mret (s, false) in
  if nr =? 0 then done (TtIoctlGetDeviceInfo Request)
  else if nr =? 2 then done (TtIoctlQueryMappings Request)
  else if nr =? 3 then done (TtIoctlAllocateDmaBuf f Request)
  else if nr =? 5 then done (TtIoctlGetDriverInfo Request)
  else if nr =? 6 then done (TtIoctlResetDevice (Some f) Request)
  else if nr =? 8 then TtIoctlLockCtl f Request
  else if nr =? 14 then done (TtIoctlSetNocCleanup f Request)
  else if nr =? 15 then done (TtIoctlSetPowerState f Request)
  else if nr =? 11 then done (TtIoctlAllocateTlb f Request)
  else if nr =? 12 then done (TtIoctlFreeTlb f Request)
  else if nr =? 13 then done (TtIoctlConfigureTlb f Request)
  else if nr =? 17 then mret (STATUS_NOT_SUPPORTED, false)
  else mret (STATUS_INVALID_PARAMETER, false).

(** The requests recognised by their full control code, before the switch. *)
Definition dispatch_code (f Request code : Z) : M (NTSTATUS * bool) :=
  let done (m : M NTSTATUS) : M (NTSTATUS * bool) := s ← m; mret (s, false) in
  if code =? IOCTL_TENSTORRENT_QUERY_TELEMETRY then done (TtIoctlQueryTelemetry Request)
  else if code =? IOCTL_TENSTORRENT_FREE_DMA_BUF_EX then done (TtIoctlFreeDmaBufEx f Request)
  else if code =? IOCTL_TENSTORRENT_DEBUG_READ_TELEMETRY then done (TtIoctlDebugReadTelemetry Request)
  else if code =? IOCTL_TENSTORRENT_DEBUG_ARC_MSG then done (TtIoctlDebugArcMsg Request)
  else if code =? IOCTL_TENSTORRENT_DEBUG_GET_AGG_POWER then done (TtIoctlDebugGetAggPower Request)
  else dispatch f Request (TtIoctlNr code).

Definition TtEvtIoDeviceControl (f Request IoControlCode : Z) : M () :=
  let nr := TtIoctlNr IoControlCode in
  (if nr =? 6 then TtResetAcquireExclusive else TtResetAcquireShared);;
  gate ← TtCheckIoGates (Some f) nr;
  if negb (NT_SUCCESS gate) then
    TtResetRelease;;
    WdfRequestComplete Request gate
  else
    r ← dispatch_code f Request IoControlCode;
    TtResetRelease;;
    when (negb r.2) (WdfRequestComplete Request r.1).

(** ** The caller's context *)
Definition in_caller_code (code : Z) : bool :=
  (code =? IOCTL_TENSTORRENT_MAP) || (code =? IOCTL_TENSTORRENT_UNMAP)
  || (code =? IOCTL_TENSTORRENT_PIN_PAGES) || (code =? IOCTL_TENSTORRENT_UNPIN_PAGES).

Definition caller_gate_nr (code : Z) : Z :=
  if code =? IOCTL_TENSTORRENT_PIN_PAGES then 7
  else if code =? IOCTL_TENSTORRENT_UNPIN_PAGES then 10 else MAXUINT32.

Definition caller_handler (f Request code : Z) : M NTSTATUS :=
  if code =? IOCTL_TENSTORRENT_MAP then TtIoctlMap f Request
  else if code =? IOCTL_TENSTORRENT_UNMAP then TtIoctlUnmap f Request
  else if code =? IOCTL_TENSTORRENT_PIN_PAGES then TtIoctlPinPages f Request
  else TtIoctlUnpinPages f Request.

(** The label [forward]; [false]: the default queue has the request. *)
Definition caller_forward (Request : Z) : M bool :=
  status ← call (WdfDeviceEnqueueRequest Request) (λ _, []);
  if negb (NT_SUCCESS status) then WdfRequestComplete Request status;; mret true
  else mret false.

(** [ioctl]: the request is a device control; [None] is a NULL file object. *)
Definition TtEvtIoInCallerContext (ioctl : bool) (FileObject : option Z) (Request code : Z) : M bool :=
  match FileObject with
  | None => caller_forward Request
  | Some f =>
  if negb ioctl || negb (in_caller_code code) then caller_forward Request
  else
    TtResetAcquireShared;;
    gate ← TtCheckIoGates (Some f) (caller_gate_nr code);
    c ← TtGetFileContext f;
    process ← gets w_process;
    status ←
      (if negb (NT_SUCCESS gate) then mret gate
       else if negb (bool_decide (CreatorProcess c = Some process)) then mret STATUS_ACCESS_DENIED
       else caller_handler f Request code);
    TtResetRelease;;
    WdfRequestComplete Request status;;
    mret true
  end.
End ioctl.

(** ** Footprints *)
Section frames.
Context {P : Platform}.

Lemma TtIoctlGetDeviceInfo_frame r : Steps (Frame [CReqs]) (TtIoctlGetDeviceInfo r).
Proof. unfold TtIoctlGetDeviceInfo. frame_walk. Qed.
#[local] Hint Resolve TtIoctlGetDeviceInfo_frame : frames.
Lemma TtIoctlGetDriverInfo_frame r : Steps (Frame [CReqs]) (TtIoctlGetDriverInfo r).
Proof. unfold TtIoctlGetDriverInfo. frame_walk. Qed.
#[local] Hint Resolve TtIoctlGetDriverInfo_frame : frames.
Lemma TtIoctlQueryMappings_frame r : Steps (Frame [CReqs]) (TtIoctlQueryMappings r).
Proof. unfold TtIoctlQueryMappings. frame_walk. Qed.
#[local] Hint Resolve TtIoctlQueryMappings_frame : frames.
Lemma TtCheckIoGates_frame f n : Steps (Frame []) (TtCheckIoGates f n).
Proof. unfold TtCheckIoGates. frame_walk. Qed.
#[local] Hint Resolve TtCheckIoGates_frame : frames.
Lemma TtIoctlDebugReadTelemetry_frame r : Steps (Frame [COs; CTrace; CReqs]) (TtIoctlDebugReadTelemetry r).
Proof. unfold TtIoctlDebugReadTelemetry. frame_walk. Qed.
#[local] Hint Resolve TtIoctlDebugReadTelemetry_frame : frames.
Lemma TtIoctlDebugArcMsg_frame r : Steps (Frame [COs; CTrace; CReqs]) (TtIoctlDebugArcMsg r).
Proof. unfold TtIoctlDebugArcMsg. frame_walk. Qed.
#[local] Hint Resolve TtIoctlDebugArcMsg_frame : frames.
Lemma TtIoctlDebugGetAggPower_frame r : Steps (Frame [COs; CTrace; CReqs]) (TtIoctlDebugGetAggPower r).
Proof. unfold TtIoctlDebugGetAggPower. frame_walk. Qed.
#[local] Hint Resolve TtIoctlDebugGetAggPower_frame : frames.
Lemma caller_handler_frame f r c : Steps (Frame [COs; CTrace; CIatu; CReqs; FMappings; FPinnings]) (caller_handler f r c).
Proof. unfold caller_handler. frame_walk. Qed.
#[local] Hint Resolve caller_handler_frame : frames.
Lemma TtEvtIoInCallerContext_frame b f r c : Steps (Frame [COs; CTrace; CIatu; CReqs; FMappings; FPinnings]) (TtEvtIoInCallerContext b f r c).
Proof. unfold TtEvtIoInCallerContext, caller_forward. frame_walk. Qed.
#[local] Hint Resolve TtEvtIoInCallerContext_frame : frames.
End frames.
#[export] Hint Resolve TtIoctlGetDeviceInfo_frame TtIoctlGetDriverInfo_frame
  TtIoctlQueryMappings_frame TtCheckIoGates_frame TtIoctlDebugReadTelemetry_frame
  TtIoctlDebugArcMsg_frame TtIoctlDebugGetAggPower_frame caller_handler_frame
  TtEvtIoInCallerContext_frame : frames.

(** ** Events *)
Section events.
Context {P : Platform}.

Lemma TtIoctlGetDeviceInfo_emits r : Steps (Emits []) (TtIoctlGetDeviceInfo r).
Proof. unfold TtIoctlGetDeviceInfo. emits_walk. Qed.
#[local] Hint Resolve TtIoctlGetDeviceInfo_emits : emits.
Lemma TtIoctlGetDriverInfo_emits r : Steps (Emits []) (TtIoctlGetDriverInfo r).
Proof. unfold TtIoctlGetDriverInfo. emits_walk. Qed.
#[local] Hint Resolve TtIoctlGetDriverInfo_emits : emits.
Lemma TtIoctlQueryMappings_emits r : Steps (Emits []) (TtIoctlQueryMappings r).
Proof. unfold TtIoctlQueryMappings. emits_walk. Qed.
#[local] Hint Resolve TtIoctlQueryMappings_emits : emits.
Lemma TtCheckIoGates_emits f n : Steps (Emits []) (TtCheckIoGates f n).
Proof. unfold TtCheckIoGates. emits_walk. Qed.
#[local] Hint Resolve TtCheckIoGates_emits : emits.
Lemma TtIoctlDebugReadTelemetry_emits r : Steps (Emits [KSync; KHw]) (TtIoctlDebugReadTelemetry r).
Proof. unfold TtIoctlDebugReadTelemetry. emits_walk. Qed.
#[local] Hint Resolve TtIoctlDebugReadTelemetry_emits : emits.
Lemma TtIoctlDebugArcMsg_emits r : Steps (Emits [KSync; KHw; KFuel]) (TtIoctlDebugArcMsg r).
Proof. unfold TtIoctlDebugArcMsg. emits_walk. Qed.
#[local] Hint Resolve TtIoctlDebugArcMsg_emits : emits.
Lemma TtIoctlDebugGetAggPower_emits r : Steps (Emits [KSync]) (TtIoctlDebugGetAggPower r).
Proof. unfold TtIoctlDebugGetAggPower. emits_walk. Qed.
#[local] Hint Resolve TtIoctlDebugGetAggPower_emits : emits.
Lemma caller_handler_emits f r c : Steps (Emits [KRes; KSync; KAtu; KMem]) (caller_handler f r c).
Proof. unfold caller_handler. emits_walk. Qed.
#[local] Hint Resolve caller_handler_emits : emits.
Lemma TtEvtIoInCallerContext_emits b f r c : Steps (Emits [KRes; KSync; KAtu; KMem; KReq]) (TtEvtIoInCallerContext b f r c).
Proof. unfold TtEvtIoInCallerContext, caller_forward. emits_walk. Qed.
#[local] Hint Resolve TtEvtIoInCallerContext_emits : emits.
End events.
#[export] Hint Resolve TtIoctlGetDeviceInfo_emits TtIoctlGetDriverInfo_emits
  TtIoctlQueryMappings_emits TtCheckIoGates_emits TtIoctlDebugReadTelemetry_emits
  TtIoctlDebugArcMsg_emits TtIoctlDebugGetAggPower_emits caller_handler_emits
  TtEvtIoInCallerContext_emits : emits.
