(* ===== verification/Device.v ===== *)
(** * Device life cycle (src/driver/device.c, src/driver/driver.c)

    Handle creation and cleanup, BAR discovery, the kernel mappings, PnP and
    power callbacks, the driver-global device list and the process-exit
    callback. *)
From S2P Require Import Prelude Abi Platform Frame Trace PciConfig Blackhole Iatu Tlb Memory Locks.
From S2P Require Import Power Reset.

(** ** Configuration *)

(** TtReadDmaBufLimitBytes: [value] is the registry value, when it can be read. *)
Definition TtReadDmaBufLimitBytes (value : option Z) : Z :=
  wrap64 (Z.shiftl (default TT_DMA_BUF_DEFAULT_LIMIT_MIB value) 20).

Definition TtQueryPciSegment : Z := 0.

(** ** BARs *)

(** The loop of TtReadConfigBars over the six BAR registers: [raw] are the
    registers from index [i] on, [skip] says that register [i] is the upper
    half of the previous one. *)
Fixpoint config_bars (raw : list Z) (skip : bool) : list Z :=
  match raw with
  | [] => []
  | r :: rest =>
      if skip then 0 :: config_bars rest false
      else if negb (Z.land r 0x1 =? 0) then 0 :: config_bars rest false
      else
        let value := Z.land r 0xFFFFFFF0 in
        if Z.land r 0x6 =? 0x4 then
          match rest with
          | [] => [0]
          | hi :: _ => Z.lor value (Z.shiftl hi 32) :: config_bars rest true
          end
        else value :: config_bars rest false
  end.

(** A CM_PARTIAL_RESOURCE_DESCRIPTOR: the start and length of the union members
    that the driver reads, whose widths are written at the reads (LARGE_INTEGER
    and ULONG). *)
Inductive CmDescriptor :=
  | CmResourceTypeMemory (Start Length : Z)
  | CmResourceTypeMemoryLarge (Start Flags Length40 Length48 Length64 : Z)
  | CmResourceTypeOther (Start : Z).

Definition CM_RESOURCE_MEMORY_LARGE_40 : Z := 0x0200.
Definition CM_RESOURCE_MEMORY_LARGE_48 : Z := 0x0400.
Definition CM_RESOURCE_MEMORY_LARGE_64 : Z := 0x0800.

Definition cm_start (d : CmDescriptor) : Z :=
  match d with
  | CmResourceTypeMemory s _ | CmResourceTypeMemoryLarge s _ _ _ _ | CmResourceTypeOther s => signed64 s
  end.

Definition TtDecodeMemoryLength (d : CmDescriptor) : Z :=
  match d with
  | CmResourceTypeMemory _ len => wrap32 len
  | CmResourceTypeMemoryLarge _ flags l40 l48 l64 =>
      if has_bits flags CM_RESOURCE_MEMORY_LARGE_40 then wrap64 (Z.shiftl l40 8)
      else if has_bits flags CM_RESOURCE_MEMORY_LARGE_48 then wrap64 (Z.shiftl l48 16)
      else if has_bits flags CM_RESOURCE_MEMORY_LARGE_64 then wrap64 (Z.shiftl l64 32)
      else 0
  | CmResourceTypeOther _ => 0
  end.

Definition is_memory (d : CmDescriptor) : bool :=
  match d with CmResourceTypeOther _ => false | _ => true end.

(** The first BAR whose register value is the resource's bus-relative base. *)
Fixpoint bar_of (i : Z) (barValue : list Z) (start : Z) : option Z :=
  match barValue with
  | [] => None
  | v :: r => if negb (v =? 0) && (v =? start) then Some i else bar_of (i + 1) r start
  end.

(** One round of the correlation loop: the raw and the translated descriptor
    ([None] is a NULL descriptor). *)
Definition correlate (barValue : list Z) (b : BarState) (e : option CmDescriptor * option CmDescriptor)
    : BarState :=
  match e with
  | (Some raw, Some xlated) =>
      if negb (is_memory xlated) then b
      else
        match bar_of 0 barValue (wrap64 (cm_start raw)) with
        | Some bar =>
            b <| BarBase := <[Z.to_nat bar := cm_start xlated]> (BarBase b) |>
              <| BarLength := <[Z.to_nat bar := TtDecodeMemoryLength xlated]> (BarLength b) |>
        | None => b
        end
  | _ => b
  end.

Definition bars_zero (b : BarState) : BarState :=
  b <| BarLength := replicate 6 0 |> <| BarBase := replicate 6 0 |>.

(** The kernel mappings: BAR, offset and length of each; 0 is the whole BAR. *)
Definition bar_maps : list (MmioRegion * Z * Z * Z) :=
  [(RTlbRegs, 0, TT_BH_TLB_REGS_START, TT_BH_TLB_REGS_LEN);
   (RKernelTlb, 0, TT_BH_KERNEL_TLB_START, TT_BH_KERNEL_TLB_LEN);
   (RNoc2AxiCfg, 0, TT_BH_NOC2AXI_CFG_START, TT_BH_NOC2AXI_CFG_LEN);
   (RBar2, 2, 0, 0)].

Definition set_slot (r : MmioRegion) (v : bool) (b : BarState) : BarState :=
  match r with
  | RTlbRegs => b <| TlbRegs := v |>
  | RKernelTlb => b <| KernelTlb := v |>
  | RNoc2AxiCfg => b <| Noc2AxiCfg := v |>
  | RBar2 => b <| Bar2Mapping := v |>
  end.
Definition slot (r : MmioRegion) (b : BarState) : bool :=
  match r with
  | RTlbRegs => TlbRegs b | RKernelTlb => KernelTlb b
  | RNoc2AxiCfg => Noc2AxiCfg b | RBar2 => Bar2Mapping b
  end.
Definition map_length (b : BarState) (bar len : Z) : Z := if len =? 0 then bar_len b bar else len.

(** What PnP hands to EvtDevicePrepareHardware. *)
Record PnpInput := mkPnp {
  pi_BusInterface : bool;
  pi_ResetInterface : option RESET_INTERFACE;
  pi_BusNumber : Z;
  pi_Address : Z;
  pi_Resources : list (option CmDescriptor * option CmDescriptor)
}.

(** [(bus & 0xFF) << 8 | ((address >> 16) & 0x1F) << 3 | (address & 7)] *)
Definition bus_dev_fn (bus address : Z) : Z :=
  wrap16 (Z.lor (Z.lor (Z.shiftl (Z.land bus 0xFF) 8)
                       (Z.shiftl (Z.land (Z.shiftr address 16) 0x1F) 3))
                (Z.land address 0x7)).

(** A 16-bit field at byte [off] of the configuration header. *)
Definition header_word (header off : Z) : Z := wrap16 (Z.shiftr header (8 * off)).

Section device.
Context {P : Platform}.

(** ** Handles *)
Definition upd_list (g : list Z → list Z) : M () := modify (λ w, w <| FileList := g (FileList w) |>).

Definition TtEvtDeviceFileCreate (Request FileObject : Z) (lockCreate : NTSTATUS) : M () :=
  gen ← gets (ResetGen ∘ w_gate);
  process ← gets w_process;
  upd_file FileObject (λ c, c <| OpenResetGen := gen |> <| CreatorProcess := Some process |>);;
  emit (EvGet (RsProcess process));;
  status ← TtFileContextInitMemory FileObject lockCreate;
  when (NT_SUCCESS status)
    (TtPowerFileDefault FileObject;;
     acquire FileListLock;;
     upd_list (λ l, l ++ [FileObject]);;
     upd_file FileObject (λ c, c <| OnDeviceList := true |>);;
     release FileListLock;;
     TtPowerAggregate);;
  WdfRequestComplete Request status.

Definition noc_cleanup (FileObject : Z) : M () :=
  c ← TtGetFileContext FileObject;
  detached ← gets (Detached ∘ w_gate);
  bh ← gets (IsBlackhole ∘ w_id);
  when (NocCleanupEnabled (fc_Noc c) && negb detached && bh)
    (TtBhNocWrite (NocCleanupX (fc_Noc c)) (NocCleanupY (fc_Noc c)) (NocCleanupAddr (fc_Noc c))
       (Z.land (NocCleanupData (fc_Noc c)) 0xFFFFFFFF) (NocCleanupNoc (fc_Noc c))).

Definition file_delist (FileObject : Z) : M () :=
  c ← TtGetFileContext FileObject;
  when (OnDeviceList c)
    (acquire FileListLock;;
     upd_list (filter (λ f, f ≠ FileObject));;
     upd_file FileObject (λ c, c <| OnDeviceList := false |>);;
     release FileListLock).

Definition file_power_off (FileObject : Z) : M () :=
  c ← TtGetFileContext FileObject;
  when (PowerContributes (fc_Power c))
    (upd_file FileObject (λ c, c <| fc_Power := fc_Power c <| PowerContributes := false |> |>);;
     TtPowerAggregate).

Definition file_creator_deref (FileObject : Z) : M () :=
  c ← TtGetFileContext FileObject;
  match CreatorProcess c with
  | Some p =>
      emit (EvPut (RsProcess p));;
      upd_file FileObject (λ c, c <| CreatorProcess := None |>)
  | None => mret tt
  end.

Definition TtEvtFileCleanup (FileObject : Z) : M () :=
  TtResetAcquireShared;;
  noc_cleanup FileObject;;
  TtLocksReleaseAll FileObject;;
  file_delist FileObject;;
  TtMemoryFileCleanup FileObject;;
  TtResetRelease;;
  file_power_off FileObject;;
  file_creator_deref FileObject.

(** ** BAR discovery and mapping *)
Definition TtReadConfigBars : M (list Z) :=
  r ← call (GetBusData 0x10 24) (λ _, [EvCfgRead 0x10 24]);
  if negb (r.2 =? 24) then mret (replicate 6 0)
  else mret (config_bars ((λ i, wrap32 (Z.shiftr r.1 (32 * i))) <$> zrange 6) false).

Definition upd_bars (g : BarState → BarState) : M () := modify (λ w, w <| w_bars := g (w_bars w) |>).

(** One kernel mapping; [Some] is the error that ends the loop. *)
Definition map_bar (m : MmioRegion * Z * Z * Z) : M (option NTSTATUS) :=
  let '(r, bar, off, len) := m in
  b ← gets w_bars;
  let length := map_length b bar len in
  ok ← call (MmMapIoSpaceEx (bar_base b bar + off) length)
         (λ ok, if (ok : bool) then [EvGet (RsIoSpace r length)] else []);
  upd_bars (set_slot r ok);;
  mret (if (ok : bool) then None else Some STATUS_INSUFFICIENT_RESOURCES).

Definition TtMapBlackholeBars : M NTSTATUS :=
  b ← gets w_bars;
  if (bar_len b 0 <? TT_BH_NOC2AXI_CFG_START + TT_BH_NOC2AXI_CFG_LEN) || (bar_len b 2 =? 0)
  then mret STATUS_DEVICE_CONFIGURATION_ERROR
  else o ← for_break bar_maps map_bar; mret (default STATUS_SUCCESS o).

Definition unmap_bar (m : MmioRegion * Z * Z * Z) : M () :=
  let '(r, bar, _, len) := m in
  b ← gets w_bars;
  when (slot r b)
    (emit (EvPut (RsIoSpace r (map_length b bar len)));; upd_bars (set_slot r false)).

Definition TtUnmapBlackholeBars : M () := for_each bar_maps unmap_bar.

(** ** EvtDevicePrepareHardware *)
Definition read_identity (pnp : PnpInput) : M () :=
  r ← call (GetBusData 0 64) (λ _, [EvCfgRead 0 64]);
  when (r.2 =? 64)
    (let h := r.1 in
     modify (λ w, w <| w_id :=
       mkId (header_word h 0x00) (header_word h 0x02) (header_word h 0x2C) (header_word h 0x2E)
            (bus_dev_fn (pi_BusNumber pnp) (pi_Address pnp)) TtQueryPciSegment
            ((header_word h 0x00 =? TT_PCI_VENDOR_ID)
             && (header_word h 0x02 =? TT_PCI_DEVICE_ID_BLACKHOLE)) |>)).

(** Bus Master Enable. *)
Definition enable_bus_master : M () :=
  r ← get_bus_data 0x04 2;
  when (r.1 && negb (r.2 =? 0xFFFF) && (Z.land r.2 0x0004 =? 0))
    (emit (EvCfgWrite 0x04 2 (Z.lor r.2 0x0004))).

Definition reset_if_zero : RESET_INTERFACE := mkResetIf false false false 0.
(** What the query fills in: SupportedResetTypes is a ULONG. *)
Definition queried_interface (o : option RESET_INTERFACE) : RESET_INTERFACE :=
  match o with
  | Some r => mkResetIf (ri_DeviceReset r) (ri_InterfaceReference r) (ri_InterfaceDereference r) (wrap32 (SupportedResetTypes r))
  | None => reset_if_zero
  end.

(** The block under [if (NT_SUCCESS(status))]; the BAR register values. *)
Definition prepare_bus (pnp : PnpInput) : M (list Z) :=
  emit (EvGet RsBusInterface);;
  modify (λ w, w <| BusInterfaceValid := true |>);;
  read_identity pnp;;
  enable_bus_master;;
  modify (λ w, w <| w_pldr := w_pldr w
    <| ResetInterface := queried_interface (pi_ResetInterface pnp) |>
    <| ResetInterfaceValid := bool_decide (is_Some (pi_ResetInterface pnp)) |> |>);;
  when (bool_decide (is_Some (pi_ResetInterface pnp))) (emit (EvGet RsResetInterface));;
  TtReadConfigBars.

(** The window pool at start: only the kernel window is in use. *)
Definition tlb_pool_init (b : BarState) : TlbPool :=
  mkTlbs (<[Z.to_nat TT_BH_KERNEL_TLB_INDEX := true]> (replicate (Z.to_nat TT_TLB_TOTAL) false))
         (replicate (Z.to_nat TT_TLB_TOTAL) None)
         (wrap32 (Z.min (Z.shiftr (bar_len b 4) 32) TT_TLB_4G_MAX)).

Definition set_dma (g : DmaState → DmaState) : M () := modify (λ w, w <| w_dma := g (w_dma w) |>).

Definition dma_enabler_init : M () :=
  d ← gets w_dma;
  when (negb (DmaEnabler d))
    (status ← call WdfDmaEnablerCreate (λ _, []);
     set_dma (λ d, d <| DmaEnabler := NT_SUCCESS status |>)).

(** The identity probe (DD-8). *)
Definition dma_identity_probe : M () :=
  set_dma (λ d, d <| DmaIdentityKnown := false |> <| DmaIdentityMapped := false |>);;
  d ← gets w_dma;
  when (DmaEnabler d)
    (o ← call (WdfCommonBufferCreate PAGE_SIZE) (got RsCommonBuffer);
     match o with
     | None => mret tt
     | Some probe =>
         logical ← gets (λ w, WdfCommonBufferGetAlignedLogicalAddress probe (w_os w));
         physical ← gets (λ w, CommonBufferPhysicalAddress probe (w_os w));
         set_dma (λ d, d <| DmaIdentityKnown := true |>
           <| DmaIdentityMapped := (logical =? physical) && (wrap64 logical <=? TT_BH_NOC_DMA_LIMIT) |>);;
         WdfObjectDelete probe
     end).

Definition prepare_blackhole : M NTSTATUS :=
  status ← TtMapBlackholeBars;
  if negb (NT_SUCCESS status) then TtUnmapBlackholeBars;; mret status
  else
    b ← gets w_bars;
    modify (λ w, w <| w_tlb := tlb_pool_init b |>);;
    dma_enabler_init;;
    dma_identity_probe;;
    TtDiscoverPcieCap;;
    ok ← TtBhInitHardware;
    set_needs_hw_init (negb ok);;
    TtPciSaveState;;
    TtBhSaveResetState;;
    modify (λ w, w <| w_saved := w_saved w <| HardwareInitDone := true |> |>);;
    TtBhTelemetryProbe;;
    TtPowerAggregate;;
    mret STATUS_SUCCESS.

Definition TtEvtDevicePrepareHardware (pnp : PnpInput) : M NTSTATUS :=
  upd_bars bars_zero;;
  barValue ← (if pi_BusInterface pnp then prepare_bus pnp else mret (replicate 6 0));
  upd_bars (λ b, foldl (correlate barValue) b (pi_Resources pnp));;
  bh ← gets (IsBlackhole ∘ w_id);
  if (bh : bool) then prepare_blackhole else mret STATUS_SUCCESS.

(** BUS_INTERFACE_STANDARD always has an InterfaceDereference. *)
Definition TtEvtDeviceReleaseHardware : M NTSTATUS :=
  TtUnmapBlackholeBars;;
  upd_bars bars_zero;;
  modify (λ w, w <| w_saved := w_saved w <| SavedStateValid := false |> <| SavedMpsValid := false |>
                                         <| HardwareInitDone := false |> |>);;
  set_dma (λ d, d <| DmaIdentityKnown := false |> <| DmaIdentityMapped := false |>);;
  p ← gets w_pldr;
  when (ResetInterfaceValid p)
    (when (ri_InterfaceDereference (ResetInterface p)) (emit (EvPut RsResetInterface));;
     modify (λ w, w <| w_pldr := w_pldr w <| ResetInterfaceValid := false |> |>));;
  valid ← gets BusInterfaceValid;
  when valid
    (emit (EvPut RsBusInterface);; modify (λ w, w <| BusInterfaceValid := false |>));;
  mret STATUS_SUCCESS.

(** ** Power and removal *)
Inductive WDF_POWER_DEVICE_STATE :=
  | WdfPowerDeviceD0 | WdfPowerDeviceD1 | WdfPowerDeviceD2 | WdfPowerDeviceD3 | WdfPowerDeviceD3Final.

Definition power_state_eqb (a b : WDF_POWER_DEVICE_STATE) : bool :=
  match a, b with
  | WdfPowerDeviceD0, WdfPowerDeviceD0 | WdfPowerDeviceD1, WdfPowerDeviceD1
  | WdfPowerDeviceD2, WdfPowerDeviceD2 | WdfPowerDeviceD3, WdfPowerDeviceD3
  | WdfPowerDeviceD3Final, WdfPowerDeviceD3Final => true
  | _, _ => false
  end.

Definition TtEvtDeviceD0Entry (PreviousState : WDF_POWER_DEVICE_STATE) : M NTSTATUS :=
  bh ← gets (IsBlackhole ∘ w_id);
  done ← gets (HardwareInitDone ∘ w_saved);
  when (bh && done && negb (power_state_eqb PreviousState WdfPowerDeviceD3Final))
    (TtBhInitHardware;; TtPciSaveState);;
  mret STATUS_SUCCESS.

Definition TtEvtDeviceD0Exit (TargetState : WDF_POWER_DEVICE_STATE) : M NTSTATUS :=
  bh ← gets (IsBlackhole ∘ w_id);
  detached ← gets (Detached ∘ w_gate);
  when (bh && negb detached && negb (power_state_eqb TargetState WdfPowerDeviceD0))
    (TtBhSendArcMessage (msg_of TT_ARC_MSG_TYPE_ASIC_STATE3);; mret tt);;
  mret STATUS_SUCCESS.

Definition TtEvtDeviceSurpriseRemoval : M () :=
  TtResetAcquireExclusive;;
  modify (λ w, w <| w_gate := w_gate w <| Detached := true |> |>);;
  TtResetZapMappings;;
  TtResetRelease;;
  acquire LockLock;;
  TtLocksWakeWaiters;;
  release LockLock.

(** ** Process exit (driver.c, TtProcessNotify): the walk over one device *)
Definition process_exit_file (Process f : Z) : M () :=
  c ← TtGetFileContext f;
  when (bool_decide (CreatorProcess c = Some Process)) (TtMemoryProcessExit f).

Definition process_notify_device (Process : Z) : M () :=
  TtResetAcquireShared;;
  acquire FileListLock;;
  fs ← gets FileList;
  for_each fs (process_exit_file Process);;
  release FileListLock;;
  TtResetRelease.

(** The driver: its devices, the list the callback walks, and the use of
    g_TtDeviceListLock, newest first. *)
Record DriverState := mkDriver {
  dv_contexts : gmap Z World;
  g_TtDeviceList : list Z;
  OnDriverList : gset Z;
  dv_trace : list Event
}.

Definition list_locked (d : DriverState) : list Event := EvLock DeviceListLock :: dv_trace d.

Definition TtDeviceListRegister (Context : Z) (d : DriverState) : DriverState :=
  mkDriver (dv_contexts d) (g_TtDeviceList d ++ [Context]) ({[Context]} ∪ OnDriverList d)
           (EvUnlock DeviceListLock :: list_locked d).

Definition TtDeviceListUnregister (Context : Z) (d : DriverState) : DriverState :=
  let on := bool_decide (Context ∈ OnDriverList d) in
  mkDriver (dv_contexts d)
           (if on then filter (λ c, c ≠ Context) (g_TtDeviceList d) else g_TtDeviceList d)
           (if on then OnDriverList d ∖ {[Context]} else OnDriverList d)
           (EvUnlock DeviceListLock :: list_locked d).

(** [creation]: CreateInfo is not NULL. *)
Definition TtProcessNotify (creation : bool) (Process : Z) (d : DriverState) : DriverState :=
  if creation then d
  else
    mkDriver
      (foldl (λ cs c, alter (λ w, (process_notify_device Process w).2) c cs) (dv_contexts d) (g_TtDeviceList d))
      (g_TtDeviceList d) (OnDriverList d) (EvUnlock DeviceListLock :: list_locked d).
End device.

(** ** Footprints *)
Section frames.
Context {P : Platform}.

Lemma upd_list_frame g : Steps (Frame [CFileList]) (upd_list g).
Proof. unfold upd_list. frame_walk. Qed.
#[local] Hint Resolve upd_list_frame : frames.
Lemma TtEvtDeviceFileCreate_frame r f l : Steps (Frame [COs; CTrace; FGen; FCreator; FMappings; FPinnings; FDmaBufs; FLock; FPower; FOnList; CFileList; CPower]) (TtEvtDeviceFileCreate r f l).
Proof. unfold TtEvtDeviceFileCreate. frame_walk. Qed.
#[local] Hint Resolve TtEvtDeviceFileCreate_frame : frames.
Lemma noc_cleanup_frame f : Steps (Frame [COs; CTrace]) (noc_cleanup f).
Proof. unfold noc_cleanup. frame_walk. Qed.
#[local] Hint Resolve noc_cleanup_frame : frames.
Lemma file_delist_frame f : Steps (Frame [COs; CTrace; CFileList; FOnList]) (file_delist f).
Proof. unfold file_delist. frame_walk. Qed.
#[local] Hint Resolve file_delist_frame : frames.
Lemma file_power_off_frame f : Steps (Frame [COs; CTrace; FPower; CPower]) (file_power_off f).
Proof. unfold file_power_off. frame_walk. Qed.
#[local] Hint Resolve file_power_off_frame : frames.
Lemma file_creator_deref_frame f : Steps (Frame [COs; CTrace; FCreator]) (file_creator_deref f).
Proof. unfold file_creator_deref. frame_walk. Qed.
#[local] Hint Resolve file_creator_deref_frame : frames.
Lemma TtReadConfigBars_frame : Steps (Frame [COs; CTrace]) (TtReadConfigBars).
Proof. unfold TtReadConfigBars. frame_walk. Qed.
#[local] Hint Resolve TtReadConfigBars_frame : frames.
Lemma upd_bars_frame g : Steps (Frame [CBars]) (upd_bars g).
Proof. unfold upd_bars. frame_walk. Qed.
#[local] Hint Resolve upd_bars_frame : frames.
Lemma map_bar_frame m : Steps (Frame [COs; CTrace; CBars]) (map_bar m).
Proof. unfold map_bar. frame_walk. Qed.
#[local] Hint Resolve map_bar_frame : frames.
Lemma TtMapBlackholeBars_frame : Steps (Frame [COs; CTrace; CBars]) (TtMapBlackholeBars).
Proof. unfold TtMapBlackholeBars. frame_walk. Qed.
#[local] Hint Resolve TtMapBlackholeBars_frame : frames.
Lemma unmap_bar_frame m : Steps (Frame [COs; CTrace; CBars]) (unmap_bar m).
Proof. unfold unmap_bar. frame_walk. Qed.
#[local] Hint Resolve unmap_bar_frame : frames.
Lemma TtUnmapBlackholeBars_frame : Steps (Frame [COs; CTrace; CBars]) (TtUnmapBlackholeBars).
Proof. unfold TtUnmapBlackholeBars. frame_walk. Qed.
#[local] Hint Resolve TtUnmapBlackholeBars_frame : frames.
Lemma read_identity_frame p : Steps (Frame [COs; CTrace; CId]) (read_identity p).
Proof. unfold read_identity. frame_walk. Qed.
#[local] Hint Resolve read_identity_frame : frames.
Lemma enable_bus_master_frame : Steps (Frame [COs; CTrace]) (enable_bus_master).
Proof. unfold enable_bus_master. frame_walk. Qed.
#[local] Hint Resolve enable_bus_master_frame : frames.
Lemma prepare_bus_frame p : Steps (Frame [COs; CTrace; CBus; CId; CPldr]) (prepare_bus p).
Proof. unfold prepare_bus. frame_walk. Qed.
#[local] Hint Resolve prepare_bus_frame : frames.
Lemma set_dma_frame g : Steps (Frame [CDma]) (set_dma g).
Proof. unfold set_dma. frame_walk. Qed.
#[local] Hint Resolve set_dma_frame : frames.
Lemma dma_enabler_init_frame : Steps (Frame [COs; CTrace; CDma]) (dma_enabler_init).
Proof. unfold dma_enabler_init. frame_walk. Qed.
#[local] Hint Resolve dma_enabler_init_frame : frames.
Lemma dma_identity_probe_frame : Steps (Frame [COs; CTrace; CDma]) (dma_identity_probe).
Proof. unfold dma_identity_probe. frame_walk. Qed.
#[local] Hint Resolve dma_identity_probe_frame : frames.
Lemma prepare_blackhole_frame : Steps (Frame [COs; CTrace; CBars; CTlb; CDma; CSaved; CGate; CTelem; CPower]) (prepare_blackhole).
Proof. unfold prepare_blackhole. frame_walk. Qed.
#[local] Hint Resolve prepare_blackhole_frame : frames.
Lemma TtEvtDevicePrepareHardware_frame p : Steps (Frame [COs; CTrace; CBars; CTlb; CDma; CSaved; CGate; CTelem; CPower; CBus; CId; CPldr]) (TtEvtDevicePrepareHardware p).
Proof. unfold TtEvtDevicePrepareHardware. frame_walk. Qed.
#[local] Hint Resolve TtEvtDevicePrepareHardware_frame : frames.
Lemma TtEvtDeviceReleaseHardware_frame : Steps (Frame [COs; CTrace; CBars; CSaved; CDma; CPldr; CBus]) (TtEvtDeviceReleaseHardware).
Proof. unfold TtEvtDeviceReleaseHardware. frame_walk. Qed.
#[local] Hint Resolve TtEvtDeviceReleaseHardware_frame : frames.
Lemma TtEvtDeviceD0Entry_frame p : Steps (Frame [COs; CTrace; CSaved]) (TtEvtDeviceD0Entry p).
Proof. unfold TtEvtDeviceD0Entry. frame_walk. Qed.
#[local] Hint Resolve TtEvtDeviceD0Entry_frame : frames.
Lemma TtEvtDeviceD0Exit_frame t : Steps (Frame [COs; CTrace]) (TtEvtDeviceD0Exit t).
Proof. unfold TtEvtDeviceD0Exit. frame_walk. Qed.
#[local] Hint Resolve TtEvtDeviceD0Exit_frame : frames.
Lemma TtEvtDeviceSurpriseRemoval_frame : Steps (Frame [COs; CTrace; CGate; FMappings; CWaitQueue; CReqs; CLocks; FLocks]) (TtEvtDeviceSurpriseRemoval).
Proof. unfold TtEvtDeviceSurpriseRemoval. frame_walk. Qed.
#[local] Hint Resolve TtEvtDeviceSurpriseRemoval_frame : frames.
Lemma process_exit_file_frame p f : Steps (Frame [COs; CTrace; CIatu; FMappings; FPinnings]) (process_exit_file p f).
Proof. unfold process_exit_file. frame_walk. Qed.
#[local] Hint Resolve process_exit_file_frame : frames.
Lemma process_notify_device_frame p : Steps (Frame [COs; CTrace; CIatu; FMappings; FPinnings]) (process_notify_device p).
Proof. unfold process_notify_device. frame_walk. Qed.
#[local] Hint Resolve process_notify_device_frame : frames.
End frames.
#[export] Hint Resolve upd_list_frame TtEvtDeviceFileCreate_frame noc_cleanup_frame
  file_delist_frame file_power_off_frame file_creator_deref_frame TtReadConfigBars_frame
  upd_bars_frame map_bar_frame TtMapBlackholeBars_frame unmap_bar_frame TtUnmapBlackholeBars_frame
  read_identity_frame enable_bus_master_frame prepare_bus_frame set_dma_frame
  dma_enabler_init_frame dma_identity_probe_frame prepare_blackhole_frame
  TtEvtDevicePrepareHardware_frame TtEvtDeviceReleaseHardware_frame TtEvtDeviceD0Entry_frame
  TtEvtDeviceD0Exit_frame TtEvtDeviceSurpriseRemoval_frame process_exit_file_frame
  process_notify_device_frame : frames.

(** ** Events *)
Section events.
Context {P : Platform}.

Lemma upd_list_emits g : Steps (Emits []) (upd_list g).
Proof. unfold upd_list. emits_walk. Qed.
#[local] Hint Resolve upd_list_emits : emits.
Lemma TtEvtDeviceFileCreate_emits r f l : Steps (Emits [KRes; KSync; KHw; KFuel; KReq]) (TtEvtDeviceFileCreate r f l).
Proof. unfold TtEvtDeviceFileCreate. emits_walk. Qed.
#[local] Hint Resolve TtEvtDeviceFileCreate_emits : emits.
Lemma noc_cleanup_emits f : Steps (Emits [KSync; KHw]) (noc_cleanup f).
Proof. unfold noc_cleanup. emits_walk. Qed.
#[local] Hint Resolve noc_cleanup_emits : emits.
Lemma file_delist_emits f : Steps (Emits [KSync]) (file_delist f).
Proof. unfold file_delist. emits_walk. Qed.
#[local] Hint Resolve file_delist_emits : emits.
Lemma file_power_off_emits f : Steps (Emits [KSync; KHw; KFuel]) (file_power_off f).
Proof. unfold file_power_off. emits_walk. Qed.
#[local] Hint Resolve file_power_off_emits : emits.
Lemma file_creator_deref_emits f : Steps (Emits [KRes]) (file_creator_deref f).
Proof. unfold file_creator_deref. emits_walk. Qed.
#[local] Hint Resolve file_creator_deref_emits : emits.
Lemma TtReadConfigBars_emits : Steps (Emits [KCfg]) (TtReadConfigBars).
Proof. unfold TtReadConfigBars. emits_walk. Qed.
#[local] Hint Resolve TtReadConfigBars_emits : emits.
Lemma upd_bars_emits g : Steps (Emits []) (upd_bars g).
Proof. unfold upd_bars. emits_walk. Qed.
#[local] Hint Resolve upd_bars_emits : emits.
Lemma map_bar_emits m : Steps (Emits [KIface]) (map_bar m).
Proof. unfold map_bar. emits_walk. Qed.
#[local] Hint Resolve map_bar_emits : emits.
Lemma TtMapBlackholeBars_emits : Steps (Emits [KIface]) (TtMapBlackholeBars).
Proof. unfold TtMapBlackholeBars. emits_walk. Qed.
#[local] Hint Resolve TtMapBlackholeBars_emits : emits.
Lemma unmap_bar_emits m : Steps (Emits [KIface]) (unmap_bar m).
Proof. unfold unmap_bar. emits_walk. Qed.
#[local] Hint Resolve unmap_bar_emits : emits.
Lemma TtUnmapBlackholeBars_emits : Steps (Emits [KIface]) (TtUnmapBlackholeBars).
Proof. unfold TtUnmapBlackholeBars. emits_walk. Qed.
#[local] Hint Resolve TtUnmapBlackholeBars_emits : emits.
Lemma read_identity_emits p : Steps (Emits [KCfg]) (read_identity p).
Proof. unfold read_identity. emits_walk. Qed.
#[local] Hint Resolve read_identity_emits : emits.
Lemma enable_bus_master_emits : Steps (Emits [KCfg]) (enable_bus_master).
Proof. unfold enable_bus_master. emits_walk. Qed.
#[local] Hint Resolve enable_bus_master_emits : emits.
Lemma prepare_bus_emits p : Steps (Emits [KIface; KCfg]) (prepare_bus p).
Proof. unfold prepare_bus. emits_walk. Qed.
#[local] Hint Resolve prepare_bus_emits : emits.
Lemma set_dma_emits g : Steps (Emits []) (set_dma g).
Proof. unfold set_dma. emits_walk. Qed.
#[local] Hint Resolve set_dma_emits : emits.
Lemma dma_enabler_init_emits : Steps (Emits []) (dma_enabler_init).
Proof. unfold dma_enabler_init. emits_walk. Qed.
#[local] Hint Resolve dma_enabler_init_emits : emits.
Lemma dma_identity_probe_emits : Steps (Emits [KRes]) (dma_identity_probe).
Proof. unfold dma_identity_probe. emits_walk. Qed.
#[local] Hint Resolve dma_identity_probe_emits : emits.
Lemma prepare_blackhole_emits : Steps (Emits [KIface; KCfg; KRes; KSync; KHw; KFuel]) (prepare_blackhole).
Proof. unfold prepare_blackhole. emits_walk. Qed.
#[local] Hint Resolve prepare_blackhole_emits : emits.
Lemma TtEvtDevicePrepareHardware_emits p : Steps (Emits [KIface; KCfg; KRes; KSync; KHw; KFuel]) (TtEvtDevicePrepareHardware p).
Proof. unfold TtEvtDevicePrepareHardware. emits_walk. Qed.
#[local] Hint Resolve TtEvtDevicePrepareHardware_emits : emits.
Lemma TtEvtDeviceReleaseHardware_emits : Steps (Emits [KIface]) (TtEvtDeviceReleaseHardware).
Proof. unfold TtEvtDeviceReleaseHardware. emits_walk. Qed.
#[local] Hint Resolve TtEvtDeviceReleaseHardware_emits : emits.
Lemma TtEvtDeviceD0Entry_emits p : Steps (Emits [KSync; KHw; KFuel; KCfg]) (TtEvtDeviceD0Entry p).
Proof. unfold TtEvtDeviceD0Entry. emits_walk. Qed.
#[local] Hint Resolve TtEvtDeviceD0Entry_emits : emits.
Lemma TtEvtDeviceD0Exit_emits t : Steps (Emits [KSync; KHw; KFuel]) (TtEvtDeviceD0Exit t).
Proof. unfold TtEvtDeviceD0Exit. emits_walk. Qed.
#[local] Hint Resolve TtEvtDeviceD0Exit_emits : emits.
Lemma TtEvtDeviceSurpriseRemoval_emits : Steps (Emits [KSync; KReq; KRes; KMem]) (TtEvtDeviceSurpriseRemoval).
Proof. unfold TtEvtDeviceSurpriseRemoval. emits_walk. Qed.
#[local] Hint Resolve TtEvtDeviceSurpriseRemoval_emits : emits.
Lemma process_exit_file_emits p f : Steps (Emits [KRes; KSync; KAtu; KMem]) (process_exit_file p f).
Proof. unfold process_exit_file. emits_walk. Qed.
#[local] Hint Resolve process_exit_file_emits : emits.
Lemma process_notify_device_emits p : Steps (Emits [KRes; KSync; KAtu; KMem]) (process_notify_device p).
Proof. unfold process_notify_device. emits_walk. Qed.
#[local] Hint Resolve process_notify_device_emits : emits.
End events.
#[export] Hint Resolve upd_list_emits TtEvtDeviceFileCreate_emits noc_cleanup_emits
  file_delist_emits file_power_off_emits file_creator_deref_emits TtReadConfigBars_emits
  upd_bars_emits map_bar_emits TtMapBlackholeBars_emits unmap_bar_emits TtUnmapBlackholeBars_emits
  read_identity_emits enable_bus_master_emits prepare_bus_emits set_dma_emits
  dma_enabler_init_emits dma_identity_probe_emits prepare_blackhole_emits
  TtEvtDevicePrepareHardware_emits TtEvtDeviceReleaseHardware_emits TtEvtDeviceD0Entry_emits
  TtEvtDeviceD0Exit_emits TtEvtDeviceSurpriseRemoval_emits process_exit_file_emits
  process_notify_device_emits : emits.
