(* ===== verification/Driver.v ===== *)
(** * Driver load, device add and their clean-up (driver.c, device.c, TtLocksInit)

    The driver's globals, the objects that the framework creates for a device,
    and the callbacks that create and release them.  [fw c] is what the
    framework or kernel call behind the creation [c] returns. *)
From S2P Require Import Prelude Abi Platform Blackhole Iatu Device.

(** ** The interface reference string: printf of TT%d *)
Fixpoint dec_digits (fuel : nat) (n : Z) (acc : list Z) : list Z :=
  match fuel with
  | O => acc
  | S k =>
      let acc' := (48 + n mod 10) :: acc in
      if n <? 10 then acc' else dec_digits k (n / 10) acc'
  end.

(** [%d] of a LONG; ten digits are enough for 32 bits. *)
Definition percent_d (n : Z) : list Z :=
  if n <? 0 then 45 :: dec_digits 10 (- n) [] else dec_digits 10 n [].

Definition ref_string (ordinal : Z) : list Z := [84; 84] ++ percent_d ordinal.

(** The buffer of DECLARE_UNICODE_STRING_SIZE(refString, 16). *)
Definition REF_STRING_SIZE : Z := 16.

(** InterlockedIncrement on a LONG. *)
Definition interlocked_increment (x : Z) : Z :=
  let u := wrap32 (x + 1) in if 2 ^ 31 <=? u then u - 2 ^ 32 else u.

(** ** State *)

(** The creations that may fail. *)
Inductive Creation :=
  | CrDriver | CrListLock | CrProcessNotify
  | CrDevice | CrResetResource | CrLock (l : Lock) | CrWaitQueue | CrWorkItem
  | CrInterface (ref : list Z) | CrQueue.

#[global] Instance Creation_eq_dec : EqDecision Creation.
Proof. solve_decision. Defined.

Reserved Notation "m ;? k" (at level 100, k at level 200, right associativity).

Section driver.
Context {P : Platform}.

Record DriverGlobals := mkGlobals {
  dg_state : DriverState;
  g_TtNextOrdinal : Z;                       (* LONG *)
  g_TtProcessNotifyRegistered : bool;
  dg_trace_registered : bool;                (* TraceLoggingRegister *)
  dg_made : gmap Z (list Creation);          (* the framework objects of a device *)
  dg_reset_init : gset Z;                    (* ResetResourceInit *)
  dg_interfaces : gmap Z (list Z)            (* reference strings *)
}.
#[global] Instance set_dg_state : Setter dg_state := λ F r, mkGlobals (F (dg_state r)) (g_TtNextOrdinal r)
  (g_TtProcessNotifyRegistered r) (dg_trace_registered r) (dg_made r) (dg_reset_init r) (dg_interfaces r).
#[global] Instance set_g_TtNextOrdinal : Setter g_TtNextOrdinal := λ F r, mkGlobals (dg_state r) (F (g_TtNextOrdinal r))
  (g_TtProcessNotifyRegistered r) (dg_trace_registered r) (dg_made r) (dg_reset_init r) (dg_interfaces r).
#[global] Instance set_g_TtProcessNotifyRegistered : Setter g_TtProcessNotifyRegistered := λ F r, mkGlobals (dg_state r) (g_TtNextOrdinal r)
  (F (g_TtProcessNotifyRegistered r)) (dg_trace_registered r) (dg_made r) (dg_reset_init r) (dg_interfaces r).
#[global] Instance set_dg_trace_registered : Setter dg_trace_registered := λ F r, mkGlobals (dg_state r) (g_TtNextOrdinal r)
  (g_TtProcessNotifyRegistered r) (F (dg_trace_registered r)) (dg_made r) (dg_reset_init r) (dg_interfaces r).
#[global] Instance set_dg_made : Setter dg_made := λ F r, mkGlobals (dg_state r) (g_TtNextOrdinal r)
  (g_TtProcessNotifyRegistered r) (dg_trace_registered r) (F (dg_made r)) (dg_reset_init r) (dg_interfaces r).
#[global] Instance set_dg_reset_init : Setter dg_reset_init := λ F r, mkGlobals (dg_state r) (g_TtNextOrdinal r)
  (g_TtProcessNotifyRegistered r) (dg_trace_registered r) (dg_made r) (F (dg_reset_init r)) (dg_interfaces r).
#[global] Instance set_dg_interfaces : Setter dg_interfaces := λ F r, mkGlobals (dg_state r) (g_TtNextOrdinal r)
  (g_TtProcessNotifyRegistered r) (dg_trace_registered r) (dg_made r) (dg_reset_init r) (F (dg_interfaces r)).

Definition on_contexts (g : gmap Z World → gmap Z World) (d : DriverState) : DriverState :=
  mkDriver (g (dv_contexts d)) (g_TtDeviceList d) (OnDriverList d) (dv_trace d).

(** The zeroed context that WdfDeviceCreate attaches to the device object. *)
Definition context_zero (os : OS) (queue : Queue) : World :=
  mkWorld (mkId 0 0 0 0 0 0 false) (mkGate false false 0)
    (mkBars (replicate 6 0) (replicate 6 0) false false false false)
    (mkTlbs (replicate (Z.to_nat TT_TLB_TOTAL) false) (replicate (Z.to_nat TT_TLB_TOTAL) None) 0)
    (replicate (Z.to_nat TT_IATU_REGIONS) iatu_free_entry)
    (mkDma false 0 0 false false) 0 queue (mkAgg false 0 (replicate 14 0))
    (mkTelem (replicate (Z.to_nat TT_TELEM_TAG_CACHE_SIZE) 0) false)
    (mkSaved (replicate 16 0) 0 0 0 0 false false false)
    (mkPldr false (mkResetIf false false false 0) false (mkResetIf false false false 0) false)
    false ∅ [] ∅ ∅ 0 os [].

(** ** Driver entry *)
Section calls.
Context (fw : Creation → NTSTATUS).

(** Steps that may fail; [m ;? k] returns at the first failure. *)
Definition Setup : Type := DriverGlobals → NTSTATUS * DriverGlobals.
Definition and_then (m k : Setup) : Setup := λ g, let r := m g in if NT_SUCCESS r.1 then k r.2 else r.
Notation "m ;? k" := (and_then m k).
Definition always (f : DriverGlobals → DriverGlobals) : Setup := λ g, (STATUS_SUCCESS, f g).

(** Creates an object that belongs to the device context [c]. *)
Definition create (c : Z) (cr : Creation) : Setup := λ g,
  (fw cr, if NT_SUCCESS (fw cr)
          then g <| dg_made := <[c := cr :: default [] (dg_made g !! c)]> (dg_made g) |> else g).

Definition TtEvtDriverContextCleanup (g : DriverGlobals) : DriverGlobals :=
  g <| g_TtProcessNotifyRegistered := false |> <| dg_trace_registered := false |>.

Definition DriverEntry : Setup := λ g,
  let g1 := g <| dg_trace_registered := true |> in
  if negb (NT_SUCCESS (fw CrDriver)) then (fw CrDriver, g1 <| dg_trace_registered := false |>)
  else
    let g2 := g1 <| dg_state := mkDriver (dv_contexts (dg_state g1)) [] (OnDriverList (dg_state g1)) (dv_trace (dg_state g1)) |> in
    if negb (NT_SUCCESS (fw CrListLock)) then (fw CrListLock, g2)
    else (STATUS_SUCCESS, if NT_SUCCESS (fw CrProcessNotify) then g2 <| g_TtProcessNotifyRegistered := true |> else g2).

(** ** Device add *)
Definition TtLocksInit (Context : Z) : Setup :=
  create Context (CrLock LockLock) ;? create Context CrWaitQueue.

(** A work item that cannot be created is not fatal. *)
Definition create_work_item (Context : Z) : Setup := λ g,
  let r := create Context CrWorkItem g in
  (STATUS_SUCCESS,
   r.2 <| dg_state := on_contexts (alter (λ w, w <| w_pldr := w_pldr w <| HasPldrWorkItem := NT_SUCCESS r.1 |> |>) Context) (dg_state r.2) |>).

Definition publish_interface (Context : Z) : Setup := λ g,
  let ordinal := interlocked_increment (g_TtNextOrdinal g) in
  let ref := ref_string ordinal in
  let g1 := g <| g_TtNextOrdinal := ordinal |> in
  if REF_STRING_SIZE <? Z.of_nat (length ref) then (STATUS_FRAMEWORK 0x80000005, g1)
  else
    let r := create Context (CrInterface ref) g1 in
    (r.1, if NT_SUCCESS r.1 then r.2 <| dg_interfaces := <[Context := ref]> (dg_interfaces r.2) |> else r.2).

(** [limit] is the registry value, [os] and [queue] the platform's state and the
    queue it hands out. *)
Definition TtEvtDeviceAdd (Context : Z) (limit : option Z) (os : OS) (queue : Queue) : Setup :=
  create Context CrDevice ;?
  always (λ g, g <| dg_state := on_contexts (<[Context := context_zero os queue
       <| w_dma := mkDma false 0 (TtReadDmaBufLimitBytes limit) false false |>]>) (dg_state g) |>) ;?
  create Context CrResetResource ;?
  always (λ g, g <| dg_reset_init := {[Context]} ∪ dg_reset_init g |>) ;?
  create Context (CrLock KernelTlbLock) ;?
  create Context (CrLock ArcMsgLock) ;?
  create Context (CrLock TlbLock) ;?
  create Context (CrLock IatuLock) ;?
  create Context (CrLock FileListLock) ;?
  create Context (CrLock PowerLock) ;?
  TtLocksInit Context ;?
  create_work_item Context ;?
  publish_interface Context ;?
  create Context CrQueue ;?
  always (λ g, g <| dg_state := TtDeviceListRegister Context (dg_state g) |>).

Definition TtEvtDeviceContextCleanup (Context : Z) (g : DriverGlobals) : DriverGlobals :=
  let g1 := g <| dg_state := TtDeviceListUnregister Context (dg_state g) |> in
  if bool_decide (Context ∈ dg_reset_init g1)
  then g1 <| dg_reset_init := dg_reset_init g1 ∖ {[Context]} |> else g1.
End calls.
End driver.
Notation "m ;? k" := (and_then m k).
