(* ===== verification/Balance.v ===== *)
(** * Every entry point keeps the ledger balanced

    The handlers of the other components do not touch the accounts, except
    where a reset, a process exit or a cleanup destroys mappings and pinnings,
    and where handles are created and the DMA identity is probed. *)
From S2P Require Import Prelude Abi Platform Frame Trace Sim IoSpec PciConfig Blackhole Iatu.
From S2P Require Import IatuSpec Tlb Memory Ledger MemorySpec Locks Power Telemetry Reset Ioctl.
From S2P Require Import Device.

Section spec.
Context {P : Platform}.

Lemma balanced_quiet {A} (m : M A) fp ks :
  Steps (Frame fp) m → Steps (Emits ks) m → cdisj ledger_comps fp = true → kmem KRes ks = false →
  Steps (Keeps balanced) m.
Proof. apply ledger_quiet. Qed.

Lemma modify_balanced g :
  (∀ w c, cmem c ledger_comps = true → agree c w (g w)) → (∀ w, w_trace (g w) = w_trace w) →
  Steps (Keeps balanced) (modify g).
Proof. intros Ha Ht w. unfold Keeps. apply ledger_agree; [apply Ha|]. intros r _. cbn. by rewrite Ht. Qed.

Lemma upd_file_balanced f g :
  (∀ c x, cmem c ledger_comps = true → fagree c x (g x)) → Steps (Keeps balanced) (upd_file f g).
Proof.
  intros H w. unfold Keeps. apply ledger_agree; [|done]. intros c Hc. destruct c; try reflexivity; unfold agree; intros f';
    rewrite upd_file_ctx; destruct (decide (f = f')) as [<-|]; try reflexivity; by apply H.
Qed.

Lemma call_balanced {A} (f : OS → A * OS) log :
  (∀ a, all_kinds [KSync; KIface; KHw; KAtu; KCfg; KMem; KReq; KPldr; KFuel] (log a) = true) →
  Steps (Keeps balanced) (call f log).
Proof.
  intros Hl. apply (ledger_quiet [] 0 None _ [COs; CTrace] [KSync; KIface; KHw; KAtu; KCfg; KMem; KReq; KPldr; KFuel]);
    [apply call_frame | | done | done].
  intros w. exists (log (f (w_os w)).1). split; [done | apply Hl].
Qed.

Ltac bal_leaf := first
  [ assumption
  | match goal with H : ∀ _, Steps _ _ |- _ => apply H end
  | solve [eauto 2 with keeps nocore]
  | eapply balanced_quiet;
      [solve [eauto 2 with frames nocore] | solve [eauto 2 with emits nocore]
      | vm_compute; reflexivity | vm_compute; reflexivity]
  | lazymatch goal with
    | |- Steps _ (upd_file _ _) => apply upd_file_balanced; frame_case
    | |- Steps _ (call _ _) => apply call_balanced; by intros []
    | |- Steps _ (emit _) => eapply balanced_quiet; [apply emit_frame | apply emit_emits | reflexivity | reflexivity]
    | |- Steps _ (modify _) => apply modify_balanced; [intros ?; agree_tac | reflexivity]
    end ].
Ltac bal_walk := steps_walk bal_leaf.

(** ** Reset *)
Lemma zap_list_ledger f kept rest :
  Hoare (λ w, balanced w ∧ Mappings (file_ctx f w) = kept ++ rest) (zap_list f kept rest) (λ _, balanced).
Proof.
  revert kept. induction rest as [|m rest IH]; intros kept; cbn [zap_list]; [by intros w []|].
  destruct (um_IsDmaBuf m).
  - eapply hoare_pre; [|apply IH]. intros w [HL E]. split; [exact HL|]. by rewrite <- app_assoc.
  - eapply (hoare_seq _ (λ w, ledger (map_assets m ++ []) 0 None w ∧ Mappings (file_ctx f w) = kept ++ rest)).
    { intros w [HL E]. split; [by apply (unlink_mapping [] 0 None f m kept rest)|]. rewrite upd_file_ctx. by rewrite decide_True. }
    eapply (hoare_seq _ (λ w, balanced w ∧ Mappings (file_ctx f w) = kept ++ rest)); [|apply IH].
    eapply (hoare_frame _ (λ w, Mappings (file_ctx f w) = kept ++ rest) [FMappings]);
      [apply destroy_mapping_ledger | eauto with frames | | done].
    intros w w' Ha. by rewrite (Ha FMappings eq_refl f : Mappings _ = Mappings _).
Qed.

Lemma zap_file_balanced f : Steps (Keeps balanced) (zap_file f).
Proof.
  apply hoare_keeps. unfold zap_file. eapply hoare_seq; [apply hoare_keeps; bal_leaf|].
  unfold TtGetFileContext. apply hoare_gets. intros c.
  eapply (hoare_seq _ balanced); [|apply hoare_keeps; bal_leaf].
  eapply hoare_pre; [|apply zap_list_ledger]. by intros w [HL <-].
Qed.
#[local] Hint Resolve zap_file_balanced : keeps.

Lemma zap_mappings_balanced : Steps (Keeps balanced) TtResetZapMappings.
Proof. unfold TtResetZapMappings. bal_walk. Qed.
#[local] Hint Resolve zap_mappings_balanced : keeps.

Lemma reset_config_write_balanced f : Steps (Keeps balanced) (reset_config_write f).
Proof. unfold reset_config_write. bal_walk. Qed.
Lemma reset_user_balanced f : Steps (Keeps balanced) (reset_user f).
Proof. unfold reset_user. bal_walk. Qed.
Lemma reset_asic_balanced f g : Steps (Keeps balanced) (reset_asic f g).
Proof. unfold reset_asic. bal_walk. Qed.
#[local] Hint Resolve reset_config_write_balanced reset_user_balanced reset_asic_balanced : keeps.
Lemma reset_flavor_balanced f g : Steps (Keeps balanced) (reset_flavor f g).
Proof. unfold reset_flavor. bal_walk. Qed.
#[local] Hint Resolve reset_flavor_balanced : keeps.
Lemma reset_device_balanced f r : Steps (Keeps balanced) (TtIoctlResetDevice f r).
Proof. unfold TtIoctlResetDevice. bal_walk. Qed.
#[local] Hint Resolve reset_device_balanced free_ex_balanced : keeps.

(** ** Dispatch *)
Lemma byte_balanced_quiet {A} r (m : M A) fp ks :
  Steps (Frame fp) m → Steps (Emits ks) m → cdisj (CReqs :: ledger_comps) fp = true → kmem KRes ks = false →
  Hoare (λ w, balanced w ∧ byte_buffer r w) m (λ _ w, balanced w ∧ byte_buffer r w).
Proof.
  intros Hf He Hd Hk. cbn in Hd. apply andb_true_iff in Hd as [Hr Hd].
  eapply hoare_frame; [eapply balanced_quiet; done | exact Hf | apply byte_buffer_reads |]. cbn. by rewrite Hr.
Qed.

Context `{!PoolLaws P}.

Lemma dispatch_balanced f r code :
  Hoare (λ w, balanced w ∧ byte_buffer r w) (dispatch_code f r code) (λ _, balanced).
Proof.
  assert (∀ m : M NTSTATUS, Hoare (λ w, balanced w ∧ byte_buffer r w) m (λ _, balanced) →
    Hoare (λ w, balanced w ∧ byte_buffer r w) (s ← m; mret (s, false)) (λ _, balanced)) as Hdone.
  { intros m Hm. eapply hoare_bind; [exact Hm | by intros s w]. }
  assert (∀ A (m : M A), Steps (Keeps balanced) m → Hoare (λ w, balanced w ∧ byte_buffer r w) m (λ _, balanced)) as Hk.
  { intros A m Hm w [HL _]. by apply Hm. }
  unfold dispatch_code, dispatch. cbv zeta.
  repeat match goal with |- Hoare _ (if ?b then _ else _) _ => apply hoare_if; intros _ end.
  all: match goal with
       | |- Hoare _ (mbind _ (TtIoctlAllocateDmaBuf _ _)) _ => apply Hdone, allocate_balanced
       | |- Hoare _ (mbind _ _) _ => apply Hdone, Hk; bal_leaf
       | |- Hoare _ (mret _) _ => by intros w []
       | |- _ => apply Hk; bal_leaf
       end.
Qed.

Lemma io_device_control_balanced f r code :
  Hoare (λ w, balanced w ∧ byte_buffer r w) (TtEvtIoDeviceControl f r code) (λ _, balanced).
Proof.
  unfold TtEvtIoDeviceControl.
  eapply (hoare_seq _ (λ w, balanced w ∧ byte_buffer r w)).
  { destruct (_ =? 6); eapply byte_balanced_quiet; eauto with frames emits. }
  eapply (hoare_bind _ (λ _ w, balanced w ∧ byte_buffer r w)).
  { eapply byte_balanced_quiet; eauto with frames emits. }
  intros g. apply hoare_if; intros _.
  - intros w [HL _]. revert HL. match goal with |- _ → balanced (?m w).2 => assert (Steps (Keeps balanced) m) as Hm by bal_walk end.
    apply Hm.
  - eapply hoare_bind; [apply dispatch_balanced|]. intros a. refine (proj1 (hoare_keeps _ _) _). bal_walk.
Qed.

Lemma caller_handler_balanced f r code :
  Hoare (λ w, balanced w ∧ byte_buffer r w) (caller_handler f r code) (λ _, balanced).
Proof.
  unfold caller_handler.
  repeat match goal with |- Hoare _ (if ?b then _ else _) _ => apply hoare_if; intros _ end;
    [| | apply pin_balanced |]; intros w [HL _]; [by apply map_balanced | by apply unmap_balanced | by apply unpin_balanced].
Qed.

Lemma caller_forward_balanced r :
  Hoare (λ w, balanced w ∧ byte_buffer r w) (caller_forward r) (λ b w, balanced w ∧ (b = false → byte_buffer r w)).
Proof.
  unfold caller_forward. eapply (hoare_bind _ (λ _ w, balanced w ∧ byte_buffer r w)).
  { eapply byte_balanced_quiet; [apply call_frame | by apply (call_emits _ _ []) | done..]. }
  intros s. apply hoare_if; intros _; [|by intros w []].
  eapply hoare_pre; [intros w Hw; exact (proj1 Hw)|].
  eapply (hoare_seq _ balanced); [apply hoare_keeps; bal_leaf|]. by intros w HL.
Qed.

Lemma caller_context_balanced ioctl f r code :
  Hoare (λ w, balanced w ∧ byte_buffer r w) (TtEvtIoInCallerContext ioctl f r code) (λ b w, balanced w ∧ (b = false → byte_buffer r w)).
Proof.
  unfold TtEvtIoInCallerContext. destruct f as [f|]; [|apply caller_forward_balanced].
  apply hoare_if; intros _; [apply caller_forward_balanced|].
  eapply hoare_seq; [eapply byte_balanced_quiet; eauto with frames emits|].
  eapply (hoare_bind _ (λ _ w, balanced w ∧ byte_buffer r w)); [eapply byte_balanced_quiet; eauto with frames emits|].
  intros g. unfold TtGetFileContext. apply hoare_gets. intros c. eapply hoare_pre; [intros w Hw; exact (proj1 Hw)|].
  apply hoare_gets. intros p. eapply hoare_pre; [intros w Hw; exact (proj1 Hw)|].
  eapply (hoare_bind _ (λ _, balanced)).
  - apply hoare_if; intros _; [by intros w []|]. apply hoare_if; intros _; [by intros w []|]. apply caller_handler_balanced.
  - intros s. eapply hoare_post; [|intros b w Hw; exact Hw].
    eapply (hoare_seq _ balanced); [apply hoare_keeps; bal_leaf|].
    eapply (hoare_seq _ balanced); [apply hoare_keeps; bal_leaf|]. by intros w HL.
Qed.

(** ** Process exit *)
Lemma process_exit_file_balanced p f : Steps (Keeps balanced) (process_exit_file p f).
Proof.
  pose proof (process_exit_balanced f) as H. unfold process_exit_file. bal_walk.
Qed.
#[local] Hint Resolve process_exit_file_balanced : keeps.
Lemma process_notify_balanced p : Steps (Keeps balanced) (process_notify_device p).
Proof. unfold process_notify_device. bal_walk. Qed.

(** ** Plug and play, power, removal *)
Lemma surprise_removal_balanced : Steps (Keeps balanced) TtEvtDeviceSurpriseRemoval.
Proof. unfold TtEvtDeviceSurpriseRemoval. bal_walk. Qed.

(** The DMA flags other than the account. *)
Lemma set_dma_balanced g :
  (∀ d, DmaBufBytes (g d) = DmaBufBytes d ∧ DmaBufLimitBytes (g d) = DmaBufLimitBytes d) →
  Steps (Keeps balanced) (set_dma g).
Proof.
  intros Hg w HL. unfold set_dma, modify. cbn [snd]. destruct (Hg (w_dma w)) as [H1 H2].
  apply (set_dma_ledger [] 0); [rewrite H1; apply HL | exact H2 | | exact HL].
  rewrite H2. intros E. apply (ld_limit _ _ _ _ HL E).
Qed.

Lemma dma_enabler_balanced : Steps (Keeps balanced) dma_enabler_init.
Proof.
  unfold dma_enabler_init.
  assert (∀ b, Steps (Keeps balanced) (set_dma (λ d, d <| DmaEnabler := b |>))) as H by (intros; by apply set_dma_balanced).
  bal_walk.
Qed.

Lemma dma_probe_balanced : Steps (Keeps balanced) dma_identity_probe.
Proof.
  refine (proj2 (hoare_keeps _ _) _). unfold dma_identity_probe. eapply hoare_seq; [by apply set_dma_balanced|].
  apply hoare_gets. intros d. eapply hoare_pre; [intros w Hw; exact (proj1 Hw)|]. unfold when.
  apply hoare_if; intros _; [|by intros w].
  eapply hoare_bind; [apply call_ledger; by intros []|]. intros [b|]; [|by intros w]. cbn beta.
  do 2 (apply hoare_gets; intros ?; eapply hoare_pre; [intros w Hw; exact (proj1 Hw)|]).
  intros w HL. change (resources (got RsCommonBuffer (Some b)) ++ []) with [ARes (RsCommonBuffer b)] in HL.
  apply object_delete_ledger. unfold set_dma, modify. cbn [snd].
  apply (set_dma_ledger [ARes (RsCommonBuffer b)] 0); [apply HL | done | apply HL | exact HL].
Qed.
#[local] Hint Resolve dma_enabler_balanced dma_probe_balanced : keeps.

Lemma prepare_blackhole_balanced : Steps (Keeps balanced) prepare_blackhole.
Proof. unfold prepare_blackhole. bal_walk. Qed.
#[local] Hint Resolve prepare_blackhole_balanced : keeps.
Lemma prepare_hardware_balanced pnp : Steps (Keeps balanced) (TtEvtDevicePrepareHardware pnp).
Proof. unfold TtEvtDevicePrepareHardware. bal_walk. Qed.

Lemma release_hardware_balanced : Steps (Keeps balanced) TtEvtDeviceReleaseHardware.
Proof.
  unfold TtEvtDeviceReleaseHardware.
  assert (Steps (Keeps balanced) (set_dma (λ d, d <| DmaIdentityKnown := false |> <| DmaIdentityMapped := false |>)))
    as H by (by apply set_dma_balanced).
  bal_walk.
Qed.

(** ** Handles *)

(** The context of a file object the framework has just made. *)
Definition fresh (f : Z) (w : World) : Prop := file_ctx f w = fc_zero.

Lemma create_enter f g p w :
  fresh f w → balanced w →
  balanced (emit (EvGet (RsProcess p)) (upd_file f (λ c, c <| OpenResetGen := g |> <| CreatorProcess := Some p |>) w).2).2.
Proof.
  intros Hf HL.
  change (balanced (upd_file f (λ c, c <| OpenResetGen := g |> <| CreatorProcess := Some p |>) (emit (EvGet (RsProcess p)) w).2).2).
  apply (upd_file_ledger [ARes (RsProcess p)]); [done | | | | by apply emit_get_ledger].
  - intros a. change (file_ctx f (emit (EvGet (RsProcess p)) w).2) with (file_ctx f w). rewrite Hf. cbn. lia.
  - intros m. change (file_ctx f (emit (EvGet (RsProcess p)) w).2) with (file_ctx f w). rewrite Hf. cbn. by intros ?%elem_of_nil.
  - intros m. change (file_ctx f (emit (EvGet (RsProcess p)) w).2) with (file_ctx f w). rewrite Hf. cbn. by intros ?%elem_of_nil.
Qed.

Definition empty_lists (f : Z) (w : World) : Prop :=
  Mappings (file_ctx f w) = [] ∧ Pinnings (file_ctx f w) = [] ∧ DmaBufs (file_ctx f w) = ∅.

Lemma init_memory_balanced f s w :
  empty_lists f w → balanced w → balanced (TtFileContextInitMemory f s w).2.
Proof.
  intros (Hm & Hp & Hd) HL. unfold TtFileContextInitMemory. run.
  apply (upd_file_ledger []); [cbn; by rewrite Hd | | | | exact HL].
  - intros a. unfold file_assets. rewrite Hm, Hp. done.
  - intros m. cbn. by intros ?%elem_of_nil.
  - intros m. cbn. by intros ?%elem_of_nil.
Qed.

Lemma file_create_balanced r f s : Hoare (λ w, balanced w ∧ fresh f w) (TtEvtDeviceFileCreate r f s) (λ _, balanced).
Proof.
  unfold TtEvtDeviceFileCreate. apply hoare_gets. intros g. apply hoare_gets. intros p.
  apply hoare_assoc. eapply (hoare_seq _ (λ w, balanced w ∧ empty_lists f w)).
  - intros w [[[HL Hf] _] _]. split; [by apply create_enter|].
    unfold empty_lists. run. change (file_ctx f (emit ?e ?w0).2) with (file_ctx f w0).
    rewrite upd_file_ctx, decide_True by done. rewrite Hf. done.
  - eapply (hoare_bind _ (λ _, balanced)); [intros w [HL He]; by apply init_memory_balanced|].
    intros s'. refine (proj1 (hoare_keeps _ _) _). bal_walk.
Qed.

Lemma creator_deref_balanced f : Steps (Keeps balanced) (file_creator_deref f).
Proof.
  refine (proj2 (hoare_keeps _ _) _). unfold file_creator_deref, TtGetFileContext. apply hoare_gets. intros c.
  destruct (CreatorProcess c) as [p|] eqn:E; [|by intros w []].
  intros w [HL <-].
  change (balanced (emit (EvPut (RsProcess p)) (upd_file f (λ c, c <| CreatorProcess := None |>) w).2).2).
  apply emit_put_ledger. apply (upd_file_ledger []); [done | | | | exact HL].
  - intros a. unfold file_assets. rewrite E. cbn [Mappings Pinnings CreatorProcess upd set_CreatorProcess opt_assets from_option].
    autorewrite with cnt. lia.
  - intros m. cbn. apply HL.
  - intros m. cbn. apply HL.
Qed.

Lemma file_cleanup_balanced f :
  Hoare (λ w, balanced w ∧ fc_Lock (file_ctx f w) = true) (TtEvtFileCleanup f) (λ _, balanced).
Proof.
  assert (Reads [FLock] (λ w, fc_Lock (file_ctx f w) = true)) as Hr.
  { intros w w' Ha. by rewrite (Ha FLock eq_refl f : fc_Lock _ = fc_Lock _). }
  unfold TtEvtFileCleanup.
  do 4 (eapply (hoare_seq _ (λ w, balanced w ∧ fc_Lock (file_ctx f w) = true));
    [eapply (hoare_frame balanced (λ w, fc_Lock (file_ctx f w) = true) [FLock] _ _ (λ _, balanced));
       [refine (proj1 (hoare_keeps _ _) _); bal_leaf | eauto with frames | exact Hr | done]|]).
  eapply (hoare_seq _ balanced); [eapply hoare_post; [apply file_cleanup_ok|]; intros ? w [[[HL _] _] _]; exact HL|].
  eapply (hoare_seq _ balanced); [bal_leaf|]. eapply (hoare_seq _ balanced); [bal_leaf|]. apply creator_deref_balanced.
Qed.
End spec.
