(* ===== verification/Handles.v ===== *)
(** * Handles and what they own

    Every handler works for one handle: it changes the lists, slots and window
    ownership of that handle only.  So a handle that is not open owns nothing. *)
From S2P Require Import Prelude Abi Platform Frame Trace Sim IoSpec PciConfig Blackhole Iatu.
From S2P Require Import IatuSpec Tlb Memory Ledger MemorySpec Locks Power Telemetry Reset Ioctl.
From S2P Require Import Device Balance.

Definition handle_comps : list Comp := [CFileList; CTlb; FLock; FOnList; FMappings; FPinnings; FDmaBufs].

Section spec.
Context {P : Platform}.

(** Working for handle [f]. *)
Definition Home (f : Z) : relation World := λ w w',
  FileList w' = FileList w
  ∧ (∀ g, fc_Lock (file_ctx g w') = fc_Lock (file_ctx g w) ∧ OnDeviceList (file_ctx g w') = OnDeviceList (file_ctx g w))
  ∧ (∀ g, g ≠ f → Mappings (file_ctx g w') = Mappings (file_ctx g w)
      ∧ Pinnings (file_ctx g w') = Pinnings (file_ctx g w) ∧ DmaBufs (file_ctx g w') = DmaBufs (file_ctx g w))
  ∧ (∀ id g, tlb_owner (w_tlb w') id = Some g → g = f ∨ tlb_owner (w_tlb w) id = Some g)
  ∧ length (TlbOwner (w_tlb w')) = length (TlbOwner (w_tlb w)).

#[global] Instance Home_preorder f : PreOrder (Home f).
Proof.
  split; [intros w; unfold Home; naive_solver|].
  intros a b c (L1 & O1 & M1 & T1 & N1) (L2 & O2 & M2 & T2 & N2). split_and!.
  - congruence.
  - intros g. destruct (O1 g), (O2 g). split; congruence.
  - intros g Hg. destruct (M1 g Hg) as (? & ? & ?), (M2 g Hg) as (? & ? & ?). split_and!; congruence.
  - intros id g [?|?]%T2; [by left|]. by apply T1.
  - congruence.
Qed.

Lemma home_agree f w w' : (∀ c, cmem c handle_comps = true → agree c w w') → Home f w w'.
Proof.
  intros Ha. unfold Home. pose proof (Ha CTlb eq_refl) as Et. cbn in Et. rewrite Et. split_and!.
  - exact (Ha CFileList eq_refl).
  - intros g. split; [exact (Ha FLock eq_refl g) | exact (Ha FOnList eq_refl g)].
  - intros g _. split_and!; [exact (Ha FMappings eq_refl g) | exact (Ha FPinnings eq_refl g) | exact (Ha FDmaBufs eq_refl g)].
  - by right.
  - done.
Qed.

Lemma home_frame {A} f fp (m : M A) : Steps (Frame fp) m → cdisj handle_comps fp = true → Steps (Home f) m.
Proof. intros Hm Hd. exact (steps_local (Home f) handle_comps fp m (home_agree f) Hm Hd). Qed.

Lemma home_upd_file f g :
  (∀ c, fc_Lock (g c) = fc_Lock c ∧ OnDeviceList (g c) = OnDeviceList c) → Steps (Home f) (upd_file f g).
Proof.
  intros Hg w. unfold Home. split_and!; [done | | | by right | done].
  - intros h. rewrite upd_file_ctx. destruct (decide (f = h)) as [<-|]; [apply Hg | done].
  - intros h Hn. rewrite upd_file_ctx. by rewrite decide_False.
Qed.

Lemma home_modify f g : (∀ w c, cmem c handle_comps = true → agree c w (g w)) → Steps (Home f) (modify g).
Proof. intros Ha w. apply home_agree, Ha. Qed.

Lemma home_upd_tlb f id b o : (∀ g, o = Some g → g = f) → Steps (Home f) (upd_tlb id b o).
Proof.
  intros Ho w. unfold Home. split_and!; [done | done | done | | apply length_insert].
  intros j g. unfold tlb_owner, upd_tlb, modify, tlb_set. cbn.
  destruct (decide (Z.to_nat id = Z.to_nat j)) as [E|E].
  - rewrite <- E. destruct (decide (Z.to_nat id < length (TlbOwner (w_tlb w)))%nat).
    + rewrite list_lookup_insert_eq by done. cbn. intros ->. left. by apply Ho.
    + rewrite list_insert_ge by lia. by right.
  - rewrite list_lookup_insert_ne by done. by right.
Qed.

Create HintDb home discriminated.
Hint Constants Opaque : home.

Ltac home_leaf := first
  [ assumption
  | solve [eauto 2 with home nocore]
  | eapply home_frame; [solve [eauto 2 with frames nocore] | vm_compute; reflexivity]
  | lazymatch goal with
    | |- Steps _ (upd_file _ _) => apply home_upd_file; intros []; by split
    | |- Steps _ (upd_tlb _ _ _) => apply home_upd_tlb; by intros ? [=]
    | |- Steps _ (modify _) => apply home_modify; intros ?; agree_tac
    end ].
Ltac home_walk := steps_walk home_leaf.

Lemma set_dma_slot_home f i o : Steps (Home f) (set_dma_slot f i o).
Proof. unfold set_dma_slot. home_walk. Qed.
#[local] Hint Resolve set_dma_slot_home : home.
Lemma dma_alloc_finish_home f r n i b l a t : Steps (Home f) (dma_alloc_finish f r n i b l a t).
Proof. unfold dma_alloc_finish. home_walk. Qed.
#[local] Hint Resolve dma_alloc_finish_home : home.
Lemma dma_alloc_buffer_home f r n i g : Steps (Home f) (dma_alloc_buffer f r n i g).
Proof. unfold dma_alloc_buffer. home_walk. Qed.
#[local] Hint Resolve dma_alloc_buffer_home : home.
Lemma allocate_dma_home f r : Steps (Home f) (TtIoctlAllocateDmaBuf f r).
Proof. unfold TtIoctlAllocateDmaBuf. home_walk. Qed.
Lemma free_ex_home f r : Steps (Home f) (TtIoctlFreeDmaBufEx f r).
Proof. unfold TtIoctlFreeDmaBufEx. home_walk. Qed.
Lemma map_view_home f r t m : Steps (Home f) (map_view f r t m).
Proof. unfold map_view. home_walk. Qed.
#[local] Hint Resolve map_view_home : home.
Lemma map_home f r : Steps (Home f) (TtIoctlMap f r).
Proof. unfold TtIoctlMap. home_walk. Qed.
Lemma unmap_home f r : Steps (Home f) (TtIoctlUnmap f r).
Proof. unfold TtIoctlUnmap. home_walk. Qed.
Lemma pin_finish_home f r g n a l p : Steps (Home f) (pin_finish f r g n a l p).
Proof. unfold pin_finish. home_walk. Qed.
#[local] Hint Resolve pin_finish_home : home.
Lemma pin_direct_home f r g n p : Steps (Home f) (pin_direct f r g n p).
Proof. unfold pin_direct. home_walk. Qed.
#[local] Hint Resolve pin_direct_home : home.
Lemma pin_home f r : Steps (Home f) (TtIoctlPinPages f r).
Proof. unfold TtIoctlPinPages. home_walk. Qed.
Lemma unpin_home f r : Steps (Home f) (TtIoctlUnpinPages f r).
Proof. unfold TtIoctlUnpinPages. home_walk. Qed.
Lemma drain_mappings_home f l : Steps (Home f) (drain_mappings f l).
Proof. revert f. induction l; intros f; cbn [drain_mappings]; home_walk. Qed.
Lemma drain_pinnings_home f l : Steps (Home f) (drain_pinnings f l).
Proof. revert f. induction l; intros f; cbn [drain_pinnings]; home_walk. Qed.
#[local] Hint Resolve drain_mappings_home drain_pinnings_home : home.
Lemma process_exit_home f : Steps (Home f) (TtMemoryProcessExit f).
Proof. unfold TtMemoryProcessExit. home_walk. Qed.
Lemma free_dma_slot_home f i : Steps (Home f) (free_dma_slot f i).
Proof. unfold free_dma_slot. home_walk. Qed.
Lemma free_tlb_of_home f i : Steps (Home f) (free_tlb_of f i).
Proof. unfold free_tlb_of. home_walk. Qed.
#[local] Hint Resolve free_dma_slot_home free_tlb_of_home : home.
Lemma file_memory_cleanup_home f : Steps (Home f) (TtMemoryFileCleanup f).
Proof. unfold TtMemoryFileCleanup. home_walk. Qed.
Lemma zap_list_home f k r : Steps (Home f) (zap_list f k r).
Proof. revert k. induction r as [|m r IH]; intros k; cbn [zap_list]; home_walk; apply IH. Qed.
#[local] Hint Resolve zap_list_home : home.
Lemma zap_file_home f : Steps (Home f) (zap_file f).
Proof. unfold zap_file. home_walk. Qed.
Lemma tlb_claim_home f s n : Steps (Home f) (tlb_claim f s n).
Proof.
  unfold tlb_claim. apply steps_bind; [apply _ | home_walk |]. intros t. destruct (tlb_first_free _ _ _); [|home_walk].
  apply steps_bind; [apply _ | | home_walk]. apply home_upd_tlb. by intros ? [= <-].
Qed.
#[local] Hint Resolve tlb_claim_home : home.
Lemma allocate_tlb_home f r : Steps (Home f) (TtIoctlAllocateTlb f r).
Proof. unfold TtIoctlAllocateTlb. home_walk. Qed.
Lemma free_tlb_home f r : Steps (Home f) (TtIoctlFreeTlb f r).
Proof. unfold TtIoctlFreeTlb. home_walk. Qed.

(** ** The handle invariant *)
Record handles_ok (w : World) : Prop := {
  ho_open f : f ∈ FileList w → fc_Lock (file_ctx f w) = true ∧ OnDeviceList (file_ctx f w) = true;
  ho_closed f : f ∉ FileList w → OnDeviceList (file_ctx f w) = false ∧ empty_lists f w;
  ho_tlb id f : tlb_owner (w_tlb w) id = Some f → f ∈ FileList w;
  ho_windows : length (TlbOwner (w_tlb w)) = Z.to_nat TT_TLB_TOTAL
}.
Definition handles (fl : list Z) (w : World) : Prop := handles_ok w ∧ FileList w = fl.

Lemma handles_reads fl : Reads handle_comps (handles fl).
Proof.
  intros w w' Ha. pose proof (Ha CFileList eq_refl) as El. pose proof (Ha CTlb eq_refl) as Et.
  pose proof (Ha FLock eq_refl) as E1. pose proof (Ha FOnList eq_refl) as E2. pose proof (Ha FMappings eq_refl) as E3.
  pose proof (Ha FPinnings eq_refl) as E4. pose proof (Ha FDmaBufs eq_refl) as E5. cbn in El, Et, E1, E2, E3, E4, E5.
  intros [[H1 H2 H3 H4] Hl]. split; [|congruence]. split.
  - intros f. rewrite El, E1, E2. apply H1.
  - intros f. unfold empty_lists. rewrite El, E2, E3, E4, E5. apply H2.
  - intros id f. rewrite El, Et. apply H3.
  - by rewrite Et.
Qed.

Lemma home_keeps {A} f fl (m : M A) : f ∈ fl → Steps (Home f) m → Steps (Keeps (handles fl)) m.
Proof.
  intros Hf Hm w [[H1 H2 H3 H4] Hl]. destruct (Hm w) as (El & Eo & Em & Et & En). split; [|congruence].
  subst fl. split.
  - intros g. rewrite El. intros Hg. destruct (Eo g) as [-> ->]. by apply H1.
  - intros g. rewrite El. intros Hg. destruct (Eo g) as [_ ->]. destruct (H2 g Hg) as [? He]. split; [done|].
    destruct (Em g) as (E3 & E4 & E5); [by intros ->|]. unfold empty_lists in *. by rewrite E3, E4, E5.
  - intros id g [->|Ht]%Et; rewrite El; [done | by eapply H3].
  - by rewrite En.
Qed.

#[local] Hint Resolve allocate_dma_home free_ex_home map_home unmap_home pin_home unpin_home process_exit_home
  zap_file_home allocate_tlb_home free_tlb_home : home.

Section open.
Context (f : Z) (fl : list Z) (Hf : f ∈ fl).

Ltac hk_leaf := first
  [ assumption
  | match goal with H : ∀ _, Steps _ _ |- _ => apply H end
  | eapply (steps_keeps (handles fl)); [apply handles_reads | solve [eauto 2 with frames nocore] | vm_compute; reflexivity]
  | match goal with
    | |- Steps _ (modify _) => eapply (modify_keeps (handles fl)); [apply handles_reads | intros ?; agree_tac]
    end
  | solve [apply (home_keeps f fl); [exact Hf | eauto 2 with home nocore]] ].
Ltac hk_walk := steps_walk hk_leaf.

(** A pass over the open handles. *)
Lemma open_pass (body : Z → M ()) :
  (∀ g, Steps (Home g) (body g)) →
  Steps (Keeps (handles fl)) (acquire FileListLock;; fs ← gets FileList; for_each fs body;; release FileListLock).
Proof.
  intros Hb. clear f Hf. refine (proj2 (hoare_keeps _ _) _).
  eapply (hoare_seq _ (handles fl)); [refine (proj1 (hoare_keeps _ _) _); hk_leaf|].
  apply hoare_gets. intros fs. eapply (hoare_pre _ (λ w, handles fl w ∧ fs = fl)); [intros w [[Hw Hl] <-]; split; [by split | done]|].
  apply hoare_pure. intros ->.
  eapply (hoare_seq _ (handles fl)); [|refine (proj1 (hoare_keeps _ _) _); hk_leaf].
  refine (proj1 (hoare_keeps _ _) _).
  assert (∀ l, (∀ g, g ∈ l → g ∈ fl) → Steps (Keeps (handles fl)) (for_each l body)) as H; [|by apply H].
  induction l as [|g l IH]; intros Hl; cbn [for_each]; [apply steps_ret; apply _|].
  apply steps_bind; [apply _ | | intros _; apply IH; set_solver]. apply (home_keeps g); [set_solver | apply Hb].
Qed.

Lemma zap_mappings_handles : Steps (Keeps (handles fl)) TtResetZapMappings.
Proof. apply open_pass, zap_file_home. Qed.

Lemma process_exit_file_home p g : Steps (Home g) (process_exit_file p g).
Proof. unfold process_exit_file. home_walk. Qed.
Lemma process_notify_handles p : Steps (Keeps (handles fl)) (process_notify_device p).
Proof.
  unfold process_notify_device. apply steps_bind; [apply _ | hk_leaf | intros _].
  pose proof (open_pass (process_exit_file p) (process_exit_file_home p)) as Hp.
  intros w Hw. apply Hp in Hw. revert Hw. unfold Keeps. set (m := TtResetRelease).
  assert (Steps (Keeps (handles fl)) m) as Hm by (unfold m; hk_leaf). apply Hm.
Qed.

Lemma reset_flavor_handles g flags : Steps (Keeps (handles fl)) (reset_flavor g flags).
Proof.
  pose proof zap_mappings_handles. unfold reset_flavor, reset_config_write, reset_user, reset_asic. hk_walk.
Qed.
Lemma reset_device_handles g r : Steps (Keeps (handles fl)) (TtIoctlResetDevice g r).
Proof. pose proof reset_flavor_handles. unfold TtIoctlResetDevice. hk_walk. apply reset_flavor_handles. Qed.

Lemma surprise_keeps : Steps (Keeps (handles fl)) TtEvtDeviceSurpriseRemoval.
Proof. pose proof zap_mappings_handles. unfold TtEvtDeviceSurpriseRemoval. hk_walk. Qed.

Lemma dispatch_handles r code : Steps (Keeps (handles fl)) (dispatch_code f r code).
Proof. pose proof (reset_device_handles (Some f) r). unfold dispatch_code, dispatch. hk_walk. Qed.

Lemma io_device_control_handles r code : Steps (Keeps (handles fl)) (TtEvtIoDeviceControl f r code).
Proof. pose proof (dispatch_handles r code). unfold TtEvtIoDeviceControl. hk_walk. Qed.

Lemma caller_context_handles b r code : Steps (Keeps (handles fl)) (TtEvtIoInCallerContext b (Some f) r code).
Proof. unfold TtEvtIoInCallerContext, caller_forward, caller_handler. hk_walk. Qed.
End open.

(** ** Opening and closing a handle

    The invariant for every handle but [f], and the state of [f]. *)
Record others_ok (f : Z) (w : World) : Prop := {
  oo_open g : g ≠ f → g ∈ FileList w → fc_Lock (file_ctx g w) = true ∧ OnDeviceList (file_ctx g w) = true;
  oo_closed g : g ≠ f → g ∉ FileList w → OnDeviceList (file_ctx g w) = false ∧ empty_lists g w;
  oo_tlb id g : tlb_owner (w_tlb w) id = Some g → g = f ∨ g ∈ FileList w;
  oo_windows : length (TlbOwner (w_tlb w)) = Z.to_nat TT_TLB_TOTAL
}.

Lemma others_of_handles f w : handles_ok w → others_ok f w.
Proof.
  intros [H1 H2 H3 H4]. split; [intros g _; apply H1 | intros g _; apply H2 | | done]. intros id g Ht. right. by eapply H3.
Qed.

Lemma handles_of_others f w :
  others_ok f w →
  (f ∈ FileList w → fc_Lock (file_ctx f w) = true ∧ OnDeviceList (file_ctx f w) = true) →
  (f ∉ FileList w → OnDeviceList (file_ctx f w) = false ∧ empty_lists f w ∧ ∀ id, tlb_owner (w_tlb w) id ≠ Some f) →
  handles_ok w.
Proof.
  intros [H1 H2 H3 H4] Ho Hc. split; [| | | done].
  - intros g. destruct (decide (g = f)) as [->|Hn]; auto.
  - intros g Hg. destruct (decide (g = f)) as [->|Hn]; [|auto]. by destruct (Hc Hg) as (? & ? & ?).
  - intros id g Ht. destruct (H3 id g Ht) as [->|]; [|done].
    destruct (decide (f ∈ FileList w)) as [|Hn]; [done|]. destruct (Hc Hn) as (_ & _ & Hu). by destruct (Hu id).
Qed.

Lemma others_home f w w' : Home f w w' → others_ok f w → others_ok f w'.
Proof.
  intros (El & Eo & Em & Et & En) [H1 H2 H3 H4]. split.
  - intros g Hn. rewrite El. destruct (Eo g) as [-> ->]. by apply H1.
  - intros g Hn. rewrite El. intros Hg. destruct (Eo g) as [_ ->]. destruct (H2 g Hn Hg) as [? He]. split; [done|].
    destruct (Em g Hn) as (E3 & E4 & E5). unfold empty_lists in *. by rewrite E3, E4, E5.
  - intros id g [->|Ht]%Et; [by left|]. rewrite El. by eapply H3.
  - by rewrite En.
Qed.

Lemma others_upd_file f g w : others_ok f w → others_ok f (upd_file f g w).2.
Proof.
  intros [H1 H2 H3 H4]. split; [| | done | done].
  - intros h Hn. rewrite !upd_file_ctx, !decide_False by done. by apply H1.
  - intros h Hn. unfold empty_lists. rewrite !upd_file_ctx, !decide_False by done. by apply H2.
Qed.

Lemma others_list f g w :
  (∀ h, h ≠ f → h ∈ g (FileList w) ↔ h ∈ FileList w) → others_ok f w → others_ok f (upd_list g w).2.
Proof.
  intros Hg [H1 H2 H3 H4]. split; [| | | done].
  - intros h Hn. cbn. rewrite Hg by done. by apply H1.
  - intros h Hn. cbn. rewrite Hg by done. by apply H2.
  - intros id h Ht. cbn. destruct (decide (h = f)) as [->|Hn]; [by left|]. right. apply Hg; [done|].
    by destruct (H3 id h Ht).
Qed.

(** What is known of [f] itself: on the list or not, its flags, its lists, no window. *)
Record self (f : Z) (listed lock on : bool) (w : World) : Prop := {
  sf_others : others_ok f w;
  sf_listed : f ∈ FileList w ↔ listed = true;
  sf_lock : fc_Lock (file_ctx f w) = lock;
  sf_on : OnDeviceList (file_ctx f w) = on;
  sf_empty : empty_lists f w;
  sf_tlb id : tlb_owner (w_tlb w) id ≠ Some f
}.

Lemma self_reads f a b c : Reads handle_comps (self f a b c).
Proof.
  intros w w' Ha. pose proof (home_agree f w w' Ha) as Hh.
  pose proof (Ha CFileList eq_refl) as El. pose proof (Ha CTlb eq_refl) as Et.
  pose proof (Ha FLock eq_refl f) as E1. pose proof (Ha FOnList eq_refl f) as E2. pose proof (Ha FMappings eq_refl f) as E3.
  pose proof (Ha FPinnings eq_refl f) as E4. pose proof (Ha FDmaBufs eq_refl f) as E5. cbn in El, Et, E1, E2, E3, E4, E5.
  intros [H1 H2 H3 H4 H5 H6]. split; unfold empty_lists in *; rewrite ?El, ?Et, ?E1, ?E2, ?E3, ?E4, ?E5; try done.
  by eapply others_home.
Qed.

Lemma self_handles f a b c w :
  self f a b c w → (a = true → b = true ∧ c = true) → (a = false → c = false) → handles_ok w.
Proof.
  intros [H1 H2 H3 H4 H5 H6] Ht Hf. apply (handles_of_others f); [done | |].
  - intros Hin%H2. destruct (Ht Hin) as [-> ->]. done.
  - intros Hin. assert (a = false) as Ea by (destruct a; [by destruct Hin; apply H2 | done]). by rewrite (Hf Ea) in H4.
Qed.

Lemma self_keeps {A} f a b c (m : M A) fp :
  Steps (Frame fp) m → cdisj handle_comps fp = true → Hoare (self f a b c) m (λ _, self f a b c).
Proof. intros Hf Hd. exact (steps_keeps _ _ _ m (self_reads f a b c) Hf Hd). Qed.

Lemma file_create_handles r f s :
  Hoare (λ w, handles_ok w ∧ fresh f w ∧ f ∉ FileList w) (TtEvtDeviceFileCreate r f s) (λ _, handles_ok).
Proof.
  unfold TtEvtDeviceFileCreate. apply hoare_gets. intros g. apply hoare_gets. intros p.
  eapply (hoare_seq _ (self f false false false)).
  { intros w [[[Hw [Hf Hl]] _] _]. split.
    - apply others_upd_file, others_of_handles, Hw.
    - done.
    - rewrite upd_file_ctx, decide_True by done. cbn. by rewrite Hf.
    - rewrite upd_file_ctx, decide_True by done. cbn. by rewrite Hf.
    - unfold empty_lists. rewrite upd_file_ctx, decide_True by done. cbn. by rewrite Hf.
    - intros id Hid. by apply Hl, (ho_tlb _ Hw id). }
  eapply (hoare_seq _ (self f false false false)); [eapply self_keeps; [apply emit_frame | done]|].
  eapply (hoare_bind _ (λ s', self f false (NT_SUCCESS s') false)).
  { intros w [H1 H2 H3 H4 H5 H6]. unfold TtFileContextInitMemory. run. split; try done.
    - by apply others_upd_file.
    - by rewrite upd_file_ctx, decide_True.
    - by rewrite upd_file_ctx, decide_True.
    - unfold empty_lists. by rewrite upd_file_ctx, decide_True. }
  intros s'. eapply (hoare_seq _ handles_ok).
  - unfold when. destruct (NT_SUCCESS s').
    + eapply (hoare_seq _ (self f false true false)); [eapply self_keeps; [eauto with frames | done]|].
      eapply (hoare_seq _ (self f false true false)); [eapply self_keeps; [eauto with frames | done]|].
      eapply (hoare_seq _ (self f true true false)).
      { intros w [H1 H2 H3 H4 H5 H6]. split; try done; [|cbn; set_solver].
        apply others_list; [|done]. intros h Hn. set_solver. }
      eapply (hoare_seq _ (self f true true true)).
      { intros w [H1 H2 H3 H4 H5 H6]. split; try done.
        - by apply others_upd_file.
        - by rewrite upd_file_ctx, decide_True.
        - by rewrite upd_file_ctx, decide_True.
        - unfold empty_lists. by rewrite upd_file_ctx, decide_True. }
      eapply (hoare_seq _ (self f true true true)); [eapply self_keeps; [eauto with frames | done]|].
      eapply hoare_post; [eapply self_keeps; [eauto with frames | done]|].
      intros ? w Hw. by apply (self_handles f true true true w Hw).
    + intros w Hw. by apply (self_handles f false false false w Hw).
  - intros w Hw. exact (proj1 (steps_keeps (handles (FileList w)) _ _ _ (handles_reads _) (WdfRequestComplete_frame r s') eq_refl w (conj Hw eq_refl))).
Qed.

(** The cleanup of an open handle. *)
Definition closing (f : Z) (w : World) : Prop :=
  others_ok f w ∧ f ∉ FileList w ∧ OnDeviceList (file_ctx f w) = false ∧ fc_Lock (file_ctx f w) = true.

Lemma closing_reads f : Reads handle_comps (closing f).
Proof.
  intros w w' Ha. pose proof (home_agree f w w' Ha) as Hh.
  pose proof (Ha CFileList eq_refl) as El. pose proof (Ha FLock eq_refl f) as E1. pose proof (Ha FOnList eq_refl f) as E2.
  cbn in El, E1, E2. unfold closing. rewrite El, E1, E2. intros (H1 & H2 & H3). split; [|done]. by eapply others_home.
Qed.

Lemma closing_home f w w' : Home f w w' → closing f w → closing f w'.
Proof.
  intros Hh (H1 & H2 & H3 & H4). destruct (Hh) as (El & Eo & _). destruct (Eo f) as [E1 E2].
  unfold closing. rewrite El, E1, E2. split; [|done]. by eapply others_home.
Qed.

Definition opened (f : Z) (w : World) : Prop :=
  others_ok f w ∧ fc_Lock (file_ctx f w) = true ∧ OnDeviceList (file_ctx f w) = true.

Lemma opened_reads f : Reads handle_comps (opened f).
Proof.
  intros w w' Ha. pose proof (home_agree f w w' Ha) as Hh.
  pose proof (Ha FLock eq_refl f) as E1. pose proof (Ha FOnList eq_refl f) as E2.
  cbn in E1, E2. unfold opened. rewrite E1, E2. intros (H1 & H2). split; [|done]. by eapply others_home.
Qed.

Lemma file_delist_closing f : Hoare (opened f) (file_delist f) (λ _, closing f).
Proof.
  unfold file_delist, TtGetFileContext. apply hoare_gets. intros c. destruct (OnDeviceList c) eqn:E; cbn [when].
  2: { intros w [(_ & _ & Hon) <-]. congruence. }
  eapply (hoare_seq _ (opened f)).
  { eapply hoare_pre; [intros w Hw; exact (proj1 Hw)|]. refine (proj1 (hoare_keeps _ _) _).
    exact (steps_keeps _ _ _ _ (opened_reads f) (acquire_frame FileListLock) eq_refl). }
  eapply (hoare_seq _ (λ w, opened f w ∧ f ∉ FileList w)).
  { intros w (H1 & H2). split; [split; [|exact H2]|].
    - apply others_list; [intros h Hn; rewrite list_elem_of_filter; tauto | exact H1].
    - change (f ∉ filter (λ g, g ≠ f) (FileList w)). rewrite list_elem_of_filter. tauto. }
  eapply (hoare_seq _ (closing f)).
  { intros w [(H1 & H2 & H3) Hn]. unfold closing. split_and!; [by apply others_upd_file | done | |];
      by rewrite upd_file_ctx, decide_True. }
  refine (proj1 (hoare_keeps _ _) _).
  exact (steps_keeps _ _ _ _ (closing_reads f) (release_frame FileListLock) eq_refl).
Qed.

(** The cleanup of an open handle leaves it closed and empty. *)
Lemma file_memory_cleanup_closes f :
  Hoare (λ w, balanced w ∧ closing f w) (TtMemoryFileCleanup f) (λ _, self f false true false).
Proof.
  intros w [HL Hc]. pose proof Hc as (H1 & H2 & H3 & H4).
  destruct (file_cleanup_ok f w (conj HL H4)) as [[[_ [Em Ep]] Es] Ht].
  pose proof (closing_home _ _ _ (file_memory_cleanup_home f w) Hc) as (G1 & G2 & G3 & G4).
  split; [exact G1 | | exact G4 | exact G3 | by split_and! | ].
  - split; [done | discriminate].
  - intros id Hid. pose proof (oo_windows _ _ G1) as Hn. unfold tlb_owner in *.
    destruct (TlbOwner _ !! Z.to_nat id) as [o|] eqn:E; [|done]. apply lookup_lt_Some in E as Hlt. rewrite Hn in Hlt.
    unfold TT_TLB_TOTAL in *. apply (Ht (Z.of_nat (Z.to_nat id))); [lia|]. rewrite Nat2Z.id, E. exact Hid.
Qed.

Lemma closing_step {A} (m : M A) f fp ks (Q : Z → World → Prop) :
  Reads handle_comps (Q f) → Steps (Frame fp) m → Steps (Emits ks) m →
  cdisj handle_comps fp = true → cdisj ledger_comps fp = true → kmem KRes ks = false →
  Hoare (λ w, balanced w ∧ Q f w) m (λ _ w, balanced w ∧ Q f w).
Proof.
  intros Hr Hf He H1 H2 H3 w [HL HQ]. split; [exact (balanced_quiet m fp ks Hf He H2 H3 w HL)|].
  exact (steps_keeps _ _ _ m Hr Hf H1 w HQ).
Qed.

Lemma delist_balanced f : Hoare (λ w, balanced w ∧ opened f w) (file_delist f) (λ _ w, balanced w ∧ closing f w).
Proof.
  intros w [HL Hw]. split; [|by apply file_delist_closing].
  exact (balanced_quiet _ _ _ (file_delist_frame f) (file_delist_emits f) eq_refl eq_refl w HL).
Qed.

Lemma file_cleanup_self f :
  Hoare (λ w, balanced w ∧ opened f w) (TtEvtFileCleanup f) (λ _, self f false true false).
Proof.
  unfold TtEvtFileCleanup.
  eapply hoare_seq; [apply (closing_step _ f _ _ opened (opened_reads f) TtResetAcquireShared_frame TtResetAcquireShared_emits); reflexivity|].
  eapply hoare_seq; [apply (closing_step _ f _ _ opened (opened_reads f) (noc_cleanup_frame f) (noc_cleanup_emits f)); reflexivity|].
  eapply hoare_seq; [apply (closing_step _ f _ _ opened (opened_reads f) (TtLocksReleaseAll_frame f) (TtLocksReleaseAll_emits f)); reflexivity|].
  eapply hoare_seq; [apply delist_balanced|]. eapply hoare_seq; [apply file_memory_cleanup_closes|].
  eapply hoare_seq; [apply (self_keeps f _ _ _ _ _ TtResetRelease_frame eq_refl)|].
  eapply hoare_seq; [apply (self_keeps f _ _ _ _ _ (file_power_off_frame f) eq_refl)|].
  apply (self_keeps f _ _ _ _ _ (file_creator_deref_frame f) eq_refl).
Qed.

(** The pool at start has no owners. *)
Lemma pool_init_handles w b : handles_ok w → handles_ok (w <| w_tlb := tlb_pool_init b |>).
Proof.
  intros [H1 H2 H3 H4]. split; [exact H1 | exact H2 | | by cbn].
  intros id f. unfold tlb_owner, tlb_pool_init. cbn -[replicate Z.to_nat].
  destruct (replicate (Z.to_nat TT_TLB_TOTAL) None !! Z.to_nat id) as [o|] eqn:E; [|done].
  apply lookup_replicate in E as [-> _]. done.
Qed.

Lemma surprise_handles w : handles_ok w → handles_ok (TtEvtDeviceSurpriseRemoval w).2.
Proof. intros Hw. exact (proj1 (surprise_keeps (FileList w) w (conj Hw eq_refl))). Qed.

Lemma prepare_hardware_handles fl pnp : Steps (Keeps (handles fl)) (TtEvtDevicePrepareHardware pnp).
Proof.
  assert (∀ b, Steps (Keeps (handles fl)) (modify (λ w, w <| w_tlb := tlb_pool_init b |>))) as Hp.
  { intros b w [Hw Hl]. split; [by apply pool_init_handles | exact Hl]. }
  assert (∀ A (m : M A) fp, Steps (Frame fp) m → cdisj handle_comps fp = true → Steps (Keeps (handles fl)) m) as Hq.
  { intros A m fp Hf Hd. exact (steps_keeps _ _ _ m (handles_reads fl) Hf Hd). }
  assert (∀ b, Steps (Keeps (handles fl)) (set_needs_hw_init b)) as Hn.
  { intros b. exact (Hq _ _ _ (set_needs_hw_init_frame b) eq_refl). }
  assert (Steps (Keeps (handles fl)) (modify (λ w, w <| w_saved := w_saved w <| HardwareInitDone := true |> |>))) as Hd.
  { eapply (modify_keeps (handles fl)); [apply handles_reads | intros ?; agree_tac]. }
  unfold TtEvtDevicePrepareHardware, prepare_blackhole.
  repeat first
    [ progress intros
    | match goal with
      | |- Steps _ (mret _) => apply steps_ret; apply _
      | |- Steps _ (gets _) => apply steps_gets; apply _
      | |- Steps _ (modify _) => first [apply Hp | apply Hd]
      | |- Steps _ (mbind _ _) => apply steps_bind; [apply _ | |]
      | |- Steps _ (if ?x then _ else _) => destruct x
      end
    | eapply Hq; [solve [eauto 2 with frames nocore] | reflexivity] ].
Qed.
End spec.
