(* ===== verification/System.v ===== *)
(** * The driver as a transition system

    The framework calls the driver's entry points one at a time: handles are
    opened and closed, requests arrive, processes exit, the device is started,
    powered, reset and removed.  Between the calls the environment moves: the
    platform state changes, another process runs, queued requests are
    cancelled.  The component invariants hold in every reachable state. *)
From S2P Require Import Prelude Abi Platform Frame Trace Sim IoSpec PciConfig Blackhole Iatu.
From S2P Require Import IatuSpec Tlb Memory Ledger MemorySpec Locks LocksSpec Power Telemetry Reset.
From S2P Require Import Ioctl Device Balance Handles.

Section system.
Context {P : Platform}.

(** Request [r] with contents [q] reaches the driver on handle [f]: first in
    the caller's context, then, unless it was completed there, from the queue. *)
Definition deliver (f r : Z) (q : ReqState) : M () :=
  modify (λ w, w <| w_reqs := <[r := q]> (w_reqs w) |>);;
  handled ← TtEvtIoInCallerContext true (Some f) r (rq_Code q);
  if (handled : bool) then mret tt else TtEvtIoDeviceControl f r (rq_Code q).

Inductive step (w : World) : World → Prop :=
  | step_create r f s : f ∉ FileList w → fresh f w → step w (TtEvtDeviceFileCreate r f s w).2
  | step_request f r q : f ∈ FileList w → bytes (rq_Buffer q) → step w (deliver f r q w).2
  | step_close f : f ∈ FileList w → step w (TtEvtFileCleanup f w).2
  | step_process_exit p : step w (process_notify_device p w).2
  | step_prepare pnp : step w (TtEvtDevicePrepareHardware pnp w).2
  | step_release : step w (TtEvtDeviceReleaseHardware w).2
  | step_d0_entry s : step w (TtEvtDeviceD0Entry s w).2
  | step_d0_exit s : step w (TtEvtDeviceD0Exit s w).2
  | step_surprise : step w (TtEvtDeviceSurpriseRemoval w).2
  | step_pldr : step w (TtPldrWorkItem w).2
  | step_environment w' : Frame [COs; CProcess; CWaitQueue] w w' → step w w'.

(** The device context after EvtDeviceAdd: no handle, no buffer, nothing claimed. *)
Record initial (w : World) : Prop := {
  in_files : w_files w = ∅;
  in_list : FileList w = [];
  in_heap : w_dmabufs w = ∅;
  in_trace : w_trace w = [];
  in_locks : ResourceLockHeld w = 0;
  in_iatu : w_iatu w = replicate (Z.to_nat TT_IATU_REGIONS) iatu_free_entry;
  in_tlb : TlbOwner (w_tlb w) = replicate (Z.to_nat TT_TLB_TOTAL) None;
  in_bytes : DmaBufBytes (w_dma w) = 0;
  in_limit : ∃ mib, 0 ≤ mib < 2 ^ 32 ∧ DmaBufLimitBytes (w_dma w) = TtReadDmaBufLimitBytes (Some mib)
}.

Definition reachable (w : World) : Prop := ∃ w0, initial w0 ∧ rtc step w0 w.

Record sys_inv (w : World) : Prop := {
  si_balanced : balanced w;
  si_handles : handles_ok w;
  si_locks : lock_inv w
}.

Lemma initial_file w f : initial w → file_ctx f w = fc_zero.
Proof. intros H. unfold file_ctx. rewrite (in_files _ H). by rewrite lookup_empty. Qed.

Lemma free_region_entry i : ia_Used (iatu_entry (replicate (Z.to_nat TT_IATU_REGIONS) iatu_free_entry) i) = false.
Proof.
  unfold iatu_entry. destruct (_ !! _) as [e|] eqn:E; [|done]. by apply lookup_replicate in E as [-> _].
Qed.

Lemma initial_inv w : initial w → sys_inv w.
Proof.
  intros H. pose proof (λ f, initial_file w f H) as Hf. destruct H as [H1 H2 H3 H4 H5 H6 H7 H8 (mib & Hm & H9)].
  split.
  - split; unfold heap, heap_bytes, own_buffer; cbn; rewrite ?H3.
    + intros a _. unfold held. cbn. rewrite H1, H3, !msum_empty.
      destruct a as [r|i]; cbn; [by rewrite H4|]. unfold used_region. by rewrite H6, free_region_entry.
    + rewrite H6. apply replicate_free_ok.
    + by rewrite H8, msum_empty.
    + intros _. rewrite H9, msum_empty. unfold TtReadDmaBufLimitBytes. cbn [default].
      unfold id. rewrite Z.shiftl_mul_pow2 by lia. rewrite wrap64_id by lia. lia.
    + intros p d. by rewrite lookup_empty.
    + intros f i p. rewrite Hf. cbn. by rewrite lookup_empty.
    + intros f f' i i' p. rewrite Hf. cbn. by rewrite lookup_empty.
    + intros p d. by rewrite lookup_empty.
    + intros f m. rewrite Hf. by intros ?%elem_of_nil.
    + intros f n. rewrite Hf. by intros ?%elem_of_nil.
  - split.
    + intros f. rewrite H2. by intros ?%elem_of_nil.
    + intros f _. unfold empty_lists. by rewrite Hf.
    + intros id f. unfold tlb_owner. rewrite H7. destruct (_ !! _) as [o|] eqn:E; [|done].
      by apply lookup_replicate in E as [-> _].
    + by rewrite H7, length_replicate.
  - split; unfold locked, holds; intros *; rewrite ?H5, ?Hf, ?Z.bits_0; [done | | done].
    setoid_rewrite Hf. cbn. setoid_rewrite Z.bits_0. naive_solver.
Qed.

(** ** The lock invariant through the entry points *)
#[local] Hint Resolve lock_inv_reads : reads.
#[local] Hint Resolve wake_waiters_keeps locks_release_all_keeps lock_ctl_keeps : keeps.

Lemma bump_gen_locks f : Steps (Keeps lock_inv) (TtBumpResetGen f).
Proof. unfold TtBumpResetGen. keeps_walk. Qed.
#[local] Hint Resolve bump_gen_locks : keeps.
Lemma reset_flavor_locks f g : Steps (Keeps lock_inv) (reset_flavor f g).
Proof. unfold reset_flavor, reset_config_write, reset_user, reset_asic. keeps_walk. Qed.
#[local] Hint Resolve reset_flavor_locks : keeps.
Lemma reset_device_locks f r : Steps (Keeps lock_inv) (TtIoctlResetDevice f r).
Proof. unfold TtIoctlResetDevice. keeps_walk. Qed.
#[local] Hint Resolve reset_device_locks : keeps.
Lemma dispatch_locks f r code : Steps (Keeps lock_inv) (dispatch_code f r code).
Proof. unfold dispatch_code, dispatch. keeps_walk. Qed.
#[local] Hint Resolve dispatch_locks : keeps.
Lemma io_device_control_locks f r code : Steps (Keeps lock_inv) (TtEvtIoDeviceControl f r code).
Proof. unfold TtEvtIoDeviceControl. keeps_walk. Qed.
#[local] Hint Resolve io_device_control_locks : keeps.
Lemma deliver_locks f r q : Steps (Keeps lock_inv) (deliver f r q).
Proof. unfold deliver. keeps_walk. Qed.
Lemma file_cleanup_locks f : Steps (Keeps lock_inv) (TtEvtFileCleanup f).
Proof. unfold TtEvtFileCleanup. keeps_walk. Qed.
Lemma surprise_locks : Steps (Keeps lock_inv) TtEvtDeviceSurpriseRemoval.
Proof. unfold TtEvtDeviceSurpriseRemoval. keeps_walk. Qed.
Lemma prepare_locks pnp : Steps (Keeps lock_inv) (TtEvtDevicePrepareHardware pnp).
Proof. keeps_leaf. Qed.

(** ** Preservation *)
Context `{!PoolLaws P}.

Lemma deliver_balanced f r q w : bytes (rq_Buffer q) → balanced w → balanced (deliver f r q w).2.
Proof.
  intros Hq HL. unfold deliver.
  assert (Hoare (λ w, balanced w ∧ byte_buffer r w)
    (handled ← TtEvtIoInCallerContext true (Some f) r (rq_Code q); if (handled : bool) then mret tt else TtEvtIoDeviceControl f r (rq_Code q))
    (λ _, balanced)) as H.
  { eapply hoare_bind; [apply caller_context_balanced|]. intros [|].
    - by intros w' [HL' _].
    - eapply hoare_pre; [|apply io_device_control_balanced]. intros w' [HL' Hb]. by split; [|apply Hb]. }
  apply (H (w <| w_reqs := <[r := q]> (w_reqs w) |>)). split.
  - revert HL. apply ledger_agree; [agree_tac | done].
  - unfold byte_buffer, req_state. cbn. by rewrite lookup_insert_eq.
Qed.

Lemma deliver_handles f r q fl : f ∈ fl → Steps (Keeps (handles fl)) (deliver f r q).
Proof.
  intros Hf. unfold deliver. apply steps_bind; [apply _ | eapply (modify_keeps (handles fl)); [apply handles_reads | intros ?; agree_tac] |].
  intros _. apply steps_bind; [apply _ | by apply caller_context_handles |].
  intros [|]; [apply steps_ret; apply _ | by apply io_device_control_handles].
Qed.

Lemma framed_handles {A} (m : M A) fp w :
  Steps (Frame fp) m → cdisj handle_comps fp = true → handles_ok w → handles_ok (m w).2.
Proof. intros Hf Hd Hw. exact (proj1 (steps_keeps _ _ _ m (handles_reads (FileList w)) Hf Hd w (conj Hw eq_refl))). Qed.

Lemma framed_locks {A} (m : M A) fp w :
  Steps (Frame fp) m → cdisj [CLocks; FLocks] fp = true → lock_inv w → lock_inv (m w).2.
Proof. intros Hf Hd Hw. exact (steps_keeps _ _ _ m lock_inv_reads Hf Hd w Hw). Qed.

Lemma environment_inv w w' : Frame [COs; CProcess; CWaitQueue] w w' → sys_inv w → sys_inv w'.
Proof.
  intros Hf [Hb Hh Hl].
  assert (∀ ds, cdisj ds [COs; CProcess; CWaitQueue] = true → ∀ c, cmem c ds = true → agree c w w') as Ha.
  { intros ds Hd c Hc. apply Hf. unfold cdisj in Hd. rewrite forallb_forall in Hd.
    unfold cmem in Hc. apply bool_decide_eq_true, list_elem_of_In, Hd in Hc. by apply negb_true_iff in Hc. }
  split.
  - revert Hb. apply ledger_agree; [by apply Ha|]. intros r _. by rewrite (Hf CTrace eq_refl : w_trace w' = w_trace w).
  - exact (proj1 (handles_reads (FileList w) w w' (Ha handle_comps eq_refl) (conj Hh eq_refl))).
  - exact (lock_inv_reads w w' (Ha [CLocks; FLocks] eq_refl) Hl).
Qed.

Lemma opened_of w f : handles_ok w → f ∈ FileList w → opened f w.
Proof. intros Hw Hf. split; [by apply others_of_handles | by apply ho_open]. Qed.

Lemma step_inv w w' : step w w' → sys_inv w → sys_inv w'.
Proof.
  intros Hs Hw. pose proof Hw as [Hb Hh Hl]. destruct Hs.
  - split; [by apply file_create_balanced | by apply file_create_handles |].
    exact (framed_locks _ _ w (TtEvtDeviceFileCreate_frame r f s) eq_refl Hl).
  - split; [by apply deliver_balanced | | by apply deliver_locks].
    exact (proj1 (deliver_handles f r q (FileList w) H w (conj Hh eq_refl))).
  - pose proof (opened_of w f Hh H) as Ho. split; [| | by apply file_cleanup_locks].
    + apply file_cleanup_balanced. split; [done | apply Ho].
    + eapply self_handles; [apply file_cleanup_self; by split | done | done].
  - split; [by apply process_notify_balanced | exact (proj1 (process_notify_handles (FileList w) p w (conj Hh eq_refl))) |].
    exact (framed_locks _ _ w (process_notify_device_frame p) eq_refl Hl).
  - split; [by apply prepare_hardware_balanced | | by apply prepare_locks].
    exact (proj1 (prepare_hardware_handles (FileList w) pnp w (conj Hh eq_refl))).
  - split; [by apply release_hardware_balanced | |].
    + exact (framed_handles _ _ w TtEvtDeviceReleaseHardware_frame eq_refl Hh).
    + exact (framed_locks _ _ w TtEvtDeviceReleaseHardware_frame eq_refl Hl).
  - split.
    + exact (balanced_quiet _ _ _ (TtEvtDeviceD0Entry_frame s) (TtEvtDeviceD0Entry_emits s) eq_refl eq_refl w Hb).
    + exact (framed_handles _ _ w (TtEvtDeviceD0Entry_frame s) eq_refl Hh).
    + exact (framed_locks _ _ w (TtEvtDeviceD0Entry_frame s) eq_refl Hl).
  - split.
    + exact (balanced_quiet _ _ _ (TtEvtDeviceD0Exit_frame s) (TtEvtDeviceD0Exit_emits s) eq_refl eq_refl w Hb).
    + exact (framed_handles _ _ w (TtEvtDeviceD0Exit_frame s) eq_refl Hh).
    + exact (framed_locks _ _ w (TtEvtDeviceD0Exit_frame s) eq_refl Hl).
  - split; [by apply surprise_removal_balanced | | by apply surprise_locks]. by apply surprise_handles.
  - split.
    + exact (balanced_quiet _ _ _ TtPldrWorkItem_frame TtPldrWorkItem_emits eq_refl eq_refl w Hb).
    + exact (framed_handles _ _ w TtPldrWorkItem_frame eq_refl Hh).
    + exact (framed_locks _ _ w TtPldrWorkItem_frame eq_refl Hl).
  - by apply (environment_inv w).
Qed.

Lemma reachable_inv w : reachable w → sys_inv w.
Proof.
  intros (w0 & H0 & Hr). apply initial_inv in H0. induction Hr as [|w1 w2 w3 Hs _ IH]; [done|].
  apply IH. by eapply step_inv.
Qed.

(** ** What holds in every reachable state *)

(** C1 Mutual exclusion: whatever requests, resets, closes, removals and
    cancellations happened before, no two handles hold the same resource lock,
    and the device bitmap is exactly the union of what the handles hold. *)
Theorem reachable_lock_exclusion w :
  reachable w →
  (∀ f g i, holds w f i = true → holds w g i = true → f = g)
  ∧ ∀ i, locked w i = true ↔ ∃ f, holds w f i = true.
Proof. intros Hr%reachable_inv%si_locks. split; [apply Hr | apply Hr]. Qed.

(** C2 Between calls the accounts balance: for every
    kernel object (pool block, MDL, view, locked pages, common buffer, process
    reference) the acquisitions minus the releases on the trace are exactly the
    number of structures that hold it, and an iATU region is marked used
    exactly when one mapping, pinning or buffer holds it.  So nothing is released
    twice, and nothing is owned that no structure knows of.  (One structure is
    never visited again: the context of a handle whose creation failed after the
    process was referenced, see [failed_create_keeps_process].) *)
Theorem reachable_accounts_balance w a :
  reachable w → tracked a → owned a w = held a None w.
Proof.
  intros Hr%reachable_inv%si_balanced Ha. rewrite (ld_balance _ _ _ _ Hr a Ha), cnt_nil. lia.
Qed.

Lemma no_files_held w a :
  handles_ok w → FileList w = [] → (∀ p, a ≠ ARes (RsProcess p)) → msum (λ _ c, cnt a (file_assets c)) (w_files w) = 0.
Proof.
  intros Hh Hl Ha. etrans; [|exact (msum_empty (λ _ c, cnt a (file_assets c)))]. apply msum_ext. intros f.
  rewrite lookup_empty. cbn. destruct (w_files w !! f) as [c|] eqn:E; [|done]. cbn.
  assert (file_ctx f w = c) as Ec by (unfold file_ctx; by rewrite E).
  destruct (ho_closed _ Hh f) as (_ & Hm & Hp & _); [rewrite Hl; apply not_elem_of_nil|].
  rewrite Ec in Hm, Hp. unfold file_assets. rewrite Hm, Hp. cbn [fmap list_fmap mjoin list_join app].
  destruct (CreatorProcess c) as [p|]; [|done]. cbn. unfold one. rewrite decide_False; [done | apply Ha].
Qed.

Lemma no_files_heap w : balanced w → handles_ok w → FileList w = [] → w_dmabufs w = ∅.
Proof.
  intros Hb Hh Hl. apply map_empty. intros p. destruct (w_dmabufs w !! p) as [d|] eqn:E; [|done]. exfalso.
  destruct (ld_reachable _ _ _ _ Hb p d E) as (f & i & Hs).
  destruct (ho_closed _ Hh f) as (_ & _ & _ & Hd); [rewrite Hl; apply not_elem_of_nil|].
  rewrite Hd in Hs. by rewrite lookup_empty in Hs.
Qed.

(** C3 After the last close everything is back: no pool block, MDL, view,
    locked page or common buffer is outstanding, every iATU region is free and
    the DMA account is zero. *)
Theorem nothing_left_after_last_close w :
  reachable w → FileList w = [] →
  (∀ a, tracked a → (∀ p, a ≠ ARes (RsProcess p)) → owned a w = 0) ∧ DmaBufBytes (w_dma w) = 0.
Proof.
  intros [Hb Hh _]%reachable_inv Hl. pose proof (no_files_heap w Hb Hh Hl) as Hd. split.
  - intros a Ha Hp. rewrite (ld_balance _ _ _ _ Hb a Ha). unfold held. cbn [heap].
    by rewrite no_files_held, Hd, msum_empty.
  - rewrite (ld_bytes _ _ _ _ Hb). unfold heap_bytes. cbn [heap]. by rewrite Hd, msum_empty.
Qed.

(** C27 The DMA quota: with a limit configured the account never exceeds it, and
    it is exactly the sum of the sizes of the live buffers. *)
Theorem reachable_dma_quota w :
  reachable w → DmaBufLimitBytes (w_dma w) ≠ 0 →
  DmaBufBytes (w_dma w) = heap_bytes None w ∧ 0 ≤ DmaBufBytes (w_dma w) ≤ DmaBufLimitBytes (w_dma w).
Proof.
  intros Hb%reachable_inv%si_balanced Hz. pose proof (ld_limit _ _ _ _ Hb Hz) as Hl.
  pose proof (heap_bytes_nonneg _ _ _ _ Hb) as H0. rewrite (ld_bytes _ _ _ _ Hb), signed64_id by lia. lia.
Qed.

(** C17 No dangling view: a mapping or pinning that refers to a DMA buffer refers
    to a live buffer in a slot of the same handle, whose index it records; a
    buffer is in one slot of one handle. *)
Theorem reachable_views_backed w f p :
  reachable w →
  (∃ m, m ∈ Mappings (file_ctx f w) ∧ um_DmaBuf m = Some p) ∨ (∃ n, n ∈ Pinnings (file_ctx f w) ∧ pn_BackingDmaBuf n = Some p) →
  ∃ i d, DmaBufs (file_ctx f w) !! i = Some p ∧ w_dmabufs w !! p = Some d ∧ db_Index d = i
    ∧ 0 ≤ i < TENSTORRENT_MAX_DMA_BUFS ∧ ∀ f' i', DmaBufs (file_ctx f' w) !! i' = Some p → f' = f ∧ i' = i.
Proof.
  intros Hb%reachable_inv%si_balanced Hv.
  assert (∃ i, DmaBufs (file_ctx f w) !! i = Some p) as [i Hi].
  { destruct Hv as [(m & Hm & Ep)|(n & Hn & Ep)];
      [exact (ld_views _ _ _ _ Hb f m Hm p Ep) | exact (ld_pins _ _ _ _ Hb f n Hn p Ep)]. }
  destruct (ld_slot _ _ _ _ Hb f i p Hi) as (Hr & d & Hd & Ei). exists i, d. split_and!; try done; [lia..|].
  intros f' i' Hi'. exact (slot_unique _ _ _ _ _ _ _ _ _ Hb Hi' Hi).
Qed.

(** C29 A TLB window is owned by an open handle or by nobody: closing a handle
    takes every window from it. *)
Theorem reachable_windows_owned w id f :
  reachable w → tlb_owner (w_tlb w) id = Some f → f ∈ FileList w ∧ fc_Lock (file_ctx f w) = true.
Proof.
  intros Hh%reachable_inv%si_handles Ht. pose proof (ho_tlb _ Hh id f Ht) as Hf.
  split; [exact Hf | by apply ho_open].
Qed.

(** C28 NOC apertures never overlap: in every reachable state the ranges of any
    two regions in use are disjoint and inside the 58-bit DMA space. *)
Theorem reachable_apertures_apart w i j e e' :
  reachable w → w_iatu w !! i = Some e → w_iatu w !! j = Some e' → i ≠ j → ia_Used e = true → ia_Used e' = true →
  valid_range (entry_range e) ∧ apart (entry_range e) (entry_range e').
Proof.
  intros [Hl Hv Hd]%reachable_inv%si_balanced%ld_iatu Hi Hj Hn He He'. split; [by eapply Hv | by eapply Hd].
Qed.

Lemma creator_deref_none f w : CreatorProcess (file_ctx f (file_creator_deref f w).2) = None.
Proof.
  unfold file_creator_deref, TtGetFileContext. run. destruct (CreatorProcess (file_ctx f w)) as [p|] eqn:E; [|done].
  run. change (file_ctx f (upd_file f ?g ?w0).2) with (file_ctx f (upd_file f g w0).2).
  by rewrite upd_file_ctx, decide_True.
Qed.

(** Closing a handle: it leaves the device list, its mappings, pinnings and
    buffer slots are empty, it owns no TLB window and holds no process
    reference; every other handle is as the invariant says. *)
Theorem close_empties_handle w f :
  reachable w → f ∈ FileList w →
  let w' := (TtEvtFileCleanup f w).2 in
  f ∉ FileList w' ∧ empty_lists f w' ∧ (∀ id, tlb_owner (w_tlb w') id ≠ Some f)
  ∧ CreatorProcess (file_ctx f w') = None ∧ sys_inv w'.
Proof.
  intros Hr%reachable_inv Hf w'. pose proof Hr as [Hb Hh _].
  destruct (file_cleanup_self f w (conj Hb (opened_of w f Hh Hf))) as [_ Hl _ _ He Ht]. split_and!.
  - intros Hin%Hl. discriminate.
  - apply He.
  - apply Ht.
  - apply creator_deref_none.
  - eapply step_inv; [by apply step_close | exact Hr].
Qed.

(** A failed create: the handle joins no list, owns nothing and does not
    count for the power state, but the process reference it took stays. *)
Theorem failed_create_keeps_process w r f s :
  handles_ok w → fresh f w → f ∉ FileList w → s ≠ STATUS_SUCCESS →
  let w' := (TtEvtDeviceFileCreate r f s w).2 in
  FileList w' = FileList w ∧ empty_lists f w' ∧ PowerContributes (fc_Power (file_ctx f w')) = false
  ∧ live (RsProcess (w_process w)) (w_trace w') = live (RsProcess (w_process w)) (w_trace w) + 1.
Proof.
  intros Hh Hf Hl Hs. unfold TtEvtDeviceFileCreate, TtFileContextInitMemory.
  assert (NT_SUCCESS s = false) as Es by (by apply bool_decide_eq_false). run. rewrite Es. cbn [when]. run.
  unfold empty_lists. change (file_ctx f (WdfRequestComplete r s ?w0).2) with (file_ctx f w0).
  rewrite upd_file_ctx, decide_True by done.
  change (file_ctx f (emit ?e ?w0).2) with (file_ctx f w0). rewrite upd_file_ctx, decide_True by done. rewrite Hf. cbn.
  split_and!; [done..|]. rewrite decide_True by done. lia.
Qed.
End system.

(** ** A concrete run

    The card of [sim_world] with an ARC that reads all-ones.  Two handles are
    opened; handle 1 takes lock 3, allocates a buffer with a NOC aperture in
    slot 4 and maps a page of it; handle 2 allocates a TLB window; both close. *)
Definition dead_arc : SimOS := sim_set_reg RKernelTlb 0x30408 0xFFFFFFFF sim_os.
Definition sim_init : World (P := sim) :=
  sim_world <| w_files := ∅ |> <| FileList := [] |> <| w_os := (dead_arc : OS (Platform := sim)) |>.
Definition io_req (f code : Z) (b : list Z) (len : Z) : ReqState := sim_req f code b len.

Definition req_lock := io_req 1 (TT_CTL 8) [16; 0; 0; 0; 0; 0; 0; 0; 3; 0; 0; 0] 16.
Definition req_dma := io_req 1 (TT_CTL 3) (le_encode 4 0x2000 ++ [4; 2]) 64.
Definition req_map := io_req 1 IOCTL_TENSTORRENT_MAP
  (le_encode 8 (TT_MMAP_OFFSET_DMA_BUF + 4 * TT_MMAP_SIZE_DMA_BUF) ++ le_encode 8 0x1000) 24.
Definition req_tlb := io_req 2 (TT_CTL 11) (le_encode 8 TT_BH_KERNEL_TLB_LEN) 48.

Definition run1 : World (P := sim) := (TtEvtDeviceFileCreate 90 1 STATUS_SUCCESS sim_init).2.
Definition run2 : World (P := sim) := (TtEvtDeviceFileCreate 91 2 STATUS_SUCCESS run1).2.
Definition run3 : World (P := sim) := (deliver 1 4 req_lock run2).2.
Definition run4 : World (P := sim) := (deliver 1 5 req_dma run3).2.
Definition run5 : World (P := sim) := (deliver 1 6 req_map run4).2.
Definition run6 : World (P := sim) := (deliver 2 7 req_tlb run5).2.
Definition run7 : World (P := sim) := (TtEvtFileCleanup 1 run6).2.
Definition run8 : World (P := sim) := (TtEvtFileCleanup 2 run7).2.

Ltac by_decision := apply (bool_decide_unpack _); vm_compute; exact I.

Lemma sim_init_initial : initial sim_init.
Proof. split; try reflexivity. exists 4096. split; [lia | reflexivity]. Qed.

Lemma reachable_step {P : Platform} (w w' : World) : reachable w → step w w' → reachable w'.
Proof. intros (w0 & H0 & Hr) Hs. exists w0. split; [done|]. by eapply rtc_r. Qed.

Lemma sim_init_reachable : reachable sim_init.
Proof. exists sim_init. split; [apply sim_init_initial | apply rtc_refl]. Qed.
Lemma run1_reachable : reachable run1.
Proof. apply (reachable_step sim_init run1 sim_init_reachable). unfold run1. apply (step_create sim_init 90 1 STATUS_SUCCESS); [by_decision | vm_compute; reflexivity]. Qed.
Lemma run2_reachable : reachable run2.
Proof. apply (reachable_step run1 run2 run1_reachable). unfold run2. apply (step_create run1 91 2 STATUS_SUCCESS); [by_decision | vm_compute; reflexivity]. Qed.
Lemma run3_reachable : reachable run3.
Proof. apply (reachable_step run2 run3 run2_reachable). unfold run3. apply (step_request run2 1 4 req_lock); by_decision. Qed.
Lemma run4_reachable : reachable run4.
Proof. apply (reachable_step run3 run4 run3_reachable). unfold run4. apply (step_request run3 1 5 req_dma); by_decision. Qed.
Lemma run5_reachable : reachable run5.
Proof. apply (reachable_step run4 run5 run4_reachable). unfold run5. apply (step_request run4 1 6 req_map); by_decision. Qed.
Lemma run6_reachable : reachable run6.
Proof. apply (reachable_step run5 run6 run5_reachable). unfold run6. apply (step_request run5 2 7 req_tlb); by_decision. Qed.
Lemma run7_reachable : reachable run7.
Proof. apply (reachable_step run6 run7 run6_reachable). unfold run7. apply (step_close run6 1); by_decision. Qed.
Lemma run8_reachable : reachable run8.
Proof. apply (reachable_step run7 run8 run7_reachable). unfold run8. apply (step_close run7 2); by_decision. Qed.

Lemma reachable_lock_exclusion_witness : holds run6 1 3 = true ∧ ∀ g, holds run6 g 3 = true → g = 1.
Proof.
  split; [vm_compute; reflexivity|]. intros g Hg.
  apply (proj1 (reachable_lock_exclusion run6 run6_reachable) g 1 3); [exact Hg | vm_compute; reflexivity].
Defined.

Lemma reachable_accounts_balance_witness :
  owned (ARes (RsCommonBuffer 65536)) run6 = 1 ∧ held (ARes (RsCommonBuffer 65536)) None run6 = 1.
Proof.
  assert (owned (ARes (RsCommonBuffer 65536)) run6 = 1) as H1 by (vm_compute; reflexivity). split; [exact H1|].
  exact (eq_trans (eq_sym (reachable_accounts_balance run6 (ARes (RsCommonBuffer 65536)) run6_reachable eq_refl)) H1).
Defined.

Lemma nothing_left_after_last_close_witness :
  owned (ARegion 0) run6 = 1 ∧ owned (ARegion 0) run8 = 0 ∧ DmaBufBytes (w_dma run6) = 0x2000 ∧ DmaBufBytes (w_dma run8) = 0.
Proof.
  assert (FileList run8 = []) as Hl by (vm_compute; reflexivity).
  pose proof (nothing_left_after_last_close run8 run8_reachable Hl) as [Ha Hb].
  split_and!; [vm_compute; reflexivity | apply Ha; [unfold tracked, TT_IATU_REGIONS; lia | done] | vm_compute; reflexivity | exact Hb].
Defined.

Lemma reachable_dma_quota_witness : 0 ≤ DmaBufBytes (w_dma run6) ≤ DmaBufLimitBytes (w_dma run6).
Proof. apply (reachable_dma_quota run6 run6_reachable). vm_compute. discriminate. Defined.

Lemma reachable_views_backed_witness :
  ∃ i d, DmaBufs (file_ctx 1 run6) !! i = Some 1 ∧ w_dmabufs run6 !! 1 = Some d ∧ db_Index d = i.
Proof.
  destruct (reachable_views_backed run6 1 1 run6_reachable) as (i & d & H1 & H2 & H3 & _); [|exact (ex_intro _ i (ex_intro _ d (conj H1 (conj H2 H3))))].
  left. exists (mkMapping 2 (Some 73728) (Some (mkMdl 69632 [16])) 4096 (-1) true (Some 1) (Some 7)).
  assert (E : Mappings (file_ctx 1 run6) = [mkMapping 2 (Some 73728) (Some (mkMdl 69632 [16])) 4096 (-1) true (Some 1) (Some 7)])
    by (vm_compute; reflexivity).
  rewrite E. split; [left | reflexivity].
Defined.

Lemma reachable_windows_owned_witness : 2 ∈ FileList run6 ∧ fc_Lock (file_ctx 2 run6) = true.
Proof. apply (reachable_windows_owned run6 0 2 run6_reachable). vm_compute. reflexivity. Defined.

Definition req_dma2 := io_req 2 (TT_CTL 3) (le_encode 4 0x3000 ++ [0; 2]) 64.
Definition run6b : World (P := sim) := (deliver 2 8 req_dma2 run6).2.
Lemma run6b_reachable : reachable run6b.
Proof. apply (reachable_step run6 run6b run6_reachable). unfold run6b. apply (step_request run6 2 8 req_dma2); by_decision. Qed.

Lemma reachable_apertures_apart_witness :
  apart (entry_range (iatu_entry (w_iatu run6b) 0)) (entry_range (iatu_entry (w_iatu run6b) 1)).
Proof.
  apply (reachable_apertures_apart run6b 0 1 (iatu_entry (w_iatu run6b) 0) (iatu_entry (w_iatu run6b) 1) run6b_reachable);
    [vm_compute; reflexivity | vm_compute; reflexivity | done | vm_compute; reflexivity | vm_compute; reflexivity].
Defined.

Lemma close_empties_handle_witness :
  1 ∈ FileList run6 ∧ 1 ∉ FileList run7 ∧ empty_lists 1 run7.
Proof.
  assert (1 ∈ FileList run6) as Hf by by_decision. pose proof (close_empties_handle run6 1 run6_reachable Hf) as H.
  split; [exact Hf|]. destruct H as (H1 & H2 & _). exact (conj H1 H2).
Defined.

Lemma failed_create_keeps_process_witness :
  let w' := (TtEvtDeviceFileCreate 92 3 STATUS_INSUFFICIENT_RESOURCES run2).2 in
  FileList w' = [1; 2] ∧ live (RsProcess 7) (w_trace w') = 3.
Proof.
  pose proof (failed_create_keeps_process run2 92 3 STATUS_INSUFFICIENT_RESOURCES
    (si_handles _ (reachable_inv _ run2_reachable))) as H.
  destruct H as (H1 & _ & _ & H4); [vm_compute; reflexivity | by_decision | done|].
  split; [etrans; [exact H1 | vm_compute; reflexivity] | etrans; [exact H4 | vm_compute; reflexivity]].
Defined.
