(* ===== verification/ArcSpec.v ===== *)
(** * The ARC message queue: the polling loops end, the rings are queues *)
From S2P Require Import Prelude Platform Frame Trace Sim Abi PciConfig Blackhole Iatu Tlb Memory Locks.
From S2P Require Import Power Telemetry Reset Ioctl Device System.

(** What the driver relies on of the interrupt clock: it never runs backwards,
    and KeDelayExecutionThread(100 us) takes at least 1000 units of 100 ns. *)
Class ClockLaws (P : Platform) := {
  clock : OS → Z;
  clock_nonneg os : 0 ≤ clock os;
  clock_time os : let r := KeQueryInterruptTime os in r.1 = clock r.2 ∧ clock os ≤ clock r.2;
  clock_read r off os : clock os ≤ clock (READ_REGISTER_ULONG r off os).2;
  clock_event e os : clock os ≤ clock (os_notify e os);
  clock_delay os : clock os + 1000 ≤ clock (os_notify EvDelay os)
}.

Definition is_hang (e : Event) : bool := match e with EvOutOfFuel => true | _ => false end.
(** No loop of the run was cut off. *)
Definition no_hang (t : list Event) : Prop := existsb is_hang t = false.

Create HintDb ticks discriminated.
#[export] Hint Constants Opaque : ticks.

Section arc.
Context {P : Platform} `{!ClockLaws P}.

Definition now (w : World) : Z := clock (w_os w).

(** Time passes and no loop is cut off. *)
Definition Ticks : relation World := λ w w', now w ≤ now w' ∧ (no_hang (w_trace w) → no_hang (w_trace w')).
#[global] Instance Ticks_preorder : PreOrder Ticks.
Proof. split; [by intros w; split|]. intros a b c [H1 H2] [H3 H4]. split; [lia | auto]. Qed.

Lemma emit_ticks e : is_hang e = false → Steps Ticks (emit e).
Proof. intros H w. split; [apply clock_event|]. unfold no_hang. cbn. by rewrite H. Qed.

Lemma read_register_ticks r off : Steps Ticks (read_register r off).
Proof. intros w. split; [apply clock_read | done]. Qed.
Lemma write_register_ticks r off v : Steps Ticks (write_register r off v).
Proof. by apply emit_ticks. Qed.

Lemma write_words_ticks regs ws : Steps Ticks (write_tlb_words regs ws).
Proof.
  unfold write_tlb_words. do 2 (apply steps_bind; [apply _ | apply write_register_ticks | intros _]).
  apply write_register_ticks.
Qed.
Lemma kernel_tlb_ticks X Y A N : Steps Ticks (TtBhConfigureKernelTlb X Y A N).
Proof.
  unfold TtBhConfigureKernelTlb. apply steps_bind; [apply _ | apply write_words_ticks | intros _]. apply steps_ret; apply _.
Qed.
Lemma noc_read_ticks X Y A N : Steps Ticks (TtBhNocRead32 X Y A N).
Proof.
  unfold TtBhNocRead32. apply steps_bind; [apply _ | by apply emit_ticks | intros _].
  apply steps_bind; [apply _ | apply kernel_tlb_ticks | intros a].
  apply steps_bind; [apply _ | apply read_register_ticks | intros v].
  apply steps_bind; [apply _ | by apply emit_ticks | intros _]. apply steps_ret; apply _.
Qed.
Lemma noc_write_ticks X Y A D N : Steps Ticks (TtBhNocWrite32 X Y A D N).
Proof.
  unfold TtBhNocWrite32. apply steps_bind; [apply _ | by apply emit_ticks | intros _].
  apply steps_bind; [apply _ | apply kernel_tlb_ticks | intros a].
  apply steps_bind; [apply _ | apply write_register_ticks | intros v]. by apply emit_ticks.
Qed.
Lemma csm_read_ticks A : Steps Ticks (TtBhCsmRead32 A).
Proof.
  unfold TtBhCsmRead32. destruct (csm_out_of_range A); [apply steps_ret; apply _|].
  apply steps_bind; [apply _ | apply noc_read_ticks | intros v; apply steps_ret; apply _].
Qed.
Lemma csm_write_ticks A V : Steps Ticks (TtBhCsmWrite32 A V).
Proof.
  unfold TtBhCsmWrite32. destruct (csm_out_of_range A); [apply steps_ret; apply _|].
  apply steps_bind; [apply _ | apply noc_write_ticks | intros v; apply steps_ret; apply _].
Qed.

Lemma deadline_ticks ms w : 0 ≤ ms →
  Ticks w (TtBhDeadline ms w).2 ∧ (TtBhDeadline ms w).1 ≤ now (TtBhDeadline ms w).2 + ms * 10000.
Proof.
  intros Hms. unfold TtBhDeadline, call, mbind, st_bind. cbn [fst snd].
  destruct (clock_time (w_os w)) as [H1 H2]. split; [split; [exact H2 | done]|].
  unfold now. cbn. rewrite H1. unfold wrap64, wrap.
  pose proof (clock_nonneg (KeQueryInterruptTime (w_os w)).2). apply Z.mod_le; lia.
Qed.

Lemma time_after_ticks d w :
  Ticks w (time_after d w).2 ∧ ((time_after d w).1 = false → now (time_after d w).2 ≤ d).
Proof.
  unfold time_after, call, mbind, st_bind. cbn [fst snd]. destruct (clock_time (w_os w)) as [H1 H2].
  split; [split; [exact H2 | done]|]. unfold now. cbn. rewrite H1. by intros ?%Z.ltb_ge.
Qed.

Lemma delay_ticks w : Ticks w (TtBhPollDelay w).2 ∧ now w + 1000 ≤ now (TtBhPollDelay w).2.
Proof. split; [by apply (emit_ticks EvDelay)|]. apply clock_delay. Qed.

(** A polling loop with [fuel] iterations left ends by itself when the deadline
    is less than [fuel - 1] delays away. *)
Definition in_time (fuel : nat) (deadline : Z) (w : World) : Prop :=
  (1 ≤ fuel)%nat ∧ deadline < now w + 1000 * (Z.of_nat fuel - 1).

Lemma in_time_ticks fuel d w w' : Ticks w w' → in_time fuel d w → in_time fuel d w'.
Proof. intros [H _]. unfold in_time. lia. Qed.

Lemma poll_ends {A} d (again : M A) (k : nat) (otherwise : A) w :
  (∀ w', in_time k d w' → Ticks w' (again w').2) → in_time (S k) d w →
  Ticks w ((late ← time_after d; if (late : bool) then mret otherwise else TtBhPollDelay;; again) w).2.
Proof.
  intros Ha Ht. destruct (time_after_ticks d w) as [T1 T2]. unfold mbind, st_bind. cbn [fst snd].
  revert T1 T2. generalize (time_after d w). intros [late w1] T1 T2. cbn [fst snd] in *.
  destruct late; [exact T1|]. specialize (T2 eq_refl). destruct (delay_ticks w1) as [D1 D2].
  revert D1 D2. generalize (TtBhPollDelay w1). intros [[] w2] D1 D2. cbn [snd] in *.
  etrans; [exact T1|]. etrans; [exact D1|]. apply Ha. unfold in_time in *. destruct T1 as [T1 _]. lia.
Qed.

Lemma push_wait_ticks fuel qb n wp d w : in_time fuel d w → Ticks w (arc_push_wait fuel qb n wp d w).2.
Proof.
  revert w. induction fuel as [|k IH]; intros w Ht; cbn [arc_push_wait]; [destruct Ht; lia|].
  unfold mbind at 1, st_bind at 1. cbn [fst snd].
  pose proof (csm_read_ticks (wrap32 (qb + TT_ARC_MSG_QUEUE_REQ_RPTR)) w) as T. revert T.
  generalize (TtBhCsmRead32 (wrap32 (qb + TT_ARC_MSG_QUEUE_REQ_RPTR)) w). intros [r w1] T. cbn [fst snd] in *.
  destruct (negb r.1); [exact T|]. destruct (_ =? _); [exact T|]. destruct (_ <? _); [exact T|].
  etrans; [exact T|]. exact (poll_ends d _ k false w1 IH (in_time_ticks _ _ _ _ T Ht)).
Qed.

Lemma pop_wait_ticks fuel qb n rp d w : in_time fuel d w → Ticks w (arc_pop_wait fuel qb n rp d w).2.
Proof.
  revert w. induction fuel as [|k IH]; intros w Ht; cbn [arc_pop_wait]; [destruct Ht; lia|].
  unfold mbind at 1, st_bind at 1. cbn [fst snd].
  pose proof (csm_read_ticks (wrap32 (qb + TT_ARC_MSG_QUEUE_RES_WPTR)) w) as T. revert T.
  generalize (TtBhCsmRead32 (wrap32 (qb + TT_ARC_MSG_QUEUE_RES_WPTR)) w). intros [r w1] T. cbn [fst snd] in *.
  destruct (negb r.1); [exact T|]. destruct (_ =? _); [exact T|]. destruct (_ <? _); [exact T|].
  etrans; [exact T|]. exact (poll_ends d _ k false w1 IH (in_time_ticks _ _ _ _ T Ht)).
Qed.

Lemma ready_wait_ticks fuel d w : in_time fuel d w → Ticks w (arc_ready_wait fuel d w).2.
Proof.
  revert w. induction fuel as [|k IH]; intros w Ht; cbn [arc_ready_wait]; [destruct Ht; lia|].
  unfold mbind at 1, st_bind at 1. cbn [fst snd].
  pose proof (noc_read_ticks TT_BH_ARC_X TT_BH_ARC_Y TT_BH_ARC_BOOT_STATUS 0 w) as T. revert T.
  generalize (TtBhNocRead32 TT_BH_ARC_X TT_BH_ARC_Y TT_BH_ARC_BOOT_STATUS 0 w). intros [r w1] T. cbn [fst snd] in *.
  destruct (_ =? _); [exact T|]. destruct (has_bits _ _); [exact T|].
  etrans; [exact T|]. exact (poll_ends d _ k (Some r) w1 IH (in_time_ticks _ _ _ _ T Ht)).
Qed.

#[local] Hint Resolve csm_read_ticks csm_write_ticks noc_read_ticks noc_write_ticks : ticks.
Lemma barrier_ticks : Steps Ticks KeMemoryBarrier.
Proof. by apply (emit_ticks EvBarrier). Qed.
Lemma acquire_ticks l : Steps Ticks (acquire l).
Proof. by apply (emit_ticks (EvLock l)). Qed.
Lemma release_ticks l : Steps Ticks (release l).
Proof. by apply (emit_ticks (EvUnlock l)). Qed.
#[local] Hint Resolve barrier_ticks acquire_ticks release_ticks : ticks.

(** A deadline of [ms] milliseconds, polled with the fuel of the model. *)
Lemma with_deadline {A} ms (k : Z → M A) :
  0 ≤ ms → (∀ d w, in_time (poll_fuel ms) d w → Ticks w (k d w).2) → Steps Ticks (d ← TtBhDeadline ms; k d).
Proof.
  intros Hms Hk w. destruct (deadline_ticks ms w Hms) as [T1 T2]. unfold mbind, st_bind. cbn [fst snd].
  etrans; [exact T1|]. apply Hk. unfold in_time, poll_fuel. lia.
Qed.

Ltac ticks_walk := steps_walk ltac:(solve [eauto 2 with ticks nocore]).

Lemma write_entry_ticks b s m : Steps Ticks (arc_write_entry b s m).
Proof. unfold arc_write_entry. apply steps_for_break; [apply _|]. ticks_walk. Qed.
Lemma read_payload_ticks b i old : Steps Ticks (arc_read_payload b i old).
Proof. revert i. induction old; intros i; cbn [arc_read_payload]; ticks_walk. Qed.
#[local] Hint Resolve write_entry_ticks read_payload_ticks : ticks.

(** From the point where the deadline is set. *)
Lemma deadline_then {A B} ms (wait : Z → M A) (k : A → M B) :
  0 ≤ ms → (∀ d w, in_time (poll_fuel ms) d w → Ticks w (wait d w).2) → (∀ a, Steps Ticks (k a)) →
  Steps Ticks (d ← TtBhDeadline ms; a ← wait d; k a).
Proof.
  intros Hms Hw Hk. apply with_deadline; [done|]. intros d w Ht. unfold mbind, st_bind. cbn [fst snd].
  specialize (Hw d w Ht). revert Hw. generalize (wait d w). intros [a w1] Hw. cbn [fst snd] in *.
  etrans; [exact Hw | apply Hk].
Qed.

Lemma push_ticks m qb n : Steps Ticks (TtBhArcMsgPush m qb n).
Proof.
  unfold TtBhArcMsgPush. cbv zeta. apply steps_bind; [apply _ | apply csm_read_ticks | intros r].
  destruct (negb _); [ticks_walk|]. destruct (_ =? _); [ticks_walk|].
  apply deadline_then; [done | intros d w; apply push_wait_ticks | ticks_walk].
Qed.

Lemma pop_ticks qb n : Steps Ticks (TtBhArcMsgPop qb n).
Proof.
  unfold TtBhArcMsgPop. cbv zeta. apply steps_bind; [apply _ | apply csm_read_ticks | intros r].
  destruct (negb _); [ticks_walk|]. destruct (_ =? _); [ticks_walk|].
  apply deadline_then; [done | intros d w; apply pop_wait_ticks | ticks_walk].
Qed.
#[local] Hint Resolve push_ticks pop_ticks : ticks.

Lemma transact_ticks m : Steps Ticks (arc_transact m).
Proof.
  unfold arc_transact. apply deadline_then; [done | intros d w; apply ready_wait_ticks | ticks_walk].
Qed.
#[local] Hint Resolve transact_ticks : ticks.

Lemma send_ticks m : Steps Ticks (TtBhSendArcMessage m).
Proof. unfold TtBhSendArcMessage. ticks_walk. Qed.
End arc.

(** ** No operation of the driver polls forever *)
Section calm.
Context {P : Platform} `{!ClockLaws P}.

Definition Calm : relation World := λ w w', no_hang (w_trace w) → no_hang (w_trace w').
#[global] Instance Calm_preorder : PreOrder Calm.
Proof. split; [by intros w|]. intros a b c H1 H2 H. auto. Qed.

Lemma ticks_calm {A} (m : M A) : Steps Ticks m → Steps Calm m.
Proof. intros H w. exact (proj2 (H w)). Qed.

Lemma calm_quiet {A} ks (m : M A) : Steps (Emits ks) m → kmem KFuel ks = false → Steps Calm m.
Proof.
  intros He Hk w. hnf. apply (emits_ind no_hang ks m w He). intros e t Hm Ht. unfold no_hang. cbn.
  destruct e; try exact Ht. cbn in Hm. by rewrite Hm in Hk.
Qed.

Lemma calm_modify g : (∀ w, w_trace (g w) = w_trace w) → Steps Calm (modify g).
Proof. intros Hg w. unfold Calm, modify. cbn. by rewrite Hg. Qed.

Lemma calm_log {A} (f : OS → A * OS) log :
  (∀ a, all_kinds [KSync; KRes; KIface; KHw; KAtu; KCfg; KMem; KReq; KPldr] (log a) = true) →
  Steps Calm (call f log).
Proof. intros Hl. by eapply calm_quiet; [apply call_emits; exact Hl|]. Qed.

Lemma send_calm m : Steps Calm (TtBhSendArcMessage m).
Proof. apply ticks_calm, send_ticks. Qed.
End calm.

Create HintDb calm discriminated.
#[export] Hint Constants Opaque : calm.
#[export] Hint Resolve send_calm : calm.

Ltac calm_leaf := first
  [ solve [eauto 2 with calm nocore]
  | eapply calm_quiet; [solve [eauto 2 with emits nocore] | reflexivity]
  | apply calm_modify; intros ?; reflexivity
  | apply calm_log; let a := fresh "a" in intros a; first [reflexivity | destruct a; reflexivity] ].
Ltac calm_walk := steps_walk calm_leaf.

Section operations.
Context {P : Platform} `{!ClockLaws P}.

Lemma bh_reset_calm f : Steps Calm (TtBhReset f).
Proof. unfold TtBhReset. calm_walk. Qed.
#[local] Hint Resolve bh_reset_calm : calm.
Lemma init_hardware_calm : Steps Calm TtBhInitHardware.
Proof. unfold TtBhInitHardware. calm_walk. Qed.
#[local] Hint Resolve init_hardware_calm : calm.
Lemma power_aggregate_calm : Steps Calm TtPowerAggregate.
Proof. unfold TtPowerAggregate. calm_walk. Qed.
#[local] Hint Resolve power_aggregate_calm : calm.
Lemma set_power_calm f r : Steps Calm (TtIoctlSetPowerState f r).
Proof. unfold TtIoctlSetPowerState. calm_walk. Qed.
#[local] Hint Resolve set_power_calm : calm.
Lemma reset_flavor_calm f flags : Steps Calm (reset_flavor f flags).
Proof.
  unfold reset_flavor, reset_restore_state, reset_config_write, reset_user, reset_asic, reset_post. calm_walk.
Qed.
#[local] Hint Resolve reset_flavor_calm : calm.
Lemma reset_device_calm f r : Steps Calm (TtIoctlResetDevice f r).
Proof. unfold TtIoctlResetDevice. calm_walk. Qed.
#[local] Hint Resolve reset_device_calm : calm.
Lemma debug_arc_calm r : Steps Calm (TtIoctlDebugArcMsg r).
Proof. unfold TtIoctlDebugArcMsg. calm_walk. Qed.
#[local] Hint Resolve debug_arc_calm : calm.
Lemma dispatch_code_calm f r code : Steps Calm (dispatch_code f r code).
Proof. unfold dispatch_code, dispatch. calm_walk. Qed.
#[local] Hint Resolve dispatch_code_calm : calm.
Lemma device_control_calm f r code : Steps Calm (TtEvtIoDeviceControl f r code).
Proof. unfold TtEvtIoDeviceControl. calm_walk. Qed.
#[local] Hint Resolve device_control_calm : calm.
Lemma deliver_calm f r q : Steps Calm (deliver f r q).
Proof. unfold deliver. calm_walk. Qed.
Lemma file_create_calm r f s : Steps Calm (TtEvtDeviceFileCreate r f s).
Proof. unfold TtEvtDeviceFileCreate. calm_walk. Qed.
Lemma file_cleanup_calm f : Steps Calm (TtEvtFileCleanup f).
Proof. unfold TtEvtFileCleanup, file_power_off. calm_walk. Qed.
Lemma prepare_hardware_calm p : Steps Calm (TtEvtDevicePrepareHardware p).
Proof. unfold TtEvtDevicePrepareHardware, prepare_blackhole. calm_walk. Qed.
Lemma d0_entry_calm s : Steps Calm (TtEvtDeviceD0Entry s).
Proof. unfold TtEvtDeviceD0Entry. calm_walk. Qed.
Lemma d0_exit_calm s : Steps Calm (TtEvtDeviceD0Exit s).
Proof. unfold TtEvtDeviceD0Exit. calm_walk. Qed.
End operations.
#[export] Hint Resolve deliver_calm file_create_calm file_cleanup_calm prepare_hardware_calm d0_entry_calm
  d0_exit_calm : calm.

Section loops_end.
Context {P : Platform} `{!ClockLaws P}.

Lemma step_calm w w' : step w w' → Calm w w'.
Proof.
  intros [f s|f r q|f|p|pnp| |s|s| | |w'' Hf].
  all: try match goal with |- Calm ?w (?m ?w).2 => assert (Steps Calm m) as Hm by calm_walk; exact (Hm w) end.
  hnf. by rewrite (Hf CTrace eq_refl : w_trace _ = w_trace _).
Qed.

(** C11 Every polling loop ends by itself: in no reachable state has a loop of
    the message queue been cut off.  The model gives the loops the fuel
    [10 * ms + 2]; a delay takes at least 100 us of a clock that does not run
    backwards, so the deadline test ends each loop before the fuel is gone,
    whatever the firmware answers, also when the deadline wraps at 2^64. *)
Theorem reachable_loops_end w : reachable w → no_hang (w_trace w).
Proof.
  intros (w0 & H0 & Hr). assert (no_hang (w_trace w0)) as H by (by rewrite (in_trace _ H0)).
  revert H. clear H0. induction Hr as [|a b c Hs _ IH]; [done|]. intros H. by apply IH, (step_calm _ _ Hs).
Qed.
End loops_end.

(** The simulated clock counts delays. *)
#[export] Instance sim_clock_laws : ClockLaws sim.
Proof.
  refine (Build_ClockLaws sim (λ o : SimOS, Z.of_N (sim_clock o)) _ _ _ _ _); cbn.
  - lia.
  - split; [done | lia].
  - lia.
  - intros [] o; cbn; lia.
  - lia.
Defined.

(** The firmware never raises its ready bit: the power message of handle 1 is
    given up at the deadline, after 5001 delays of 100 us. *)
Definition deaf : World (P := sim) := run6 <| w_os := (sim_os : OS (Platform := sim)) |>.
Definition req_power := io_req 1 (TT_CTL 15) ([40; 0; 0; 0; 0; 0; 0; 0; 0; 0x21; 1; 0] ++ replicate 28 0) 40.
Definition run_deaf : World (P := sim) := (deliver 1 10 req_power deaf).2.
Definition delays (t : list Event) : nat := length (List.filter (λ e, match e with EvDelay => true | _ => false end) t).

Lemma platform_moves (w : World (P := sim)) o : reachable w → reachable (w <| w_os := o |>).
Proof.
  intros H. apply (reachable_step w _ H). apply step_environment.
  intros c Hc. destruct c; first [reflexivity | discriminate Hc | intros f; reflexivity].
Qed.

Lemma reachable_loops_end_witness : delays (w_trace run_deaf) = 5001%nat ∧ no_hang (w_trace run_deaf).
Proof.
  assert (delays (w_trace run_deaf) = 5001%nat) as H by (vm_compute; reflexivity). split; [exact H|].
  apply (reachable_loops_end run_deaf). apply (reachable_step deaf run_deaf).
  - apply (platform_moves run6 _ run6_reachable).
  - apply (step_request deaf 1 10 req_power); by_decision.
Defined.
