(* ===== verification/MapSpec.v ===== *)
(** * What MAP may map, what FREE_DMA_BUF_EX frees, and in which order *)
From S2P Require Import Prelude Abi Platform Frame Trace Sim IoSpec PciConfig Blackhole Iatu.
From S2P Require Import IatuSpec Tlb Memory TlbSpec Ledger MemorySpec Locks LocksSpec Power.
From S2P Require Import Telemetry Reset Ioctl Device Balance Handles System.

(** ** The page frames of a target *)
Lemma shift_page z : Z.shiftr z PAGE_SHIFT = z / 4096.
Proof. unfold PAGE_SHIFT. by rewrite Z.shiftr_div_pow2 by lia. Qed.

Lemma bytes_to_pages n : 0 ≤ n → n mod PAGE_SIZE = 0 → BYTES_TO_PAGES n = n / 4096.
Proof.
  unfold BYTES_TO_PAGES, PAGE_SIZE. intros Hn Hm. rewrite shift_page.
  change (4096 - 1) with (Z.ones 12). rewrite Z.land_ones by lia. change (2 ^ 12) with 4096. rewrite Hm. cbn. lia.
Qed.

Lemma physical_pfns_elem phys len x :
  0 ≤ phys → phys + len < 2 ^ 63 → phys mod PAGE_SIZE = 0 → 0 ≤ len < 2 ^ 32 → len mod PAGE_SIZE = 0 →
  x ∈ physical_pfns phys len ↔ phys ≤ x * PAGE_SIZE ∧ (x + 1) * PAGE_SIZE ≤ phys + len.
Proof.
  intros Hp Hl Hpm Hlr Hlm. unfold physical_pfns. rewrite bytes_to_pages by lia. unfold PAGE_SIZE in *.
  rewrite signed64_id by lia. rewrite shift_page, list_elem_of_fmap.
  pose proof (Z_div_mod_eq_full phys 4096). pose proof (Z_div_mod_eq_full len 4096).
  rewrite (wrap32_id (len / 4096)) by lia. rewrite (wrap64_id (phys / 4096)) by lia. split.
  - intros (i & -> & Hi%elem_of_zrange). rewrite wrap64_id by lia. lia.
  - intros [H1 H2]. exists (x - phys / 4096). rewrite elem_of_zrange. split; [rewrite wrap64_id by lia; lia | lia].
Qed.

Section spec.
Context {P : Platform}.

(** ** Where a MAP offset may lead

    The byte range that a target of [len] bytes covers. *)
Inductive map_range (f len : Z) (w : World) (t : MapTarget) : Prop :=
  | range_dma i p d :
      DmaBufs (file_ctx f w) !! i = Some p → w_dmabufs w !! p = Some d → len ≤ db_Size d →
      mt_Physical t = CommonBufferPhysicalAddress (db_Buffer d) (w_os w) → mt_DmaBuf t = Some p → mt_TlbId t = -1 →
      map_range f len w t
  | range_bar bar o :
      bar ∈ [0; 2; 4] → 0 ≤ o → o + len ≤ bar_len (w_bars w) bar → mt_Physical t = bar_base (w_bars w) bar + o →
      mt_DmaBuf t = None → mt_TlbId t = -1 → map_range f len w t
  | range_tlb bar o id :
      bar ∈ [0; 4] → 0 ≤ o → o + len ≤ bar_len (w_bars w) bar → mt_Physical t = bar_base (w_bars w) bar + o →
      mt_DmaBuf t = None → mt_TlbId t = id → 0 ≤ id < TT_TLB_TOTAL →
      tlb_used (w_tlb w) id = true → tlb_owner (w_tlb w) id = Some f →
      map_range f len w t.

Lemma region_bar region : 0 ≤ region < 6 → regionToBar region ∈ [0; 2; 4].
Proof.
  intros Hr. assert (region = 0 ∨ region = 1 ∨ region = 2 ∨ region = 3 ∨ region = 4 ∨ region = 5) as H by lia.
  destruct H as [->|[->|[->|[->|[->| ->]]]]]; apply (bool_decide_unpack _); vm_compute; exact I.
Qed.

Lemma resolve_dma_ok f off len w t :
  balanced w → (resolve_dma f off len w).1 = (STATUS_SUCCESS, t) → map_range f len w t.
Proof.
  intros Hb. unfold resolve_dma. cbv zeta. destruct (_ || _); [done|]. unfold TtGetFileContext. run.
  destruct (DmaBufs (file_ctx f w) !! _) as [p|] eqn:Es; [|done]. run.
  destruct (ld_slot _ _ _ _ Hb _ _ _ Es) as (_ & d & Hd & _). cbn [heap] in Hd.
  assert (dmabuf_at p w = d) as Ed by (unfold dmabuf_at; by rewrite Hd). rewrite Ed.
  destruct (Z.ltb_spec (db_Size d) len); [done|]. run. intros [= <-]. by eapply range_dma.
Qed.

Lemma resolve_bar_ok f off len w t :
  0 ≤ off < 6 * TT_MMAP_RESOURCE_SIZE → 0 ≤ len → resolve_bar (w_bars w) off len = (STATUS_SUCCESS, t) → map_range f len w t.
Proof.
  intros Ho Hl. unfold resolve_bar. cbv zeta. destruct (_ || _) eqn:E; [done|]. intros [= <-].
  rewrite !orb_false_iff, Z.leb_gt, Z.ltb_ge in E. destruct E as [[_ E1] E2].
  change TT_MMAP_RESOURCE_SIZE with (2 ^ 36) in *.
  pose proof (Z.mod_pos_bound off (2 ^ 36) ltac:(lia)). pose proof (Z_div_mod_eq_full off (2 ^ 36)).
  apply (range_bar _ _ _ _ (regionToBar (off / 2 ^ 36)) (off mod 2 ^ 36)); [apply region_bar; lia | lia | lia | done..].
Qed.

Lemma token_decode_range enc len bar o id :
  0 ≤ enc < 2 ^ 37 → 0 ≤ len → tlb_token_decode enc len = Some (bar, o, id) →
  bar ∈ [0; 4] ∧ 0 ≤ o < 2 ^ 37 ∧ len ≤ 2 ^ 32 ∧ 0 ≤ id.
Proof.
  intros He Hl. unfold tlb_token_decode. change (Z.shiftl 1 29) with (2 ^ 29). change (Z.shiftl 1 32) with (2 ^ 32).
  change TT_BH_KERNEL_TLB_LEN with (2 ^ 21).
  destruct (Z.ltb_spec enc (2 ^ 29)).
  - destruct (_ || _) eqn:E; [done|]. apply orb_false_iff in E as [_ E%Z.ltb_ge]. intros [= <- <- <-].
    split_and!; [set_solver | lia | lia | lia | apply wrap32_range].
  - destruct (_ || _) eqn:E; [done|]. apply orb_false_iff in E as [_ E%Z.ltb_ge]. intros [= <- <- <-].
    split_and!; [set_solver | lia | lia | lia | apply wrap32_range].
Qed.

Lemma resolve_tlb_ok f off len w t :
  6 * TT_MMAP_RESOURCE_SIZE ≤ off < 8 * TT_MMAP_RESOURCE_SIZE → 0 ≤ len →
  (resolve_tlb f off len w).1 = (STATUS_SUCCESS, t) → map_range f len w t.
Proof.
  intros Ho Hl. unfold resolve_tlb. cbv zeta.
  set (wc := TT_MMAP_OFFSET_TLB_WC <=? off). set (enc := off - _).
  assert (0 ≤ enc < 2 ^ 37) as He.
  { unfold enc, wc. change TT_MMAP_RESOURCE_SIZE with (2 ^ 36) in Ho. change TT_MMAP_OFFSET_TLB_WC with (7 * 2 ^ 36).
    change TT_MMAP_OFFSET_TLB_UC with (6 * 2 ^ 36). destruct (Z.leb_spec (7 * 2 ^ 36) off); lia. }
  destruct (tlb_token_decode enc len) as [[[bar o] id]|] eqn:Ed; [|done].
  destruct (token_decode_range _ _ _ _ _ He Hl Ed) as (Hbar & Hor & Hlr & Hid). run.
  destruct (_ || _) eqn:E; [done|]. rewrite !orb_false_iff, Z.leb_gt, Z.ltb_ge in E. destruct E as [[E1 _] E3].
  rewrite wrap64_id in E3 by lia. run.
  change (w_tlb (acquire TlbLock w).2) with (w_tlb w).
  destruct (_ || _) eqn:E; [done|]. rewrite orb_false_iff, !negb_false_iff, bool_decide_eq_true in E.
  destruct E as [Eu Eo]. intros [= <-]. eapply (range_tlb _ _ _ _ bar o id); cbn; try done; lia.
Qed.

(** C10 MAP confinement: a MAP request that resolves reaches only (a) the caller's
    own live DMA buffer, at most its size, (b) bytes inside BAR0, BAR2 or BAR4,
    or (c) bytes inside BAR0 or BAR4 through a TLB token whose window is in use
    and owned by the calling handle; and the page frames put into the MDL are
    exactly the frames of that range. *)
Theorem map_confined f off len w t :
  balanced w → 0 ≤ off → 0 < len ≤ MAXULONG → len mod PAGE_SIZE = 0 →
  0 ≤ mt_Physical t → mt_Physical t + len < 2 ^ 63 → mt_Physical t mod PAGE_SIZE = 0 →
  (TtResolveMapTarget f off len w).1 = (STATUS_SUCCESS, t) →
  map_range f len w t ∧
  ∀ x, x ∈ physical_pfns (mt_Physical t) len ↔
    mt_Physical t ≤ x * PAGE_SIZE ∧ (x + 1) * PAGE_SIZE ≤ mt_Physical t + len.
Proof.
  intros Hb Ho Hl Hlm Hp1 Hp2 Hpm Hr. unfold MAXULONG in Hl. split.
  - unfold TtResolveMapTarget in Hr. destruct (Z.leb_spec TT_MMAP_OFFSET_DMA_BUF off); [by eapply resolve_dma_ok|].
    destruct (Z.ltb_spec off (6 * TT_MMAP_RESOURCE_SIZE)); [by apply (resolve_bar_ok f off len w t); [lia..|]|].
    destruct (Z.ltb_spec off (8 * TT_MMAP_RESOURCE_SIZE)); [by apply (resolve_tlb_ok f off len w t); [lia..|]|done].
  - intros x. apply physical_pfns_elem; lia.
Qed.

(** ** FREE_DMA_BUF_EX *)

Definition referenced (f p : Z) (w : World) : bool :=
  existsb (maps_buffer p) (Mappings (file_ctx f w)) || existsb (pins_buffer p) (Pinnings (file_ctx f w)).

(** The index field of the request. *)
Definition free_index (r : Z) (w : World) : Z :=
  sget tenstorrent_free_dma_buf_ex_in "buf_index"
    (take (Z.to_nat (c_sizeof tenstorrent_free_dma_buf_ex_in)) (rq_Buffer (req_state r w))).
Definition free_reserved (r : Z) (w : World) : Z :=
  sget tenstorrent_free_dma_buf_ex_in "reserved"
    (take (Z.to_nat (c_sizeof tenstorrent_free_dma_buf_ex_in)) (rq_Buffer (req_state r w))).

Lemma destroy_effects p d w :
  w_dmabufs w !! p = Some d →
  let w' := (TtDmaBufDestroy p w).2 in
  w_dmabufs w' = delete p (w_dmabufs w)
  ∧ DmaBufBytes (w_dma w') = signed64 (DmaBufBytes (w_dma w) - db_Size d)
  ∧ w_trace w' = EvPut (RsPool p) :: EvPut (RsCommonBuffer (db_Buffer d)) :: w_trace (TtTeardownNocDma (db_IatuRegion d) w).2.
Proof.
  intros Hd. unfold TtDmaBufDestroy. run. assert (dmabuf_at p w = d) as -> by (unfold dmabuf_at; by rewrite Hd).
  pose proof (frame_at CDmaBufs _ _ w (TtTeardownNocDma_frame (db_IatuRegion d)) eq_refl : w_dmabufs _ = w_dmabufs w) as H1.
  pose proof (frame_at CDma _ _ w (TtTeardownNocDma_frame (db_IatuRegion d)) eq_refl : w_dma _ = w_dma w) as H2.
  revert H1 H2. generalize (TtTeardownNocDma (db_IatuRegion d) w).2. intros w1 <- <-. by destruct w1.
Qed.

(** FREE_DMA_BUF_EX on every branch: an empty slot is an error; a buffer that
    a mapping or pinning of the handle still uses is refused with DEVICE_BUSY;
    in both cases no slot, structure or accounting changes.  Otherwise the slot
    is emptied, the structure freed and its size returned to the account. *)
Theorem free_dma_buf_ex_spec f r w :
  balanced w →
  WdfRequestRetrieveInputBuffer (rq_InLength (req_state r w)) (c_sizeof tenstorrent_free_dma_buf_ex_in) = STATUS_SUCCESS →
  free_reserved r w = 0 → free_index r w < TENSTORRENT_MAX_DMA_BUFS →
  let i := free_index r w in
  let res := TtIoctlFreeDmaBufEx f r w in
  match DmaBufs (file_ctx f w) !! i with
  | None => res.1 = STATUS_INVALID_PARAMETER ∧ w_dmabufs res.2 = w_dmabufs w ∧ w_dma res.2 = w_dma w
      ∧ DmaBufs (file_ctx f res.2) = DmaBufs (file_ctx f w)
  | Some p =>
      if referenced f p w then
        res.1 = STATUS_DEVICE_BUSY ∧ w_dmabufs res.2 = w_dmabufs w ∧ w_dma res.2 = w_dma w
        ∧ DmaBufs (file_ctx f res.2) = DmaBufs (file_ctx f w)
      else ∃ d, w_dmabufs w !! p = Some d ∧ res.1 = STATUS_SUCCESS
        ∧ DmaBufs (file_ctx f res.2) = delete i (DmaBufs (file_ctx f w))
        ∧ w_dmabufs res.2 = delete p (w_dmabufs w)
        ∧ DmaBufBytes (w_dma res.2) = signed64 (DmaBufBytes (w_dma w) - db_Size d)
  end.
Proof.
  intros Hb Hin Hres Hidx i res. subst res. unfold TtIoctlFreeDmaBufEx. run. rewrite (copy_in_ok w r _ Hin).
  cbn [fst snd]. change (NT_SUCCESS STATUS_SUCCESS) with true. cbn [negb].
  fold (free_index r w). fold (free_reserved r w). rewrite Hres, (proj2 (Z.leb_gt _ _)) by lia. cbn [Z.eqb negb orb]. run.
  unfold TtGetFileContext. run. change (file_ctx f (acquire (FileLock f) w).2) with (file_ctx f w). fold i.
  destruct (DmaBufs (file_ctx f w) !! i) as [p|] eqn:Es; [|done]. unfold referenced.
  destruct (existsb (maps_buffer p) _); [done|]. destruct (existsb (pins_buffer p) _); [done|]. cbn [orb].
  destruct (ld_slot _ _ _ _ Hb _ _ _ Es) as (_ & d & Hd & _). exists d. split; [exact Hd|]. run.
  set (w1 := (acquire (FileLock f) w).2).
  assert (w_dmabufs (set_dma_slot f i None w1).2 !! p = Some d) as Hd1 by exact Hd.
  destruct (destroy_effects p d _ Hd1) as (H1 & H2 & _).
  assert (DmaBufs (file_ctx f (TtDmaBufDestroy p (set_dma_slot f i None w1).2).2) = delete i (DmaBufs (file_ctx f w)))
    as H3 by exact (drop_slot_slots f i p w1).
  change (w_dma (set_dma_slot f i None w1).2) with (w_dma w) in H2.
  change (w_dmabufs (set_dma_slot f i None w1).2) with (w_dmabufs w) in H1.
  revert H1 H2 H3. generalize (TtDmaBufDestroy p (set_dma_slot f i None w1).2). intros [[] w2] H1 H2 H3.
  cbn [snd] in H1, H2, H3.
  change (w_dmabufs (release (FileLock f) ((), w2).2).2) with (w_dmabufs w2).
  change (w_dma (release (FileLock f) ((), w2).2).2) with (w_dma w2).
  change (file_ctx f (release (FileLock f) ((), w2).2).2) with (file_ctx f w2).
  by rewrite H1, H2, H3.
Qed.

(** What the card has been told about region [i] when the trace is [before]: on
    an attached device the region is disabled; on a detached one, whose
    registers are gone, nothing was written since [w]. *)
Definition region_gone (w : World) (i : Z) (before : list Event) : Prop :=
  if Detached (w_gate w) then before = EvUnlock IatuLock :: EvLock IatuLock :: w_trace w
  else hw_enabled (hw_region before i) = false.

Lemma attached_gone w i before : Detached (w_gate w) = false → region_gone w i before → hw_enabled (hw_region before i) = false.
Proof. intros E. unfold region_gone. by rewrite E. Qed.
Lemma teardown_gone i w : iatu_ok (w_iatu w) → 0 ≤ i < TT_IATU_REGIONS →
  region_gone w i (w_trace (TtTeardownNocDma i w).2).
Proof.
  intros Hok Hi. unfold region_gone. destruct (Detached (w_gate w)) eqn:E; [|by apply (teardown_core i w)].
  unfold TtTeardownNocDma. rewrite (proj2 (Z.ltb_ge i 0)), (proj2 (Z.leb_gt TT_IATU_REGIONS i)) by lia. cbn [orb]. run.
  change ((Detached ∘ w_gate) (acquire IatuLock w).2) with (Detached (w_gate w)). rewrite E. reflexivity.
Qed.

(** C9 An attached card never keeps a window into memory that is given back:
    destroying a buffer (or a pinning) disables its iATU region before the common
    buffer is deleted (before the pages are unlocked).  On a detached device no
    register is touched, and the memory is given back all the same. *)
Theorem aperture_off_before_memory_goes p d n m w :
  iatu_ok (w_iatu w) →
  w_dmabufs w !! p = Some d → 0 ≤ db_IatuRegion d < TT_IATU_REGIONS →
  pn_Mdl n = Some m → 0 ≤ pn_IatuRegion n < TT_IATU_REGIONS →
  (∃ before, w_trace (TtDmaBufDestroy p w).2 = EvPut (RsPool p) :: EvPut (RsCommonBuffer (db_Buffer d)) :: before
    ∧ region_gone w (db_IatuRegion d) before)
  ∧ ∃ before, w_trace (TtDestroyPinning n w).2
      = EvPut (RsPool (pn_Block n)) :: EvPut (RsMdl (mdl_Handle m)) :: EvPut (RsLockedPages (mdl_Handle m)) :: before
    ∧ region_gone w (pn_IatuRegion n) before.
Proof.
  intros Hok Hd Hr Hm Hn. split.
  - eexists. split; [exact (proj2 (proj2 (destroy_effects p d w Hd)))|]. by apply teardown_gone.
  - exists (w_trace (TtTeardownNocDma (pn_IatuRegion n) w).2). split; [|by apply teardown_gone].
    unfold TtDestroyPinning. rewrite Hm. reflexivity.
Qed.
End spec.

(** ** UNPIN_PAGES *)
Section unpin.
Context {P : Platform}.

Definition unpin_field (name : string) (r : Z) (w : World) : Z :=
  sget tenstorrent_unpin_pages_in name
    (take (Z.to_nat (c_sizeof tenstorrent_unpin_pages_in)) (rq_Buffer (req_state r w))).

Lemma remove_first_perm {A} (p : A → bool) l x rest : remove_first p l = Some (x, rest) → p x = true ∧ l ≡ₚ x :: rest.
Proof.
  revert x rest. induction l as [|y l IH]; intros x rest; simpl; [done|].
  destruct (p y) eqn:E; [by intros [= <- <-]|]. destruct (remove_first p l) as [[z t]|]; [|done]. intros [= <- <-].
  destruct (IH z t eq_refl) as [H1 ->]. split; [done | apply perm_swap].
Qed.

Lemma destroy_pinning_files n w f : file_ctx f (TtDestroyPinning n w).2 = file_ctx f w.
Proof.
  pose proof (TtDestroyPinning_frame n w) as H.
  pose proof (λ c h, H c h) as Hc.
  assert (∀ a b, (∀ c, cmem c [COs; CTrace; CIatu] = false → fagree c a b) → b = a) as Hext.
  { intros [] [] He. pose proof (He FGen eq_refl). pose proof (He FLock eq_refl). pose proof (He FMappings eq_refl).
    pose proof (He FPinnings eq_refl). pose proof (He FDmaBufs eq_refl). pose proof (He FOnList eq_refl).
    pose proof (He FCreator eq_refl). pose proof (He FLocks eq_refl). pose proof (He FPower eq_refl).
    pose proof (He FNoc eq_refl). cbn in *. congruence. }
  apply Hext. intros c Hcm. specialize (Hc c Hcm). destruct c; try exact I; exact (Hc f).
Qed.

(** C37 UNPIN_PAGES looks only at the first pinning with the requested address:
    with none the request is an error; when its size differs the request is an
    error and no pinning is touched, even if a later pinning has that address
    and that size; otherwise exactly this pinning leaves the list. *)
Theorem unpin_pages_spec f r w :
  WdfRequestRetrieveInputBuffer (rq_InLength (req_state r w)) (c_sizeof tenstorrent_unpin_pages_in) = STATUS_SUCCESS →
  unpin_field "reserved" r w = 0 → PAGE_SIZE ≤ unpin_field "size" r w →
  let res := TtIoctlUnpinPages f r w in
  match remove_first (λ p, pn_VirtualAddress p =? unpin_field "virtual_address" r w) (Pinnings (file_ctx f w)) with
  | Some (p, rest) =>
      if pn_Size p =? unpin_field "size" r w
      then res.1 = STATUS_SUCCESS ∧ Pinnings (file_ctx f res.2) = rest ∧ Pinnings (file_ctx f w) ≡ₚ p :: rest
      else res.1 = STATUS_INVALID_PARAMETER ∧ Pinnings (file_ctx f res.2) = Pinnings (file_ctx f w)
        ∧ w_iatu res.2 = w_iatu w
  | None => res.1 = STATUS_INVALID_PARAMETER ∧ Pinnings (file_ctx f res.2) = Pinnings (file_ctx f w) ∧ w_iatu res.2 = w_iatu w
  end.
Proof.
  intros Hin Hres Hsz res. subst res. unfold TtIoctlUnpinPages. run. rewrite (copy_in_ok w r _ Hin).
  cbn [fst snd]. change (NT_SUCCESS STATUS_SUCCESS) with true. cbn [negb].
  fold (unpin_field "virtual_address" r w). fold (unpin_field "reserved" r w). fold (unpin_field "size" r w).
  unfold PAGE_SIZE in *. set (sz := unpin_field "size" r w) in *. set (va := unpin_field "virtual_address" r w).
  assert (1 ≤ sz / 4096) by (apply Z.div_le_lower_bound; lia).
  rewrite Hres, (proj2 (Z.eqb_neq sz 0)), (proj2 (Z.eqb_neq (sz / 4096) 0)) by lia. cbn [Z.eqb negb orb]. run.
  unfold TtGetFileContext. run. change (file_ctx f (acquire (FileLock f) w).2) with (file_ctx f w).
  unfold unpin_search. destruct (remove_first _ _) as [[p rest]|] eqn:Er; [|done].
  destruct (pn_Size p =? sz); cbn [negb]; [|done]. run.
  split_and!; [done | | apply (remove_first_perm _ _ _ _ Er)].
  rewrite destroy_pinning_files.
  etrans; [exact (f_equal Pinnings (upd_file_ctx f _ (acquire (FileLock f) w).2 f))|]. by rewrite decide_True.
Qed.
End unpin.

(** ** Instances on the concrete run *)
Lemma map_confined_witness :
  ∃ t, mt_DmaBuf t = Some 1 ∧ map_range 1 0x1000 run4 t ∧ 16 ∈ physical_pfns (mt_Physical t) 0x1000.
Proof.
  set (off := TT_MMAP_OFFSET_DMA_BUF + 4 * TT_MMAP_SIZE_DMA_BUF).
  set (t := mkTarget 65536 MmCached (-1) (Some 1)).
  assert ((TtResolveMapTarget 1 off 0x1000 run4).1 = (STATUS_SUCCESS, t)) as Ht by (vm_compute; reflexivity).
  assert (0 ≤ off) as Ho by (vm_compute; discriminate).
  assert (0 < 0x1000 ≤ MAXULONG) as Hl by (unfold MAXULONG; lia).
  assert (0 ≤ mt_Physical t) as Hp1 by (cbn; lia).
  assert (mt_Physical t + 0x1000 < 2 ^ 63) as Hp2 by (cbn; lia).
  pose proof (map_confined 1 off 0x1000 run4 t (si_balanced _ (reachable_inv _ run4_reachable)) Ho Hl eq_refl Hp1 Hp2
    eq_refl Ht) as [H1 H2].
  exists t. split; [reflexivity|]. split; [exact H1|]. apply H2. cbn. unfold PAGE_SIZE. lia.
Defined.

Definition req_free (i : Z) := sim_req 1 (TT_CTL 14) [i; 0; 0; 0; 0; 0; 0; 0] 16.

Lemma with_req_balanced r q w : balanced w → balanced (with_req r q w).
Proof. apply ledger_agree; [intros c Hc; destruct c; (discriminate Hc || reflexivity || (intros g; reflexivity)) | done]. Qed.

(** The buffer of slot 4 is busy while its mapping exists, and goes without it. *)
Lemma free_dma_buf_ex_spec_witness :
  (TtIoctlFreeDmaBufEx 1 9 (with_req 9 (req_free 4) run6)).1 = STATUS_DEVICE_BUSY
  ∧ DmaBufBytes (w_dma (TtIoctlFreeDmaBufEx 1 9 (with_req 9 (req_free 4) run4)).2) = 0.
Proof.
  set (w6 := with_req 9 (req_free 4) run6). set (w4 := with_req 9 (req_free 4) run4).
  pose proof (free_dma_buf_ex_spec 1 9 w6 (with_req_balanced 9 _ run6 (si_balanced _ (reachable_inv _ run6_reachable)))
    ltac:(vm_compute; reflexivity) ltac:(vm_compute; reflexivity) ltac:(vm_compute; reflexivity)) as H6.
  pose proof (free_dma_buf_ex_spec 1 9 w4 (with_req_balanced 9 _ run4 (si_balanced _ (reachable_inv _ run4_reachable)))
    ltac:(vm_compute; reflexivity) ltac:(vm_compute; reflexivity) ltac:(vm_compute; reflexivity)) as H4.
  assert (DmaBufs (file_ctx 1 w6) !! free_index 9 w6 = Some 1) as E6 by (vm_compute; reflexivity).
  assert (referenced 1 1 w6 = true) as R6 by (vm_compute; reflexivity).
  assert (DmaBufs (file_ctx 1 w4) !! free_index 9 w4 = Some 1) as E4 by (vm_compute; reflexivity).
  assert (referenced 1 1 w4 = false) as R4 by (vm_compute; reflexivity).
  cbv zeta in H6, H4. rewrite E6, R6 in H6. rewrite E4, R4 in H4. split; [exact (proj1 H6)|].
  destruct H4 as (d & Hd & _ & _ & _ & H4).
  assert (db_Size <$> (w_dmabufs w4 !! 1) = Some 0x2000) as Es by (vm_compute; reflexivity).
  rewrite Hd in Es. injection Es as Es. etrans; [exact H4|]. rewrite Es. vm_compute. reflexivity.
Defined.

Lemma aperture_off_before_memory_goes_witness :
  ∃ before, w_trace (TtDmaBufDestroy 1 run4).2 = EvPut (RsPool 1) :: EvPut (RsCommonBuffer 65536) :: before
    ∧ hw_enabled (hw_region before 0) = false.
Proof.
  pose proof (ld_iatu _ _ _ _ (si_balanced _ (reachable_inv _ run4_reachable))) as Hok.
  destruct (w_dmabufs run4 !! 1) as [d|] eqn:Hd; [|vm_compute in Hd; discriminate Hd].
  assert ((λ x, (db_Buffer x, db_IatuRegion x)) <$> w_dmabufs run4 !! 1 = Some (65536, 0)) as E by (vm_compute; reflexivity).
  rewrite Hd in E. injection E as Eb Er.
  assert (Detached (w_gate run4) = false) as Hdet by (vm_compute; reflexivity).
  assert (0 ≤ db_IatuRegion d < TT_IATU_REGIONS) as Hr by (rewrite Er; unfold TT_IATU_REGIONS; lia).
  assert (0 ≤ 1 < TT_IATU_REGIONS) as Hn by (unfold TT_IATU_REGIONS; lia).
  destruct (aperture_off_before_memory_goes 1 d (mkPinning 2 0 0x1000 (Some (mkMdl 3 [])) None 1) (mkMdl 3 []) run4
    Hok Hd Hr eq_refl Hn) as [(before & H1 & H2) _]. apply (attached_gone run4 _ _ Hdet) in H2.
  rewrite Eb in H1. rewrite Er in H2. exact (ex_intro _ before (conj H1 H2)).
Defined.

(** Two pinnings of one address: the second, of 8192 bytes, cannot be unpinned
    while the first, of 4096 bytes, is there. *)
Definition pin_a : TT_PINNING := mkPinning 2 0x10000 0x1000 (Some (mkMdl 3 [16])) None (-1).
Definition pin_b : TT_PINNING := mkPinning 4 0x10000 0x2000 (Some (mkMdl 5 [16; 17])) None (-1).
Definition two_pins : World (P := sim) := (upd_file 1 (λ c, c <| Pinnings := [pin_a; pin_b] |>) run4).2.
Definition req_unpin (va size : Z) :=
  sim_req 1 (TT_CTL 10) (le_encode 8 va ++ le_encode 8 size ++ le_encode 8 0) 24.

Lemma unpin_pages_spec_witness :
  (TtIoctlUnpinPages 1 9 (with_req 9 (req_unpin 0x10000 0x2000) two_pins)).1 = STATUS_INVALID_PARAMETER
  ∧ length (Pinnings (file_ctx 1 (TtIoctlUnpinPages 1 9 (with_req 9 (req_unpin 0x10000 0x2000) two_pins)).2)) = 2%nat.
Proof.
  set (w := with_req 9 (req_unpin 0x10000 0x2000) two_pins).
  assert (WdfRequestRetrieveInputBuffer (Platform := sim) (rq_InLength (req_state 9 w)) (c_sizeof tenstorrent_unpin_pages_in) = STATUS_SUCCESS)
    as Hin by (vm_compute; reflexivity).
  assert (unpin_field "reserved" 9 w = 0) as Hres by (vm_compute; reflexivity).
  assert (PAGE_SIZE ≤ unpin_field "size" 9 w) as Hsz by (vm_compute; discriminate).
  pose proof (unpin_pages_spec 1 9 w Hin Hres Hsz) as H. cbv zeta in H.
  assert (remove_first (λ p, pn_VirtualAddress p =? unpin_field "virtual_address" 9 w) (Pinnings (file_ctx 1 w))
    = Some (pin_a, [pin_b])) as Er by (vm_compute; reflexivity).
  assert ((pn_Size pin_a =? unpin_field "size" 9 w) = false) as Es by (vm_compute; reflexivity).
  assert (length (Pinnings (file_ctx 1 w)) = 2%nat) as El by (vm_compute; reflexivity).
  rewrite Er, Es in H. destruct H as (H1 & H2 & _). exact (conj H1 (eq_trans (f_equal length H2) El)).
Defined.
