(* ===== verification/RequestSpec.v ===== *)
(** * Every request is settled exactly once

    A request is settled when it is completed; until then it may wait in
    LockWaitQueue.  [tally r] counts the completions of [r] and its places in
    the queue; it is the quantity that every operation conserves, except for
    the request the operation was called for. *)
From S2P Require Import Prelude Platform Frame Trace Sim Abi PciConfig Blackhole Iatu Tlb Memory Locks.
From S2P Require Import LocksSpec Power Telemetry Reset Ioctl Device Balance Handles System.

Definition one_of (x r : Z) : Z := if decide (x = r) then 1 else 0.
Definition completes (r : Z) (e : Event) : Z := match e with EvComplete x _ => one_of x r | _ => 0 end.
Definition completions (r : Z) (t : list Event) : Z := lsum (completes r) t.
Definition places (r : Z) (q : list Z) : Z := lsum (λ x, one_of x r) q.

Section requests.
Context {P : Platform} `{!QueueLaws P}.

Definition tally (r : Z) (w : World) : Z := completions r (w_trace w) + places r (waiters w).

(** ** Operations that settle nothing *)
Definition Conserves : relation World := λ w w', ∀ r, tally r w' = tally r w.

#[global] Instance Conserves_preorder : PreOrder Conserves.
Proof. split; [by intros w r|]. intros a b c H1 H2 r. by rewrite H2. Qed.

Lemma conserves_quiet {A} fp ks (m : M A) :
  Steps (Frame fp) m → Steps (Emits ks) m → cmem CWaitQueue fp = false → kmem KReq ks = false →
  Steps Conserves m.
Proof.
  intros Hf He Hq Hk w r. unfold tally, waiters. rewrite (frame_at CWaitQueue _ _ w Hf Hq : LockWaitQueue _ = _).
  f_equal. apply (emits_ind (λ t, completions r t = completions r (w_trace w)) ks m w He); [|done].
  intros e t Hm <-. destruct e; try reflexivity. cbn in Hm. by rewrite Hm in Hk.
Qed.

Lemma conserves_modify g :
  (∀ w, w_trace (g w) = w_trace w ∧ LockWaitQueue (g w) = LockWaitQueue w) → Steps Conserves (modify g).
Proof. intros H w r. destruct (H w) as [H1 H2]. unfold tally, waiters, modify. cbn. by rewrite H1, H2. Qed.

(** ** Operations that settle one request *)
Definition Settles (x : Z) {A} (m : M A) : Prop := ∀ w r, tally r (m w).2 = tally r w + one_of x r.

Lemma settles_after {A B} x (m : M A) (k : A → M B) :
  Steps Conserves m → (∀ a, Settles x (k a)) → Settles x (mbind k m).
Proof. intros Hm Hk w r. unfold mbind, st_bind. cbn. rewrite Hk. by rewrite Hm. Qed.

Lemma settles_before {A B} x (m : M A) (k : A → M B) :
  Settles x m → (∀ a, Steps Conserves (k a)) → Settles x (mbind k m).
Proof. intros Hm Hk w r. unfold mbind, st_bind. cbn. rewrite Hk. by rewrite Hm. Qed.

Lemma complete_settles x s : Settles x (WdfRequestComplete x s).
Proof. intros w r. unfold tally, completions, waiters. cbn. fold (lsum (completes r) (w_trace w)). lia. Qed.

Lemma places_app r l1 l2 : places r (l1 ++ l2) = places r l1 + places r l2.
Proof. apply lsum_app. Qed.
Lemma places_cons r x l : places r (x :: l) = one_of x r + places r l.
Proof. reflexivity. Qed.

(** Forwarding settles unless it fails. *)
Lemma forward_tally x w r :
  tally r (forward_to_queue x w).2
  = tally r w + (if NT_SUCCESS (forward_to_queue x w).1 then one_of x r else 0).
Proof.
  unfold tally. rewrite forward_result.
  assert (completions r (w_trace (forward_to_queue x w).2) = completions r (w_trace w)) as -> by reflexivity.
  destruct (NT_SUCCESS _); [|lia]. rewrite places_app. unfold places. cbn. lia.
Qed.

(** ** Waking waiters *)
Lemma try_acquire_conserves f i : Steps Conserves (TtLockTryAcquire f i).
Proof. exact (conserves_quiet _ _ _ (TtLockTryAcquire_frame f i) (TtLockTryAcquire_emits f i) eq_refl eq_refl). Qed.

Lemma complete_acquired_settles x : Settles x (TtLockCompleteAcquired x).
Proof.
  unfold TtLockCompleteAcquired. apply settles_after; [apply steps_gets; apply _|]. intros q. cbv zeta.
  destruct (NT_SUCCESS _); [|apply complete_settles].
  apply settles_after; [by apply conserves_modify|]. intros _.
  apply settles_after; [by apply conserves_modify|]. intros _. apply complete_settles.
Qed.

Lemma wake_one_settles x : Settles x (wake_one x).
Proof.
  unfold wake_one. apply settles_after; [apply steps_gets; apply _|]. intros q.
  apply settles_after; [apply steps_gets; apply _|]. intros gate.
  destruct (rq_File q) as [f|]; [|apply complete_settles].
  apply settles_after; [apply steps_gets; apply _|]. intros fc.
  destruct (_ || _); [apply complete_settles|].
  apply settles_after; [apply try_acquire_conserves|]. intros [|]; [apply complete_acquired_settles|].
  intros w r. pose proof (forward_tally x w r) as H. unfold mbind, st_bind. cbn [fst snd].
  destruct (forward_to_queue x w) as [s w1]. cbn [fst snd] in *. destruct (NT_SUCCESS s); cbn [negb when].
  - exact H.
  - etrans; [apply complete_settles|]. lia.
Qed.

Lemma wake_batch_settles l w r : tally r (for_each l wake_one w).2 = tally r w + places r l.
Proof.
  revert w. induction l as [|x l IH]; intros w; cbn [for_each]; [symmetry; apply Z.add_0_r|].
  unfold mbind, st_bind. cbn [fst snd]. rewrite IH, wake_one_settles, places_cons. lia.
Qed.

Lemma wake_conserves : Steps Conserves TtLocksWakeWaiters.
Proof.
  intros w r. destruct (retrieve_batch_spec TT_LOCK_WAKE_BATCH (LockWaitQueue w)) as [H1 H2].
  unfold TtLocksWakeWaiters, gets, modify, mbind, st_bind. cbn -[retrieve_batch for_each].
  rewrite wake_batch_settles. unfold tally, waiters. cbn -[retrieve_batch].
  rewrite H1, H2. pose proof (places_app r (take TT_LOCK_WAKE_BATCH (queue_contents (LockWaitQueue w)))
    (drop TT_LOCK_WAKE_BATCH (queue_contents (LockWaitQueue w)))) as H. rewrite take_drop in H.
  rewrite H. unfold completions, lsum. lia.
Qed.

(** ** LOCK_CTL: settled now, or queued *)

(** The operation queued [x] exactly when it reports so. *)
Definition Pends (x : Z) (m : M (NTSTATUS * bool)) : Prop :=
  ∀ w r, tally r (m w).2 = tally r w + (if (m w).1.2 then one_of x r else 0).

Lemma pends_never x (m : M NTSTATUS) : Steps Conserves m → Pends x (s ← m; mret (s, false)).
Proof. intros Hm w r. unfold mbind, st_bind. cbn. rewrite Hm. symmetry. apply Z.add_0_r. Qed.

Lemma pends_ret x s : Pends x (mret (s, false)).
Proof. intros w r. symmetry. apply Z.add_0_r. Qed.

Lemma pends_after {A} x (m : M A) (k : A → M (NTSTATUS * bool)) :
  Steps Conserves m → (∀ a, Pends x (k a)) → Pends x (mbind k m).
Proof. intros Hm Hk w r. unfold mbind, st_bind. cbn [fst snd]. rewrite Hk. by rewrite Hm. Qed.

Lemma pends_quiet x fp ks (m : M (NTSTATUS * bool)) :
  Steps (Frame fp) m → Steps (Emits ks) m → cmem CWaitQueue fp = false → kmem KReq ks = false →
  (∀ w, (m w).1.2 = false) → Pends x m.
Proof. intros Hf He Hq Hk Hm w r. rewrite Hm, (conserves_quiet fp ks m Hf He Hq Hk w r). lia. Qed.

Lemma lock_complete_pends x r v : Pends x (lock_complete r v).
Proof. eapply pends_quiet; [apply lock_complete_frame | apply lock_complete_emits | done | done |]. by intros w. Qed.

Lemma lock_release_pends f r i : Pends r (lock_release f r i).
Proof.
  unfold lock_release. apply pends_after; [apply steps_gets; apply _|]. intros fc.
  destruct (has_bits _ _); [|apply lock_complete_pends].
  apply pends_after; [exact (conserves_quiet _ _ _ (release_bit_frame f i) (release_bit_emits f i) eq_refl eq_refl)|].
  intros _. apply pends_after; [apply wake_conserves|]. intros _. apply lock_complete_pends.
Qed.

Lemma emit_conserves e : (∀ r, completes r e = 0) → Steps Conserves (emit e).
Proof. intros H w r. unfold tally, waiters. cbn. rewrite H. unfold completions, lsum. lia. Qed.

Lemma lock_pend_pends r i : Pends r (lock_pend r i).
Proof.
  unfold lock_pend.
  apply pends_after; [by intros w r'|]. intros st. destruct (negb (NT_SUCCESS st)).
  - apply pends_after; [by apply emit_conserves | intros _; apply pends_ret].
  - apply pends_after; [by apply conserves_modify|]. intros _ w r'.
    pose proof (forward_tally r w r') as H. unfold mbind, st_bind, mret, st_ret. cbn [fst snd].
    destruct (forward_to_queue r w) as [s w1]. cbn [fst snd] in *.
    etrans; [apply (emit_conserves (EvUnlock LockLock)); done | exact H].
Qed.

Lemma lock_ctl_pends f r : Pends r (TtIoctlLockCtl f r).
Proof.
  unfold TtIoctlLockCtl. apply pends_after; [exact (conserves_quiet _ _ _ (TtCopyInBuffer_frame _ _) (TtCopyInBuffer_emits _ _) eq_refl eq_refl)|].
  intros c. destruct (negb _); [apply pends_ret|]. cbv zeta. destruct (_ <=? _); [apply pends_ret|].
  apply pends_after; [by apply emit_conserves|]. intros _.
  destruct (_ =? _); [apply pends_after; [apply try_acquire_conserves | intros won; apply lock_complete_pends]|].
  destruct (_ =? _); [apply lock_release_pends|].
  destruct (_ =? _).
  { apply pends_after; [apply steps_gets; apply _|]. intros fc.
    apply pends_after; [apply steps_gets; apply _|]. intros held. apply lock_complete_pends. }
  destruct (_ =? _); [|apply pends_after; [by apply emit_conserves | intros _; apply pends_ret]].
  apply pends_after; [apply try_acquire_conserves|].
  intros [|]; [apply lock_complete_pends | apply lock_pend_pends].
Qed.
End requests.

(** ** The other operations *)
Create HintDb conserves discriminated.
#[export] Hint Constants Opaque : conserves.
#[export] Hint Resolve wake_conserves : conserves.

Ltac conserve_leaf := first
  [ solve [eauto 2 with conserves nocore]
  | eapply conserves_quiet;
      [solve [eauto 2 with frames nocore] | solve [eauto 2 with emits nocore] | reflexivity | reflexivity]
  | apply emit_conserves; reflexivity
  | apply conserves_modify; intros ?; split; reflexivity ].
Ltac conserve_walk := steps_walk conserve_leaf.

Section operations.
Context {P : Platform} `{!QueueLaws P}.

Lemma bump_gen_conserves f : Steps Conserves (TtBumpResetGen f).
Proof. unfold TtBumpResetGen. conserve_walk. Qed.
#[local] Hint Resolve bump_gen_conserves : conserves.

Lemma reset_flavor_conserves f flags : Steps Conserves (reset_flavor f flags).
Proof. unfold reset_flavor, reset_config_write, reset_user, reset_asic. conserve_walk. Qed.
#[local] Hint Resolve reset_flavor_conserves : conserves.

Lemma reset_device_conserves f r : Steps Conserves (TtIoctlResetDevice f r).
Proof. unfold TtIoctlResetDevice. conserve_walk. Qed.
#[local] Hint Resolve reset_device_conserves : conserves.

Lemma dispatch_pends f r nr : Pends r (dispatch f r nr).
Proof.
  unfold dispatch. cbv zeta.
  repeat (destruct (_ =? _);
    [first [apply lock_ctl_pends | apply pends_ret | apply pends_never; conserve_walk]|]).
  apply pends_ret.
Qed.

Lemma dispatch_code_pends f r code : Pends r (dispatch_code f r code).
Proof.
  unfold dispatch_code. cbv zeta.
  repeat (destruct (_ =? _); [apply pends_never; conserve_walk|]). apply dispatch_pends.
Qed.

Lemma device_control_settles f r code : Settles r (TtEvtIoDeviceControl f r code).
Proof.
  unfold TtEvtIoDeviceControl. cbv zeta.
  apply settles_after; [conserve_walk|]. intros _.
  apply settles_after; [conserve_walk|]. intros gate. destruct (negb _).
  - apply settles_after; [conserve_walk|]. intros _. apply complete_settles.
  - intros w x. pose proof (dispatch_code_pends f r code w x) as H. unfold mbind, st_bind. cbn [fst snd].
    destruct (dispatch_code f r code w) as [[s p] w1]. cbn [fst snd] in *.
    assert (tally x (TtResetRelease w1).2 = tally x w1) as E
      by (apply (emit_conserves (EvUnlock ResetResource)); done).
    destruct p; cbn [negb when].
    + etrans; [exact E | exact H].
    + etrans; [apply complete_settles|]. lia.
Qed.

(** [true]: completed here; [false]: the default queue has it. *)
Definition Handles (r : Z) (m : M bool) : Prop := ∀ w x, tally x (m w).2 = tally x w + (if (m w).1 then one_of r x else 0).

Lemma caller_forward_settles r : Handles r (caller_forward r).
Proof.
  intros w x. unfold caller_forward. rewrite bind_run.
  assert (tally x (call (WdfDeviceEnqueueRequest r) (λ _, []) w).2 = tally x w) as E by reflexivity. revert E.
  generalize (call (WdfDeviceEnqueueRequest r) (λ _, []) w). intros [s w1] E. cbn [fst snd] in *.
  destruct (negb (NT_SUCCESS s)); [|etrans; [exact E | symmetry; apply Z.add_0_r]].
  rewrite bind_run. cbn [fst snd mret st_ret]. etrans; [apply complete_settles|]. by rewrite E.
Qed.

Lemma caller_context_settles b fo r code : Handles r (TtEvtIoInCallerContext b fo r code).
Proof.
  intros w x. unfold TtEvtIoInCallerContext. destruct fo as [f|]; [|apply caller_forward_settles].
  destruct (negb b || negb (in_caller_code code)); [apply caller_forward_settles|].
  match goal with |- tally x (?m w).2 = _ => assert (Settles r m ∧ ∀ v, (m v).1 = true) as [H1 H2] end;
    [|by rewrite H1, H2].
  split; [|by intros v].
  apply settles_after; [conserve_walk|]. intros _.
  apply settles_after; [conserve_walk|]. intros gate.
  apply settles_after; [conserve_walk|]. intros c.
  apply settles_after; [conserve_walk|]. intros process.
  apply settles_after; [conserve_walk|]. intros status.
  apply settles_after; [conserve_walk|]. intros _.
  apply settles_before; [apply complete_settles | conserve_walk].
Qed.

Lemma file_create_settles r f s : Settles r (TtEvtDeviceFileCreate r f s).
Proof.
  unfold TtEvtDeviceFileCreate.
  repeat (apply settles_after; [conserve_walk|]; intros ?). apply complete_settles.
Qed.

Lemma file_cleanup_conserves f : Steps Conserves (TtEvtFileCleanup f).
Proof. unfold TtEvtFileCleanup, TtLocksReleaseAll. conserve_walk. Qed.

Lemma surprise_conserves : Steps Conserves TtEvtDeviceSurpriseRemoval.
Proof. unfold TtEvtDeviceSurpriseRemoval. conserve_walk. Qed.
End operations.

Section settled.
Context {P : Platform} `{!QueueLaws P}.

(** C4 Every request is settled exactly once.  In the caller's context a request
    of any kind is either completed once (also when the default queue does not
    take it) or handed to the default queue, and from there it is completed once
    or put into the lock wait queue once; no other request that was not waiting
    is completed.  A create completes its own request; closing a handle,
    process exit, the PnP and power callbacks, surprise removal and the reset
    work item only turn waiting requests into completed ones. *)
Theorem requests_settled_once w x :
  (∀ ioctl fo r code, let m := TtEvtIoInCallerContext ioctl fo r code in
     tally x (m w).2 = tally x w + (if (m w).1 then one_of r x else 0))
  ∧ (∀ f r code, tally x (TtEvtIoDeviceControl f r code w).2 = tally x w + one_of r x)
  ∧ (∀ f r q, tally x (deliver f r q w).2 = tally x w + one_of r x)
  ∧ (∀ r f s, tally x (TtEvtDeviceFileCreate r f s w).2 = tally x w + one_of r x)
  ∧ (∀ f, tally x (TtEvtFileCleanup f w).2 = tally x w)
  ∧ tally x (TtEvtDeviceSurpriseRemoval w).2 = tally x w
  ∧ (∀ p, tally x (process_notify_device p w).2 = tally x w)
  ∧ (∀ pnp, tally x (TtEvtDevicePrepareHardware pnp w).2 = tally x w)
  ∧ tally x (TtEvtDeviceReleaseHardware w).2 = tally x w
  ∧ (∀ s, tally x (TtEvtDeviceD0Entry s w).2 = tally x w)
  ∧ (∀ s, tally x (TtEvtDeviceD0Exit s w).2 = tally x w)
  ∧ tally x (TtPldrWorkItem w).2 = tally x w.
Proof.
  split_and!; intros; try (match goal with |- tally _ (?m w).2 = tally _ w => assert (Steps Conserves m) as Hm by conserve_walk end; apply Hm).
  - apply caller_context_settles.
  - apply device_control_settles.
  - unfold deliver. set (w1 := w <| w_reqs := <[r := q]> (w_reqs w) |>).
    pose proof (caller_context_settles true (Some f) r (rq_Code q) w1 x) as H. unfold mbind, st_bind, modify. cbn [fst snd].
    fold w1. destruct (TtEvtIoInCallerContext true (Some f) r (rq_Code q) w1) as [[|] w2]; cbn [fst snd] in *; [exact H|].
    rewrite (device_control_settles f r (rq_Code q) w2 x), H. change (tally x w1) with (tally x w). lia.
  - apply file_create_settles.
  - apply file_cleanup_conserves.
  - apply surprise_conserves.
Qed.
End settled.

(** Request 9 of handle 2 waits for lock 3, which handle 1 holds; when handle 1
    closes, it is completed, once. *)
Definition req_block := io_req 2 (TT_CTL 8) [16; 0; 0; 0; 3; 0; 0; 0; 3; 0; 0; 0] 16.
Definition run_block : World (P := sim) := (deliver 2 9 req_block run6).2.

Lemma requests_settled_once_witness :
  waiters run_block = [9] ∧ tally 9 run_block = 1
  ∧ waiters (TtEvtFileCleanup 1 run_block).2 = [] ∧ tally 9 (TtEvtFileCleanup 1 run_block).2 = 1.
Proof.
  assert (waiters run_block = [9]) as H1 by (vm_compute; reflexivity).
  assert (tally 9 run_block = 1) as H2.
  { etrans; [exact (proj1 (proj2 (proj2 (requests_settled_once run6 9))) 2 9 req_block) | vm_compute; reflexivity]. }
  split_and!; [exact H1 | exact H2 | vm_compute; reflexivity |].
  destruct (requests_settled_once run_block 9) as (_ & _ & _ & _ & H3 & _). by rewrite H3.
Defined.
