(* ===== verification/IoctlSpec.v ===== *)
(** * The gates in front of the handlers

    A request that a gate refuses touches nothing: it takes and drops the reset
    lock and is completed with an error. *)
From S2P Require Import Prelude Platform Frame Trace Sim Abi PciConfig Blackhole Iatu Tlb Memory Locks.
From S2P Require Import Power Telemetry Reset Ioctl Device Balance Handles System.

Section gates.
Context {P : Platform}.

(** The state after the driver refused request [r] with status [s]. *)
Record refused (r : Z) (s : NTSTATUS) (w w' : World) : Prop := {
  rf_status : NT_SUCCESS s = false;
  rf_trace : ∃ l, l ∈ [EvLock ResetResource; EvLockShared]
    ∧ w_trace w' = EvComplete r s :: EvUnlock ResetResource :: l :: w_trace w;
  rf_frame : Frame [COs; CTrace] w w'
}.

(** The conditions of TtCheckIoGates under which a request fails. *)
Definition stale (f : Z) (w : World) : Prop := OpenResetGen (file_ctx f w) ≠ ResetGen (w_gate w).

Lemma gates_result f nr w :
  ∃ s, TtCheckIoGates (Some f) nr w = (s, w)
  ∧ (NT_SUCCESS s = true ↔
     Detached (w_gate w) = false ∧ ¬ stale f w ∧ (NeedsHwInit (w_gate w) = true → nr ∈ [MAXUINT32; 0; 5; 6])).
Proof.
  unfold TtCheckIoGates, stale, TtGetFileContext. run.
  destruct (Detached (w_gate w)); [exists STATUS_DEVICE_REMOVED; split; [done|]; by split; [|intros [??]]|].
  destruct (Z.eqb_spec (OpenResetGen (file_ctx f w)) (ResetGen (w_gate w))) as [E|E]; cbn [negb];
    [|exists STATUS_DEVICE_REMOVED; split; [done|]; by split; [|intros (_ & ? & _)]].
  destruct (NeedsHwInit (w_gate w)); cbn [andb]; [|exists STATUS_SUCCESS; split; [done|]; split; [|done]; intros _;
    split_and!; [done | by intros H | done]].
  destruct (Z.eqb_spec nr MAXUINT32) as [->|H1]; [|destruct (Z.eqb_spec nr 0) as [->|H2]; [|destruct (Z.eqb_spec nr 5) as [->|H3];
    [|destruct (Z.eqb_spec nr 6) as [->|H4]]]]; cbn [negb andb].
  5:{ eexists. split; [reflexivity|]. split; [by destruct (nr =? 258)|]. intros (_ & _ & H). exfalso.
      specialize (H eq_refl). set_solver. }
  all: exists STATUS_SUCCESS; split; [done|]; split; [|done]; intros _; split_and!; [done | by intros H | intros _; set_solver].
Qed.

(** A control code of no request the driver knows. *)
Lemma unknown_code f r code w :
  TtIoctlNr code = MAXUINT32 → dispatch_code f r code w = ((STATUS_INVALID_PARAMETER, false), w).
Proof.
  intros H. unfold dispatch_code. cbv zeta.
  repeat match goal with |- context [code =? ?k] => destruct (Z.eqb_spec code k) as [->|_]; [vm_compute in H; discriminate H|] end.
  rewrite H. reflexivity.
Qed.

(** C20 The default queue's gate: after removal, on a handle from before the last
    reset, and between a reset and POST_RESET for everything but
    GET_DEVICE_INFO, GET_DRIVER_INFO and RESET_DEVICE, a request is completed
    with an error and reads and writes neither the card nor the driver's
    state. *)
Theorem gated_request_has_no_effect f r code w :
  Detached (w_gate w) = true ∨ stale f w ∨ (NeedsHwInit (w_gate w) = true ∧ TtIoctlNr code ∉ [0; 5; 6]) →
  ∃ s, refused r s w (TtEvtIoDeviceControl f r code w).2.
Proof.
  intros Hg. set (w1 := ((if TtIoctlNr code =? 6 then TtResetAcquireExclusive else TtResetAcquireShared) w).2).
  assert (w_gate w1 = w_gate w ∧ file_ctx f w1 = file_ctx f w ∧ Frame [COs; CTrace] w w1
    ∧ ∃ l, l ∈ [EvLock ResetResource; EvLockShared] ∧ w_trace w1 = l :: w_trace w) as (Eg & Ef & Hf & l & Hl & Ht).
  { unfold w1. destruct (_ =? 6); (split_and!; [done | done | apply (emit_frame _ w) |]; eexists; split; [|reflexivity]; set_solver). }
  destruct (gates_result f (TtIoctlNr code) w1) as (s & Es & Hs). unfold stale in *. rewrite Eg, Ef in Hs.
  assert (∀ s, NT_SUCCESS s = false → refused r s w (WdfRequestComplete r s (TtResetRelease w1).2).2) as Hr.
  { intros s' Hs'. split; [done | exists l; split; [done|]; cbn; by rewrite Ht |].
    etrans; [exact Hf|]. etrans; apply emit_frame. }
  unfold TtEvtIoDeviceControl. cbv zeta. unfold mbind, st_bind. cbn [fst snd]. fold w1. rewrite Es. cbn [fst snd].
  destruct (NT_SUCCESS s) eqn:E; cbn [negb]; [|by eexists; apply Hr].
  destruct (proj1 Hs eq_refl) as (H1 & H2 & H3). destruct Hg as [Hg|[Hg|[Hg Hn]]]; [congruence | done |].
  specialize (H3 Hg). assert (TtIoctlNr code = MAXUINT32) as Eu by set_solver.
  rewrite (unknown_code f r code w1 Eu). cbn [fst snd negb]. by eexists; apply Hr.
Qed.

Lemma caller_gate_nr_in code : in_caller_code code = true →
  caller_gate_nr code ∈ [MAXUINT32; 0; 5; 6] ↔ code = IOCTL_TENSTORRENT_MAP ∨ code = IOCTL_TENSTORRENT_UNMAP.
Proof.
  unfold in_caller_code, caller_gate_nr. rewrite !orb_true_iff, !Z.eqb_eq.
  intros [[[->| ->]| ->]| ->]; (split; [intros H; first [by left | by right | exfalso; revert H; by apply (bool_decide_unpack _)]
    | intros [H|H]; first [by apply (bool_decide_unpack _) | discriminate H]]).
Qed.

(** The gate in the caller's context: MAP, UNMAP, PIN_PAGES and UNPIN_PAGES
    from a process that did not open the handle, after removal or on a stale
    handle, and PIN_PAGES and UNPIN_PAGES also in the reset window, are
    completed with an error and have no other effect. *)
Theorem caller_request_refused f r code w :
  in_caller_code code = true →
  CreatorProcess (file_ctx f w) ≠ Some (w_process w) ∨ Detached (w_gate w) = true ∨ stale f w
    ∨ (NeedsHwInit (w_gate w) = true ∧ code ∈ [IOCTL_TENSTORRENT_PIN_PAGES; IOCTL_TENSTORRENT_UNPIN_PAGES]) →
  ∃ s, refused r s w (TtEvtIoInCallerContext true (Some f) r code w).2.
Proof.
  intros Hc Hg. unfold TtEvtIoInCallerContext. rewrite Hc. cbn [negb orb].
  set (w1 := (TtResetAcquireShared w).2).
  assert (∀ s, NT_SUCCESS s = false → refused r s w (WdfRequestComplete r s (TtResetRelease w1).2).2) as Hr.
  { intros s' Hs'. split; [done | exists EvLockShared; split; [set_solver | reflexivity] |].
    unfold w1. etrans; [apply emit_frame|]. etrans; apply emit_frame. }
  destruct (gates_result f (caller_gate_nr code) w1) as (s & Es & Hs).
  unfold mbind, st_bind, gets, TtGetFileContext, gets, mret, st_ret. cbn [fst snd]. fold w1. rewrite Es. cbn [fst snd].
  destruct (NT_SUCCESS s) eqn:E; cbn [negb fst snd]; [|by eexists; apply Hr].
  change (file_ctx f w1) with (file_ctx f w). change (w_process w1) with (w_process w).
  case_bool_decide as Hp; cbn [negb fst snd]; [|by eexists; apply Hr]. exfalso.
  destruct (proj1 Hs eq_refl) as (H1 & H2 & H3). destruct Hg as [Hg|[Hg|[Hg|[Hg Hk]]]]; [done | | done |].
  - change (w_gate w1) with (w_gate w) in H1. congruence.
  - specialize (H3 Hg). apply (caller_gate_nr_in code Hc) in H3. destruct H3 as [-> | ->]; revert Hk; by_decision.
Qed.
End gates.

(** ** Instances: a removed card, and a handle used from another process *)
Definition run_removed : World (P := sim) := (TtEvtDeviceSurpriseRemoval run6).2.

Lemma gated_request_has_no_effect_witness :
  ∃ s, refused 9 s run_removed (TtEvtIoDeviceControl 1 9 (TT_CTL 3) run_removed).2.
Proof. apply (gated_request_has_no_effect 1 9 (TT_CTL 3) run_removed). left. vm_compute. reflexivity. Defined.

Definition run_other_process : World (P := sim) := run6 <| w_process := 8 |>.

Lemma caller_request_refused_witness :
  ∃ s, refused 9 s run_other_process (TtEvtIoInCallerContext true (Some 1) 9 IOCTL_TENSTORRENT_PIN_PAGES run_other_process).2.
Proof.
  apply (caller_request_refused 1 9 IOCTL_TENSTORRENT_PIN_PAGES run_other_process); [vm_compute; reflexivity|].
  left. by_decision.
Defined.
