(* ===== verification/ResetSpec.v ===== *)
(** * What a reset does to the handles

    The zap leaves only views of DMA buffers, the generation bump makes every
    other handle stale, and the reset window opens and closes. *)
From S2P Require Import Prelude Platform Frame Trace Sim Abi PciConfig PciConfigSpec Blackhole Iatu Tlb Memory Locks.
From S2P Require Import Power Telemetry Reset Ioctl Device Balance Handles System IoctlSpec.

Section reset.
Context {P : Platform}.

(** ** The zap *)
Definition dma_views (l : list TT_USER_MAPPING) : list TT_USER_MAPPING := filter (λ m, um_IsDmaBuf m = true) l.

Lemma destroy_mapping_file m g w : Mappings (file_ctx g (TtDestroyUserMapping m w).2) = Mappings (file_ctx g w).
Proof. exact (frame_at FMappings _ _ w (TtDestroyUserMapping_frame m) eq_refl g). Qed.

Lemma zap_list_spec f kept rest w g :
  Mappings (file_ctx f w) = kept ++ rest →
  Mappings (file_ctx g (zap_list f kept rest w).2)
  = if decide (g = f) then kept ++ dma_views rest else Mappings (file_ctx g w).
Proof.
  revert kept w. induction rest as [|m rest IH]; intros kept w H; cbn [zap_list].
  - change (Mappings (file_ctx g w) = if decide (g = f) then kept ++ [] else Mappings (file_ctx g w)).
    by destruct (decide (g = f)) as [->|].
  - unfold dma_views. rewrite filter_cons. destruct (um_IsDmaBuf m) eqn:E.
    + rewrite (decide_True (P := true = true)) by done. rewrite IH by (by rewrite <- app_assoc). by rewrite <- app_assoc.
    + rewrite (decide_False (P := false = true)) by done. unfold mbind, st_bind. cbn [fst snd].
      set (w1 := (upd_file f (λ c, c <| Mappings := kept ++ rest |>) w).2).
      assert (∀ h, Mappings (file_ctx h w1) = if decide (f = h) then kept ++ rest else Mappings (file_ctx h w)) as H1.
      { intros h. unfold w1. rewrite upd_file_ctx. by destruct (decide (f = h)). }
      rewrite IH by (rewrite destroy_mapping_file, H1; by rewrite decide_True).
      rewrite destroy_mapping_file, H1. destruct (decide (g = f)) as [->|Hn]; [done|]. by rewrite decide_False by congruence.
Qed.

Lemma zap_file_spec f w g :
  Mappings (file_ctx g (zap_file f w).2)
  = if decide (g = f) then dma_views (Mappings (file_ctx g w)) else Mappings (file_ctx g w).
Proof.
  unfold zap_file, TtGetFileContext, gets, mbind, st_bind. cbn [fst snd].
  set (w1 := (acquire (FileLock f) w).2).
  change (file_ctx g (release (FileLock f) (zap_list f [] (Mappings (file_ctx f w1)) w1).2).2)
    with (file_ctx g (zap_list f [] (Mappings (file_ctx f w1)) w1).2).
  rewrite zap_list_spec by done. change (file_ctx g w1) with (file_ctx g w). change (file_ctx f w1) with (file_ctx f w).
  by destruct (decide (g = f)) as [->|].
Qed.

Lemma dma_views_idemp l : dma_views (dma_views l) = dma_views l.
Proof.
  unfold dma_views. induction l as [|m l IH]; [done|]. rewrite !filter_cons.
  destruct (decide (um_IsDmaBuf m = true)); [|done]. rewrite filter_cons, decide_True by done. by rewrite IH.
Qed.

Lemma zap_all_spec fs w g :
  Mappings (file_ctx g (for_each fs zap_file w).2)
  = if decide (g ∈ fs) then dma_views (Mappings (file_ctx g w)) else Mappings (file_ctx g w).
Proof.
  revert w. induction fs as [|f fs IH]; intros w; cbn [for_each].
  { rewrite decide_False by apply not_elem_of_nil. done. }
  unfold mbind, st_bind. cbn [fst snd]. rewrite IH, zap_file_spec.
  destruct (decide (g = f)) as [->|Hn].
  - rewrite (decide_True (P := f ∈ f :: fs)) by left. by destruct (decide (f ∈ fs)); rewrite ?dma_views_idemp.
  - destruct (decide (g ∈ fs)); [by rewrite decide_True by by right|].
    rewrite decide_False; [done|]. by intros [?|?]%elem_of_cons.
Qed.

Lemma zap_spec w g :
  Mappings (file_ctx g (TtResetZapMappings w).2)
  = if decide (g ∈ FileList w) then dma_views (Mappings (file_ctx g w)) else Mappings (file_ctx g w).
Proof.
  unfold TtResetZapMappings, gets, mbind, st_bind. cbn [fst snd]. set (w1 := (acquire FileListLock w).2).
  change (file_ctx g (release FileListLock (for_each (FileList w1) zap_file w1).2).2)
    with (file_ctx g (for_each (FileList w1) zap_file w1).2).
  rewrite zap_all_spec. done.
Qed.

(** ** The generation *)
Lemma bump_gen_spec f w (gen := signed64 (ResetGen (w_gate w) + 1)) :
  w_gate (TtBumpResetGen (Some f) w).2 = w_gate w <| ResetGen := gen |>
  ∧ ∀ g, OpenResetGen (file_ctx g (TtBumpResetGen (Some f) w).2) = if decide (g = f) then gen else OpenResetGen (file_ctx g w).
Proof.
  unfold TtBumpResetGen, modify, gets, compose, mbind, st_bind. cbn [fst snd].
  set (w1 := w <| w_gate := w_gate w <| ResetGen := signed64 (ResetGen (w_gate w) + 1) |> |>).
  set (w2 := (upd_file f _ w1).2). set (w3 := (acquire LockLock w2).2).
  assert (Frame [COs; CTrace; CWaitQueue; CReqs; CLocks; FLocks] w2 (release LockLock (TtLocksWakeWaiters w3).2).2) as Hf.
  { etrans; [eapply frame_weaken; [apply (acquire_frame LockLock) | reflexivity]|].
    etrans; [apply TtLocksWakeWaiters_frame|]. eapply frame_weaken; [apply release_frame | reflexivity]. }
  split.
  - etrans; [exact (Hf CGate eq_refl)|]. done.
  - intros g. etrans; [exact (Hf FGen eq_refl g)|]. unfold w2. rewrite upd_file_ctx.
    destruct (decide (f = g)) as [->|Hn]; [by rewrite decide_True|]. by rewrite decide_False by congruence.
Qed.
End reset.

Section window.
Context {P : Platform}.

(** The common start of the resets: from here on [f] is current, the other
    handles are stale, and the listed handles have only views of DMA buffers. *)
Record quiesced (f : Z) (w w' : World) : Prop := {
  qu_gate : w_gate w' = w_gate w <| ResetGen := signed64 (ResetGen (w_gate w) + 1) |>;
  qu_gen g : OpenResetGen (file_ctx g w')
    = if decide (g = f) then signed64 (ResetGen (w_gate w) + 1) else OpenResetGen (file_ctx g w);
  qu_views g : g ∈ FileList w → ∀ m, m ∈ Mappings (file_ctx g w') → um_IsDmaBuf m = true;
  qu_id : w_id w' = w_id w
}.

Lemma bump_zap_quiesces f w : quiesced f w (TtResetZapMappings (TtBumpResetGen (Some f) w).2).2.
Proof.
  destruct (bump_gen_spec f w) as [B1 B2]. pose proof (TtBumpResetGen_frame (Some f) w) as Fb.
  revert B1 B2 Fb. generalize (TtBumpResetGen (Some f) w).2. intros w1 B1 B2 Fb.
  pose proof (TtResetZapMappings_frame w1) as Fz. pose proof (zap_spec w1) as Z. revert Fz Z.
  generalize (TtResetZapMappings w1).2. intros w2 Fz Z. split.
  - by rewrite (Fz CGate eq_refl).
  - intros g. etrans; [exact (Fz FGen eq_refl g)|]. apply B2.
  - intros g Hg m. rewrite Z. rewrite (Fb CFileList eq_refl : FileList w1 = FileList w), decide_True by done.
    by intros [? _]%list_elem_of_filter.
  - rewrite (Fz CId eq_refl). exact (Fb CId eq_refl).
Qed.

Lemma quiesced_frame f w w1 w2 fp :
  quiesced f w w1 → Frame fp w1 w2 → cdisj [CGate; FGen; FMappings; CId] fp = true → quiesced f w w2.
Proof.
  intros [Q1 Q2 Q3 Q4] Hf Hd.
  assert (∀ c, cmem c [CGate; FGen; FMappings; CId] = true → agree c w1 w2) as Ha.
  { intros c Hc. apply Hf. unfold cdisj in Hd. rewrite forallb_forall in Hd.
    unfold cmem in Hc. apply bool_decide_eq_true, list_elem_of_In, Hd in Hc. by apply negb_true_iff in Hc. }
  split.
  - by rewrite (Ha CGate eq_refl).
  - intros g. rewrite (Ha FGen eq_refl g : OpenResetGen _ = _). apply Q2.
  - intros g Hg m. rewrite (Ha FMappings eq_refl g : Mappings _ = _). by apply Q3.
  - by rewrite (Ha CId eq_refl).
Qed.

Lemma signed64_succ z : signed64 z = z → signed64 (z + 1) ≠ z.
Proof.
  unfold signed64, wrap64, wrap. intros H Hn.
  pose proof (Z.mod_pos_bound z (2 ^ 64) ltac:(lia)). pose proof (Z.mod_pos_bound (z + 1) (2 ^ 64) ltac:(lia)).
  pose proof (Z_div_mod_eq_full z (2 ^ 64)). pose proof (Z_div_mod_eq_full (z + 1) (2 ^ 64)).
  destruct (Z.leb_spec (2 ^ 63) (z mod 2 ^ 64)), (Z.leb_spec (2 ^ 63) ((z + 1) mod 2 ^ 64)); lia.
Qed.

Lemma quiesced_window f w w1 :
  quiesced f w w1 → signed64 (ResetGen (w_gate w)) = ResetGen (w_gate w) →
  let w' := (set_needs_hw_init true w1).2 in
  NeedsHwInit (w_gate w') = true ∧ ¬ stale f w' ∧ (∀ g, g ≠ f → ¬ stale g w → stale g w')
  ∧ ∀ g m, g ∈ FileList w → m ∈ Mappings (file_ctx g w') → um_IsDmaBuf m = true.
Proof.
  intros [Q1 Q2 Q3 _] Hr w'. subst w'. unfold stale, set_needs_hw_init, modify. cbn [snd].
  change (w_gate (w1 <| w_gate := w_gate w1 <| NeedsHwInit := true |> |>)) with (w_gate w1 <| NeedsHwInit := true |>).
  assert (∀ g, file_ctx g (w1 <| w_gate := w_gate w1 <| NeedsHwInit := true |> |>) = file_ctx g w1) as Hc by done.
  setoid_rewrite Hc. rewrite Q1. cbn. split_and!; [done | | | by intros g m Hg; apply Q3].
  - intros H. apply H. by rewrite Q2, decide_True.
  - intros g Hn Hs. rewrite Q2, decide_False by done. intros H. apply Hs. intros He. rewrite He in H.
    by apply (signed64_succ (ResetGen (w_gate w))).
Qed.

(** What the policy for cards refuses. *)
Lemma permitted_refuses i flags : TtResetLegacyFlagPermitted i flags = false →
  (SubsysVendorId i ≠ 0 ∨ SubsysId i ≠ 0)
  ∧ (flags = TENSTORRENT_RESET_DEVICE_CONFIG_WRITE ∨ flags = TENSTORRENT_RESET_DEVICE_ASIC_RESET).
Proof.
  unfold TtResetLegacyFlagPermitted. destruct (negb _ && negb _) eqn:E; [done|]. intros Hi.
  rewrite andb_false_iff, !Z.eqb_neq in Hi. rewrite andb_false_iff, !negb_false_iff, !Z.eqb_eq in E. by split.
Qed.

Lemma reset_flavor_refused fo flags w :
  flags ∈ [TENSTORRENT_RESET_DEVICE_CONFIG_WRITE; TENSTORRENT_RESET_DEVICE_ASIC_RESET] →
  TtResetLegacyFlagPermitted (w_id w) flags = false → reset_flavor fo flags w = (Some false, w).
Proof.
  intros Hf Hp. unfold reset_flavor, mbind, st_bind, gets. cbn [fst snd].
  rewrite !elem_of_cons, elem_of_nil in Hf. destruct Hf as [->|[->|[]]]; cbn [Z.eqb Pos.eqb orb]; by rewrite Hp.
Qed.

(** C21 The reset window: USER_RESET, ASIC_RESET and ASIC_DMC_RESET on handle [f].
    A flavor that the card's policy refuses (of these, ASIC_RESET when a
    subsystem identity is known) is answered with failure and changes nothing.
    Any other leaves the device waiting for POST_RESET, keeps [f] usable, makes
    every other handle that was current stale, and takes every view but those of
    DMA buffers out of every open handle, whether or not the reset itself
    succeeds.  The hypothesis on the generation says that it is a LONG64. *)
Theorem reset_opens_window f flags w :
  flags ∈ [TENSTORRENT_RESET_DEVICE_USER_RESET; TENSTORRENT_RESET_DEVICE_ASIC_RESET;
           TENSTORRENT_RESET_DEVICE_ASIC_DMC_RESET] →
  signed64 (ResetGen (w_gate w)) = ResetGen (w_gate w) →
  if TtResetLegacyFlagPermitted (w_id w) flags then
    let w' := (reset_flavor (Some f) flags w).2 in
    NeedsHwInit (w_gate w') = true ∧ ¬ stale f w' ∧ (∀ g, g ≠ f → ¬ stale g w → stale g w')
    ∧ ∀ g m, g ∈ FileList w → m ∈ Mappings (file_ctx g w') → um_IsDmaBuf m = true
  else
    flags = TENSTORRENT_RESET_DEVICE_ASIC_RESET
    ∧ (SubsysVendorId (w_id w) ≠ 0 ∨ SubsysId (w_id w) ≠ 0)
    ∧ reset_flavor (Some f) flags w = (Some false, w).
Proof.
  intros Hf Hr. destruct (TtResetLegacyFlagPermitted (w_id w) flags) eqn:Hp; cycle 1.
  { rewrite !elem_of_cons, elem_of_nil in Hf. destruct (permitted_refuses _ _ Hp) as [Hi Hfl].
    destruct Hf as [->|[->|[->|[]]]]; [by destruct Hfl | | by destruct Hfl].
    split_and!; [done | exact Hi | apply reset_flavor_refused; [right; left | exact Hp]]. }
  intros w'. subst w'.
  assert (∃ w1, quiesced f w w1 ∧ (reset_flavor (Some f) flags w).2 = (set_needs_hw_init true w1).2) as (w1 & Q & ->);
    [|by apply quiesced_window].
  pose proof (bump_zap_quiesces f w) as Q.
  assert ((reset_flavor (Some f) flags w).2
    = if flags =? TENSTORRENT_RESET_DEVICE_USER_RESET then (reset_user (Some f) w).2 else (reset_asic (Some f) flags w).2) as ->.
  { unfold reset_flavor, mbind, st_bind, gets. cbn [fst snd].
    rewrite !elem_of_cons, elem_of_nil in Hf. destruct Hf as [->|[->|[->|[]]]]; cbn [Z.eqb Pos.eqb orb]; [done|..];
      by rewrite Hp. }
  destruct (_ =? _).
  - unfold reset_user, mbind, st_bind. cbn [fst snd]. eexists. split; [|reflexivity].
    exact (quiesced_frame f w _ _ [COs; CTrace] Q (TtSetResetMarker_frame _) eq_refl).
  - unfold reset_asic, mbind, st_bind, gets. cbn [fst snd]. eexists. split; [|reflexivity].
    refine (quiesced_frame f w _ _ [COs; CTrace] Q _ eq_refl).
    destruct ((IsBlackhole ∘ w_id) _); [apply TtBhReset_frame | intros c _; by destruct c].
Qed.
End window.

(** ** Refused resets, and the end of the window *)
Section refused.
Context {P : Platform}.

(** On a card (a subsystem identity that is not all zero) the flavors that
    reset it through configuration space, CONFIG_WRITE and ASIC_RESET, are
    answered with failure before anything happens: no event, no state change,
    no handle made stale. *)
Theorem legacy_reset_refused fo flags w :
  flags ∈ [TENSTORRENT_RESET_DEVICE_CONFIG_WRITE; TENSTORRENT_RESET_DEVICE_ASIC_RESET] →
  SubsysVendorId (w_id w) ≠ 0 ∨ SubsysId (w_id w) ≠ 0 →
  reset_flavor fo flags w = (Some false, w).
Proof.
  intros Hf Hi.
  assert (TtResetLegacyFlagPermitted (w_id w) flags = false) as Hp.
  { assert ((SubsysVendorId (w_id w) =? 0) && (SubsysId (w_id w) =? 0) = false) as E
      by (rewrite andb_false_iff, !Z.eqb_neq; exact Hi).
    unfold TtResetLegacyFlagPermitted. rewrite E. rewrite !elem_of_cons, elem_of_nil in Hf.
    by destruct Hf as [->|[->|[]]]. }
  by apply reset_flavor_refused.
Qed.

Context `{!ConfigLaws P}.

Lemma marker_read w :
  BusInterfaceValid w = true →
  (TtIsResetMarkerZero w).1 = (Z.land (cfg w TT_PCI_COMMAND 2) TT_PCI_COMMAND_PARITY =? 0)
  ∧ just_read w (TtIsResetMarkerZero w).2 ∧ w_saved (TtIsResetMarkerZero w).2 = w_saved w.
Proof.
  intros Hb. unfold TtIsResetMarkerZero, mbind, st_bind. destruct (read_word_reads TT_PCI_COMMAND w Hb) as (R1 & R2 & R3).
  destruct (TtCfgReadWord TT_PCI_COMMAND w) as [r w1]. cbn [fst snd] in *. by subst r.
Qed.

(** C32 POST_RESET, when the bus interface is there, closes the window in every
    case.  With the window open, when the reset has not happened (the marker
    that USER_RESET left in the Command register is still there), the device does
    not answer, or no snapshot exists, it answers failure, writes no
    configuration register and sends nothing to the card.  With the window
    already closed it only answers whether the marker is clear: no register is
    written and the state of the device stays as it is. *)
Theorem post_reset_spec fo w :
  BusInterfaceValid w = true →
  let r := reset_flavor fo TENSTORRENT_RESET_DEVICE_POST_RESET w in
  NeedsHwInit (w_gate r.2) = false
  ∧ (NeedsHwInit (w_gate w) = true →
     Z.land (cfg w TT_PCI_COMMAND 2) TT_PCI_COMMAND_PARITY ≠ 0 ∨ cfg w 0x00 2 ≠ TT_PCI_VENDOR_ID
       ∨ SavedStateValid (w_saved w) = false →
     r.1 = Some false ∧ cfg_writes (w_trace r.2) = cfg_writes (w_trace w)
     ∧ ∃ new, w_trace r.2 = new ++ w_trace w ∧ all_kinds [KCfg] new = true)
  ∧ (NeedsHwInit (w_gate w) = false →
     r.1 = Some (Z.land (cfg w TT_PCI_COMMAND 2) TT_PCI_COMMAND_PARITY =? 0)
     ∧ cfg_writes (w_trace r.2) = cfg_writes (w_trace w)
     ∧ (∃ new, w_trace r.2 = new ++ w_trace w ∧ all_kinds [KCfg] new = true)
     ∧ Frame [COs; CTrace] w r.2).
Proof.
  intros Hb r. subst r.
  assert ((reset_flavor fo TENSTORRENT_RESET_DEVICE_POST_RESET w).1 = Some (reset_post w).1
    ∧ (reset_flavor fo TENSTORRENT_RESET_DEVICE_POST_RESET w).2 = (reset_post w).2) as [-> ->].
  { assert (reset_flavor fo TENSTORRENT_RESET_DEVICE_POST_RESET w = (ok ← reset_post; mret (Some ok)) w) as -> by reflexivity.
    unfold mbind, st_bind. generalize (reset_post w). by intros []. }
  destruct (marker_read w Hb) as (M1 & M2 & M3). pose proof (TtIsResetMarkerZero_emits w) as M4.
  pose proof (TtIsResetMarkerZero_frame w) as M5.
  unfold reset_post, set_needs_hw_init, modify, gets, compose, mbind, st_bind. cbn [fst snd].
  revert M1 M2 M3 M4 M5. generalize (TtIsResetMarkerZero w). intros [ok w1]. cbn [fst snd]. intros -> M2 M3 M4 M5.
  assert (w_gate w1 = w_gate w) as Hg by exact (jr_frame _ _ M2 CGate eq_refl).
  rewrite (f_equal NeedsHwInit Hg).
  destruct (NeedsHwInit (w_gate w)) eqn:Hn; cbn [negb].
  2:{ split; [etrans; [exact (f_equal NeedsHwInit Hg) | exact Hn]|]. split; [discriminate|]. intros _.
    split_and!; [done | exact (jr_writes _ _ M2) | exact M4 | exact M5]. }
  set (w2 := w1 <| w_gate := w_gate w1 <| NeedsHwInit := false |> |>).
  assert (BusInterfaceValid w2 = true) as Hb2 by exact (eq_trans (just_read_bus _ _ M2) Hb).
  assert (∀ o n, cfg w2 o n = cfg w o n) as Hc2 by exact (jr_cfg _ _ M2).
  assert (w_saved w2 = w_saved w) as Hs2 by exact M3.
  assert (NeedsHwInit (w_gate w2) = false) as Hn2 by done.
  assert (cfg_writes (w_trace w2) = cfg_writes (w_trace w)) as Hw2 by exact (jr_writes _ _ M2).
  assert (∃ new, w_trace w2 = new ++ w_trace w ∧ all_kinds [KCfg] new = true) as Ht2 by exact M4. clearbody w2.
  destruct (Z.eqb_spec (Z.land (cfg w TT_PCI_COMMAND 2) TT_PCI_COMMAND_PARITY) 0) as [Hm|Hm].
  2:{ split; [exact Hn2|]. split; [|discriminate]. intros _ _. split_and!; [done | exact Hw2 | exact Ht2]. }
  pose proof (safe_restore_refused w2) as Hr. pose proof (TtSafeRestoreState_frame w2 CGate eq_refl) as Hf.
  pose proof (TtSafeRestoreState_emits w2) as He. rewrite Hc2, Hs2 in Hr.
  revert Hr Hf He. generalize (TtSafeRestoreState w2). intros [ok w3] Hr Hf He. cbn [fst snd] in *.
  assert (NeedsHwInit (w_gate w3) = false) as Hn3 by (etrans; [exact (f_equal NeedsHwInit Hf) | exact Hn2]).
  split.
  - destruct ok; cbn [negb]; [|exact Hn3]. destruct (IsBlackhole (w_id w3)); cbn [negb]; [|exact Hn3].
    assert (Steps (Frame [COs; CTrace; CTelem]) (TtBhRestoreResetState;; ok ← TtBhInitHardware;
      (if (ok : bool) then TtBhTelemetryProbe;; mret tt else mret tt);; mret ok)) as Hinit by frame_walk.
    exact (eq_trans (f_equal NeedsHwInit (Hinit w3 CGate eq_refl)) Hn3).
  - split; [|discriminate]. intros _ H. destruct Hr as (-> & Hw3 & _); [destruct H as [?|[?|?]]; [congruence | right; by left | right; by right]|].
    cbn [negb]. split_and!; [done | exact (eq_trans Hw3 Hw2) |]. exact (transitivity (R := Emits [KCfg]) Ht2 He).
Qed.
End refused.

(** ** Instances: handle 2 asks for a user reset while handle 1 has a view *)
Lemma reset_opens_window_witness :
  let w' := (reset_flavor (Some 2) TENSTORRENT_RESET_DEVICE_USER_RESET run6).2 in
  NeedsHwInit (w_gate w') = true ∧ ¬ stale 2 w' ∧ stale 1 w'.
Proof.
  assert (signed64 (ResetGen (w_gate run6)) = ResetGen (w_gate run6)) as Hg by (vm_compute; reflexivity).
  assert (TtResetLegacyFlagPermitted (w_id run6) TENSTORRENT_RESET_DEVICE_USER_RESET = true) as Hp by reflexivity.
  pose proof (reset_opens_window 2 TENSTORRENT_RESET_DEVICE_USER_RESET run6 ltac:(left) Hg) as H. rewrite Hp in H.
  destruct H as (H1 & H2 & H3 & _).
  split; [exact H1|]. split; [exact H2|]. apply H3; [discriminate|]. intros H. apply H. vm_compute. reflexivity.
Defined.

Lemma legacy_reset_refused_witness :
  reset_flavor (Some 2) TENSTORRENT_RESET_DEVICE_ASIC_RESET sim_world = (Some false, sim_world).
Proof.
  assert (SubsysVendorId (w_id sim_world) ≠ 0) as H by (vm_compute; discriminate).
  apply legacy_reset_refused; [right; left | by left].
Defined.

(** The marker of USER_RESET is still set. *)
Definition marked_world : World (P := sim) :=
  cfg_world <| w_gate := mkGate false true 0 |>
    <| w_os := (sim_set_cfg 0x04 0x46 sim_cfg_os : OS (Platform := sim)) |>.

Lemma post_reset_spec_witness :
  (reset_flavor (Some 2) TENSTORRENT_RESET_DEVICE_POST_RESET marked_world).1 = Some false
  ∧ NeedsHwInit (w_gate (reset_flavor (Some 2) TENSTORRENT_RESET_DEVICE_POST_RESET marked_world).2) = false.
Proof.
  assert (BusInterfaceValid marked_world = true) as Hb by (vm_compute; reflexivity).
  assert (NeedsHwInit (w_gate marked_world) = true) as Hn by (vm_compute; reflexivity).
  assert (Z.land (cfg marked_world TT_PCI_COMMAND 2) TT_PCI_COMMAND_PARITY ≠ 0) as Hm by (vm_compute; discriminate).
  destruct (post_reset_spec (Some 2) marked_world Hb) as [H1 H2]. destruct ((proj1 H2) Hn (or_introl Hm)) as (H3 & _).
  exact (conj H3 H1).
Defined.
