(* ===== verification/Compat.v ===== *)
(** * The POSIX-shaped compatibility layer (ttwin_compat/ttwin_compat.c)

    User-mode shim: device enumeration by reference string, the ioctl number
    translation and buffer sizes, and the life cycle of a handle whose views
    outlive [tt_close].  WCHAR strings are lists of code units.  The Win32 calls
    are the class [Win32]; the shim logs the ones that concern a device handle. *)
From S2P Require Import Prelude Abi.

(** ** Enumeration *)
Definition is_digit (c : Z) : bool := (48 <=? c) && (c <=? 57).
Definition INT_MAX : Z := 0x7FFFFFFF.

(** [_wtoi] of a string that starts with a digit: it saturates. *)
Fixpoint digits_value (acc : Z) (s : list Z) : Z :=
  match s with
  | [] => acc
  | c :: r => if is_digit c then digits_value (acc * 10 + (c - 48)) r else acc
  end.
Definition wtoi (s : list Z) : Z := Z.min INT_MAX (digits_value 0 s).

Fixpoint is_prefix (p s : list Z) : bool :=
  match p, s with
  | [], _ => true
  | a :: p', b :: s' => (a =? b) && is_prefix p' s'
  | _ :: _, [] => false
  end.

(** [wcsstr]: the suffix that starts at the first occurrence. *)
Fixpoint wcsstr (s p : list Z) : option (list Z) :=
  if is_prefix p s then Some s
  else match s with [] => None | _ :: r => wcsstr r p end.

(** [L"\\TT"]: backslash, T, T. *)
Definition TT_REF : list Z := [92; 84; 84].

Definition tt_ordinal_from_path (path : list Z) : option Z :=
  match wcsstr path TT_REF with
  | None => None
  | Some s =>
      let tt := drop 3 s in
      match tt with
      | c :: _ => if is_digit c then Some (wtoi tt) else None
      | [] => None
      end
  end.

(** The strings of a double-NUL-terminated list, as the [for] loop visits them. *)
Fixpoint multi_sz (cur : list Z) (buf : list Z) : list (list Z) :=
  match buf with
  | [] => []
  | c :: r =>
      if c =? 0 then match cur with [] => [] | _ => cur :: multi_sz [] r end
      else multi_sz (cur ++ [c]) r
  end.

(** The loop of [tt_enumerate]: the ids stored ([ids]: the buffer is not NULL) and
    the count. *)
Definition enumerate_list (ids : bool) (buf : list Z) (max_ids : Z) : list Z * Z :=
  let found := omap tt_ordinal_from_path (multi_sz [] buf) in
  (if ids then take (Z.to_nat max_ids) found else [], Z.of_nat (length found)).

(** The path that [tt_open] opens. *)
Definition tt_open_path (buf : list Z) (device_id : Z) : option (list Z) :=
  head (filter (λ p, tt_ordinal_from_path p = Some device_id) (multi_sz [] buf)).

(** ** ioctl translation *)

(** [arg] is the first 32-bit word of the argument; [None] is a NULL pointer. *)
Definition tt_ioctl_size (nr : Z) (arg : option Z) : Z :=
  match nr with
  | 0 => 24
  | 2 => wrap32 (8 + wrap32 (default 0 arg * 24))
  | 3 => 64
  | 5 => 16
  | 6 => 16
  | 7 => 32
  | 8 => 16
  | 10 => 24
  | 11 => 48
  | 12 => 4
  | 13 => 48
  | 14 => 32
  | 15 => 40
  | _ => 0
  end.

(** ** The system *)
Definition ERROR_INVALID_HANDLE : Z := 6.
Definition ERROR_NOT_ENOUGH_MEMORY : Z := 8.
Definition ERROR_FILE_NOT_FOUND : Z := 2.
Definition ERROR_INVALID_PARAMETER : Z := 87.
Definition ERROR_NO_MORE_ITEMS : Z := 259.

Class Win32 := {
  WOS : Type;
  CM_Get_Device_Interface_List_SizeW : WOS → bool * Z * WOS;        (* CR_SUCCESS, length *)
  CM_Get_Device_Interface_ListW : Z → WOS → bool * list Z * WOS;
  calloc : WOS → bool * WOS;                                        (* not NULL *)
  CreateFileW : list Z → WOS → option Z * WOS;
  GetLastError : WOS → Z;
  (** handle, control code, the buffer for both directions *)
  DeviceIoControl : Z → Z → list Z → WOS → bool * list Z * WOS;
  CloseHandle : Z → WOS → WOS
}.

Inductive ShimEvent :=
  | ShIoctl (file code : Z)
  | ShClose (file : Z).

#[global] Instance ShimEvent_eq_dec : EqDecision ShimEvent.
Proof. solve_decision. Defined.

(** ** Handles and views *)
Record tt_view := mkView { v_addr : Z; v_length : Z }.

Record tt_device := mkDev {
  file : Z;
  device_id : Z;
  closed : bool;          (* tt_close called but views outstanding *)
  views : list tt_view;   (* head first *)
  freed : bool            (* free(h) was called *)
}.
#[global] Instance set_closed : Setter closed := λ F r, mkDev (file r) (device_id r) (F (closed r)) (views r) (freed r).
#[global] Instance set_views : Setter views := λ F r, mkDev (file r) (device_id r) (closed r) (F (views r)) (freed r).
#[global] Instance set_freed : Setter freed := λ F r, mkDev (file r) (device_id r) (closed r) (views r) (F (freed r)).

Section shim.
Context {W : Win32}.

Record Shim := mkShim {
  sh_os : WOS;
  g_last_error : Z;
  sh_log : list ShimEvent    (* newest first *)
}.
#[global] Instance set_g_last_error : Setter g_last_error := λ F r, mkShim (sh_os r) (F (g_last_error r)) (sh_log r).

Definition tt_get_last_error : ST Shim Z := gets g_last_error.
Definition set_error (e : Z) : ST Shim () := modify (λ s, s <| g_last_error := e |>).
Definition last_error : ST Shim Z := gets (GetLastError ∘ sh_os).

Definition sys {A} (f : WOS → A * WOS) (log : list ShimEvent) : ST Shim A := λ s,
  let r := f (sh_os s) in (r.1, mkShim r.2 (g_last_error s) (log ++ sh_log s)).

Definition tt_interface_list : ST Shim (option (list Z)) :=
  r ← sys CM_Get_Device_Interface_List_SizeW [];
  if negb r.1 || (r.2 <=? 1) then set_error ERROR_NO_MORE_ITEMS;; mret None
  else
    ok ← sys calloc [];
    if negb (ok : bool) then set_error ERROR_NOT_ENOUGH_MEMORY;; mret None
    else
      l ← sys (CM_Get_Device_Interface_ListW r.2) [];
      if negb l.1 then set_error ERROR_NO_MORE_ITEMS;; mret None else mret (Some l.2).

(** The ids stored and the value returned. *)
Definition tt_enumerate (ids : bool) (max_ids : Z) : ST Shim (list Z * Z) :=
  list_ ← tt_interface_list;
  mret (match list_ with None => ([], 0) | Some buf => enumerate_list ids buf max_ids end).

(** [tt_open] from the result of CreateFile on. *)
Definition open_file (device_id : Z) (file : option Z) : ST Shim (option tt_device) :=
  match file with
  | None => e ← last_error; set_error (if e =? 0 then ERROR_FILE_NOT_FOUND else e);; mret None
  | Some f =>
      ok ← sys calloc [];
      if negb (ok : bool) then
        sys (λ os, (tt, CloseHandle f os)) [ShClose f];; set_error ERROR_NOT_ENOUGH_MEMORY;; mret None
      else mret (Some (mkDev f device_id false [] false))
  end.

Definition tt_open (device_id : Z) : ST Shim (option tt_device) :=
  list_ ← tt_interface_list;
  match list_ with
  | None => mret None
  | Some buf =>
      file ← match tt_open_path buf device_id with
             | Some path => sys (CreateFileW path) []
             | None => mret None
             end;
      open_file device_id file
  end.

Definition io_control (h : tt_device) (code : Z) (buf : list Z) : ST Shim (bool * list Z) :=
  sys (DeviceIoControl (file h) code buf) [ShIoctl (file h) code].

(** [arg] are the bytes at the argument pointer ([None]: NULL), at least as many
    as the request's structure; the result holds what they became. *)
Definition tt_ioctl (h : option tt_device) (request : Z) (arg : option (list Z)) : ST Shim (Z * option (list Z)) :=
  match h with
  | None => set_error ERROR_INVALID_HANDLE;; mret (-1, arg)
  | Some h =>
      if negb (Z.land (Z.shiftr request 8) 0xFF =? TENSTORRENT_IOCTL_MAGIC)
      then set_error ERROR_INVALID_PARAMETER;; mret (-1, arg)
      else
        let nr := Z.land request 0xFF in
        let size := tt_ioctl_size nr ((λ b, le_decode (take 4 b)) <$> arg) in
        r ← io_control h (TT_CTL nr) (take (Z.to_nat size) (default [] arg));
        let arg' := (λ b, r.2 ++ drop (length r.2) b) <$> arg in
        if negb r.1 then e ← last_error; set_error e;; mret (-1, arg') else mret (0, arg')
  end.

Definition map_request (offset length : Z) : list Z :=
  sput tenstorrent_map_in "length" length (sput tenstorrent_map_in "mmap_offset" offset (szero tenstorrent_map)).
Definition unmap_request (addr : Z) : list Z :=
  sput tenstorrent_unmap_in "user_va" addr (szero tenstorrent_unmap).
Definition mapped_va (out : list Z) : Z :=
  sget tenstorrent_map_out "user_va" (drop (Z.to_nat (c_offsetof tenstorrent_map "out")) out).

(** The functions on a handle return it as it is afterwards; a NULL handle is
    [None].  The address is [None] for TT_MAP_FAILED. *)
Definition tt_mmap (h : option tt_device) (length offset : Z) : ST Shim (option tt_device * option Z) :=
  match h with
  | None => set_error ERROR_INVALID_HANDLE;; mret (None, None)
  | Some d =>
      r ← io_control d IOCTL_TENSTORRENT_MAP (map_request offset length);
      if negb r.1 then e ← last_error; set_error e;; mret (h, None)
      else
        let va := mapped_va r.2 in
        ok ← sys calloc [];
        if negb (ok : bool) then
          io_control d IOCTL_TENSTORRENT_UNMAP (unmap_request va);;
          set_error ERROR_NOT_ENOUGH_MEMORY;; mret (h, None)
        else mret (Some (d <| views := mkView va length :: views d |>), Some va)
  end.

Definition tt_maybe_free (h : tt_device) : ST Shim tt_device :=
  match closed h, views h with
  | true, [] => sys (λ os, (tt, CloseHandle (file h) os)) [ShClose (file h)];; mret (h <| freed := true |>)
  | _, _ => mret h
  end.

Definition drop_view (addr : Z) (vs : list tt_view) : list tt_view :=
  match remove_first (λ v, v_addr v =? addr) vs with Some (_, r) => r | None => vs end.

Definition tt_munmap (h : option tt_device) (addr : Z) : ST Shim (option tt_device * Z) :=
  match h with
  | None => set_error ERROR_INVALID_HANDLE;; mret (None, -1)
  | Some h =>
      let h := h <| views := drop_view addr (views h) |> in
      r ← io_control h IOCTL_TENSTORRENT_UNMAP (unmap_request addr);
      (if negb r.1 then e ← last_error; set_error e else mret tt);;
      h ← tt_maybe_free h;
      mret (Some h, if (r.1 : bool) then 0 else -1)
  end.

Definition tt_close (h : option tt_device) : ST Shim (option tt_device) :=
  match h with
  | None => mret None
  | Some h => d ← tt_maybe_free (h <| closed := true |>); mret (Some d)
  end.
End shim.

(** ** The sizes given to DeviceIoControl *)

(** The shim's table agrees with the layout of the request structures. *)
Lemma shim_sizes :
  (λ nr, tt_ioctl_size nr None) <$> [0; 3; 5; 6; 7; 8; 10; 11; 12; 13; 14; 15]
  = c_sizeof <$> [tenstorrent_get_device_info; tenstorrent_allocate_dma_buf; tenstorrent_get_driver_info;
      tenstorrent_reset_device; tenstorrent_pin_pages; tenstorrent_lock_ctl; tenstorrent_unpin_pages;
      tenstorrent_allocate_tlb; tenstorrent_free_tlb; tenstorrent_configure_tlb; tenstorrent_set_noc_cleanup;
      tenstorrent_power_state].
Proof. reflexivity. Qed.

(** The extended reply of PIN_PAGES, which a pinning with a NOC address needs,
    does not fit into the buffer that the shim passes. *)
Lemma shim_pin_pages_too_small :
  tt_ioctl_size 7 None < c_offsetof tenstorrent_pin_pages "out" + c_sizeof tenstorrent_pin_pages_out_extended.
Proof. reflexivity. Qed.
