(* ===== verification/CompatSpec.v ===== *)
(** * The shim and the driver's interface names; the life of a shim handle *)
From S2P Require Import Prelude Abi Platform Driver Compat.

(** ** Printing and parsing the interface names *)
Lemma digits_value_dec k n acc :
  (0 < k)%nat → 0 ≤ n < 10 ^ Z.of_nat k → digits_value 0 (dec_digits k n acc) = digits_value n acc.
Proof.
  revert n acc. induction k as [|k IH]; intros n acc Hk Hn; [lia|]. cbn [dec_digits].
  pose proof (Z.mod_pos_bound n 10 ltac:(lia)) as Hm. pose proof (Z_div_mod_eq_full n 10) as Hd.
  assert (is_digit (48 + n mod 10) = true) as Hg by (unfold is_digit; rewrite andb_true_iff, !Z.leb_le; lia).
  destruct (Z.ltb_spec n 10) as [Hs|Hs].
  - cbn [digits_value]. rewrite Hg. f_equal. rewrite Z.mod_small by lia. lia.
  - destruct k as [|k]; [change (10 ^ Z.of_nat 1) with 10 in Hn; lia|].
    rewrite IH; [cbn [digits_value]; rewrite Hg; f_equal; lia | lia |].
    rewrite (Nat2Z.inj_succ (S k)), Z.pow_succ_r in Hn by lia. split; [apply Z.div_pos; lia | apply Z.div_lt_upper_bound; lia].
Qed.

Lemma dec_digits_head k n acc : (0 < k)%nat → ∃ d r, dec_digits k n acc = d :: r ∧ is_digit d = true.
Proof.
  revert n acc. induction k as [|k IH]; intros n acc Hk; [lia|]. cbn [dec_digits].
  pose proof (Z.mod_pos_bound n 10 ltac:(lia)) as Hm.
  assert (is_digit (48 + n mod 10) = true) as Hg by (unfold is_digit; rewrite andb_true_iff, !Z.leb_le; lia).
  destruct (n <? 10); [by eexists _, _|]. destruct k; [by eexists _, _ | apply IH; lia].
Qed.

Lemma dec_digits_all k n acc : Forall (λ c, is_digit c = true) acc → Forall (λ c, is_digit c = true) (dec_digits k n acc).
Proof.
  revert n acc. induction k as [|k IH]; intros n acc Ha; [done|]. cbn [dec_digits].
  pose proof (Z.mod_pos_bound n 10 ltac:(lia)) as Hm.
  assert (Forall (λ c, is_digit c = true) ((48 + n mod 10) :: acc)) as Hc.
  { constructor; [|done]. unfold is_digit. rewrite andb_true_iff, !Z.leb_le. lia. }
  destruct (n <? 10); [done | by apply IH].
Qed.

Lemma wcsstr_last pre rest : wcsstr (pre ++ [92; 84]) TT_REF = None → wcsstr (pre ++ TT_REF ++ rest) TT_REF = Some (TT_REF ++ rest).
Proof.
  induction pre as [|a pre IH]; intros H; [reflexivity|].
  assert (is_prefix TT_REF ((a :: pre) ++ TT_REF ++ rest) = is_prefix TT_REF ((a :: pre) ++ [92; 84])) as E.
  { destruct pre as [|b [|c pre]]; reflexivity. }
  cbn [app wcsstr] in *. cbn [app] in E. rewrite E. destruct (is_prefix _ (a :: pre ++ [92; 84])); [done|]. by apply IH.
Qed.

(** A path of the interface manager: anything that does not hold the marker,
    then a backslash and the reference string. *)
Definition interface_path (pre : list Z) (n : Z) : list Z := pre ++ [92] ++ ref_string n.
Definition plain_prefix (pre : list Z) : Prop := wcsstr (pre ++ [92; 84]) TT_REF = None ∧ 0 ∉ pre.

Lemma parse_path pre n : plain_prefix pre → 0 ≤ n ≤ INT_MAX → tt_ordinal_from_path (interface_path pre n) = Some n.
Proof.
  intros [Hp _] Hn. unfold tt_ordinal_from_path, interface_path, ref_string, percent_d.
  destruct (Z.ltb_spec n 0); [lia|]. cbn [app]. change (pre ++ 92 :: 84 :: 84 :: dec_digits 10 n []) with (pre ++ TT_REF ++ dec_digits 10 n []).
  rewrite wcsstr_last by done. cbn [TT_REF app drop]. destruct (dec_digits_head 10 n []) as (d & r & E & Hd); [lia|].
  pose proof (digits_value_dec 10 n [] ltac:(lia)) as Hv. unfold INT_MAX in *.
  change (10 ^ Z.of_nat 10) with 10000000000 in Hv. rewrite E in Hv |- *. cbn [TT_REF app drop]. change (drop 3 (TT_REF ++ d :: r)) with (d :: r). cbv iota zeta. rewrite Hd. f_equal. unfold wtoi. rewrite Hv by lia. cbn. unfold INT_MAX. lia.
Qed.

Lemma ref_string_inj n m : 0 ≤ n ≤ INT_MAX → 0 ≤ m ≤ INT_MAX → ref_string n = ref_string m → n = m.
Proof.
  intros Hn Hm E. assert (plain_prefix []) as Hp by (split; [reflexivity | set_solver]).
  pose proof (parse_path [] n Hp Hn) as H1. pose proof (parse_path [] m Hp Hm) as H2. unfold interface_path in *. congruence.
Qed.

(** The double-NUL-terminated list. *)
Definition interface_list (paths : list (list Z)) : list Z := concat ((λ p, p ++ [0]) <$> paths) ++ [0].

Lemma multi_sz_one cur p rest : 0 ∉ p → cur ++ p ≠ [] → multi_sz cur (p ++ 0 :: rest) = (cur ++ p) :: multi_sz [] rest.
Proof.
  revert cur. induction p as [|c p IH]; intros cur H0 Hne; cbn [app multi_sz].
  - rewrite app_nil_r in *. change (0 =? 0) with true. cbv iota. by destruct cur.
  - destruct (Z.eqb_spec c 0) as [->|Hc]; [set_solver|]. rewrite IH; [by rewrite <- app_assoc | set_solver | by destruct cur].
Qed.

Lemma multi_sz_list paths : Forall (λ p, 0 ∉ p ∧ p ≠ []) paths → multi_sz [] (interface_list paths) = paths.
Proof.
  unfold interface_list. induction 1 as [|p paths [H0 Hne] _ IH]; [reflexivity|].
  cbn [fmap list_fmap concat]. rewrite <- !app_assoc. cbn [app]. rewrite multi_sz_one by done. cbn [app]. by rewrite IH.
Qed.

Lemma path_ok pre n : plain_prefix pre → 0 ∉ interface_path pre n ∧ interface_path pre n ≠ [].
Proof.
  intros [_ H0]. split; [|unfold interface_path; by destruct pre]. unfold interface_path, ref_string, percent_d.
  assert (∀ k m, 0 ∉ dec_digits k m []) as Hd.
  { intros k m Hin. pose proof (dec_digits_all k m [] (Forall_nil_2 _)) as Ha. rewrite Forall_forall in Ha. by apply list_elem_of_In, Ha in Hin. }
  destruct (n <? 0); rewrite ?not_elem_of_app, ?not_elem_of_cons; split_and!; try done; try apply Hd; by intros ?%elem_of_nil.
Qed.

Lemma names_of ds : Forall (λ d, plain_prefix d.1 ∧ 0 ≤ d.2 ≤ INT_MAX) ds →
  omap tt_ordinal_from_path ((λ d, interface_path d.1 d.2) <$> ds) = ds.*2.
Proof.
  induction 1 as [|[pre n] ds [H1 H2] _ IH]; [done|].
  cbn [fmap list_fmap omap list_omap fst snd] in *. rewrite parse_path by done. f_equal. exact IH.
Qed.

Lemma path_of ds pre n : Forall (λ d, plain_prefix d.1 ∧ 0 ≤ d.2 ≤ INT_MAX) ds → NoDup ds.*2 → (pre, n) ∈ ds →
  head (filter (λ p, tt_ordinal_from_path p = Some n) ((λ d, interface_path d.1 d.2) <$> ds)) = Some (interface_path pre n).
Proof.
  intros Hds Hnd Hin. induction Hds as [|[pre' m] ds [H1 H2] Hds IH]; [by apply elem_of_nil in Hin|].
  cbn [fmap list_fmap fst snd] in *. inversion Hnd as [|? ? Hm Hnd']; subst. rewrite filter_cons, parse_path by done. cbn [fst snd].
  apply elem_of_cons in Hin as [[= -> ->]|Hin]; [by rewrite decide_True|]. rewrite decide_False; [by apply IH|].
  intros [= ->]. apply Hm. apply list_elem_of_fmap. by exists (pre, n).
Qed.

(** C39 Interface names round trip.  Let the system list devices that the driver
    published under ordinals from 0 to INT_MAX, each with a path prefix of the
    system that has no NUL and in which the marker of the name (a backslash and
    two T) does not occur before the name itself.  Then the shim's enumeration
    stores exactly the ordinals, in the order of the list (not sorted), as many
    as the buffer takes and none when the buffer is NULL, and returns their full
    count.  When no ordinal is published twice, the path that opening ordinal
    [n] passes to CreateFile is the path of the device published as [n]. *)
Theorem interface_names_roundtrip `{Win32} (ds : list (list Z * Z)) (ids : bool) max_ids s s' :
  Forall (λ d, plain_prefix d.1 ∧ 0 ≤ d.2 ≤ INT_MAX) ds →
  tt_interface_list s = (Some (interface_list ((λ d, interface_path d.1 d.2) <$> ds)), s') →
  tt_enumerate ids max_ids s = ((if ids then take (Z.to_nat max_ids) ds.*2 else [], Z.of_nat (length ds)), s')
  ∧ (NoDup ds.*2 → ∀ pre n, (pre, n) ∈ ds →
       tt_open n s = (file ← sys (CreateFileW (interface_path pre n)) []; open_file n file) s').
Proof.
  intros Hds Hl.
  assert (multi_sz [] (interface_list ((λ d, interface_path d.1 d.2) <$> ds)) = (λ d, interface_path d.1 d.2) <$> ds) as Hm.
  { apply multi_sz_list. rewrite Forall_fmap. eapply Forall_impl; [|exact Hds]. intros [pre n] [Hp _]. by apply path_ok. }
  split.
  - unfold tt_enumerate, mbind, st_bind, mret, st_ret, enumerate_list. rewrite Hl. cbn [fst snd]. rewrite Hm, (names_of ds Hds). by rewrite length_fmap.
  - intros Hnd pre n Hin. unfold tt_open. unfold mbind at 1, st_bind at 1. rewrite Hl. cbn [fst snd]. unfold tt_open_path.
    rewrite Hm, (path_of ds pre n Hds Hnd Hin). reflexivity.
Qed.

(** ** The life of a handle *)
Section life.
Context {W : Win32}.

(** One call of the client on a handle that has not been freed. *)
Inductive use : tt_device * Shim → tt_device * Shim → Prop :=
  | use_ioctl h s request arg r s' : freed h = false → tt_ioctl (Some h) request arg s = (r, s') → use (h, s) (h, s')
  | use_mmap h s length offset h' s' va : freed h = false →
      tt_mmap (Some h) length offset s = ((Some h', va), s') → use (h, s) (h', s')
  | use_munmap h s addr h' s' r : freed h = false →
      tt_munmap (Some h) addr s = ((Some h', r), s') → use (h, s) (h', s')
  | use_close h s h' s' : freed h = false → tt_close (Some h) s = (Some h', s') → use (h, s) (h', s').

(** Requests on [f] only. *)
Definition only_ioctls (f : Z) (t : list ShimEvent) : Prop := ∀ e, e ∈ t → ∃ code, e = ShIoctl f code.

(** The handle and what the shim did with its file since [s0]. *)
Record alive (f : Z) (log0 : list ShimEvent) (h : tt_device) (s : Shim) : Prop := {
  al_file : file h = f;
  al_freed : freed h = true ↔ closed h = true ∧ views h = [];
  al_log : ∃ ios, sh_log s = (if freed h then [ShClose f] else []) ++ ios ++ log0 ∧ only_ioctls f ios
}.

Lemma only_ioctls_cons f code t : only_ioctls f t → only_ioctls f (ShIoctl f code :: t).
Proof. intros H e [->|He]%elem_of_cons; [by eexists | by apply H]. Qed.

Lemma set_error_log e (s : Shim) : sh_log (set_error e s).2 = sh_log s.
Proof. reflexivity. Qed.

(** A request on a live handle. *)
Lemma io_control_log (h : tt_device) code buf s : sh_log (io_control h code buf s).2 = ShIoctl (file h) code :: sh_log s.
Proof. reflexivity. Qed.

Lemma maybe_free_alive f log0 h s :
  file h = f → freed h = false → (∃ ios, sh_log s = ios ++ log0 ∧ only_ioctls f ios) →
  alive f log0 (tt_maybe_free h s).1 (tt_maybe_free h s).2.
Proof.
  intros Hf Hfr (ios & Hl & Ho). unfold tt_maybe_free.
  destruct (closed h) eqn:Hc; destruct (views h) as [|v vs] eqn:Hv;
    unfold mbind, st_bind, mret, st_ret, sys; cbn [fst snd]; split; cbn; rewrite ?Hc, ?Hv, ?Hfr, ?Hf; try done;
    try (split; [done | by intros [? ?]]); exists ios; by rewrite ?Hl.
Qed.

Lemma ioctl_log h request arg s :
  ∃ ios, sh_log (tt_ioctl (Some h) request arg s).2 = ios ++ sh_log s ∧ only_ioctls (file h) ios.
Proof.
  unfold tt_ioctl. destruct (negb _); [by exists []; split; [|intros ? ?%elem_of_nil]|].
  unfold mbind, st_bind, mret, st_ret. cbv zeta. cbn [fst snd].
  set (r := io_control _ _ _ s). exists [ShIoctl (file h) (TT_CTL (Z.land request 255))].
  split; [|by apply only_ioctls_cons; intros ? ?%elem_of_nil].
  destruct (negb r.1.1); reflexivity.
Qed.

Lemma mmap_spec h length offset s h' va s' :
  tt_mmap (Some h) length offset s = ((Some h', va), s') →
  file h' = file h ∧ closed h' = closed h ∧ freed h' = freed h
  ∧ (views h' = views h ∨ ∃ v, views h' = v :: views h)
  ∧ ∃ ios, sh_log s' = ios ++ sh_log s ∧ only_ioctls (file h) ios.
Proof.
  unfold tt_mmap, mbind, st_bind, mret, st_ret. cbv zeta. cbn [fst snd].
  pose proof (io_control_log h IOCTL_TENSTORRENT_MAP (map_request offset length) s) as Hl. revert Hl.
  generalize (io_control h IOCTL_TENSTORRENT_MAP (map_request offset length) s). intros [[ok out] s1] Hl. cbn [fst snd] in *.
  assert (only_ioctls (file h) [ShIoctl (file h) IOCTL_TENSTORRENT_MAP]) as Ho by (apply only_ioctls_cons; by intros ? ?%elem_of_nil).
  destruct ok; cbn [negb].
  - destruct (sys calloc [] s1) as [[|] s2] eqn:Ec; cbn [fst snd negb];
      assert (sh_log s2 = sh_log s1) as E2 by (by unfold sys in Ec; injection Ec as _ <-).
    + intros [= <- <- <-]. split_and!; try done; [right; by eexists | eexists; split; [|exact Ho]; by rewrite E2, Hl].
    + intros [= <- <- <-]. split_and!; try done; [by left | eexists; split; [|apply only_ioctls_cons; exact Ho]].
      cbn. rewrite E2, Hl. reflexivity.
  - intros [= <- <- <-]. split_and!; try done; [by left | eexists; split; [|exact Ho]; exact Hl].
Qed.

Lemma munmap_alive f log0 h addr s h' r s' : alive f log0 h s → freed h = false →
  tt_munmap (Some h) addr s = ((Some h', r), s') → alive f log0 h' s'.
Proof.
  intros [Hf Hd (ios & Hl & Ho)] Hfr. rewrite Hfr in Hl. cbn [app] in Hl.
  unfold tt_munmap. set (h1 := h <| views := drop_view addr (views h) |>). cbv zeta.
  unfold mbind, st_bind, mret, st_ret. cbn [fst snd].
  pose proof (io_control_log h1 IOCTL_TENSTORRENT_UNMAP (unmap_request addr) s) as H1. revert H1.
  generalize (io_control h1 IOCTL_TENSTORRENT_UNMAP (unmap_request addr) s). intros [[ok out] sa] H1. cbn [fst snd] in *.
  assert (∀ s2, sh_log s2 = sh_log sa → alive f log0 (tt_maybe_free h1 s2).1 (tt_maybe_free h1 s2).2) as Hm.
  { intros s2 H2. apply maybe_free_alive; [exact Hf | exact Hfr|]. exists (ShIoctl f IOCTL_TENSTORRENT_UNMAP :: ios).
    split; [rewrite H2, H1, Hl; cbn; by rewrite Hf | by apply only_ioctls_cons]. }
  destruct ok; cbn [negb]; intros [= <- _ <-]; apply Hm; reflexivity.
Qed.

Lemma only_ioctls_app f t1 t2 : only_ioctls f t1 → only_ioctls f t2 → only_ioctls f (t1 ++ t2).
Proof. intros H1 H2 e [He|He]%elem_of_app; [by apply H1 | by apply H2]. Qed.

Lemma use_alive f log0 h s h' s' : use (h, s) (h', s') → alive f log0 h s → alive f log0 h' s'.
Proof.
  inversion 1 as [? ? request arg ? ? Hfr Hm|? ? length offset ? ? va Hfr Hm|? ? addr ? ? r Hfr Hm|? ? ? ? Hfr Hm]; subst; intros Ha.
  - destruct Ha as [Hf Hd (ios & Hl & Ho)]. destruct (ioctl_log h' request arg s) as (new & Hn & Hn').
    rewrite Hfr in Hl. split; [done | done |]. rewrite Hfr. exists (new ++ ios). rewrite Hm in Hn. cbn [snd] in Hn. rewrite Hn, Hl, <- app_assoc.
    split; [done | rewrite Hf in Hn'; by apply only_ioctls_app].
  - destruct Ha as [Hf Hd (ios & Hl & Ho)]. destruct (mmap_spec h length offset s h' va s' Hm) as (M1 & M2 & M3 & M4 & new & Hn & Hn').
    rewrite Hfr in Hl, Hd, M3. split; [congruence | |].
    + rewrite M2, M3. split; [done|]. intros [Hc Hv]. destruct M4 as [M4|[v M4]]; [|by rewrite M4 in Hv].
      apply Hd. by rewrite <- M4.
    + rewrite M3. exists (new ++ ios). rewrite Hn, Hl, <- app_assoc. split; [done | rewrite Hf in Hn'; by apply only_ioctls_app].
  - by apply (munmap_alive f log0 h addr s h' r s').
  - destruct Ha as [Hf Hd (ios & Hl & Ho)]. rewrite Hfr in Hl. unfold tt_close, mbind, st_bind, mret, st_ret in Hm.
    injection Hm as <- <-. apply maybe_free_alive; [exact Hf | exact Hfr | by exists ios].
Qed.

Lemma use_rtc_alive f log0 p q : rtc use p q → alive f log0 p.1 p.2 → alive f log0 q.1 q.2.
Proof. induction 1 as [|[h s] [h' s'] q Hu _ IH]; [done|]. intros Ha. by apply IH, (use_alive f log0 h s). Qed.

(** C38 The life of a shim handle: from the tt_open that returns it, under any
    sequence of calls of the client that respects free, the file stays open
    while the handle is not closed or has a view (mmap survives close), and as
    soon as it is closed and its last view is gone the file is closed, once, as
    the last thing that ever happens to it; every request before went to that
    open file. *)
Theorem shim_handle_life n s0 h0 s1 h s :
  tt_open n s0 = (Some h0, s1) → rtc use (h0, s1) (h, s) →
  file h = file h0 ∧ (freed h = true ↔ closed h = true ∧ views h = [])
  ∧ ∃ ios, sh_log s = (if freed h then [ShClose (file h0)] else []) ++ ios ++ sh_log s1 ∧ only_ioctls (file h0) ios.
Proof.
  intros Ho Hr. assert (alive (file h0) (sh_log s1) h0 s1) as Ha.
  { assert (closed h0 = false ∧ freed h0 = false) as [Hc Hf].
    { revert Ho. unfold tt_open, mbind, st_bind, mret, st_ret. destruct (tt_interface_list s0) as [[buf|] sa]; cbn [fst snd]; [|done].
      generalize ((match tt_open_path buf n with Some path => sys (CreateFileW path) [] | None => λ s2, (None, s2) end) sa). intros [o sb]. cbn [fst snd].
      unfold open_file, mbind, st_bind, mret, st_ret. destruct o as [fl|]; [|done]. destruct (sys calloc [] sb) as [[|] sc]; [|done].
      by intros [= <- _]. }
    split; [done | rewrite Hf, Hc; naive_solver | rewrite Hf; exists []; split; [done | by intros ? ?%elem_of_nil]]. }
  destruct (use_rtc_alive (file h0) (sh_log s1) _ _ Hr Ha) as [H1 H2 H3]. by split_and!.
Qed.
End life.

(** ** Instances: a system with two cards that grants every request *)
Definition two_cards : list (list Z * Z) := [([92; 92; 63; 92; 112], 0); ([92; 92; 63; 92; 113], 12)].
Definition two_paths : list Z := interface_list ((λ d, interface_path d.1 d.2) <$> two_cards).

Definition calm_win : Win32 := {|
  WOS := Z;
  CM_Get_Device_Interface_List_SizeW os := ((true, Z.of_nat (length two_paths)), os);
  CM_Get_Device_Interface_ListW _ os := ((true, two_paths), os);
  calloc os := (true, os);
  CreateFileW _ os := (Some os, os + 1);
  GetLastError _ := 0;
  DeviceIoControl _ _ buf os := ((true, buf), os);
  CloseHandle _ os := os
|}.
Definition shim0 : Shim (W := calm_win) := mkShim (W := calm_win) (100 : WOS (Win32 := calm_win)) 0 [].

Lemma two_cards_ok : Forall (λ d, plain_prefix d.1 ∧ 0 ≤ d.2 ≤ INT_MAX) two_cards.
Proof. repeat constructor; cbn; try (unfold INT_MAX; lia); by apply (bool_decide_unpack _); vm_compute. Qed.

Lemma interface_names_roundtrip_witness :
  (tt_enumerate true 1 shim0).1 = ([0], 2)
  ∧ tt_open 12 shim0 = (Some (mkDev 100 12 false [] false), mkShim (W := calm_win) (101 : WOS (Win32 := calm_win)) 0 []).
Proof.
  destruct (interface_names_roundtrip two_cards true 1 shim0 shim0 two_cards_ok eq_refl) as [H1 H2]. split; [by rewrite H1|].
  etrans; [apply (H2 ltac:(by apply (bool_decide_unpack _); vm_compute) [92; 92; 63; 92; 113] 12); right; left | reflexivity].
Defined.

(** Opened, mapped, closed: the file is open until the view goes. *)
Lemma shim_handle_life_witness :
  let r1 := tt_open 12 shim0 in
  let h0 := mkDev 100 12 false [] false in
  let r2 := tt_mmap (Some h0) 0x1000 0 r1.2 in
  let r3 := tt_close r2.1.1 r2.2 in
  let r4 := tt_munmap r3.1 0 r3.2 in
  r1.1 = Some h0 ∧ freed <$> r3.1 = Some false ∧ freed <$> r4.1.1 = Some true
  ∧ ∃ ios, sh_log r4.2 = ShClose 100 :: ios ∧ only_ioctls 100 ios.
Proof.
  cbv zeta. split; [reflexivity|]. split; [reflexivity|]. split; [reflexivity|].
  set (s1 := (tt_open 12 shim0).2). set (h0 := mkDev 100 12 false [] false).
  set (h1 := mkDev 100 12 false [mkView 0 0x1000] false). set (s2 := (tt_mmap (Some h0) 0x1000 0 s1).2).
  set (h2 := mkDev 100 12 true [mkView 0 0x1000] false). set (s3 := (tt_close (Some h1) s2).2).
  set (h3 := mkDev 100 12 true [] true). set (s4 := (tt_munmap (Some h2) 0 s3).2).
  destruct (shim_handle_life 12 shim0 h0 s1 h3 s4) as (_ & _ & ios & H1 & H2); [reflexivity | |].
  - apply (rtc_l _ _ (h1, s2)); [by apply (use_mmap h0 s1 0x1000 0 h1 s2 (Some 0))|].
    apply (rtc_l _ _ (h2, s3)); [by apply use_close|]. apply rtc_once. by apply (use_munmap h2 s3 0 h3 s4 0).
  - exists ios. split; [|exact H2]. etrans; [exact H1 | by rewrite app_nil_r].
Defined.
