(* ===== verification/DriverSpec.v ===== *)
(** * The driver over all its devices

    Device add and removal keep the device list exact; a process exit reaches
    every handle of every device. *)
From S2P Require Import Prelude Abi Platform Frame Trace Sim IoSpec PciConfig Blackhole Iatu IatuSpec Tlb Memory.
From S2P Require Import Ledger MemorySpec Locks LocksSpec Power Telemetry Reset Ioctl Device Balance Handles System.
From S2P Require Import Driver Compat CompatSpec.

(** ** Process exit on one device *)
Section exit.
Context {P : Platform}.

Lemma exit_gone f : Hoare (λ w, balanced w ∧ fc_Lock (file_ctx f w) = true) (TtMemoryProcessExit f) (λ _, views_gone f).
Proof.
  intros w [Hb Hl]. unfold TtMemoryProcessExit, TtGetFileContext, gets. set (c := file_ctx f w) in *.
  unfold mbind at 1, st_bind at 1. cbn [fst snd]. fold c. rewrite Hl. cbn [negb].
  pose proof (drain_views f c (acquire (FileLock f) w).2) as H. unfold mbind, st_bind in *. cbn [fst snd] in *.
  assert (balanced (acquire (FileLock f) w).2) as Hb1.
  { assert (Hoare balanced (acquire (FileLock f)) (λ _, balanced)) as Hq by quiet. exact (Hq w Hb). }
  destruct (H (conj Hb1 eq_refl)) as [_ Hv]. exact Hv.
Qed.

Lemma gone_kept f : Steps (Keeps (views_gone f)) (TtMemoryProcessExit f).
Proof.
  intros w [H1 H2]. unfold TtMemoryProcessExit, TtGetFileContext, gets, mbind, st_bind. cbn [fst snd].
  rewrite H1, H2. destruct (negb _); by split.
Qed.

Lemma gone_kept_file p f g : Steps (Keeps (views_gone f)) (process_exit_file p g).
Proof.
  destruct (decide (f = g)) as [<-|Hn].
  - unfold process_exit_file. intros w Hw. unfold TtGetFileContext, gets, mbind, st_bind. cbn [fst snd].
    destruct (bool_decide _); cbn [when]; [by apply gone_kept | done].
  - intros w [H1 H2]. destruct (process_exit_file_home p g w) as (_ & _ & H & _). destruct (H f Hn) as (E1 & E2 & _). split; congruence.
Qed.

Lemma exit_file_gone p f w :
  balanced w → fc_Lock (file_ctx f w) = true → CreatorProcess (file_ctx f w) = Some p →
  views_gone f (process_exit_file p f w).2.
Proof.
  intros Hb Hl Hc. unfold process_exit_file, TtGetFileContext, gets, mbind, st_bind. cbn [fst snd].
  rewrite bool_decide_true by done. cbn [when]. by apply exit_gone.
Qed.

Lemma exit_loop p l w :
  balanced w → (∀ f, f ∈ l → fc_Lock (file_ctx f w) = true) →
  (∀ f, views_gone f w → views_gone f (for_each l (process_exit_file p) w).2)
  ∧ ∀ f, f ∈ l → CreatorProcess (file_ctx f w) = Some p → views_gone f (for_each l (process_exit_file p) w).2.
Proof.
  revert w. induction l as [|g l IH]; intros w Hb Hl; [split; [done | by intros f ?%elem_of_nil]|].
  cbn [for_each]. unfold mbind, st_bind. cbn [fst snd].
  set (w1 := (process_exit_file p g w).2).
  destruct (IH w1) as [I1 I2].
  - by apply process_exit_file_balanced.
  - intros f Hf. destruct (process_exit_file_home p g w) as (_ & H & _). destruct (H f) as [E _].
    etrans; [exact E | apply Hl; set_solver].
  - split; [intros f Hf; by apply I1, gone_kept_file|]. intros f Hf Hc.
    destruct (decide (f = g)) as [->|Hn].
    + apply I1. apply exit_file_gone; [done | apply Hl; set_solver | done].
    + apply I2; [set_solver|]. etrans; [exact (frame_at FCreator _ _ w (process_exit_file_frame p g) eq_refl f : CreatorProcess _ = CreatorProcess _) | exact Hc].
Qed.

Lemma exit_device p w : balanced w → handles_ok w →
  ∀ f, f ∈ FileList w → CreatorProcess (file_ctx f w) = Some p → views_gone f (process_notify_device p w).2.
Proof.
  intros Hb Hh f Hf Hc. unfold process_notify_device, mbind, st_bind, gets. cbn [fst snd].
  set (w1 := (acquire FileListLock (TtResetAcquireShared w).2).2).
  assert (balanced w1) as Hb1.
  { assert (Hoare balanced TtResetAcquireShared (λ _, balanced)) as H1 by quiet.
    assert (Hoare balanced (acquire FileListLock) (λ _, balanced)) as H2 by quiet. exact (H2 _ (H1 w Hb)). }
  destruct (exit_loop p (FileList w) w1 Hb1) as [_ H]; [intros g Hg; by apply (ho_open _ Hh)|].
  exact (H f Hf Hc).
Qed.
End exit.

(** ** Device add *)
Section add.
Context {P : Platform}.

Definition contexts (g : DriverGlobals) : gmap Z World := dv_contexts (dg_state g).
Definition device_list (g : DriverGlobals) : list Z := g_TtDeviceList (dg_state g).

(** Nothing has happened to the list or to another device than [c]. *)
Record elsewhere (c : Z) (g g' : DriverGlobals) : Prop := {
  el_list : device_list g' = device_list g;
  el_on : OnDriverList (dg_state g') = OnDriverList (dg_state g);
  el_others c' : c' ≠ c → contexts g' !! c' = contexts g !! c' ∧ dg_interfaces g' !! c' = dg_interfaces g !! c'
                 ∧ dg_made g' !! c' = dg_made g !! c' ∧ (c' ∈ dg_reset_init g' ↔ c' ∈ dg_reset_init g);
  el_ordinal : g_TtNextOrdinal g' = g_TtNextOrdinal g ∨ g_TtNextOrdinal g' = interlocked_increment (g_TtNextOrdinal g);
  el_notify : g_TtProcessNotifyRegistered g' = g_TtProcessNotifyRegistered g
}.

(** How far the add of [c] has come. *)
Record building (c : Z) (g : DriverGlobals) (ctx reset pub : bool) (made : list Creation) (g' : DriverGlobals) : Prop := {
  bu_elsewhere : elsewhere c g g';
  bu_made cr : cr ∈ made → cr ∈ default [] (dg_made g' !! c);
  bu_ctx : ctx = true → ∃ w, contexts g' !! c = Some w ∧ initial w;
  bu_reset : reset = true → c ∈ dg_reset_init g';
  bu_ordinal : g_TtNextOrdinal g' = if pub then interlocked_increment (g_TtNextOrdinal g) else g_TtNextOrdinal g;
  bu_pub : pub = true → dg_interfaces g' !! c = Some (ref_string (g_TtNextOrdinal g'))
}.

(** A step that, when it succeeds, leads from [Q] to [R], and otherwise leaves
    the rest of the driver alone. *)
Definition Builds (c : Z) (g : DriverGlobals) (Q : DriverGlobals → Prop) (m : Setup) (R : DriverGlobals → Prop) : Prop :=
  ∀ g', Q g' → if NT_SUCCESS (m g').1 then R (m g').2 else elsewhere c g (m g').2.

Lemma builds_then c g Q R S m k : Builds c g Q m R → Builds c g R k S → Builds c g Q (m ;? k) S.
Proof. intros Hm Hk g' HQ. specialize (Hm g' HQ). unfold and_then. cbv zeta. destruct (NT_SUCCESS (m g').1) eqn:E; [by apply Hk | by rewrite E]. Qed.

Lemma elsewhere_made c g g' m : elsewhere c g g' → elsewhere c g (g' <| dg_made := <[c := m]> (dg_made g') |>).
Proof.
  intros [H1 H2 H3 H4 H5]. split; try done. intros c' Hc. destruct (H3 c' Hc) as (K1 & K2 & K3 & K4).
  split_and!; [done | done | | done..]. cbn. by rewrite lookup_insert_ne.
Qed.

Lemma create_builds fw c g ctx reset pub made cr :
  Builds c g (building c g ctx reset pub made) (create fw c cr) (building c g ctx reset pub (cr :: made)).
Proof.
  intros g' [H1 H2 H3 H4 H5 H6]. unfold create. cbn [fst snd]. destruct (NT_SUCCESS (fw cr)); [|done].
  split; try done; [by apply elsewhere_made|]. intros x [->|Hx]%elem_of_cons; cbn; rewrite lookup_insert_eq; cbn; [left | right; by apply H2].
Qed.

Lemma context_builds c g made limit os q :
  (∀ v, limit = Some v → 0 ≤ v < 2 ^ 32) →
  Builds c g (building c g false false false made)
    (always (λ g, g <| dg_state := on_contexts (<[c := context_zero os q
       <| w_dma := mkDma false 0 (TtReadDmaBufLimitBytes limit) false false |>]>) (dg_state g) |>))
    (building c g true false false made).
Proof.
  intros Hl g' [[E1 E2 E3 E4 E5] H2 H3 H4 H5 H6]. split; try done; cbn.
  - split; try done. intros c' Hc. destruct (E3 c' Hc) as (K1 & K). split; [|done]. cbn. by rewrite lookup_insert_ne.
  - intros _. eexists. split; [apply lookup_insert_eq|]. split; try done.
    exists (default TT_DMA_BUF_DEFAULT_LIMIT_MIB limit). destruct limit as [v|]; cbn; [by split; [apply Hl|] | done].
Qed.

Lemma reset_init_builds c g pub made :
  Builds c g (building c g true false pub made) (always (λ g, g <| dg_reset_init := {[c]} ∪ dg_reset_init g |>))
    (building c g true true pub made).
Proof.
  intros g' [[E1 E2 E3 E4 E5] H2 H3 H4 H5 H6]. split; try done; cbn; [|set_solver].
  split; try done. intros c' Hc. destruct (E3 c' Hc) as (K1 & K2 & K3 & K4). split_and!; try done; cbn; set_solver.
Qed.

Lemma locks_init_builds fw c g ctx reset pub made :
  Builds c g (building c g ctx reset pub made) (TtLocksInit fw c) (building c g ctx reset pub (CrWaitQueue :: CrLock LockLock :: made)).
Proof. eapply builds_then; apply create_builds. Qed.

Lemma work_item_builds fw c g made :
  Builds c g (building c g true true false made) (create_work_item fw c) (building c g true true false made).
Proof.
  intros g' Hg. unfold create_work_item. cbn [fst snd]. change (NT_SUCCESS STATUS_SUCCESS) with true. cbv iota.
  assert (∀ b g1, building c g true true false made g1 → building c g true true false made
    (g1 <| dg_state := on_contexts (alter (λ w, w <| w_pldr := w_pldr w <| HasPldrWorkItem := b |> |>) c) (dg_state g1) |>)) as H.
  { intros b g1 [[E1 E2 E3 E4 E5] H2 H3 H4 H5 H6]. split; try done; cbn.
    - split; try done. intros c' Hc. destruct (E3 c' Hc) as (K1 & K). split; [|done]. cbn. by rewrite lookup_alter_ne.
    - intros _. destruct (H3 eq_refl) as (w & Hw & Hi). eexists. unfold contexts in *. split; [cbn; by rewrite lookup_alter_eq, Hw | by destruct Hi]. }
  apply H. pose proof (create_builds fw c g true true false made CrWorkItem g' Hg) as Hc. unfold create in *. cbn [fst snd] in *.
  destruct (NT_SUCCESS (fw CrWorkItem)); [|done]. destruct Hc as [K1 K2 K3 K4 K5 K6]. split; try done. intros x Hx. apply K2. by right.
Qed.

Lemma publish_builds fw c g made :
  Builds c g (building c g true true false made) (publish_interface fw c) (building c g true true true made).
Proof.
  intros g' [[E1 E2 E3 E4 E5] H2 H3 H4 H5 H6]. unfold publish_interface. cbv zeta. set (n := interlocked_increment _).
  assert (n = interlocked_increment (g_TtNextOrdinal g)) as En by (unfold n; by rewrite H5).
  destruct (_ <? _); cbn [fst snd]; [change (NT_SUCCESS (STATUS_FRAMEWORK 2147483653)) with false; split; try done; right; exact En|].
  unfold create. cbn [fst snd]. destruct (NT_SUCCESS (fw _)); cbn [fst snd]; [|split; try done; right; exact En].
  split; try done; cbn.
  - split; try done; [|right; exact En]. intros c' Hc. destruct (E3 c' Hc) as (K1 & K2 & K3 & K4).
    split_and!; [done | cbn; by rewrite lookup_insert_ne | cbn; by rewrite lookup_insert_ne | done..].
  - intros x Hx. rewrite lookup_insert_eq. cbn. right. by apply H2.
  - intros _. by rewrite lookup_insert_eq.
Qed.

Definition device_locks : list Lock := [LockLock; PowerLock; FileListLock; IatuLock; TlbLock; ArcMsgLock; KernelTlbLock].

(** What a successful add leaves behind. *)
Record added (c : Z) (g g' : DriverGlobals) : Prop := {
  ad_list : device_list g' = device_list g ++ [c];
  ad_on : OnDriverList (dg_state g') = {[c]} ∪ OnDriverList (dg_state g);
  ad_others c' : c' ≠ c → contexts g' !! c' = contexts g !! c' ∧ dg_interfaces g' !! c' = dg_interfaces g !! c'
                 ∧ dg_made g' !! c' = dg_made g !! c' ∧ (c' ∈ dg_reset_init g' ↔ c' ∈ dg_reset_init g);
  ad_context : ∃ w, contexts g' !! c = Some w ∧ initial w;
  ad_locks l : l ∈ device_locks → CrLock l ∈ default [] (dg_made g' !! c);
  ad_queues : CrQueue ∈ default [] (dg_made g' !! c) ∧ CrWaitQueue ∈ default [] (dg_made g' !! c);
  ad_reset : c ∈ dg_reset_init g';
  ad_ordinal : g_TtNextOrdinal g' = interlocked_increment (g_TtNextOrdinal g);
  ad_name : dg_interfaces g' !! c = Some (ref_string (g_TtNextOrdinal g'))
}.

Lemma register_builds c g made :
  (∀ l, l ∈ device_locks → CrLock l ∈ made) → CrQueue ∈ made → CrWaitQueue ∈ made →
  Builds c g (building c g true true true made)
    (always (λ g, g <| dg_state := TtDeviceListRegister c (dg_state g) |>)) (added c g).
Proof.
  intros Hl Hq Hw g' [[E1 E2 E3 E4 E5] H2 H3 H4 H5 H6]. unfold device_list in *. split; cbn; unfold device_list; cbn; auto.
  - by rewrite E1.
  - by rewrite E2.
Qed.

Lemma device_add_builds fw c g limit os q :
  (∀ v, limit = Some v → 0 ≤ v < 2 ^ 32) →
  Builds c g (building c g false false false []) (TtEvtDeviceAdd fw c limit os q) (added c g).
Proof.
  intros Hl. unfold TtEvtDeviceAdd.
  eapply builds_then; [apply create_builds|]. eapply builds_then; [by apply context_builds|].
  eapply builds_then; [apply create_builds|]. eapply builds_then; [apply reset_init_builds|].
  do 6 (eapply builds_then; [apply create_builds|]). eapply builds_then; [apply locks_init_builds|].
  eapply builds_then; [apply work_item_builds|]. eapply builds_then; [apply publish_builds|].
  eapply builds_then; [apply create_builds|]. apply register_builds; [unfold device_locks | |]; set_solver.
Qed.

(** ** The driver as a transition system *)

(** What the framework does with a device object: a failed add and a removal
    delete it, which runs the context clean-up. *)
Definition delete_device (c : Z) (g : DriverGlobals) : DriverGlobals :=
  let g1 := TtEvtDeviceContextCleanup c g in
  g1 <| dg_state := on_contexts (delete c) (dg_state g1) |> <| dg_made := delete c (dg_made g1) |>
     <| dg_interfaces := delete c (dg_interfaces g1) |>.

Definition add_device (fw : Creation → NTSTATUS) (c : Z) (limit : option Z) (os : OS) (q : Queue) (g : DriverGlobals) : DriverGlobals :=
  let r := TtEvtDeviceAdd fw c limit os q g in
  if NT_SUCCESS r.1 then r.2 else if NT_SUCCESS (fw CrDevice) then delete_device c r.2 else r.2.

Definition set_context (c : Z) (w : World) (g : DriverGlobals) : DriverGlobals :=
  g <| dg_state := on_contexts (<[c := w]>) (dg_state g) |>.

Inductive dstep (g : DriverGlobals) : DriverGlobals → Prop :=
  | dstep_add fw c limit os q : contexts g !! c = None → (∀ v, limit = Some v → 0 ≤ v < 2 ^ 32) →
      g_TtNextOrdinal g < 2 ^ 31 - 1 → dstep g (add_device fw c limit os q g)
  | dstep_remove c : c ∈ device_list g → dstep g (delete_device c g)
  | dstep_process creation p : dstep g (g <| dg_state := TtProcessNotify creation p (dg_state g) |>)
  | dstep_device c w w' : contexts g !! c = Some w → step w w' → dstep g (set_context c w' g).

Definition globals_zero : DriverGlobals := mkGlobals (mkDriver ∅ [] ∅ []) (-1) false false ∅ ∅ ∅.

(** The states of a driver whose DriverEntry succeeded. *)
Definition loaded (g : DriverGlobals) : Prop :=
  ∃ fw, NT_SUCCESS (DriverEntry fw globals_zero).1 = true ∧ rtc dstep (DriverEntry fw globals_zero).2 g.

Record driver_ok (g : DriverGlobals) : Prop := {
  dk_nodup : NoDup (device_list g);
  dk_on c : c ∈ OnDriverList (dg_state g) ↔ c ∈ device_list g;
  dk_contexts c : is_Some (contexts g !! c) ↔ c ∈ device_list g;
  dk_worlds c w : contexts g !! c = Some w → reachable w;
  dk_resources c : c ∈ dg_reset_init g ↔ c ∈ device_list g;
  dk_ordinal : -1 ≤ g_TtNextOrdinal g ≤ INT_MAX;
  dk_names c ref : dg_interfaces g !! c = Some ref → c ∈ device_list g ∧ ∃ n, 0 ≤ n ≤ g_TtNextOrdinal g ∧ ref = ref_string n;
  dk_distinct c c' ref : dg_interfaces g !! c = Some ref → dg_interfaces g !! c' = Some ref → c = c';
  dk_named c : c ∈ device_list g → is_Some (dg_interfaces g !! c);
  dk_locks c l : c ∈ device_list g → l ∈ device_locks → CrLock l ∈ default [] (dg_made g !! c)
}.

Lemma increment_small x : -1 ≤ x < 2 ^ 31 - 1 → interlocked_increment x = x + 1.
Proof.
  intros H. unfold interlocked_increment, wrap32, wrap. rewrite Z.mod_small by lia.
  destruct (Z.leb_spec (2 ^ 31) (x + 1)); lia.
Qed.

Lemma initial_reachable w : initial w → reachable w.
Proof. intros H. exists w. split; [done | apply rtc_refl]. Qed.

Lemma nodup_snoc {A} (l : list A) x : NoDup l → x ∉ l → NoDup (l ++ [x]).
Proof.
  intros H Hx. apply list.NoDup_app. split; [done|]. split; [by intros y Hy ->%list_elem_of_singleton | apply NoDup_singleton].
Qed.

Lemma added_ok c g g' :
  driver_ok g → contexts g !! c = None → g_TtNextOrdinal g < 2 ^ 31 - 1 → added c g g' → driver_ok g'.
Proof.
  intros [K1 K2 K3 K4 K5 K6 K7 K8 K9 K10] Hc Ho [A1 A2 A3 (w0 & A4 & A4') A5 _ A7 A8 A9].
  assert (c ∉ device_list g) as Hn by (rewrite <- K3, Hc; by intros []).
  rewrite increment_small in A8 by (unfold INT_MAX in *; lia).
  assert (∀ c', c' ∈ device_list g' ↔ c' ∈ device_list g ∨ c' = c) as Hl by (intros c'; rewrite A1; set_solver).
  assert (∀ c' ref, dg_interfaces g' !! c' = Some ref →
    (c' = c ∧ ref = ref_string (g_TtNextOrdinal g + 1)) ∨ (c' ≠ c ∧ dg_interfaces g !! c' = Some ref)) as Hi.
  { intros c' ref Hr. destruct (decide (c' = c)) as [->|Hd]; [left | right].
    - split; [done|]. rewrite A9, A8 in Hr. congruence.
    - split; [done|]. by rewrite <- (proj1 (proj2 (A3 c' Hd))). }
  split.
  - rewrite A1. by apply nodup_snoc.
  - intros c'. rewrite A2, Hl. set_solver.
  - intros c'. rewrite Hl. destruct (decide (c' = c)) as [->|Hd]; [split; [by right | by rewrite A4]|].
    rewrite (proj1 (A3 c' Hd)), K3. naive_solver.
  - intros c' w. destruct (decide (c' = c)) as [->|Hd].
    + rewrite A4. intros [= <-]. by apply initial_reachable.
    + rewrite (proj1 (A3 c' Hd)). apply K4.
  - intros c'. rewrite Hl. destruct (decide (c' = c)) as [->|Hd]; [naive_solver|].
    destruct (A3 c' Hd) as (_ & _ & _ & ->). rewrite K5. naive_solver.
  - unfold INT_MAX in *. lia.
  - intros c' ref [[-> ->]|[Hd Hr]]%Hi; (split; [apply Hl|]); [by right | exists (g_TtNextOrdinal g + 1); split; [lia | done] | |].
    + left. by apply (K7 c' ref).
    + destruct (K7 c' ref Hr) as (_ & n & Hb & ->). exists n. split; [lia | done].
  - assert (∀ a, dg_interfaces g !! a ≠ Some (ref_string (g_TtNextOrdinal g + 1))) as Hfresh.
    { intros a Ha. destruct (K7 a _ Ha) as (_ & n & Hb & E). apply ref_string_inj in E; unfold INT_MAX in *; lia. }
    intros a b ref [[-> ->]|[Ha Ha']]%Hi [[-> E]|[Hb Hb']]%Hi; [done | | | by apply (K8 a b ref)].
    + by destruct (Hfresh b).
    + subst ref. by destruct (Hfresh a).
  - intros c'. rewrite Hl. intros [Hin| ->]; [|by rewrite A9].
    destruct (decide (c' = c)) as [->|Hd]; [by rewrite A9|]. rewrite (proj1 (proj2 (A3 c' Hd))). by apply K9.
  - intros c' l. rewrite Hl. intros [Hin| ->]; [|by apply A5]. destruct (decide (c' = c)) as [->|Hd]; [by intros; apply A5|].
    rewrite (proj1 (proj2 (proj2 (A3 c' Hd)))). by apply K10.
Qed.

(** The clean-up takes the device out of every table. *)
Record deleted (c : Z) (g g' : DriverGlobals) : Prop := {
  de_list : NoDup (device_list g) → NoDup (device_list g');
  de_member c' : (c ∈ OnDriverList (dg_state g) ↔ c ∈ device_list g) → c' ∈ device_list g' ↔ c' ∈ device_list g ∧ c' ≠ c;
  de_on c' : c' ∈ OnDriverList (dg_state g') ↔ c' ∈ OnDriverList (dg_state g) ∧ c' ≠ c;
  de_reset c' : c' ∈ dg_reset_init g' ↔ c' ∈ dg_reset_init g ∧ c' ≠ c;
  de_gone : contexts g' !! c = None ∧ dg_interfaces g' !! c = None ∧ dg_made g' !! c = None;
  de_others c' : c' ≠ c → contexts g' !! c' = contexts g !! c' ∧ dg_interfaces g' !! c' = dg_interfaces g !! c'
                 ∧ dg_made g' !! c' = dg_made g !! c';
  de_ordinal : g_TtNextOrdinal g' = g_TtNextOrdinal g
}.

Lemma delete_deleted c g : deleted c g (delete_device c g).
Proof.
  unfold delete_device, TtEvtDeviceContextCleanup, TtDeviceListUnregister. cbv zeta.
  split; unfold device_list, contexts; repeat case_bool_decide; cbn in *; rewrite ?lookup_delete_eq; try done.
  all: try (intros c' Hc; rewrite ?lookup_delete_ne by done; done).
  all: try (apply list.NoDup_filter); try set_solver.
  all: intros c' Hon; rewrite ?list_elem_of_filter; naive_solver.
Qed.

Lemma delete_ok c g g' :
  driver_ok g → elsewhere c g g' → g_TtNextOrdinal g ≤ g_TtNextOrdinal g' ≤ INT_MAX → driver_ok (delete_device c g').
Proof.
  intros [K1 K2 K3 K4 K5 K6 K7 K8 K9 K10] [E1 E2 E3 E4 E5] Ho.
  destruct (delete_deleted c g') as [D1 D2 D3 D4 (D5 & D6 & D7) D8 D9]. rewrite E1 in D1, D2. rewrite E2 in D2, D3.
  specialize (λ c', D2 c' (K2 c)).
  set (g1 := delete_device c g') in *.
  assert (∀ c', c' ≠ c → contexts g1 !! c' = contexts g !! c' ∧ dg_interfaces g1 !! c' = dg_interfaces g !! c' ∧ dg_made g1 !! c' = dg_made g !! c') as Hs.
  { intros c' Hc. destruct (D8 c' Hc) as (-> & -> & ->). destruct (E3 c' Hc) as (-> & -> & -> & _). done. }
  assert (∀ c' ref, dg_interfaces g1 !! c' = Some ref → c' ≠ c ∧ dg_interfaces g !! c' = Some ref) as Hi.
  { intros c' ref Hr. assert (c' ≠ c) as Hd by congruence. split; [done|]. by rewrite <- (proj1 (proj2 (Hs c' Hd))). }
  split.
  - by apply D1.
  - intros c'. rewrite D3, D2, K2. done.
  - intros c'. rewrite D2, <- K3. destruct (decide (c' = c)) as [->|Hd]; [rewrite D5; split; [by intros [] | by intros []]|].
    rewrite (proj1 (Hs c' Hd)). naive_solver.
  - intros c' w Hw. assert (c' ≠ c) as Hd by congruence. rewrite (proj1 (Hs c' Hd)) in Hw. by apply (K4 c').
  - intros c'. rewrite D4, D2. destruct (decide (c' = c)) as [->|Hd]; [naive_solver|].
    destruct (E3 c' Hd) as (_ & _ & _ & ->). by rewrite K5.
  - rewrite D9. unfold INT_MAX in *. lia.
  - intros c' ref [Hd Hr]%Hi. destruct (K7 c' ref Hr) as (Hl & n & Hn & ->). split; [by apply D2|].
    exists n. rewrite D9. split; [lia | done].
  - intros a b ref [_ Ha]%Hi [_ Hb]%Hi. by apply (K8 a b ref).
  - intros c' [Hl Hd]%D2. rewrite (proj1 (proj2 (Hs c' Hd))). by apply K9.
  - intros c' l [Hl Hd]%D2. rewrite (proj2 (proj2 (Hs c' Hd))). by apply K10.
Qed.

Lemma notify_contexts f (l : list Z) (cs : gmap Z World) c : NoDup l →
  foldl (λ cs c, alter f c cs) cs l !! c = if bool_decide (c ∈ l) then f <$> cs !! c else cs !! c.
Proof.
  intros Hnd. revert cs. induction Hnd as [|a l Ha Hnd IH]; intros cs; [done|]. cbn [foldl]. rewrite IH.
  destruct (decide (c = a)) as [->|Hd].
  - rewrite bool_decide_false, bool_decide_true by set_solver. apply lookup_alter_eq.
  - rewrite lookup_alter_ne by done. by rewrite (bool_decide_ext (c ∈ a :: l) (c ∈ l)) by set_solver.
Qed.

Lemma notify_lookup f (l : list Z) (cs : gmap Z World) c w : NoDup l → (is_Some (cs !! c) → c ∈ l) →
  foldl (λ cs c, alter f c cs) cs l !! c = Some w → ∃ w0, cs !! c = Some w0 ∧ w = f w0.
Proof.
  intros Hnd Hl. rewrite notify_contexts by done. destruct (cs !! c) as [w0|]; [|by destruct (bool_decide _)].
  rewrite bool_decide_true by (apply Hl; by eexists). intros [= <-]. by exists w0.
Qed.

Lemma put_worlds_ok g g' :
  driver_ok g → device_list g' = device_list g → OnDriverList (dg_state g') = OnDriverList (dg_state g) →
  dg_reset_init g' = dg_reset_init g → g_TtNextOrdinal g' = g_TtNextOrdinal g →
  dg_interfaces g' = dg_interfaces g → dg_made g' = dg_made g →
  (∀ c, contexts g' !! c = contexts g !! c ∨ ∃ w w', contexts g !! c = Some w ∧ contexts g' !! c = Some w' ∧ step w w') →
  driver_ok g'.
Proof.
  intros [K1 K2 K3 K4 K5 K6 K7 K8 K9 K10] E1 E2 E3 E4 E5 E6 Hw.
  split; rewrite ?E1, ?E2, ?E3, ?E4, ?E5, ?E6; try done.
  - intros c. rewrite <- K3. destruct (Hw c) as [->|(w & w' & -> & -> & _)]; [done | naive_solver].
  - intros c x Hx. destruct (Hw c) as [E|(w & w' & Ew & Ew' & Hs)]; [rewrite E in Hx; by apply (K4 c)|].
    assert (x = w') as -> by congruence. exact (reachable_step w w' (K4 c w Ew) Hs).
Qed.

Lemma process_notify_ok creation p g :
  driver_ok g → driver_ok (g <| dg_state := TtProcessNotify creation p (dg_state g) |>).
Proof.
  intros H. pose proof (dk_nodup _ H) as Hnd. apply (put_worlds_ok g); try done; try (by destruct creation).
  intros c. unfold contexts, TtProcessNotify. destruct creation; [by left|]. cbn. rewrite notify_contexts by exact Hnd.
  case_bool_decide; [|by left]. destruct (dv_contexts (dg_state g) !! c) as [w|]; [|by left].
  right. eexists w, _. split_and!; [done | done | apply step_process_exit].
Qed.

Lemma add_device_ok fw c limit os q g :
  contexts g !! c = None → (∀ v, limit = Some v → 0 ≤ v < 2 ^ 32) → g_TtNextOrdinal g < 2 ^ 31 - 1 → driver_ok g →
  driver_ok (add_device fw c limit os q g).
Proof.
  intros Hc Hl Ho H. unfold add_device. cbv zeta.
  assert (building c g false false false [] g) as Hb.
  { split; try done; [split; try done; by left | by intros ? ?%elem_of_nil]. }
  pose proof (device_add_builds fw c g limit os q Hl g Hb) as Ha.
  destruct (NT_SUCCESS (TtEvtDeviceAdd fw c limit os q g).1); [by apply (added_ok c g)|].
  destruct (NT_SUCCESS (fw CrDevice)) eqn:Ed.
  - pose proof (dk_ordinal _ H). apply (delete_ok c g); [done | done|].
    destruct (el_ordinal _ _ _ Ha) as [->| ->]; [lia|]. rewrite increment_small by lia. unfold INT_MAX in *. lia.
  - assert ((TtEvtDeviceAdd fw c limit os q g).2 = g) as ->; [|done].
    unfold TtEvtDeviceAdd. match goal with |- ((create fw c CrDevice ;? ?k) g).2 = _ => generalize k end.
    intros k. unfold and_then, create. cbn [fst snd]. by rewrite Ed.
Qed.

Lemma dstep_ok g g' : dstep g g' → driver_ok g → driver_ok g'.
Proof.
  intros [fw c limit os q Hc Hl Ho|c Hc|creation p|c w w' Hw Hs] H.
  - by apply add_device_ok.
  - pose proof (dk_ordinal _ H). apply (delete_ok c g); [done | | lia]. split; try done. by left.
  - by apply process_notify_ok.
  - apply (put_worlds_ok g); try done. intros c'. unfold contexts, set_context in *. cbn.
    destruct (decide (c' = c)) as [->|Hd]; [right; exists w, w'; by rewrite lookup_insert_eq | left; by rewrite lookup_insert_ne].
Qed.

Lemma empty_driver_ok notify : driver_ok (mkGlobals (mkDriver ∅ [] ∅ []) (-1) notify true ∅ ∅ ∅).
Proof.
  split; unfold device_list, contexts; cbn; unfold INT_MAX; intros *; rewrite ?lookup_empty, ?elem_of_nil, ?elem_of_empty;
    first [apply base.NoDup_nil_2 | lia | done | by split; [intros [] |] ].
Qed.

Lemma loaded_ok g : loaded g → driver_ok g.
Proof.
  intros (fw & Hs & Hr). assert (driver_ok (DriverEntry fw globals_zero).2) as H.
  { revert Hs. unfold DriverEntry. cbv zeta. destruct (NT_SUCCESS (fw CrDriver)) eqn:E1; cbn [negb fst snd]; [|by rewrite E1].
    destruct (NT_SUCCESS (fw CrListLock)) eqn:E2; cbn [negb fst snd]; [|by rewrite E2]. intros _.
    destruct (NT_SUCCESS (fw CrProcessNotify)); apply empty_driver_ok. }
  clear Hs. induction Hr as [|a b c Hs _ IH]; [done|]. by apply IH, (dstep_ok a).
Qed.

(** C13 The driver over all its devices: whatever creations fail and in whatever
    order devices come and go, the device list holds exactly the devices whose
    EvtDeviceAdd succeeded, once each; each of them has all its locks, its
    reset resource and a name of its own under which its interface is
    published, and its context is in a reachable state of the per-device
    system (so every invariant of the device holds for each of them); a device
    off the list holds no resource and no name. *)
Theorem driver_devices g : loaded g →
  NoDup (device_list g)
  ∧ (∀ c, c ∈ device_list g → (∃ w, contexts g !! c = Some w ∧ reachable w) ∧ c ∈ dg_reset_init g
       ∧ (∀ l, l ∈ device_locks → CrLock l ∈ default [] (dg_made g !! c))
       ∧ ∃ n, 0 ≤ n ≤ g_TtNextOrdinal g ∧ dg_interfaces g !! c = Some (ref_string n)
              ∧ ∀ c', dg_interfaces g !! c' = Some (ref_string n) → c' = c)
  ∧ (∀ c, c ∉ device_list g → contexts g !! c = None ∧ dg_interfaces g !! c = None ∧ c ∉ dg_reset_init g).
Proof.
  intros H%loaded_ok. split; [apply (dk_nodup _ H)|]. split.
  - intros c Hc. destruct (proj2 (dk_contexts _ H c) Hc) as [w Hw]. destruct (dk_named _ H c Hc) as [ref Hr].
    destruct (dk_names _ H c ref Hr) as (_ & n & Hn & ->). split_and!.
    + exists w. split; [done | by apply (dk_worlds _ H c)].
    + by apply (dk_resources _ H).
    + intros l Hl. by apply (dk_locks _ H).
    + exists n. split_and!; [lia | lia | done |]. intros c' Hc'. by apply (dk_distinct _ H c' c (ref_string n)).
  - intros c Hc. split_and!.
    + destruct (contexts g !! c) as [w|] eqn:E; [|done]. destruct Hc. apply (dk_contexts _ H). by eexists.
    + destruct (dg_interfaces g !! c) as [ref|] eqn:E; [|done]. destruct Hc. by apply (dk_names _ H c ref).
    + intros Hr. by apply Hc, (dk_resources _ H).
Qed.

(** C15 Process exit reaches everything: after the exit notification of a
    process, no handle of any device that this process opened has a user
    mapping or a pinning left, so the address space goes away without locked
    pages or views in it; a creation notification changes nothing. *)
Theorem process_exit_releases_all `{!PoolLaws P} g p : loaded g →
  (∀ c w f, dv_contexts (TtProcessNotify false p (dg_state g)) !! c = Some w →
     f ∈ FileList w → CreatorProcess (file_ctx f w) = Some p → views_gone f w)
  ∧ TtProcessNotify true p (dg_state g) = dg_state g.
Proof.
  intros H%loaded_ok. split; [|done]. intros c w f Hw Hf Hc. unfold TtProcessNotify in Hw. cbn [dv_contexts] in Hw.
  destruct (notify_lookup (λ w, (process_notify_device p w).2) (g_TtDeviceList (dg_state g)) (dv_contexts (dg_state g)) c w)
    as (w0 & E & Ew); [apply (dk_nodup _ H) | apply (dk_contexts _ H) | exact Hw |].
  pose proof (reachable_inv _ (dk_worlds _ H c w0 E)) as [Hb Hh _].
  pose proof (process_notify_device_frame p w0) as Hfr. pose proof (exit_device p w0 Hb Hh f) as Hx. rewrite <- Ew in Hfr, Hx.
  rewrite (Hfr CFileList eq_refl : FileList w = FileList w0) in Hf.
  rewrite (Hfr FCreator eq_refl f : CreatorProcess (file_ctx f w) = CreatorProcess (file_ctx f w0)) in Hc. exact (Hx Hf Hc).
Qed.
End add.

(** ** Instances: one card is added and started, its handle 1 pins two pages; a
    second add fails at its last creation; the process exits. *)
Definition fw_ok (c : Creation) : NTSTATUS := STATUS_SUCCESS.
Definition fw_no_queue (c : Creation) : NTSTATUS :=
  match c with CrQueue => STATUS_INSUFFICIENT_RESOURCES | _ => STATUS_SUCCESS end.
Definition card_os : SimOS :=
  mkSim 0x10000 0%N [(RKernelTlb, 0x30408, 0xFFFFFFFF)]
    [(0x00, 0xB1401E52); (0x04, 0x00100006); (0x10, 0x4000000C + Z.shiftl 0x5000000C 64)] 100 STATUS_SUCCESS.
Definition memory (start len : Z) : option CmDescriptor * option CmDescriptor :=
  let d := Some (CmResourceTypeMemory start len) in (d, d).
Definition card_pnp : PnpInput := mkPnp true None 5 0 [memory 0x40000000 0x20000000; memory 0x50000000 0x100000].
Definition req_pin2 := io_req 1 IOCTL_TENSTORRENT_PIN_PAGES
  (le_encode 4 8 ++ le_encode 4 0 ++ le_encode 8 0x10000 ++ le_encode 8 0x2000) 32.

Definition no_handles : list Z := [].
Definition dev0 : World (P := sim) :=
  context_zero (P := sim) card_os no_handles <| w_dma := mkDma false 0 (TtReadDmaBufLimitBytes (Some 64)) false false |>
    <| w_pldr := mkPldr false reset_if_zero true reset_if_zero false |>.
Definition dev1 : World (P := sim) := (TtEvtDevicePrepareHardware card_pnp dev0).2.
Definition dev2 : World (P := sim) := (TtEvtDeviceFileCreate 90 1 STATUS_SUCCESS dev1).2.
Definition dev3 : World (P := sim) := (deliver 1 5 req_pin2 dev2).2.

Definition drv1 : DriverGlobals (P := sim) := add_device (P := sim) fw_ok 1 (Some 64) card_os no_handles (DriverEntry fw_ok globals_zero).2.
Definition drv2 : DriverGlobals (P := sim) := set_context 1 dev3 (set_context 1 dev2 (set_context 1 dev1 drv1)).
Definition drv3 : DriverGlobals (P := sim) := add_device (P := sim) fw_no_queue 2 None card_os no_handles drv2.

Lemma set_context_at (c : Z) (w : World (P := sim)) g : contexts (set_context c w g) !! c = Some w.
Proof. apply lookup_insert_eq. Qed.

Lemma drv3_loaded : loaded drv3.
Proof.
  exists fw_ok. split; [reflexivity|].
  apply (rtc_l _ _ drv1); [apply (dstep_add _ fw_ok 1 (Some 64)); [vm_compute; reflexivity | intros v [= <-]; lia | vm_compute; reflexivity]|].
  apply (rtc_l _ _ (set_context 1 dev1 drv1)).
  { apply (dstep_device _ 1 dev0); [vm_compute; reflexivity | apply step_prepare]. }
  apply (rtc_l _ _ (set_context 1 dev2 (set_context 1 dev1 drv1))).
  { apply (dstep_device _ 1 dev1); [apply set_context_at | apply (step_create dev1 90 1); [by_decision | vm_compute; reflexivity]]. }
  apply (rtc_l _ _ drv2).
  { apply (dstep_device _ 1 dev2); [apply set_context_at | apply (step_request dev2 1 5 req_pin2); by_decision]. }
  apply rtc_once. apply (dstep_add _ fw_no_queue 2 None); [vm_compute; reflexivity | done | vm_compute; reflexivity].
Qed.

Lemma driver_devices_witness :
  device_list drv3 = [1] ∧ contexts drv3 !! 2 = None
  ∧ ∃ n, 0 ≤ n ≤ g_TtNextOrdinal drv3 ∧ dg_interfaces drv3 !! 1 = Some (ref_string n).
Proof.
  assert (device_list drv3 = [1]) as E by (vm_compute; reflexivity).
  destruct (driver_devices drv3 drv3_loaded) as (_ & H1 & H2).
  destruct (H1 1) as (_ & _ & _ & n & Hn & Hi & _); [rewrite E; left|].
  destruct (H2 2) as (H3 & _); [rewrite E; by intros ?%list_elem_of_singleton|]. split_and!; [exact E | exact H3 | by exists n].
Defined.

Lemma process_exit_releases_all_witness :
  length (Pinnings (file_ctx 1 dev3)) = 1%nat ∧ ∃ w, dv_contexts (TtProcessNotify false 0 (dg_state drv3)) !! 1 = Some w ∧ views_gone 1 w.
Proof.
  split; [vm_compute; reflexivity|]. exists (process_notify_device 0 dev3).2.
  assert (dv_contexts (TtProcessNotify false 0 (dg_state drv3)) !! 1 = Some (process_notify_device 0 dev3).2) as E
    by (vm_compute; reflexivity). split; [exact E|].
  apply (proj1 (process_exit_releases_all drv3 0 drv3_loaded) 1 _ 1 E); [by_decision | vm_compute; reflexivity].
Defined.
