(* ===== verification/PnpSpec.v ===== *)
(** * Start and stop: kernel mappings and the bus interface are balanced

    What EvtDevicePrepareHardware maps and references is what the context
    records, through failed starts, resets and removal, and
    EvtDeviceReleaseHardware gives all of it back. *)
From S2P Require Import Prelude Abi Platform Frame Trace Sim IoSpec PciConfig Blackhole Iatu IatuSpec Tlb Memory.
From S2P Require Import Ledger MemorySpec Locks LocksSpec Power Telemetry Reset Ioctl Device Balance Handles System DriverSpec.

(** The length that a kernel mapping of [r] has. *)
Definition region_length (r : MmioRegion) (b : BarState) : Z :=
  match r with
  | RTlbRegs => TT_BH_TLB_REGS_LEN
  | RKernelTlb => TT_BH_KERNEL_TLB_LEN
  | RNoc2AxiCfg => TT_BH_NOC2AXI_CFG_LEN
  | RBar2 => bar_len b 2
  end.

(** The hardware resources of a start. *)
Definition hw_resource (r : Resource) : bool :=
  match r with RsIoSpace _ _ | RsBusInterface => true | _ => false end.

Section pnp.
Context {P : Platform}.

(** How often the context records [res]. *)
Definition recorded (res : Resource) (w : World) : Z :=
  match res with
  | RsIoSpace r len => if slot r (w_bars w) && (len =? region_length r (w_bars w)) then 1 else 0
  | RsBusInterface => if BusInterfaceValid w then 1 else 0
  | _ => 0
  end.

Definition hw_ok (w : World) : Prop := ∀ res, hw_resource res = true → live res (w_trace w) = recorded res w.

(** Nothing is mapped or referenced. *)
Definition unheld (w : World) : Prop := (∀ r, slot r (w_bars w) = false) ∧ BusInterfaceValid w = false.

(** ** What leaves the hardware alone *)
Definition HwSame : relation World := λ w w',
  (∀ r, slot r (w_bars w') = slot r (w_bars w) ∧ region_length r (w_bars w') = region_length r (w_bars w))
  ∧ BusInterfaceValid w' = BusInterfaceValid w
  ∧ ∀ res, hw_resource res = true → live res (w_trace w') = live res (w_trace w).

#[global] Instance HwSame_preorder : PreOrder HwSame.
Proof.
  split; [by intros w; split|]. intros a b c (A1 & A2 & A3) (B1 & B2 & B3). split_and!.
  - intros r. destruct (A1 r) as [<- <-], (B1 r) as [<- <-]. done.
  - congruence.
  - intros res Hr. by rewrite B3, A3.
Qed.

Lemma hw_same_ok w w' : HwSame w w' → hw_ok w → hw_ok w'.
Proof.
  intros (H1 & H2 & H3) Hw res Hr. rewrite (H3 res Hr), (Hw res Hr). unfold recorded.
  destruct res; try done; [destruct (H1 r) as [-> ->]; done | by rewrite H2].
Qed.
Lemma hw_same_unheld w w' : HwSame w w' → unheld w → unheld w'.
Proof. intros (H1 & H2 & _) [K1 K2]. split; [intros r; destruct (H1 r) as [-> _]; apply K1 | by rewrite H2]. Qed.

Lemma hw_quiet {A} fp ks (m : M A) :
  Steps (Frame fp) m → Steps (Emits ks) m → cmem CBars fp = false → cmem CBus fp = false → kmem KIface ks = false →
  Steps HwSame m.
Proof.
  intros Hf He Hb Hu Hk w. split_and!.
  - intros r. by rewrite (frame_at CBars _ _ w Hf Hb : w_bars _ = w_bars _).
  - exact (frame_at CBus _ _ w Hf Hu).
  - intros res Hr. apply (emits_ind (λ t, live res t = live res (w_trace w)) ks m w He); [|done].
    intros e t Hm <-. cbn [live]. enough (ev_count res e = 0) as -> by lia.
    destruct e; try reflexivity; cbn in Hm |- *; (destruct (decide _) as [<-|]; [|done]); exfalso;
      (destruct res; try discriminate Hr; cbn in Hm; by rewrite Hm in Hk).
Qed.

Lemma hw_modify g :
  (∀ w, w_bars (g w) = w_bars w ∧ BusInterfaceValid (g w) = BusInterfaceValid w ∧ w_trace (g w) = w_trace w) →
  Steps HwSame (modify g).
Proof. intros H w. destruct (H w) as (H1 & H2 & H3). unfold modify, HwSame. cbn. by rewrite H1, H2, H3. Qed.

Lemma hw_emit e : (∀ res, hw_resource res = true → ev_count res e = 0) → Steps HwSame (emit e).
Proof. intros H w. split_and!; [done | done|]. intros res Hr. cbn. rewrite (H res Hr). lia. Qed.

Lemma hw_call {A} (f : OS → A * OS) log :
  (∀ a, all_kinds [KSync; KRes; KHw; KAtu; KCfg; KMem; KReq; KPldr; KFuel] (log a) = true) → Steps HwSame (call f log).
Proof. intros Hl. eapply hw_quiet; [apply call_frame | apply call_emits; exact Hl | done..]. Qed.
End pnp.

Create HintDb hw discriminated.
#[export] Hint Constants Opaque : hw.

Ltac hw_leaf := first
  [ solve [eauto 2 with hw nocore]
  | eapply hw_quiet;
      [solve [eauto 2 with frames nocore] | solve [eauto 2 with emits nocore] | reflexivity | reflexivity | reflexivity]
  | apply hw_emit; by intros []
  | apply hw_modify; intros ?; split_and!; reflexivity
  | apply hw_call; by intros [] ].
Ltac hw_walk := steps_walk hw_leaf.

Section operations.
Context {P : Platform}.

Lemma pldr_initiate_hw : Steps HwSame TtPldrInitiate.
Proof. unfold TtPldrInitiate. hw_walk. Qed.
Lemma pldr_work_hw : Steps HwSame TtPldrWorkItem.
Proof. unfold TtPldrWorkItem. hw_walk. Qed.
#[local] Hint Resolve pldr_initiate_hw pldr_work_hw : hw.
Lemma reset_flavor_hw f flags : Steps HwSame (reset_flavor f flags).
Proof. unfold reset_flavor. hw_walk. Qed.
#[local] Hint Resolve reset_flavor_hw : hw.
Lemma reset_device_hw f r : Steps HwSame (TtIoctlResetDevice f r).
Proof. unfold TtIoctlResetDevice. hw_walk. Qed.
#[local] Hint Resolve reset_device_hw : hw.
Lemma dispatch_code_hw f r code : Steps HwSame (dispatch_code f r code).
Proof. unfold dispatch_code, dispatch. hw_walk. Qed.
#[local] Hint Resolve dispatch_code_hw : hw.
Lemma device_control_hw f r code : Steps HwSame (TtEvtIoDeviceControl f r code).
Proof. unfold TtEvtIoDeviceControl. hw_walk. Qed.
#[local] Hint Resolve device_control_hw : hw.
Lemma deliver_hw f r q : Steps HwSame (deliver f r q).
Proof. unfold deliver. hw_walk. Qed.
Lemma file_cleanup_hw f : Steps HwSame (TtEvtFileCleanup f).
Proof. unfold TtEvtFileCleanup. hw_walk. Qed.
End operations.
#[export] Hint Resolve pldr_work_hw deliver_hw file_cleanup_hw : hw.

(** ** Mapping and unmapping the BARs *)
Section bars.
Context {P : Platform}.

(** A row of the two tables: the length is the region's. *)
Definition good_row (m : MmioRegion * Z * Z * Z) (b : BarState) : Prop :=
  let '(r, bar, _, len) := m in map_length b bar len = region_length r b.

Lemma rows_good b : Forall (λ m, good_row m b) bar_maps.
Proof. repeat constructor. Qed.

Lemma slot_set r r' v b : slot r (set_slot r' v b) = if decide (r = r') then v else slot r b.
Proof. destruct r, r'; reflexivity. Qed.
Lemma length_set r r' v b : region_length r (set_slot r' v b) = region_length r b.
Proof. by destruct r, r'. Qed.

(** The mapping of [r] changes to [v], with the event [e]. *)
Lemma slot_event (r : MmioRegion) (v : bool) w w1 e :
  w_bars w1 = w_bars w → BusInterfaceValid w1 = BusInterfaceValid w → w_trace w1 = e :: w_trace w →
  slot r (w_bars w) = negb v →
  (∀ res, ev_count res e = if decide (res = RsIoSpace r (region_length r (w_bars w))) then (if v then 1 else -1) else 0) →
  hw_ok w → hw_ok (upd_bars (set_slot r v) w1).2.
Proof.
  intros E1 E2 E3 Hs He Hw res Hr. unfold upd_bars, modify. cbn. rewrite E3. cbn [live]. rewrite He, (Hw res Hr).
  destruct res as [| | | | | |r' len'| |]; try discriminate Hr; unfold recorded; cbn; rewrite ?E1, ?E2.
  - rewrite slot_set, length_set. destruct (decide (r' = r)) as [->|Hn].
    + rewrite Hs. destruct (decide (RsIoSpace r len' = _)) as [[= ->]|Hl]; [rewrite Z.eqb_refl; by destruct v|].
      destruct (Z.eqb_spec len' (region_length r (w_bars w))) as [->|_]; [done | by destruct v].
    + rewrite decide_False by congruence. lia.
  - by destruct (BusInterfaceValid w).
Qed.

Lemma slot_clear (r : MmioRegion) w : slot r (w_bars w) = false → hw_ok w → hw_ok (upd_bars (set_slot r false) w).2.
Proof.
  intros Hs Hw res Hr. unfold upd_bars, modify. cbn. rewrite (Hw res Hr). destruct res; try done. unfold recorded. cbn.
  rewrite slot_set, length_set. case_decide; [subst; by rewrite Hs | done].
Qed.

Definition row_region (m : MmioRegion * Z * Z * Z) : MmioRegion := m.1.1.1.

(** One row touches its own slot. *)
Definition touches (r : MmioRegion) (w w' : World) : Prop :=
  (∀ r', r' ≠ r → slot r' (w_bars w') = slot r' (w_bars w)) ∧ BusInterfaceValid w' = BusInterfaceValid w.

Lemma map_bar_hw m w : (∀ b, good_row m b) → hw_ok w → slot (row_region m) (w_bars w) = false →
  hw_ok (map_bar m w).2 ∧ touches (row_region m) w (map_bar m w).2
  ∧ ((map_bar m w).1 = None → slot (row_region m) (w_bars (map_bar m w).2) = true).
Proof.
  destruct m as [[[r bar] off] len]. intros Hg Hw Hs. specialize (Hg (w_bars w)). cbn in Hg, Hs. unfold map_bar, row_region. cbn [fst].
  unfold gets, call, mbind, st_bind, mret, st_ret. cbn [fst snd]. rewrite Hg.
  destruct (MmMapIoSpaceEx _ _ (w_os w)) as [ok os]. cbn [fst snd].
  split; [|split; [split; [intros r' Hn; cbn; rewrite slot_set; by rewrite decide_False | done]|]].
  - destruct ok.
    + apply (slot_event r true w _ (EvGet (RsIoSpace r (region_length r (w_bars w))))); try done.
    + apply slot_clear; [exact Hs|]. exact Hw.
  - destruct ok; [|done]. intros _. cbn. rewrite slot_set. by rewrite decide_True.
Qed.

Lemma map_loop_hw l w :
  NoDup (row_region <$> l) → (∀ m b, m ∈ l → good_row m b) → hw_ok w → (∀ m, m ∈ l → slot (row_region m) (w_bars w) = false) →
  hw_ok (for_break l map_bar w).2 ∧ BusInterfaceValid (for_break l map_bar w).2 = BusInterfaceValid w.
Proof.
  revert w. induction l as [|m l IH]; intros w Hnd Hg Hw Hs; cbn [for_break]; [done|].
  inversion Hnd as [|? ? Hm Hnd']; subst. unfold mbind, st_bind, mret, st_ret. cbn [fst snd].
  destruct (map_bar_hw m w) as (H1 & [H2 H3] & _); [by intros b; apply Hg; left | done | apply Hs; left |].
  destruct (map_bar m w) as [[st|] w1]; cbn [fst snd] in *; [done|]. rewrite <- H3. apply IH; [done | | done |].
  - intros x b Hx. apply Hg. by right.
  - intros x Hx. rewrite H2; [apply Hs; by right|]. intros E. apply Hm. rewrite <- E. by apply list_elem_of_fmap_2.
Qed.

Lemma unmap_bar_hw m w : (∀ b, good_row m b) → hw_ok w →
  hw_ok (unmap_bar m w).2 ∧ touches (row_region m) w (unmap_bar m w).2 ∧ slot (row_region m) (w_bars (unmap_bar m w).2) = false.
Proof.
  destruct m as [[[r bar] off] len]. intros Hg Hw. specialize (Hg (w_bars w)). cbn in Hg. unfold unmap_bar, row_region. cbn [fst].
  unfold gets, mbind, st_bind. cbn [fst snd]. rewrite Hg. destruct (slot r (w_bars w)) eqn:Hs; cbn [when]; [|by split_and!].
  unfold mbind, st_bind. cbn [fst snd]. split; [|split; [split; [intros r' Hn; cbn; rewrite slot_set; by rewrite decide_False | done]|]].
  - by apply (slot_event r false w _ (EvPut (RsIoSpace r (region_length r (w_bars w))))).
  - cbn. rewrite slot_set. by rewrite decide_True.
Qed.

Lemma unmap_loop_hw l w : (∀ m b, m ∈ l → good_row m b) → hw_ok w →
  hw_ok (for_each l unmap_bar w).2 ∧ BusInterfaceValid (for_each l unmap_bar w).2 = BusInterfaceValid w
  ∧ (∀ r, slot r (w_bars w) = false ∨ r ∈ row_region <$> l → slot r (w_bars (for_each l unmap_bar w).2) = false).
Proof.
  revert w. induction l as [|m l IH]; intros w Hg Hw; cbn [for_each].
  - split_and!; [done | done|]. intros r [H|H]; [done | by apply elem_of_nil in H].
  - unfold mbind, st_bind. cbn [fst snd]. destruct (unmap_bar_hw m w) as (H1 & [H2 H3] & H4); [by intros b; apply Hg; left | done|].
    destruct (IH (unmap_bar m w).2) as (I1 & I2 & I3); [intros x b Hx; apply Hg; by right | done|].
    split_and!; [done | congruence|]. intros r Hr. apply I3. destruct (decide (r = row_region m)) as [->|Hn]; [by left|].
    destruct Hr as [Hr|Hr]; [left; by rewrite H2 | right]. cbn in Hr. apply elem_of_cons in Hr as [Hr|Hr]; [done | exact Hr].
Qed.

Lemma bar_maps_good m b : m ∈ bar_maps → good_row m b.
Proof. intros Hm. pose proof (rows_good b) as H. rewrite Forall_forall in H. by apply H, list_elem_of_In. Qed.

Lemma unmap_bars_hw w : hw_ok w →
  hw_ok (TtUnmapBlackholeBars w).2 ∧ BusInterfaceValid (TtUnmapBlackholeBars w).2 = BusInterfaceValid w
  ∧ ∀ r, slot r (w_bars (TtUnmapBlackholeBars w).2) = false.
Proof.
  intros Hw. destruct (unmap_loop_hw bar_maps w bar_maps_good Hw) as (H1 & H2 & H3). split_and!; [done | done|].
  intros r. apply H3. right. destruct r; apply (bool_decide_unpack _); vm_compute; exact I.
Qed.

Lemma map_bars_hw w : hw_ok w → (∀ r, slot r (w_bars w) = false) →
  hw_ok (TtMapBlackholeBars w).2 ∧ BusInterfaceValid (TtMapBlackholeBars w).2 = BusInterfaceValid w.
Proof.
  intros Hw Hs. unfold TtMapBlackholeBars, gets, mbind, st_bind, mret, st_ret. cbn [fst snd].
  destruct (_ || _); [done|]. cbn [snd]. apply map_loop_hw; [| apply bar_maps_good | done | intros m _; apply Hs].
  apply (bool_decide_unpack _). vm_compute. exact I.
Qed.
End bars.

(** ** Start and stop *)
Section startstop.
Context {P : Platform}.

Definition unmapped (w : World) : Prop := ∀ r, slot r (w_bars w) = false.

Lemma upd_bars_unmapped g w : (∀ b r, slot r (g b) = slot r b) → hw_ok w → unmapped w →
  hw_ok (upd_bars g w).2 ∧ unmapped (upd_bars g w).2 ∧ BusInterfaceValid (upd_bars g w).2 = BusInterfaceValid w.
Proof.
  intros Hg Hw Hs. split_and!; [|intros r; unfold upd_bars; cbn; by rewrite Hg | done].
  intros res Hr. unfold upd_bars, modify. cbn. rewrite (Hw res Hr). destruct res; try done. unfold recorded. cbn. by rewrite Hg, !Hs.
Qed.

Lemma correlate_slots v l b r : slot r (foldl (correlate v) b l) = slot r b.
Proof.
  revert b. induction l as [|[raw xl] l IH]; intros b; [done|]. cbn [foldl]. rewrite IH. unfold correlate.
  destruct raw, xl; try done. destruct (negb _); [done|]. destruct (bar_of _ _ _); [|done]. by destruct r.
Qed.

Lemma after_same {A} (m : M A) w : Steps HwSame m → hw_ok w → unmapped w → hw_ok (m w).2 ∧ unmapped (m w).2.
Proof. intros Hm Hw Hs. destruct (Hm w) as (H1 & H). split; [by apply (hw_same_ok w) | intros r; destruct (H1 r) as [-> _]; apply Hs]. Qed.

Lemma prepare_bus_hw pnp w : hw_ok w → unmapped w → BusInterfaceValid w = false →
  hw_ok (prepare_bus pnp w).2 ∧ unmapped (prepare_bus pnp w).2.
Proof.
  intros Hw Hs Hb. unfold prepare_bus. unfold mbind at 1 2, st_bind at 1 2. cbn [fst snd].
  match goal with |- hw_ok (?m ?w1).2 ∧ _ => assert (Steps HwSame m) as Hm; [|apply (after_same m w1 Hm)] end.
  - unfold read_identity, enable_bus_master, TtReadConfigBars. hw_walk.
  - intros res Hr. change (ev_count res (EvGet RsBusInterface) + live res (w_trace w) = recorded res (w <| BusInterfaceValid := true |>)).
    rewrite (Hw res Hr). destruct res; try discriminate Hr; unfold recorded, ev_count; cbn [BusInterfaceValid];
      [rewrite decide_False by done; done | rewrite decide_True by done; by rewrite Hb].
  - exact Hs.
Qed.

Lemma prepare_blackhole_hw w : hw_ok w → unmapped w → hw_ok (prepare_blackhole w).2.
Proof.
  intros Hw Hs. unfold prepare_blackhole. unfold mbind at 1, st_bind at 1. destruct (map_bars_hw w Hw Hs) as [H1 _].
  revert H1. generalize (TtMapBlackholeBars w). intros [st w1] H1. cbn [fst snd] in *. destruct (negb _).
  - unfold mbind, st_bind, mret, st_ret. cbn [snd]. by apply unmap_bars_hw.
  - match goal with |- hw_ok (?m ?w1).2 => assert (Steps HwSame m) as Hm; [|exact (hw_same_ok _ _ (Hm w1) H1)] end.
    unfold dma_enabler_init, dma_identity_probe, set_needs_hw_init. hw_walk.
Qed.

Lemma prepare_hw pnp w : hw_ok w → unheld w → hw_ok (TtEvtDevicePrepareHardware pnp w).2.
Proof.
  intros Hw [Hs Hb]. unfold TtEvtDevicePrepareHardware. unfold mbind at 1, st_bind at 1. cbn [fst snd].
  destruct (upd_bars_unmapped bars_zero w) as (H1 & H2 & H3); [by intros b [] | done | done |].
  revert H1 H2 H3. generalize (upd_bars bars_zero w).2. intros w1 H1 H2 H3. rewrite Hb in H3.
  unfold mbind at 1, st_bind at 1. cbn [fst snd].
  assert (∀ m : M (list Z), hw_ok (m w1).2 ∧ unmapped (m w1).2 →
    hw_ok ((upd_bars (λ b, foldl (correlate (m w1).1) b (pi_Resources pnp));; bh ← gets (IsBlackhole ∘ w_id);
            if (bh : bool) then prepare_blackhole else mret STATUS_SUCCESS) (m w1).2).2) as Hrest.
  { intros m. generalize (m w1). intros [v w2] [K1 K2]. cbn [fst snd] in *. unfold mbind, st_bind, gets. cbn [fst snd].
    destruct (upd_bars_unmapped (λ b, foldl (correlate v) b (pi_Resources pnp)) w2) as (K3 & K4 & _); [by intros; apply correlate_slots | done | done |].
    destruct ((IsBlackhole ∘ w_id) _); [by apply prepare_blackhole_hw | exact K3]. }
  apply (Hrest (if pi_BusInterface pnp then prepare_bus pnp else mret (replicate 6 0))).
  destruct (pi_BusInterface pnp); [by apply prepare_bus_hw | by split].
Qed.

Lemma drop_bus_hw w : hw_ok w → unmapped w →
  let m := valid ← gets BusInterfaceValid;
           when valid (emit (EvPut RsBusInterface);; modify (λ w, w <| BusInterfaceValid := false |>)) in
  hw_ok (m w).2 ∧ unheld (m w).2.
Proof.
  intros Hw Hs. cbv zeta. unfold gets, mbind, st_bind. cbn [fst snd]. destruct (BusInterfaceValid w) eqn:Hb; cbn [when snd]; [|by split].
  split; [|by split]. intros res Hr.
  change (ev_count res (EvPut RsBusInterface) + live res (w_trace w) = recorded res (w <| BusInterfaceValid := false |>)).
  rewrite (Hw res Hr). destruct res; try discriminate Hr; unfold recorded, ev_count; cbn [BusInterfaceValid];
    [rewrite decide_False by done; done | rewrite decide_True by done; by rewrite Hb].
Qed.

Lemma after_bind {A B} (m : M A) (k : A → M B) (Q : World → Prop) w :
  Steps HwSame m → (∀ a w', hw_ok w' → unmapped w' → Q (k a w').2) → hw_ok w → unmapped w → Q (mbind k m w).2.
Proof. intros Hm Hk Hw Hs. destruct (after_same m w Hm Hw Hs). by apply Hk. Qed.

Lemma release_hw w : hw_ok w → hw_ok (TtEvtDeviceReleaseHardware w).2 ∧ unheld (TtEvtDeviceReleaseHardware w).2.
Proof.
  intros Hw. unfold TtEvtDeviceReleaseHardware. rewrite bind_st.
  destruct (unmap_bars_hw w Hw) as (H1 & _ & H2). revert H1 H2. generalize (TtUnmapBlackholeBars w). intros [u w1] H1 H2.
  cbn [fst snd] in *. rewrite bind_st.
  destruct (upd_bars_unmapped bars_zero w1) as (H3 & H4 & _); [by intros b [] | done | done |].
  revert H3 H4. generalize (upd_bars bars_zero w1). intros [u' w2] H3 H4. cbn [fst snd] in *.
  set (Q := λ w : World, hw_ok w ∧ unheld w). apply (after_bind _ _ Q); [hw_walk | | done | done]. intros _ w3 ? ?.
  apply (after_bind _ _ Q); [unfold set_dma; hw_walk | | done | done]. intros _ w4 ? ?.
  apply (after_bind _ _ Q); [hw_walk | | done | done]. intros p w5 ? ?.
  apply (after_bind _ _ Q); [hw_walk | | done | done]. intros _ w6 ? ?. by apply (drop_bus_hw w6).
Qed.

(** ** Histories

    The framework starts a device only when it is stopped; everything else may
    happen at any time. *)
Inductive pnp_step : bool * World → bool * World → Prop :=
  | pnp_prepare w pnp : pnp_step (false, w) (true, (TtEvtDevicePrepareHardware pnp w).2)
  | pnp_release b w : pnp_step (b, w) (false, (TtEvtDeviceReleaseHardware w).2)
  | pnp_create b w r f s : pnp_step (b, w) (b, (TtEvtDeviceFileCreate r f s w).2)
  | pnp_request b w f r q : pnp_step (b, w) (b, (deliver f r q w).2)
  | pnp_close b w f : pnp_step (b, w) (b, (TtEvtFileCleanup f w).2)
  | pnp_process_exit b w p : pnp_step (b, w) (b, (process_notify_device p w).2)
  | pnp_d0_entry b w s : pnp_step (b, w) (b, (TtEvtDeviceD0Entry s w).2)
  | pnp_d0_exit b w s : pnp_step (b, w) (b, (TtEvtDeviceD0Exit s w).2)
  | pnp_surprise b w : pnp_step (b, w) (b, (TtEvtDeviceSurpriseRemoval w).2)
  | pnp_pldr b w : pnp_step (b, w) (b, (TtPldrWorkItem w).2)
  | pnp_environment b w w' : Frame [COs; CProcess; CWaitQueue] w w' → pnp_step (b, w) (b, w').

Definition pnp_ok (x : bool * World) : Prop := hw_ok x.2 ∧ (x.1 = false → unheld x.2).

Lemma pnp_same b w w' : HwSame w w' → pnp_ok (b, w) → pnp_ok (b, w').
Proof. intros H [H1 H2]. split; [by apply (hw_same_ok w) | intros Hb; by apply (hw_same_unheld w); [|apply H2]]. Qed.

Lemma pnp_intro b w : hw_ok w → (b = false → unheld w) → pnp_ok (b, w).
Proof. by split. Qed.
Lemma pnp_started pnp w : pnp_ok (false, w) → pnp_ok (true, (TtEvtDevicePrepareHardware pnp w).2).
Proof. intros [H1 H2]. apply pnp_intro; [exact (prepare_hw pnp w H1 (H2 eq_refl)) | discriminate]. Qed.
Lemma pnp_stopped b w : pnp_ok (b, w) → pnp_ok (false, (TtEvtDeviceReleaseHardware w).2).
Proof. intros [H1 _]. destruct (release_hw w H1) as [K1 K2]. apply pnp_intro; [exact K1 | intros _; exact K2]. Qed.

Lemma pnp_step_ok x y : pnp_step x y → pnp_ok x → pnp_ok y.
Proof.
  intros [w pnp|b w|b w r f s|b w f r q|b w f|b w p|b w s|b w s|b w|b w|b w w' Hf] Hx.
  3-10: match goal with |- pnp_ok (?c, (?m ?v).2) => assert (Steps HwSame m) as Hm;
      [hw_walk | exact (pnp_same c v _ (Hm v) Hx)] end.
  - exact (pnp_started pnp w Hx).
  - exact (pnp_stopped b w Hx).
  - apply (pnp_same b w); [|done]. split_and!.
    + intros r. by rewrite (Hf CBars eq_refl : w_bars _ = w_bars _).
    + exact (Hf CBus eq_refl).
    + intros res _. by rewrite (Hf CTrace eq_refl : w_trace _ = w_trace _).
Qed.

(** C14 Start and stop are balanced: from a new device on, under any history in
    which the framework starts the device only when it is stopped (requests,
    resets, removal, failed starts and the rest in any order), the kernel
    mappings of the BARs and the bus interface that the driver holds are
    exactly those its context records, each at most once and with the length
    it will be unmapped with, and whenever the device is stopped it holds none. *)
Theorem start_stop_balanced w0 b w :
  w_trace w0 = [] → unheld w0 → rtc pnp_step (false, w0) (b, w) →
  (∀ res, hw_resource res = true → live res (w_trace w) = recorded res w)
  ∧ (b = false → ∀ res, hw_resource res = true → live res (w_trace w) = 0).
Proof.
  intros Ht Hu Hr. assert (pnp_ok (false, w0)) as H0.
  { split; [|done]. intros res Hres. cbn [snd]. rewrite Ht. destruct Hu as [Hs Hb].
    destruct res; try discriminate Hres; unfold recorded; [by rewrite Hs | by rewrite Hb]. }
  assert (pnp_ok (b, w)) as [H1 H2] by (revert H0; induction Hr as [|x y z Hs _ IH]; [done|]; intros H0; by apply IH, (pnp_step_ok x)).
  split; [exact H1|]. intros Hb res Hres. destruct (H2 Hb) as [Hs Hbus]. change (live res (w_trace w)) with (live res (w_trace (b, w).2)). rewrite (H1 res Hres).
  destruct res; try discriminate Hres; unfold recorded; cbn [snd] in *; [by rewrite Hs | by rewrite Hbus].
Qed.
End startstop.

(** ** Instance: a card is started and stopped. *)
Lemma start_stop_balanced_witness :
  live RsBusInterface (w_trace dev1) = recorded RsBusInterface dev1
  ∧ recorded RsBusInterface dev1 = 1
  ∧ live RsBusInterface (w_trace (TtEvtDeviceReleaseHardware dev1).2) = 0.
Proof.
  assert (w_trace dev0 = []) as Ht by (vm_compute; reflexivity).
  assert (unheld dev0) as Hu by (split; [intros []; vm_compute; reflexivity | vm_compute; reflexivity]).
  assert (pnp_step (false, dev0) (true, dev1)) as H1 by (exact (pnp_prepare dev0 card_pnp)).
  assert (rtc pnp_step (false, dev0) (true, dev1)) as Hr by (exact (rtc_once _ _ H1)).
  assert (rtc pnp_step (false, dev0) (false, (TtEvtDeviceReleaseHardware dev1).2)) as Hr2.
  { exact (rtc_l _ _ _ _ H1 (rtc_once _ _ (pnp_release true dev1))). }
  split; [exact (proj1 (start_stop_balanced dev0 true dev1 Ht Hu Hr) RsBusInterface eq_refl)|].
  split; [vm_compute; reflexivity|].
  exact (proj2 (start_stop_balanced dev0 false _ Ht Hu Hr2) eq_refl RsBusInterface eq_refl).
Defined.
