(* ===== verification/TypeSpec.v ===== *)
(** * The types of the state

    C gives every field a width and every array a length; the model keeps
    integers as [Z] and arrays as lists.  [well_typed] says that the state fits
    the declarations of ttkmd.h and the ranges the handlers check for, and
    every operation is typed: from a well-typed state it reaches a well-typed
    state and returns a value of its type. *)
From S2P Require Import Prelude Abi Platform Frame Trace Sim IoSpec PciConfig PciConfigSpec Blackhole Iatu IatuSpec Tlb Memory.
From S2P Require Import Ledger MemorySpec Locks LocksSpec Power Telemetry Reset Ioctl Device Driver Balance Handles System.
From S2P Require Import DriverSpec.

(** ** The types of values *)
Definition sint (w z : Z) : Prop := - 2 ^ (w - 1) ≤ z < 2 ^ (w - 1).
Definition array {A} (n : nat) (τ : A → Prop) (l : list A) : Prop := length l = n ∧ Forall τ l.
Definition pages (z : Z) : Prop := 0 < z ≤ MAXULONG ∧ z mod PAGE_SIZE = 0.
(** An iATU region or -1; a window id or -1. *)
Definition region_id (z : Z) : Prop := -1 ≤ z < TT_IATU_REGIONS.
Definition window_id (z : Z) : Prop := -1 ≤ z < TT_TLB_TOTAL.

Lemma uint_land_mask w z m : uint w m → uint w (Z.land z m).
Proof. intros [H0 H1]. pose proof (land_le z m H0). split; [apply Z.land_nonneg; by right | lia]. Qed.
Lemma sint_signed64 z : sint 64 (signed64 z).
Proof.
  unfold sint, signed64. pose proof (wrap64_range z). change (2 ^ (64 - 1)) with (2 ^ 63). change (2 ^ 64) with (2 * 2 ^ 63).
  assert (18446744073709551616 = 2 * 2 ^ 63) as E by reflexivity. destruct (Z.leb_spec (2 ^ 63) (wrap64 z)); lia.
Qed.

Lemma array_replicate {A} n (τ : A → Prop) x : τ x → array n τ (replicate n x).
Proof. intros Hx. split; [apply length_replicate | by apply Forall_replicate]. Qed.
Lemma array_insert {A} n (τ : A → Prop) i x l : array n τ l → τ x → array n τ (<[i := x]> l).
Proof. intros [H1 H2] Hx. split; [by rewrite length_insert | by apply Forall_insert]. Qed.
Lemma array_alter {A} n (τ : A → Prop) i f l : (∀ x, τ x → τ (f x)) → array n τ l → array n τ (alter f i l).
Proof. intros Hf [H1 H2]. split; [by rewrite length_alter | apply Forall_alter; auto]. Qed.

(** *** Bytes and structures *)
Lemma bytes_take n b : bytes b → bytes (take n b).
Proof. apply Forall_take. Qed.
Lemma bytes_drop n b : bytes b → bytes (drop n b).
Proof. apply Forall_drop. Qed.
Lemma bytes_app a b : bytes a → bytes b → bytes (a ++ b).
Proof. intros. by apply Forall_app_2. Qed.
Lemma bytes_zeros n : bytes (replicate n 0).
Proof. by apply Forall_replicate. Qed.
Lemma bytes_le n v : bytes (le_encode n v).
Proof. revert v. induction n; intros v; cbn; constructor; [apply (uint_wrap 8); lia | apply IHn]. Qed.
Lemma bytes_splice off n b : bytes n → bytes b → bytes (splice off n b).
Proof. intros. unfold splice. auto using bytes_app, bytes_take, bytes_drop. Qed.
Lemma bytes_sput T f v b : bytes b → bytes (sput T f v b).
Proof. intros. apply bytes_splice; [apply bytes_le | done]. Qed.
Lemma bytes_concat l : Forall bytes l → bytes (concat l).
Proof. induction 1; cbn; [constructor | by apply bytes_app]. Qed.
Lemma bytes_join l : Forall bytes l → bytes (mjoin l).
Proof. induction 1; cbn; [constructor | by apply bytes_app]. Qed.

Lemma uint_le_decode b off n w : bytes b → 0 ≤ n → 8 * n = w → uint w (le_decode (bytes_at off n b)).
Proof.
  intros Hb Hn <-. unfold bytes_at. pose proof (le_decode_range _ (bytes_take (Z.to_nat n) _ (bytes_drop (Z.to_nat off) _ Hb))) as H.
  rewrite length_take in H. unfold uint. rewrite Z.pow_mul_r by lia. change (2 ^ 8) with 256. split; [lia|].
  eapply Z.lt_le_trans; [apply H|]. apply Z.pow_le_mono_r; lia.
Qed.
Lemma uint_sget T f w b : bytes b → 0 ≤ c_fieldsize T f → 8 * c_fieldsize T f = w → uint w (sget T f b).
Proof. apply uint_le_decode. Qed.

(** ** The types of the structures of ttkmd.h *)
Record mapping_typed (m : TT_USER_MAPPING) : Prop := {
  my_length : pages (um_Length m);
  my_window : window_id (um_TlbId m);
  my_backing : um_TlbId m ≠ -1 → um_DmaBuf m = None
}.
Record pinning_typed (n : TT_PINNING) : Prop := {
  py_va : uint 64 (pn_VirtualAddress n) ∧ pn_VirtualAddress n mod PAGE_SIZE = 0;
  py_size : pages (pn_Size n);
  py_region : region_id (pn_IatuRegion n);
  py_mdl : pn_Mdl n = None ↔ is_Some (pn_BackingDmaBuf n)
}.
Record power_typed (p : PowerContribution) : Prop := {
  oy_validity : uint 8 (PowerValidity p);
  oy_flags : uint 16 (PowerFlags p);
  oy_settings : array 14 (uint 16) (PowerSettings p)
}.
Record noc_typed (n : NocCleanup) : Prop := {
  ny_x : 0 ≤ NocCleanupX n ≤ 64;
  ny_y : 0 ≤ NocCleanupY n ≤ 64;
  ny_noc : 0 ≤ NocCleanupNoc n ≤ 1;
  ny_addr : uint 64 (NocCleanupAddr n) ∧ NocCleanupAddr n mod 4 = 0;
  ny_data : uint 64 (NocCleanupData n)
}.
Record file_typed (c : TT_FILE_CONTEXT) : Prop := {
  fy_gen : sint 64 (OpenResetGen c);
  fy_mappings : Forall mapping_typed (Mappings c);
  fy_pinnings : Forall pinning_typed (Pinnings c);
  fy_slots i p : DmaBufs c !! i = Some p → 0 ≤ i < TENSTORRENT_MAX_DMA_BUFS;
  fy_locks : uint 64 (LocksHeld c);
  fy_power : power_typed (fc_Power c);
  fy_noc : noc_typed (fc_Noc c)
}.
Record buffer_typed (d : TT_DMABUF) : Prop := {
  by_size : pages (db_Size d) ∧ db_Size d ≤ TT_MAX_DMA_BUF_SIZE;
  by_index : 0 ≤ db_Index d < TENSTORRENT_MAX_DMA_BUFS;
  by_logical : uint 64 (db_Logical d);
  by_region : region_id (db_IatuRegion d)
}.
Record pool_typed (t : TlbPool) : Prop := {
  ty_used : length (TlbUsed t) = Z.to_nat TT_TLB_TOTAL;
  ty_owner : length (TlbOwner t) = Z.to_nat TT_TLB_TOTAL;
  ty_count : uint 32 (Tlb4gCount t);
  ty_owned i f : TlbOwner t !! i = Some (Some f) → TlbUsed t !! i = Some true
}.
Record entry_typed (e : IatuEntry) : Prop := {
  ey_base : uint 64 (ia_Base e);
  ey_limit : uint 64 (ia_Limit e);
  ey_target : uint 64 (ia_Target e);
  ey_owner : ia_Used e = true ↔ is_Some (ia_Owner e)
}.
Record id_typed (i : PciIdentity) : Prop := {
  iy_vendor : uint 16 (VendorId i); iy_device : uint 16 (DeviceId i);
  iy_subvendor : uint 16 (SubsysVendorId i); iy_subsys : uint 16 (SubsysId i);
  iy_bdf : uint 16 (BusDevFn i); iy_domain : uint 16 (PciDomain i)
}.
Record saved_typed (s : SavedState) : Prop := {
  sy_header : array 16 (uint 32) (SavedHeaderDword s);
  sy_devctl : uint 16 (SavedPcieDevCtl s); sy_lnkctl : uint 16 (SavedPcieLnkCtl s);
  sy_cap : uint 8 (PcieCapOffset s); sy_mps : uint 8 (SavedMps s)
}.
Definition dma_typed (d : DmaState) : Prop := sint 64 (DmaBufBytes d) ∧ uint 64 (DmaBufLimitBytes d).
Definition bars_typed (b : BarState) : Prop := array 6 (uint 64) (BarLength b) ∧ array 6 (sint 64) (BarBase b).
Definition pldr_typed (p : PldrState) : Prop :=
  uint 32 (SupportedResetTypes (ResetInterface p)) ∧ uint 32 (SupportedResetTypes (PldrSnapshot p)).
Definition agg_typed (a : PowerAgg) : Prop := uint 16 (PowerAggFlags a) ∧ array 14 (uint 16) (PowerAggSettings a).
Definition telem_typed (t : TelemetryState) : Prop :=
  array (Z.to_nat TT_TELEM_TAG_CACHE_SIZE) (uint 32) (TelemetryTagCache t).

Section typing.
Context {P : Platform}.

(** TT_DEVICE_CONTEXT with everything it leads to. *)
Record well_typed (w : World) : Prop := {
  wt_id : id_typed (w_id w);
  wt_gate : sint 64 (ResetGen (w_gate w));
  wt_bars : bars_typed (w_bars w);
  wt_tlb : pool_typed (w_tlb w);
  wt_iatu : array (Z.to_nat TT_IATU_REGIONS) entry_typed (w_iatu w);
  wt_dma : dma_typed (w_dma w);
  wt_locks : uint 64 (ResourceLockHeld w);
  wt_power : agg_typed (w_power w);
  wt_telem : telem_typed (w_telem w);
  wt_saved : saved_typed (w_saved w);
  wt_pldr : pldr_typed (w_pldr w);
  wt_files f : file_typed (file_ctx f w);
  wt_buffers p d : w_dmabufs w !! p = Some d → buffer_typed d;
  wt_requests r : bytes (rq_Buffer (req_state r w))
}.
Definition typed_comps : list Comp :=
  [CId; CGate; CBars; CTlb; CIatu; CDma; CLocks; CPower; CTelem; CSaved; CPldr; CDmaBufs; CReqs;
   FGen; FMappings; FPinnings; FDmaBufs; FLocks; FPower; FNoc].

Lemma well_typed_reads : Reads typed_comps well_typed.
Proof.
  intros w w' Ha [].
  pose proof (Ha CId eq_refl) as E1. pose proof (Ha CGate eq_refl) as E2. pose proof (Ha CBars eq_refl) as E3.
  pose proof (Ha CTlb eq_refl) as E4. pose proof (Ha CIatu eq_refl) as E5. pose proof (Ha CDma eq_refl) as E6.
  pose proof (Ha CLocks eq_refl) as E7. pose proof (Ha CPower eq_refl) as E8. pose proof (Ha CTelem eq_refl) as E9.
  pose proof (Ha CSaved eq_refl) as E10. pose proof (Ha CDmaBufs eq_refl) as E11. pose proof (Ha CReqs eq_refl) as E12.
  pose proof (Ha CPldr eq_refl) as E13.
  cbn in E1, E2, E3, E4, E5, E6, E7, E8, E9, E10, E11, E12, E13. split; rewrite ?E1, ?E2, ?E3, ?E4, ?E5, ?E6, ?E7, ?E8, ?E9, ?E10, ?E11, ?E13; try done.
  - intros f. destruct (wt_files0 f). split.
    + by rewrite (Ha FGen eq_refl f : OpenResetGen _ = OpenResetGen _).
    + by rewrite (Ha FMappings eq_refl f : Mappings _ = Mappings _).
    + by rewrite (Ha FPinnings eq_refl f : Pinnings _ = Pinnings _).
    + rewrite (Ha FDmaBufs eq_refl f : DmaBufs _ = DmaBufs _). exact fy_slots0.
    + by rewrite (Ha FLocks eq_refl f : LocksHeld _ = LocksHeld _).
    + by rewrite (Ha FPower eq_refl f : fc_Power _ = fc_Power _).
    + by rewrite (Ha FNoc eq_refl f : fc_Noc _ = fc_Noc _).
  - intros r. unfold req_state. rewrite E12. apply wt_requests0.
Qed.

(** [Typed τ m]: run from a well-typed state, [m] leaves a well-typed state and
    returns a value of type [τ]. *)
Definition Typed {A} (τ : A → Prop) (m : M A) : Prop := Hoare well_typed m (λ a w, well_typed w ∧ τ a).
Definition any {A} (_ : A) : Prop := True.

Lemma ty_ret {A} (τ : A → Prop) a : τ a → Typed τ (mret a).
Proof. intros Ha w Hw. by split. Qed.
Lemma ty_bind {A B} (σ : A → Prop) (τ : B → Prop) (m : M A) (k : A → M B) :
  Typed σ m → (∀ a, σ a → Typed τ (k a)) → Typed τ (mbind k m).
Proof. intros Hm Hk w Hw. destruct (Hm w Hw) as [H1 H2]. exact (Hk _ H2 _ H1). Qed.
(** What is read from a well-typed state has the type its field has. *)
Lemma ty_gets {A B} (τ : B → Prop) (f : World → A) (k : A → M B) :
  (∀ w, well_typed w → Typed τ (k (f w))) → Typed τ (mbind k (gets f)).
Proof. intros H w Hw. exact (H w Hw w Hw). Qed.
Lemma ty_gets_any {A} (f : World → A) : Typed any (gets f).
Proof. intros w Hw. by split. Qed.
Lemma ty_when b (m : M ()) : (b = true → Typed any m) → Typed any (when b m).
Proof. destruct b; cbn; [by intros H; apply H|]. intros _. by apply ty_ret. Qed.
Lemma ty_weaken {A} (σ τ : A → Prop) (m : M A) : Typed σ m → (∀ a, σ a → τ a) → Typed τ m.
Proof. intros Hm H w Hw. destruct (Hm w Hw). split; [done | by apply H]. Qed.
Lemma ty_any {A} (τ : A → Prop) (m : M A) : Typed τ m → Typed any m.
Proof. intros Hm. by apply (ty_weaken τ). Qed.
Lemma ty_for_each {A} (l : list A) body : (∀ x, x ∈ l → Typed any (body x)) → Typed any (for_each l body).
Proof.
  induction l as [|x l IH]; intros H; cbn [for_each]; [by apply ty_ret|].
  apply (ty_bind any); [apply H; left | intros _ _; apply IH; intros y Hy; apply H; by right].
Qed.
Lemma ty_for_break {A B} (l : list A) (body : A → M (option B)) :
  (∀ x, x ∈ l → Typed any (body x)) → Typed any (for_break l body).
Proof.
  induction l as [|x l IH]; intros H; cbn [for_break]; [by apply ty_ret|].
  apply (ty_bind any); [apply H; left |]. intros [b|] _; [by apply ty_ret | apply IH; intros y Hy; apply H; by right].
Qed.
Lemma ty_quiet {A} fp (m : M A) : Steps (Frame fp) m → cdisj typed_comps fp = true → Typed any m.
Proof. intros Hf Hd w Hw. split; [exact (steps_keeps _ _ _ m well_typed_reads Hf Hd w Hw) | done]. Qed.
Lemma ty_modify g : (∀ w, well_typed w → well_typed (g w)) → Typed any (modify g).
Proof. intros H w Hw. split; [by apply H | done]. Qed.

Lemma ty_upd_file f g : (∀ c, file_typed c → file_typed (g c)) → Typed any (upd_file f g).
Proof.
  intros Hg w Hw. split; [|done]. destruct Hw. split; try done. intros f'. rewrite upd_file_ctx. case_decide; [by apply Hg | done].
Qed.
Lemma ty_upd_req r g : (∀ q, bytes (rq_Buffer q) → bytes (rq_Buffer (g q))) → Typed any (upd_req r g).
Proof.
  intros Hg w Hw. split; [|done]. destruct Hw. split; try done. intros r'. rewrite upd_req_state. case_decide; [by apply Hg | done].
Qed.
Lemma buffer_at w p : well_typed w → buffer_typed (dmabuf_at p w) ∨ dmabuf_at p w = dmabuf_zero.
Proof. intros Hw. unfold dmabuf_at. destruct (_ !! p) eqn:E; [left; exact (wt_buffers _ Hw _ _ E) | by right]. Qed.
End typing.

(** *** Automation

    [typing] holds one lemma per typed operation and the facts about values;
    [ty_walk] follows the body of a handler and leaves what the types of the
    values it stores need. *)
Create HintDb typing discriminated.
#[export] Hint Constants Opaque : typing.
#[export] Hint Resolve bytes_take bytes_drop bytes_app bytes_zeros bytes_le bytes_splice bytes_sput : typing.
#[export] Hint Extern 1 (bytes (szero _)) => apply bytes_zeros : typing.
#[export] Hint Extern 1 (bytes []) => constructor : typing.
#[export] Hint Extern 1 (uint _ (sget _ _ _)) =>
  apply uint_sget; [assumption | vm_compute; discriminate | vm_compute; reflexivity] : typing.
#[export] Hint Extern 1 (uint 8 (wrap8 _)) => apply (uint_wrap 8); lia : typing.
#[export] Hint Extern 1 (uint 16 (wrap16 _)) => apply (uint_wrap 16); lia : typing.
#[export] Hint Extern 1 (uint 32 (wrap32 _)) => apply (uint_wrap 32); lia : typing.
#[export] Hint Extern 1 (uint 64 (wrap64 _)) => apply (uint_wrap 64); lia : typing.
#[export] Hint Extern 1 (any _) => exact I : typing.

Ltac guards := repeat match goal with
  | H : _ || _ = false |- _ => apply orb_false_iff in H as [? ?]
  | H : negb _ = false |- _ => apply negb_false_iff in H
  | H : negb _ = true |- _ => apply negb_true_iff in H
  | H : (_ =? _) = true |- _ => apply Z.eqb_eq in H
  | H : (_ =? _) = false |- _ => apply Z.eqb_neq in H
  | H : (_ <=? _) = false |- _ => apply Z.leb_gt in H
  | H : (_ <=? _) = true |- _ => apply Z.leb_le in H
  | H : (_ <? _) = false |- _ => apply Z.ltb_ge in H
  | H : (_ <? _) = true |- _ => apply Z.ltb_lt in H
  end.

Ltac ty_quiet_tac := eapply ty_quiet; [solve [eauto 2 with frames nocore] | vm_compute; reflexivity].
Ltac ty_leaf := first
  [ solve [eauto 4 with typing nocore]
  | eapply ty_any; solve [eauto 4 with typing nocore]
  | ty_quiet_tac ].
Ltac ty_walk :=
  cbv zeta; repeat first
    [ progress intros
    | match goal with
      | H : (λ _, _) _ |- _ => progress cbn beta in H
      | |- Typed _ (mret _) => apply ty_ret; cbn beta iota delta [from_option fst snd] in *; solve [eauto 6 with typing nocore]
      | |- Typed any (gets _) => apply ty_gets_any
      | |- Typed _ (mbind _ (gets _)) => apply ty_gets
      | |- Typed _ (mbind _ (TtGetFileContext _)) => unfold TtGetFileContext at 1; apply ty_gets
      end
    | ty_leaf
    | match goal with
      | |- Typed _ (mbind _ _) => eapply ty_bind; [solve [ty_leaf] |]
      | |- Typed _ (mbind _ _) => apply (ty_bind any)
      | |- Typed _ (when _ _) => apply ty_when
      | |- Typed _ (for_each _ _) => apply ty_for_each
      | |- Typed _ (for_break _ _) => apply ty_for_break
      | |- Typed _ (let '(_, _) := ?x in _) => destruct x eqn:?
      | |- Typed _ (match ?x with _ => _ end) => destruct x eqn:?
      | |- Typed _ (let _ := _ in _) => cbv zeta
      end ].

(** ** Requests *)
Section requests.
Context {P : Platform}.

Lemma ty_copy_in r n : Typed (λ c, bytes c.2) (TtCopyInBuffer r n).
Proof.
  unfold TtCopyInBuffer. apply ty_gets. intros w Hw. destruct (negb _); apply ty_ret; cbn; [constructor | apply bytes_take, wt_requests, Hw].
Qed.
Lemma ty_set_information r i : Typed any (WdfRequestSetInformation r i).
Proof. by apply ty_upd_req. Qed.
Lemma ty_write_output r off b : bytes b → Typed any (write_output r off b).
Proof. intros Hb. apply ty_upd_req. intros q Hq. by apply bytes_splice. Qed.
#[local] Hint Resolve ty_set_information ty_write_output : typing.
Lemma ty_sized_out r off out n d : bytes out → Typed any (TtCompleteSizedOutBuffer r off out n d).
Proof. intros Hb. unfold TtCompleteSizedOutBuffer. ty_walk. Qed.
Lemma ty_complete_fixed r out n : bytes out → Typed any (complete_fixed r out n).
Proof. intros Hb. unfold complete_fixed. ty_walk. Qed.
End requests.
#[export] Hint Resolve ty_copy_in ty_set_information ty_write_output ty_sized_out ty_complete_fixed : typing.

(** ** Information requests *)
Section information.
Context {P : Platform}.

Lemma bytes_device_info i : bytes (device_info_out i).
Proof. unfold device_info_out. eauto 20 with typing. Qed.
Lemma bytes_driver_info : bytes driver_info_out.
Proof. unfold driver_info_out. eauto 20 with typing. Qed.
Lemma bytes_mappings l : bytes (mapping_bytes l).
Proof.
  apply bytes_concat. induction l as [|e l IH]; constructor; [|exact IH]. unfold mapping_entry. eauto 10 with typing.
Qed.
#[local] Hint Resolve bytes_device_info bytes_driver_info bytes_mappings : typing.
Lemma ty_device_info r : Typed any (TtIoctlGetDeviceInfo r).
Proof. unfold TtIoctlGetDeviceInfo. ty_walk. Qed.
Lemma ty_driver_info r : Typed any (TtIoctlGetDriverInfo r).
Proof. unfold TtIoctlGetDriverInfo. ty_walk. Qed.
Lemma ty_query_mappings r : Typed any (TtIoctlQueryMappings r).
Proof. unfold TtIoctlQueryMappings. ty_walk. Qed.

Lemma ty_tag_present t : Typed any (TtBhTagPresent t).
Proof. ty_quiet_tac. Qed.
#[local] Hint Resolve ty_tag_present : typing.
Lemma bytes_present b out : bytes out → bytes (telem_present b out).
Proof. apply bytes_sput. Qed.
Lemma bytes_put f v out : bytes out → bytes (telem_put f v out).
Proof. apply bytes_sput. Qed.
#[local] Hint Resolve bytes_present bytes_put : typing.
Lemma ty_telem_pair t f s b tm fm sm out : bytes out → Typed bytes (telem_pair t f s b tm fm sm out).
Proof. intros Ho. unfold telem_pair. ty_walk. apply ty_ret. case_match; eauto 6 with typing. Qed.
Lemma ty_telem_single t f b out : bytes out → Typed bytes (telem_single t f b out).
Proof. intros Ho. unfold telem_single. ty_walk. apply ty_ret. case_match; eauto 6 with typing. Qed.
Lemma ty_telem_wide h l f b out : bytes out → Typed bytes (telem_wide h l f b out).
Proof. intros Ho. unfold telem_wide. ty_walk. Qed.
#[local] Hint Resolve ty_telem_pair ty_telem_single ty_telem_wide : typing.
Lemma ty_query_out : Typed bytes query_telemetry_out.
Proof. unfold query_telemetry_out. ty_walk. Qed.
#[local] Hint Resolve ty_query_out : typing.
Lemma ty_query_telemetry r : Typed any (TtIoctlQueryTelemetry r).
Proof. unfold TtIoctlQueryTelemetry. ty_walk. Qed.
Lemma ty_debug_read r : Typed any (TtIoctlDebugReadTelemetry r).
Proof. unfold TtIoctlDebugReadTelemetry. ty_walk. Qed.
Lemma bytes_debug_arc m ok : bytes (debug_arc_bytes m ok).
Proof. apply bytes_join. rewrite Forall_fmap. apply Forall_true. intros x. apply bytes_le. Qed.
#[local] Hint Resolve bytes_debug_arc : typing.
Lemma ty_debug_arc r : Typed any (TtIoctlDebugArcMsg r).
Proof. unfold TtIoctlDebugArcMsg. ty_walk. Qed.
Lemma bytes_agg_power a : bytes (agg_power_bytes a).
Proof.
  unfold agg_power_bytes. repeat apply bytes_app; try apply bytes_le. apply bytes_join. rewrite Forall_fmap.
  apply Forall_true. intros x. apply bytes_le.
Qed.
#[local] Hint Resolve bytes_agg_power : typing.
Lemma ty_debug_agg r : Typed any (TtIoctlDebugGetAggPower r).
Proof. unfold TtIoctlDebugGetAggPower. ty_walk. Qed.
End information.
#[export] Hint Resolve ty_device_info ty_driver_info ty_query_mappings ty_query_telemetry ty_debug_read ty_debug_arc
  ty_debug_agg : typing.

(** ** Configuration space and start *)
Section start.
Context {P : Platform}.

Lemma ty_saved g : (∀ s, saved_typed s → saved_typed (g s)) → Typed any (modify (λ w, w <| w_saved := g (w_saved w) |>)).
Proof. intros Hg. apply ty_modify. intros w []. split; try done. by apply Hg. Qed.

Lemma ty_pldr g : (∀ p, pldr_typed p → pldr_typed (g p)) → Typed any (modify (λ w, w <| w_pldr := g (w_pldr w) |>)).
Proof. intros Hg. apply ty_modify. intros w []. split; try done. by apply Hg. Qed.
Lemma ty_get_bus_data off n w : 0 ≤ 8 * n → 8 * n = w → Typed (λ r, uint w r.2) (get_bus_data off n).
Proof.
  intros Hn <-. unfold get_bus_data. eapply ty_bind; [ty_quiet_tac|]. intros r _. apply ty_ret. by apply (uint_wrap (8 * n)).
Qed.
Lemma ty_cfg_word off : Typed (λ r, uint 16 r.2) (TtCfgReadWord off).
Proof.
  unfold TtCfgReadWord. apply ty_gets. intros w _. destruct (negb _); [by apply ty_ret | by apply (ty_get_bus_data off 2)].
Qed.
Lemma ty_cfg_dword off : Typed (λ r, uint 32 r.2) (TtCfgReadDword off).
Proof.
  unfold TtCfgReadDword. apply ty_gets. intros w _. destruct (negb _); [by apply ty_ret | by apply (ty_get_bus_data off 4)].
Qed.
#[local] Hint Resolve ty_cfg_word ty_cfg_dword : typing.
Lemma ty_set_cap off : uint 8 off → Typed any (set_cap_offset off).
Proof. intros Ho. unfold set_cap_offset. apply (ty_saved (λ s, s <| PcieCapOffset := off |>)). intros ? []; by split. Qed.
#[local] Hint Resolve ty_set_cap : typing.
Lemma ty_cap_walk n off : uint 8 off → Typed any (cap_walk n off).
Proof.
  revert off. induction n as [|n IH]; intros off Ho; cbn [cap_walk]; [ty_walk|]. ty_walk. apply IH. by apply uint_land_mask.
Qed.
Lemma ty_discover : Typed any TtDiscoverPcieCap.
Proof.
  unfold TtDiscoverPcieCap. assert (uint 8 0) by done. ty_walk. apply ty_cap_walk. by apply uint_land_mask.
Qed.
#[local] Hint Resolve ty_discover : typing.
Lemma ty_save_header i : Typed any (save_header_dword i).
Proof.
  unfold save_header_dword. ty_walk. apply (ty_saved (λ s, s <| SavedHeaderDword := <[Z.to_nat i := _]> (SavedHeaderDword s) |>)).
  intros ? []. split; try done. by apply array_insert.
Qed.
#[local] Hint Resolve ty_save_header : typing.
Lemma ty_save_state : Typed any TtPciSaveState.
Proof.
  unfold TtPciSaveState. ty_walk.
  - apply (ty_saved (λ s, s <| SavedStateValid := false |>)). intros ? []; by split.
  - apply (ty_saved (λ s, s <| SavedPcieDevCtl := _ |>)). intros ? []; by split.
  - apply (ty_saved (λ s, s <| SavedPcieLnkCtl := _ |>)). intros ? []; by split.
  - apply (ty_saved (λ s, s <| SavedStateValid := true |>)). intros ? []; by split.
Qed.
Lemma ty_save_reset_state : Typed any TtBhSaveResetState.
Proof.
  unfold TtBhSaveResetState. ty_walk.
  - apply (ty_saved (λ s, s <| SavedMpsValid := false |>)). intros ? []; by split.
  - apply (ty_saved (λ s, s <| SavedMps := _ |> <| SavedMpsValid := true |>)). intros ? []. split; try done. apply (uint_wrap 8). lia.
Qed.
#[local] Hint Resolve ty_save_state ty_save_reset_state : typing.
Lemma ty_safe_restore : Typed any TtSafeRestoreState.
Proof. unfold TtSafeRestoreState, restore_writes. ty_walk. Qed.

(** The telemetry cache. *)
Lemma ty_telem g : (∀ t, telem_typed t → telem_typed (g t)) → Typed any (modify (λ w, w <| w_telem := g (w_telem w) |>)).
Proof. intros Hg. apply ty_modify. intros w []. split; try done. by apply Hg. Qed.
Lemma ty_probe_tag ta da i : TT_ARC_CSM_BASE ≤ da < TT_ARC_CSM_BASE + TT_ARC_CSM_SIZE → Typed any (probe_tag ta da i).
Proof.
  intros Hd. unfold probe_tag, tag_cache_set. ty_walk.
  match goal with |- Typed _ (modify (λ w, w <| w_telem := w_telem w <| TelemetryTagCache := <[?i := ?v]> _ |> |>)) =>
    apply (ty_telem (λ t, t <| TelemetryTagCache := <[i := v]> (TelemetryTagCache t) |>)) end.
  intros t Ht. apply array_insert; [exact Ht|].
  match goal with |- uint 32 (da + Z.land ?z 0xFFFF * 4) => pose proof (uint_land_mask 16 z 0xFFFF ltac:(done)) as Hz end.
  change TT_ARC_CSM_SIZE with 0x80000 in Hd. unfold uint, TT_ARC_CSM_BASE in *. change (2^32) with 4294967296. change (2^16) with 65536 in Hz. lia.
Qed.
Lemma ty_probe : Typed any TtBhTelemetryProbe.
Proof.
  unfold TtBhTelemetryProbe. ty_walk; guards.
  - apply (ty_telem (λ t, mkTelem (replicate 128 0) false)). intros _ _. by apply array_replicate.
  - apply ty_probe_tag. lia.
  - by apply (ty_telem (λ t, t <| TelemetryValid := true |>)).
Qed.
#[local] Hint Resolve ty_probe : typing.

(** Identity, BARs, window pool. *)
Lemma ty_identity pnp : Typed any (read_identity pnp).
Proof.
  unfold read_identity. ty_walk. apply ty_modify. intros w []. split; try done. split; cbn; first [done | apply (uint_wrap 16); lia].
Qed.
#[local] Hint Resolve ty_identity : typing.
Lemma ty_prepare_bus pnp : Typed any (prepare_bus pnp).
Proof.
  unfold prepare_bus. ty_walk; [apply ty_modify; intros w []; by split|].
  match goal with |- context [queried_interface ?r] =>
    apply (ty_pldr (λ p, p <| ResetInterface := queried_interface r |> <| ResetInterfaceValid := bool_decide (is_Some r) |>)) end.
  intros p []. split; cbn; [|done]. unfold queried_interface. destruct (pi_ResetInterface pnp); [apply (uint_wrap 32); lia | done].
Qed.
Lemma ty_upd_bars g : (∀ b, bars_typed b → bars_typed (g b)) → Typed any (upd_bars g).
Proof. intros Hg. apply ty_modify. intros w []. split; try done. by apply Hg. Qed.
Lemma ty_bars_zero : Typed any (upd_bars bars_zero).
Proof. apply ty_upd_bars. intros b _. split; by apply array_replicate. Qed.
Lemma cm_start_typed d : sint 64 (cm_start d).
Proof. destruct d; apply sint_signed64. Qed.
Lemma uint_weaken v w z : 0 ≤ v ≤ w → uint v z → uint w z.
Proof. intros Hv [H0 H1]. split; [done|]. eapply Z.lt_le_trans; [exact H1 | apply Z.pow_le_mono_r; lia]. Qed.
Lemma correlate_typed v l b : bars_typed b → bars_typed (foldl (correlate v) b l).
Proof.
  revert b. induction l as [|[raw xl] l IH]; intros b Hb; [done|]. cbn [foldl]. apply IH. destruct Hb as [H1 H2].
  unfold correlate. destruct raw as [raw|], xl as [xl|]; try done. destruct (negb _); [done|]. destruct (bar_of _ _ _); [|done].
  split; apply array_insert; [done | | done | apply cm_start_typed].
  unfold TtDecodeMemoryLength. destruct xl; [apply (uint_weaken 32); [lia | apply (uint_wrap 32); lia]| |done].
  repeat destruct (has_bits _ _); first [apply (uint_wrap 64); lia | done].
Qed.
Lemma ty_correlate v l : Typed any (upd_bars (λ b, foldl (correlate v) b l)).
Proof. apply ty_upd_bars. intros b. apply correlate_typed. Qed.
Lemma ty_set_slot r v : Typed any (upd_bars (set_slot r v)).
Proof. apply ty_upd_bars. by destruct r. Qed.
#[local] Hint Resolve ty_bars_zero ty_correlate ty_set_slot ty_prepare_bus : typing.
Lemma ty_map_bars : Typed any TtMapBlackholeBars.
Proof. unfold TtMapBlackholeBars, map_bar. ty_walk. Qed.
Lemma ty_unmap_bars : Typed any TtUnmapBlackholeBars.
Proof. unfold TtUnmapBlackholeBars, unmap_bar. ty_walk. Qed.
Lemma ty_set_dma g : (∀ d, dma_typed d → dma_typed (g d)) → Typed any (set_dma g).
Proof. intros Hg. apply ty_modify. intros w []. split; try done. by apply Hg. Qed.
Lemma ty_enabler : Typed any dma_enabler_init.
Proof. unfold dma_enabler_init. ty_walk. by apply ty_set_dma. Qed.
Lemma ty_identity_probe : Typed any dma_identity_probe.
Proof. unfold dma_identity_probe. ty_walk; by apply ty_set_dma. Qed.
#[local] Hint Resolve ty_map_bars ty_unmap_bars ty_enabler ty_identity_probe : typing.

Lemma pool_init_typed b : pool_typed (tlb_pool_init b).
Proof.
  split; cbn.
  - by rewrite length_insert, length_replicate.
  - apply length_replicate.
  - apply (uint_wrap 32). lia.
  - intros i f Hi. by apply lookup_replicate in Hi as [? _].
Qed.
Lemma ty_gate g : (∀ s, ResetGen (g s) = ResetGen s) → Typed any (modify (λ w, w <| w_gate := g (w_gate w) |>)).
Proof. intros Hg. apply ty_modify. intros w []. split; try done. cbn. by rewrite Hg. Qed.
Lemma ty_needs_init b : Typed any (set_needs_hw_init b).
Proof. by apply (ty_gate (λ s, s <| NeedsHwInit := b |>)). Qed.
End start.
#[export] Hint Resolve ty_save_state ty_safe_restore ty_save_reset_state ty_probe ty_prepare_bus ty_bars_zero ty_correlate ty_map_bars
  ty_unmap_bars ty_enabler ty_identity_probe ty_discover ty_needs_init : typing.

(** ** Power and NOC cleanup *)
Section power.
Context {P : Platform}.

Lemma setting_typed l i : array 14 (uint 16) l → uint 16 (setting l i).
Proof.
  intros [_ Hl]. unfold setting. destruct (l !! _) as [x|] eqn:E; [|done]. exact (Forall_lookup_1 _ _ _ _ Hl E).
Qed.
Lemma agg_setting_typed c l i : power_typed c → array 14 (uint 16) l → array 14 (uint 16) (agg_setting c l i).
Proof.
  intros Hc Hl. unfold agg_setting. destruct (_ <? _); [|done]. apply array_insert; [done|]. apply setting_typed, Hc.
Qed.
Lemma agg_one_typed a c : power_typed c → uint 16 (agg_flags a) ∧ array 14 (uint 16) (agg_settings a) →
  uint 16 (agg_flags (agg_one a c)) ∧ array 14 (uint 16) (agg_settings (agg_one a c)).
Proof.
  intros Hc [Hf Hs]. unfold agg_one. cbn [agg_flags agg_settings]. split; [apply (uint_wrap 16); lia|].
  generalize (zrange (Z.to_nat (if 14 <? power_settings_count c then 14 else power_settings_count c))). intros l.
  revert Hs. generalize (agg_settings a). induction l as [|i l IH]; intros s Hs; cbn [foldl]; [done|].
  by apply IH, agg_setting_typed.
Qed.
Lemma aggregate_typed cs : Forall power_typed cs → uint 16 (agg_flags (aggregate cs)) ∧ array 14 (uint 16) (agg_settings (aggregate cs)).
Proof.
  unfold aggregate. assert (uint 16 (agg_flags agg_zero) ∧ array 14 (uint 16) (agg_settings agg_zero)) as H0 by by repeat constructor.
  revert H0. generalize agg_zero. intros a Ha Hcs. revert a Ha. induction Hcs as [|c cs Hc _ IH]; intros a Ha; [done|].
  cbn [foldl]. by apply IH, agg_one_typed.
Qed.
Lemma contributions_typed w : well_typed w → Forall power_typed (live_contributions w).
Proof.
  intros Hw. unfold live_contributions. rewrite Forall_fmap. apply list.Forall_forall. intros c [_ Hc]%list_elem_of_filter.
  apply list_elem_of_fmap in Hc as (f & -> & _). apply Hw.
Qed.
Lemma ty_aggregate : Typed any TtPowerAggregate.
Proof.
  unfold TtPowerAggregate. eapply ty_bind; [ty_quiet_tac | intros _ _]. eapply ty_bind; [ty_quiet_tac | intros _ _].
  apply ty_gets. intros w [Hf Hs]%contributions_typed%aggregate_typed. ty_walk. apply ty_modify. intros w' []. split; try done.
Qed.
#[local] Hint Resolve ty_aggregate : typing.

Lemma default_typed : power_typed power_default.
Proof. split; [done | done | by apply array_replicate]. Qed.
Lemma ty_file_default f : Typed any (TtPowerFileDefault f).
Proof. apply ty_upd_file. intros c []. split; try done. apply default_typed. Qed.

Lemma decode_settings_typed b : bytes b → array 14 (uint 16) (decode_settings b).
Proof.
  intros Hb. unfold decode_settings. split; [by rewrite length_fmap|]. rewrite Forall_fmap. apply Forall_true. intros i.
  unfold compose, sget_elem. by apply uint_le_decode.
Qed.
Lemma ty_set_power f r : Typed any (TtIoctlSetPowerState f r).
Proof.
  unfold TtIoctlSetPowerState. ty_walk. apply ty_upd_file. intros c []. split; try done.
  split; cbn; [eauto 2 with typing.. | by apply decode_settings_typed].
Qed.
Lemma ty_power_off f : Typed any (file_power_off f).
Proof.
  unfold file_power_off. ty_walk. apply ty_upd_file. intros c [? ? ? ? ? [] ?]. by split.
Qed.

Lemma aligned4 z : has_bits z 0x3 = false → z mod 4 = 0.
Proof. intros H. apply negb_false_iff, Z.eqb_eq in H. change 3 with (Z.ones 2) in H. by rewrite Z.land_ones in H. Qed.
Lemma ty_set_noc f r : Typed any (TtIoctlSetNocCleanup f r).
Proof.
  unfold TtIoctlSetNocCleanup. ty_walk. guards. apply ty_upd_file. intros c []. split; try done.
  assert (∀ g w, 0 ≤ c_fieldsize tenstorrent_set_noc_cleanup g → 8 * c_fieldsize tenstorrent_set_noc_cleanup g = w →
    uint w (sget tenstorrent_set_noc_cleanup g a.2)) as Hu by (intros; by apply uint_sget).
  pose proof (Hu "x" 8 ltac:(done) ltac:(done)) as [? _]. pose proof (Hu "y" 8 ltac:(done) ltac:(done)) as [? _].
  pose proof (Hu "noc" 8 ltac:(done) ltac:(done)) as [? _].
  split; cbn [NocCleanupX NocCleanupY NocCleanupNoc NocCleanupAddr NocCleanupData]; [done | done | done | | by apply Hu].
  split; [by apply Hu | by apply aligned4].
Qed.
End power.
#[export] Hint Resolve ty_aggregate ty_file_default ty_set_power ty_power_off ty_set_noc : typing.

(** ** Locks *)
Section locks.
Context {P : Platform}.

Lemma bit_typed i : uint 64 (lock_bit i).
Proof. apply (uint_wrap 64). lia. Qed.
Lemma ty_held g : (∀ z, uint 64 z → uint 64 (g z)) → Typed any (modify (λ w, w <| ResourceLockHeld := g (ResourceLockHeld w) |>)).
Proof. intros Hg. apply ty_modify. intros w []. split; try done. by apply Hg. Qed.
Lemma ty_locks_held f g :
  (∀ z, uint 64 z → uint 64 (g z)) → Typed any (upd_file f (λ c, c <| LocksHeld := g (LocksHeld c) |>)).
Proof. intros Hg. apply ty_upd_file. intros c []. split; try done. by apply Hg. Qed.
Lemma ty_try_acquire f i : Typed any (TtLockTryAcquire f i).
Proof.
  unfold TtLockTryAcquire. ty_walk.
  - apply (ty_held (λ z, Z.lor z (lock_bit i))). intros z Hz. apply uint_lor; [lia | done | apply bit_typed].
  - apply (ty_locks_held f (λ z, Z.lor z (lock_bit i))). intros z Hz. apply uint_lor; [lia | done | apply bit_typed].
Qed.
#[local] Hint Resolve ty_try_acquire : typing.
Lemma bytes_lock_out v : bytes (lock_out v).
Proof. unfold lock_out. eauto 5 with typing. Qed.
#[local] Hint Resolve bytes_lock_out : typing.
Lemma ty_complete_acquired r : Typed any (TtLockCompleteAcquired r).
Proof. unfold TtLockCompleteAcquired. ty_walk. Qed.
#[local] Hint Resolve ty_complete_acquired : typing.
Lemma ty_wake_one r : Typed any (wake_one r).
Proof. unfold wake_one. ty_walk. Qed.
#[local] Hint Resolve ty_wake_one : typing.
Lemma ty_wake : Typed any TtLocksWakeWaiters.
Proof. unfold TtLocksWakeWaiters. ty_walk. apply ty_modify. intros ? []. by split. Qed.
#[local] Hint Resolve ty_wake : typing.
Lemma ty_release_all f : Typed any (TtLocksReleaseAll f).
Proof.
  unfold TtLocksReleaseAll, release_all. ty_walk.
  - apply (ty_held (λ z, Z.land z _)). intros z Hz. apply uint_land; [lia | done].
  - by apply (ty_locks_held f (λ _, 0)).
Qed.
Lemma ty_lock_complete r v : Typed any (lock_complete r v).
Proof. unfold lock_complete. ty_walk. Qed.
#[local] Hint Resolve ty_lock_complete : typing.
Lemma ty_lock_release f r i : Typed any (lock_release f r i).
Proof.
  unfold lock_release, release_bit. ty_walk.
  - apply (ty_locks_held f (λ z, Z.land z _)). intros z Hz. apply uint_land; [lia | done].
  - apply (ty_held (λ z, Z.land z _)). intros z Hz. apply uint_land; [lia | done].
Qed.
Lemma ty_lock_pend r i : Typed any (lock_pend r i).
Proof. unfold lock_pend. ty_walk. by apply ty_upd_req. Qed.
#[local] Hint Resolve ty_lock_release ty_lock_pend : typing.
Lemma ty_lock_ctl f r : Typed any (TtIoctlLockCtl f r).
Proof. unfold TtIoctlLockCtl. ty_walk. Qed.
End locks.
#[export] Hint Resolve ty_wake ty_release_all ty_lock_ctl : typing.

(** ** Windows and apertures *)
Section windows.
Context {P : Platform}.

Lemma pool_set_typed id b o t : (∀ f, o = Some f → b = true) → pool_typed t → pool_typed (tlb_set id b o t).
Proof.
  intros Hb []. split; unfold tlb_set; cbn; rewrite ?length_insert; try done. intros i f.
  rewrite list_lookup_insert_Some. intros [(<- & Ho & Hl)|[Hn Hi]].
  - rewrite list_lookup_insert_eq by (rewrite ty_used0, <- ty_owner0; done). by rewrite (Hb f).
  - rewrite list_lookup_insert_ne by done. by apply (ty_owned0 i f).
Qed.
Lemma ty_upd_tlb id b o : (∀ f, o = Some f → b = true) → Typed any (upd_tlb id b o).
Proof. intros Hb. apply ty_modify. intros w []. split; try done. by apply pool_set_typed. Qed.
Lemma ty_tlb_free id : Typed any (upd_tlb id false None).
Proof. by apply ty_upd_tlb. Qed.
Lemma ty_tlb_take id f : Typed any (upd_tlb id true (Some f)).
Proof. by apply ty_upd_tlb. Qed.
#[local] Hint Resolve ty_tlb_free ty_tlb_take : typing.
Lemma ty_tlb_claim f s n : Typed any (tlb_claim f s n).
Proof. unfold tlb_claim. ty_walk. Qed.
Lemma bytes_tlb_out t id : bytes (tlb_out t id).
Proof. unfold tlb_out. eauto 10 with typing. Qed.
#[local] Hint Resolve ty_tlb_claim bytes_tlb_out : typing.
Lemma ty_allocate_tlb f r : Typed any (TtIoctlAllocateTlb f r).
Proof. unfold TtIoctlAllocateTlb. ty_walk. Qed.
Lemma ty_free_tlb f r : Typed any (TtIoctlFreeTlb f r).
Proof. unfold TtIoctlFreeTlb. ty_walk. Qed.
Lemma ty_configure_tlb f r : Typed any (TtIoctlConfigureTlb f r).
Proof. unfold TtIoctlConfigureTlb. ty_walk. Qed.

Lemma entry_free_typed : entry_typed iatu_free_entry.
Proof. split; [done | done | done |]. cbn. split; [done | by intros [? [=]]]. Qed.
Lemma bottom_up_typed n l g : uint 64 g → uint 64 (bottom_up_gap g n l).
Proof.
  revert g. induction l as [|[b e] l IH]; intros g Hg; cbn [bottom_up_gap]; [done|].
  destruct (_ && _); [done | apply IH; apply (uint_wrap 64); lia].
Qed.
Lemma fit_typed td l n b : iatu_fit td l n = Some b → uint 64 b.
Proof.
  unfold iatu_fit, top_down_fit, bottom_up_fit. destruct td.
  - destruct (top_down_gap _ _ _) as [[e p]|]; [|done]. destruct (_ && _); [done|]. intros [= <-]. apply (uint_wrap 64). lia.
  - destruct (_ <? _); [done|]. intros [= <-]. by apply bottom_up_typed.
Qed.
Lemma ty_find_and_claim f td n : Typed (λ o, from_option (λ r, region_id r.1) True o) (TtIatuFindAndClaim f td n).
Proof.
  unfold TtIatuFindAndClaim, iatu_find_and_claim. apply ty_gets. intros w Hw.
  pose proof (free_slot_spec 0 (w_iatu w)) as Hs. destruct (iatu_free_slot 0 (w_iatu w)) as [s|]; [|by apply ty_ret].
  destruct Hs as (i & e & -> & Hi & _). destruct (iatu_fit _ _ _) as [b|] eqn:Eb; [|by apply ty_ret].
  apply fit_typed in Eb. apply lookup_lt_Some in Hi. rewrite (proj1 (wt_iatu _ Hw)) in Hi. unfold TT_IATU_REGIONS in Hi.
  eapply (ty_bind any).
  - intros w' Hw'. pose proof (wt_iatu _ Hw) as Ht. split; [|done]. destruct Hw'. split; try done. apply array_insert; [done|].
    assert (∀ z, entry_typed (iatu_entry (w_iatu w) z)) as He.
    { intros z. unfold iatu_entry. destruct (w_iatu w !! Z.to_nat z) eqn:E; [exact (Forall_lookup_1 _ _ _ _ (proj2 Ht) E) | apply entry_free_typed]. }
    split; cbn; [done | apply (uint_wrap 64); lia | apply He | done].
  - intros _ _. apply ty_ret. cbn. unfold region_id, TT_IATU_REGIONS. lia.
Qed.
Lemma ty_iatu_update r g : (∀ e, entry_typed e → entry_typed (g e)) → Typed any (iatu_update r g).
Proof. intros Hg. apply ty_modify. intros w []. split; try done. by apply array_alter. Qed.
#[local] Hint Resolve ty_find_and_claim : typing.
Lemma no_region : region_id (-1).
Proof. done. Qed.
#[local] Hint Resolve no_region : typing.
Lemma ty_setup f td n t : Typed (λ r, region_id r.2) (TtSetupNocDma f td n t).
Proof.
  unfold TtSetupNocDma. ty_walk. apply ty_iatu_update. intros e []. split; try done. cbn. split; [done | by intros [? [=]]].
Qed.
Lemma ty_teardown r : Typed any (TtTeardownNocDma r).
Proof. unfold TtTeardownNocDma. ty_walk. apply ty_iatu_update. intros _ _. apply entry_free_typed. Qed.
End windows.
#[export] Hint Resolve ty_tlb_free ty_allocate_tlb ty_free_tlb ty_configure_tlb ty_setup ty_teardown no_region : typing.

(** ** Buffers, views and pinnings *)
Section memory.
Context {P : Platform}.

Lemma ty_init_memory f s : Typed any (TtFileContextInitMemory f s).
Proof. unfold TtFileContextInitMemory. ty_walk. apply ty_upd_file. intros c []. split; try done. Qed.
Lemma ty_interlocked d : Typed any (interlocked_add d).
Proof.
  unfold interlocked_add. ty_walk. apply ty_modify. intros w []. split; try done. destruct wt_dma0. split; [apply sint_signed64 | done].
Qed.
#[local] Hint Resolve ty_interlocked : typing.
Lemma ty_reserve n : Typed any (TtDmaAccountReserve n).
Proof. unfold TtDmaAccountReserve. ty_walk. Qed.
Lemma ty_release n : Typed any (TtDmaAccountRelease n).
Proof. unfold TtDmaAccountRelease. ty_walk. Qed.
#[local] Hint Resolve ty_reserve ty_release : typing.
Lemma ty_free_block p : Typed any (free_dmabuf_block p).
Proof.
  unfold free_dmabuf_block. ty_walk. apply ty_modify. intros w []. split; try done. cbn. intros q d [_ Hq]%lookup_delete_Some. eauto.
Qed.
#[local] Hint Resolve ty_free_block : typing.
Lemma ty_destroy_buffer p : Typed any (TtDmaBufDestroy p).
Proof. unfold TtDmaBufDestroy. ty_walk. Qed.
#[local] Hint Resolve ty_destroy_buffer : typing.
Lemma ty_slots f g :
  (∀ m i (p : Z), g m !! i = Some p → 0 ≤ i < TENSTORRENT_MAX_DMA_BUFS ∨ m !! i = Some p) →
  Typed any (upd_file f (λ c, c <| DmaBufs := g (DmaBufs c) |>)).
Proof. intros Hg. apply ty_upd_file. intros c []. split; try done. cbn. intros i p [?|?]%Hg; [done | by eapply fy_slots0]. Qed.
Lemma ty_clear_slot f i : Typed any (set_dma_slot f i None).
Proof. apply (ty_slots f (λ m, delete i m)). intros m j p [_ Hj]%lookup_delete_Some. by right. Qed.
Lemma ty_fill_slot f i p : 0 ≤ i < TENSTORRENT_MAX_DMA_BUFS → Typed any (set_dma_slot f i (Some p)).
Proof. intros Hi. apply (ty_slots f (λ m, <[i := p]> m)). intros m j q [[<- _]|[_ Hj]]%lookup_insert_Some; [by left | by right]. Qed.
#[local] Hint Resolve ty_clear_slot ty_fill_slot : typing.
Lemma ty_alloc_fail f n o r b s : Typed any (dma_alloc_fail f n o r b s).
Proof. unfold dma_alloc_fail. ty_walk. Qed.
#[local] Hint Resolve ty_alloc_fail : typing.
Lemma bytes_dma_out l i n a : bytes (dma_out l i n a).
Proof. unfold dma_out. eauto 10 with typing. Qed.
#[local] Hint Resolve bytes_dma_out : typing.
Lemma ty_add_buffer p d : buffer_typed d → Typed any (modify (λ w, w <| w_dmabufs := <[p := d]> (w_dmabufs w) |>)).
Proof.
  intros Hd. apply ty_modify. intros w []. split; try done. cbn. intros q e [[_ <-]|[_ Hq]]%lookup_insert_Some; [done | eauto].
Qed.
#[local] Hint Resolve ty_add_buffer : typing.
Lemma ty_alloc_finish f r n i b l a t : buffer_typed (mkDmaBuf b n i l t) → Typed any (dma_alloc_finish f r n i b l a t).
Proof. intros Hd. pose proof (by_index _ Hd) as Hi. cbn in Hi. unfold dma_alloc_finish. ty_walk. Qed.
Lemma ty_alloc_buffer f r n i g :
  pages n ∧ n ≤ TT_MAX_DMA_BUF_SIZE → 0 ≤ i < TENSTORRENT_MAX_DMA_BUFS → Typed any (dma_alloc_buffer f r n i g).
Proof.
  intros Hn Hi. unfold dma_alloc_buffer. ty_walk; apply ty_alloc_finish; split; cbn; try done; apply (uint_wrap 64); lia.
Qed.
Lemma ty_allocate_dma f r : Typed any (TtIoctlAllocateDmaBuf f r).
Proof.
  unfold TtIoctlAllocateDmaBuf. ty_walk. guards.
  match goal with H : bytes ?b |- _ =>
    pose proof (uint_sget tenstorrent_allocate_dma_buf_in "requested_size" 32 b H ltac:(vm_compute; discriminate) eq_refl) as [? _];
    pose proof (uint_sget tenstorrent_allocate_dma_buf_in "buf_index" 8 b H ltac:(vm_compute; discriminate) eq_refl) as [? _] end.
  apply ty_alloc_buffer; [|by split]. split; [|done]. split; [|done].
  change TT_MAX_DMA_BUF_SIZE with (2 ^ 28) in *. change MAXULONG with (2 ^ 32 - 1). lia.
Qed.
Lemma ty_free_ex f r : Typed any (TtIoctlFreeDmaBufEx f r).
Proof. unfold TtIoctlFreeDmaBufEx. ty_walk. Qed.

(** MAP and UNMAP. *)
Definition target_typed (t : MapTarget) : Prop := window_id (mt_TlbId t) ∧ (mt_TlbId t ≠ -1 → mt_DmaBuf t = None).
Lemma no_target p k d : target_typed (mkTarget p k (-1) d).
Proof. by split. Qed.
Lemma token_window e l b o id : tlb_token_decode e l = Some (b, o, id) → 0 ≤ id.
Proof.
  unfold tlb_token_decode. repeat case_match; intros [= _ _ <-]; apply wrap32_range.
Qed.
#[local] Hint Resolve no_target : typing.
Lemma ty_resolve f o n : Typed (λ r, target_typed r.2) (TtResolveMapTarget f o n).
Proof.
  unfold TtResolveMapTarget, resolve_dma, resolve_tlb. ty_walk.
  - apply ty_ret. cbn. unfold resolve_bar. destruct (_ || _); apply no_target.
  - guards. apply ty_ret. cbn. match goal with H : tlb_token_decode _ _ = _ |- _ => apply token_window in H end.
    unfold target_typed, window_id, TT_TLB_TOTAL in *. cbn. split; [lia | done].
Qed.
Lemma ty_set_mappings f l : Forall mapping_typed l → Typed any (upd_file f (λ c, c <| Mappings := l |>)).
Proof. intros Hl. apply ty_upd_file. intros c []. by split. Qed.
Lemma ty_set_pinnings f l : Forall pinning_typed l → Typed any (upd_file f (λ c, c <| Pinnings := l |>)).
Proof. intros Hl. apply ty_upd_file. intros c []. by split. Qed.
#[local] Hint Resolve ty_resolve ty_set_mappings ty_set_pinnings : typing.
Lemma bytes_map_out v : bytes (map_out v).
Proof. unfold map_out. eauto 5 with typing. Qed.
#[local] Hint Resolve bytes_map_out : typing.
Lemma ty_map_view f r t m : mapping_typed m → Typed any (map_view f r t m).
Proof.
  intros Hm. unfold map_view. ty_walk. apply ty_upd_file. intros c []. split; try done. cbn. apply Forall_app_2; [done|].
  constructor; [|done]. destruct Hm. by split.
Qed.
Lemma ty_map f r : Typed any (TtIoctlMap f r).
Proof.
  unfold TtIoctlMap. ty_walk. guards.
  match goal with H : bytes ?b |- _ =>
    pose proof (uint_sget tenstorrent_map_in "length" 64 b H ltac:(vm_compute; discriminate) eq_refl) as [? _] end.
  match goal with H : target_typed _ |- _ => destruct H as [? ?] end.
  apply ty_map_view. split; cbn [um_Length um_TlbId um_DmaBuf]; [split; [lia | done] | done | done].
Qed.
Lemma remove_first_forall {A} (Q : A → Prop) p l x r : Forall Q l → remove_first p l = Some (x, r) → Forall Q r.
Proof.
  intros Hl E. pose proof (remove_first_spec p l) as H. rewrite E in H. destruct H as (_ & l1 & l2 & -> & -> & _).
  apply Forall_app in Hl as [H1 H2]. inversion H2; subst. by apply Forall_app_2.
Qed.
Lemma ty_unmap f r : Typed any (TtIoctlUnmap f r).
Proof.
  unfold TtIoctlUnmap. ty_walk. apply ty_set_mappings. simplify_eq.
  eapply remove_first_forall; [|eassumption]. match goal with H : well_typed _ |- _ => apply H end.
Qed.

(** PIN_PAGES and UNPIN_PAGES. *)
Lemma ty_pin_fail f p l i s : Typed any (pin_fail f p l i s).
Proof. unfold pin_fail. ty_walk. Qed.
Lemma bytes_pin_out p n : bytes (pin_out p n).
Proof. unfold pin_out. eauto 5 with typing. Qed.
#[local] Hint Resolve ty_pin_fail bytes_pin_out : typing.
Lemma ty_pin_finish f r g n a l p : pinning_typed p → Typed any (pin_finish f r g n a l p).
Proof.
  intros [? ? ? ?]. unfold pin_finish. apply (ty_bind (λ r, region_id r.2)); [destruct (has_bits _ _); ty_walk|].
  intros [[s na] i] Hi. ty_walk. apply ty_upd_file. intros c []. split; try done. cbn. apply Forall_app_2; [done|].
  constructor; [|done]. by split.
Qed.
#[local] Hint Resolve ty_pin_finish : typing.
Lemma ty_pin_direct f r g n p :
  uint 64 (pn_VirtualAddress p) ∧ pn_VirtualAddress p mod PAGE_SIZE = 0 → pages (pn_Size p) → pn_BackingDmaBuf p = None →
  Typed any (pin_direct f r g n (p <| pn_IatuRegion := -1 |>)).
Proof.
  intros Hv Hs Hb. unfold pin_direct. ty_walk. apply ty_pin_finish. split; try done. cbn. rewrite Hb.
  split; [done | by intros [? [=]]].
Qed.
Lemma ty_pin f r : Typed any (TtIoctlPinPages f r).
Proof.
  unfold TtIoctlPinPages. ty_walk; guards.
  all: match goal with H : bytes ?b |- _ =>
    pose proof (uint_sget tenstorrent_pin_pages_in "size" 64 b H ltac:(vm_compute; discriminate) eq_refl) as [? _];
    pose proof (uint_sget tenstorrent_pin_pages_in "virtual_address" 64 b H ltac:(vm_compute; discriminate) eq_refl) end.
  all: match goal with H : _ ≠ 0 |- _ => assert (pages (sget tenstorrent_pin_pages_in "size" a.2)) as Hz by (split; [lia | done]) end.
  - apply ty_pin_finish. split; cbn; try done. 
  - by apply (ty_pin_direct f r _ _ (mkPinning _ _ _ None None (-1))).
Qed.
Lemma ty_destroy_pinning p : Typed any (TtDestroyPinning p).
Proof. unfold TtDestroyPinning. ty_walk. Qed.
#[local] Hint Resolve ty_destroy_pinning : typing.
Lemma ty_unpin f r : Typed any (TtIoctlUnpinPages f r).
Proof.
  unfold TtIoctlUnpinPages, unpin_search. ty_walk. apply ty_set_pinnings.
  match goal with H : match remove_first ?p ?l with _ => _ end = _ |- _ => destruct (remove_first p l) as [[x rest]|] eqn:E; [|done] end.
  destruct (negb (pn_Size x =? _)); [done|]. simplify_eq. eapply remove_first_forall; [|exact E].
  match goal with H : well_typed _ |- _ => apply H end.
Qed.

(** Cleanup. *)
Lemma ty_drain_mappings f l : Forall mapping_typed l → Typed any (drain_mappings f l).
Proof. induction 1 as [|m l Hm Hl IH]; cbn [drain_mappings]; ty_walk. Qed.
Lemma ty_drain_pinnings f l : Forall pinning_typed l → Typed any (drain_pinnings f l).
Proof. induction 1 as [|m l Hm Hl IH]; cbn [drain_pinnings]; ty_walk. Qed.
Lemma ty_drain f w : well_typed w → Typed any (drain_mappings f (Mappings (file_ctx f w)))
  ∧ Typed any (drain_pinnings f (Pinnings (file_ctx f w))).
Proof. intros Hw. split; [apply ty_drain_mappings | apply ty_drain_pinnings]; apply Hw. Qed.
Ltac drains := ty_walk; match goal with H : well_typed ?w |- Typed any (_ ?f _) => apply (ty_drain f w H) end.
Lemma ty_process_exit f : Typed any (TtMemoryProcessExit f).
Proof. unfold TtMemoryProcessExit. drains. Qed.
Lemma ty_memory_cleanup f : Typed any (TtMemoryFileCleanup f).
Proof. unfold TtMemoryFileCleanup, free_dma_slot, free_tlb_of. drains. Qed.
Lemma ty_zap_list f k l : Forall mapping_typed k → Forall mapping_typed l → Typed any (zap_list f k l).
Proof.
  intros Hk Hl. revert k Hk. induction Hl as [|m l Hm Hl IH]; intros k Hk; cbn [zap_list]; ty_walk.
  - apply IH, Forall_app_2; [done | by constructor].
  - by apply ty_set_mappings, Forall_app_2.
Qed.
Lemma ty_zap : Typed any TtResetZapMappings.
Proof.
  unfold TtResetZapMappings, zap_file. ty_walk. apply ty_zap_list; [done|]. match goal with H : well_typed _ |- _ => apply H end.
Qed.
End memory.
#[export] Hint Resolve ty_init_memory ty_allocate_dma ty_free_ex ty_map ty_unmap ty_pin ty_unpin ty_process_exit
  ty_memory_cleanup ty_zap : typing.

(** ** The entry points *)
Section entry.
Context {P : Platform}.

Lemma ty_bump f : Typed any (TtBumpResetGen f).
Proof.
  unfold TtBumpResetGen. ty_walk.
  - apply ty_modify. intros w []. split; try done. apply sint_signed64.
  - apply ty_upd_file. intros c []. split; try done. match goal with H : well_typed _ |- _ => apply H end.
Qed.
#[local] Hint Resolve ty_bump : typing.
Lemma ty_pldr_initiate : Typed any TtPldrInitiate.
Proof.
  unfold TtPldrInitiate. ty_walk.
  - by apply (ty_pldr (λ p, p <| PldrQueued := true |>)).
  - match goal with H : well_typed ?w |- _ => apply (ty_pldr (λ p, p <| PldrSnapshot := ResetInterface (w_pldr w) |>));
      pose proof (wt_pldr _ H) as [? ?] end. by intros p [].
Qed.
Lemma ty_pldr_work : Typed any TtPldrWorkItem.
Proof. unfold TtPldrWorkItem. ty_walk. by apply (ty_pldr (λ p, p <| PldrQueued := false |>)). Qed.
#[local] Hint Resolve ty_pldr_initiate : typing.
Lemma ty_reset_flavor f g : Typed any (reset_flavor f g).
Proof. unfold reset_flavor, reset_restore_state, reset_config_write, reset_user, reset_asic, reset_post. ty_walk. Qed.
#[local] Hint Resolve ty_reset_flavor : typing.
Lemma bytes_reset_out ok : bytes (reset_out ok).
Proof. unfold reset_out. eauto 5 with typing. Qed.
#[local] Hint Resolve bytes_reset_out : typing.
Lemma ty_reset_device f r : Typed any (TtIoctlResetDevice f r).
Proof. unfold TtIoctlResetDevice. ty_walk. Qed.
#[local] Hint Resolve ty_reset_device : typing.
Lemma ty_dispatch f r code : Typed any (dispatch_code f r code).
Proof. unfold dispatch_code, dispatch. ty_walk. Qed.
#[local] Hint Resolve ty_dispatch : typing.
Lemma ty_device_control f r code : Typed any (TtEvtIoDeviceControl f r code).
Proof. unfold TtEvtIoDeviceControl. ty_walk. Qed.
Lemma ty_caller_context b f r code : Typed any (TtEvtIoInCallerContext b f r code).
Proof. unfold TtEvtIoInCallerContext, caller_forward, caller_handler. ty_walk. Qed.
#[local] Hint Resolve ty_device_control ty_caller_context : typing.
Lemma ty_deliver f r q : bytes (rq_Buffer q) → Typed any (deliver f r q).
Proof.
  intros Hq. unfold deliver. ty_walk. apply (ty_modify (λ w, w <| w_reqs := <[r := q]> (w_reqs w) |>)).
  intros w Hw. refine (proj1 (ty_upd_req r (λ _, q) (λ _ _, Hq) w Hw)).
Qed.
Lemma ty_file_create r f s : Typed any (TtEvtDeviceFileCreate r f s).
Proof.
  unfold TtEvtDeviceFileCreate. ty_walk; apply ty_upd_file; intros c []; split; try done.
  match goal with H : well_typed _ |- _ => apply H end.
Qed.
Lemma ty_file_cleanup f : Typed any (TtEvtFileCleanup f).
Proof.
  unfold TtEvtFileCleanup, noc_cleanup, file_delist, file_creator_deref. ty_walk; apply ty_upd_file; intros c []; by split.
Qed.
Lemma ty_process_notify p : Typed any (process_notify_device p).
Proof. unfold process_notify_device, process_exit_file. ty_walk. Qed.
Lemma ty_prepare pnp : Typed any (TtEvtDevicePrepareHardware pnp).
Proof.
  unfold TtEvtDevicePrepareHardware, prepare_blackhole. ty_walk.
  - apply ty_modify. intros ? []. split; try done. apply pool_init_typed.
  - apply (ty_saved (λ s, s <| HardwareInitDone := true |>)). intros ? []; by split.
Qed.
Lemma ty_release_hardware : Typed any TtEvtDeviceReleaseHardware.
Proof.
  unfold TtEvtDeviceReleaseHardware. ty_walk.
  - apply (ty_saved (λ s, s <| SavedStateValid := false |> <| SavedMpsValid := false |> <| HardwareInitDone := false |>)).
    intros ? []; by split.
  - by apply ty_set_dma.
  - apply ty_modify. intros ? []. by split.
  - apply ty_modify. intros ? []. by split.
Qed.
Lemma ty_d0_entry s : Typed any (TtEvtDeviceD0Entry s).
Proof. unfold TtEvtDeviceD0Entry. ty_walk. Qed.
Lemma ty_surprise : Typed any TtEvtDeviceSurpriseRemoval.
Proof. unfold TtEvtDeviceSurpriseRemoval. ty_walk. by apply (ty_gate (λ s, s <| Detached := true |>)). Qed.

Lemma step_typed w w' : step w w' → well_typed w → well_typed w'.
Proof.
  intros [] Hw; [apply ty_file_create | apply ty_deliver | apply ty_file_cleanup | apply ty_process_notify | apply ty_prepare
    | apply ty_release_hardware | apply ty_d0_entry | refine (proj1 (ty_quiet _ _ (TtEvtDeviceD0Exit_frame _) eq_refl w Hw)) | apply ty_surprise
    | apply ty_pldr_work | ]; try done.
  revert Hw. apply well_typed_reads. intros c Hc. apply H. by destruct c.
Qed.

(** C12 The state is well typed: from the zeroed context that device add
    leaves, under any history of requests, closes, exits, starts, resets and
    removals, every integer field of the device and file contexts is in the
    range of its C type (handles, pointers and the page frames of an MDL
    apart): the PCI identity, the BAR bases and lengths and the reset
    interface's type mask among them. Every array has its declared length, every
    stored region, window and slot number is a valid index, buffers, views and
    pinnings have page-multiple sizes within their limits, a window with an
    owner is marked used, and every request buffer holds bytes. *)
Theorem state_well_typed :
  (∀ os q limit item, well_typed (context_zero os q
     <| w_dma := mkDma false 0 (TtReadDmaBufLimitBytes limit) false false |>
     <| w_pldr := mkPldr false reset_if_zero item reset_if_zero false |>))
  ∧ ∀ w0 w : World, well_typed w0 → rtc step w0 w → well_typed w.
Proof.
  split; [|intros w0 w H0 Hr; induction Hr as [|x y z Hs _ IH]; [done | apply IH; by apply (step_typed x)]].
  intros os q limit item. split.
  - by repeat split.
  - done.
  - split; by apply array_replicate.
  - split; [done | done | done|]. intros i f Hi. by apply lookup_replicate in Hi as [? _].
  - apply array_replicate, entry_free_typed.
  - split; [done | apply (uint_wrap 64); lia].
  - done.
  - split; [done | by apply array_replicate].
  - by apply array_replicate.
  - split; try done. by apply array_replicate.
  - done.
  - intros f. unfold file_ctx. cbn. rewrite lookup_empty. split; try done. split; try done. by apply array_replicate.
  - intros p d. cbn. by rewrite lookup_empty.
  - intros r. unfold req_state. cbn. rewrite lookup_empty. constructor.
Qed.
End entry.

(** ** Instance: the pinning of [dev3] is well typed. *)
Lemma dev3_reached : rtc step dev0 dev3.
Proof.
  apply (rtc_l _ dev0 dev1); [apply (step_prepare dev0 card_pnp)|].
  apply (rtc_l _ dev1 dev2); [apply (step_create dev1 90 1); [by_decision | vm_compute; reflexivity]|].
  apply rtc_once. apply (step_request dev2 1 5 req_pin2); by_decision.
Qed.
Lemma state_well_typed_witness : length (Pinnings (file_ctx 1 dev3)) = 1%nat ∧ Forall pinning_typed (Pinnings (file_ctx 1 dev3)).
Proof.
  split; [vm_compute; reflexivity|].
  pose proof (proj1 (state_well_typed (P := sim)) card_os no_handles (Some 64) true) as H0.
  exact (fy_pinnings _ (wt_files _ (proj2 state_well_typed dev0 dev3 H0 dev3_reached) 1)).
Defined.
