(* ===== verification/LockOrder.v ===== *)
(** * Lock order

    The wait locks and the reset resource are taken in one order: the device
    list lock, the reset resource, the power lock, the file list lock, a file
    lock, then one of the leaf locks (driver.c documents the first part).  A
    wait lock is not recursive, so taking a lock of the same rank twice would
    already hang. *)
From S2P Require Import Prelude Abi Platform Frame Trace Sim IoSpec PciConfig Blackhole Iatu IatuSpec Tlb Memory.
From S2P Require Import Ledger MemorySpec Locks LocksSpec Power Telemetry Reset Ioctl Device Balance Handles System.

Definition rank (l : Lock) : Z :=
  match l with
  | DeviceListLock => 0
  | ResetResource => 1
  | PowerLock => 2
  | FileListLock => 3
  | FileLock _ => 4
  | TlbLock => 5
  | IatuLock => 6
  | LockLock => 7
  | ArcMsgLock => 8
  | KernelTlbLock => 9
  end.
Definition above (r : Z) (s : list Lock) : bool := forallb (λ h, rank h <? r) s.

(** The locks that the running entry point holds after a trace, the last taken
    first; [None] when a lock was taken out of order or released when it was
    not the last one taken. *)
Fixpoint lock_stack (t : list Event) : option (list Lock) :=
  match t with
  | [] => Some []
  | e :: t' =>
      match lock_stack t' with
      | None => None
      | Some s =>
          match e with
          | EvLock l => if above (rank l) s then Some (l :: s) else None
          | EvLockShared => if above (rank ResetResource) s then Some (ResetResource :: s) else None
          | EvUnlock l =>
              match s with h :: s' => if decide (h = l) then Some s' else None | [] => None end
          | _ => Some s
          end
      end
  end.

Lemma above_mono r r' s : r <= r' → above r s = true → above r' s = true.
Proof. intros Hr. unfold above. rewrite !forallb_forall. intros H x Hx. apply H in Hx. lia. Qed.
Lemma above_app r a b : above r (a ++ b) = above r a && above r b.
Proof. apply forallb_app. Qed.

Section order.
Context {P : Platform}.

(** [Takes r L L' m]: called with the locks [L], on top of locks of ranks below
    [r], [m] takes and releases locks in order and ends with [L']. *)
Definition Takes {A} (r : Z) (L L' : list Lock) (m : M A) : Prop :=
  ∀ w s, above r s = true → lock_stack (w_trace w) = Some (L ++ s) → lock_stack (w_trace (m w).2) = Some (L' ++ s).

Lemma lk_ret {A} r L (a : A) : Takes r L L (mret a).
Proof. by intros w s. Qed.
Lemma lk_gets {A} r L (f : World → A) : Takes r L L (gets f).
Proof. by intros w s. Qed.
Lemma lk_bind {A B} r L1 L2 L3 (m : M A) (k : A → M B) :
  Takes r L1 L2 m → (∀ a, Takes r L2 L3 (k a)) → Takes r L1 L3 (mbind k m).
Proof. intros Hm Hk w s Hs Hw. exact (Hk _ _ s Hs (Hm w s Hs Hw)). Qed.
Lemma lk_when r L b (m : M ()) : Takes r L L m → Takes r L L (when b m).
Proof. destruct b; [done | intros _; apply lk_ret]. Qed.
Lemma lk_for_each {A} r L (l : list A) body : (∀ x, Takes r L L (body x)) → Takes r L L (for_each l body).
Proof. intros Hb. induction l; cbn [for_each]; [apply lk_ret | by eapply lk_bind]. Qed.
Lemma lk_for_break {A B} r L (l : list A) (body : A → M (option B)) :
  (∀ x, Takes r L L (body x)) → Takes r L L (for_break l body).
Proof. intros Hb. induction l; cbn [for_break]; [apply lk_ret|]. eapply lk_bind; [apply Hb|]. intros []; [apply lk_ret | done]. Qed.

(** What does not touch locks. *)
Lemma lk_quiet {A} r L ks (m : M A) : Steps (Emits ks) m → kmem KSync ks = false → Takes r L L m.
Proof.
  intros Hm Hk w s _ Hw. apply (emits_ind (λ t, lock_stack t = Some (L ++ s)) ks m w Hm); [|done].
  intros e t He Ht. cbn [lock_stack]. rewrite Ht. destruct e; try done; cbn in He; by rewrite He in Hk.
Qed.
Lemma lk_modify r L g : (∀ w, w_trace (g w) = w_trace w) → Takes r L L (modify g).
Proof. intros Hg. eapply lk_quiet; [by apply modify_emits | done]. Qed.
Definition not_sync : list EKind := [KRes; KIface; KHw; KAtu; KCfg; KMem; KReq; KPldr; KFuel].
Lemma lk_call {A} r L (f : OS → A * OS) log : (∀ a, all_kinds not_sync (log a) = true) → Takes r L L (call f log).
Proof. intros Hl. eapply lk_quiet; [by apply call_emits | done]. Qed.

(** A call: its own locks are on top, the others stay below. *)
Lemma lk_sub {A} r r' L L' L1 L2 L0 (m : M A) :
  Takes r' L1 L2 m → L = L1 ++ L0 → L' = L2 ++ L0 → above r' L0 = true → (r <=? r') = true → Takes r L L' m.
Proof.
  intros Hm -> -> H0 Hr%Z.leb_le w s Hs Hw. rewrite <- app_assoc in *. apply Hm; [|done].
  rewrite above_app, H0. by apply (above_mono r).
Qed.

Lemma lk_acquire l : Takes (rank l) [] [l] (acquire l).
Proof. intros w s Hs Hw. unfold acquire. cbn. rewrite Hw. cbn [app]. by rewrite Hs. Qed.
Lemma lk_shared : Takes (rank ResetResource) [] [ResetResource] TtResetAcquireShared.
Proof. intros w s Hs Hw. cbn. rewrite Hw. cbn [app]. cbn in Hs. by rewrite Hs. Qed.
Lemma lk_exclusive : Takes (rank ResetResource) [] [ResetResource] TtResetAcquireExclusive.
Proof. apply lk_acquire. Qed.
Lemma lk_release r L l : Takes r (l :: L) L (release l).
Proof. intros w s _ Hw. cbn. rewrite Hw. cbn [app]. by rewrite decide_True. Qed.
End order.

Create HintDb locking discriminated.
#[export] Hint Constants Opaque : locking.
#[export] Hint Resolve lk_acquire lk_shared lk_exclusive : locking.

Ltac lk_leaf := first
  [ assumption
  | eapply lk_quiet; [solve [eauto 2 with emits nocore] | vm_compute; reflexivity]
  | eapply lk_sub; [solve [eauto 1 with locking nocore] | reflexivity | reflexivity | reflexivity | reflexivity]
  | lazymatch goal with
    | |- Takes _ _ _ (modify _) => apply lk_modify; intros ?; reflexivity
    | |- Takes _ _ _ (call _ _) => apply lk_call; by intros []
    end ].
Ltac lk_walk :=
  cbv zeta; repeat first
    [ progress intros
    | match goal with
      | |- Takes _ _ _ (mret _) => apply lk_ret
      | |- Takes _ _ _ (gets _) => apply lk_gets
      | |- Takes _ _ _ (release _) => apply lk_release
      | |- Takes _ _ _ TtResetRelease => apply lk_release
      | |- Takes _ _ _ (mbind _ _) => eapply lk_bind
      end
    | lk_leaf
    | match goal with
      | |- Takes _ _ _ (when _ _) => apply lk_when
      | |- Takes _ _ _ (for_each _ _) => apply lk_for_each
      | |- Takes _ _ _ (for_break _ _) => apply lk_for_break
      | |- Takes _ _ _ (let '(_, _) := ?x in _) => destruct x
      | |- Takes _ _ _ (match ?x with _ => _ end) => destruct x
      | |- Takes _ _ _ (let _ := _ in _) => cbv zeta
      end ].

(** ** The leaf locks *)
Section leaves.
Context {P : Platform}.

Lemma noc_read_order x y a n : Takes 9 [] [] (TtBhNocRead32 x y a n).
Proof. unfold TtBhNocRead32. lk_walk. Qed.
Lemma noc_write_order x y a d n : Takes 9 [] [] (TtBhNocWrite32 x y a d n).
Proof. unfold TtBhNocWrite32. lk_walk. Qed.
#[local] Hint Resolve noc_read_order noc_write_order : locking.
Lemma save_reset_order : Takes 9 [] [] TtBhSaveResetState.
Proof. unfold TtBhSaveResetState. lk_walk. Qed.
Lemma restore_reset_order : Takes 9 [] [] TtBhRestoreResetState.
Proof. unfold TtBhRestoreResetState. lk_walk. Qed.
Lemma csm_read_order a : Takes 9 [] [] (TtBhCsmRead32 a).
Proof. unfold TtBhCsmRead32. lk_walk. Qed.
Lemma csm_write_order a v : Takes 9 [] [] (TtBhCsmWrite32 a v).
Proof. unfold TtBhCsmWrite32, TtBhNocWrite. lk_walk. Qed.
#[local] Hint Resolve csm_read_order csm_write_order : locking.
Lemma push_wait_order n q e w d : Takes 9 [] [] (arc_push_wait n q e w d).
Proof. revert q e w d. induction n; intros; cbn [arc_push_wait]; lk_walk. Qed.
Lemma write_entry_order b s m : Takes 9 [] [] (arc_write_entry b s m).
Proof. unfold arc_write_entry. lk_walk. Qed.
#[local] Hint Resolve push_wait_order write_entry_order : locking.
Lemma push_order m q n : Takes 9 [] [] (TtBhArcMsgPush m q n).
Proof. unfold TtBhArcMsgPush. lk_walk. Qed.
Lemma pop_wait_order n q e r d : Takes 9 [] [] (arc_pop_wait n q e r d).
Proof. revert q e r d. induction n; intros; cbn [arc_pop_wait]; lk_walk. Qed.
Lemma read_payload_order b i o : Takes 9 [] [] (arc_read_payload b i o).
Proof. revert b i. induction o; intros; cbn [arc_read_payload]; lk_walk. Qed.
#[local] Hint Resolve pop_wait_order read_payload_order : locking.
Lemma pop_order q n : Takes 9 [] [] (TtBhArcMsgPop q n).
Proof. unfold TtBhArcMsgPop. lk_walk. Qed.
Lemma ready_wait_order n d : Takes 9 [] [] (arc_ready_wait n d).
Proof. revert d. induction n; intros; cbn [arc_ready_wait]; lk_walk. Qed.
#[local] Hint Resolve push_order pop_order ready_wait_order : locking.
Lemma send_order m : Takes 8 [] [] (TtBhSendArcMessage m).
Proof. unfold TtBhSendArcMessage, arc_transact. lk_walk. Qed.
#[local] Hint Resolve send_order : locking.
Lemma probe_order : Takes 9 [] [] TtBhTelemetryProbe.
Proof. unfold TtBhTelemetryProbe, probe_tag. lk_walk. Qed.
Lemma tag_present_order t : Takes 9 [] [] (TtBhTagPresent t).
Proof. unfold TtBhTagPresent, TtBhReadTelemetryTag. lk_walk. Qed.
Lemma init_order : Takes 8 [] [] TtBhInitHardware.
Proof. unfold TtBhInitHardware, set_mrrs. lk_walk. Qed.
Lemma bh_reset_order g : Takes 8 [] [] (TtBhReset g).
Proof. unfold TtBhReset. lk_walk. Qed.
End leaves.
#[export] Hint Resolve csm_read_order noc_read_order noc_write_order save_reset_order restore_reset_order send_order probe_order
  tag_present_order init_order bh_reset_order : locking.

(** ** Windows, apertures and memory *)
Section memory.
Context {P : Platform}.

Lemma allocate_tlb_order f r : Takes 5 [] [] (TtIoctlAllocateTlb f r).
Proof. unfold TtIoctlAllocateTlb. lk_walk. Qed.
Lemma free_tlb_order f r : Takes 4 [] [] (TtIoctlFreeTlb f r).
Proof. unfold TtIoctlFreeTlb. lk_walk. Qed.
Lemma configure_tlb_order f r : Takes 5 [] [] (TtIoctlConfigureTlb f r).
Proof. unfold TtIoctlConfigureTlb. lk_walk. Qed.
Lemma setup_order f td n t : Takes 6 [] [] (TtSetupNocDma f td n t).
Proof. unfold TtSetupNocDma. lk_walk. Qed.
Lemma teardown_order r : Takes 6 [] [] (TtTeardownNocDma r).
Proof. unfold TtTeardownNocDma. lk_walk. Qed.
#[local] Hint Resolve setup_order teardown_order : locking.

Lemma destroy_buffer_order p : Takes 6 [] [] (TtDmaBufDestroy p).
Proof. unfold TtDmaBufDestroy. lk_walk. Qed.
#[local] Hint Resolve destroy_buffer_order : locking.
Lemma alloc_fail_order f n o r b s : Takes 4 [FileLock f] [] (dma_alloc_fail f n o r b s).
Proof. unfold dma_alloc_fail. lk_walk. Qed.
#[local] Hint Resolve alloc_fail_order : locking.
Lemma alloc_finish_order f r n i b l a t : Takes 4 [FileLock f] [] (dma_alloc_finish f r n i b l a t).
Proof. unfold dma_alloc_finish. lk_walk. Qed.
#[local] Hint Resolve alloc_finish_order : locking.
Lemma alloc_buffer_order f r n i g : Takes 4 [FileLock f] [] (dma_alloc_buffer f r n i g).
Proof. unfold dma_alloc_buffer. lk_walk. Qed.
#[local] Hint Resolve alloc_buffer_order : locking.
Lemma allocate_dma_order f r : Takes 4 [] [] (TtIoctlAllocateDmaBuf f r).
Proof. unfold TtIoctlAllocateDmaBuf. lk_walk. Qed.
Lemma free_ex_order f r : Takes 4 [] [] (TtIoctlFreeDmaBufEx f r).
Proof. unfold TtIoctlFreeDmaBufEx. lk_walk. Qed.

Lemma resolve_order f o n : Takes 5 [] [] (TtResolveMapTarget f o n).
Proof. unfold TtResolveMapTarget, resolve_dma, resolve_tlb. lk_walk. Qed.
Lemma map_fail_order f m s : Takes 4 [FileLock f] [] (map_fail f m s).
Proof. unfold map_fail. lk_walk. Qed.
#[local] Hint Resolve resolve_order map_fail_order : locking.
Lemma map_view_order f r t m : Takes 4 [FileLock f] [] (map_view f r t m).
Proof. unfold map_view. lk_walk. Qed.
#[local] Hint Resolve map_view_order : locking.
Lemma map_order f r : Takes 4 [] [] (TtIoctlMap f r).
Proof. unfold TtIoctlMap. lk_walk. Qed.
Lemma unmap_order f r : Takes 4 [] [] (TtIoctlUnmap f r).
Proof. unfold TtIoctlUnmap. lk_walk. Qed.

Lemma pin_fail_order f p l i s : Takes 4 [FileLock f] [] (pin_fail f p l i s).
Proof. unfold pin_fail. lk_walk. Qed.
#[local] Hint Resolve pin_fail_order : locking.
Lemma pin_finish_order f r g n a l p : Takes 4 [FileLock f] [] (pin_finish f r g n a l p).
Proof. unfold pin_finish. lk_walk. Qed.
#[local] Hint Resolve pin_finish_order : locking.
Lemma pin_direct_order f r g n p : Takes 4 [FileLock f] [] (pin_direct f r g n p).
Proof. unfold pin_direct. lk_walk. Qed.
#[local] Hint Resolve pin_direct_order : locking.
Lemma pin_order f r : Takes 4 [] [] (TtIoctlPinPages f r).
Proof. unfold TtIoctlPinPages. lk_walk. Qed.
Lemma destroy_pinning_order p : Takes 6 [] [] (TtDestroyPinning p).
Proof. unfold TtDestroyPinning. lk_walk. Qed.
#[local] Hint Resolve destroy_pinning_order : locking.
Lemma unpin_order f r : Takes 4 [] [] (TtIoctlUnpinPages f r).
Proof. unfold TtIoctlUnpinPages. lk_walk. Qed.
Lemma drain_pinnings_order f l : Takes 6 [] [] (drain_pinnings f l).
Proof. induction l; cbn [drain_pinnings]; lk_walk. Qed.
#[local] Hint Resolve drain_pinnings_order : locking.
Lemma process_exit_order f : Takes 4 [] [] (TtMemoryProcessExit f).
Proof. unfold TtMemoryProcessExit. lk_walk. Qed.
Lemma memory_cleanup_order f : Takes 4 [] [] (TtMemoryFileCleanup f).
Proof. unfold TtMemoryFileCleanup, free_dma_slot. lk_walk. Qed.
Lemma zap_order : Takes 3 [] [] TtResetZapMappings.
Proof. unfold TtResetZapMappings, zap_file. lk_walk. Qed.
End memory.
#[export] Hint Resolve allocate_tlb_order free_tlb_order configure_tlb_order allocate_dma_order free_ex_order map_order
  unmap_order pin_order unpin_order process_exit_order memory_cleanup_order zap_order : locking.

(** ** Locks, power, reset and the entry points *)
Section entry.
Context {P : Platform}.

Lemma release_all_order f : Takes 7 [] [] (TtLocksReleaseAll f).
Proof. unfold TtLocksReleaseAll. lk_walk. Qed.
Lemma lock_complete_order r v : Takes 7 [LockLock] [] (lock_complete r v).
Proof. unfold lock_complete. lk_walk. Qed.
Lemma lock_pend_order r i : Takes 7 [LockLock] [] (lock_pend r i).
Proof. unfold lock_pend. lk_walk. Qed.
#[local] Hint Resolve release_all_order lock_complete_order lock_pend_order : locking.
Lemma lock_release_order f r i : Takes 7 [LockLock] [] (lock_release f r i).
Proof. unfold lock_release. lk_walk. Qed.
#[local] Hint Resolve lock_release_order : locking.
Lemma lock_ctl_order f r : Takes 7 [] [] (TtIoctlLockCtl f r).
Proof. unfold TtIoctlLockCtl. lk_walk. Qed.
#[local] Hint Resolve lock_ctl_order : locking.

Lemma aggregate_order : Takes 2 [] [] TtPowerAggregate.
Proof. unfold TtPowerAggregate. lk_walk. Qed.
#[local] Hint Resolve aggregate_order : locking.
Lemma set_power_order f r : Takes 2 [] [] (TtIoctlSetPowerState f r).
Proof. unfold TtIoctlSetPowerState. lk_walk. Qed.
Lemma set_noc_order f r : Takes 4 [] [] (TtIoctlSetNocCleanup f r).
Proof. unfold TtIoctlSetNocCleanup. lk_walk. Qed.
Lemma query_telemetry_order r : Takes 9 [] [] (TtIoctlQueryTelemetry r).
Proof. unfold TtIoctlQueryTelemetry, query_telemetry_out, telem_pair, telem_single, telem_wide. lk_walk. Qed.
#[local] Hint Resolve set_power_order set_noc_order query_telemetry_order : locking.

Lemma bump_order f : Takes 7 [] [] (TtBumpResetGen f).
Proof. unfold TtBumpResetGen. lk_walk. Qed.
#[local] Hint Resolve bump_order : locking.
Lemma reset_flavor_order f g : Takes 3 [] [] (reset_flavor f g).
Proof. unfold reset_flavor, reset_restore_state, reset_config_write, reset_user, reset_asic, reset_post. lk_walk. Qed.
#[local] Hint Resolve reset_flavor_order : locking.
Lemma reset_device_order f r : Takes 3 [] [] (TtIoctlResetDevice f r).
Proof. unfold TtIoctlResetDevice. lk_walk. Qed.
#[local] Hint Resolve reset_device_order : locking.
Lemma dispatch_order f r code : Takes 2 [] [] (dispatch_code f r code).
Proof.
  unfold dispatch_code, dispatch, TtIoctlDebugReadTelemetry, TtIoctlDebugArcMsg, TtIoctlDebugGetAggPower, TtBhReadTelemetryTag. lk_walk.
Qed.
#[local] Hint Resolve dispatch_order : locking.
Lemma device_control_order f r code : Takes 1 [] [] (TtEvtIoDeviceControl f r code).
Proof. unfold TtEvtIoDeviceControl. lk_walk. Qed.
Lemma caller_context_order b f r code : Takes 1 [] [] (TtEvtIoInCallerContext b f r code).
Proof. unfold TtEvtIoInCallerContext, caller_forward, caller_handler. lk_walk. Qed.
#[local] Hint Resolve device_control_order caller_context_order : locking.
Lemma deliver_order f r q : Takes 1 [] [] (deliver f r q).
Proof. unfold deliver. lk_walk. Qed.
Lemma file_create_order r f s : Takes 2 [] [] (TtEvtDeviceFileCreate r f s).
Proof. unfold TtEvtDeviceFileCreate. lk_walk. Qed.
Lemma file_cleanup_order f : Takes 1 [] [] (TtEvtFileCleanup f).
Proof. unfold TtEvtFileCleanup, noc_cleanup, TtBhNocWrite, file_delist, file_power_off. lk_walk. Qed.
Lemma process_notify_order p : Takes 1 [] [] (process_notify_device p).
Proof. unfold process_notify_device, process_exit_file. lk_walk. Qed.
Lemma prepare_order pnp : Takes 2 [] [] (TtEvtDevicePrepareHardware pnp).
Proof. unfold TtEvtDevicePrepareHardware, prepare_blackhole. lk_walk. Qed.
Lemma release_hardware_order : Takes 9 [] [] TtEvtDeviceReleaseHardware.
Proof. unfold TtEvtDeviceReleaseHardware. lk_walk. Qed.
Lemma d0_entry_order s : Takes 8 [] [] (TtEvtDeviceD0Entry s).
Proof. unfold TtEvtDeviceD0Entry. lk_walk. Qed.
Lemma d0_exit_order s : Takes 8 [] [] (TtEvtDeviceD0Exit s).
Proof. unfold TtEvtDeviceD0Exit. lk_walk. Qed.
Lemma surprise_order : Takes 1 [] [] TtEvtDeviceSurpriseRemoval.
Proof. unfold TtEvtDeviceSurpriseRemoval. lk_walk. Qed.
Lemma pldr_order : Takes 9 [] [] TtPldrWorkItem.
Proof. unfold TtPldrWorkItem. lk_walk. Qed.
End entry.

(** ** Every history *)
Section history.
Context {P : Platform}.

Lemma step_order w w' : step w w' → lock_stack (w_trace w) = Some [] → lock_stack (w_trace w') = Some [].
Proof.
  intros [r f s|f r q|f|p|pnp| |s|s| | |w'' Hf] Hw.
  - exact (file_create_order r f s w [] eq_refl Hw).
  - exact (deliver_order f r q w [] eq_refl Hw).
  - exact (file_cleanup_order f w [] eq_refl Hw).
  - exact (process_notify_order p w [] eq_refl Hw).
  - exact (prepare_order pnp w [] eq_refl Hw).
  - exact (release_hardware_order w [] eq_refl Hw).
  - exact (d0_entry_order s w [] eq_refl Hw).
  - exact (d0_exit_order s w [] eq_refl Hw).
  - exact (surprise_order w [] eq_refl Hw).
  - exact (pldr_order w [] eq_refl Hw).
  - by rewrite (Hf CTrace eq_refl : w_trace w'' = w_trace w).
Qed.

Lemma reachable_stack w : reachable w → lock_stack (w_trace w) = Some [].
Proof.
  intros (w0 & H0 & Hr). assert (lock_stack (w_trace w0) = Some []) as Hw by (rewrite (in_trace _ H0); reflexivity).
  revert Hw. clear H0. induction Hr as [|x y z Hs _ IH]; [done|]. intros Hx. by apply IH, (step_order x).
Qed.

Lemma stack_suffix t1 t2 : is_Some (lock_stack (t1 ++ t2)) → is_Some (lock_stack t2).
Proof.
  induction t1 as [|e t1 IH]; [done|]. cbn [app lock_stack]. intros H. apply IH. destruct (lock_stack (t1 ++ t2)); [by eexists | by inversion H].
Qed.

(** The lock that an event takes. *)
Definition taken (e : Event) : option Lock :=
  match e with EvLock l => Some l | EvLockShared => Some ResetResource | _ => None end.

Lemma taken_above e l t : taken e = Some l → is_Some (lock_stack (e :: t)) →
  ∃ s, lock_stack t = Some s ∧ ∀ h, h ∈ s → rank h < rank l.
Proof.
  intros He Hs. cbn [lock_stack] in Hs. destruct (lock_stack t) as [s|]; [|by inversion Hs]. exists s. split; [done|].
  assert (above (rank l) s = true) as Ha.
  { destruct e; simplify_eq/=; (destruct (above _ s) eqn:E; [done | by inversion Hs]). }
  intros h Hh. unfold above in Ha. rewrite forallb_forall in Ha. apply Z.ltb_lt, Ha, list_elem_of_In, Hh.
Qed.

(** C5 Lock order: in the history of any reachable state, at every acquisition
    of a wait lock or of the reset resource, each lock that the running entry
    point holds comes strictly before the new one in the order (so none is
    taken twice), every release is of the lock taken last, and when an entry
    point returns it holds none. *)
Theorem reachable_lock_order w :
  reachable w →
  lock_stack (w_trace w) = Some []
  ∧ ∀ t1 e t2 l, w_trace w = t1 ++ e :: t2 → taken e = Some l →
      ∃ s, lock_stack t2 = Some s ∧ ∀ h, h ∈ s → rank h < rank l.
Proof.
  intros Hw%reachable_stack. split; [done|]. intros t1 e t2 l Ht He. apply (taken_above e l t2 He), (stack_suffix t1).
  rewrite <- Ht, Hw. done.
Qed.

(** An entry point that is about to take a lock: what happened before, and the lock. *)
Definition blocked (b : list Event * Lock) : Prop :=
  ∃ w t1 e, reachable w ∧ w_trace w = t1 ++ e :: b.1 ∧ taken e = Some b.2.
Definition held_locks (t : list Event) : list Lock := default [] (lock_stack t).

Lemma highest (T : list (list Event * Lock)) : T ≠ [] → ∃ b, b ∈ T ∧ ∀ b', b' ∈ T → rank b'.2 <= rank b.2.
Proof.
  induction T as [|b T IH]; [done|]. intros _. destruct T as [|c T].
  - exists b. split; [left|]. by intros b' ->%list_elem_of_singleton.
  - destruct IH as (m & Hm & Hmax); [done|]. destruct (Z_le_gt_dec (rank b.2) (rank m.2)) as [Hle|Hgt].
    + exists m. split; [by right|]. intros b' [->|Hb]%elem_of_cons; [done | by apply Hmax].
    + exists b. split; [left|]. intros b' [->|Hb]%elem_of_cons; [done|]. specialize (Hmax b' Hb). lia.
Qed.

(** C6 No deadlock among the entry points of one device: whatever set of them is
    waiting, each for its next lock, some waited-for lock is held by none of
    them.  (The driver's DeviceListLock is outermost in the order; the steps that
    take it are those of the driver, not of one device.) *)
Theorem no_circular_wait T :
  T ≠ [] → (∀ b, b ∈ T → blocked b) → ∃ b, b ∈ T ∧ ∀ b', b' ∈ T → b.2 ∉ held_locks b'.1.
Proof.
  intros HT Hb. destruct (highest T HT) as (b & Hin & Hmax). exists b. split; [done|]. intros b' Hb' Hh.
  destruct (Hb b' Hb') as (w & t1 & e & Hw%reachable_stack & Ht & He).
  destruct (taken_above e b'.2 b'.1 He) as (s & Hs & Hr); [apply (stack_suffix t1); by rewrite <- Ht, Hw|].
  unfold held_locks in Hh. rewrite Hs in Hh. specialize (Hr _ Hh). specialize (Hmax b' Hb'). lia.
Qed.
End history.

(** ** Instances in the run of System.v: the NOC aperture of handle 1's buffer,
    and the power aggregation of the second open. *)
Lemma run6_event (n : nat) e : (w_trace run6 !! n) = Some e →
  w_trace run6 = take n (w_trace run6) ++ e :: drop (S n) (w_trace run6).
Proof. intros H. symmetry. by apply take_drop_middle. Qed.

Lemma reachable_lock_order_witness :
  held_locks (drop 30 (w_trace run6)) = [FileLock 1; ResetResource]
  ∧ ∃ s, lock_stack (drop 30 (w_trace run6)) = Some s ∧ ∀ h, h ∈ s → rank h < rank IatuLock.
Proof.
  split; [vm_compute; reflexivity|].
  assert (w_trace run6 !! 29%nat = Some (EvLock IatuLock)) as E by (vm_compute; reflexivity).
  exact (proj2 (reachable_lock_order run6 run6_reachable) _ _ _ IatuLock (run6_event 29 _ E) eq_refl).
Defined.

Lemma blocked_at {P : Platform} (w : World) n e l :
  reachable w → w_trace w !! n = Some e → taken e = Some l → blocked (drop (S n) (w_trace w), l).
Proof.
  intros Hw He Hl. exists w, (take n (w_trace w)), e. split_and!; [done | | done]. symmetry. by apply take_drop_middle.
Qed.

Definition two_waiting : list (list Event * Lock) :=
  [(drop (S 29) (w_trace run6), IatuLock); (drop (S 51) (w_trace run6), FileListLock)].
Lemma no_circular_wait_witness :
  ∃ b, b ∈ two_waiting ∧ ∀ b', b' ∈ two_waiting → b.2 ∉ held_locks b'.1.
Proof.
  apply (no_circular_wait (P := sim)); [discriminate|].
  assert (w_trace run6 !! 29%nat = Some (EvLock IatuLock)) as E1 by (vm_compute; reflexivity).
  assert (w_trace run6 !! 51%nat = Some (EvLock FileListLock)) as E2 by (vm_compute; reflexivity).
  intros b Hb. apply elem_of_cons in Hb as [E|Hb]; [rewrite E; exact (blocked_at run6 29 _ _ run6_reachable E1 eq_refl)|].
  apply list_elem_of_singleton in Hb. rewrite Hb. exact (blocked_at run6 51 _ _ run6_reachable E2 eq_refl).
Defined.
