(* ===== verification/PowerRace.v ===== *)
(** * Concurrent power aggregation

    Requests are dispatched in parallel, so opening, closing, SET_POWER_STATE
    and the end of PrepareHardware may all be aggregating at the same time.
    Here these entry points are threads that are interleaved between their
    accesses to what they share: each store to a field of a handle's
    contribution (each setting by itself), the list insertion and removal (under
    FileListLock), taking PowerLock, each read of a field of a handle in the loop
    of TtPowerAggregate (PowerValidity is read twice, and a setting that is
    larger is read again when it is taken over), storing the aggregate, and the
    message to the firmware, which is sent after PowerLock was dropped.

    The recorded aggregate is right once the threads are done
    ([power_settles]); the message that reaches the firmware last need not be
    ([last_message_may_be_stale]).  A reset is not among the threads: the
    generation does not change. *)
From S2P Require Import Prelude Abi Platform Frame Trace Sim PciConfig Blackhole Power PowerSpec Iatu Tlb Memory Locks.
From S2P Require Import Telemetry Reset Ioctl Device System.

Section race.
Context {P : Platform}.

(** ** Threads *)

(** What an entry point does to the shared state before it aggregates. *)
Inductive Change :=
  | CTake (f : Z)
  | CStore (f : Z) (g : PowerContribution → PowerContribution)
  | CDrop (f : Z)
  | CEnlist (f : Z).

(** Where the loop body of TtPowerAggregate is, at one handle: before the guard;
    before flagsCount; before settingsCount; before effectiveFlags (with the two
    counts); before the comparison of the first of the settings left; before the
    assignment that follows a comparison that held. *)
Inductive Phase :=
  | AtEntry
  | AtFlagsCount
  | AtSettingsCount (flagsCount : Z)
  | AtFlags (flagsCount settingsCount : Z)
  | AtSetting (left : list Z)
  | AtStore (i : Z) (left : list Z).

Inductive Task :=
  | Changing (todo : list Change)      (* then aggregates *)
  | HasPower
  | Reading (todo : list Z) (p : Phase) (a : Agg)   (* the first one is being read *)
  | Recording (a : Agg)
  | Recorded (a : Agg)
  | Sending (a : Agg)
  | Closing (f : Z)
  | PoweringOff (f : Z)
  | Done.

Definition store_power (f : Z) (g : PowerContribution → PowerContribution) : M () :=
  upd_file f (λ fc, fc <| fc_Power := g (fc_Power fc) |>).

Definition run_change (c : Change) : M () :=
  match c with
  | CTake f => acquire (FileLock f)
  | CStore f g => store_power f g
  | CDrop f => release (FileLock f)
  | CEnlist f =>
      acquire FileListLock;;
      upd_list (λ l, l ++ [f]);;
      upd_file f (λ c, c <| OnDeviceList := true |>);;
      release FileListLock
  end.

(** The loop of TtPowerAggregate at handle [f], up to the next read of a field;
    no phase: the handle is done. *)
Definition flags_with (flagsCount flags : Z) : Z :=
  wrap16 (Z.lor flags (wrap16 (Z.land (Z.lnot (Z.shiftl 1 flagsCount - 1)) TT_POWER_FLAG_ALL))).
Definition clamp_count (settingsCount : Z) : Z := if 14 <? settingsCount then 14 else settingsCount.
Definition agg_max (a : Agg) (settingsCount : Z) : Z :=
  if agg_maxcount a <? settingsCount then settingsCount else agg_maxcount a.

Definition read_step (w : World) (f : Z) (a : Agg) (p : Phase) : Agg * option Phase :=
  let c := fc_Power (file_ctx f w) in
  match p with
  | AtEntry => (a, if contributes (ResetGen (w_gate w)) (file_ctx f w) then Some AtFlagsCount else None)
  | AtFlagsCount => (a, Some (AtSettingsCount (power_flags_count c)))
  | AtSettingsCount k =>
      let n := power_settings_count c in
      (mkAggAcc (agg_flags a) (agg_settings a) (agg_max a n), Some (AtFlags k (clamp_count n)))
  | AtFlags k n =>
      (mkAggAcc (wrap16 (Z.lor (agg_flags a) (flags_with k (PowerFlags c)))) (agg_settings a) (agg_maxcount a),
       Some (AtSetting (zrange (Z.to_nat n))))
  | AtSetting [] => (a, None)
  | AtSetting (i :: l) =>
      (a, Some (if setting (agg_settings a) i <? setting (PowerSettings c) i then AtStore i l else AtSetting l))
  | AtStore i l =>
      (mkAggAcc (agg_flags a) (<[Z.to_nat i := setting (PowerSettings c) i]> (agg_settings a)) (agg_maxcount a),
       Some (AtSetting l))
  end.

(** A handle read at one moment. *)
Definition read_power (w : World) (a : Agg) (f : Z) : Agg :=
  if contributes (ResetGen (w_gate w)) (file_ctx f w) then agg_one a (fc_Power (file_ctx f w)) else a.

Definition send_power (a : Agg) : M () :=
  bh ← gets (IsBlackhole ∘ w_id);
  detached ← gets (Detached ∘ w_gate);
  when (bh && negb detached) (TtBhSendArcMessage (power_msg a);; mret tt).

Definition record_power (a : Agg) : M () :=
  modify (λ w, w <| w_power := mkAgg true (agg_flags a) (agg_settings a) |>).

(** Which locks a thread has; the file lock of a handle is only taken by its
    own requests and protects nothing that is read here. *)
Definition has_power (t : Task) : bool :=
  match t with HasPower | Reading _ _ _ | Recording _ | Recorded _ => true | _ => false end.
Definition has_list (t : Task) : bool := match t with Reading _ _ _ => true | _ => false end.

(** One step of a thread; [pf] and [lf] say that PowerLock and FileListLock are
    free.  [None]: it waits, or it is done. *)
Definition advance (pf lf : bool) (t : Task) (w : World) : option (Task * World) :=
  match t with
  | Changing (CEnlist f :: cs) => if lf then Some (Changing cs, (run_change (CEnlist f) w).2) else None
  | Changing (c :: cs) => Some (Changing cs, (run_change c w).2)
  | Changing [] => if pf then Some (HasPower, (acquire PowerLock w).2) else None
  | HasPower => if lf then Some (Reading (FileList w) AtEntry agg_zero, (acquire FileListLock w).2) else None
  | Reading (f :: fs) p a =>
      let r := read_step w f a p in
      Some (match r.2 with Some p' => Reading (f :: fs) p' r.1 | None => Reading fs AtEntry r.1 end, w)
  | Reading [] _ a => Some (Recording a, (release FileListLock w).2)
  | Recording a => Some (Recorded a, (record_power a w).2)
  | Recorded a => Some (Sending a, (release PowerLock w).2)
  | Sending a => Some (Done, (send_power a w).2)
  | Closing f => if lf then Some (PoweringOff f, (file_delist f w).2) else None
  | PoweringOff f =>
      if PowerContributes (fc_Power (file_ctx f w))
      then Some (Changing [], (store_power f (λ c, c <| PowerContributes := false |>) w).2)
      else Some (Done, w)
  | Done => None
  end.

(** ** Interleavings *)

(** The device state, the threads, and the aggregates sent (the last one first). *)
Record Conf := mkConf { cf_world : World; cf_threads : list Task; cf_sent : list Agg }.

Definition sends (t : Task) (w : World) : list Agg :=
  match t with
  | Sending a => if IsBlackhole (w_id w) && negb (Detached (w_gate w)) then [a] else []
  | _ => []
  end.

Definition step_thread (i : nat) (c : Conf) : option Conf :=
  t ← cf_threads c !! i;
  let free p := forallb (λ t, negb (p t)) (cf_threads c) in
  r ← advance (free has_power) (free has_list) t (cf_world c);
  Some (mkConf r.2 (<[i := r.1]> (cf_threads c)) (sends t (cf_world c) ++ cf_sent c)).

Definition conf_step (c c' : Conf) : Prop := ∃ i, step_thread i c = Some c'.

(** A schedule. *)
Fixpoint schedule (is_ : list nat) (c : Conf) : option Conf :=
  match is_ with [] => Some c | i :: r => c' ← step_thread i c; schedule r c' end.

Lemma schedule_steps is_ c c' : schedule is_ c = Some c' → nsteps conf_step (length is_) c c'.
Proof.
  revert c. induction is_ as [|i r IH]; cbn [schedule length]; intros c E; [injection E as ->; constructor|].
  destruct (step_thread i c) as [c1|] eqn:E1; [|done]. econstructor; [by exists i | by apply IH].
Qed.

(** ** A thread alone is the code *)
Fixpoint alone (n : nat) (t : Task) (w : World) : Task * World :=
  match n with
  | O => (t, w)
  | S k => match advance true true t w with Some (t', w') => alone k t' w' | None => (t, w) end
  end.

Lemma alone_add n m t w : alone (n + m) t w = alone m (alone n t w).1 (alone n t w).2.
Proof.
  revert t w. induction n as [|n IH]; intros t w; [done|]. cbn [Nat.add alone].
  destruct (advance true true t w) as [[t' w']|] eqn:E; [apply IH|]. cbn [fst snd].
  destruct m; [done|]. cbn [alone]. by rewrite E.
Qed.

Lemma read_all w a fs : foldl (read_power w) a fs
  = foldl agg_one a (fc_Power <$> filter (λ c, contributes (ResetGen (w_gate w)) c) ((λ f, file_ctx f w) <$> fs)).
Proof.
  revert a. induction fs as [|f fs IH]; intros a; [done|]. cbn [foldl fmap list_fmap]. rewrite IH. unfold read_power.
  rewrite filter_cons. destruct (contributes _ (file_ctx f w)) eqn:E.
  - by rewrite decide_True by done.
  - by rewrite decide_False by (intros H; by rewrite ?E in H).
Qed.
Lemma read_list w : foldl (read_power w) agg_zero (FileList w) = aggregate (live_contributions w).
Proof. apply read_all. Qed.

(** The accumulator when the handle is done, if its fields stay as they are. *)
Definition finish_handle (w : World) (f : Z) (a : Agg) (p : Phase) : Agg :=
  let c := fc_Power (file_ctx f w) in
  match p with
  | AtEntry => read_power w a f
  | AtFlagsCount => agg_one a c
  | AtSettingsCount k =>
      mkAggAcc (wrap16 (Z.lor (agg_flags a) (flags_with k (PowerFlags c))))
        (foldl (agg_setting c) (agg_settings a) (zrange (Z.to_nat (clamp_count (power_settings_count c)))))
        (agg_max a (power_settings_count c))
  | AtFlags k n =>
      mkAggAcc (wrap16 (Z.lor (agg_flags a) (flags_with k (PowerFlags c))))
        (foldl (agg_setting c) (agg_settings a) (zrange (Z.to_nat n))) (agg_maxcount a)
  | AtSetting l => mkAggAcc (agg_flags a) (foldl (agg_setting c) (agg_settings a) l) (agg_maxcount a)
  | AtStore i l =>
      mkAggAcc (agg_flags a)
        (foldl (agg_setting c) (<[Z.to_nat i := setting (PowerSettings c) i]> (agg_settings a)) l) (agg_maxcount a)
  end.
Definition finish_list (w : World) (fs : list Z) (p : Phase) (a : Agg) : Agg :=
  match fs with [] => a | f :: r => foldl (read_power w) (finish_handle w f a p) r end.

Lemma finish_entry w fs a : finish_list w fs AtEntry a = foldl (read_power w) a fs.
Proof. by destruct fs. Qed.

Lemma finish_step w f a p :
  let r := read_step w f a p in
  match r.2 with Some p' => finish_handle w f r.1 p' | None => r.1 end = finish_handle w f a p.
Proof.
  destruct p as [| |k|k n|[|i l]|i l]; try reflexivity.
  - cbn [read_step fst snd finish_handle]. unfold read_power. by destruct (contributes _ _).
  - by destruct a.
  - cbn [read_step fst snd finish_handle foldl]. set (s := PowerSettings _).
    change (agg_setting (fc_Power (file_ctx f w)) (agg_settings a) i)
      with (if setting (agg_settings a) i <? setting s i then <[Z.to_nat i := setting s i]> (agg_settings a) else agg_settings a).
    by destruct (_ <? _).
Qed.

Definition phase_left (p : Phase) : nat :=
  match p with
  | AtEntry => 33 | AtFlagsCount => 32 | AtSettingsCount _ => 31
  | AtFlags _ n => 2 + 2 * Z.to_nat n
  | AtSetting l => 1 + 2 * length l | AtStore _ l => 2 + 2 * length l
  end%nat.

Lemma phase_down w f a p p' : (read_step w f a p).2 = Some p' → (phase_left p' < phase_left p)%nat.
Proof.
  destruct p as [| |k|k n|[|i l]|i l]; cbn [read_step snd].
  - destruct (contributes _ _); intros [= <-]; cbn; lia.
  - intros [= <-]. cbn. lia.
  - intros [= <-]. cbn [phase_left]. unfold clamp_count. destruct (Z.ltb_spec 14 (power_settings_count (fc_Power (file_ctx f w)))); lia.
  - intros [= <-]. cbn [phase_left]. unfold zrange. rewrite length_fmap, length_seq. lia.
  - done.
  - intros [= <-]. destruct (_ <? _); cbn; lia.
  - intros [= <-]. cbn. lia.
Qed.
Lemma phase_pos p : (0 < phase_left p)%nat.
Proof. destruct p; cbn; lia. Qed.

Lemma alone_handle w f fs m a p : (phase_left p ≤ m)%nat →
  ∃ n, alone n (Reading (f :: fs) p a) w = (Reading fs AtEntry (finish_handle w f a p), w).
Proof.
  revert a p. induction m as [|m IH]; intros a p Hm; [pose proof (phase_pos p); lia|].
  pose proof (finish_step w f a p) as Hf. cbv zeta in Hf. destruct (read_step w f a p).2 as [p'|] eqn:E.
  - destruct (IH (read_step w f a p).1 p') as [n Hn]; [pose proof (phase_down _ _ _ _ _ E); lia|].
    exists (S n). cbn [alone advance]. cbv zeta. rewrite E, <- Hf. exact Hn.
  - exists 1%nat. cbn [alone advance]. cbv zeta. by rewrite E, <- Hf.
Qed.
Lemma alone_reading w fs a : ∃ n, alone n (Reading fs AtEntry a) w = (Reading [] AtEntry (foldl (read_power w) a fs), w).
Proof.
  revert a. induction fs as [|f fs IH]; intros a; [by exists 0%nat|].
  destruct (alone_handle w f fs _ a AtEntry (le_n _)) as [n Hn]. destruct (IH (read_power w a f)) as [m Hm].
  exists (n + m)%nat. by rewrite alone_add, Hn.
Qed.

Lemma aggregate_sections w :
  let w1 := (acquire FileListLock (acquire PowerLock w).2).2 in
  let a := aggregate (live_contributions w1) in
  TtPowerAggregate w = send_power a (release PowerLock (record_power a (release FileListLock w1).2).2).2.
Proof.
  cbv zeta. unfold TtPowerAggregate. rewrite bind_st. generalize (acquire PowerLock w). intros [u0 w0]. cbn [fst snd].
  rewrite bind_st. generalize (acquire FileListLock w0). intros [u1 w1]. cbn [fst snd].
  rewrite bind_st. change (gets live_contributions w1) with (live_contributions w1, w1). cbn [fst snd]. generalize (aggregate (live_contributions w1)). intros a.
  rewrite bind_st. generalize (release FileListLock w1). intros [u2 w2]. cbn [fst snd].
  rewrite bind_st. fold (record_power a). generalize (record_power a w2). intros [u3 w3]. cbn [fst snd].
  rewrite bind_st. reflexivity.
Qed.

Lemma aggregate_alone w : ∃ n, alone n (Changing []) w = (Done, (TtPowerAggregate w).2).
Proof.
  rewrite aggregate_sections. set (w1 := (acquire FileListLock (acquire PowerLock w).2).2).
  destruct (alone_reading w1 (FileList w1) agg_zero) as [n Hn].
  exists (2 + (n + 4))%nat. rewrite alone_add. cbn [alone advance fst snd]. fold w1. change (FileList (acquire PowerLock w).2) with (FileList w1).
  clearbody w1. cbv zeta. rewrite alone_add, Hn. cbn [fst snd]. rewrite read_list. reflexivity.
Qed.

(** *** The entry points *)
Definition run_changes (cs : list Change) (w : World) : World := foldl (λ w c, (run_change c w).2) w cs.

Lemma alone_changes cs w : alone (length cs) (Changing cs) w = (Changing [], run_changes cs w).
Proof. revert w. induction cs as [|[] cs IH]; intros w; try done; apply IH. Qed.

Lemma changes_alone cs w : ∃ n, alone n (Changing cs) w = (Done, (TtPowerAggregate (run_changes cs w)).2).
Proof.
  destruct (aggregate_alone (run_changes cs w)) as [n Hn]. exists (length cs + n)%nat. by rewrite alone_add, alone_changes.
Qed.

Lemma upd_file_at f g h (w : World) : g (file_ctx f w) = h (file_ctx f w) → (upd_file f g w).2 = (upd_file f h w).2.
Proof.
  intros E. change ((upd_file f g w).2) with (w <| w_files := <[f := g (file_ctx f w)]> (w_files w) |>). rewrite E. reflexivity.
Qed.
Lemma upd_file_twice f g h (w : World) : (upd_file f h (upd_file f g w).2).2 = (upd_file f (λ c, h (g c)) w).2.
Proof.
  set (w1 := (upd_file f g w).2).
  change ((upd_file f h w1).2) with (w1 <| w_files := <[f := h (file_ctx f w1)]> (w_files w1) |>).
  assert (file_ctx f w1 = g (file_ctx f w)) as -> by (unfold w1; by rewrite upd_file_ctx, decide_True).
  change (w_files w1) with (<[f := g (file_ctx f w)]> (w_files w)). rewrite insert_insert_eq. reflexivity.
Qed.

(** SET_POWER_STATE: the stores, one field and one setting at a time. *)
Definition store_setting (settings : list Z) (i : nat) (c : PowerContribution) : PowerContribution :=
  c <| PowerSettings := <[i := default 0 (settings !! i)]> (PowerSettings c) |>.
Definition set_power_stores (validity flags : Z) (settings : list Z) : list (PowerContribution → PowerContribution) :=
  (λ c, c <| PowerContributes := true |>)
  :: (λ c, c <| PowerValidity := validity |>)
  :: (λ c, c <| PowerFlags := flags |>)
  :: (store_setting settings <$> seq 0 14).
Definition set_power_changes (f validity flags : Z) (settings : list Z) : list Change :=
  CTake f :: (CStore f <$> set_power_stores validity flags settings) ++ [CDrop f].

Lemma run_stores f g gs w :
  run_changes (CStore f <$> g :: gs) w = (store_power f (λ c, foldl (λ c g, g c) (g c) gs) w).2.
Proof.
  revert g w. induction gs as [|h gs IH]; intros g w; [done|].
  change (run_changes (CStore f <$> g :: h :: gs) w) with (run_changes (CStore f <$> h :: gs) (store_power f g w).2).
  rewrite IH. unfold store_power. rewrite upd_file_twice. reflexivity.
Qed.

(** Copying an array element by element. *)
Lemma copy_elements st c n : length (PowerSettings c) = length st → (n ≤ length st)%nat →
  foldl (λ c g, g c) c (store_setting st <$> seq 0 n) = c <| PowerSettings := take n st ++ drop n (PowerSettings c) |>.
Proof.
  intros Hl. induction n as [|n IH]; intros Hn; [by destruct c|].
  rewrite seq_S, fmap_app, foldl_app, IH by lia. cbn [fmap list_fmap foldl Nat.add]. unfold store_setting.
  destruct (lookup_lt_is_Some_2 st n) as [x Hx]; [lia|].
  destruct (lookup_lt_is_Some_2 (PowerSettings c) n) as [y Hy]; [lia|].
  rewrite Hx, (take_S_r _ _ _ Hx), (drop_S _ _ _ Hy). destruct c as [b v fl ps]. unfold upd, set_PowerSettings. cbn [PowerSettings default] in *.
  apply (f_equal (mkPower b v fl)). rewrite <- app_assoc. rewrite insert_app_r_alt by (rewrite length_take; lia).
  rewrite length_take, Nat.min_l, Nat.sub_diag by lia. reflexivity.
Qed.
Lemma set_power_result v fl st c : length (PowerSettings c) = 14%nat → length st = 14%nat →
  foldl (λ c g, g c) c (set_power_stores v fl st) = mkPower true v fl st.
Proof.
  intros Hc Hs. unfold set_power_stores. cbn [foldl]. rewrite copy_elements; [|by rewrite Hs|by rewrite Hs].
  cbn. by rewrite take_ge, drop_ge, app_nil_r by (rewrite ?Hc, ?Hs; done).
Qed.

Lemma run_set_power f v fl st w :
  length (PowerSettings (fc_Power (file_ctx f w))) = 14%nat → length st = 14%nat →
  run_changes (set_power_changes f v fl st) w
  = (release (FileLock f) (upd_file f (λ fc, fc <| fc_Power := mkPower true v fl st |>) (acquire (FileLock f) w).2).2).2.
Proof.
  intros Hc Hs. unfold set_power_changes.
  change (run_changes (CTake f :: ?l) w) with (run_changes l (acquire (FileLock f) w).2).
  set (w1 := (acquire (FileLock f) w).2). change (file_ctx f w) with (file_ctx f w1) in Hc. clearbody w1.
  unfold run_changes. rewrite foldl_app. fold (run_changes (CStore f <$> set_power_stores v fl st) w1).
  cbn [foldl run_change]. apply (f_equal (λ w, (release (FileLock f) w).2)).
  pose proof (set_power_result v fl st _ Hc Hs) as E. unfold set_power_stores in E |- *. rewrite run_stores. cbn [foldl] in E.
  apply upd_file_at. exact (f_equal (λ p, file_ctx f w1 <| fc_Power := p |>) E).
Qed.

Lemma set_power_alone f r w :
  let T := tenstorrent_power_state in
  let c := TtCopyInBuffer r (c_sizeof T) w in
  length (PowerSettings (fc_Power (file_ctx f c.2))) = 14%nat →
  NT_SUCCESS c.1.1 = true → sget T "argsz" c.1.2 = c_sizeof T → sget T "flags" c.1.2 = 0 → sget T "reserved0" c.1.2 = 0 →
  sget T "validity" c.1.2 <= TT_POWER_VALIDITY 15 14 →
  ∃ n w', alone n (Changing (set_power_changes f (sget T "validity" c.1.2) (sget T "power_flags" c.1.2) (decode_settings c.1.2))) c.2 = (Done, w')
    ∧ TtIoctlSetPowerState f r w = (STATUS_SUCCESS, (WdfRequestSetInformation r 0 w').2).
Proof.
  cbv zeta. unfold TtIoctlSetPowerState. rewrite bind_run. generalize (TtCopyInBuffer r (c_sizeof tenstorrent_power_state) w).
  intros [[st b] w1] H0 H1 H2 H3 H4 H5. cbn [fst snd] in *. rewrite H1, H2, H3, H4, (proj2 (Z.ltb_ge _ _) H5), !Z.eqb_refl. cbn [negb orb].
  destruct (changes_alone (set_power_changes f (sget tenstorrent_power_state "validity" b) (sget tenstorrent_power_state "power_flags" b) (decode_settings b)) w1) as [n Hn].
  rewrite run_set_power in Hn by done. eexists n, _. split; [exact Hn|].
  rewrite bind_run. generalize (acquire (FileLock f) w1). intros [u2 w2]. cbn [fst snd].
  rewrite bind_run. match goal with |- context [upd_file f ?g w2] => generalize (upd_file f g w2) end. intros [u3 w3]. cbn [fst snd].
  rewrite bind_run. generalize (release (FileLock f) w3). intros [u4 w4]. cbn [fst snd].
  rewrite bind_run. generalize (TtPowerAggregate w4). intros [u5 w5]. reflexivity.
Qed.

(** The end of a successful TtEvtDeviceFileCreate. *)
Lemma create_alone f w :
  ∃ n, alone n (Changing [CStore f (λ _, power_default); CEnlist f]) w
    = (Done, ((TtPowerFileDefault f;;
               acquire FileListLock;;
               upd_list (λ l, l ++ [f]);;
               upd_file f (λ c, c <| OnDeviceList := true |>);;
               release FileListLock;;
               TtPowerAggregate) w).2).
Proof.
  destruct (changes_alone [CStore f (λ _, power_default); CEnlist f] w) as [n Hn]. exists n. rewrite Hn.
  apply (f_equal (pair Done)). unfold run_changes. cbn [foldl run_change]. repeat first [rewrite bind_run | rewrite bind_st].
  apply (f_equal (λ w, (TtPowerAggregate w).2)). reflexivity.
Qed.

(** The end of TtEvtFileCleanup, after [file_delist]. *)
Lemma close_alone f w : ∃ n, alone n (PoweringOff f) w = (Done, (file_power_off f w).2).
Proof.
  unfold file_power_off. rewrite bind_st. change (TtGetFileContext f w) with (file_ctx f w, w). cbn [fst snd].
  destruct (PowerContributes (fc_Power (file_ctx f w))) eqn:E; cbn [when]; [|exists 1%nat; cbn [alone advance]; by rewrite E].
  destruct (changes_alone [] (store_power f (λ c, c <| PowerContributes := false |>) w).2) as [n Hn].
  exists (S n). cbn [alone advance]. rewrite E. rewrite Hn.
  apply (f_equal (pair Done)). cbn [run_changes foldl]. first [rewrite bind_run | rewrite bind_st]. reflexivity.
Qed.

(** The end of TtEvtDevicePrepareHardware: [Changing []]. *)
Definition ends_with {A} (t : M ()) (m : M A) : Prop := ∀ w, ∃ w1, (m w).2 = (t w1).2.
Lemma ends_bind {A B} t (m : M A) (k : A → M B) : (∀ a, ends_with t (k a)) → ends_with t (mbind k m).
Proof. intros H w. exact (H (m w).1 (m w).2). Qed.
Lemma ends_last {A} t (a : A) : ends_with t (t;; mret a).
Proof. intros w. by exists w. Qed.
Lemma prepare_alone w : NT_SUCCESS (TtMapBlackholeBars w).1 = true →
  ∃ n w1, alone n (Changing []) w1 = (Done, (prepare_blackhole w).2).
Proof.
  intros H. assert (∃ w1, (prepare_blackhole w).2 = (TtPowerAggregate w1).2) as [w1 ->].
  { unfold prepare_blackhole. rewrite bind_run. rewrite H. cbn [negb]. revert H. generalize (TtMapBlackholeBars w).2. intros w0 _.
    revert w0. match goal with |- ∀ w0, ∃ w1, (?m w0).2 = _ => change (ends_with TtPowerAggregate m) end.
    repeat first [apply ends_last | apply ends_bind; intros]. }
  destruct (aggregate_alone w1) as [n Hn]. by exists n, w1.
Qed.

(** ** The invariant *)
Definition fresh (w : World) : Prop :=
  let a := aggregate (live_contributions w) in w_power w = mkAgg true (agg_flags a) (agg_settings a).

(** The thread will read every contribution from now on. *)
Definition pending (w : World) (t : Task) : Prop :=
  match t with
  | Changing _ | HasPower => True
  | PoweringOff f => PowerContributes (fc_Power (file_ctx f w)) = true
  | _ => False
  end.
(** The thread has read some, and what it has is right so far. *)
Definition collecting (t : Task) : bool := match t with Reading _ _ _ | Recording _ => true | _ => false end.
Definition on_course (w : World) (t : Task) : Prop :=
  match t with
  | Reading fs p a => finish_list w fs p a = aggregate (live_contributions w)
  | Recording a => a = aggregate (live_contributions w)
  | _ => True
  end.

Definition settled (w : World) (ts : list Task) : Prop :=
  (∃ t, t ∈ ts ∧ pending w t)
  ∨ ((∀ t, t ∈ ts → on_course w t) ∧ ((∃ t, t ∈ ts ∧ collecting t = true) ∨ fresh w)).

Definition one_power (ts : list Task) : Prop :=
  ∀ i j s t, ts !! i = Some s → ts !! j = Some t → has_power s = true → has_power t = true → i = j.

(** Two states that agree on what the aggregation reads and writes. *)
Record same (w w' : World) : Prop := {
  sa_live : live_contributions w' = live_contributions w;
  sa_power : w_power w' = w_power w;
  sa_ctx f : fc_Power (file_ctx f w') = fc_Power (file_ctx f w);
  sa_read a f : read_power w' a f = read_power w a f;
  sa_finish fs p a : finish_list w' fs p a = finish_list w fs p a
}.

Lemma same_refl w : same w w.
Proof. by split. Qed.

Lemma read_ctx w w' : w_gate w' = w_gate w →
  (∀ f, fc_Power (file_ctx f w') = fc_Power (file_ctx f w)) → (∀ f, OpenResetGen (file_ctx f w') = OpenResetGen (file_ctx f w)) →
  (∀ a f, read_power w' a f = read_power w a f) ∧ ∀ fs p a, finish_list w' fs p a = finish_list w fs p a.
Proof.
  intros Hg Hc Ho. assert (∀ a f, read_power w' a f = read_power w a f) as H.
  { intros a f. unfold read_power, contributes. by rewrite Hg, Hc, Ho. }
  split; [done|]. intros [|f fs] p a; [done|]. cbn [finish_list].
  assert (finish_handle w' f a p = finish_handle w f a p) as -> by (unfold finish_handle; rewrite Hc; destruct p; done).
  generalize (finish_handle w f a p). induction fs as [|g fs IH]; intros b; [done|]. cbn [foldl]. by rewrite H.
Qed.

Lemma same_of w w' : w_gate w' = w_gate w → w_power w' = w_power w → FileList w' = FileList w →
  (∀ f, fc_Power (file_ctx f w') = fc_Power (file_ctx f w)) → (∀ f, OpenResetGen (file_ctx f w') = OpenResetGen (file_ctx f w)) →
  same w w'.
Proof.
  intros Hg Hp Hl Hc Ho. destruct (read_ctx w w' Hg Hc Ho) as [H1 H2]. split; [|done..].
  unfold live_contributions. rewrite Hl, Hg. generalize (FileList w). intros fs.
  induction fs as [|f fs IH]; [done|]. rewrite !fmap_cons, !filter_cons.
  assert (contributes (ResetGen (w_gate w)) (file_ctx f w') = contributes (ResetGen (w_gate w)) (file_ctx f w)) as E
    by (unfold contributes; by rewrite Hc, Ho).
  destruct (contributes _ (file_ctx f w)).
  - rewrite !decide_True by (rewrite ?E; done). rewrite !fmap_cons. by rewrite IH, Hc.
  - by rewrite !decide_False by (rewrite ?E; auto).
Qed.

Lemma same_frame {A} fp (m : M A) w :
  Steps (Frame fp) m → cdisj [CGate; CPower; CFileList; FPower; FGen] fp = true → same w (m w).2.
Proof.
  intros Hm Hd. assert (∀ c, c ∈ [CGate; CPower; CFileList; FPower; FGen] → cmem c fp = false) as H.
  { intros c Hc. unfold cdisj in Hd. rewrite forallb_forall in Hd. apply negb_true_iff, Hd. by apply list_elem_of_In. }
  apply same_of; [apply (frame_at CGate fp m w Hm) | apply (frame_at CPower fp m w Hm) | apply (frame_at CFileList fp m w Hm)
    | apply (frame_at FPower fp m w Hm) | apply (frame_at FGen fp m w Hm)]; apply H; set_solver.
Qed.

Lemma same_settle w w' t : same w w' → (pending w t → pending w' t) ∧ (on_course w t → on_course w' t).
Proof.
  intros [Hl Hp Hc Hr Hf]. split; destruct t; try done; cbn [pending on_course]; by rewrite ?Hl, ?Hc, ?Hf.
Qed.
Lemma same_fresh w w' : same w w' → fresh w → fresh w'.
Proof. intros [Hl Hp Hc Hr Hf]. unfold fresh. by rewrite Hl, Hp. Qed.

Lemma in_insert {A} (l : list A) i x y z : l !! i = Some x → z ∈ <[i := y]> l ↔ z = y ∨ ∃ j, j ≠ i ∧ l !! j = Some z.
Proof.
  intros Hi. rewrite list_elem_of_lookup. pose proof (lookup_lt_Some _ _ _ Hi) as Hlt. split.
  - intros (j & [(<- & <- & _)|(Hn & Hj)]%list_lookup_insert_Some); [by left | right; by exists j].
  - intros [->|(j & Hn & Hj)]; [exists i; by apply list_lookup_insert_eq | exists j; by rewrite list_lookup_insert_ne].
Qed.

(** *** How a step keeps it *)
Section moves.
Context (ts : list Task) (i : nat) (t t' : Task) (w w' : World) (Hi : ts !! i = Some t).

Lemma settle_pending : pending w' t' → settled w' (<[i := t']> ts).
Proof. intros H. left. exists t'. split; [|done]. apply (in_insert _ _ _ _ _ Hi). by left. Qed.

Lemma settle_quiet : same w w' → (pending w t → pending w' t') → (on_course w t → on_course w' t') → collecting t' = collecting t →
  settled w ts → settled w' (<[i := t']> ts).
Proof.
  intros Hs H1 H2 H3 [(x & Hx & Hp)|[Hc Hf]].
  - apply list_elem_of_lookup in Hx as [j Hj]. destruct (decide (j = i)) as [->|Hn].
    + rewrite Hi in Hj. injection Hj as <-. by apply settle_pending, H1.
    + left. exists x. split; [apply (in_insert _ _ _ _ _ Hi); right; by exists j | by apply (same_settle w)].
  - right. split.
    + intros x [->|(j & _ & Hj)]%(in_insert _ _ _ _ _ Hi).
      * by apply H2, Hc, (list_elem_of_lookup_2 _ i).
      * by apply (same_settle w), Hc, (list_elem_of_lookup_2 _ j).
    + destruct Hf as [(x & Hx & Hf)|Hf]; [left | right; by apply (same_fresh w)].
      apply list_elem_of_lookup in Hx as [j Hj]. destruct (decide (j = i)) as [->|Hn].
      * exists t'. rewrite Hi in Hj. injection Hj as <-. split; [apply (in_insert _ _ _ _ _ Hi); by left | by rewrite H3].
      * exists x. split; [apply (in_insert _ _ _ _ _ Hi); right; by exists j | done].
Qed.

(** A step of the thread that has PowerLock: no other thread is collecting. *)
Lemma settle_power : one_power ts → has_power t = true → (∀ s, pending w s → pending w' s) →
  (pending w t ∨ on_course w t → on_course w' t' ∧ (collecting t' = true ∨ fresh w')) → settled w ts → settled w' (<[i := t']> ts).
Proof.
  intros Ho Hp Hm Ht Hs. assert (∀ j x, ts !! j = Some x → j ≠ i → collecting x = false) as Hoff.
  { intros j x Hj Hn. destruct (collecting x) eqn:E; [|done]. destruct Hn. apply (Ho j i x t Hj Hi); [by destruct x | done]. }
  assert (pending w t ∨ on_course w t → settled w' (<[i := t']> ts)) as Hgo.
  { intros H. destruct (Ht H) as [H1 H2]. right. split.
    - intros x [->|(j & Hn & Hj)]%(in_insert _ _ _ _ _ Hi); [done|]. specialize (Hoff j x Hj Hn). by destruct x.
    - destruct H2 as [H2|H2]; [left; exists t' | by right]. split; [apply (in_insert _ _ _ _ _ Hi); by left | done]. }
  destruct Hs as [(x & [j Hj]%list_elem_of_lookup & Hx)|[Hc _]]; [|apply Hgo; right; by apply Hc, (list_elem_of_lookup_2 _ i)].
  destruct (decide (j = i)) as [->|Hn]; [apply Hgo; left; rewrite Hi in Hj; by injection Hj as <-|].
  left. exists x. split; [apply (in_insert _ _ _ _ _ Hi); right; by exists j | by apply Hm].
Qed.
End moves.

Lemma some_pair {A B} (a a' : A) (b b' : B) : Some (a, b) = Some (a', b') → a = a' ∧ b = b'.
Proof. by intros [= -> ->]. Qed.

Lemma advance_power pf lf t w t' w' : advance pf lf t w = Some (t', w') → has_power t' = true → has_power t = true ∨ pf = true.
Proof.
  destruct t as [[|[] cs]| |[|g fs] p a|a|a|a|f|f|]; cbn [advance]; try (by left); try destruct pf; try (by right); try destruct lf;
    try destruct (PowerContributes _); (discriminate || intros [<- <-]%some_pair; discriminate).
Qed.

Lemma one_power_step ts i t t' w w' lf : ts !! i = Some t →
  advance (forallb (λ t, negb (has_power t)) ts) lf t w = Some (t', w') → one_power ts → one_power (<[i := t']> ts).
Proof.
  intros Hi Ha Ho.
  assert (∀ j x, j ≠ i → ts !! j = Some x → has_power x = true → has_power t' = true → False) as H1.
  { intros j x Hn Hj Hx Ht'. destruct (advance_power _ _ _ _ _ _ Ha Ht') as [Ht|Hpf].
    - by apply Hn, (Ho j i x t).
    - rewrite forallb_forall in Hpf. specialize (Hpf x). rewrite Hx in Hpf. discriminate Hpf.
      apply list_elem_of_In. by apply (list_elem_of_lookup_2 _ j). }
  intros j k x y [(<- & <- & _)|(Hj' & Hj)]%list_lookup_insert_Some [(<- & <- & _)|(Hk' & Hk)]%list_lookup_insert_Some Hx Hy.
  - done.
  - exfalso. by apply (H1 k y).
  - exfalso. by apply (H1 j x).
  - by apply (Ho j k x y).
Qed.

(** Removing a handle that does not contribute changes nothing. *)
Lemma live_filter w f (fs : list Z) : PowerContributes (fc_Power (file_ctx f w)) = false →
  filter (λ c, contributes (ResetGen (w_gate w)) c) ((λ g, file_ctx g w) <$> filter (λ g, g ≠ f) fs)
  = filter (λ c, contributes (ResetGen (w_gate w)) c) ((λ g, file_ctx g w) <$> fs).
Proof.
  intros Hf. induction fs as [|g fs IH]; [done|]. rewrite filter_cons, (fmap_cons _ g fs), (filter_cons _ (file_ctx g w)).
  destruct (decide (g ≠ f)) as [Hn|Hn].
  - rewrite fmap_cons, filter_cons, IH. done.
  - apply dec_stable in Hn as ->. rewrite IH. rewrite decide_False; [done|]. unfold contributes. rewrite Hf. by intros [].
Qed.

Lemma delist_same f w : PowerContributes (fc_Power (file_ctx f w)) = false → same w (file_delist f w).2.
Proof.
  intros Hf. pose proof (file_delist_frame f) as Hm.
  assert (∀ g, fc_Power (file_ctx g (file_delist f w).2) = fc_Power (file_ctx g w)) as H1 by exact (frame_at FPower _ _ w Hm eq_refl).
  assert (∀ g, OpenResetGen (file_ctx g (file_delist f w).2) = OpenResetGen (file_ctx g w)) as H2 by exact (frame_at FGen _ _ w Hm eq_refl).
  pose proof (frame_at CGate _ _ w Hm eq_refl) as H3. pose proof (frame_at CPower _ _ w Hm eq_refl) as H4. cbn [agree] in H3, H4.
  assert (FileList (file_delist f w).2 = FileList w ∨ FileList (file_delist f w).2 = filter (λ g, g ≠ f) (FileList w)) as Hl.
  { unfold file_delist. rewrite bind_st. change (TtGetFileContext f w) with (file_ctx f w, w). cbn [fst snd].
    destruct (OnDeviceList (file_ctx f w)); [by right | by left]. }
  set (w1 := (file_delist f w).2) in *. clearbody w1. destruct Hl as [Hl|Hl]; [by apply same_of|].
  destruct (same_of w (w1 <| FileList := FileList w |>)) as [S1 _ S3 S4 S5]; [done..|]. split; [|done|done|exact S4|exact S5].
  - rewrite <- S1. unfold live_contributions. rewrite Hl. f_equal.
    change (FileList (w1 <| FileList := FileList w |>)) with (FileList w).
    apply (live_filter w1). by rewrite H1.
Qed.

Lemma send_power_frame a : Steps (Frame [COs; CTrace]) (send_power a).
Proof. unfold send_power. frame_walk. Qed.

Lemma settled_step ts i t t' w w' lf : ts !! i = Some t →
  advance (forallb (λ t, negb (has_power t)) ts) lf t w = Some (t', w') → one_power ts → settled w ts → settled w' (<[i := t']> ts).
Proof.
  intros Hi Ha Ho Hs. destruct t as [[|c cs]| |[|g fs] p a|a|a|a|f|f|]; cbn [advance] in Ha.
  - destruct (forallb _ ts); [|done]. apply some_pair in Ha as [<- <-]. by apply (settle_pending _ _ _ _ _ Hi).
  - assert (t' = Changing cs) as ->. { destruct c; [..|destruct lf; [|done]]; by apply some_pair in Ha as [<- _]. }
    by apply (settle_pending _ _ _ _ _ Hi).
  - destruct lf; [|done]. apply some_pair in Ha as [<- <-]. assert (same w (acquire FileListLock w).2) as Hsame.
    { apply (same_frame [COs; CTrace]); [eauto with frames | done]. }
    apply (settle_power _ _ _ _ w _ Hi Ho); [done | intros x; by apply same_settle | | done].
    intros _. cbn [on_course]. split; [rewrite finish_entry; exact (read_list (acquire FileListLock w).2) | by left].
  - apply some_pair in Ha as [<- <-]. assert (same w (release FileListLock w).2) as Hsame.
    { apply (same_frame [COs; CTrace]); [eauto with frames | done]. }
    apply (settle_quiet _ _ _ _ _ _ Hi Hsame); [done | | done | done]. cbn [on_course finish_list]. by rewrite (sa_live _ _ Hsame).
  - cbv zeta in Ha. apply some_pair in Ha as [<- <-]. pose proof (finish_step w g a p) as Hf. cbv zeta in Hf.
    destruct (read_step w g a p).2 as [p'|]; (apply (settle_quiet _ _ _ _ _ _ Hi (same_refl w)); [done | | done | done]).
    + cbn [on_course finish_list]. by rewrite Hf.
    + cbn [on_course]. rewrite finish_entry. cbn [finish_list]. by rewrite Hf.
  - apply some_pair in Ha as [<- <-]. apply (settle_power _ _ _ _ w _ Hi Ho); [done | by intros [] | | done].
    intros [[]|Hc]. cbn [on_course] in Hc. split; [done|]. right.
    exact (f_equal (λ a, mkAgg true (agg_flags a) (agg_settings a)) Hc).
  - apply some_pair in Ha as [<- <-]. apply (settle_quiet _ _ _ _ w _ Hi); [|done..].
    apply (same_frame [COs; CTrace] (release PowerLock) w); [eauto with frames | done].
  - apply some_pair in Ha as [<- <-]. apply (settle_quiet _ _ _ _ w _ Hi); [|done..].
    apply (same_frame [COs; CTrace]); [apply send_power_frame | done].
  - destruct lf; [|done]. apply some_pair in Ha as [<- <-]. destruct (PowerContributes (fc_Power (file_ctx f w))) eqn:E.
    + apply (settle_pending _ _ _ _ _ Hi). cbn [pending]. rewrite (frame_at FPower _ _ w (file_delist_frame f) eq_refl f). exact E.
    + by apply (settle_quiet _ _ _ _ _ _ Hi (delist_same f w E)).
  - destruct (PowerContributes (fc_Power (file_ctx f w))) eqn:E; apply some_pair in Ha as [<- <-].
    + by apply (settle_pending _ _ _ _ _ Hi).
    + apply (settle_quiet _ _ _ _ _ _ Hi (same_refl w)); try done. cbn [pending]. by rewrite E.
  - done.
Qed.

(** ** Termination and progress *)
Definition enlists (t : Task) : nat :=
  match t with Changing cs => sum_list_with (λ c, match c with CEnlist _ => 1%nat | _ => 0%nat end) cs | _ => 0 end.
(** A bound on the length of the file list from now on, and on the steps a
    thread still takes when the list stays below it. *)
Definition list_room (c : Conf) : nat := length (FileList (cf_world c)) + sum_list_with enlists (cf_threads c).
Definition steps_left (n : nat) (t : Task) : nat :=
  match t with
  | Changing cs => length cs + 33 * n + 6
  | HasPower => 33 * n + 5
  | Reading [] _ _ => 4
  | Reading (_ :: fs) p _ => phase_left p + 33 * length fs + 4
  | Recording _ => 3 | Recorded _ => 2 | Sending _ => 1 | Done => 0
  | PoweringOff _ => 33 * n + 7
  | Closing _ => 33 * n + 8
  end%nat.
Definition steps_bound (c : Conf) : nat := sum_list_with (steps_left (list_room c)) (cf_threads c).

Lemma sum_insert {A} (g : A → nat) l i x y : l !! i = Some x →
  (sum_list_with g (<[i := y]> l) + g x = sum_list_with g l + g y)%nat.
Proof.
  intros Hi. rewrite insert_take_drop by (by eapply lookup_lt_Some). rewrite <- (take_drop_middle l i x Hi) at 3.
  rewrite !sum_list_with_app. cbn [sum_list_with]. lia.
Qed.
Lemma sum_le {A} (g h : A → nat) l : (∀ x, (g x ≤ h x)%nat) → (sum_list_with g l ≤ sum_list_with h l)%nat.
Proof. intros H. induction l as [|x l IH]; cbn [sum_list_with]; [lia|]. specialize (H x). lia. Qed.

Lemma forallb_false {A} (p : A → bool) l : forallb p l = false → ∃ i x, l !! i = Some x ∧ p x = false.
Proof.
  induction l as [|x l IH]; [done|]. cbn [forallb]. intros [H|H]%andb_false_iff; [by exists 0%nat, x|].
  destruct (IH H) as (i & y & Hi). by exists (S i), y.
Qed.
Lemma file_list_frame {A} fp (m : M A) w : Steps (Frame fp) m → cmem CFileList fp = false → FileList (m w).2 = FileList w.
Proof. apply (frame_at CFileList). Qed.

Lemma advance_left pf lf t w t' w' n : advance pf lf t w = Some (t', w') → (length (FileList w) ≤ n)%nat →
  (length (FileList w') + enlists t' ≤ length (FileList w) + enlists t)%nat ∧ (steps_left n t' < steps_left n t)%nat.
Proof.
  intros Ha Hn. destruct t as [[|c cs]| |[|g fs] p a|a|a|a|f|f|]; cbn [advance] in Ha.
  - destruct pf; [|done]. apply some_pair in Ha as [<- <-]. cbn. lia.
  - destruct c; [apply some_pair in Ha as [<- <-]..|]; [cbn; lia..|]. destruct lf; [|done].
    assert (FileList (run_change (CEnlist f) w).2 = FileList w ++ [f]) as E by reflexivity. apply some_pair in Ha as [<- <-].
    cbn [enlists steps_left sum_list_with length].
    match type of E with ?a = _ => match goal with |- context [FileList ?x] => change (FileList x) with a end end.
    rewrite E, length_app. cbn [length]. lia.
  - destruct lf; [|done]. apply some_pair in Ha as [<- <-]. split; [cbn; lia|]. change (FileList (acquire FileListLock w).2) with (FileList w).
    cbn [steps_left]. destruct (FileList w) as [|f fs]; cbn [phase_left length] in *; lia.
  - apply some_pair in Ha as [<- <-]. cbn. lia.
  - cbv zeta in Ha. apply some_pair in Ha as [<- <-]. pose proof (phase_down w g a p) as Hd. pose proof (phase_pos p).
    destruct (read_step w g a p).2 as [p'|]; (split; [cbn; lia|]); cbn [steps_left]; [specialize (Hd p' eq_refl); lia|].
    destruct fs; cbn [phase_left length]; lia.
  - apply some_pair in Ha as [<- <-]. cbn. lia.
  - apply some_pair in Ha as [<- <-]. cbn. lia.
  - assert (FileList w' = FileList w) as ->; [|apply some_pair in Ha as [<- _]; cbn; lia].
    apply some_pair in Ha as [_ <-]. apply (file_list_frame [COs; CTrace]); [apply send_power_frame | done].
  - destruct lf; [|done]. assert (length (FileList w') ≤ length (FileList w))%nat; [|apply some_pair in Ha as [<- _]; cbn; lia].
    apply some_pair in Ha as [_ <-]. unfold file_delist. rewrite bind_st. change (TtGetFileContext f w) with (file_ctx f w, w). cbn [fst snd].
    destruct (OnDeviceList (file_ctx f w)); [|done]. apply (length_filter _ (FileList w)).
  - destruct (PowerContributes _); apply some_pair in Ha as [<- <-]; cbn; lia.
  - done.
Qed.

Lemma step_bound c c' : conf_step c c' → (steps_bound c' < steps_bound c)%nat.
Proof.
  intros [i E]. unfold step_thread in E. destruct (cf_threads c !! i) as [t|] eqn:Hi; [|done]. cbn in E.
  match type of E with context [advance ?p ?l t ?w] => destruct (advance p l t w) as [[t' w']|] eqn:Ha; [|done] end.
  injection E as <-. unfold steps_bound. set (n := list_room c). set (ts := cf_threads c) in *.
  assert (length (FileList (cf_world c)) ≤ n)%nat as Hn by (unfold n, list_room; lia).
  destruct (advance_left _ _ _ _ _ _ n Ha Hn) as [H1 H2].
  set (c' := mkConf w' (<[i:=t']> ts) _). assert (list_room c' ≤ n)%nat as Hh.
  { unfold list_room, n, list_room. cbn [cf_world cf_threads c']. pose proof (sum_insert enlists ts i t t' Hi). fold ts. lia. }
  cbn [cf_threads]. apply (Nat.le_lt_trans _ (sum_list_with (steps_left n) (<[i:=t']> ts))).
  - apply sum_le. intros []; cbn [steps_left]; try case_match; lia.
  - pose proof (sum_insert (steps_left n) ts i t t' Hi). lia.
Qed.

Lemma bounded_steps n c c' : nsteps conf_step n c c' → (n + steps_bound c' ≤ steps_bound c)%nat.
Proof. induction 1 as [c|n c c1 c' H1 _ IH]; [lia|]. apply step_bound in H1. lia. Qed.

Definition finished (c : Conf) : Prop := ∀ t, t ∈ cf_threads c → t = Done.

(** Someone can always move: the holder of FileListLock, else the holder of
    PowerLock, else anyone. *)
Lemma can_step c : ¬ finished c → ∃ c', conf_step c c'.
Proof.
  intros Hf. set (ts := cf_threads c).
  assert (∀ i t, ts !! i = Some t → is_Some (advance (forallb (λ t, negb (has_power t)) ts) (forallb (λ t, negb (has_list t)) ts) t (cf_world c)) →
    ∃ c', conf_step c c') as Hgo.
  { intros i t Hi [r Hr]. eexists. exists i. unfold step_thread. fold ts. rewrite Hi. cbn. rewrite Hr. reflexivity. }
  destruct (forallb (λ t, negb (has_list t)) ts) eqn:El.
  - destruct (forallb (λ t, negb (has_power t)) ts) eqn:Ep.
    + destruct (forallb (λ t, match t with Done => true | _ => false end) ts) eqn:Ed.
      * exfalso. apply Hf. intros t Ht%list_elem_of_In. rewrite forallb_forall in Ed. specialize (Ed t Ht). by destruct t.
      * apply forallb_false in Ed as (i & t & Hi & Ht). apply (Hgo i t Hi).
        destruct t as [[|[] cs]| |[|g fs] p a|a|a|a|f|f|]; try done; cbn [advance]; by destruct (PowerContributes _).
    + apply forallb_false in Ep as (i & t & Hi & Hp). apply negb_false_iff in Hp. apply (Hgo i t Hi).
      destruct t as [| |[|g fs] p a|a|a|a|f|f|]; try done.
  - apply forallb_false in El as (i & t & Hi & Hp). apply negb_false_iff in Hp. apply (Hgo i t Hi).
    destruct t as [| |[|g fs] p a|a|a|a|f|f|]; done.
Qed.

(** ** The theorem *)

(** Entry points about to run: those that change a contribution aggregate
    afterwards.  The recorded aggregate is right, or one of them will make it
    so (on the first open nothing is recorded yet). *)
Definition started (c : Conf) : Prop :=
  (∀ t, t ∈ cf_threads c → (∃ cs, t = Changing cs) ∨ ∃ f, t = Closing f)
  ∧ (fresh (cf_world c) ∨ ∃ cs, Changing cs ∈ cf_threads c).

Lemma started_settled c : started c → one_power (cf_threads c) ∧ settled (cf_world c) (cf_threads c).
Proof.
  intros [Ht Hf]. split.
  - intros i j s t Hi _ Hs _. by destruct (Ht s (list_elem_of_lookup_2 _ _ _ Hi)) as [[? ->]|[? ->]].
  - destruct Hf as [Hf|[cs Hcs]]; [right | left; by exists (Changing cs)].
    split; [|by right]. intros t Hin. by destruct (Ht t Hin) as [[? ->]|[? ->]].
Qed.

Lemma conf_settled c c' : rtc conf_step c c' → one_power (cf_threads c) ∧ settled (cf_world c) (cf_threads c) →
  one_power (cf_threads c') ∧ settled (cf_world c') (cf_threads c').
Proof.
  induction 1 as [|c c1 c' [i E] _ IH]; [done|]. intros [Ho Hs]. apply IH. revert E. unfold step_thread.
  destruct (cf_threads c !! i) as [t|] eqn:Hi; [|done]. cbn.
  match goal with |- context [advance ?p ?l t ?w] => destruct (advance p l t w) as [[t' w']|] eqn:Ha; [|done] end.
  intros [= <-]. split; [by apply (one_power_step _ _ _ _ _ _ _ Hi Ha) | by apply (settled_step _ _ _ _ _ _ _ Hi Ha)].
Qed.

(** C7 Concurrent power aggregation.  Take any number of opens, closes,
    SET_POWER_STATE requests and ends of PrepareHardware, none of them started,
    in a state where the recorded aggregate is that of the contributions there
    are, or where one of them is an open, a request or a PrepareHardware (on the
    first start nothing is recorded yet).  However they are interleaved, between
    any two accesses to the fields of a contribution, and as long as no reset
    intervenes, they all end (after a bounded number of steps, and some thread
    can always move until all are done), and then the recorded aggregate is the
    one of the contributions that are there, although the fields are read
    without the locks under which they are stored. *)
Theorem power_settles c c' n :
  started c → nsteps conf_step n c c' →
  (n ≤ steps_bound c)%nat
  ∧ (¬ finished c' → ∃ c'', conf_step c' c'')
  ∧ (finished c' →
     let a := aggregate (live_contributions (cf_world c')) in
     w_power (cf_world c') = mkAgg true (agg_flags a) (agg_settings a)).
Proof.
  intros Hs Hn. split; [pose proof (bounded_steps _ _ _ Hn); lia|]. split; [apply can_step|].
  intros Hd. destruct (conf_settled c c' (rtc_nsteps_2 _ _ _ Hn) (started_settled c Hs)) as [_ [(t & Ht & Hp)|[_ [(t & Ht & Hp)|Hf]]]].
  - by rewrite (Hd t Ht) in Hp.
  - by rewrite (Hd t Ht) in Hp.
  - exact Hf.
Qed.
End race.

(** ** A run

    Two handles are open with the legacy contribution (everything on but one
    flag); both turn everything off.  The first one aggregates while the other
    is still on, and is overtaken before it sends. *)
Definition race0 : Conf (P := sim) :=
  mkConf run2 [Changing (set_power_changes 1 (TT_POWER_VALIDITY 15 0) 0 (replicate 14 0));
               Changing (set_power_changes 2 (TT_POWER_VALIDITY 15 0) 0 (replicate 14 0))] [].
Definition overtaken : list nat := replicate 34 0%nat ++ replicate 35 1%nat ++ [0%nat].

Lemma race0_started : started race0.
Proof.
  split; [|right; eexists; left].
  intros t Ht. left. unfold race0 in Ht. cbn [cf_threads] in Ht.
  apply list_elem_of_In in Ht. destruct Ht as [<-|[<-|[]]]; by eexists.
Qed.

Definition all_done {P : Platform} (c : Conf) : bool := forallb (λ t, match t with Done => true | _ => false end) (cf_threads c).
Lemma all_done_finished {P : Platform} c : all_done c = true → finished c.
Proof. unfold all_done. rewrite forallb_forall. intros H t Ht%list_elem_of_In. specialize (H t Ht). by destruct t. Qed.

Lemma overtaken_run : ∃ c, nsteps conf_step 70 race0 c ∧ finished c
  ∧ PowerAggFlags (w_power (cf_world c)) = 0 ∧ (agg_flags <$> cf_sent c) = [0x7FFE; 0].
Proof.
  assert (from_option (λ c, all_done c && (PowerAggFlags (w_power (cf_world c)) =? 0)
    && bool_decide ((agg_flags <$> cf_sent c) = [0x7FFE; 0])) false (schedule overtaken race0) = true) as H by (vm_compute; reflexivity).
  destruct (schedule overtaken race0) as [c|] eqn:E; [|discriminate H]. cbn [from_option] in H.
  apply andb_true_iff in H as [[H1 H2%Z.eqb_eq]%andb_true_iff H3%bool_decide_eq_true].
  exists c. split; [exact (schedule_steps overtaken race0 c E)|]. split; [exact (all_done_finished c H1)|]. split; assumption.
Qed.

(** The firmware may be left with an aggregate that is not the recorded one:
    the message is sent after PowerLock was dropped. *)
Theorem last_message_may_be_stale : ∃ (c c' : Conf (P := sim)) a rest,
  started c ∧ rtc conf_step c c' ∧ finished c' ∧ cf_sent c' = a :: rest
  ∧ agg_flags a ≠ PowerAggFlags (w_power (cf_world c')).
Proof.
  destruct overtaken_run as (c & Hn & Hf & H1 & H2). destruct (cf_sent c) as [|a rest] eqn:E; [discriminate H2|].
  exists race0, c, a, rest. split; [exact race0_started|]. split; [by eapply rtc_nsteps_2|]. split; [done|]. split; [done|].
  rewrite H1. injection H2 as -> _. discriminate.
Qed.

Lemma power_settles_witness : ∃ c : Conf (P := sim), nsteps conf_step 70 race0 c
  ∧ PowerAggFlags (w_power (cf_world c)) = agg_flags (aggregate (live_contributions (cf_world c))).
Proof.
  destruct overtaken_run as (c & Hn & Hf & _). exists c. split; [exact Hn|].
  destruct (power_settles race0 c 70 race0_started Hn) as (_ & _ & H). specialize (H Hf). cbv zeta in H.
  exact (f_equal PowerAggFlags H).
Defined.
